(* ===== verification/_CoqProject ===== *)
-Q . S2P
Prelude.v
Triples.v
Machine.v
Utils.v
Keyboard.v
Events.v
Timer.v
Mouse.v
Xpm.v
IndexedXpm.v
SpritesGame.v
SpritesText.v
SpritesMenu.v
SpritesSpare.v
Sprites.v
Graphics.v
Enemies.v
Decimal.v
Text.v
Score.v
HighScores.v
Ship.v
Collision.v
Menu.v
System.v
GameState.v
Logs.v
Records.v
Main.v
Screens.v
Ending.v
Resources.v
Session.v
LabState.v
Lab2.v
Lab3.v
Lab4.v
Lab5Pixmaps.v
Lab5Graphics.v
Lab5.v
LabResources.v
