(* ===== verification/Prelude.v ===== *)
(** * Space Invaders for Minix: a verification development

    The program is a game for the Minix 3 of a computer laboratory course.  It programs the PC's
    hardware through kernel calls (the i8042 keyboard controller, the i8254 timer, a VBE linear
    frame buffer) and runs an event loop over interrupt messages: proj_main_loop initialises the
    devices, menu_handler waits for messages and shows the menu, a selected start runs the game
    loop game_state until a loss, a win or ESC, and the scores are kept in a CSV file.  Beside the
    game (src/proj/src) the repository holds the course's laboratories (src/lab2 to src/lab5): test
    programs for copies of the same drivers, which share the shape of their event loop.

    ** The files of the development and what they model (under src/proj/src)

    - [Prelude]: this file.  C integers as [Z] with their wraps ([u8], [u16], [u32], [i16],
      [i32]), the state monad [M] with undefined behaviour and exhausted fuel as outcomes, C's
      loops ([for_rc], [for_do], [each_rc], [each_do]), total and partial correctness ([wp],
      [wlp]) with their rules, tactics.  [Triples]: frame rules ([triple], [keeps], proved along
      the code by the hints of a database) and total correctness with fuel ([settles]).
    - [Machine]: everything outside the repository that the program calls, as type classes over
      an abstract world: ports ([PortIO]), interrupt subscriptions ([Interrupts]), messages
      ([Receive]), the BIOS ([Video], [VideoLaws]), random numbers ([Random], [RandomLaws]); the
      message macros of .minix-src/include; and [Sim], a concrete machine for witnesses.
    - [Utils], [Timer]: controllers/timer (utils.c, timer.c).  [Keyboard]: controllers/keyboard.
      [Mouse]: controllers/mouse, a driver that nothing in the program calls.
    - [Xpm], [SpritesGame], [SpritesText], [SpritesMenu], [SpritesSpare], [Sprites]: src/xpm.  Every
      pixmap, row by row as in the source, the XPM format as a decidable predicate, and the
      documented law of the loader in the output format of the game, XPM_8_8_8_8
      ([XpmLoaderLaws]).  [IndexedXpm]: the older format in indexed colours, which lab5 loads in
      the output format XPM_INDEXED, with the meaning of each pixel ([IndexedLoaderLaws]).
    - [Graphics]: controllers/graphics/graphic.c.  Buffers are lists of bytes, and every access
      is checked: an index outside is the outcome [Undef].
    - [Enemies]: game/enemies/enemies.c and enemies_moving.  [Ship]: game/ship/ship.c.
      [Collision]: the four checks of game/game_state.c.
    - [Decimal]: C's decimal conversions, as score.c uses them.  [Text], [Score], [HighScores]:
      the three parts of game/scores/score.c (the text on the screen; the score of a game; the
      table, its file and its screen).
    - [Menu]: game/menu/menu.c.
    - [System]: the globals of all components as one record, and the combinators that run a
      component's operation on its part.  [GameState]: the loop of game/game_state.c.  [Main]:
      main.c and score_state, the composition of everything.
    - [Records], [Screens], [Session], [Ending], [Resources]: no new code, but the theorems about
      the whole program.  [Records]: what a game does to the table and the file of the scores, and
      how it ends.  [Screens]: the pages of the score screen, pixel by pixel.  [Session]: the
      abstract machine [Session.Spec.session], which knows keys, menu states, pages, endings of
      games and records, and the refinement of it by main.c.  [Ending]: termination.
      [Logs]: the calls that take and give back, logged on any machine, and what it means to
      account for them; [Resources]: the program does.
    - [Events]: the loop over driver_receive that the laboratories share, as a function with fuel
      ([message_loop]) and as a relation over the messages it handles ([loop_runs]), and the class
      [HasWorld] of states that contain the machine; and the assumption on the timer's interrupts
      under which the game and the laboratories end ([due]).  [LabState]: the globals of lab2, lab3 and
      lab5, their calls of the drivers [Timer] and [Keyboard], and what they print.
    - [Lab2]: lab2/lab2.c, the timer.  [Lab3]: lab3/lab3.c, the keyboard by interrupts, by polling
      and with a time limit.  [Lab4]: lab4/lab4.c, the mouse's packets.  [Lab5Graphics]:
      lab5/graphic.c, drawing without a back buffer.  [Lab5Pixmaps]: lab5/pixmap.h.  [Lab5]:
      lab5/lab5.c, the video tests.  [LabResources]: no new code; the tests give back what they
      took.

    An operation of the code is a definition of the same name.  A part of a C function that has
    its own definition (a loop, a branch) follows the function's order, and the C globals it uses
    are its state or its arguments; its local variables, when a loop changes them, are a second part of
    the state ([with_locals]).  printf is left out: it writes to a log the program never reads.  The
    laboratories' output through the framework (kbd_print_scancode, mouse_print_packet and
    timer_print_elapsed_time) is what they are for, and is kept as a list of the calls.

    ** What the theorems show

    - Machine and drivers: the reads, writes and retries of each driver refine the protocol of
      its device, stated as inductive relations over the answers of the device (module [Spec] of
      each file); the timer is programmed with the right bytes; the mouse's packets are decoded
      and its retries bounded.
    - Drawing: rectangles, pixmaps, texts and numbers are exactly the pixels they paint and
      nothing else ([paints], [draws]); no drawing function can write outside the buffer; which
      drawings fail; the shown screen is the back buffer; the main menu and the score screens, pixel
      by pixel ([menu_main_screen], [score_screen_shows]).
    - Game rules: the fleet of aliens refines a rigid grid ([grid_step]) that stays inside the
      margins and always comes down; bullets rise at their speed and leave the screen; each
      collision check deactivates exactly the bullets and the alien that touch and wears each
      shield by its own hits; the ship stays on the screen under any keys.
    - Scores: the score of any sequence of shots and ticks; sorting; the round trip through the
      CSV file; loading any file at all; a win is saved once.
    - The loops: one timer interrupt is one frame ([frame_result]); a game ends with the reason
      the menu shows ([game_result]) and always ends if the timer ticks again and again; the
      menu's transitions.
    - The whole program: it keeps the invariant [sys_ok], so that it reaches no undefined
      behaviour for any messages, any devices and any file whose numbers fit in an int; it returns
      if ESC is pressed at last ([program_ends]); every run that returns is a session of the
      abstract machine ([program_refines]); the records of the games that the run won ([games_won],
      read off the messages of its loop), and no others, are in the file afterwards and are what
      the next start shows ([scores_persist]); and the graphics
      mode and the interrupt subscriptions are given back ([resources_given_back]).
    - The laboratories: [message_loop_iff] makes each of them equal to a relation over the messages
      that are for it, so that those of lab2, of the mouse and
      of the keyboard tests are equivalences (a run that returns is a run of the
      specification, and for each run of the specification some fuel is enough): how many timer
      interrupts timer_test_int takes, which bytes the keyboard tests print and when these are the
      documented calls, that the byte-wise mouse test is the parser [Lab4.Spec.frames] of the whole
      stream, that the timed test stops exactly at ESC or at the end of its wait ([Lab3.Spec.waits]),
      that they end when interrupts keep coming; that drawing directly equals drawing in a
      back buffer and swapping ([simulates]), for pixmaps whenever the loads in the two formats give
      the same colours; that the patterns, rectangles and pixmaps of the
      video tests are those that are asked for, a pixmap in the colours that its lines declare, over
      the memory that the test's own set_frame_buffer was given;
      and that every test ends its subscriptions and the graphics mode ([lab_tests_give_back]).

    ** Invariants

    [gfx_ok] (two buffers of one screen), [grid_ok] with [represents] (the fleet), [ship_ok] (the
    ship, its bullets and the shields), [board_ok] (the table of scores), [menu_ok]; [sys_ok] is
    their conjunction on the 1152 by 864 screen of mode 0x14c, and [playing] adds the formation.
    [held] says that the table and the file hold the same records, and [sees] relates a state of
    the program to one of the abstract machine.

    ** Bounds and fuel

    Loops with a static bound are structural, over a count or over the list of the array's
    entries.  clear_back_buf takes one step per byte of the buffer and load_loop one per
    character of the file, and their fuel is that number; the loops of clear_area count in
    uint16_t, 65537 steps are enough for each when it ends, and a theorem says when it does not.  The loops that
    wait for messages (menu_handler, game_state, score_state) and the mouse's retry loop take the
    fuel as an argument: safety is proved for every fuel.  Termination, for some fuel, is proved of
    a game under the assumption that only finitely many messages come before each next interrupt
    of the timer ([due] of [Events]), 80000 messages being enough when each of them brings that
    interrupt; and of the whole program, for all fuel from some amount on, under the assumption that
    there is no endless sequence of messages without ESC ([Ending.escapes]).  A theorem stated with
    [wlp] is about every run that returns and about the absence of undefined behaviour; these two
    say that runs do return.  The laboratories' loops
    wait as long as messages that are not for them come; their theorems say that some fuel is
    enough whenever the awaited interrupts keep coming ([keeps_coming]).

    Signed overflow wraps in the model; the invariants keep positions, timers and counts in
    ranges where no wrap happens, except the two counters of ticks, which take 400 days to wrap.

    ** What is not modelled

    The kernel, the BIOS, LCF and the C library's files and random numbers are classes or small
    definitions of their documented behaviour.  xpm_load's memory is not tracked (the program
    never frees it).  fflush and fclose always succeed.  A number in the file that no int holds is
    undefined behaviour of sscanf, and [Undef] here.  A fresh buffer has any contents.  The main()
    functions only hand over to LCF.  The stubs of lab4 and lab5 (under construction in the code)
    are their return values.  Of the vendored headers of .minix-src, [Prelude], [Machine], [Timer] and
    [Mouse] model the types and macros that the program uses; the rest, declarations of the
    operating system and of libraries whose code is not in the repository, is left out.  Where a
    laboratory's file is a copy of the game's (timer.c, utils.c, kb_controller.c, kb_interrupts.c,
    m_interrupts.c), it is modelled once. *)

From Stdlib Require Export ZArith Lia.
From Stdlib Require Ascii String.
From stdpp Require Export base tactics option list numbers.

#[global] Open Scope Z_scope.

(** ** Machine integers

    A C integer of width w is a [Z]; every operation that the source performs at
    that width goes through the wrap below.  Signed integers wrap in two's
    complement (the i386 target), and the theorems that matter also show that
    no wrap happens on the states the game reaches. *)

Definition u8 (z : Z) : Z := z mod 2 ^ 8.
Definition u16 (z : Z) : Z := z mod 2 ^ 16.
Definition u32 (z : Z) : Z := z mod 2 ^ 32.
Definition i16 (z : Z) : Z := (z + 2 ^ 15) mod 2 ^ 16 - 2 ^ 15.
Definition i32 (z : Z) : Z := (z + 2 ^ 31) mod 2 ^ 32 - 2 ^ 31.

(** C's [BIT(n)] of lcom/utils.h, [1 << n] on a 32-bit [int]. *)
Definition BIT (n : Z) : Z := i32 (Z.shiftl 1 n).

(** Signed division truncates towards zero. *)
Definition idiv (a b : Z) : Z := i32 (Z.quot a b).

Lemma u8_small z : 0 <= z < 256 → u8 z = z.
Proof. intros. unfold u8. by apply Z.mod_small. Qed.
Lemma u16_small z : 0 <= z < 65536 → u16 z = z.
Proof. intros. unfold u16. by apply Z.mod_small. Qed.
Lemma u32_small z : 0 <= z < 4294967296 → u32 z = z.
Proof. intros. unfold u32. by apply Z.mod_small. Qed.
Lemma i16_small z : -32768 <= z < 32768 → i16 z = z.
Proof. intros. unfold i16. rewrite Z.mod_small; lia. Qed.
Lemma i32_small z : -2147483648 <= z < 2147483648 → i32 z = z.
Proof. intros. unfold i32. rewrite Z.mod_small; lia. Qed.

Lemma u8_range z : 0 <= u8 z < 256.
Proof. unfold u8. pose proof (Z.mod_pos_bound z (2 ^ 8)). lia. Qed.
Lemma u16_range z : 0 <= u16 z < 65536.
Proof. unfold u16. pose proof (Z.mod_pos_bound z (2 ^ 16)). lia. Qed.
Lemma u32_range z : 0 <= u32 z < 4294967296.
Proof. unfold u32. pose proof (Z.mod_pos_bound z (2 ^ 32)). lia. Qed.
Lemma i32_range z : -2147483648 <= i32 z < 2147483648.
Proof. unfold i32. pose proof (Z.mod_pos_bound (z + 2 ^ 31) (2 ^ 32)). lia. Qed.

Lemma BIT_pow n : 0 <= n < 31 → BIT n = 2 ^ n.
Proof.
  intros. unfold BIT. rewrite Z.shiftl_1_l. apply i32_small.
  pose proof (Z.pow_lt_mono_r 2 n 31). pose proof (Z.pow_pos_nonneg 2 n). lia.
Qed.

Lemma land_nonneg_lt a b n : 0 <= n → 0 <= b < 2 ^ n → 0 <= Z.land a b < 2 ^ n.
Proof.
  intros Hn Hb. replace (Z.land a b) with (Z.land a b mod 2 ^ n).
  { apply Z.mod_pos_bound. apply Z.pow_pos_nonneg; lia. }
  rewrite <- Z.land_ones, <- Z.land_assoc, Z.land_ones by lia. by rewrite (Z.mod_small b).
Qed.

Lemma lor_lt a b n : 0 <= n → 0 <= a < 2 ^ n → 0 <= b < 2 ^ n → 0 <= Z.lor a b < 2 ^ n.
Proof.
  intros Hn Ha Hb. replace (Z.lor a b) with (Z.lor a b mod 2 ^ n).
  { apply Z.mod_pos_bound. apply Z.pow_pos_nonneg; lia. }
  rewrite <- Z.land_ones, Z.land_lor_distr_l, !Z.land_ones, !Z.mod_small by lia. done.
Qed.

Create Rewrite HintDb cint.
#[export] Hint Rewrite u8_small u16_small u32_small i16_small i32_small
  using lia : cint.

(** Removes the wraps whose argument [lia] can bound from the context. *)
Ltac cint := autorewrite with cint in *.

(** [x & BIT(n)] as a C condition. *)
Definition has_bit (x n : Z) : bool := negb (Z.land x (BIT n) =? 0).

Lemma has_bit_testbit x n : 0 <= n < 31 → has_bit x n = Z.testbit x n.
Proof.
  intros Hn. unfold has_bit. rewrite BIT_pow by done.
  destruct (Z.testbit x n) eqn:E.
  - apply negb_true_iff, Z.eqb_neq. intros H.
    assert (Z.testbit (Z.land x (2 ^ n)) n = true) as Ht
      by (by rewrite Z.land_spec, E, Z.pow2_bits_true by lia).
    by rewrite H, Z.bits_0 in Ht.
  - apply negb_false_iff, Z.eqb_eq. apply Z.bits_inj'. intros m Hm.
    rewrite Z.land_spec, Z.bits_0.
    destruct (decide (m = n)) as [->|Hne]; [by rewrite E|].
    rewrite Z.pow2_bits_false by lia. by rewrite andb_false_r.
Qed.

(** A boolean fact about every value of a byte, by evaluation. *)
Lemma forall_below (f : Z → bool) n :
  forallb f (seqZ 0 n) = true → ∀ a, 0 <= a < n → f a = true.
Proof.
  rewrite forallb_forall. intros Hf a Ha. apply Hf, list_elem_of_In, elem_of_seqZ. lia.
Qed.

Lemma forall_byte (f : Z → bool) :
  forallb f (seqZ 0 256) = true → ∀ a, 0 <= a < 256 → f a = true.
Proof. apply forall_below. Qed.

(** Proves a decidable goal about the byte [b] by running through its 256 values. *)
Ltac byte_decide b :=
  match goal with Hb : 0 <= b < 256 |- ?P =>
    refine (bool_decide_unpack P _); apply Is_true_true_2;
    match goal with |- ?lhs = true =>
      let f := eval pattern b in lhs in
      match f with ?g _ => refine (forall_byte g _ b Hb); vm_compute; reflexivity end
    end
  end.

(** Proves [a = v] for closed terms by evaluating [a] once, at [Qed]. *)
Ltac by_vm := match goal with |- _ = ?v => vm_cast_no_check (eq_refl v) end.

(** ** Outcomes and the state monad

    A run of a C function ends in a value and a new state, in undefined
    behaviour (an access outside an object, a null dereference), or the fuel
    given to one of its unbounded loops does not reach the end of the run. *)

Inductive outcome (A : Type) : Type :=
| Done (a : A)
| Undef
| OutOfFuel.
Arguments Done {_} _.
Arguments Undef {_}.
Arguments OutOfFuel {_}.

Lemma Done_inj {A B} (a a' : A) (b b' : B) : Done (a, b) = Done (a', b') → a = a' ∧ b = b'.
Proof. by intros [= -> ->]. Qed.

Definition M (S A : Type) : Type := S → outcome (A * S).

#[export] Instance M_ret {S} : MRet (M S) := λ A a s, Done (a, s).
#[export] Instance M_bind {S} : MBind (M S) := λ A B f m s,
  match m s with
  | Done (a, s') => f a s'
  | Undef => Undef
  | OutOfFuel => OutOfFuel
  end.

Definition undef {S A} : M S A := λ _, Undef.
Definition no_fuel {S A} : M S A := λ _, OutOfFuel.
Definition gets {S A} (f : S → A) : M S A := λ s, Done (f s, s).
Definition modify {S} (f : S → S) : M S unit := λ s, Done (tt, f s).
(** An external call on the state, given as a function. *)
Definition call {S A} (f : S → A * S) : M S A := λ s, Done (f s).
Definition of_option {S A} (o : option A) : M S A :=
  match o with Some a => mret a | None => undef end.
Definition skip {S} : M S unit := mret tt.

(** Runs a computation on a part of the state. *)
Definition zoom {S T A} (get : S → T) (put : T → S → S) (m : M T A) : M S A := λ s,
  match m (get s) with
  | Done (a, t) => Done (a, put t s)
  | Undef => Undef
  | OutOfFuel => OutOfFuel
  end.

(** [if (m) return 1; k] and [if (m != 0) return 1; k]. *)
Definition check {S} (m k : M S Z) : M S Z :=
  rc ← m; if rc =? 0 then k else mret 1.
Notation "m ;? k" := (check m k) (at level 100, k at level 200, right associativity).

(** [for (i = from; n more times; i++) if (body(i)) return 1;], then 0. *)
Fixpoint for_rc {S} (n : nat) (i : Z) (body : Z → M S Z) : M S Z :=
  match n with
  | O => mret 0
  | S n => body i ;? for_rc n (i + 1) body
  end.

(** [for (i = from; n more times; i++) body(i);] *)
Fixpoint for_do {S} (n : nat) (i : Z) (body : Z → M S unit) : M S unit :=
  match n with
  | O => mret tt
  | S n => body i;; for_do n (i + 1) body
  end.

(** The same loops over the elements of an array, for a bound equal to its length:
    [for (i = 0; i < N; i++) if (body(&a[i])) return 1;], then 0. *)
Fixpoint each_rc {S A} (l : list A) (body : A → M S Z) : M S Z :=
  match l with
  | [] => mret 0
  | a :: l => body a ;? each_rc l body
  end.

Fixpoint each_do {S A} (l : list A) (body : A → M S unit) : M S unit :=
  match l with
  | [] => mret tt
  | a :: l => body a;; each_do l body
  end.

(** ** Total and partial correctness

    [wp m Q s]: from [s] the run ends, reaches no undefined behaviour, and its
    result satisfies [Q].  [wlp m Q s]: the same when the fuel suffices; undefined
    behaviour is excluded in both. *)

Definition wp {S A} (m : M S A) (Q : A → S → Prop) (s : S) : Prop :=
  match m s with Done (a, s') => Q a s' | _ => False end.

Definition wlp {S A} (m : M S A) (Q : A → S → Prop) (s : S) : Prop :=
  match m s with Done (a, s') => Q a s' | Undef => False | OutOfFuel => True end.

Section wp_rules.
Context {S : Type}.

Lemma wp_ret {A} (a : A) Q (s : S) : Q a s → wp (mret a) Q s.
Proof. done. Qed.

Lemma wp_bind {A B} (m : M S A) (f : A → M S B) Q s :
  wp m (λ a, wp (f a) Q) s → wp (m ≫= f) Q s.
Proof. unfold wp, mbind, M_bind. by destruct (m s) as [[]| |]. Qed.

Lemma wp_bind_inv {A B} (m : M S A) (f : A → M S B) Q s :
  wp (m ≫= f) Q s → wp m (λ a, wp (f a) Q) s.
Proof. unfold wp, mbind, M_bind. by destruct (m s) as [[]| |]. Qed.

Lemma wp_mono {A} (m : M S A) (P Q : A → S → Prop) s :
  (∀ a s', P a s' → Q a s') → wp m P s → wp m Q s.
Proof. intros HPQ. unfold wp. destruct (m s) as [[]| |]; auto. Qed.

Lemma wp_ext {A} (m m' : M S A) Q s : m s = m' s → wp m' Q s → wp m Q s.
Proof. unfold wp. by intros ->. Qed.

Lemma wp_wlp {A} (m : M S A) Q s : wp m Q s → wlp m Q s.
Proof. unfold wp, wlp. by destruct (m s) as [[]| |]. Qed.

Lemma wp_done {A} (m : M S A) Q s :
  wp m Q s ↔ ∃ a s', m s = Done (a, s') ∧ Q a s'.
Proof.
  unfold wp. split.
  - destruct (m s) as [[a s']| |]; [|done..]. by exists a, s'.
  - by intros (a & s' & -> & ?).
Qed.

Lemma wp_run {A B} (m : M S A) (k : A → M S B) Q s a s' :
  m s = Done (a, s') → wp (k a) Q s' → wp (m ≫= k) Q s.
Proof. intros E Hk. apply wp_bind. unfold wp at 1. by rewrite E. Qed.

Lemma wp_gets {A} (f : S → A) Q s : Q (f s) s → wp (gets f) Q s.
Proof. done. Qed.

Lemma wp_modify (f : S → S) Q s : Q tt (f s) → wp (modify f) Q s.
Proof. done. Qed.

Lemma wp_check (m k : M S Z) Q s :
  wp m (λ rc s', if rc =? 0 then wp k Q s' else Q 1 s') s → wp (m ;? k) Q s.
Proof.
  intros H. apply wp_bind. eapply wp_mono, H.
  intros rc s'. simpl. by destruct (rc =? 0).
Qed.

Lemma wlp_bind {A B} (m : M S A) (f : A → M S B) Q s :
  wlp m (λ a, wlp (f a) Q) s → wlp (m ≫= f) Q s.
Proof. unfold wlp, mbind, M_bind. by destruct (m s) as [[]| |]. Qed.

Lemma wlp_mono {A} (m : M S A) (P Q : A → S → Prop) s :
  (∀ a s', P a s' → Q a s') → wlp m P s → wlp m Q s.
Proof. intros HPQ. unfold wlp. destruct (m s) as [[]| |]; auto. Qed.

Lemma wp_zoom {T A} (get : S → T) (put : T → S → S) (m : M T A) Q s :
  wp m (λ a t, Q a (put t s)) (get s) → wp (zoom get put m) Q s.
Proof. unfold wp, zoom. by destruct (m (get s)) as [[]| |]. Qed.

Lemma wlp_zoom {T A} (get : S → T) (put : T → S → S) (m : M T A) Q s :
  wlp m (λ a t, Q a (put t s)) (get s) → wlp (zoom get put m) Q s.
Proof. unfold wlp, zoom. by destruct (m (get s)) as [[]| |]. Qed.

Lemma wlp_check (m k : M S Z) Q s :
  wlp m (λ rc s', if rc =? 0 then wlp k Q s' else Q 1 s') s → wlp (m ;? k) Q s.
Proof.
  intros H. apply wlp_bind. eapply wlp_mono, H.
  intros rc s'. simpl. by destruct (rc =? 0).
Qed.

(** A loop whose body never fails keeps its invariant up to the last index. *)
Lemma wp_for_do n i (body : Z → M S unit) (I : Z → S → Prop) s :
  (∀ j s, i <= j < i + Z.of_nat n → I j s → wp (body j) (λ _, I (j + 1)) s) →
  I i s → wp (for_do n i body) (λ _, I (i + Z.of_nat n)) s.
Proof.
  revert i s. induction n as [|n IH]; intros i s Hbody HI; simpl.
  { apply wp_ret. by rewrite Z.add_0_r. }
  apply wp_bind. eapply wp_mono; [|apply Hbody; [lia|done]].
  intros [] s' HI'. replace (i + Z.of_nat (Datatypes.S n)) with (i + 1 + Z.of_nat n) by lia.
  apply IH; [|done]. intros j s'' ?. apply Hbody. lia.
Qed.

(** Bodies that agree on the indices make the same loop. *)
Lemma for_rc_ext n (body body' : Z → M S Z) : ∀ i,
  (∀ j, i <= j < i + Z.of_nat n → ∀ s, body j s = body' j s) →
  ∀ s, for_rc n i body s = for_rc n i body' s.
Proof.
  induction n as [|n IH]; intros i Hb s; [done|]. cbn [for_rc]. unfold check, mbind, M_bind.
  rewrite Hb by lia. destruct (body' i s) as [[rc s']| |]; [|done..].
  destruct (rc =? 0); [|done]. apply IH. intros j Hj. apply Hb. lia.
Qed.

(** A loop left at the first failing index: either every index passed, or some
    index [j] reached in its invariant failed. *)
Lemma wp_for_rc n i (body : Z → M S Z) (I E : Z → S → Prop) s :
  (∀ j s, i <= j < i + Z.of_nat n → I j s →
     wp (body j) (λ rc s', if rc =? 0 then I (j + 1) s' else E j s') s) →
  I i s →
  wp (for_rc n i body)
    (λ rc s', rc = 0 ∧ I (i + Z.of_nat n) s' ∨
              rc = 1 ∧ ∃ j, i <= j < i + Z.of_nat n ∧ E j s') s.
Proof.
  revert i s. induction n as [|n IH]; intros i s Hbody HI; simpl.
  { apply wp_ret. left. by rewrite Z.add_0_r. }
  apply wp_check. eapply wp_mono; [|apply Hbody; [lia|done]].
  intros rc s'. simpl. destruct (rc =? 0).
  - intros HI'. eapply wp_mono; [|apply IH; [|done]; intros j s'' ? ?; apply Hbody; [lia|done]].
    intros rc' s2. replace (i + Z.of_nat (Datatypes.S n)) with (i + 1 + Z.of_nat n) by lia.
    intros [?|(? & j & ? & ?)]; [by left|right]. split; [done|]. exists j. split; [lia|done].
  - intros HE. right. split; [done|]. exists i. split; [lia|done].
Qed.

(** Loops over an array keep an invariant of the state. *)
Lemma wp_each_do {A} (l : list A) (body : A → M S unit) (I : S → Prop) s :
  (∀ a s, a ∈ l → I s → wp (body a) (λ _, I) s) → I s → wp (each_do l body) (λ _, I) s.
Proof.
  revert s. induction l as [|a l IH]; intros s Hbody HI; simpl; [by apply wp_ret|].
  apply wp_bind. eapply wp_mono; [|apply Hbody; [left|done]].
  intros [] s' HI'. apply IH; [|done]. intros. apply Hbody; [by right|done].
Qed.

(** A loop of bodies whose code is decided by the element alone: it returns 0 when every
    element passes and 1 when some element does not. *)
Lemma wp_each_rc {A} (l : list A) (body : A → M S Z) (ok : A → bool) (I : S → Prop) s :
  (∀ a s, a ∈ l → I s → wp (body a) (λ rc s', (rc =? 0) = ok a ∧ I s') s) → I s →
  wp (each_rc l body) (λ rc s', rc = (if forallb ok l then 0 else 1) ∧ I s') s.
Proof.
  revert s. induction l as [|a l IH]; intros s Hbody HI; simpl; [by apply wp_ret|].
  apply wp_check. eapply wp_mono; [|apply Hbody; [left|done]].
  intros rc s' [-> HI']. destruct (ok a); simpl; [|done].
  apply IH; [|done]. intros. apply Hbody; [by right|done].
Qed.
End wp_rules.

(** Running one step of a sequence: the equations that evaluate a computation. *)
Section run_equations.
Context {S : Type}.

Lemma run_ret {A B} (a : A) (k : A → M S B) s : (mret a ≫= k) s = k a s.
Proof. done. Qed.
Lemma run_some {A B} (a : A) (k : A → M S B) s : (of_option (Some a) ≫= k) s = k a s.
Proof. done. Qed.
Lemma run_call {A B} (f : S → A * S) (k : A → M S B) s a s' :
  f s = (a, s') → (call f ≫= k) s = k a s'.
Proof. intros E. unfold mbind, M_bind, call. by rewrite E. Qed.
Lemma run_modify {B} (f : S → S) (k : unit → M S B) s : (modify f ≫= k) s = k tt (f s).
Proof. done. Qed.
Lemma run_done {A B} (m : M S A) (k : A → M S B) s a s' :
  m s = Done (a, s') → (m ≫= k) s = k a s'.
Proof. intros E. unfold mbind, M_bind. by rewrite E. Qed.
Lemma check_done (m k : M S Z) s rc s' :
  m s = Done (rc, s') → (m ;? k) s = if rc =? 0 then k s' else Done (1, s').
Proof. intros E. unfold check. erewrite run_done by done. by destruct (rc =? 0). Qed.
End run_equations.

(** Exposes a computation as nested matches on the results of its calls. *)
Ltac run_unfold :=
  repeat progress unfold check, call, of_option, gets, modify, mbind, M_bind, mret, M_ret, skip;
  cbn beta iota zeta.

(** Opens the existentials and conjunctions of the context. *)
Ltac open_hyps :=
  repeat match goal with
  | H : ∃ _, _ |- _ => destruct H
  | H : _ ∧ _ |- _ => destruct H
  end.

(** Merges two hypotheses that give the result of the same call. *)
Ltac merge_calls :=
  repeat match goal with
  | H1 : ?f = ?a, H2 : ?f = ?b |- _ =>
      lazymatch type of a with prod _ _ => idtac end;
      rewrite H1 in H2; simplify_eq/=
  end.

(** ** Lists *)

(** C strings and byte buffers are lists of character codes. *)
Definition codes (s : String.string) : list Z :=
  (λ c, Z.of_N (Ascii.N_of_ascii c)) <$> String.list_ascii_of_string s.
Arguments codes _%_string_scope.
