(* ===== verification/Triples.v ===== *)
(** * Partial-correctness triples, and what a computation keeps

    [triple P m Q]: a run of [m] from a state of [P] that returns, returns in [Q].  Unlike [wlp] it
    says nothing about undefined behaviour, so a triple about one part of the state needs none of
    the invariants of the other parts.  [keeps I m] is the frame property "a run of [m] leaves
    [I] true"; the hints of the database [keeps] prove it along the structure of the code. *)

From stdpp Require Import relations.
From S2P Require Import Prelude.

Definition triple {S A} (P : S → Prop) (m : M S A) (Q : A → S → Prop) : Prop :=
  ∀ s a s', P s → m s = Done (a, s') → Q a s'.

Definition keeps {S A} (I : S → Prop) (m : M S A) : Prop := triple I m (λ _, I).

Section rules.
Context {S : Type}.
Implicit Types P I : S → Prop.

Lemma triple_weaken {A} P P' (m : M S A) (Q Q' : A → S → Prop) :
  (∀ s, P' s → P s) → (∀ a s, Q a s → Q' a s) → triple P m Q → triple P' m Q'.
Proof. intros HP HQ Hm s a s' Hs Hr. eapply HQ, Hm; [by apply HP|done]. Qed.

Lemma triple_ret {A} P (a : A) (Q : A → S → Prop) : (∀ s, P s → Q a s) → triple P (mret a) Q.
Proof. intros HQ s a' s' Hs [= <- <-]. by apply HQ. Qed.

Lemma triple_bind {A B} P (m : M S A) (f : A → M S B) R Q :
  triple P m R → (∀ a, triple (R a) (f a) Q) → triple P (m ≫= f) Q.
Proof.
  intros Hm Hf s b s' Hs. unfold mbind, M_bind. destruct (m s) as [[a s1]| |] eqn:E; [|done..].
  apply (Hf a). by eapply Hm.
Qed.

(** A first part that keeps [P]. *)
Lemma triple_seq {A B} P (m : M S A) (f : A → M S B) Q :
  keeps P m → (∀ a, triple P (f a) Q) → triple P (m ≫= f) Q.
Proof. apply triple_bind. Qed.

Lemma triple_gets {A B} P (f : S → A) (k : A → M S B) Q :
  (∀ a, triple (λ s, P s ∧ f s = a) (k a) Q) → triple P (gets f ≫= k) Q.
Proof. intros Hk s b s' Hs Hr. by apply (Hk (f s) s). Qed.

Lemma triple_modify P (f : S → S) Q : (∀ s, P s → Q tt (f s)) → triple P (modify f) Q.
Proof. intros HQ s [] s' Hs [= <-]. by apply HQ. Qed.

Lemma triple_zoom {T A} P (get : S → T) put (m : M T A) (Pt : T → Prop) Qt Q :
  (∀ s, P s → Pt (get s)) → (∀ s a t, P s → Qt a t → Q a (put t s)) →
  triple Pt m Qt → triple P (zoom get put m) Q.
Proof.
  intros HP HQ Hm s a s' Hs. unfold zoom. destruct (m (get s)) as [[a' t]| |] eqn:E; [|done..].
  intros [= -> <-]. eapply HQ, Hm; [done|by apply HP|done].
Qed.

Lemma triple_pure {A} (p : Prop) P (m : M S A) Q :
  (p → triple P m Q) → triple (λ s, P s ∧ p) m Q.
Proof. intros Hm s a s' [Hs Hp]. by apply (Hm Hp). Qed.

Lemma triple_exists {X A} (P : X → S → Prop) (m : M S A) Q :
  (∀ x, triple (P x) m Q) → triple (λ s, ∃ x, P x s) m Q.
Proof. intros Hm s a s' [x Hs]. by apply (Hm x). Qed.

(** A step that succeeds, and the rest goes on from [R], or that fails. *)
Lemma triple_step P R (m k : M S Z) Q :
  triple P m (λ rc s, (rc = 0 → R s) ∧ (rc ≠ 0 → Q 1 s)) → triple R k Q → triple P (m ;? k) Q.
Proof.
  intros Hm Hk. unfold check. eapply triple_bind; [exact Hm|]. intros rc.
  destruct (Z.eqb_spec rc 0) as [->|Hrc].
  - eapply triple_weaken; [| |exact Hk]; [|done]. intros s [HR _]. by apply HR.
  - apply triple_ret. intros s [_ HQ]. by apply HQ.
Qed.

Lemma triple_check P (m k : M S Z) Q :
  keeps P m → (∀ s, P s → Q 1 s) → triple P k Q → triple P (m ;? k) Q.
Proof.
  intros Hm H1 Hk. unfold check. apply triple_seq; [done|]. intros rc.
  destruct (rc =? 0); [done|by apply triple_ret].
Qed.

(** A run with a weakest precondition and a triple has both postconditions. *)
Lemma wlp_triple {A} P (m : M S A) Q R s :
  wlp m Q s → triple P m R → P s → wlp m (λ a s', Q a s' ∧ R a s') s.
Proof.
  unfold wlp. intros Hw Ht Hs. destruct (m s) as [[a s']| |] eqn:E; [|done..].
  split; [done|by eapply Ht].
Qed.

Lemma wlp_strengthen {A} (m : M S A) (Q R : A → S → Prop) s :
  wlp m R s → (∀ a s', m s = Done (a, s') → R a s' → Q a s') → wlp m Q s.
Proof. unfold wlp. intros Hm HQ. destruct (m s) as [[a s']| |] eqn:E; [by apply HQ|done..]. Qed.

Lemma wlp_run {A} (m : M S A) Q s a s' : wlp m Q s → m s = Done (a, s') → Q a s'.
Proof. unfold wlp. intros Hw E. by rewrite E in Hw. Qed.

Lemma wp_triple {A} P (m : M S A) Q : (∀ s, P s → wp m Q s) → triple P m Q.
Proof. intros Hm s a s' Hs E. specialize (Hm s Hs). unfold wp in Hm. by rewrite E in Hm. Qed.

(** ** Frames *)

Lemma keeps_ret {A} I (a : A) : keeps I (mret a).
Proof. by apply triple_ret. Qed.
Lemma keeps_bind {A B} I (m : M S A) (f : A → M S B) :
  keeps I m → (∀ a, keeps I (f a)) → keeps I (m ≫= f).
Proof. apply triple_seq. Qed.
Lemma keeps_gets {A} I (f : S → A) : keeps I (gets f).
Proof. intros s a s' Hs [= <- <-]. done. Qed.
Lemma keeps_check I (m k : M S Z) : keeps I m → keeps I k → keeps I (m ;? k).
Proof. intros Hm Hk. by apply triple_check. Qed.
Lemma keeps_skip I : keeps I skip.
Proof. apply keeps_ret. Qed.
Lemma keeps_undef {A} I : keeps I (undef : M S A).
Proof. by intros s a s'. Qed.
Lemma keeps_no_fuel {A} I : keeps I (no_fuel : M S A).
Proof. by intros s a s'. Qed.
Lemma keeps_of_option {A} I (o : option A) : keeps I (of_option o).
Proof. destruct o; [apply keeps_ret|apply keeps_undef]. Qed.
Lemma keeps_modify I (f : S → S) : (∀ s, I s → I (f s)) → keeps I (modify f).
Proof. intros Hf. by apply triple_modify. Qed.
Lemma keeps_and {A} I J (m : M S A) : keeps I m → keeps J m → keeps (λ s, I s ∧ J s) m.
Proof. intros HI HJ s a s' [Hs Hj] Hr. split; [by eapply HI|by eapply HJ]. Qed.

(** On a part of the state that [I] does not look at, and on one that it does. *)
Lemma keeps_zoom {T A} I (get : S → T) put (m : M T A) :
  (∀ s t, I s → I (put t s)) → keeps I (zoom get put m).
Proof. intros Hp. apply (triple_zoom _ _ _ _ (λ _, True) (λ _ _, True)); [done|auto|by intros s a s']. Qed.
Lemma keeps_zoom_part {T A} I (J : T → Prop) (get : S → T) put (m : M T A) :
  (∀ s, I s → J (get s)) → (∀ s t, I s → J t → I (put t s)) → keeps J m → keeps I (zoom get put m).
Proof. intros Hg Hp Hm. apply (triple_zoom _ _ _ _ J (λ _, J)); [done|intros s _ t; apply Hp|done]. Qed.
End rules.

(** ** Computations with fuel that end

    [settles m s Q]: from some amount of fuel on, [m] always ends in the same way, in [Q]. *)
Definition settles {S A} (m : nat → M S A) (s : S) (Q : A → S → Prop) : Prop :=
  ∃ n a s', Q a s' ∧ ∀ fuel, (n <= fuel)%nat → m fuel s = Done (a, s').

Section settling.
Context {S : Type}.

Lemma settles_done {A} (m : nat → M S A) s (Q : A → S → Prop) a s' :
  Q a s' → (∀ fuel, m fuel s = Done (a, s')) → settles m s Q.
Proof. intros HQ Hm. exists 0%nat, a, s'. by split. Qed.

(** A part without fuel, and then the rest. *)
Lemma settles_seq {A B} (m : M S A) (f : nat → A → M S B) s Q :
  wp m (λ a s', settles (λ fuel, f fuel a) s' Q) s → settles (λ fuel, m ≫= f fuel) s Q.
Proof.
  intros (a & s' & E & n & b & s2 & HQ & Hf)%wp_done. exists n, b, s2. split; [done|].
  intros fuel Hn. unfold mbind, M_bind. rewrite E. by apply Hf.
Qed.

Lemma settles_wp {A} (m : M S A) s Q : wp m Q s → settles (λ _, m) s Q.
Proof. intros (a & s' & E & HQ)%wp_done. by eapply settles_done. Qed.

Lemma settles_bind {A B} (m : nat → M S A) (f : nat → A → M S B) s R Q :
  settles m s R → (∀ a s', R a s' → settles (λ fuel, f fuel a) s' Q) →
  settles (λ fuel, m fuel ≫= f fuel) s Q.
Proof.
  intros (n & a & s' & HR & Hm) Hf. destruct (Hf a s' HR) as (k & b & s2 & HQ & Hk).
  exists (Nat.max n k), b, s2. split; [done|]. intros fuel Hn. unfold mbind, M_bind.
  rewrite Hm by lia. apply Hk. lia.
Qed.

(** One unit of fuel for the loop itself, or other ways to spend more. *)
Lemma settles_unit {A} (m : nat → M S A) s Q :
  settles (λ fuel, m (Datatypes.S fuel)) s Q → settles m s Q.
Proof.
  intros (n & a & s' & HQ & Hm). exists (Datatypes.S n), a, s'. split; [done|].
  intros [|fuel] Hn; [lia|]. apply Hm. lia.
Qed.
Lemma settles_more {A} (m : nat → M S A) g s Q : (∀ n, (n <= g n)%nat) →
  settles m s Q → settles (λ fuel, m (g fuel)) s Q.
Proof.
  intros Hg (n & a & s' & HQ & Hm). exists n, a, s'. split; [done|]. intros fuel Hn. apply Hm.
  specialize (Hg fuel). lia.
Qed.

Lemma settles_mono {A} (m : nat → M S A) s (Q Q' : A → S → Prop) :
  (∀ a s', Q a s' → Q' a s') → settles m s Q → settles m s Q'.
Proof. intros HQ (n & a & s' & Ha & Hm). exists n, a, s'. auto. Qed.
Lemma settles_ext {A} (m m' : nat → M S A) s s' Q : (∀ fuel, m fuel s = m' fuel s') →
  settles m' s' Q → settles m s Q.
Proof. intros E (n & a & s2 & Ha & Hm). exists n, a, s2. split; [done|]. intros. rewrite E. auto. Qed.

(** What holds of every run that returns, and of a run that has to return. *)
Lemma settles_wlp {A} (m : nat → M S A) s (Q R : A → S → Prop) :
  settles m s Q → (∀ fuel, wlp (m fuel) R s) → settles m s (λ a s', Q a s' ∧ R a s').
Proof.
  intros (n & a & s' & HQ & Hm) HR. exists n, a, s'. split; [|done]. split; [done|].
  eapply (wlp_run (m n)); [apply HR|by apply Hm].
Qed.
Lemma settles_returns {A} (m : nat → M S A) s Q : settles m s Q →
  ∃ n, ∀ fuel, (n <= fuel)%nat → wp (m fuel) Q s.
Proof.
  intros (n & a & s' & HQ & Hm). exists n. intros fuel Hn. unfold wp. by rewrite (Hm fuel Hn).
Qed.
End settling.

(** No endless sequence of steps: nor of groups of steps. *)
Lemma sn_tc {A} (R : relation A) x : sn R x → sn (tc R) x.
Proof.
  induction 1 as [x _ IH]. constructor. intros y Hy. unfold flip in Hy.
  destruct Hy as [x y Hy|x z y Hz Hy]; [by apply IH|]. by apply (Acc_inv (IH z Hz)).
Qed.

Create HintDb keeps discriminated.
#[export] Hint Constants Opaque : keeps.
#[export] Hint Resolve keeps_ret keeps_bind keeps_gets keeps_check keeps_skip keeps_undef
  keeps_no_fuel keeps_of_option : keeps.
#[export] Hint Extern 2 (keeps _ (match ?x with _ => _ end)) => destruct x : keeps.

(** The side conditions about setters hold by computation. *)
Ltac frame_side := let H := fresh in intros; first [assumption | match goal with H : _ |- _ => exact H end].
#[export] Hint Extern 2 (keeps _ (modify _)) => apply keeps_modify; frame_side : keeps.
#[export] Hint Extern 3 (keeps _ (zoom _ _ _)) => apply keeps_zoom; frame_side : keeps.

Ltac keeping := auto 200 with keeps.
