(* ===== verification/Machine.v ===== *)
(** * The machine the program runs on

    The kernel calls, the BIOS calls and the C library's random numbers are code
    outside the repository: each is an operation of one of the classes below, over an
    abstract state [W] of the outside world (devices, kernel tables, the pending
    messages).  Every definition that calls one takes the class as an argument and every
    theorem holds for all instances; the laws a theorem relies on are named classes
    ([VideoLaws], [RandomLaws]).  The macros of .minix-src/include that decode a
    received message are modelled from their source.

    Module [Sim] is a small concrete machine, on which the witnesses are evaluated. *)

From S2P Require Import Prelude.

(** I/O ports: [sys_inb] returns its status and the value it stored. *)
Class PortIO (W : Type) := {
  sys_inb : Z → W → (Z * Z) * W;
  sys_outb : Z → Z → W → Z * W;
  micros_to_ticks : Z → Z;
  tickdelay : Z → W → W;
}.

(** minix/com.h: the policy flags of an interrupt subscription. *)
Definition IRQ_REENABLE : Z := 1.
Definition IRQ_EXCLUSIVE : Z := 2.

(** Interrupt subscriptions update the hook id they are given the address of. *)
Class Interrupts (W : Type) := {
  sys_irqsetpolicy : Z → Z → Z → W → (Z * Z) * W;
  sys_irqrmpolicy : Z → W → (Z * Z) * W;
}.

(** A received message: the ipc status and the fields of [message] the program reads. *)
Record message := Message {
  ipc_status : Z;
  m_source : Z;
  m_notify_interrupts : Z;
}.

Class Receive (W : Type) := {
  driver_receive : W → (Z * message) * W;
}.

(** The fields of vbe_mode_info_t (.minix-src/include/lcom/vbe.h) that the program reads. *)
Record vbe_mode_info := VbeModeInfo {
  XResolution : Z;
  YResolution : Z;
  BitsPerPixel : Z;
  MemoryModel : Z;
  RedMaskSize : Z; RedFieldPosition : Z;
  GreenMaskSize : Z; GreenFieldPosition : Z;
  BlueMaskSize : Z; BlueFieldPosition : Z;
  PhysBasePtr : Z;
}.

(** The registers of a BIOS call that the program sets. *)
Record reg86 := Reg86 { r86_intno : Z; r86_ax : Z; r86_bx : Z }.

Class Video (W : Type) := {
  vbe_get_mode_info : Z → W → (Z * vbe_mode_info) * W;
  sys_int86 : reg86 → W → Z * W;
  sys_privctl_add_mem : Z → Z → W → Z * W;
  vm_map_phys : Z → Z → W → option (list Z) * W;
  malloc : Z → W → option (list Z) * W;
  vg_exit : W → Z * W;
}.

(** What the program relies on: the fields of a mode have their widths, and a mapping or
    an allocation of [n] bytes has [n] bytes. *)
Class VideoLaws (W : Type) `{Video W} := {
  vbe_field_range m w : let mi := (vbe_get_mode_info m w).1.2 in
    0 <= XResolution mi < 65536 ∧ 0 <= YResolution mi < 65536 ∧
    0 <= BitsPerPixel mi < 256;
  vm_map_phys_length b n w l : 0 <= n → (vm_map_phys b n w).1 = Some l → Z.of_nat (length l) = n;
  malloc_length n w l : 0 <= n → (malloc n w).1 = Some l → Z.of_nat (length l) = n;
}.

Class Random (W : Type) := {
  rand : W → Z * W;
  srand_time : W → W;
}.

(** C: [rand] is between 0 and [RAND_MAX], 0x7fffffff in .minix-src/include/stdlib.h. *)
Class RandomLaws (W : Type) `{Random W} := {
  rand_range w : 0 <= (rand w).1 <= 2147483647;
}.

(** ** Decoding a message (minix/com.h, minix/ipcconst.h, minix/endpoint.h) *)

Definition NOTIFY : Z := 4.
Definition HARDWARE : Z := -1.
Definition MAX_NR_TASKS : Z := 1023.
Definition IPC_STATUS_CALL (status : Z) : Z := Z.land (Z.shiftr status 0) 0x3F.
Definition is_ipc_notify (status : Z) : bool := IPC_STATUS_CALL status =? NOTIFY.
Definition ENDPOINT_P (e : Z) : Z := Z.land (e + MAX_NR_TASKS) (Z.shiftl 1 15 - 1) - MAX_NR_TASKS.

(** [is_ipc_notify(ipc_status)] and [case HARDWARE] of the switch on the sender: the guard
    every interrupt loop of the program has. *)
Definition from_hardware (m : message) : bool :=
  is_ipc_notify (ipc_status m) && (ENDPOINT_P (m_source m) =? HARDWARE).

(** [msg.m_notify.interrupts & BIT(irq)] *)
Definition irq_pending (m : message) (irq : Z) : bool := has_bit (m_notify_interrupts m) irq.

(** The message a hardware notification with the mask [mask] is received as. *)
Definition hw_message (mask : Z) : message := Message NOTIFY HARDWARE mask.

Lemma hw_message_from_hardware mask : from_hardware (hw_message mask) = true.
Proof. reflexivity. Qed.

(** ** A concrete machine for witnesses

    Port reads are answered from a script (a read past its end fails), port writes and
    hook changes are logged, messages come from a queue (past its end the receive fails). *)
Module Sim.

Record sim := MkSim {
  inputs : list Z;
  out_log : list (Z * Z);
  delays : nat;
  hooks : list (Z * Z);
  queue : list message;
  rands : list Z;
  mode : vbe_mode_info;
}.

Definition sim_inb (port : Z) (w : sim) : (Z * Z) * sim :=
  match inputs w with
  | v :: vs => ((0, v), MkSim vs (out_log w) (delays w) (hooks w) (queue w) (rands w) (mode w))
  | [] => ((1, 0), w)
  end.

Definition sim_outb (port v : Z) (w : sim) : Z * sim :=
  (0, MkSim (inputs w) (out_log w ++ [(port, v)]) (delays w) (hooks w) (queue w) (rands w) (mode w)).

Definition sim_delay (_ : Z) (w : sim) : sim :=
  MkSim (inputs w) (out_log w) (S (delays w)) (hooks w) (queue w) (rands w) (mode w).

#[export] Instance sim_port : PortIO sim := {|
  sys_inb := sim_inb; sys_outb := sim_outb; micros_to_ticks := λ us, us * 60 / 1000000;
  tickdelay := sim_delay |}.

#[export] Instance sim_irq : Interrupts sim := {|
  sys_irqsetpolicy := λ irq policy hook w,
    ((0, hook), MkSim (inputs w) (out_log w) (delays w) ((irq, hook) :: hooks w) (queue w) (rands w) (mode w));
  sys_irqrmpolicy := λ hook w,
    ((0, hook), MkSim (inputs w) (out_log w) (delays w)
       (filter (λ h, h.2 ≠ hook) (hooks w)) (queue w) (rands w) (mode w)) |}.

#[export] Instance sim_receive : Receive sim := {|
  driver_receive := λ w,
    match queue w with
    | m :: ms => ((0, m), MkSim (inputs w) (out_log w) (delays w) (hooks w) ms (rands w) (mode w))
    | [] => ((1, hw_message 0), w)
    end |}.

(** The mode with its fields cut to their widths. *)
Definition clamp (m : vbe_mode_info) : vbe_mode_info :=
  VbeModeInfo (u16 (XResolution m)) (u16 (YResolution m)) (u8 (BitsPerPixel m)) (MemoryModel m)
    (RedMaskSize m) (RedFieldPosition m) (GreenMaskSize m) (GreenFieldPosition m)
    (BlueMaskSize m) (BlueFieldPosition m) (PhysBasePtr m).

#[export] Instance sim_video : Video sim := {|
  vbe_get_mode_info := λ _ w, ((0, clamp (mode w)), w);
  sys_int86 := λ _ w, (0, w);
  sys_privctl_add_mem := λ _ _ w, (0, w);
  vm_map_phys := λ _ n w, (Some (replicate (Z.to_nat n) 0), w);
  malloc := λ n w, (Some (replicate (Z.to_nat n) 0), w);
  vg_exit := λ w, (0, w) |}.

#[export] Instance sim_video_laws : VideoLaws sim.
Proof.
  split; simpl.
  - intros _ w. pose proof (u16_range (XResolution (mode w))).
    pose proof (u16_range (YResolution (mode w))). pose proof (u8_range (BitsPerPixel (mode w))). lia.
  - intros _ n _ l Hn [= <-]. rewrite length_replicate. lia.
  - intros n _ l Hn [= <-]. rewrite length_replicate. lia.
Qed.

#[export] Instance sim_random : Random sim := {|
  rand := λ w,
    match rands w with
    | r :: rs => (Z.land r 2147483647, MkSim (inputs w) (out_log w) (delays w) (hooks w) (queue w) rs (mode w))
    | [] => (0, w)
    end;
  srand_time := λ w, w |}.

#[export] Instance sim_random_laws : RandomLaws sim.
Proof.
  split. intros w. simpl. destruct (rands w) as [|r rs]; simpl; [lia|].
  change (Z.land r 2147483647) with (Z.land r (Z.ones 31)). rewrite Z.land_ones by lia.
  pose proof (Z.mod_pos_bound r (2 ^ 31)). lia.
Qed.

(** A 4x4 mode with one byte per pixel, enough to run the drawing code on. *)
Definition tiny_mode : vbe_mode_info := VbeModeInfo 4 4 8 4 0 0 0 0 0 0 0.

Definition quiet : sim := MkSim [] [] 0 [] [] [] tiny_mode.

End Sim.
