(* ===== verification/Utils.v ===== *)
(** * controllers/timer/utils.c

    Byte extraction and the port read.  A C pointer argument is an [option]: [None] is
    NULL, [Some v] a pointer to an object that holds [v]; the second component of a result
    is the object after the call. *)

From S2P Require Import Prelude Machine.

Definition util_get_LSB (val : Z) (lsb : option Z) : Z * option Z :=
  match lsb with
  | None => (1, None)
  | Some _ => (0, Some (u8 (Z.land (u16 val) 0xff)))
  end.

Definition util_get_MSB (val : Z) (msb : option Z) : Z * option Z :=
  match msb with
  | None => (1, None)
  | Some _ => (0, Some (u8 (Z.shiftr (u16 val) 8)))
  end.

Definition util_sys_inb {W} `{PortIO W} (port : Z) (value : option Z) : M W (Z * option Z) :=
  match value with
  | None => mret (1, None)
  | Some old =>
      '(rc, val) ← call (sys_inb port);
      if negb (rc =? 0) then mret (1, Some old)
      else mret (0, Some (u8 (Z.land (u32 val) 0xff)))
  end.

(** ** The two bytes determine the 16-bit value *)

Lemma land_ff z : Z.land z 0xff = z mod 256.
Proof. change 0xff with (Z.ones 8). by rewrite Z.land_ones. Qed.

Lemma util_get_LSB_eq val v : util_get_LSB val (Some v) = (0, Some (u16 val mod 256)).
Proof.
  unfold util_get_LSB. rewrite land_ff, u8_small; [done|]. apply Z.mod_pos_bound. lia.
Qed.

Lemma util_get_MSB_eq val v : util_get_MSB val (Some v) = (0, Some (u16 val / 256)).
Proof.
  unfold util_get_MSB. rewrite Z.shiftr_div_pow2 by lia.
  pose proof (u16_range val). rewrite u8_small; [done|].
  change (2 ^ 8) with 256. split; [apply Z.div_pos; lia|apply Z.div_lt_upper_bound; lia].
Qed.

Lemma util_sys_inb_success {W} `{PortIO W} port old val w w' :
  sys_inb port w = ((0, val), w') →
  util_sys_inb port (Some old) w = Done ((0, Some (u32 val mod 256)), w').
Proof.
  intros E. unfold util_sys_inb, mbind, M_bind, call. rewrite E. simpl.
  rewrite land_ff, u8_small; [done|]. apply Z.mod_pos_bound. lia.
Qed.

Lemma util_sys_inb_failure {W} `{PortIO W} port old rc val w w' :
  sys_inb port w = ((rc, val), w') → rc ≠ 0 →
  util_sys_inb port (Some old) w = Done ((1, Some old), w').
Proof.
  intros E Hrc. unfold util_sys_inb, mbind, M_bind, call. rewrite E. simpl.
  by apply Z.eqb_neq in Hrc as ->.
Qed.

(** A bit of the byte the program keeps is the bit of the 32-bit value read. *)
Lemma has_bit_byte v n : 0 <= n < 8 → has_bit (u32 v mod 256) n = Z.testbit v n.
Proof.
  intros Hn. rewrite has_bit_testbit by lia. unfold u32.
  change 256 with (2 ^ 8). by rewrite !Z.mod_pow2_bits_low by lia.
Qed.
