(* ===== verification/Keyboard.v ===== *)
(** * controllers/keyboard: the i8042 keyboard controller

    kb_controller.c (polling reads and writes) and kb_interrupts.c (interrupt handler,
    subscription, restoring the command byte).  The globals [scancode] and [kb_hook_id] are
    passed in and returned by the functions that change them.

    Module [Spec] is the abstract protocol of a controller read, as a relation on the
    machine, and the theorems show that the C loops implement it. *)

From S2P Require Import Prelude Machine Utils.

(** ** Constants of i8042.h *)
Definition KEYBOARD_IRQ : Z := 1.
Definition KEYBOARD_STATUS : Z := 0x64.
Definition KEYBOARD_IN_CMD : Z := 0x64.
Definition KEYBOARD_OUT_CMD : Z := 0x60.
Definition KEYBOARD_READ_CMD : Z := 0x20.
Definition KEYBOARD_WRITE_CMD : Z := 0x60.
Definition KB_A : Z := 0x1E.
Definition KB_D : Z := 0x20.
Definition KB_SPACE : Z := 0x39.
Definition KB_ENTER : Z := 0x1C.
Definition KB_UP_ARROW : Z := 0x48.
Definition KB_DOWN_ARROW : Z := 0x50.
Definition KB_BREAK_ESC : Z := 0x81.
Definition KB_TWO_BYTES : Z := 0xE0.
(** [KB_BREAK_CODE] is [BIT(7)] and [IN_BUFFER_FULL] is [BIT(1)]: the bit numbers. *)
Definition KB_BREAK_CODE_BIT : Z := 7.
Definition IN_BUFFER_FULL_BIT : Z := 1.

Section operations.
Context {W : Type} `{PortIO W} `{Interrupts W}.

(** The body of [for (int i = trys; i > 0; i--)]; [status] is the local of the C
    function, [output] the object its argument points to. *)
Fixpoint read_tries (i : nat) (port : Z) (output : option Z) (mouse status : Z)
    : M W (Z * option Z) :=
  match i with
  | O => mret (1, output)
  | S i =>
      '(rc, st) ← util_sys_inb KEYBOARD_STATUS (Some status);
      if negb (rc =? 0) then mret (1, output) else
      status ← of_option st;
      if has_bit status 0 then
        '(rc, output) ← util_sys_inb port output;
        if negb (rc =? 0) then mret (1, output) else
        if has_bit status 7 then mret (1, output) else
        if has_bit status 6 then mret (1, output) else
        let is_keyboard_output := negb (has_bit status 5) in
        if (negb (mouse =? 0) && is_keyboard_output)
           || ((mouse =? 0) && negb is_keyboard_output) then mret (1, output) else
        mret (0, output)
      else
        modify (tickdelay (micros_to_ticks 20000));;
        read_tries i port output mouse status
  end.

Definition read_keyboard_output (port : Z) (output : option Z) (mouse : Z)
    : M W (Z * option Z) :=
  read_tries 10 port output mouse 0.

(** [status] starts uninitialised in the C function; it is written before it is read. *)
Fixpoint write_tries (i : nat) (port command status : Z) : M W Z :=
  match i with
  | O => mret 1
  | S i =>
      '(rc, st) ← util_sys_inb KEYBOARD_STATUS (Some status);
      if negb (rc =? 0) then mret 1 else
      status ← of_option st;
      if negb (has_bit status IN_BUFFER_FULL_BIT) then
        rc ← call (sys_outb port command);
        if negb (rc =? 0) then mret 1 else mret 0
      else
        modify (tickdelay (micros_to_ticks 20000));;
        write_tries i port command status
  end.

Definition write_keyboard_command (port command : Z) : M W Z :=
  write_tries 10 port command 0.

(** kbc_ih(): the result is the new value of the global [scancode]. *)
Definition kbc_ih (scancode : Z) : M W Z :=
  '(_, output) ← read_keyboard_output KEYBOARD_OUT_CMD (Some scancode) 0;
  of_option output.

(** Result: status, [*bit_no], [kb_hook_id]. *)
Definition kb_subscribe_int (bit_no : option Z) (kb_hook_id : Z)
    : M W (Z * option Z * Z) :=
  match bit_no with
  | None => mret (1, None, kb_hook_id)
  | Some _ =>
      let bit_no := Some (u8 kb_hook_id) in
      '(rc, hook) ← call (sys_irqsetpolicy KEYBOARD_IRQ
                            (Z.lor IRQ_REENABLE IRQ_EXCLUSIVE) kb_hook_id);
      if negb (rc =? 0) then mret (1, bit_no, hook) else mret (0, bit_no, hook)
  end.

Definition kb_unsubscribe_int (kb_hook_id : Z) : M W (Z * Z) :=
  '(rc, hook) ← call (sys_irqrmpolicy kb_hook_id);
  if negb (rc =? 0) then mret (1, hook) else mret (0, hook).

Definition kb_restore_settings : M W Z :=
  write_keyboard_command KEYBOARD_IN_CMD KEYBOARD_READ_CMD ;?
  ('(rc, config) ← read_keyboard_output KEYBOARD_OUT_CMD (Some 0) 0;
   if negb (rc =? 0) then mret 1 else
   config_byte ← of_option config;
   let config_byte := u8 (Z.lor config_byte (BIT 0)) in
   write_keyboard_command KEYBOARD_IN_CMD KEYBOARD_WRITE_CMD ;?
   (rc ← call (sys_outb KEYBOARD_WRITE_CMD config_byte);
    if negb (rc =? 0) then mret 1 else mret 0)).
End operations.

(** ** The controller protocol *)
Module Spec.

(** How one polling read ends. *)
Inductive reading :=
| NoData                (* no byte within the allowed number of polls *)
| PortError             (* a port read failed *)
| Flagged (v : Z)       (* a byte was read, with parity, timeout or wrong-device status *)
| Data (v : Z).         (* a byte of the right device *)

(** A status byte that announces a good byte of the wanted device. *)
Definition good_status (mouse : bool) (st : Z) : bool :=
  negb (Z.testbit st 7) && negb (Z.testbit st 6) && Bool.eqb (Z.testbit st 5) mouse.

Section spec.
Context {W : Type} `{PortIO W}.

Inductive reads (port : Z) (mouse : bool) : nat → W → reading → W → Prop :=
| reads_timeout w : reads port mouse 0 w NoData w
| reads_status_error n w rc st w' :
    sys_inb KEYBOARD_STATUS w = ((rc, st), w') → rc ≠ 0 →
    reads port mouse (S n) w PortError w'
| reads_wait n w st w1 r w' :
    sys_inb KEYBOARD_STATUS w = ((0, st), w1) → Z.testbit st 0 = false →
    reads port mouse n (tickdelay (micros_to_ticks 20000) w1) r w' →
    reads port mouse (S n) w r w'
| reads_data_error n w st w1 rc v w' :
    sys_inb KEYBOARD_STATUS w = ((0, st), w1) → Z.testbit st 0 = true →
    sys_inb port w1 = ((rc, v), w') → rc ≠ 0 →
    reads port mouse (S n) w PortError w'
| reads_data n w st w1 v w' :
    sys_inb KEYBOARD_STATUS w = ((0, st), w1) → Z.testbit st 0 = true →
    sys_inb port w1 = ((0, v), w') →
    reads port mouse (S n) w
      (if good_status mouse st then Data (u32 v mod 256) else Flagged (u32 v mod 256)) w'.

(** A polling write: the command goes out when the input buffer is found empty. *)
Inductive writes (port cmd : Z) : nat → W → option Z → W → Prop :=
| writes_timeout w : writes port cmd 0 w None w
| writes_status_error n w rc st w' :
    sys_inb KEYBOARD_STATUS w = ((rc, st), w') → rc ≠ 0 →
    writes port cmd (S n) w None w'
| writes_wait n w st w1 r w' :
    sys_inb KEYBOARD_STATUS w = ((0, st), w1) → Z.testbit st 1 = true →
    writes port cmd n (tickdelay (micros_to_ticks 20000) w1) r w' →
    writes port cmd (S n) w r w'
| writes_sent n w st w1 rc w' :
    sys_inb KEYBOARD_STATUS w = ((0, st), w1) → Z.testbit st 1 = false →
    sys_outb port cmd w1 = (rc, w') →
    writes port cmd (S n) w (Some rc) w'.
End spec.

(** What the C function returns and leaves in [*output] for each way a read ends. *)
Definition read_result (old : Z) (r : reading) : Z * option Z :=
  match r with
  | NoData | PortError => (1, Some old)
  | Flagged v => (1, Some v)
  | Data v => (0, Some v)
  end.

Definition write_result (r : option Z) : Z :=
  match r with Some 0 => 0 | _ => 1 end.

End Spec.

(** ** The driver implements the protocol *)
Section refinement.
Context {W : Type} `{PortIO W}.
Import Spec.

Lemma reads_total port mouse n (w : W) : ∃ r w', reads port mouse n w r w'.
Proof.
  revert w. induction n as [|n IH]; intros w; [eauto using reads|].
  destruct (sys_inb KEYBOARD_STATUS w) as [[rc st] w1] eqn:E.
  destruct (decide (rc = 0)) as [->|]; [|by eauto using reads].
  destruct (Z.testbit st 0) eqn:Hb.
  - destruct (sys_inb port w1) as [[rc v] w2] eqn:E2.
    destruct (decide (rc = 0)) as [->|]; by eauto using reads.
  - destruct (IH (tickdelay (micros_to_ticks 20000) w1)) as (r & w' & ?).
    by eauto using reads.
Qed.

Lemma writes_total port cmd n (w : W) : ∃ r w', writes port cmd n w r w'.
Proof.
  revert w. induction n as [|n IH]; intros w; [eauto using writes|].
  destruct (sys_inb KEYBOARD_STATUS w) as [[rc st] w1] eqn:E.
  destruct (decide (rc = 0)) as [->|]; [|by eauto using writes].
  destruct (Z.testbit st 1) eqn:Hb.
  - destruct (IH (tickdelay (micros_to_ticks 20000) w1)) as (r & w' & ?).
    by eauto using writes.
  - destruct (sys_outb port cmd w1) as [rc w2] eqn:E2. by eauto using writes.
Qed.

Lemma run_status_ok st0 (w w1 : W) st A (k : Z * option Z → M W A) :
  sys_inb KEYBOARD_STATUS w = ((0, st), w1) →
  (util_sys_inb KEYBOARD_STATUS (Some st0) ≫= k) w = k (0, Some (u32 st mod 256)) w1.
Proof. intros E. unfold mbind, M_bind. by erewrite util_sys_inb_success. Qed.

Lemma run_inb_fail port rc v old (w w1 : W) A (k : Z * option Z → M W A) :
  sys_inb port w = ((rc, v), w1) → rc ≠ 0 →
  (util_sys_inb port (Some old) ≫= k) w = k (1, Some old) w1.
Proof. intros E ?. unfold mbind, M_bind. by erewrite util_sys_inb_failure. Qed.

Lemma run_inb_ok port v old (w w1 : W) A (k : Z * option Z → M W A) :
  sys_inb port w = ((0, v), w1) →
  (util_sys_inb port (Some old) ≫= k) w = k (0, Some (u32 v mod 256)) w1.
Proof. intros E. unfold mbind, M_bind. by erewrite util_sys_inb_success. Qed.

(** The order in which the C code tests the status is immaterial. *)
Lemma status_tests mouse st A (bad good : A) :
  (if has_bit (u32 st mod 256) 7 then bad else
   if has_bit (u32 st mod 256) 6 then bad else
   let is_keyboard_output := negb (has_bit (u32 st mod 256) 5) in
   if (negb ((if mouse : bool then 1 else 0) =? 0) && is_keyboard_output)
      || (((if mouse then 1 else 0) =? 0) && negb is_keyboard_output) then bad else good)
  = if good_status mouse st then good else bad.
Proof.
  rewrite !has_bit_byte by lia. unfold good_status.
  by destruct (Z.testbit st 7), (Z.testbit st 6), (Z.testbit st 5), mouse.
Qed.

Lemma read_tries_reads n port mouse old st0 (w : W) r w' :
  reads port mouse n w r w' →
  read_tries n port (Some old) (if mouse then 1 else 0) st0 w = Done (read_result old r, w').
Proof.
  intros Hr. revert st0. induction Hr as [w|n w rc st w' E Hrc|n w st w1 r w' E Hb _ IH
    |n w st w1 rc v w' E Hb E2 Hrc|n w st w1 v w' E Hb E2]; intros st0; [done|..];
    cbn [read_tries]; [by erewrite run_inb_fail|..];
    erewrite run_inb_ok by done; cbn [negb Z.eqb]; rewrite run_some, has_bit_byte, Hb by lia.
  - rewrite run_modify. apply IH.
  - by erewrite run_inb_fail.
  - erewrite run_inb_ok by done. cbn [negb Z.eqb].
    rewrite status_tests. by destruct (good_status mouse st).
Qed.

Lemma write_tries_writes n port cmd st0 (w : W) r w' :
  writes port cmd n w r w' →
  write_tries n port cmd st0 w = Done (write_result r, w').
Proof.
  intros Hr. revert st0. induction Hr as [w|n w rc st w' E Hrc|n w st w1 r w' E Hb _ IH
    |n w st w1 rc w' E Hb E2]; intros st0; [done|..];
    cbn [write_tries]; [by erewrite run_inb_fail|..];
    erewrite run_inb_ok by done; cbn [negb Z.eqb]; unfold IN_BUFFER_FULL_BIT;
    rewrite run_some, has_bit_byte, Hb by lia; cbn [negb].
  - rewrite run_modify. apply IH.
  - erewrite run_call by done. by destruct rc.
Qed.
End refinement.

(** ** Properties *)
Section properties.
Context {W : Type} `{PortIO W} `{Interrupts W}.
Import Spec.

(** C28. A polling read ends for every behaviour of the controller, within ten polls, and it
    implements the protocol: status 0 and the byte exactly when a byte of the wanted
    device came without parity and timeout errors, otherwise status 1; [*output] keeps
    its value when no byte was read, and holds the byte otherwise. *)
Theorem read_keyboard_output_refines port (mouse : bool) old (w : W) :
  ∃ r w', reads port mouse 10 w r w' ∧
          read_keyboard_output port (Some old) (if mouse then 1 else 0) w
          = Done (read_result old r, w').
Proof.
  destruct (reads_total port mouse 10 w) as (r & w' & Hr). exists r, w'.
  split; [done|]. by apply read_tries_reads.
Qed.

Lemma run_write port cmd (w : W) :
  ∃ r w', writes port cmd 10 w r w' ∧
          write_keyboard_command port cmd w = Done (write_result r, w').
Proof.
  destruct (writes_total port cmd 10 w) as (r & w' & Hr). exists r, w'.
  split; [done|]. by apply write_tries_writes.
Qed.

(** A command write ends for every behaviour of the controller, and it sends the
    command exactly when one of at most ten status reads finds the input buffer empty;
    it returns 0 exactly when the port write succeeded. *)
Theorem write_keyboard_command_refines port cmd (w : W) :
  ∃ r w', writes port cmd 10 w r w' ∧
          write_keyboard_command port cmd w = Done (write_result r, w').
Proof. apply run_write. Qed.

(** The interrupt handler leaves in [scancode] the byte it read, also when the status
    flags it as corrupt, timed out or sent by the mouse; it keeps the old scancode only
    when no byte could be read. *)
Theorem kbc_ih_scancode scancode (w : W) :
  ∃ r w', reads KEYBOARD_OUT_CMD false 10 w r w' ∧
          kbc_ih scancode w
          = Done (match r with Data v | Flagged v => v | _ => scancode end, w').
Proof.
  destruct (reads_total KEYBOARD_OUT_CMD false 10 w) as (r & w' & Hr). exists r, w'.
  split; [done|]. unfold kbc_ih, read_keyboard_output.
  erewrite run_done by (by apply (read_tries_reads _ _ false)). by destruct r.
Qed.

Lemma reads_byte port mouse n (w w' : W) r :
  reads port mouse n w r w' → match r with Data v | Flagged v => 0 <= v < 256 | _ => True end.
Proof.
  induction 1 as [| | | |n w st w1 v w' ? ? ?]; try done.
  destruct (good_status mouse st); by apply Z.mod_pos_bound.
Qed.

Lemma reads_det port mouse n (w : W) r1 w1 r2 w2 :
  reads port mouse n w r1 w1 → reads port mouse n w r2 w2 → r1 = r2 ∧ w1 = w2.
Proof.
  intros H1. revert r2 w2. induction H1; inversion 1; merge_calls; eauto; congruence.
Qed.

Lemma writes_det port cmd n (w : W) r1 w1 r2 w2 :
  writes port cmd n w r1 w1 → writes port cmd n w r2 w2 → r1 = r2 ∧ w1 = w2.
Proof.
  intros H1. revert r2 w2. induction H1; inversion 1; merge_calls; eauto; congruence.
Qed.

Lemma write_result_0 r : write_result r = 0 ↔ r = Some 0.
Proof. by destruct r as [[]|]. Qed.

Lemma write_result_cases r : write_result r = 0 ∨ write_result r = 1.
Proof. destruct r as [[]|]; eauto. Qed.

(** Restoring the command byte succeeds exactly when the controller accepted the
    read command, delivered a good byte [c], accepted the write command, and the last
    port write succeeded; that write sends [c] with only the keyboard-interrupt bit
    (bit 0) forced on. *)
Theorem kb_restore_settings_iff (w w' : W) :
  kb_restore_settings w = Done (0, w') ↔
  ∃ c w1 w2 w3,
    writes KEYBOARD_IN_CMD KEYBOARD_READ_CMD 10 w (Some 0) w1 ∧
    reads KEYBOARD_OUT_CMD false 10 w1 (Data c) w2 ∧
    writes KEYBOARD_IN_CMD KEYBOARD_WRITE_CMD 10 w2 (Some 0) w3 ∧
    sys_outb KEYBOARD_WRITE_CMD (Z.lor c 1) w3 = (0, w').
Proof.
  unfold kb_restore_settings. change (BIT 0) with 1.
  destruct (run_write KEYBOARD_IN_CMD KEYBOARD_READ_CMD w) as (r1 & w1 & Hw1 & Hr1).
  erewrite check_done by done.
  destruct (read_keyboard_output_refines KEYBOARD_OUT_CMD false 0 w1) as (r2 & w2 & Hw2 & Hr2).
  destruct (run_write KEYBOARD_IN_CMD KEYBOARD_WRITE_CMD w2) as (r3 & w3 & Hw3 & Hr3).
  erewrite run_done by done.
  split.
  - destruct (Z.eqb_spec (write_result r1) 0) as [->%write_result_0|]; [|done].
    destruct r2 as [| |v|v]; cbn [read_result Z.eqb negb]; try done. rewrite run_some.
    erewrite check_done by done.
    destruct (Z.eqb_spec (write_result r3) 0) as [->%write_result_0|]; [|done].
    pose proof (reads_byte _ _ _ _ _ _ Hw2) as Hv. simpl in Hv.
    rewrite u8_small by (apply (lor_lt _ _ 8); lia).
    destruct (sys_outb KEYBOARD_WRITE_CMD (Z.lor v 1) w3) as [rc w4] eqn:E.
    erewrite run_call by done. destruct (Z.eqb_spec rc 0) as [->|]; [|done].
    intros [= ->]. by eauto 10.
  - intros (c & w1' & w2' & w3' & H1 & H2 & H3 & H4).
    destruct (writes_det _ _ _ _ _ _ _ _ Hw1 H1) as [-> ->].
    destruct (reads_det _ _ _ _ _ _ _ _ Hw2 H2) as [-> ->].
    destruct (writes_det _ _ _ _ _ _ _ _ Hw3 H3) as [-> ->].
    pose proof (reads_byte _ _ _ _ _ _ H2) as Hc. simpl in Hc.
    cbn [write_result read_result Z.eqb negb]. rewrite run_some. erewrite check_done by done.
    cbn [write_result Z.eqb].
    rewrite u8_small by (apply (lor_lt _ _ 8); lia). by rewrite (run_call _ _ _ _ _ H4).
Qed.
End properties.
