(* ===== verification/Events.v ===== *)
(** * The loops that wait for interrupts

    The test programs of lab2 to lab5 share one loop: while a condition on the variables holds,
    receive a message, ignore a failed receive, and handle the message.  [message_loop] is that
    loop; each lab gives its condition and its handler.

    [awaits] is what the loop does with the messages that are not for it, and [loop_runs] is the
    loop as a big-step relation over the messages that are.  [message_loop_iff] shows that the two
    agree, so the labs' theorems are inductions over [loop_runs], and [loop_runs_measure] is the
    termination argument: each interrupt of a supply that never dries up decreases a measure.

    [due] is the assumption on the timer for loops that also handle keys, those of the game and of
    video_test_move: only finitely many messages come before its next interrupt, whatever their
    handling reads from the keyboard's controller. *)

From S2P Require Import Prelude Machine Keyboard.

(** A state of which the outside world is a part. *)
Class HasWorld (S W : Type) := {
  the_world : S → W;
  set_the_world : W → S → S;
  the_world_set w s : the_world (set_the_world w s) = w;
  set_the_world_twice w w' s : set_the_world w (set_the_world w' s) = set_the_world w s;
}.

(** The locals of a function beside the globals. *)
#[export] Instance has_world_locals {S W L} `{HasWorld S W} : HasWorld (S * L) W.
Proof.
  refine {| the_world := λ s, the_world s.1; set_the_world := λ w s, (set_the_world w s.1, s.2) |}.
  - intros. apply the_world_set.
  - intros. simpl. by rewrite set_the_world_twice.
Defined.

(** Runs a function body with the local variables [l] on the globals. *)
Definition with_locals {S L A} (l : L) (m : M (S * L) A) : M S A := λ s,
  match m (s, l) with
  | Done (a, (s, _)) => Done (a, s)
  | Undef => Undef
  | OutOfFuel => OutOfFuel
  end.

(** A function on the globals, called from a body with locals. *)
Definition on_globals {S L A} (m : M S A) : M (S * L) A := zoom fst (λ s p, (s, p.2)) m.

Lemma wlp_with_locals {S L A} (l : L) (m : M (S * L) A) (Q : A → S → Prop) s :
  wlp m (λ a p, Q a p.1) (s, l) → wlp (with_locals l m) Q s.
Proof. unfold wlp, with_locals. by destruct (m (s, l)) as [[? []]| |]. Qed.

Lemma on_globals_run {S L A} (m : M S A) s s' (l : L) a :
  m s = Done (a, s') → on_globals m (s, l) = Done (a, (s', l)).
Proof. intros E. unfold on_globals, zoom. simpl. by rewrite E. Qed.

Section loop.
Context {S W : Type} `{HasWorld S W} `{Receive W}.

Definition on_the_world {A} (m : M W A) : M S A := zoom the_world set_the_world m.

(** [again] is the condition of the while; [handle] returns [Some rc] for a [return rc] inside. *)
Variables (again : S → bool) (handle : message → M S (option Z)).

Fixpoint message_loop (fuel : nat) : M S (option Z) :=
  match fuel with
  | O => no_fuel
  | Datatypes.S fuel =>
      go ← gets again;
      if go : bool then
        '(rc, m) ← on_the_world (call driver_receive);
        if negb (rc =? 0) then message_loop fuel else
        r ← handle m;
        match r with
        | Some rc => mret (Some rc)
        | None => message_loop fuel
        end
      else mret None
  end.
End loop.

(** ** Waiting *)
Section waiting.
Context {W : Type} `{Receive W}.

(** [m] is the next message for which [ours] holds: everything before it is a failed receive or
    another message. *)
Inductive awaits (ours : message → bool) : W → message → W → Prop :=
| awaits_now w m w' :
    driver_receive w = ((0, m), w') → ours m = true → awaits ours w m w'
| awaits_failed w rc m0 w1 m w' :
    driver_receive w = ((rc, m0), w1) → rc ≠ 0 → awaits ours w1 m w' → awaits ours w m w'
| awaits_other w m0 w1 m w' :
    driver_receive w = ((0, m0), w1) → ours m0 = false → awaits ours w1 m w' →
    awaits ours w m w'.

(** The messages for [ours] never dry up. *)
Definition keeps_coming (ours : message → bool) : Prop := ∀ w, ∃ m w', awaits ours w m w'.

Lemma awaits_ours ours w m w' : awaits ours w m w' → ours m = true.
Proof. by induction 1. Qed.

Lemma awaits_det ours w m1 w1 m2 w2 :
  awaits ours w m1 w1 → awaits ours w m2 w2 → m1 = m2 ∧ w1 = w2.
Proof.
  intros A1 A2. induction A1; inversion A2; subst; merge_calls; try done; auto; congruence.
Qed.
End waiting.

(** ** The loop as a relation over the messages it handles *)
Section runs.
Context {S W : Type} `{HasWorld S W} `{Receive W}.
Variables (again : S → bool) (handle : message → M S (option Z)) (ours : message → bool).

Inductive loop_runs : S → option Z → S → Prop :=
| runs_exit s : again s = false → loop_runs s None s
| runs_return s m w rc s' :
    again s = true → awaits ours (the_world s) m w →
    handle m (set_the_world w s) = Done (Some rc, s') → loop_runs s (Some rc) s'
| runs_next s m w s1 r s' :
    again s = true → awaits ours (the_world s) m w →
    handle m (set_the_world w s) = Done (None, s1) → loop_runs s1 r s' → loop_runs s r s'.

Hypothesis again_world : ∀ w s, again (set_the_world w s) = again s.
Hypothesis handle_other : ∀ m s, ours m = false → handle m s = Done (None, s).

Lemma message_loop_exit fuel s :
  again s = false → message_loop again handle (Datatypes.S fuel) s = Done (None, s).
Proof. intros Ha. cbn. unfold mbind, M_bind, gets. by rewrite Ha. Qed.

(** One turn of the loop that does not exit. *)
Lemma message_loop_turn fuel s rc m w :
  again s = true → driver_receive (the_world s) = ((rc, m), w) →
  message_loop again handle (Datatypes.S fuel) s =
    if negb (rc =? 0) then message_loop again handle fuel (set_the_world w s) else
    match handle m (set_the_world w s) with
    | Done (Some r, s') => Done (Some r, s')
    | Done (None, s') => message_loop again handle fuel s'
    | Undef => Undef
    | OutOfFuel => OutOfFuel
    end.
Proof.
  intros Ha E. cbn. unfold mbind, M_bind, gets, on_the_world, zoom, call. rewrite Ha, E.
  destruct (negb (rc =? 0)); [done|]. by destruct (handle m _) as [[[] ]| |].
Qed.

(** A turn whose message is not for the loop changes the world only. *)
Lemma message_loop_skip fuel s rc m w :
  again s = true → driver_receive (the_world s) = ((rc, m), w) → rc ≠ 0 ∨ ours m = false →
  message_loop again handle (Datatypes.S fuel) s =
  message_loop again handle fuel (set_the_world w s).
Proof.
  intros Ha E Hm. rewrite (message_loop_turn _ _ _ _ _ Ha E).
  destruct (Z.eqb_spec rc 0) as [->|]; [|done]. destruct Hm as [|Hm]; [done|].
  by rewrite (handle_other _ _ Hm).
Qed.

(** The turns up to the next message for the loop. *)
Lemma message_loop_awaits w0 m w : awaits ours w0 m w → ∀ s, the_world s = w0 → again s = true →
  ∃ k, ∀ fuel, message_loop again handle (k + fuel) s =
    match handle m (set_the_world w s) with
    | Done (Some r, s') => Done (Some r, s')
    | Done (None, s') => message_loop again handle fuel s'
    | Undef => Undef
    | OutOfFuel => OutOfFuel
    end.
Proof.
  induction 1 as [w0 m w E Ho|w0 rc m0 w1 m w E Hrc _ IH|w0 m0 w1 m w E Ho _ IH]; intros s Hs Ha;
    subst w0.
  { exists 1%nat. intros fuel. by rewrite (message_loop_turn _ _ _ _ _ Ha E). }
  all: destruct (IH (set_the_world w1 s)) as [k Hk]; [apply the_world_set|by rewrite again_world|].
  all: exists (Datatypes.S k); intros fuel; cbn [Nat.add].
  all: rewrite (message_loop_skip _ _ _ _ _ Ha E) by auto; rewrite Hk.
  all: by rewrite set_the_world_twice.
Qed.

Lemma loop_runs_fuel s r s' :
  loop_runs s r s' → ∃ fuel, message_loop again handle fuel s = Done (r, s').
Proof.
  induction 1 as [s Ha|s m w rc s' Ha Haw Hh|s m w s1 r s' Ha Haw Hh _ [fuel IH]].
  - exists 1%nat. by apply message_loop_exit.
  - destruct (message_loop_awaits _ _ _ Haw s eq_refl Ha) as [k Hk].
    exists (k + 0)%nat. by rewrite Hk, Hh.
  - destruct (message_loop_awaits _ _ _ Haw s eq_refl Ha) as [k Hk].
    exists (k + fuel)%nat. by rewrite Hk, Hh.
Qed.

(** A run from a state after a skipped message is a run from before it. *)
Lemma loop_runs_skip s rc m w r s' :
  again s = true → driver_receive (the_world s) = ((rc, m), w) → rc ≠ 0 ∨ ours m = false →
  loop_runs (set_the_world w s) r s' → loop_runs s r s'.
Proof.
  intros Ha E Hm Hr. inversion Hr as [s0 Ha'|s0 m0 w0 rc0 s0' _ Haw Hh|s0 m0 w0 s1 r0 s0' _ Haw Hh Hr'];
    subst; [by rewrite again_world, Ha in Ha'|..];
    rewrite the_world_set in Haw; rewrite set_the_world_twice in Hh.
  all: assert (awaits ours (the_world s) m0 w0) as Haw'
    by (destruct (decide (rc = 0)) as [->|];
        [destruct Hm; [done|by eapply awaits_other]|by eapply awaits_failed]).
  - by eapply runs_return.
  - by eapply runs_next.
Qed.

Lemma fuel_loop_runs fuel : ∀ s r s',
  message_loop again handle fuel s = Done (r, s') → loop_runs s r s'.
Proof.
  induction fuel as [|fuel IH]; intros s r s'; [done|].
  destruct (again s) eqn:Ha; [|rewrite message_loop_exit by done; intros [= <- <-]; by constructor].
  destruct (driver_receive (the_world s)) as [[rc m] w] eqn:E.
  destruct (decide (rc ≠ 0 ∨ ours m = false)) as [Hm|Hm].
  { rewrite (message_loop_skip _ _ _ _ _ Ha E Hm). intros Hr. eapply loop_runs_skip; eauto. }
  assert (rc = 0) as -> by (destruct (decide (rc = 0)); tauto).
  assert (awaits ours (the_world s) m w) as Haw
    by (apply awaits_now; [done|destruct (ours m); tauto]).
  rewrite (message_loop_turn _ _ _ _ _ Ha E). cbn [Z.eqb negb].
  destruct (handle m _) as [[[rc|] s1]| |] eqn:Hh; [|..|done|done].
  - intros [= <- <-]. by eapply runs_return.
  - intros Hr. eapply runs_next; eauto.
Qed.

(** The loop with enough fuel and the relation agree. *)
Lemma message_loop_iff s r s' :
  (∃ fuel, message_loop again handle fuel s = Done (r, s')) ↔ loop_runs s r s'.
Proof. split; [intros [fuel Hr]; by eapply fuel_loop_runs|apply loop_runs_fuel]. Qed.

Lemma loop_runs_done s s' : loop_runs s None s' → again s' = false.
Proof. clear again_world handle_other. intros Hr. remember None as r eqn:E. by induction Hr; auto. Qed.
End runs.

(** ** Safety and termination *)
Section rules.
Context {S W : Type} `{HasWorld S W} `{Receive W}.
Variables (again : S → bool) (handle : message → M S (option Z)).

(** A handler that keeps [I] or returns in [Q] makes a loop that ends in [I] or [Q]; a run of any
    length reaches no undefined behaviour. *)
Lemma message_loop_wlp (I : S → Prop) (Q : Z → S → Prop) :
  (∀ w s, I s → I (set_the_world w s)) →
  (∀ m s, again s = true → I s →
     wp (handle m) (λ r s', match r with Some rc => Q rc s' | None => I s' end) s) →
  (∀ w s, again (set_the_world w s) = again s) →
  ∀ fuel s, I s → wlp (message_loop again handle fuel)
    (λ r s', match r with Some rc => Q rc s' | None => I s' ∧ again s' = false end) s.
Proof.
  intros Hw Hh Ha. induction fuel as [|fuel IH]; intros s HI; [done|].
  destruct (again s) eqn:Hs; [|unfold wlp; by rewrite message_loop_exit].
  destruct (driver_receive (the_world s)) as [[rc m] w] eqn:E.
  unfold wlp. rewrite (message_loop_turn _ _ _ _ _ _ _ Hs E).
  destruct (negb (rc =? 0)); [apply IH; auto|].
  specialize (Hh m (set_the_world w s)). rewrite Ha in Hh. specialize (Hh Hs (Hw w s HI)).
  unfold wp in Hh. destruct (handle m _) as [[[rc'|] s1]| |]; [done| |done..]. by apply IH.
Qed.

Variable ours : message → bool.

(** When every message for the loop is handled without a return, keeps [I] and decreases [mu], the
    loop runs to its exit. *)
Lemma loop_runs_measure (I : S → Prop) (mu : S → nat) :
  keeps_coming ours →
  (∀ m w s, again s = true → I s → awaits ours (the_world s) m w →
     wp (handle m) (λ r s', r = None ∧ I s' ∧ (mu s' < mu s)%nat) (set_the_world w s)) →
  ∀ s, I s → ∃ s', loop_runs again handle ours s None s' ∧ I s'.
Proof.
  intros Hk Hh s. remember (mu s) as n eqn:Hn. revert s Hn.
  induction (lt_wf n) as [n _ IH]. intros s -> HI.
  destruct (again s) eqn:Ha; [|exists s; split; [by constructor|done]].
  destruct (Hk (the_world s)) as (m & w & Haw). specialize (Hh m w s Ha HI Haw).
  apply wp_done in Hh as (r & s1 & Hr & -> & HI1 & Hmu).
  destruct (IH _ Hmu s1 eq_refl HI1) as (s' & Hr' & HI'). exists s'. split; [|done].
  by eapply runs_next.
Qed.
End rules.

(** ** Several messages in a row *)
Section series.
Context {W : Type} `{Receive W}.

(** [n] messages for [ours], one after the other, whose handling leaves the world alone. *)
Inductive awaits_n (ours : message → bool) : nat → W → W → Prop :=
| awaits_none w : awaits_n ours 0 w w
| awaits_more n w m w1 w' :
    awaits ours w m w1 → awaits_n ours n w1 w' → awaits_n ours (Datatypes.S n) w w'.

Lemma awaits_n_exists ours n w : keeps_coming ours → ∃ w', awaits_n ours n w w'.
Proof.
  intros Hk. revert w. induction n as [|n IH]; intros w; [exists w; constructor|].
  destruct (Hk w) as (m & w1 & Hm), (IH w1) as [w' Hw']. exists w'. by econstructor.
Qed.
End series.

(** A hardware notification with the bit of [irq]: the messages an interrupt loop handles. *)
Definition is_interrupt (irq : Z) (m : message) : bool := from_hardware m && irq_pending m irq.

(** ** Fairness

    Interrupts of the timer come again and again, whatever else arrives in between: the argument
    for the termination of the loops that count frames. *)
Section fairness.
Context {W : Type} `{PortIO W} `{Receive W}.
Import Keyboard.Spec.

(** The next message arrives and carries the interrupt [irq]. *)
Definition brings (irq : Z) (w : W) : Prop :=
  let '(rc, m, _) := driver_receive w in rc = 0 ∧ is_interrupt irq m = true.

(** What becomes of a message without it: the program ignores it, or its keyboard handler reads
    the controller. *)
Inductive passes (w : W) : W → Prop :=
| passes_by rc m w1 : driver_receive w = ((rc, m), w1) → passes w w1
| passes_read m w1 r w2 :
    driver_receive w = ((0, m), w1) → reads KEYBOARD_OUT_CMD false 10 w1 r w2 → passes w w2.

(** Only finitely many messages come before the next one with [irq]. *)
Inductive due (irq : Z) (w : W) : Prop :=
| due_now : brings irq w → due irq w
| due_later : (∀ w', passes w w' → due irq w') → due irq w.
End fairness.

Section fair_loops.
Context {S W : Type} `{HasWorld S W} `{PortIO W} `{Receive W}.
Variables (again : S → bool) (handle : message → M S (option Z)) (irq : Z).
Variables (I : S → Prop) (mu : S → nat).

Hypothesis again_world : ∀ w s, again (set_the_world w s) = again s.
Hypothesis I_world : ∀ w s, I s → I (set_the_world w s) ∧ mu (set_the_world w s) = mu s.

(** A message with [irq] decreases [mu], any other keeps it from growing. *)
Hypothesis handle_irq : ∀ m s, again s = true → I s → is_interrupt irq m = true →
  wp (handle m) (λ r s', r = None ∧ I s' ∧ (mu s' < mu s)%nat) s.
Hypothesis handle_rest : ∀ m w s, again s = true → I s → is_interrupt irq m = false →
  driver_receive w = ((0, m), the_world s) →
  wp (handle m) (λ r s', r = None ∧ I s' ∧ (mu s' <= mu s)%nat ∧ passes w (the_world s')) s.

Lemma fair_turn s : again s = true → I s → ∃ s1, I s1 ∧
  (∀ fuel, message_loop again handle (Datatypes.S fuel) s = message_loop again handle fuel s1) ∧
  ((mu s1 < mu s)%nat ∨
   ¬ brings irq (the_world s) ∧ (mu s1 <= mu s)%nat ∧ passes (the_world s) (the_world s1)).
Proof.
  intros Ha HI. unfold brings. destruct (driver_receive (the_world s)) as [[rc m] w] eqn:E.
  destruct (I_world w s HI) as [HIw Hmu].
  assert (∀ fuel, message_loop again handle (Datatypes.S fuel) s = _) as Hturn
    by (intros fuel; exact (message_loop_turn again handle fuel s rc m w Ha E)).
  destruct (Z.eqb_spec rc 0) as [->|Hrc]; cbn [negb Z.eqb] in Hturn.
  - rewrite <- (again_world w) in Ha. destruct (is_interrupt irq m) eqn:Em.
    + pose proof (handle_irq m _ Ha HIw Em) as Hw. apply wp_done in Hw as (r & s1 & Er & -> & HI1 & Hlt).
      exists s1. split; [done|]. split; [intros fuel; by rewrite Hturn, Er|]. left. lia.
    + pose proof (handle_rest m (the_world s) _ Ha HIw Em) as Hw. rewrite the_world_set in Hw.
      specialize (Hw E). apply wp_done in Hw as (r & s1 & Er & -> & HI1 & Hle & Hp).
      exists s1. split; [done|]. split; [intros fuel; by rewrite Hturn, Er|]. right.
      split; [by intros []|]. split; [lia|done].
  - exists (set_the_world w s). split; [done|]. split; [intros fuel; by rewrite Hturn|]. right.
    split; [by intros []|]. split; [lia|]. rewrite the_world_set. by eapply passes_by.
Qed.

Lemma message_loop_fair : (∀ w : W, due irq w) → ∀ s, I s → ∃ fuel s',
  message_loop again handle fuel s = Done (None, s') ∧ I s' ∧ again s' = false.
Proof.
  intros Hdue s. remember (mu s) as n eqn:Hn. assert (mu s <= n)%nat as Hle by lia. clear Hn.
  revert s Hle. induction (lt_wf n) as [n _ IHn]. intros s.
  remember (the_world s) as w eqn:Ew. revert s Ew.
  induction (Hdue w) as [w Hb|w _ IHw]; intros s -> Hle HI;
    (destruct (again s) eqn:Ha;
      [|exists 1%nat, s; split; [by apply message_loop_exit|done]]);
    destruct (fair_turn s Ha HI) as (s1 & HI1 & Hstep & Hcase).
  - destruct Hcase as [Hlt|[? _]]; [|done].
    destruct (IHn (mu s1)) with (s := s1) as (fuel & s' & ?); [lia|done..|].
    exists (Datatypes.S fuel), s'. by rewrite Hstep.
  - destruct Hcase as [Hlt|(_ & Hle1 & Hp)].
    + destruct (IHn (mu s1)) with (s := s1) as (fuel & s' & ?); [lia|done..|].
      exists (Datatypes.S fuel), s'. by rewrite Hstep.
    + destruct (IHw _ Hp s1 eq_refl) as (fuel & s' & ?); [lia|done|].
      exists (Datatypes.S fuel), s'. by rewrite Hstep.
Qed.
End fair_loops.
