(* ===== verification/Timer.v ===== *)
(** * controllers/timer/timer.c: the i8254 timer

    Configuration through the read-back command, programming of the divisor, interrupt
    subscription and the tick counter.  The globals [hook_id] and [timer_counter] are passed
    in and returned. *)

From S2P Require Import Prelude Machine Utils.

(** ** Constants of i8254.h *)
Definition TIMER_FREQ : Z := 1193182.
Definition TIMER0_IRQ : Z := 0.
Definition TIMER_0 : Z := 0x40.
Definition TIMER_1 : Z := 0x41.
Definition TIMER_2 : Z := 0x42.
Definition TIMER_CTRL : Z := 0x43.
Definition TIMER_SEL0 : Z := 0x00.
Definition TIMER_SEL1 : Z := BIT 6.
Definition TIMER_SEL2 : Z := BIT 7.
Definition TIMER_RB_CMD : Z := Z.lor (BIT 7) (BIT 6).
Definition TIMER_LSB : Z := BIT 4.
Definition TIMER_MSB : Z := BIT 5.
Definition TIMER_LSB_MSB : Z := Z.lor TIMER_LSB TIMER_MSB.
Definition TIMER_BCD : Z := 0x01.
Definition TIMER_RB_COUNT_ : Z := BIT 5.
Definition TIMER_RB_SEL (n : Z) : Z := BIT (n + 1).

(** ** lcom/timer.h: the fields of a timer's status *)
Inductive timer_init := INVAL_val | LSB_only | MSB_only | MSB_after_LSB.
Inductive timer_status_field := tsf_all | tsf_initial | tsf_mode | tsf_base.
(** The union timer_status_field_val, tagged by the member last written. *)
Inductive timer_status_field_val :=
| byte (b : Z)
| in_mode (m : timer_init)
| count_mode (m : Z)
| bcd (b : bool).

#[export] Instance timer_init_eq_dec : EqDecision timer_init.
Proof. solve_decision. Defined.
#[export] Instance timer_status_field_eq_dec : EqDecision timer_status_field.
Proof. solve_decision. Defined.

#[export] Instance timer_status_field_val_eq_dec : EqDecision timer_status_field_val.
Proof. solve_decision. Defined.

(** The printing function of LCF. *)
Class TimerPrint (W : Type) := {
  timer_print_config : Z → timer_status_field → timer_status_field_val → W → Z * W;
}.

Section operations.
Context {W : Type} `{PortIO W} `{Interrupts W} `{TimerPrint W}.

Definition timer_get_conf (timer : Z) (st : option Z) : M W (Z * option Z) :=
  match st with
  | None => mret (1, None)
  | Some _ =>
      if (timer >? 2) || (timer <? 0) then mret (1, st) else
      let rbc := u8 (Z.lor (Z.lor TIMER_RB_CMD TIMER_RB_COUNT_) (TIMER_RB_SEL timer)) in
      rc ← call (sys_outb TIMER_CTRL rbc);
      if negb (rc =? 0) then mret (1, st) else
      let timer_address := i32 (TIMER_0 + timer) in
      '(rc, st) ← util_sys_inb timer_address st;
      if negb (rc =? 0) then mret (1, st) else mret (0, st)
  end.

(** The selection bits and the port of [switch (timer)]. *)
Definition timer_select (timer : Z) : option (Z * Z) :=
  match timer with
  | 0 => Some (TIMER_SEL0, TIMER_0)
  | 1 => Some (TIMER_SEL1, TIMER_1)
  | 2 => Some (TIMER_SEL2, TIMER_2)
  | _ => None
  end.

Definition timer_set_frequency (timer freq : Z) : M W Z :=
  if (timer >? 2) || (timer <? 0) then mret 1 else
  if (freq >? TIMER_FREQ) || (freq <? 19) then mret 1 else
  '(rc, conf) ← timer_get_conf timer (Some 0);
  if negb (rc =? 0) then mret 1 else
  control_word ← of_option conf;
  let control_word := u8 (Z.land control_word 0x0F) in
  let control_word := u8 (Z.lor control_word TIMER_LSB_MSB) in
  match timer_select timer with
  | None => mret 1
  | Some (sel, selected_timer) =>
      let control_word := u8 (Z.lor control_word sel) in
      call (sys_outb TIMER_CTRL control_word) ;?
      (let initial_value := u32 (TIMER_FREQ / freq) in
       let '(rc, msb) := util_get_MSB initial_value (Some 0) in
       if negb (rc =? 0) then mret 1 else
       let '(rc, lsb) := util_get_LSB initial_value (Some 0) in
       if negb (rc =? 0) then mret 1 else
       lsb ← of_option lsb;
       msb ← of_option msb;
       call (sys_outb selected_timer lsb) ;?
       (call (sys_outb selected_timer msb) ;?
        mret 0))
  end.

(** Result: status, [*bit_no], [hook_id]. *)
Definition timer_subscribe_int (bit_no : option Z) (hook_id : Z) : M W (Z * option Z * Z) :=
  match bit_no with
  | None => mret (1, None, hook_id)
  | Some _ =>
      let bit_no := Some (u8 hook_id) in
      '(rc, hook) ← call (sys_irqsetpolicy TIMER0_IRQ IRQ_REENABLE hook_id);
      if negb (rc =? 0) then mret (1, bit_no, hook) else mret (0, bit_no, hook)
  end.

Definition timer_unsubscribe_int (hook_id : Z) : M W (Z * Z) :=
  '(rc, hook) ← call (sys_irqrmpolicy hook_id);
  if negb (rc =? 0) then mret (1, hook) else mret (0, hook).

(** The field of a status byte that timer_display_conf prints. *)
Definition timer_conf_field (st : Z) (field : timer_status_field) : timer_status_field_val :=
  match field with
  | tsf_all => byte st
  | tsf_initial =>
      match u8 (Z.land (Z.shiftr st 4) 0x03) with
      | 1 => in_mode LSB_only
      | 2 => in_mode MSB_only
      | 3 => in_mode MSB_after_LSB
      | _ => in_mode INVAL_val
      end
  | tsf_mode =>
      match u8 (Z.land (Z.shiftr st 1) 0x07) with
      | 6 => count_mode 2
      | 7 => count_mode 3
      | m => count_mode m
      end
  | tsf_base => bcd (negb (Z.land st TIMER_BCD =? 0))
  end.

Definition timer_display_conf (timer st : Z) (field : timer_status_field) : M W Z :=
  rc ← call (timer_print_config timer field (timer_conf_field st field));
  if negb (rc =? 0) then mret 1 else mret 0.
End operations.

Definition timer_int_handler (timer_counter : Z) : Z := i32 (timer_counter + 1).

(** ** What the device must be told, in plain arithmetic *)
Module Spec.

(** Read-back command: latch the status (not the count) of [timer] only. *)
Definition read_back (timer : Z) : Z := 192 + 32 + 2 ^ (timer + 1).

(** Control word: counter [timer], two-byte access, mode and base as they were. *)
Definition control_word (timer st : Z) : Z := 64 * timer + 48 + st mod 16.

Definition divisor (freq : Z) : Z := TIMER_FREQ / freq.

Section spec.
Context {W : Type} `{PortIO W}.

(** The five device accesses of a successful programming, in order. *)
Definition programs (timer freq : Z) (w w' : W) : Prop :=
  ∃ w1 st w2 w3 w4,
    sys_outb TIMER_CTRL (read_back timer) w = (0, w1) ∧
    sys_inb (TIMER_0 + timer) w1 = ((0, st), w2) ∧
    sys_outb TIMER_CTRL (control_word timer (u32 st mod 256)) w2 = (0, w3) ∧
    sys_outb (TIMER_0 + timer) (divisor freq mod 256) w3 = (0, w4) ∧
    sys_outb (TIMER_0 + timer) (divisor freq / 256) w4 = (0, w').
End spec.
End Spec.

Lemma control_word_bits timer b sel port :
  timer_select timer = Some (sel, port) → 0 <= b < 256 →
  u8 (Z.lor (u8 (Z.lor (u8 (Z.land b 0x0F)) TIMER_LSB_MSB)) sel) = Spec.control_word timer b.
Proof.
  intros Hsel Hb. unfold Spec.control_word. apply Z.eqb_eq.
  assert (timer = 0 ∧ sel = 0 ∨ timer = 1 ∧ sel = 64 ∨ timer = 2 ∧ sel = 128)
    as [[-> ->]|[[-> ->]|[-> ->]]].
  { destruct timer as [|[[]|[]|]|]; simplify_eq/=; vm_compute; tauto. }
  all: revert b Hb; apply (forall_byte (λ b, _ =? _)); vm_compute; reflexivity.
Qed.

Lemma timer_select_spec timer :
  0 <= timer <= 2 → ∃ sel, timer_select timer = Some (sel, TIMER_0 + timer).
Proof.
  intros. assert (timer = 0 ∨ timer = 1 ∨ timer = 2) as [->|[->| ->]] by lia; eauto.
Qed.

Lemma read_back_bits timer :
  0 <= timer <= 2 →
  u8 (Z.lor (Z.lor TIMER_RB_CMD TIMER_RB_COUNT_) (TIMER_RB_SEL timer)) = Spec.read_back timer.
Proof. intros. by assert (timer = 0 ∨ timer = 1 ∨ timer = 2) as [->|[->| ->]] by lia. Qed.

Lemma divisor_range freq :
  19 <= freq <= TIMER_FREQ → 1 <= Spec.divisor freq < 65536.
Proof.
  unfold Spec.divisor, TIMER_FREQ. intros. split.
  - apply Z.div_le_lower_bound; lia.
  - apply Z.div_lt_upper_bound; lia.
Qed.

(** Splits on the status of a device access; on a failing one both sides are false. *)
Ltac fork_rc rc :=
  destruct (Z.eqb_spec rc 0) as [->|]; cbn [negb fst snd Z.eqb];
  [|split; [done|intros; open_hyps; simplify_eq/=; merge_calls; done]].

(** ** Properties *)
Section properties.
Context {W : Type} `{PortIO W} `{Interrupts W} `{TimerPrint W}.

(** A timer number above 2 or a frequency outside 19..1193182 Hz is refused with
    status 1 before the device is touched. *)
Theorem timer_set_frequency_rejects timer freq (w : W)
    (Hbad : ¬ (0 <= timer <= 2 ∧ 19 <= freq <= TIMER_FREQ)) :
  timer_set_frequency timer freq w = Done (1, w).
Proof.
  unfold timer_set_frequency.
  destruct ((timer >? 2) || (timer <? 0)) eqn:E1; [done|].
  destruct ((freq >? TIMER_FREQ) || (freq <? 19)) eqn:E2; [done|]. lia.
Qed.

(** C29. Programming a valid timer succeeds exactly when the device accepts, in this order:
    the read-back command for that timer, the status read, a control word that selects
    the timer with two-byte access and keeps the four mode and base bits it read, and
    then the low and the high byte of 1193182/freq. *)
Theorem timer_set_frequency_programs timer freq (w w' : W)
    (Ht : 0 <= timer <= 2) (Hf : 19 <= freq <= TIMER_FREQ) :
  timer_set_frequency timer freq w = Done (0, w') ↔ Spec.programs timer freq w w'.
Proof.
  destruct (timer_select_spec timer Ht) as [sel Hsel].
  pose proof (divisor_range freq Hf) as Hdiv. unfold Spec.divisor in Hdiv.
  unfold timer_set_frequency, timer_get_conf, Spec.programs, Spec.divisor.
  destruct ((timer >? 2) || (timer <? 0)) eqn:E1; [lia|].
  destruct ((freq >? TIMER_FREQ) || (freq <? 19)) eqn:E2; [lia|]. clear E1 E2.
  rewrite read_back_bits by done. rewrite Hsel.
  rewrite (i32_small (TIMER_0 + timer)) by (unfold TIMER_0; lia).
  rewrite (u32_small (TIMER_FREQ / freq)) by lia.
  rewrite util_get_MSB_eq, util_get_LSB_eq, !u16_small by lia.
  unfold util_sys_inb. run_unfold.
  destruct (sys_outb TIMER_CTRL (Spec.read_back timer) w) as [rc1 w1] eqn:E1.
  fork_rc rc1.
  destruct (sys_inb (TIMER_0 + timer) w1) as [[rc2 st] w2] eqn:E2. fork_rc rc2.
  assert (0 <= u32 st mod 256 < 256) by (apply Z.mod_pos_bound; lia).
  rewrite land_ff, (u8_small (u32 st mod 256)), (control_word_bits _ _ _ _ Hsel) by done.
  destruct (sys_outb TIMER_CTRL _ w2) as [rc3 w3] eqn:E3. fork_rc rc3.
  destruct (sys_outb _ (TIMER_FREQ / freq mod 256) w3) as [rc4 w4] eqn:E4. fork_rc rc4.
  destruct (sys_outb _ (TIMER_FREQ / freq / 256) w4) as [rc5 w5] eqn:E5. fork_rc rc5.
  split; [intros [= ->]; eauto 15|].
  intros; open_hyps; simplify_eq/=; by merge_calls.
Qed.

(** The two bytes loaded into the counter are the low and the high byte of 1193182/freq
    without truncation, and 19 Hz is exactly the lowest frequency for which that holds. *)
Theorem timer_divisor_fits freq (Hf : 1 <= freq <= TIMER_FREQ) :
  (∃ lsb msb,
     util_get_LSB (TIMER_FREQ / freq) (Some 0) = (0, Some lsb) ∧
     util_get_MSB (TIMER_FREQ / freq) (Some 0) = (0, Some msb) ∧
     lsb + 256 * msb = TIMER_FREQ / freq) ↔ 19 <= freq.
Proof.
  rewrite util_get_LSB_eq, util_get_MSB_eq.
  pose proof (u16_range (TIMER_FREQ / freq)) as Hu.
  pose proof (Z.div_mod (u16 (TIMER_FREQ / freq)) 256) as Hdm. split.
  - intros (lsb & msb & [= <-] & [= <-] & Heq).
    destruct (decide (19 <= freq)) as [|Hlt]; [done|].
    assert (TIMER_FREQ / 18 <= TIMER_FREQ / freq) as Hle
      by (apply Z.div_le_compat_l; unfold TIMER_FREQ; lia).
    change (TIMER_FREQ / 18) with 66287 in Hle. lia.
  - intros. eexists _, _. split_and!; [done..|].
    pose proof (divisor_range freq ltac:(lia)) as Hd. unfold Spec.divisor in Hd.
    rewrite (u16_small (TIMER_FREQ / freq)) in * by lia. lia.
Qed.

(** Reading the configuration back after programming it: whatever status byte the timer
    had, the control word written decodes to two-byte access, and to the same counting
    mode and the same base as before. *)
Theorem control_word_roundtrip timer st (Ht : 0 <= timer <= 2) (Hst : 0 <= st < 256) :
  let cw := Spec.control_word timer st in
  timer_conf_field cw tsf_initial = in_mode MSB_after_LSB ∧
  timer_conf_field cw tsf_mode = timer_conf_field st tsf_mode ∧
  timer_conf_field cw tsf_base = timer_conf_field st tsf_base.
Proof.
  simpl. assert (timer = 0 ∨ timer = 1 ∨ timer = 2) as [->|[->| ->]] by lia.
  all: split_and!; byte_decide st.
Qed.

(** Programming timer 0 returns a status. *)
Lemma timer_set_frequency_returns freq (w : W) :
  wp (timer_set_frequency 0 freq) (λ rc _, rc = 0 ∨ rc = 1) w.
Proof.
  unfold timer_set_frequency, timer_get_conf, util_sys_inb, wp. run_unfold.
  repeat first
    [ progress cbn
    | match goal with
      | |- context [sys_outb ?a ?b ?w] => destruct (sys_outb a b w)
      | |- context [sys_inb ?a ?w] => destruct (sys_inb a w) as [[? ?] ?]
      | |- context [if ?b then _ else _] => destruct b
      end]; auto.
Qed.
End properties.

(** ** Witnesses *)
Section witnesses.
Import Sim.

Definition timer_sim : sim := MkSim [0x34] [] 0 [] [] [] tiny_mode.
Definition timer_sim_after : sim :=
  MkSim [] [(0x43, 0xE2); (0x43, 0x34); (0x40, 0xAE); (0x40, 0x4D)] 0 [] [] [] tiny_mode.

Lemma timer_set_frequency_rejects_witness :
  ¬ (0 <= 0 <= 2 ∧ 19 <= 18 <= TIMER_FREQ) ∧
  timer_set_frequency 0 18 timer_sim = Done (1, timer_sim).
Proof. split; [lia|]. apply timer_set_frequency_rejects. lia. Defined.

Lemma timer_set_frequency_programs_witness :
  timer_set_frequency 0 60 timer_sim = Done (0, timer_sim_after) ∧
  Spec.programs 0 60 timer_sim timer_sim_after.
Proof.
  split; [reflexivity|]. apply timer_set_frequency_programs; unfold TIMER_FREQ; [lia|lia|].
  reflexivity.
Defined.

Lemma timer_divisor_fits_witness :
  (∃ lsb msb,
     util_get_LSB (TIMER_FREQ / 60) (Some 0) = (0, Some lsb) ∧
     util_get_MSB (TIMER_FREQ / 60) (Some 0) = (0, Some msb) ∧
     lsb + 256 * msb = TIMER_FREQ / 60).
Proof. apply timer_divisor_fits; unfold TIMER_FREQ; lia. Defined.

Lemma control_word_roundtrip_witness :
  let cw := Spec.control_word 0 0x34 in
  timer_conf_field cw tsf_initial = in_mode MSB_after_LSB ∧
  timer_conf_field cw tsf_mode = timer_conf_field 0x34 tsf_mode ∧
  timer_conf_field cw tsf_base = timer_conf_field 0x34 tsf_base.
Proof. apply control_word_roundtrip; lia. Defined.
End witnesses.
