(* ===== verification/Mouse.v ===== *)
(** * controllers/mouse: the PS/2 mouse behind the i8042

    kb_controller.c (controller commands with acknowledgement and retries) and
    m_interrupts.c (subscription, packet parsing, interrupt handler).  The directory is not
    part of the Makefile of proj/; lab4/ builds the same two files. *)

From S2P Require Import Prelude Machine Utils.

(** ** Constants of i8042.h *)
Definition MOUSE_IRQ : Z := 12.
Definition OUT_BUF : Z := 0x60.
Definition CMD_ARGS_REG : Z := 0x60.
Definition STATUS_REG : Z := 0x64.
Definition CMD_REG : Z := 0x64.
Definition DELAY_US : Z := 20000.
Definition KBC_PARE : Z := BIT 7.
Definition KBC_TIMEO : Z := BIT 6.
Definition KBC_INPB : Z := BIT 1.
Definition KBC_OUTB : Z := BIT 0.
Definition WRITE_CMD_B : Z := 0x60.
Definition WRITE_B_MOUSE : Z := 0xD4.
Definition ACK : Z := 0xFA.
Definition NACK : Z := 0xFE.
Definition ERROR : Z := 0xFC.

(** lcom/lab4.h: struct packet *)
Record packet := Packet {
  pk_bytes : list Z;
  rb : bool; mb : bool; lb : bool;
  delta_x : Z; delta_y : Z;
  x_ov : bool; y_ov : bool;
}.

Section operations.
Context {W : Type} `{PortIO W} `{Interrupts W}.

(** The byte functions return their status and the object they were given the address of. *)
Definition kbc_read_status (stat : Z) : M W (Z * Z) :=
  '(rc, status) ← call (sys_inb STATUS_REG);
  if negb (rc =? 0) then mret (1, stat) else mret (0, u8 status).

Definition kbc_read_buffer (byte : Z) : M W (Z * Z) :=
  '(rc, output) ← call (sys_inb OUT_BUF);
  if negb (rc =? 0) then mret (1, byte) else mret (0, u8 output).

Definition kbc_check_out_buf : M W bool :=
  '(rc, status) ← kbc_read_status 0;
  if negb (rc =? 0) then mret false else
  if negb (Z.land status KBC_OUTB =? 0) then
    if Z.land status (Z.lor KBC_PARE KBC_TIMEO) =? 0 then mret true else mret false
  else mret false.

Definition kbc_check_in_buf : M W bool :=
  '(rc, status) ← kbc_read_status 0;
  if negb (rc =? 0) then mret false else
  mret (Z.land status KBC_INPB =? 0).

Definition pause : M W unit := modify (tickdelay (micros_to_ticks DELAY_US)).

(** [while (tries++ < 3)] of the two one-byte writes, which differ in the port only. *)
Fixpoint kbc_write_tries (n : nat) (port v : Z) : M W Z :=
  match n with
  | O => mret 1
  | S n =>
      ok ← kbc_check_in_buf;
      if ok : bool then
        rc ← call (sys_outb port v);
        if negb (rc =? 0) then mret 1 else mret 0
      else pause;; kbc_write_tries n port v
  end.

Definition kbc_write_command (cmd : Z) : M W Z := kbc_write_tries 3 CMD_REG cmd.
Definition kbc_write_argument (arg : Z) : M W Z := kbc_write_tries 3 CMD_ARGS_REG arg.

Fixpoint mouse_write_tries (n : nat) (cmd ans : Z) : M W (Z * Z) :=
  match n with
  | O => mret (1, ans)
  | S n =>
      ok ← kbc_check_in_buf;
      if ok : bool then
        rc ← call (sys_outb CMD_ARGS_REG cmd);
        if negb (rc =? 0) then mret (1, ans) else
        pause;;
        '(rc, output) ← call (sys_inb OUT_BUF);
        if negb (rc =? 0) then mret (1, ans) else mret (0, u8 output)
      else pause;; mouse_write_tries n cmd ans
  end.

Definition mouse_write_command (cmd ans : Z) : M W (Z * Z) := mouse_write_tries 3 cmd ans.

(** The do-while loop.  An iteration that neither returns nor sees a NACK leaves [tries]
    as it is, so the loop has no bound of its own: [fuel] bounds the iterations. *)
Fixpoint command_loop (fuel : nat) (cmd arg tries : Z) : M W Z :=
  match fuel with
  | O => no_fuel
  | S fuel =>
      let while_tries tries :=
        if tries <? 3 then command_loop fuel cmd arg tries else mret 1 in
      kbc_write_command cmd ;?
      (if cmd =? WRITE_B_MOUSE then
         '(rc, ans) ← mouse_write_command arg 0;
         if negb (rc =? 0) then mret 1 else
         if ans =? ACK then mret 0 else
         if ans =? NACK then while_tries (tries + 1) else
         if ans =? ERROR then mret 1 else
         while_tries tries
       else if cmd =? WRITE_CMD_B then
         rc ← kbc_write_argument arg;
         if negb (rc =? 0) then mret 1 else mret 0
       else while_tries tries)
  end.

Definition kbc_command_handler (fuel : nat) (cmd arg : Z) : M W Z :=
  command_loop fuel cmd arg 0.

Definition mouse_subscribe_int (irq_mask : option Z) (mouse_hookID : Z)
    : M W (Z * option Z * Z) :=
  match irq_mask with
  | None => mret (1, None, mouse_hookID)
  | Some _ =>
      let irq_mask := Some (u8 (BIT mouse_hookID)) in
      '(rc, hook) ← call (sys_irqsetpolicy MOUSE_IRQ
                            (Z.lor IRQ_REENABLE IRQ_EXCLUSIVE) mouse_hookID);
      if negb (rc =? 0) then mret (1, irq_mask, hook) else mret (0, irq_mask, hook)
  end.

Definition mouse_unsubscribe_int (mouse_hookID : Z) : M W (Z * Z) :=
  '(rc, hook) ← call (sys_irqrmpolicy mouse_hookID);
  if negb (rc =? 0) then mret (1, hook) else mret (0, hook).

(** mouse_ih(): the result is the new value of the global [data]. *)
Definition mouse_ih (data : Z) : M W Z :=
  ok ← kbc_check_out_buf;
  if ok : bool then '(_, data) ← kbc_read_buffer data; mret data else mret data.
End operations.

(** Copies [buf[i]] to [pkt->bytes[i]] for [n] indices from [i]; outside either array the
    access is undefined. *)
Fixpoint copy_bytes (n i : nat) (buf dst : list Z) : outcome (list Z) :=
  match n with
  | O => Done dst
  | S n =>
      match buf !! i with
      | Some b => if decide (i < length dst)%nat
                  then copy_bytes n (S i) buf (<[i := b]> dst) else Undef
      | None => Undef
      end
  end.

Definition mouse_parse_packet (pkt : option packet) (buf : option (list Z)) (len : Z)
    : outcome (option packet) :=
  match pkt, buf with
  | Some p, Some buf =>
      match buf !! 0%nat, buf !! 1%nat, buf !! 2%nat with
      | Some b0, Some b1, Some b2 =>
          let x_move := i16 b1 in
          let y_move := i16 b2 in
          let x_move := if has_bit b0 4 then i16 (Z.lor x_move 0xFF00) else x_move in
          let y_move := if has_bit b0 5 then i16 (Z.lor y_move 0xFF00) else y_move in
          match copy_bytes (Z.to_nat len) 0 buf (pk_bytes p) with
          | Done bytes =>
              Done (Some (Packet bytes (has_bit b0 1) (has_bit b0 2) (has_bit b0 0)
                            x_move y_move (has_bit b0 6) (has_bit b0 7)))
          | Undef => Undef
          | OutOfFuel => OutOfFuel
          end
      | _, _, _ => Undef
      end
  | _, _ => Done pkt
  end.

(** ** The acknowledged command protocol *)
Module Spec.
Section spec.
Context {W : Type} `{PortIO W}.

(** One transmission of [arg] to the mouse: its answer, [None] when a port access or a
    wait for the controller failed. *)
Inductive exchange (arg : Z) (w : W) : option Z → W → Prop :=
| exchange_no_command w' :
    kbc_write_command WRITE_B_MOUSE w = Done (1, w') → exchange arg w None w'
| exchange_no_answer w1 a w' :
    kbc_write_command WRITE_B_MOUSE w = Done (0, w1) →
    mouse_write_command arg 0 w1 = Done ((1, a), w') → exchange arg w None w'
| exchange_answer w1 a w' :
    kbc_write_command WRITE_B_MOUSE w = Done (0, w1) →
    mouse_write_command arg 0 w1 = Done ((0, a), w') → exchange arg w (Some a) w'.

(** A session with [n] refusals left: it ends with 0 at the first ACK, with 1 at the first
    ERROR or failed exchange, or when the refusals are used up; any other answer starts
    the exchange again without counting. *)
Inductive session (arg : Z) : nat → W → Z → W → Prop :=
| session_refused w : session arg 0 w 1 w
| session_failed n w w' : exchange arg w None w' → session arg (S n) w 1 w'
| session_ack n w w' : exchange arg w (Some ACK) w' → session arg (S n) w 0 w'
| session_error n w w' : exchange arg w (Some ERROR) w' → session arg (S n) w 1 w'
| session_nack n w w1 r w' :
    exchange arg w (Some NACK) w1 → session arg n w1 r w' → session arg (S n) w r w'
| session_noise n w a w1 r w' :
    exchange arg w (Some a) w1 → a ≠ ACK → a ≠ NACK → a ≠ ERROR →
    session arg (S n) w1 r w' → session arg (S n) w r w'.
End spec.
End Spec.

Section lemmas.
Context {W : Type} `{PortIO W}.
Import Spec.

Lemma kbc_check_in_buf_total (w : W) : ∃ ok w', kbc_check_in_buf w = Done (ok, w').
Proof.
  unfold kbc_check_in_buf, kbc_read_status. run_unfold.
  destruct (sys_inb STATUS_REG w) as [[rc v] w1]. destruct (negb (rc =? 0)); by eauto.
Qed.

Lemma kbc_write_tries_total n port v (w : W) :
  ∃ rc w', kbc_write_tries n port v w = Done (rc, w') ∧ (rc = 0 ∨ rc = 1).
Proof.
  revert w. induction n as [|n IH]; intros w; [by repeat econstructor|].
  cbn [kbc_write_tries mouse_write_tries].
  destruct (kbc_check_in_buf_total w) as ([] & w1 & E); erewrite run_done by done.
  - run_unfold. destruct (sys_outb port v w1) as [rc w2].
    destruct (negb (rc =? 0)); by eauto 10.
  - unfold pause. rewrite run_modify. apply IH.
Qed.

Lemma mouse_write_tries_total n cmd ans (w : W) :
  ∃ rc a w', mouse_write_tries n cmd ans w = Done ((rc, a), w') ∧ (rc = 0 ∨ rc = 1).
Proof.
  revert w. induction n as [|n IH]; intros w; [by repeat econstructor|].
  cbn [kbc_write_tries mouse_write_tries].
  destruct (kbc_check_in_buf_total w) as ([] & w1 & E); erewrite run_done by done.
  - unfold pause. run_unfold. destruct (sys_outb CMD_ARGS_REG cmd w1) as [rc w2].
    destruct (negb (rc =? 0)); [by eauto 10|].
    destruct (sys_inb OUT_BUF _) as [[rc3 v] w3]. destruct (negb (rc3 =? 0)); by eauto 10.
  - unfold pause. rewrite run_modify. apply IH.
Qed.

Lemma exchange_total arg (w : W) : ∃ a w', exchange arg w a w'.
Proof.
  destruct (kbc_write_tries_total 3 CMD_REG WRITE_B_MOUSE w) as (rc & w1 & E & [->| ->]);
    [|by eauto using exchange].
  destruct (mouse_write_tries_total 3 arg 0 w1) as (rc & a & w2 & E2 & [->| ->]);
    by eauto using exchange.
Qed.

(** One iteration of the loop in terms of the exchange it makes. *)
Lemma command_loop_step fuel arg tries (w w1 : W) a :
  exchange arg w a w1 →
  command_loop (S fuel) WRITE_B_MOUSE arg tries w =
    let while_tries tries :=
      if tries <? 3 then command_loop fuel WRITE_B_MOUSE arg tries w1 else Done (1, w1) in
    match a with
    | None => Done (1, w1)
    | Some a =>
        if a =? ACK then Done (0, w1) else
        if a =? NACK then while_tries (tries + 1) else
        if a =? ERROR then Done (1, w1) else while_tries tries
    end.
Proof.
  intros Hx. cbn [command_loop]. rewrite Z.eqb_refl.
  destruct Hx as [w' E|w0 a w' E E2|w0 a w' E E2]; erewrite check_done by done;
    cbn [Z.eqb]; [done|erewrite run_done by done; done|].
  erewrite run_done by done. cbn [Z.eqb negb].
  by destruct (a =? ACK), (a =? NACK), (a =? ERROR), (tries <? 3), (tries + 1 <? 3).
Qed.

(** A session with refusals left is followed by the loop, given fuel; a session without
    any is what the loop's exit returns. *)
Lemma session_run arg n (w w' : W) r :
  session arg n w r w' → (n <= 3)%nat →
  match n with
  | O => w' = w ∧ r = 1
  | S _ => ∃ fuel, command_loop fuel WRITE_B_MOUSE arg (3 - Z.of_nat n) w = Done (r, w')
  end.
Proof.
  induction 1 as [w|n w w' Hx|n w w' Hx|n w w' Hx|n w w1 r w' Hx _ IH|n w a w1 r w' Hx ??? _ IH];
    intros Hn; [done|..].
  1-3: exists 1%nat; by rewrite (command_loop_step _ _ _ _ _ _ Hx).
  - specialize (IH ltac:(lia)). destruct n as [|n].
    + destruct IH as [-> ->]. exists 1%nat. by rewrite (command_loop_step _ _ _ _ _ _ Hx).
    + destruct IH as [fuel IH]. exists (S fuel). rewrite (command_loop_step _ _ _ _ _ _ Hx).
      cbn -[Z.of_nat]. destruct (Z.ltb_spec (3 - Z.of_nat (S (S n)) + 1) 3); [|lia].
      by replace (3 - Z.of_nat (S (S n)) + 1) with (3 - Z.of_nat (S n)) by lia.
  - destruct IH as [fuel IH]; [lia|]. exists (S fuel).
    rewrite (command_loop_step _ _ _ _ _ _ Hx). cbn -[Z.of_nat].
    destruct (Z.eqb_spec a ACK), (Z.eqb_spec a NACK), (Z.eqb_spec a ERROR); try done.
    by destruct (Z.ltb_spec (3 - Z.of_nat (S n)) 3); [|lia].
Qed.

Lemma run_session arg fuel : ∀ n (w w' : W) r, (0 < n <= 3)%nat →
  command_loop fuel WRITE_B_MOUSE arg (3 - Z.of_nat n) w = Done (r, w') → session arg n w r w'.
Proof.
  induction fuel as [|fuel IH]; intros n w w' r Hn; [done|].
  destruct (exchange_total arg w) as (a & w1 & Hx).
  rewrite (command_loop_step _ _ _ _ _ _ Hx). destruct n as [|n]; [lia|].
  destruct a as [a|]; [|intros [= <- <-]; by eauto using session].
  cbn -[Z.of_nat].
  destruct (Z.eqb_spec a ACK) as [->|]; [intros [= <- <-]; by eauto using session|].
  destruct (Z.eqb_spec a NACK) as [->|].
  - replace (3 - Z.of_nat (S n) + 1) with (3 - Z.of_nat n) by lia.
    intros Hrun. eapply session_nack; [done|].
    destruct (Z.ltb_spec (3 - Z.of_nat n) 3); [apply IH; [lia|done]|].
    assert (n = 0%nat) as -> by lia. injection Hrun as <- <-. constructor.
  - destruct (Z.eqb_spec a ERROR) as [->|]; [intros [= <- <-]; by eauto using session|].
    destruct (Z.ltb_spec (3 - Z.of_nat (S n)) 3); [|lia].
    intros Hrun. eapply session_noise; [done..|]. apply IH; [lia|done].
Qed.
End lemmas.

(** The displacement that a sign bit and a byte stand for. *)
Lemma sign_extend b s : 0 <= b < 256 →
  (if s : bool then i16 (Z.lor (i16 b) 0xFF00) else i16 b) = b - 256 * Z.b2z s.
Proof. intros Hb. destruct s; byte_decide b. Qed.

(** A packet of three bytes: buttons, overflow bits and 9-bit displacements. *)
Definition decoded (b0 b1 b2 : Z) : packet :=
  Packet [b0; b1; b2] (Z.testbit b0 1) (Z.testbit b0 2) (Z.testbit b0 0)
    (b1 - 256 * Z.b2z (Z.testbit b0 4)) (b2 - 256 * Z.b2z (Z.testbit b0 5))
    (Z.testbit b0 6) (Z.testbit b0 7).

Lemma parse_packet_run p b0 b1 b2 :
  length (pk_bytes p) = 3%nat → 0 <= b1 < 256 → 0 <= b2 < 256 →
  mouse_parse_packet (Some p) (Some [b0; b1; b2]) 3 = Done (Some (decoded b0 b1 b2)).
Proof.
  intros Hp Hb1 Hb2. destruct p as [bytes ? ? ? ? ? ? ?]. simpl in Hp.
  destruct bytes as [|? [|? [|? [|]]]]; simplify_eq/=.
  unfold mouse_parse_packet, decoded. cbn -[has_bit i16 Z.lor Z.testbit Z.mul Z.sub].
  by rewrite !has_bit_testbit, !sign_extend by (lia || done).
Qed.

Section commands.
Context {W : Type} `{PortIO W}.
Import Spec.

(** A command to the mouse with enough fuel is a session with three refusals. *)
Lemma command_session arg (w w' : W) r :
  (∃ fuel, kbc_command_handler fuel WRITE_B_MOUSE arg w = Done (r, w')) ↔ session arg 3 w r w'.
Proof.
  split.
  - intros [fuel Hrun]. apply (run_session arg fuel 3); [lia|done].
  - intros Hs. by apply (session_run arg 3 w w' r) in Hs; [|lia].
Qed.

Lemma command_loop_more fuel k arg : ∀ tries (w w' : W) r,
  command_loop fuel WRITE_B_MOUSE arg tries w = Done (r, w') →
  command_loop (fuel + k) WRITE_B_MOUSE arg tries w = Done (r, w').
Proof.
  induction fuel as [|fuel IH]; intros tries w w' r; [done|].
  destruct (exchange_total arg w) as (a & w1 & Hx). cbn [Nat.add].
  rewrite !(command_loop_step _ _ _ _ _ _ Hx). destruct a as [a|]; [|done]. cbn.
  destruct (a =? ACK), (a =? NACK), (a =? ERROR), (tries + 1 <? 3), (tries <? 3); auto.
Qed.
End commands.

(** ** Properties *)
Section properties.
Context {W : Type} `{PortIO W}.
Import Spec.

(** C30. Sending a byte to the mouse implements the acknowledged session with three
    refusals: the loop ends with status [r] exactly when the session does, with 0 at the
    first ACK and 1 at an ERROR, a failed exchange, or the third NACK. *)
Theorem mouse_command_refines arg (w w' : W) r :
  (∃ fuel, kbc_command_handler fuel WRITE_B_MOUSE arg w = Done (r, w')) ↔
  session arg 3 w r w'.
Proof. apply command_session. Qed.

(** When the mouse answers only ACK, NACK or ERROR, three iterations are enough: the
    command ends, with status 0 or 1. *)
Theorem mouse_command_terminates arg (w : W)
    (Hmouse : ∀ w a w', exchange arg w (Some a) w' → a = ACK ∨ a = NACK ∨ a = ERROR) :
  ∃ rc w', kbc_command_handler 3 WRITE_B_MOUSE arg w = Done (rc, w') ∧ (rc = 0 ∨ rc = 1).
Proof.
  enough (∀ n w, (0 < n <= 3)%nat → ∃ rc w',
    command_loop n WRITE_B_MOUSE arg (3 - Z.of_nat n) w = Done (rc, w') ∧ (rc = 0 ∨ rc = 1))
    as Hn by (apply (Hn 3%nat); lia).
  clear w. induction n as [|n IH]; intros w Hn; [lia|].
  destruct (exchange_total arg w) as (a & w1 & Hx).
  rewrite (command_loop_step _ _ _ _ _ _ Hx). destruct a as [a|]; [|by eauto].
  destruct (Hmouse _ _ _ Hx) as [->|[->| ->]]; cbn -[Z.of_nat]; [by eauto|..|by eauto].
  replace (3 - Z.of_nat (S n) + 1) with (3 - Z.of_nat n) by lia.
  destruct (Z.ltb_spec (3 - Z.of_nat n) 3); [apply IH; lia|by eauto].
Qed.

(** Any controller command other than writing the command byte or a byte to the mouse
    never ends on a controller that accepts it: no fuel is enough. *)
Theorem plain_command_diverges cmd arg (w : W)
    (Hcmd : cmd ≠ WRITE_B_MOUSE ∧ cmd ≠ WRITE_CMD_B)
    (Haccept : ∀ w, ∃ w', kbc_write_command cmd w = Done (0, w')) :
  ∀ fuel, kbc_command_handler fuel cmd arg w = OutOfFuel.
Proof.
  intros fuel. unfold kbc_command_handler. revert w.
  induction fuel as [|fuel IH]; intros w; [done|]. cbn [command_loop].
  destruct (Haccept w) as [w1 E]. erewrite check_done by done. cbn [Z.eqb Z.ltb Z.compare].
  destruct Hcmd. destruct (Z.eqb_spec cmd WRITE_B_MOUSE), (Z.eqb_spec cmd WRITE_CMD_B); done.
Qed.

(** A three-byte packet is parsed to its buttons, its overflow bits, and displacements
    that are the 9-bit two's complement numbers formed by the sign bits of the first byte
    and the other two bytes; the bytes are kept in the packet. *)
Theorem mouse_parse_packet_decodes p b0 b1 b2
    (Hp : length (pk_bytes p) = 3%nat) (Hb1 : 0 <= b1 < 256) (Hb2 : 0 <= b2 < 256) :
  mouse_parse_packet (Some p) (Some [b0; b1; b2]) 3 =
  Done (Some (Packet [b0; b1; b2]
    (Z.testbit b0 1) (Z.testbit b0 2) (Z.testbit b0 0)
    (b1 - 256 * Z.b2z (Z.testbit b0 4)) (b2 - 256 * Z.b2z (Z.testbit b0 5))
    (Z.testbit b0 6) (Z.testbit b0 7))).
Proof. by apply parse_packet_run. Qed.
End properties.

(** ** Witnesses *)
Section witnesses.
Import Spec.

(** A controller that is always ready, with a mouse that refuses every byte. *)
#[local] Instance refusing : PortIO unit := {|
  sys_inb := λ port w, ((0, if port =? STATUS_REG then 0 else NACK), w);
  sys_outb := λ _ _ w, (0, w);
  micros_to_ticks := λ us, us;
  tickdelay := λ _ w, w |}.

Lemma mouse_command_terminates_witness :
  ∃ rc w', kbc_command_handler 3 WRITE_B_MOUSE 0xF4 tt = Done (rc, w') ∧ (rc = 0 ∨ rc = 1).
Proof.
  apply mouse_command_terminates. intros [] a [] Hx. inversion Hx as [| |? ? ? E1 E2]; subst.
  injection E2 as <-. by right; left.
Defined.

Lemma plain_command_diverges_witness :
  ∀ fuel, kbc_command_handler fuel 0xA8 0 tt = OutOfFuel.
Proof.
  apply plain_command_diverges; [done|]. intros []. by exists tt.
Defined.

Lemma mouse_parse_packet_decodes_witness :
  mouse_parse_packet (Some (Packet [0; 0; 0] false false false 0 0 false false))
    (Some [0x19; 0xFE; 5]) 3 =
  Done (Some (Packet [0x19; 0xFE; 5] false false true (-2) 5 false false)).
Proof. apply mouse_parse_packet_decodes; [done|lia|lia]. Defined.
End witnesses.
