(* ===== verification/Xpm.v ===== *)
(** * XPM pixmaps

    The sprites of src/xpm are C arrays of strings.  A row is a list of bytes with a string
    notation; the loader [xpm_load] is LCF code outside the repository, a class with the
    behaviour that lcom/xpm.h documents as its law: the format asked for is an argument, and the
    image holds bytes, which the game reads as uint32_t's ([color_at]).  [xpm_wf] is the XPM format: the header
    gives width, height, colours and characters per pixel; then come that many colour lines
    and that many pixel lines, in which every pixel names a declared colour. *)

From Stdlib Require Strings.Byte.
From S2P Require Import Prelude.

Record xpm_row := XpmRow { row_bytes : list Byte.byte }.

Definition row_parse (l : list Byte.byte) : xpm_row := XpmRow l.
Definition row_print (r : xpm_row) : list Byte.byte := row_bytes r.
Declare Scope xpm_scope.
Delimit Scope xpm_scope with xpm.
Bind Scope xpm_scope with xpm_row.
String Notation xpm_row row_parse row_print : xpm_scope.

(** An [xpm_map_t]: the array of rows. *)
Abbreviation xpm_map := (list xpm_row).

(** ** The header *)

Definition byte_digit (b : Byte.byte) : option Z :=
  let n := Z.of_N (Byte.to_N b) in
  if (48 <=? n) && (n <=? 57) then Some (n - 48) else None.

(** The decimal numbers of a line, separated by anything else; [cur] is the one being read. *)
Fixpoint numbers_in (cur : option Z) (l : list Byte.byte) : list Z :=
  match l with
  | [] => option_list cur
  | b :: l =>
      match byte_digit b with
      | Some d => numbers_in (Some (default 0 cur * 10 + d)) l
      | None => option_list cur ++ numbers_in None l
      end
  end.

Record xpm_header := XpmHeader { xh_width : Z; xh_height : Z; xh_colors : Z; xh_cpp : Z }.

Definition header_of (m : xpm_map) : option xpm_header :=
  match m with
  | r :: _ =>
      match numbers_in None (row_bytes r) with
      | [w; h; n; c] => Some (XpmHeader w h n c)
      | _ => None
      end
  | [] => None
  end.

(** ** Well-formed pixmaps *)

Fixpoint bytes_eqb (a b : list Byte.byte) : bool :=
  match a, b with
  | [], [] => true
  | x :: a, y :: b => if Byte.eqb x y then bytes_eqb a b else false
  | _, _ => false
  end.

(** Is [k] one of the keys?  (With [if], so that evaluation stops at the first hit.) *)
Fixpoint declared (k : list Byte.byte) (keys : list (list Byte.byte)) : bool :=
  match keys with
  | [] => false
  | k' :: keys => if bytes_eqb k k' then true else declared k keys
  end.

(** The first [cpp] characters of a line, when it has that many, and the rest. *)
Fixpoint split_key (cpp : nat) (l : list Byte.byte) : option (list Byte.byte * list Byte.byte) :=
  match cpp, l with
  | O, _ => Some ([], l)
  | S cpp, b :: l => '(k, rest) ← split_key cpp l; Some (b :: k, rest)
  | S _, [] => None
  end.

(** A pixel line cut into its [w] keys of [cpp] characters. *)
Fixpoint keys_of (w cpp : nat) (l : list Byte.byte) : option (list (list Byte.byte)) :=
  match w, l with
  | O, [] => Some []
  | O, _ => None
  | S w, _ =>
      '(k, rest) ← split_key cpp l;
      ks ← keys_of w cpp rest;
      Some (k :: ks)
  end.

Definition line_ok (colors : list (list Byte.byte)) (w cpp : nat) (r : xpm_row) : bool :=
  match keys_of w cpp (row_bytes r) with
  | Some ks => forallb (λ k, declared k colors) ks
  | None => false
  end.

Definition xpm_wf (m : xpm_map) : bool :=
  match header_of m with
  | None => false
  | Some h =>
      let n := Z.to_nat (xh_colors h) in
      let cpp := Z.to_nat (xh_cpp h) in
      let colors := (λ r, take cpp (row_bytes r)) <$> take n (tail m) in
      let lines := drop n (tail m) in
      (0 <? xh_width h) && (xh_width h <? 65536) && (0 <? xh_height h) && (xh_height h <? 65536)
      && (1 <=? xh_cpp h)
      && (Z.of_nat (length m) =? 1 + xh_colors h + xh_height h)
      && forallb (λ k, Z.of_nat (length k) =? xh_cpp h) colors
      && forallb (line_ok colors (Z.to_nat (xh_width h)) cpp) lines
  end.

(** The dimensions of a well-formed pixmap. *)
Definition xpm_dims (m : xpm_map) : option (Z * Z) :=
  if xpm_wf m then
    match header_of m with Some h => Some (xh_width h, xh_height h) | None => None end
  else None.

Lemma xpm_dims_range m w h :
  xpm_dims m = Some (w, h) → 0 < w < 65536 ∧ 0 < h < 65536.
Proof.
  unfold xpm_dims, xpm_wf. destruct (header_of m) as [[w' h' n c]|]; [|done].
  simpl. destruct (_ && _) eqn:E; [|done]. intros [= -> ->].
  rewrite !andb_true_iff in E. lia.
Qed.

(** ** The loader *)

(** The output formats of xpm_load. *)
Inductive xpm_image_type :=
| XPM_INDEXED | XPM_1_5_5_5 | XPM_5_6_5 | XPM_8_8_8 | XPM_8_8_8_8
| XPM_GRAY_1_5_5_5 | XPM_GRAY_5_6_5 | XPM_GRAY_8_8_8 | XPM_GRAY_8_8_8_8 | INVALID_XPM.

(** xpm_image_t after a load, with the bytes its pointer leads to; [size] is their number. *)
Record xpm_image := XpmImage {
  img_type : xpm_image_type;
  img_width : Z;
  img_height : Z;
  img_bytes : list Z;
}.

Class XpmLoader := { xpm_load : xpm_map → xpm_image_type → option xpm_image }.

(** lcom/xpm.h: the image of a pixmap in the format asked for, row by row, or NULL on error.  In
    XPM_8_8_8_8 a pixel takes four bytes. *)
Class XpmLoaderLaws `{XpmLoader} := {
  xpm_load_wf m w h : xpm_dims m = Some (w, h) →
    ∃ img, xpm_load m XPM_8_8_8_8 = Some img ∧ img_width img = w ∧ img_height img = h ∧
           Z.of_nat (length (img_bytes img)) = 4 * (w * h);
}.

(** The bytes read as an array of uint32_t: the element [k], when it is inside. *)
Definition color_at (img : xpm_image) (k : Z) : option Z :=
  match take 4 (skipn (Z.to_nat (4 * k)) (img_bytes img)) with
  | [b0; b1; b2; b3] => Some (b0 + 2 ^ 8 * b1 + 2 ^ 16 * b2 + 2 ^ 24 * b3)
  | _ => None
  end.

Lemma color_at_inside img k : 0 <= k → 4 * k + 4 <= Z.of_nat (length (img_bytes img)) →
  is_Some (color_at img k).
Proof.
  intros Hk Hl. unfold color_at.
  assert (length (take 4 (skipn (Z.to_nat (4 * k)) (img_bytes img))) = 4%nat) as H4
    by (rewrite length_take, length_skipn; lia).
  destruct (take 4 _) as [|b0 [|b1 [|b2 [|b3 [|]]]]]; (discriminate || by eexists).
Qed.

(** [m] is loaded in XPM_8_8_8_8 as an image of [w] by [h] pixels. *)
Definition loads_as `{XpmLoader} (m : xpm_map) (w h : Z) : Prop :=
  0 < w < 65536 ∧ 0 < h < 65536 ∧
  ∃ img, xpm_load m XPM_8_8_8_8 = Some img ∧ img_width img = w ∧ img_height img = h ∧
         Z.of_nat (length (img_bytes img)) = 4 * (w * h).

Lemma xpm_loads_as `{XpmLoaderLaws} m w h : xpm_dims m = Some (w, h) → loads_as m w h.
Proof.
  intros Hd. pose proof (xpm_dims_range m w h Hd) as []. split; [done|]. split; [done|].
  by apply xpm_load_wf.
Qed.

(** Every pixel in the format XPM_8_8_8_8 with the bytes [c]. *)
Definition plain_image (c : list Z) (w h : Z) : xpm_image :=
  XpmImage XPM_8_8_8_8 w h (concat (replicate (Z.to_nat (w * h)) c)).

Lemma plain_length c w h : length c = 4%nat → 0 <= w * h →
  Z.of_nat (length (img_bytes (plain_image c w h))) = 4 * (w * h).
Proof.
  intros Hc Hn. unfold plain_image. cbn [img_bytes]. rewrite <- (Z2Nat.id (w * h)) at 2 by lia.
  induction (Z.to_nat (w * h)) as [|n IH]; [done|]. simpl. rewrite length_app, Hc. lia.
Qed.

(** A loader that meets the law: black images of the right size. *)
Module BlankLoader.
#[export] Instance blank_loader : XpmLoader := {|
  xpm_load := λ m ty,
    match ty with
    | XPM_8_8_8_8 => '(w, h) ← xpm_dims m; Some (plain_image [0; 0; 0; 0] w h)
    | _ => None
    end |}.

#[export] Instance blank_loader_laws : XpmLoaderLaws.
Proof.
  split. intros m w h Hd. exists (plain_image [0; 0; 0; 0] w h).
  simpl. rewrite Hd. simpl. split_and!; [done..|].
  apply plain_length; [done|]. apply xpm_dims_range in Hd. lia.
Qed.
End BlankLoader.
