(* ===== verification/IndexedXpm.v ===== *)
(** * Pixmaps in indexed colours

    The older of the two formats that the framework's loader reads, as src/lab5/pixmap.h documents
    it: the first line gives the width, the height and the number of colours; each colour line
    gives a symbol of one character and the index of its colour; each pixel line has one symbol
    per pixel.  lab5 loads its pixmaps in the output format XPM_INDEXED, for which lcom/xpm.h
    requires this format; one byte per pixel.

    [symbol_at] and [symbol_index] are what the format says of one pixel; [indexed_image] reads a
    whole pixmap, and [indexed_image_pixel] says that it is made of these pixels.  The law of the
    loader in this output format, [IndexedLoaderLaws], is that it returns this image. *)

From Stdlib Require Strings.Byte.
From S2P Require Import Prelude Xpm.

(** ** What the format says *)

Definition indexed_header (m : xpm_map) : option xpm_header :=
  match m with
  | r :: _ =>
      match numbers_in None (row_bytes r) with
      | [w; h; n] => Some (XpmHeader w h n 1)
      | _ => None
      end
  | [] => None
  end.

(** A colour line: the symbol, and the index of the colour after it. *)
Definition color_line (r : xpm_row) : option (Byte.byte * Z) :=
  match row_bytes r with
  | symbol :: rest =>
      match numbers_in None rest with
      | [c] => if c <? 256 then Some (symbol, c) else None
      | _ => None
      end
  | [] => None
  end.

Definition palette (m : xpm_map) (n : Z) : option (list (Byte.byte * Z)) :=
  mapM color_line (take (Z.to_nat n) (tail m)).

(** The index that a symbol stands for. *)
Definition symbol_index (p : list (Byte.byte * Z)) (b : Byte.byte) : option Z :=
  snd <$> find (λ e, Byte.eqb (fst e) b) p.

(** The symbol of the pixel in row [i] and column [j]. *)
Definition pixel_lines (m : xpm_map) (n : Z) : list xpm_row := skipn (Z.to_nat n) (tail m).
Definition symbol_at (m : xpm_map) (n i j : Z) : option Byte.byte :=
  r ← pixel_lines m n !! Z.to_nat i; row_bytes r !! Z.to_nat j.

(** ** Reading a pixmap *)

Definition index_row (p : list (Byte.byte * Z)) (w : Z) (r : xpm_row) : option (list Z) :=
  if Z.of_nat (length (row_bytes r)) =? w then mapM (symbol_index p) (row_bytes r) else None.

(** No symbol is declared twice. *)
Fixpoint distinct (l : list Byte.byte) : bool :=
  match l with
  | [] => true
  | b :: l => negb (existsb (Byte.eqb b) l) && distinct l
  end.

Definition indexed_image (m : xpm_map) : option xpm_image :=
  h ← indexed_header m;
  p ← palette m (xh_colors h);
  rows ← mapM (index_row p (xh_width h)) (pixel_lines m (xh_colors h));
  if (0 <? xh_width h) && (xh_width h <? 65536) && (0 <? xh_height h) && (xh_height h <? 65536)
     && (Z.of_nat (length rows) =? xh_height h) && distinct (fst <$> p)
  then Some (XpmImage XPM_INDEXED (xh_width h) (xh_height h) (concat rows)) else None.

(** ** The pixels of the image are those of the format *)

Lemma concat_lookup {A} (w : nat) (rows : list (list A)) : Forall (λ r, length r = w) rows →
  ∀ i j, (j < w)%nat → concat rows !! (i * w + j)%nat = (r ← rows !! i; r !! j).
Proof.
  induction 1 as [|r rows Hr _ IH]; intros i j Hj; [done|].
  destruct i as [|i]; simpl.
  - by rewrite lookup_app_l by lia.
  - rewrite lookup_app_r by lia. rewrite <- IH by done. f_equal. lia.
Qed.

Lemma concat_rows_length {A} (w : nat) (rows : list (list A)) : Forall (λ r, length r = w) rows →
  length (concat rows) = (length rows * w)%nat.
Proof. induction 1 as [|r rows Hr _ IH]; [done|]. simpl. rewrite length_app. lia. Qed.

Lemma index_row_length p w r l : index_row p w r = Some l → Z.of_nat (length l) = w.
Proof.
  unfold index_row. destruct (Z.eqb_spec (Z.of_nat (length (row_bytes r))) w); [|done].
  intros Hl%length_mapM. lia.
Qed.

Lemma mapM_lookup {A B} (f : A → option B) l k i x : mapM f l = Some k → l !! i = Some x →
  k !! i = f x.
Proof.
  intros Hm%mapM_Some Hl. destruct (Forall2_lookup_l _ _ _ _ _ Hm Hl) as (y & Hy & Hf). congruence.
Qed.

(** What reading says of the header and the palette. *)
Lemma indexed_image_parts m img : indexed_image m = Some img → ∃ n p rows,
  indexed_header m = Some (XpmHeader (img_width img) (img_height img) n 1) ∧ palette m n = Some p ∧
  mapM (index_row p (img_width img)) (pixel_lines m n) = Some rows ∧
  0 < img_width img < 65536 ∧ 0 < img_height img < 65536 ∧
  Z.of_nat (length rows) = img_height img ∧ img_bytes img = concat rows.
Proof.
  unfold indexed_image. destruct (indexed_header m) as [[w h n c]|] eqn:Eh; [|done]. cbn.
  assert (c = 1) as ->.
  { unfold indexed_header in Eh. repeat case_match; by simplify_eq. }
  destruct (palette m n) as [p|] eqn:Ep; [|done]. cbn.
  destruct (mapM _ _) as [rows|] eqn:Er; [|done]. cbn.
  destruct (_ && _) eqn:E; [|done]. intros [= <-]. rewrite !andb_true_iff in E.
  exists n, p, rows. simpl. split_and!; try done; lia.
Qed.

Lemma rows_width p w l rows : 0 < w → mapM (index_row p w) l = Some rows →
  Forall (λ r, length r = Z.to_nat w) rows.
Proof.
  intros Hw Hm%mapM_Some. eapply Forall2_Forall_r; [exact Hm|]. apply Forall_forall.
  intros r _ k Hk%index_row_length. lia.
Qed.

Lemma indexed_image_size m img : indexed_image m = Some img →
  0 < img_width img < 65536 ∧ 0 < img_height img < 65536 ∧
  Z.of_nat (length (img_bytes img)) = img_width img * img_height img.
Proof.
  intros (n & p & rows & _ & _ & Hr & Hw & Hh & Hl & ->)%indexed_image_parts.
  split; [done|]. split; [done|].
  rewrite (concat_rows_length (Z.to_nat (img_width img))) by (by eapply rows_width; [lia|]). nia.
Qed.

(** The colour in row [i] and column [j] is the index of the symbol that stands there. *)
Definition documented_color (m : xpm_map) (i j : Z) : option Z :=
  h ← indexed_header m;
  p ← palette m (xh_colors h);
  b ← symbol_at m (xh_colors h) i j;
  symbol_index p b.

Lemma indexed_image_pixel m img i j : indexed_image m = Some img →
  0 <= i < img_height img → 0 <= j < img_width img →
  img_bytes img !! Z.to_nat (i * img_width img + j) = documented_color m i j ∧
  is_Some (documented_color m i j).
Proof.
  intros Hi Hr Hc. pose proof (indexed_image_size _ _ Hi) as (_ & _ & Hlen).
  assert (is_Some (img_bytes img !! Z.to_nat (i * img_width img + j))) as Hs
    by (apply lookup_lt_is_Some; nia).
  enough (img_bytes img !! Z.to_nat (i * img_width img + j) = documented_color m i j) as E
    by (by rewrite <- E).
  apply indexed_image_parts in Hi as (n & p & rows & Eh & Ep & Hm & Hw & _ & Hl & Ec).
  unfold documented_color. rewrite Eh. cbn. rewrite Ep. cbn. rewrite Ec.
  replace (Z.to_nat (i * img_width img + j)) with
    (Z.to_nat i * Z.to_nat (img_width img) + Z.to_nat j)%nat by nia.
  rewrite concat_lookup by (lia || by eapply rows_width; [lia|]).
  unfold symbol_at. pose proof (length_mapM _ _ _ Hm) as Hlr.
  destruct (lookup_lt_is_Some_2 (pixel_lines m n) (Z.to_nat i)) as [r Er]; [lia|].
  rewrite Er, (mapM_lookup _ _ _ _ _ Hm Er). cbn.
  assert (is_Some (rows !! Z.to_nat i)) as [k Hk] by (apply lookup_lt_is_Some; lia).
  rewrite (mapM_lookup _ _ _ _ _ Hm Er) in Hk. rewrite Hk. unfold index_row in Hk.
  destruct (_ =? _) eqn:Ew; [|done]. cbn.
  destruct (lookup_lt_is_Some_2 (row_bytes r) (Z.to_nat j)) as [b Eb]; [lia|].
  rewrite Eb. cbn. by apply (mapM_lookup _ _ _ _ _ Hk).
Qed.

(** The size of a pixmap in indexed colours. *)
Definition indexed_dims (m : xpm_map) : option (Z * Z) :=
  (λ img, (img_width img, img_height img)) <$> indexed_image m.

Lemma indexed_dims_image m w h : indexed_dims m = Some (w, h) →
  ∃ img, indexed_image m = Some img ∧ img_width img = w ∧ img_height img = h.
Proof. intros (img & ? & ?)%fmap_Some. exists img. by simplify_eq. Qed.

(** The picture of a pixmap. *)
Definition picture (m : xpm_map) (i j : Z) : Z := default 0 (documented_color m i j).

(** Every index is a byte. *)
Lemma numbers_in_nonneg l : ∀ cur, from_option (λ n, 0 <= n) True cur →
  Forall (λ n, 0 <= n) (numbers_in cur l).
Proof.
  induction l as [|b l IH]; intros cur Hc; cbn [numbers_in].
  - destruct cur; by repeat constructor.
  - unfold byte_digit. destruct (_ && _) eqn:E.
    + apply IH. destruct cur; simpl in *; lia.
    + apply Forall_app. split; [destruct cur; by repeat constructor|by apply IH].
Qed.

Lemma color_line_byte r b c : color_line r = Some (b, c) → 0 <= c < 256.
Proof.
  unfold color_line. destruct (row_bytes r) as [|x rest]; [done|].
  pose proof (numbers_in_nonneg rest None I) as Hn.
  destruct (numbers_in None rest) as [|n [|]]; [done| |done].
  destruct (Z.ltb_spec n 256); [|done]. intros [= _ <-]. by inversion Hn.
Qed.

Lemma documented_color_byte m i j c : documented_color m i j = Some c → 0 <= c < 256.
Proof.
  unfold documented_color. destruct (indexed_header m) as [h|]; [|done]. cbn.
  destruct (palette m (xh_colors h)) as [p|] eqn:Ep; [|done]. cbn.
  destruct (symbol_at _ _ _ _) as [b|]; [|done]. cbn. unfold symbol_index.
  intros ([b' c'] & Hf & ->)%fmap_Some. simpl.
  apply find_some in Hf as [Hin%list_elem_of_In _].
  apply list_elem_of_lookup in Hin as [k Hk]. unfold palette in Ep.
  apply mapM_Some in Ep. destruct (Forall2_lookup_r _ _ _ _ _ Ep Hk) as (r & _ & Hr).
  by eapply color_line_byte.
Qed.

(** ** The loader in the output format XPM_INDEXED *)

(** One byte per pixel: the index of its colour. *)
Class IndexedLoaderLaws `{XpmLoader} := {
  indexed_load m img : indexed_image m = Some img → xpm_load m XPM_INDEXED = Some img;
}.

Lemma indexed_dims_range m w h : indexed_dims m = Some (w, h) → 0 < w < 65536 ∧ 0 < h < 65536.
Proof.
  intros (img & Hi & <- & <-)%indexed_dims_image. by destruct (indexed_image_size m img Hi) as (? & ? & ?).
Qed.

(** A loader that meets the laws of both formats: in XPM_8_8_8_8 every pixel is [c]. *)
Module IndexedLoader.
Definition load_with (c : list Z) (m : xpm_map) (ty : xpm_image_type) : option xpm_image :=
  match ty with
  | XPM_INDEXED => indexed_image m
  | XPM_8_8_8_8 => '(w, h) ← xpm_dims m; Some (plain_image c w h)
  | _ => None
  end.

#[export] Instance indexed_loader : XpmLoader := {| xpm_load := load_with [7; 0; 0; 0] |}.
#[export] Instance indexed_loader_laws : IndexedLoaderLaws.
Proof. by split. Qed.
#[export] Instance indexed_loader_direct : XpmLoaderLaws.
Proof.
  split. intros m w h Hd. exists (plain_image [7; 0; 0; 0] w h). simpl. rewrite Hd. simpl.
  split_and!; [done..|]. apply plain_length; [done|]. apply xpm_dims_range in Hd. lia.
Qed.
End IndexedLoader.
