(* ===== verification/SpritesGame.v ===== *)
(** * src/xpm/game: the sprites drawn during a game *)

From S2P Require Import Prelude Xpm.

(** player.h: the ship and the two bullets *)
Module Player.

Definition ship : xpm_map := [
"50 50 89 1 ";
"  c #000000";
". c #010000";
"X c #000100";
"o c #010100";
"O c #010101";
"+ c #000201";
"@ c #000002";
"# c #010002";
"$ c #0B0B0B";
"% c #0B0D0C";
"& c #0C0C0C";
"* c #131313";
"= c #171715";
"- c #171717";
"; c #181617";
": c #171916";
"> c #181816";
", c #191718";
"< c #171918";
"1 c #181818";
"2 c #191919";
"3 c #1A1819";
"4 c #18181A";
"5 c #222222";
"6 c #272725";
"7 c #272727";
"8 c #272727";
"9 c #282627";
"0 c #262827";
"q c #272729";
"w c #282629";
"e c #282828";
"r c #28282A";
"t c #2D2D2D";
"y c #2E2E2C";
"u c #2E2E2E";
"i c #353535";
"p c #363634";
"a c #373735";
"s c #373737";
"d c #373737";
"f c #363638";
"g c #0E5B17";
"h c #0D5D18";
"j c #0F5C18";
"k c #105D19";
"l c #73007A";
"z c #73017B";
"x c #74017A";
"c c #74007B";
"v c #76007B";
"b c #75017C";
"n c #74007E";
"m c #76007D";
"M c #74027C";
"N c #75017E";
"B c #454543";
"V c #444444";
"C c #444444";
"Z c #464445";
"A c #444645";
"S c #464644";
"D c #444547";
"F c #454547";
"G c #474546";
"H c #454545";
"J c #00A211";
"K c #00A012";
"L c #00A113";
"P c #02A113";
"I c #00A213";
"U c #01A214";
"Y c #07AD1B";
"T c #07AD1D";
"R c #00FF1F";
"E c #01FF20";
"W c #7E00A1";
"Q c #7E00A2";
"! c #7E00A4";
"~ c #8000A2";
"^ c #8700C9";
"/ c #8900C8";
"( c #8800C9";
") c #8A00C8";
"_ c #8900CA";
"` c #8801CA";
"' c #8A00CA";
"] c #8A01CB";
"[ c #8900CC";
"                       1111                       ";
"                       1111                       ";
"                      1    1                      ";
"                      188881                      ";
"                      188881                      ";
"                      188881                      ";
"                    1118888111                    ";
"                    1118888111                    ";
"                   1888    888-                   ";
"                   188 1-11 88-                   ";
"                   188 1111 881                   ";
"                   188H1111H881                   ";
"                   1e8H1111H881                   ";
"                   188H1111H881                   ";
"           vQ'     188H1111H8e1     'Qv           ";
"           v!'     188H111-H881     '~v           ";
"           vQ'     188H1<-1H881     '!v           ";
"           v~^     198H1111H881     'Qv           ";
"           v!'     188H1111H881     'Qv           ";
"           vvv   1>188H1111H88>11   vvv           ";
"         110sH  1888HH1    1HB8801  Hsq11         ";
"         118sH  1888HH1    1HH8881  Hsq1-         ";
"         118sH  188 11 1111 -1 e81  Hs811         ";
"  v''    :18sHULE<1H  1znvn1  H11ELUHs811    ''n  ";
"  v''    118sHLLR11H  ,vvvv<  H11RLLHs81-    ''v  ";
"  v''    1<8fHLLk11H-11''''111H11gLLHs811    ''v  ";
"  v''    118fHLLj,<H1-<''''111H11jLLHs81>    ''z  ";
"  v['      LLL111HH1vv''''''nv<HH1<1LLL      '[v  ";
"  vvz      RYj11H  1nz''''''vv1  H11jTR      vvv  ";
"  nvv      RYk11H  1vv''''''vv-  H>1jYR      nvv  ";
"118HH1   119sH11H  1vv'1<11'zz-  H11Hse11   1HH811";
"118HH1  111esH11H  1vzv1111vvn1  H11Hs8111  1HH811";
"118HH1  1118sH,1H  1vvv1111vvv1  H-1Hsw111  1HH811";
"118HH1  880Hy1HH BB 11,HHHH111 HH HH1yH8e8  1HH811";
"1-8HH1118HH1;1  H11HHH1    1HHH1,H  111HH8111HH811";
"118HH1118HH111  H11HHH-    1BHH1-H  1>1HH8111HH811";
"11811888H  HHH111'['11H1<11H1<'''11-HHH  H88811e11";
"11811*ss555sssyy1'''11H%$&&H11'''1yysss555ss*11811";
"11811 HH HH888HH1'''11H    H1<'''<HH908HH HH 11811";
"11811H11H88111nn''''111HHHH111''''vv>1188H11H11811";
"1-811H11H88111vv''''1-1HHHH111''''vv11<e8H11H11811";
"11811 HH88q1& nv''''88811<1888''''vv &1888HH 11811";
"11811H8811>   vv'['v11-HHHH<11v'['nv   11188H11811";
"11811H88111   nn''[v111HHHH111v'''vv   1-188H11811";
"118  8881     vnnvzv  1HHHH1  nzzzzn     1888  811";
"118HH111              111,1-              111HH811";
"118HH111              11-111              111HH811";
"118HH1                <88881                1HH811";
"  111                  1111                  111  ";
"  111                  1111                  111  "]%xpm.

Definition bullet : xpm_map := [
"8 30 2 1";
"  c #000000";
"- c #FF0000";
" ------ ";
" ------ ";
" ------ ";
" ------ ";
" ------ ";
" ------ ";
" ------ ";
" ------ ";
" ------ ";
" ------ ";
" ------ ";
" ------ ";
" ------ ";
" ------ ";
" ------ ";
" ------ ";
" ------ ";
" ------ ";
" ------ ";
" ------ ";
" ------ ";
" ------ ";
" ------ ";
" ------ ";
" ------ ";
" ------ ";
" ------ ";
" ------ ";
" ------ ";
" ------ "]%xpm.

Definition enemy_bullet : xpm_map := [
"5 17 2 1";
"  c #000000";
"- c #00FF00";
" --- ";
" --- ";
" --- ";
" --- ";
" --- ";
" --- ";
" --- ";
" --- ";
" --- ";
" --- ";
" --- ";
" --- ";
" --- ";
" --- ";
" --- ";
" --- ";
" --- "]%xpm.

End Player.

(** aliens.h *)
Module Aliens.

Definition Alien1 : xpm_map := [
"45 34 78 1";
"  c #000000";
". c #00FF00";
"X c #00FF00";
"o c #00FF00";
"O c #00FF00";
"+ c #00FF00";
"@ c #00FF00";
"# c #00FF00";
"$ c #00FF00";
"% c #00FF00";
"& c #00FF00";
"* c #00FF00";
"= c #00FF00";
"- c #00FF00";
"; c #00FF00";
": c #00FF00";
"> c #00FF00";
", c #00FF00";
"< c #00FF00";
"1 c #00FF00";
"2 c #00FF00";
"3 c #00FF00";
"4 c #00FF00";
"5 c #00FF00";
"6 c #00FF00";
"7 c #00FF00";
"8 c #00FF00";
"9 c #00FF00";
"0 c #00FF00";
"q c #00FF00";
"w c #00FF00";
"e c #00FF00";
"r c #00FF00";
"t c #00FF00";
"y c #00FF00";
"u c #00FF00";
"i c #00FF00";
"p c #00FF00";
"a c #00FF00";
"s c #00FF00";
"d c #00FF00";
"f c #00FF00";
"g c #00FF00";
"h c #00FF00";
"j c #00FF00";
"k c #00FF00";
"l c #00FF00";
"z c #00FF00";
"x c #00FF00";
"c c #00FF00";
"v c #00FF00";
"b c #00FF00";
"n c #00FF00";
"m c #00FF00";
"M c #00FF00";
"N c #00FF00";
"B c #00FF00";
"V c #00FF00";
"C c #00FF00";
"Z c #00FF00";
"A c #00FF00";
"S c #00FF00";
"D c #00FF00";
"F c #00FF00";
"G c #00FF00";
"H c #00FF00";
"J c #00FF00";
"K c #00FF00";
"L c #00FF00";
"P c #00FF00";
"I c #00FF00";
"U c #00FF00";
"Y c #00FF00";
"T c #00FF00";
"R c #00FF00";
"E c #00FF00";
"W c #00FF00";
"Q c #00FF00";
"                                             ";
"         ;;;2                    2;2         ";
"         ;JjI                   2UjU;        ";
"         ;2;j                   2joj;        ";
"         ;JcJ                   2UcE;        ";
"          c j2jjj            I2cj  c         ";
"             2jj2           2KjUj            ";
"             2;;2           2c;jj            ";
"             2;;;           2j;jj            ";
"         2j22;;;;22222222222;;;;;22c         ";
"         ;j22;;;;22222222222;;;;;22J.        ";
"         ;2;;;;;;;;;;;;;;;;;;;;;;;;cX        ";
"         ;2oo;222;;;;ooo;;;;;222;;;j;        ";
"     jj2;;;;2    2;;;ooo;;;22   ;2;;;22c     ";
"     2j;;;;;j    2;;;o;oo;;j2   2j;;;;;c     ";
"     22;;;;;j    2;o;o;;;;;j2   2j;;;;;c     ";
"     22;;;;;2    2;oo;ooooo22   22;;;;;j2    ";
" jc2;;;;;o;;;;;;;;o;o;;oooo;;22;;;;;;;;o;;;j ";
" 2c;;;;;;oo;;;;;;;;;;;;;;o;;;;;;;oo;;;;o;;;j ";
" 2joo;222oo;;;;;;;;;;;;;;o;;;;;;;ooo;22;;;;2 ";
" 2j;;;222o;;;;;;;;;o;;;;o;;;;;;;;;;;;222;;;2 ";
" 2j;j;   ;2;;;;;;;;oo;;;;;;;;;;;;;;j;   ;2;2 ";
" 2j;c    ;2;;;;;;;ooo;;;;;;o;o;oo;;c;   ;2;2 ";
" 2j;c    ;2;;2222222222222222222;;;c;   ;2;2 ";
" 2j;c    ;2;;2222222222222222222;;;c;   ;2;2 ";
" 2j;c    ;2;j                   2j;c;   ;2;2 ";
" 2j;c    ;2;j                   2j;c;   ;2;2 ";
" 2UjU<   ;cjI                   2UjU;   2JjJ ";
"  2;j    ;2;2jjjjjjjc    cjjjjjc22;j    <2;2 ";
"             2cccccJj    EcccccUj            ";
"             2;oooo;2    jooooojj            ";
"             jJccccJj    EcccccEj            ";
"             ccjjjjjc    Jjjjjjc             ";
"                                             "]%xpm.

Definition Alien2 : xpm_map := [
"45 34 78 1";
"  c #000000";
". c #00FF00";
"X c #00FF00";
"o c #00FF00";
"O c #00FF00";
"+ c #00FF00";
"@ c #00FF00";
"# c #00FF00";
"$ c #00FF00";
"% c #00FF00";
"& c #00FF00";
"* c #00FF00";
"= c #00FF00";
"- c #00FF00";
"; c #00FF00";
": c #00FF00";
"> c #00FF00";
", c #00FF00";
"< c #00FF00";
"1 c #00FF00";
"2 c #00FF00";
"3 c #00FF00";
"4 c #00FF00";
"5 c #00FF00";
"6 c #00FF00";
"7 c #00FF00";
"8 c #00FF00";
"9 c #00FF00";
"0 c #00FF00";
"q c #00FF00";
"w c #00FF00";
"e c #00FF00";
"r c #00FF00";
"t c #00FF00";
"y c #00FF00";
"u c #00FF00";
"i c #00FF00";
"p c #00FF00";
"a c #00FF00";
"s c #00FF00";
"d c #00FF00";
"f c #00FF00";
"g c #00FF00";
"h c #00FF00";
"j c #00FF00";
"k c #00FF00";
"l c #00FF00";
"z c #00FF00";
"x c #00FF00";
"c c #00FF00";
"v c #00FF00";
"b c #00FF00";
"n c #00FF00";
"m c #00FF00";
"M c #00FF00";
"N c #00FF00";
"B c #00FF00";
"V c #00FF00";
"C c #00FF00";
"Z c #00FF00";
"A c #00FF00";
"S c #00FF00";
"D c #00FF00";
"F c #00FF00";
"G c #00FF00";
"H c #00FF00";
"J c #00FF00";
"K c #00FF00";
"L c #00FF00";
"P c #00FF00";
"I c #00FF00";
"U c #00FF00";
"Y c #00FF00";
"T c #00FF00";
"R c #00FF00";
"E c #00FF00";
"W c #00FF00";
"Q c #00FF00";
"                                             ";
"        ;;;2                    2;2          ";
"        ;JjI                   2UjU;         ";
"        ;2;j                   2joj;         ";
"        ;JcJ                   2UcE;         ";
"         c j2jjj            I2cj  c          ";
"            2jj2           2KjUj             ";
"            2;;2           2c;jj             ";
"            2;;;           2j;jj             ";
"        2j22;;;;22222222222;;;;;22c      <2;2";
"        ;j22;;;;22222222222;;;;;22J.     2JjJ";
"        ;2;;;;;;;;;;;;;;;;;;;;;;;;cX     ;2;2";
"        ;2oo;222;;;;ooo;;;;;222;;;j;     ;2;2";
"    jj2;;;;2    2;;;ooo;;;22   ;2;;;22c  ;2;2";
"    2j;;;;;j    2;;;o;oo;;j2   2j;;;;;c  ;2;2";
"    22;;;;;j    2;o;o;;;;;j2   2j;;;;;c  ;2;2";
"    22;;;;;2    2;oo;ooooo22   22;;;;;j2 ;2;2";
"jc2;;;;;o;;;;;;;;o;o;;oooo;;22;;;;;;;;o;;;j  ";
"2c;;;;;;oo;;;;;;;;;;;;;;o;;;;;;;oo;;;;o;;;j  ";
"2joo;222oo;;;;;;;;;;;;;;o;;;;;;;ooo;22;;;;2  ";
"2j;;;222o;;;;;;;;;o;;;;o;;;;;;;;;;;;222;;;2  ";
"2j;j;   ;2;;;;;;;;oo;;;;;;;;;;;;;;j;         ";
"2j;c    ;2;;;;;;;ooo;;;;;;o;o;oo;;c;         ";
"2j;c    ;2;;2222222222222222222;;;c;         ";
"2j;c    ;2;;2222222222222222222;;;c;         ";
"2j;c    ;2;j                   2j;c;         ";
"2j;c    ;2;j                   2j;c;         ";
"2UjU<   ;cjI                   2UjU;         ";
" 2;j    ;2;2jjjjjjjc    cjjjjjc22;j          ";
"            2cccccJj    EcccccUj             ";
"            2;oooo;2    jooooojj             ";
"            jJccccJj    EcccccEj             ";
"            ccjjjjjc    Jjjjjjc              ";
"                                             "]%xpm.

Definition Alien3 : xpm_map := [
"51 34 78 1";
"  c #000000";
". c #00FF00";
"X c #00FF00";
"o c #00FF00";
"O c #00FF00";
"+ c #00FF00";
"@ c #00FF00";
"# c #00FF00";
"$ c #00FF00";
"% c #00FF00";
"& c #00FF00";
"* c #00FF00";
"= c #00FF00";
"- c #00FF00";
"; c #00FF00";
": c #00FF00";
"> c #00FF00";
", c #00FF00";
"< c #00FF00";
"1 c #00FF00";
"2 c #00FF00";
"3 c #00FF00";
"4 c #00FF00";
"5 c #00FF00";
"6 c #00FF00";
"7 c #00FF00";
"8 c #00FF00";
"9 c #00FF00";
"0 c #00FF00";
"q c #00FF00";
"w c #00FF00";
"e c #00FF00";
"r c #00FF00";
"t c #00FF00";
"y c #00FF00";
"u c #00FF00";
"i c #00FF00";
"p c #00FF00";
"a c #00FF00";
"s c #00FF00";
"d c #00FF00";
"f c #00FF00";
"g c #00FF00";
"h c #00FF00";
"j c #00FF00";
"k c #00FF00";
"l c #00FF00";
"z c #00FF00";
"x c #00FF00";
"c c #00FF00";
"v c #00FF00";
"b c #00FF00";
"n c #00FF00";
"m c #00FF00";
"M c #00FF00";
"N c #00FF00";
"B c #00FF00";
"V c #00FF00";
"C c #00FF00";
"Z c #00FF00";
"A c #00FF00";
"S c #00FF00";
"D c #00FF00";
"F c #00FF00";
"G c #00FF00";
"H c #00FF00";
"J c #00FF00";
"K c #00FF00";
"L c #00FF00";
"P c #00FF00";
"I c #00FF00";
"U c #00FF00";
"Y c #00FF00";
"T c #00FF00";
"R c #00FF00";
"E c #00FF00";
"W c #00FF00";
"Q c #00FF00";
"                                                   ";
"           ;;;2                    2;2             ";
"           ;JjI                   2UjU;            ";
"           ;2;j                   2joj;            ";
"           ;JcJ                   2UcE;            ";
"            c j2jjj            I2cj  c             ";
"               2jj2           2KjUj                ";
"               2;;2           2c;jj                ";
"               2;;;           2j;jj                ";
"  2;j      2j22;;;;22222222222;;;;;22c        ;2;2 ";
" 2UjU<     ;j22;;;;22222222222;;;;;22J.       ;2;2 ";
" 2j;c      ;2;;;;;;;;;;;;;;;;;;;;;;;;cX       ;2;2 ";
" 2j;c      ;2oo;222;;;;ooo;;;;;222;;;j;       ;2;2 ";
" 2j;c  jj2;;;;2    2;;;ooo;;;22   ;2;;;22c    ;2;2 ";
" 2j;c  2j;;;;;j    2;;;o;oo;;j2   2j;;;;;c    ;2;2 ";
" 2j;c  22;;;;;j    2;o;o;;;;;j2   2j;;;;;c    ;2;2 ";
" 2j;j; 22;;;;;2    2;oo;ooooo22   22;;;;;j2   ;2;2 ";
"   jc2;;;;;o;;;;;;;;o;o;;oooo;;22;;;;;;;;o;;;j;2;2 ";
"   2c;;;;;;oo;;;;;;;;;;;;;;o;;;;;;;oo;;;;o;;;j;2;2 ";
"   2joo;222oo;;;;;;;;;;;;;;o;;;;;;;ooo;22;;;;2;2;2 ";
"   2j;;;222o;;;;;;;;;o;;;;o;;;;;;;;;;;;222;;;2;2;2 ";
"           ;2;;;;;;;;oo;;;;;;;;;;;;;;j;            ";
"           ;2;;;;;;;ooo;;;;;;o;o;oo;;c;            ";
"           ;2;;2222222222222222222;;;c;            ";
"           ;2;;2222222222222222222;;;c;            ";
"           ;2;j                   2j;c;            ";
"           ;2;j                   2j;c;            ";
"           ;cjI                   2UjU;            ";
"           ;2;2jjjjjjjc    cjjjjjc22;j             ";
"               2cccccJj    EcccccUj                ";
"               2;oooo;2    jooooojj                ";
"               jJccccJj    EcccccEj                ";
"               ccjjjjjc    Jjjjjjc                 ";
"                                                   "]%xpm.

Definition Alien4 : xpm_map := [
"49 34 78 1";
"  c #000000";
". c #00FF00";
"X c #00FF00";
"o c #00FF00";
"O c #00FF00";
"+ c #00FF00";
"@ c #00FF00";
"# c #00FF00";
"$ c #00FF00";
"% c #00FF00";
"& c #00FF00";
"* c #00FF00";
"= c #00FF00";
"- c #00FF00";
"; c #00FF00";
": c #00FF00";
"> c #00FF00";
", c #00FF00";
"< c #00FF00";
"1 c #00FF00";
"2 c #00FF00";
"3 c #00FF00";
"4 c #00FF00";
"5 c #00FF00";
"6 c #00FF00";
"7 c #00FF00";
"8 c #00FF00";
"9 c #00FF00";
"0 c #00FF00";
"q c #00FF00";
"w c #00FF00";
"e c #00FF00";
"r c #00FF00";
"t c #00FF00";
"y c #00FF00";
"u c #00FF00";
"i c #00FF00";
"p c #00FF00";
"a c #00FF00";
"s c #00FF00";
"d c #00FF00";
"f c #00FF00";
"g c #00FF00";
"h c #00FF00";
"j c #00FF00";
"k c #00FF00";
"l c #00FF00";
"z c #00FF00";
"x c #00FF00";
"c c #00FF00";
"v c #00FF00";
"b c #00FF00";
"n c #00FF00";
"m c #00FF00";
"M c #00FF00";
"N c #00FF00";
"B c #00FF00";
"V c #00FF00";
"C c #00FF00";
"Z c #00FF00";
"A c #00FF00";
"S c #00FF00";
"D c #00FF00";
"F c #00FF00";
"G c #00FF00";
"H c #00FF00";
"J c #00FF00";
"K c #00FF00";
"L c #00FF00";
"P c #00FF00";
"I c #00FF00";
"U c #00FF00";
"Y c #00FF00";
"T c #00FF00";
"R c #00FF00";
"E c #00FF00";
"W c #00FF00";
"Q c #00FF00";
"                                                 ";
"           ;;;2                    2;2           ";
"           ;JjI                   2UjU;          ";
"           ;2;j                   2joj;          ";
"           ;JcJ                   2UcE;          ";
"            c j2jjj            I2cj  c           ";
"               2jj2           2KjUj              ";
"               2;;2           2c;jj              ";
"               2;;;           2j;jj              ";
"  2;j      2j22;;;;22222222222;;;;;22c           ";
" 2UjU<     ;j22;;;;22222222222;;;;;22J.          ";
" 2j;c      ;2;;;;;;;;;;;;;;;;;;;;;;;;cX          ";
" 2j;c      ;2oo;222;;;;ooo;;;;;222;;;j;          ";
" 2j;c  jj2;;;;2    2;;;ooo;;;22   ;2;;;22c       ";
" 2j;c  2j;;;;;j    2;;;o;oo;;j2   2j;;;;;c       ";
" 2j;c  22;;;;;j    2;o;o;;;;;j2   2j;;;;;c       ";
" 2j;j; 22;;;;;2    2;oo;ooooo22   22;;;;;j2      ";
"   jc2;;;;;o;;;;;;;;o;o;;oooo;;22;;;;;;;;o;;;j;  ";
"   2c;;;;;;oo;;;;;;;;;;;;;;o;;;;;;;oo;;;;o;;;j;  ";
"   2joo;222oo;;;;;;;;;;;;;;o;;;;;;;ooo;22;;;;2;  ";
"   2j;;;222o;;;;;;;;;o;;;;o;;;;;;;;;;;;222;;;2;  ";
"           ;2;;;;;;;;oo;;;;;;;;;;;;;;j;    ;2;2  ";
"           ;2;;;;;;;ooo;;;;;;o;o;oo;;c;    ;2;2  ";
"           ;2;;2222222222222222222;;;c;    ;2;2  ";
"           ;2;;2222222222222222222;;;c;    ;2;2  ";
"           ;2;j                   2j;c;    ;2;2  ";
"           ;2;j                   2j;c;    ;2;2  ";
"           ;cjI                   2UjU;    2JjJ  ";
"           ;2;2jjjjjjjc    cjjjjjc22;j     <2;2  ";
"               2cccccJj    EcccccUj              ";
"               2;oooo;2    jooooojj              ";
"               jJccccJj    EcccccEj              ";
"               ccjjjjjc    Jjjjjjc               ";
"                                                 "]%xpm.

End Aliens.

(** shields.h *)
Module Shields.

Definition shield : xpm_map := [
"47 34 2 1";
"  c #000000";
"X c #90EE90";
"                                               ";
"    XXXXXXXXXXXXXXXXXXXXXXXXXXXXXXXXXXXXXXX    ";
"   XXXXXXXXXXXXXXXXXXXXXXXXXXXXXXXXXXXXXXXXX   ";
"  XXXXXXXXXXXXXXXXXXXXXXXXXXXXXXXXXXXXXXXXXXX  ";
" XXXXXXXXXXXXXXXXXXXXXXXXXXXXXXXXXXXXXXXXXXXXX ";
" XXXXXXXXXXXXXXXXXXXXXXXXXXXXXXXXXXXXXXXXXXXXX ";
" XXXXXXXXXXXXXXXXXXXXXXXXXXXXXXXXXXXXXXXXXXXXX ";
" XXXXXXXXXXXXXXXXXXXXXXXXXXXXXXXXXXXXXXXXXXXXX ";
" XXXXXXXXXXXXXXXXXXXXXXXXXXXXXXXXXXXXXXXXXXXXX ";
" XXXXXXXXXXXXXXXXXXXXXXXXXXXXXXXXXXXXXXXXXXXXX ";
" XXXXXXXXXXXXXXXXXXXXXXXXXXXXXXXXXXXXXXXXXXXXX ";
" XXXXXXXXXXXXXXXXXXXXXXXXXXXXXXXXXXXXXXXXXXXXX ";
" XXXXXXXXXXXXXXXXXXXXXXXXXXXXXXXXXXXXXXXXXXXXX ";
" XXXXXXXXXXXXXXXXXXXXXXXXXXXXXXXXXXXXXXXXXXXXX ";
" XXXXXXXXXXXXXXXXXXXXXXXXXXXXXXXXXXXXXXXXXXXXX ";
" XXXXXXXXXXXXXXXXXXXXXXXXXXXXXXXXXXXXXXXXXXXXX ";
" XXXXXXXXXXXXXXXXXXXXXXXXXXXXXXXXXXXXXXXXXXXXX ";
" XXXXXXXXXXXXXXXXXXXXXXXXXXXXXXXXXXXXXXXXXXXXX ";
" XXXXXXXXXXXXXXXXXXXXXXXXXXXXXXXXXXXXXXXXXXXXX ";
" XXXXXXXXXXXXXXXXXXXXXXXXXXXXXXXXXXXXXXXXXXXXX ";
" XXXXXXXXXXXXXXXXXXXXXXXXXXXXXXXXXXXXXXXXXXXXX ";
" XXXXXXXXXXXX                     XXXXXXXXXXXX ";
" XXXXXXXXXXX                       XXXXXXXXXXX ";
" XXXXXXXXXX                         XXXXXXXXXX ";
" XXXXXXXXX                           XXXXXXXXX ";
" XXXXXXXX                             XXXXXXXX ";
" XXXXXXX                               XXXXXXX ";
" XXXXXX                                 XXXXXX ";
" XXXXX                                   XXXXX ";
" XXXX                                     XXXX ";
" XXX                                       XXX ";
" XX                                         XX ";
" X                                           X ";
"                                               "]%xpm.

Definition break_shield : xpm_map := [
"47 34 2 1";
"  c #000000";
"X c #90EE90";
"                                               ";
"    XXXXXXXXXXXXXXXXXXXXXXXXXXXXXXXXXXXXXXX    ";
"   XXXXXXXXX      XXXXXXXXXXXXXXXXXXXXXXXXXX   ";
"  XXXXXXXXXXXXXX    XXXXXXXXXXX       XXXXXXX  ";
" XXXXXXXXXXXXXXXX    XXXXXXXXX      XXXXXXXXXX ";
" XXXXXXXXXXXXXXXXX    XXXXXXXXXXX    XXXXXXXXX ";
" XXXXXXXXXXXX          XXXXXXXXXX     XXXXXXXX ";
" XXXXXXXXXXXXXXXXXXX    XXXXXXXXXXX    XXXXXXX ";
" XXXXXXXXXXXXXXXXXXXX     XXXXXXXX      XXXXXX ";
"       XXXXXXXXXXXXXX     XXXXXXXXXXX     XXXX ";
" XXX      XXXXXXXXXXXX     XXXXXXXXXXXX    XXX ";
" XXXXXX      XXXXXXXXXXX    XXXXXXXXXXXXX      ";
" XXXXXXX    XXXXXXXXXXXXX       XXXXXXXXXXXXXX ";
" XXXXXXX     XXXXXXXXXX       XXXXXXXXXXXXXXXX ";
" XXXXXXXXX    XXXXXXXXXXXXX    XXXXXXXXXXXXXXX ";
" XXXXXXXXXX     XXXXXXXXXXXX    XXXXXXXXXXXXXX ";
" XXXXXXXXXX     XXXXXXXXXXXXX     XXXXXXXXXXXX ";
" XXXXXXXXXXXX    XXXXXXXXX         XXXXXXXXXXX ";
" XXXXXXXXXX       XXXXXXXXXXXXX     XXXXXXXXXX ";
" XXXXXXXXXXXXXXXXXXXXXXXXXXXXXXX      XXXXXXXX ";
" XXXXXXXXXXXXXXXXXXXXXXXXXXXXXXXXXXXXXXXXXXXXX ";
" XXXXXXXXXXXX                     XXXXXXXXXXXX ";
" XXXXXXXXXXX                       XXXXXXXXXXX ";
" XXXXXXXXXX                         XXXXXXXXXX ";
" XXXXXXXXX                           XXXXXXXXX ";
" XXXXXXXX                             XXXXXXXX ";
" XXXXXXX                               XXXXXXX ";
" XXXXXX                                 XXXXXX ";
" XXXXX                                   XXXXX ";
" XXXX                                     XXXX ";
" XXX                                       XXX ";
" XX                                         XX ";
" X                                           X ";
"                                               "]%xpm.

End Shields.
