(* ===== verification/SpritesText.v ===== *)
(** * src/xpm/characters: the font of the scores and the messages *)

From S2P Require Import Prelude Xpm.

(** letter_char.h: the letters, each under its own name *)
Module Letter.

Definition A : xpm_map := [
"20 35 39 1 ";
"  c #000000";
". c #050505";
"X c #0B0B0B";
"o c #0E0E0E";
"O c #131313";
"+ c #191919";
"@ c #282828";
"# c #323232";
"$ c #363636";
"% c #383838";
"& c #3C3C3C";
"* c #4D4D4D";
"= c #525252";
"- c #676767";
"; c #6A6A6A";
": c #6C6C6C";
"> c #717171";
", c #7D7D7D";
"< c #888888";
"1 c #919191";
"2 c #979797";
"3 c #9B9B9B";
"4 c #9E9E9E";
"5 c #A1A1A1";
"6 c #A6A6A6";
"7 c #AFAFAF";
"8 c #B5B5B5";
"9 c #C6C6C6";
"0 c #C8C8C8";
"q c #CFCFCF";
"w c #D0D0D0";
"e c #D6D6D6";
"r c #E1E1E1";
"t c #E4E4E4";
"y c #EBEBEB";
"u c #F1F1F1";
"i c #F4F4F4";
"p c #F8F8F8";
"a c #FFFFFF";
"                    ";
"                    ";
"                    ";
"                    ";
"                    ";
"                    ";
"                    ";
"                    ";
"                    ";
"        :a6         ";
"        wapO        ";
"       %aqa>        ";
"       4a&pe        ";
"      oit 7a&       ";
"      ;a< =a5       ";
"      qa@ .yiO      ";
"     $a9   1a:      ";
"     4a-   #aw      ";
"    oiio    wa$     ";
"    ;aaaaaaaaa4     ";
"    qa0000000auo    ";
"   $ae       8a-    ";
"   3a:       *aq    ";
"  ouiO        ra#   ";
"  -a4         ,a2   ";
"  qa$         +puX  ";
"                    ";
"                    ";
"                    ";
"                    ";
"                    ";
"                    ";
"                    ";
"                    ";
"                    "]%xpm.

Definition B : xpm_map := [
"20 35 42 1 ";
"  c #000000";
". c #050505";
"X c #090909";
"o c #0C0C0C";
"O c #111111";
"+ c #181818";
"@ c #1E1E1E";
"# c #2D2D2D";
"$ c #333333";
"% c #3A3A3A";
"& c #474747";
"* c #4D4D4D";
"= c #525252";
"- c #585858";
"; c #5D5D5D";
": c #696969";
"> c #6F6F6F";
", c #717171";
"< c #7D7D7D";
"1 c #939393";
"2 c #9B9B9B";
"3 c #9F9F9F";
"4 c #A2A2A2";
"5 c #A4A4A4";
"6 c #AAAAAA";
"7 c #ACACAC";
"8 c #B0B0B0";
"9 c #B6B6B6";
"0 c #B8B8B8";
"q c #BEBEBE";
"w c #CACACA";
"e c #CDCDCD";
"r c #D0D0D0";
"t c #D4D4D4";
"y c #D9D9D9";
"u c #DEDEDE";
"i c #E1E1E1";
"p c #ECECEC";
"a c #F1F1F1";
"s c #F6F6F6";
"d c #FAFAFA";
"f c #FFFFFF";
"                    ";
"                    ";
"                    ";
"                    ";
"                    ";
"                    ";
"                    ";
"                    ";
"                    ";
"    5fffffat4&      ";
"    5fr000waff3     ";
"    5f-     ;df*    ";
"    5f-      1f1    ";
"    5f-      ,f2    ";
"    5f-      2f>    ";
"    5f-     *dio    ";
"    4fw7779up2+     ";
"    5fffffffr1+     ";
"    5f-   X#<sp%    ";
"    5f-      =fy    ";
"    5f-       sf@   ";
"    5f-       af$   ";
"    5f-      $ffO   ";
"    5f-     #tf6    ";
"    5fw8889tffeO    ";
"    5ffffffpq:.     ";
"                    ";
"                    ";
"                    ";
"                    ";
"                    ";
"                    ";
"                    ";
"                    ";
"                    "]%xpm.

Definition C : xpm_map := [
"20 35 42 1 ";
"  c #000000";
". c #050505";
"X c #090909";
"o c #131313";
"O c #171717";
"+ c #1B1B1B";
"@ c #232323";
"# c #2B2B2B";
"$ c #333333";
"% c #393939";
"& c #424242";
"* c #4B4B4B";
"= c #535353";
"- c #5C5C5C";
"; c #606060";
": c #636363";
"> c #6E6E6E";
", c #707070";
"< c #777777";
"1 c #787878";
"2 c #828282";
"3 c #969696";
"4 c #989898";
"5 c #9C9C9C";
"6 c #A6A6A6";
"7 c #A8A8A8";
"8 c #A9A9A9";
"9 c #B8B8B8";
"0 c #C1C1C1";
"q c #C4C4C4";
"w c #C9C9C9";
"e c #CECECE";
"r c #D2D2D2";
"t c #D4D4D4";
"y c #DDDDDD";
"u c #DFDFDF";
"i c #E6E6E6";
"p c #EBEBEB";
"a c #ECECEC";
"s c #F1F1F1";
"d c #FAFAFA";
"f c #FFFFFF";
"                    ";
"                    ";
"                    ";
"                    ";
"                    ";
"                    ";
"                    ";
"                    ";
"                    ";
"       O<0pdpr7=X   ";
"      =sffieudff#   ";
"     ,ff4@   .*>    ";
"    $df-            ";
"    9f3             ";
"   Off+             ";
"   =fe              ";
"   >f7              ";
"   2f5              ";
"   1f7              ";
"   ;fw              ";
"   #fdo             ";
"    uf2             ";
"    :fd&            ";
"     7fd2+    +%    ";
"     .5fffuwrafq    ";
"       $3tpdpu6=    ";
"                    ";
"                    ";
"                    ";
"                    ";
"                    ";
"                    ";
"                    ";
"                    ";
"                    "]%xpm.

Definition D : xpm_map := [
"20 35 41 1 ";
"  c #000000";
". c #060606";
"X c #080808";
"o c #0F0F0F";
"O c #121212";
"+ c #141414";
"@ c #181818";
"# c #1F1F1F";
"$ c #202020";
"% c #242424";
"& c #282828";
"* c #2F2F2F";
"= c #3C3C3C";
"- c #444444";
"; c #484848";
": c #4E4E4E";
"> c #4F4F4F";
", c #585858";
"< c #696969";
"1 c #878787";
"2 c #8B8B8B";
"3 c #979797";
"4 c #9C9C9C";
"5 c #A4A4A4";
"6 c #AEAEAE";
"7 c #B3B3B3";
"8 c #B8B8B8";
"9 c #BDBDBD";
"0 c #C3C3C3";
"q c #C6C6C6";
"w c #CBCBCB";
"e c #CECECE";
"r c #D0D0D0";
"t c #D6D6D6";
"y c #D9D9D9";
"u c #E4E4E4";
"i c #EBEBEB";
"p c #EEEEEE";
"a c #F2F2F2";
"s c #F6F6F6";
"d c #FFFFFF";
"                    ";
"                    ";
"                    ";
"                    ";
"                    ";
"                    ";
"                    ";
"                    ";
"                    ";
"   5dddddpt4;       ";
"   5dr889esddq#     ";
"   5d,    .:edi$    ";
"   5d,      X7dw    ";
"   5d,       oid:   ";
"   5d,        1d5   ";
"   5d,        -du   ";
"   5d,        %ds   ";
"   5d,        @dd   ";
"   5d,        &da   ";
"   5d,        :dt   ";
"   5d,        3d3   ";
"   5d,       #sd=   ";
"   5d,      +wd8    ";
"   5d,    O<udyO    ";
"   5dr880yddd6O     ";
"   5ddddsiq2*       ";
"                    ";
"                    ";
"                    ";
"                    ";
"                    ";
"                    ";
"                    ";
"                    ";
"                    "]%xpm.

Definition E : xpm_map := [
"20 35 12 1 ";
"  c #000000";
". c #575757";
"X c #585858";
"o c #747474";
"O c #A4A4A4";
"+ c #B1B1B1";
"@ c #C0C0C0";
"# c #C4C4C4";
"$ c #D6D6D6";
"% c #D8D8D8";
"& c #E8E8E8";
"* c #FFFFFF";
"                    ";
"                    ";
"                    ";
"                    ";
"                    ";
"                    ";
"                    ";
"                    ";
"                    ";
"     O********&     ";
"     O*%######+     ";
"     O*X            ";
"     O*X            ";
"     O*X            ";
"     O*X            ";
"     O*X            ";
"     O*$@@@@@@.     ";
"     O********o     ";
"     O*X            ";
"     O*X            ";
"     O*X            ";
"     O*X            ";
"     O*X            ";
"     O*X            ";
"     O*%######+     ";
"     O********&     ";
"                    ";
"                    ";
"                    ";
"                    ";
"                    ";
"                    ";
"                    ";
"                    ";
"                    "]%xpm.

Definition F : xpm_map := [
"20 35 9 1 ";
"  c #000000";
". c #585858";
"X c #747474";
"o c #A4A4A4";
"O c #B1B1B1";
"+ c #C4C4C4";
"@ c #D8D8D8";
"# c #E8E8E8";
"$ c #FFFFFF";
"                    ";
"                    ";
"                    ";
"                    ";
"                    ";
"                    ";
"                    ";
"                    ";
"                    ";
"      o$$$$$$$$#    ";
"      o$@++++++O    ";
"      o$.           ";
"      o$.           ";
"      o$.           ";
"      o$.           ";
"      o$.           ";
"      o$.           ";
"      o$$$$$$$$X    ";
"      o$@++++++.    ";
"      o$.           ";
"      o$.           ";
"      o$.           ";
"      o$.           ";
"      o$.           ";
"      o$.           ";
"      o$.           ";
"                    ";
"                    ";
"                    ";
"                    ";
"                    ";
"                    ";
"                    ";
"                    ";
"                    "]%xpm.

Definition G : xpm_map := [
"20 35 41 1 ";
"  c #000000";
". c #050505";
"X c #0F0F0F";
"o c #121212";
"O c #151515";
"+ c #181818";
"@ c #1F1F1F";
"# c #232323";
"$ c #262626";
"% c #333333";
"& c #3B3B3B";
"* c #484848";
"= c #4A4A4A";
"- c #4E4E4E";
"; c #525252";
": c #565656";
"> c #585858";
", c #6A6A6A";
"< c #737373";
"1 c #777777";
"2 c #797979";
"3 c #838383";
"4 c #868686";
"5 c #919191";
"6 c #989898";
"7 c #A0A0A0";
"8 c #A6A6A6";
"9 c #A7A7A7";
"0 c #B2B2B2";
"q c #B8B8B8";
"w c #C4C4C4";
"e c #CBCBCB";
"r c #CCCCCC";
"t c #D0D0D0";
"y c #D7D7D7";
"u c #D9D9D9";
"i c #E4E4E4";
"p c #EBEBEB";
"a c #F2F2F2";
"s c #FAFAFA";
"d c #FFFFFF";
"                    ";
"                    ";
"                    ";
"                    ";
"                    ";
"                    ";
"                    ";
"                    ";
"                    ";
"      .:8uasie6=.   ";
"     %yddaytpddd&   ";
"    ;sd0&.   X>4    ";
"   $ad<             ";
"   0d7              ";
"  +dd@              ";
"  :dt               ";
"  2d8               ";
"  4d6     @dddddq   ";
"  1d8     Owwwrdq   ";
"  >de         *dq   ";
"  #dso        =dq   ";
"   rd3        =dq   ";
"   -ds=       =dq   ";
"    5dd5$     ;dq   ";
"     2sddieqtpddq   ";
"      +3wpsspy8,$   ";
"                    ";
"                    ";
"                    ";
"                    ";
"                    ";
"                    ";
"                    ";
"                    ";
"                    "]%xpm.

Definition H : xpm_map := [
"20 35 9 1 ";
"  c #000000";
". c #585858";
"X c #5C5C5C";
"o c #A0A0A0";
"O c #A4A4A4";
"+ c #C4C4C4";
"@ c #D8D8D8";
"# c #E9E9E9";
"$ c #FFFFFF";
"                    ";
"                    ";
"                    ";
"                    ";
"                    ";
"                    ";
"                    ";
"                    ";
"                    ";
"   O$.        o$X   ";
"   O$.        o$X   ";
"   O$.        o$X   ";
"   O$.        o$X   ";
"   O$.        o$X   ";
"   O$.        o$X   ";
"   O$.        o$X   ";
"   O$@++++++++#$X   ";
"   O$$$$$$$$$$$$X   ";
"   O$.        o$X   ";
"   O$.        o$X   ";
"   O$.        o$X   ";
"   O$.        o$X   ";
"   O$.        o$X   ";
"   O$.        o$X   ";
"   O$.        o$X   ";
"   O$.        o$X   ";
"                    ";
"                    ";
"                    ";
"                    ";
"                    ";
"                    ";
"                    ";
"                    ";
"                    "]%xpm.

Definition I : xpm_map := [
"20 35 4 1 ";
"  c #000000";
". c #585858";
"X c #A4A4A4";
"o c #FFFFFF";
"                    ";
"                    ";
"                    ";
"                    ";
"                    ";
"                    ";
"                    ";
"                    ";
"                    ";
"        Xo.         ";
"        Xo.         ";
"        Xo.         ";
"        Xo.         ";
"        Xo.         ";
"        Xo.         ";
"        Xo.         ";
"        Xo.         ";
"        Xo.         ";
"        Xo.         ";
"        Xo.         ";
"        Xo.         ";
"        Xo.         ";
"        Xo.         ";
"        Xo.         ";
"        Xo.         ";
"        Xo.         ";
"                    ";
"                    ";
"                    ";
"                    ";
"                    ";
"                    ";
"                    ";
"                    ";
"                    "]%xpm.

Definition J : xpm_map := [
"20 35 20 1 ";
"  c #000000";
". c #0B0B0B";
"X c #0C0C0C";
"o c #111111";
"O c #181818";
"+ c #1D1D1D";
"@ c #262626";
"# c #282828";
"$ c #303030";
"% c #383838";
"& c #828282";
"* c #A7A7A7";
"= c #B7B7B7";
"- c #BCBCBC";
"; c #C4C4C4";
": c #CDCDCD";
"> c #E0E0E0";
", c #E9E9E9";
"< c #F2F2F2";
"1 c #FFFFFF";
"                    ";
"                    ";
"                    ";
"                    ";
"                    ";
"                    ";
"                    ";
"                    ";
"                    ";
"         ;1%        ";
"         ;1%        ";
"         ;1%        ";
"         ;1%        ";
"         ;1%        ";
"         ;1%        ";
"         ;1%        ";
"         ;1%        ";
"         ;1%        ";
"         ;1%        ";
"         ;1%        ";
"         ;1%        ";
"         ;1%        ";
"         ;1%        ";
"         ;1%        ";
"         ;1%        ";
"         ;1%        ";
"         :1$        ";
"        .<1o        ";
"     @X+*1-         ";
"     >111,#         ";
"     &-=&O          ";
"                    ";
"                    ";
"                    ";
"                    "]%xpm.

Definition K : xpm_map := [
"20 35 42 1 ";
"  c #000000";
". c #040404";
"X c #0A0A0A";
"o c #0F0F0F";
"O c #171717";
"+ c #1A1A1A";
"@ c #1D1D1D";
"# c #202020";
"$ c #272727";
"% c #2A2A2A";
"& c #2C2C2C";
"* c #313131";
"= c #393939";
"- c #3D3D3D";
"; c #474747";
": c #4B4B4B";
"> c #4C4C4C";
", c #535353";
"< c #585858";
"1 c #5C5C5C";
"2 c #606060";
"3 c #676767";
"4 c #696969";
"5 c #818181";
"6 c #898989";
"7 c #9D9D9D";
"8 c #A3A3A3";
"9 c #A4A4A4";
"0 c #BCBCBC";
"q c #C2C2C2";
"w c #C9C9C9";
"e c #CFCFCF";
"r c #D5D5D5";
"t c #DBDBDB";
"y c #E2E2E2";
"u c #E6E6E6";
"i c #EAEAEA";
"p c #EEEEEE";
"a c #F1F1F1";
"s c #F6F6F6";
"d c #FAFAFA";
"f c #FFFFFF";
"                    ";
"                    ";
"                    ";
"                    ";
"                    ";
"                    ";
"                    ";
"                    ";
"                    ";
"    9f<      <fy@   ";
"    9f<     ;di$    ";
"    9f<    =sa*     ";
"    9f<   &ps-      ";
"    9f<  #ud:       ";
"    9f< Otf<        ";
"    9f<oef3         ";
"    9f1qfw          ";
"    9fifaf4         ";
"    9fs,>fs&        ";
"    9f4  6fro       ";
"    9f<  .qf8       ";
"    9f<   +if2      ";
"    9f<    ;fs%     ";
"    9f<     5frX    ";
"    9f<      0f7    ";
"    9f<      Ouf1   ";
"                    ";
"                    ";
"                    ";
"                    ";
"                    ";
"                    ";
"                    ";
"                    ";
"                    "]%xpm.

Definition L : xpm_map := [
"20 35 8 1 ";
"  c #000000";
". c #585858";
"X c #A4A4A4";
"o c #B8B8B8";
"O c #CCCCCC";
"+ c #DDDDDD";
"@ c #E8E8E8";
"# c #FFFFFF";
"                    ";
"                    ";
"                    ";
"                    ";
"                    ";
"                    ";
"                    ";
"                    ";
"                    ";
"      X#.           ";
"      X#.           ";
"      X#.           ";
"      X#.           ";
"      X#.           ";
"      X#.           ";
"      X#.           ";
"      X#.           ";
"      X#.           ";
"      X#.           ";
"      X#.           ";
"      X#.           ";
"      X#.           ";
"      X#.           ";
"      X#.           ";
"      X#+OOOOOOo    ";
"      X########@    ";
"                    ";
"                    ";
"                    ";
"                    ";
"                    ";
"                    ";
"                    ";
"                    ";
"                    "]%xpm.

Definition M : xpm_map := [
"20 35 50 1 ";
"  c #000000";
". c #050505";
"X c #090909";
"o c #0F0F0F";
"O c #101010";
"+ c #181818";
"@ c #1C1C1C";
"# c #222222";
"$ c #252525";
"% c #2D2D2D";
"& c #2F2F2F";
"* c #333333";
"= c #343434";
"- c #3E3E3E";
"; c #414141";
": c #4C4C4C";
"> c #535353";
", c #545454";
"< c #585858";
"1 c #5D5D5D";
"2 c #686868";
"3 c #6A6A6A";
"4 c #777777";
"5 c #7C7C7C";
"6 c #858585";
"7 c #898989";
"8 c #8D8D8D";
"9 c #929292";
"0 c #969696";
"q c #989898";
"w c #A3A3A3";
"e c #A4A4A4";
"r c #A9A9A9";
"t c #ACACAC";
"y c #B0B0B0";
"u c #B6B6B6";
"i c #BABABA";
"p c #BDBDBD";
"a c #C1C1C1";
"s c #CDCDCD";
"d c #D9D9D9";
"f c #DEDEDE";
"g c #E1E1E1";
"h c #E6E6E6";
"j c #EAEAEA";
"k c #EDEDED";
"l c #F0F0F0";
"z c #F6F6F6";
"x c #FBFBFB";
"c c #FFFFFF";
"                    ";
"                    ";
"                    ";
"                    ";
"                    ";
"                    ";
"                    ";
"                    ";
"                    ";
" ecc8          dcc, ";
" eccj.        -ccc, ";
" wcic>        wcic, ";
" ec2cu       ozs0c, ";
" ec%gx@      2c2ec, ";
" ec*5c5      szorc, ";
" ec*#cf     =cw tc, ";
" ec= ic;    0c; tc, ";
" ec= <ce   Xld  tc, ";
" ec= XkzO  1c4  tc, ";
" ec=  9c2  ax+  tc, ";
" ec=  *cs $cy   tc, ";
" ec=   sc*7c:   tc, ";
" ec=   2cqjh    tc, ";
" ec=   Ozcc6    tc, ";
" ec=    ecc#    tc, ";
" ec=    ;cp     tc, ";
"                    ";
"                    ";
"                    ";
"                    ";
"                    ";
"                    ";
"                    ";
"                    ";
"                    "]%xpm.

Definition N : xpm_map := [
"20 35 37 1 ";
"  c #000000";
". c #060606";
"X c #0A0A0A";
"o c #0D0D0D";
"O c #171717";
"+ c #1E1E1E";
"@ c #202020";
"# c #252525";
"$ c #292929";
"% c #2F2F2F";
"& c #303030";
"* c #343434";
"= c #3A3A3A";
"- c #414141";
"; c #6C6C6C";
": c #727272";
"> c #747474";
", c #7C7C7C";
"< c #808080";
"1 c #848484";
"2 c #888888";
"3 c #909090";
"4 c #989898";
"5 c #A4A4A4";
"6 c #BBBBBB";
"7 c #BCBCBC";
"8 c #C2C2C2";
"9 c #CCCCCC";
"0 c #CFCFCF";
"q c #D2D2D2";
"w c #D5D5D5";
"e c #DDDDDD";
"r c #E1E1E1";
"t c #F3F3F3";
"y c #F4F4F4";
"u c #F9F9F9";
"i c #FFFFFF";
"                    ";
"                    ";
"                    ";
"                    ";
"                    ";
"                    ";
"                    ";
"                    ";
"                    ";
"   5iro       @i7   ";
"   5ii4       @i7   ";
"   5iti-      @i7   ";
"   5i:ieX     @i7   ";
"   5i+6i3     @i7   ";
"   5i$@ti=    @i7   ";
"   5i% ;iwX   @i7   ";
"   5i*  8i2   @i7   ";
"   5i*  #yi%  @i7   ";
"   5i*   >iq. @i7   ";
"   5i*    0i< +i7   ";
"   5i*    $uy&Oi7   ";
"   5i*     ,i0oi7   ";
"   5i*     .0i>i7   ";
"   5i*      %iui7   ";
"   5i*       1ii7   ";
"   5i*       .wi7   ";
"                    ";
"                    ";
"                    ";
"                    ";
"                    ";
"                    ";
"                    ";
"                    ";
"                    "]%xpm.

Definition O : xpm_map := [
"20 35 44 1 ";
"  c #000000";
". c #040404";
"X c #0A0A0A";
"o c #0C0C0C";
"O c #101010";
"+ c #161616";
"@ c #191919";
"# c #242424";
"$ c #272727";
"% c #282828";
"& c #2E2E2E";
"* c #373737";
"= c #4A4A4A";
"- c #4F4F4F";
"; c #525252";
": c #545454";
"> c #5F5F5F";
", c #656565";
"< c #6A6A6A";
"1 c #767676";
"2 c #777777";
"3 c #828282";
"4 c #848484";
"5 c #8A8A8A";
"6 c #919191";
"7 c #939393";
"8 c #989898";
"9 c #A2A2A2";
"0 c #AAAAAA";
"q c #ADADAD";
"w c #B2B2B2";
"e c #C2C2C2";
"r c #C9C9C9";
"t c #CDCDCD";
"y c #D1D1D1";
"u c #D6D6D6";
"i c #DDDDDD";
"p c #E4E4E4";
"a c #E9E9E9";
"s c #EFEFEF";
"d c #F0F0F0";
"f c #F5F5F5";
"g c #FAFAFA";
"h c #FFFFFF";
"                    ";
"                    ";
"                    ";
"                    ";
"                    ";
"                    ";
"                    ";
"                    ";
"                    ";
"     &7ysgpe1o      ";
"   .7hhgurihhs-     ";
"   0hs<o   @5hh;    ";
"  >hs%       >hs+   ";
"  uh<         wh3   ";
" %hfo         =hu   ";
" >he          OhhO  ";
" 1h9           dh%  ";
" 4h7           ph*  ";
" 1h9           sh%  ";
" ,he          ohhO  ";
" #hfX         =hu   ";
"  uh,         qh3   ";
"  >hs#       :hs+   ";
"   0ha>X   O3gg-    ";
"   .8ghdteyhhs-     ";
"     *7usgae1o      ";
"                    ";
"                    ";
"                    ";
"                    ";
"                    ";
"                    ";
"                    ";
"                    ";
"                    "]%xpm.

Definition P : xpm_map := [
"20 35 30 1 ";
"  c #000000";
". c #040404";
"X c #101010";
"o c #161616";
"O c #262626";
"+ c #2A2A2A";
"@ c #2F2F2F";
"# c #353535";
"$ c #3C3C3C";
"% c #444444";
"& c #585858";
"* c #616161";
"= c #797979";
"- c #909090";
"; c #A4A4A4";
": c #ADADAD";
"> c #B3B3B3";
", c #B4B4B4";
"< c #B9B9B9";
"1 c #C4C4C4";
"2 c #CECECE";
"3 c #D0D0D0";
"4 c #D9D9D9";
"5 c #E1E1E1";
"6 c #E7E7E7";
"7 c #E8E8E8";
"8 c #ECECEC";
"9 c #F0F0F0";
"0 c #F6F6F6";
"q c #FFFFFF";
"                    ";
"                    ";
"                    ";
"                    ";
"                    ";
"                    ";
"                    ";
"                    ";
"                    ";
"     ;qqqq05>*.     ";
"     ;q3<<17qq2o    ";
"     ;q&    $4q:    ";
"     ;q&     +qqX   ";
"     ;q&      5q@   ";
"     ;q&      6qO   ";
"     ;q&     #q8.   ";
"     ;q&    %5q=    ";
"     ;q2,<18qq-     ";
"     ;qqqq93-#      ";
"     ;q&            ";
"     ;q&            ";
"     ;q&            ";
"     ;q&            ";
"     ;q&            ";
"     ;q&            ";
"     ;q&            ";
"                    ";
"                    ";
"                    ";
"                    ";
"                    ";
"                    ";
"                    ";
"                    ";
"                    "]%xpm.

Definition Q : xpm_map := [
"20 35 48 1 ";
"  c #000000";
". c #040404";
"X c #090909";
"o c #0C0C0C";
"O c #101010";
"+ c #161616";
"@ c #1D1D1D";
"# c #222222";
"$ c #252525";
"% c #282828";
"& c #2E2E2E";
"* c #373737";
"= c #4B4B4B";
"- c #525252";
"; c #575757";
": c #5A5A5A";
"> c #5F5F5F";
", c #646464";
"< c #696969";
"1 c #6C6C6C";
"2 c #777777";
"3 c #7E7E7E";
"4 c #828282";
"5 c #858585";
"6 c #8A8A8A";
"7 c #919191";
"8 c #969696";
"9 c #989898";
"0 c #A2A2A2";
"q c #AAAAAA";
"w c #B3B3B3";
"e c #B9B9B9";
"r c #BDBDBD";
"t c #C3C3C3";
"y c #C9C9C9";
"u c #CCCCCC";
"i c #D1D1D1";
"p c #D6D6D6";
"a c #D8D8D8";
"s c #DDDDDD";
"d c #E1E1E1";
"f c #E7E7E7";
"g c #E8E8E8";
"h c #EEEEEE";
"j c #F0F0F0";
"k c #F6F6F6";
"l c #FBFBFB";
"z c #FFFFFF";
"                    ";
"                    ";
"                    ";
"                    ";
"                    ";
"                    ";
"                    ";
"                    ";
"                    ";
"     &7ihlft2o      ";
"   .8zzlpyszzh-     ";
"   qzh<o   +6lz-    ";
"  >zj%       >zh+   ";
"  pz1         wz4   ";
" %zko         =za   ";
" >zt          OzzO  ";
" 2z0           hz%  ";
" 4z8           fz*  ";
" 2z0           hz&  ";
" >zt          ozzO  ";
" $zkX         =za   ";
"  iz,         qz5   ";
"  >zh#       ;zj+   ";
"   qzg:.   O3lz;    ";
"   .9lzjyrizzh;     ";
"     *8ihzzz9+      ";
"          7zd@      ";
"          .eza+     ";
"           Opzuo    ";
"            $hztX   ";
"                    ";
"                    ";
"                    ";
"                    ";
"                    "]%xpm.

Definition R : xpm_map := [
"20 35 36 1 ";
"  c #000000";
". c #090909";
"X c #131313";
"o c #1A1A1A";
"O c #1D1D1D";
"+ c #202020";
"@ c #252525";
"# c #292929";
"$ c #333333";
"% c #393939";
"& c #474747";
"* c #585858";
"= c #696969";
"- c #6F6F6F";
"; c #707070";
": c #797979";
"> c #808080";
", c #999999";
"< c #A4A4A4";
"1 c #AAAAAA";
"2 c #B2B2B2";
"3 c #B4B4B4";
"4 c #B9B9B9";
"5 c #BCBCBC";
"6 c #C3C3C3";
"7 c #C7C7C7";
"8 c #CECECE";
"9 c #D3D3D3";
"0 c #D6D6D6";
"q c #D9D9D9";
"w c #E8E8E8";
"e c #E9E9E9";
"r c #EFEFEF";
"t c #F2F2F2";
"y c #F9F9F9";
"u c #FFFFFF";
"                    ";
"                    ";
"                    ";
"                    ";
"                    ";
"                    ";
"                    ";
"                    ";
"                    ";
"    <uuuuye5-.      ";
"    <u9556eyuqO     ";
"    <u*    #9u2     ";
"    <u*     #uu.    ";
"    <u*      eu$    ";
"    <u*      ru+    ";
"    <u*     $ue     ";
"    <u*    #0u-     ";
"    <u83340uy:      ";
"    <uuuuuutO       ";
"    <u*   7u;       ";
"    <u*   $uto      ";
"    <u*    ,u1      ";
"    <u*    Xru&     ";
"    <u*     =uq.    ";
"    <u*      8u>    ";
"    <u*      %uy@   ";
"                    ";
"                    ";
"                    ";
"                    ";
"                    ";
"                    ";
"                    ";
"                    ";
"                    "]%xpm.

Definition S : xpm_map := [
"20 35 40 1 ";
"  c #000000";
". c #060606";
"X c #0A0A0A";
"o c #0E0E0E";
"O c #1A1A1A";
"+ c #282828";
"@ c #2B2B2B";
"# c #2E2E2E";
"$ c #333333";
"% c #3C3C3C";
"& c #444444";
"* c #464646";
"= c #494949";
"- c #595959";
"; c #636363";
": c #6B6B6B";
"> c #6D6D6D";
", c #757575";
"< c #797979";
"1 c #7E7E7E";
"2 c #818181";
"3 c #858585";
"4 c #979797";
"5 c #A2A2A2";
"6 c #A6A6A6";
"7 c #AAAAAA";
"8 c #B4B4B4";
"9 c #C0C0C0";
"0 c #C5C5C5";
"q c #C8C8C8";
"w c #D5D5D5";
"e c #D8D8D8";
"r c #DFDFDF";
"t c #E3E3E3";
"y c #E6E6E6";
"u c #EDEDED";
"i c #F0F0F0";
"p c #F5F5F5";
"a c #FAFAFA";
"s c #FFFFFF";
"                    ";
"                    ";
"                    ";
"                    ";
"                    ";
"                    ";
"                    ";
"                    ";
"                    ";
"      $5raie8;O     ";
"     :ssiwepss;     ";
"    +as>.   $1o     ";
"    ,s7             ";
"    2s3             ";
"    -s0             ";
"    Xts7O           ";
"     #tsp6&         ";
"      X<tsst:.      ";
"         *7ss9o     ";
"           +ws4     ";
"            $su     ";
"             ss     ";
"            $st     ";
"    :=X    %ws<     ";
"    9satqqyss6.     ";
"    *5wiaat7=       ";
"                    ";
"                    ";
"                    ";
"                    ";
"                    ";
"                    ";
"                    ";
"                    ";
"                    "]%xpm.

Definition T : xpm_map := [
"20 35 11 1 ";
"  c #000000";
". c #0C0C0C";
"X c #101010";
"o c #5C5C5C";
"O c #999999";
"+ c #A0A0A0";
"@ c #C4C4C4";
"# c #C8C8C8";
"$ c #D9D9D9";
"% c #E9E9E9";
"& c #FFFFFF";
"                    ";
"                    ";
"                    ";
"                    ";
"                    ";
"                    ";
"                    ";
"                    ";
"                    ";
"   #&&&&&&&&&&&&X   ";
"   O@@@@$&%@@@@@.   ";
"        o&+         ";
"        o&+         ";
"        o&+         ";
"        o&+         ";
"        o&+         ";
"        o&+         ";
"        o&+         ";
"        o&+         ";
"        o&+         ";
"        o&+         ";
"        o&+         ";
"        o&+         ";
"        o&+         ";
"        o&+         ";
"        o&+         ";
"                    ";
"                    ";
"                    ";
"                    ";
"                    ";
"                    ";
"                    ";
"                    ";
"                    "]%xpm.

Definition U : xpm_map := [
"20 35 32 1 ";
"  c #000000";
". c #030303";
"X c #070707";
"o c #191919";
"O c #1D1D1D";
"+ c #262626";
"@ c #2C2C2C";
"# c #363636";
"$ c #3D3D3D";
"% c #4B4B4B";
"& c #4C4C4C";
"* c #505050";
"= c #565656";
"- c #666666";
"; c #6B6B6B";
": c #888888";
"> c #9E9E9E";
", c #B4B4B4";
"< c #BBBBBB";
"1 c #BFBFBF";
"2 c #C1C1C1";
"3 c #C7C7C7";
"4 c #C8C8C8";
"5 c #CECECE";
"6 c #D0D0D0";
"7 c #DCDCDC";
"8 c #EAEAEA";
"9 c #ECECEC";
"0 c #F1F1F1";
"q c #F4F4F4";
"w c #FBFBFB";
"e c #FFFFFF";
"                    ";
"                    ";
"                    ";
"                    ";
"                    ";
"                    ";
"                    ";
"                    ";
"                    ";
"   6e@        ,e&   ";
"   6e@        ,e&   ";
"   6e@        ,e&   ";
"   6e@        ,e&   ";
"   6e@        ,e&   ";
"   6e@        ,e&   ";
"   6e@        ,e&   ";
"   6e@        ,e&   ";
"   6e@        ,e&   ";
"   6e@        ,e&   ";
"   5e@        ,e%   ";
"   3e#        2e$   ";
"   >e;        9eo   ";
"   *e6X      -e4    ";
"    3e2+    ;qw$    ";
"    o6ee7240eq=     ";
"      -<8w05:O      ";
"                    ";
"                    ";
"                    ";
"                    ";
"                    ";
"                    ";
"                    ";
"                    ";
"                    "]%xpm.

Definition V : xpm_map := [
"20 35 46 1 ";
"  c #000000";
". c #050505";
"X c #0B0B0B";
"o c #0D0D0D";
"O c #101010";
"+ c #171717";
"@ c #1B1B1B";
"# c #1D1D1D";
"$ c #262626";
"% c #2F2F2F";
"& c #313131";
"* c #353535";
"= c #414141";
"- c #484848";
"; c #4A4A4A";
": c #5C5C5C";
"> c #5F5F5F";
", c #606060";
"< c #656565";
"1 c #676767";
"2 c #6F6F6F";
"3 c #767676";
"4 c #787878";
"5 c #7C7C7C";
"6 c #828282";
"7 c #8A8A8A";
"8 c #8E8E8E";
"9 c #919191";
"0 c #9C9C9C";
"q c #A5A5A5";
"w c #A7A7A7";
"e c #B8B8B8";
"r c #BCBCBC";
"t c #BDBDBD";
"y c #C1C1C1";
"u c #CBCBCB";
"i c #D2D2D2";
"p c #D4D4D4";
"a c #D8D8D8";
"s c #DDDDDD";
"d c #E3E3E3";
"f c #E8E8E8";
"g c #EEEEEE";
"h c #F6F6F6";
"j c #F9F9F9";
"k c #FFFFFF";
"                    ";
"                    ";
"                    ";
"                    ";
"                    ";
"                    ";
"                    ";
"                    ";
"                    ";
"   ik-        Ojk@  ";
"   3kw        <kt   ";
"   @khX       yk:   ";
"    tk:      #kho   ";
"    ,ke      4kw    ";
"    ohk+     ik;    ";
"     wk2    %kf     ";
"     ;ku    7k8     ";
"     .fk$   dk&     ";
"      9k6  =kp      ";
"      *ks  0k3      ";
"       ak*.gk@      ";
"       5k7;kt       ";
"       #ki9k,       ";
"        ykdho       ";
"        1kkw        ";
"        Ojk;        ";
"                    ";
"                    ";
"                    ";
"                    ";
"                    ";
"                    ";
"                    ";
"                    ";
"                    "]%xpm.

Definition W : xpm_map := [
"20 35 56 1 ";
"  c #000000";
". c #050505";
"X c #0A0A0A";
"o c #0C0C0C";
"O c #131313";
"+ c #151515";
"@ c #1A1A1A";
"# c #1D1D1D";
"$ c #232323";
"% c #262626";
"& c #272727";
"* c #2F2F2F";
"= c #363636";
"- c #3A3A3A";
"; c #3D3D3D";
": c #414141";
"> c #4A4A4A";
", c #535353";
"< c #555555";
"1 c #595959";
"2 c #5F5F5F";
"3 c #606060";
"4 c #666666";
"5 c #686868";
"6 c #737373";
"7 c #767676";
"8 c #7B7B7B";
"9 c #858585";
"0 c #878787";
"q c #898989";
"w c #8C8C8C";
"e c #909090";
"r c #969696";
"t c #9B9B9B";
"y c #9F9F9F";
"u c #A1A1A1";
"i c #A8A8A8";
"p c #ABABAB";
"a c #ADADAD";
"s c #B2B2B2";
"d c #B6B6B6";
"f c #B9B9B9";
"g c #C0C0C0";
"h c #C7C7C7";
"j c #CACACA";
"k c #CFCFCF";
"l c #D7D7D7";
"z c #D8D8D8";
"x c #DCDCDC";
"c c #E2E2E2";
"v c #E8E8E8";
"b c #EFEFEF";
"n c #F1F1F1";
"m c #F6F6F6";
"M c #F8F8F8";
"N c #FFFFFF";
"                    ";
"                    ";
"                    ";
"                    ";
"                    ";
"                    ";
"                    ";
"                    ";
"                    ";
"Nw      *NN-      1N";
"Nk      8NNq      tN";
"MNO     hmnz      xN";
"gN,    +NhfN%    #Nb";
"8Nr    2N06N7    3Na";
"=Nz    pN:%Nh    uN5";
" bN@  .nn. zN+   cN$";
" aN2  :Na  wN3  %Nx ";
" 4Ny  eN2  ;Ns  4Nt ";
" $Nc  zN+   bmX pN, ";
"  xN$%Nh    uN< vNO ";
"  tN25N8    <Nr%Nj  ";
"  <NtaN*    oml3N9  ";
"  ONhzc      fNuN:  ";
"   jmNr      5Nmb.  ";
"   qNN>      #NNd   ";
"   :NmX       kN6   ";
"                    ";
"                    ";
"                    ";
"                    ";
"                    ";
"                    ";
"                    ";
"                    ";
"                    "]%xpm.

Definition X : xpm_map := [
"20 35 48 1 ";
"  c #000000";
". c #080808";
"X c #0B0B0B";
"o c #0D0D0D";
"O c #111111";
"+ c #141414";
"@ c #1A1A1A";
"# c #1E1E1E";
"$ c #202020";
"% c #222222";
"& c #2A2A2A";
"* c #2D2D2D";
"= c #343434";
"- c #3B3B3B";
"; c #434343";
": c #464646";
"> c #4D4D4D";
", c #565656";
"< c #5A5A5A";
"1 c #5D5D5D";
"2 c #616161";
"3 c #656565";
"4 c #6D6D6D";
"5 c #727272";
"6 c #767676";
"7 c #818181";
"8 c #878787";
"9 c #929292";
"0 c #9B9B9B";
"q c #9C9C9C";
"w c #A2A2A2";
"e c #A5A5A5";
"r c #AAAAAA";
"t c #B2B2B2";
"y c #B8B8B8";
"u c #C3C3C3";
"i c #C9C9C9";
"p c #CCCCCC";
"a c #DBDBDB";
"s c #DEDEDE";
"d c #E2E2E2";
"f c #E7E7E7";
"g c #EBEBEB";
"h c #EFEFEF";
"j c #F2F2F2";
"k c #F5F5F5";
"l c #FBFBFB";
"z c #FFFFFF";
"                    ";
"                    ";
"                    ";
"                    ";
"                    ";
"                    ";
"                    ";
"                    ";
"                    ";
"   =lg+      $kh+   ";
"    8zw      yz<    ";
"    Xaz;    1zt     ";
"     -zaX  +gh@     ";
"      9z8  wz2      ";
"      Xsl*:zy       ";
"       ;zisj#       ";
"        0zz3        ";
"        6zz,        ";
"       $kdlfO       ";
"       yz:7zq       ";
"      2ze Xaz;      ";
"     +hh+  :zaX     ";
"     rz3    ez8     ";
"    >zu     @jl=    ";
"   odl&      4ziX   ";
"   qz8        pz5   ";
"                    ";
"                    ";
"                    ";
"                    ";
"                    ";
"                    ";
"                    ";
"                    ";
"                    "]%xpm.

Definition Y : xpm_map := [
"20 35 40 1 ";
"  c #000000";
". c #040404";
"X c #090909";
"o c #0F0F0F";
"O c #131313";
"+ c #171717";
"@ c #1A1A1A";
"# c #202020";
"$ c #252525";
"% c #2C2C2C";
"& c #313131";
"* c #373737";
"= c #4C4C4C";
"- c #505050";
"; c #5D5D5D";
": c #626262";
"> c #696969";
", c #737373";
"< c #787878";
"1 c #838383";
"2 c #848484";
"3 c #8E8E8E";
"4 c #949494";
"5 c #989898";
"6 c #9C9C9C";
"7 c #A4A4A4";
"8 c #AAAAAA";
"9 c #B8B8B8";
"0 c #BABABA";
"q c #BDBDBD";
"w c #C3C3C3";
"e c #D4D4D4";
"r c #D9D9D9";
"t c #E4E4E4";
"y c #E9E9E9";
"u c #EDEDED";
"i c #F0F0F0";
"p c #F4F4F4";
"a c #F9F9F9";
"s c #FFFFFF";
"                    ";
"                    ";
"                    ";
"                    ";
"                    ";
"                    ";
"                    ";
"                    ";
"                    ";
"   0s,       Ous%   ";
"   &suo      2s6    ";
"    7s2     @pp@    ";
"    #ap+    5s1     ";
"     3s4   $ayo     ";
"     Oia#  8s>      ";
"      <s7 *sr.      ";
"      Xts&qs-       ";
"       :srsw        ";
"        ess*        ";
"        ;sw         ";
"        =s0         ";
"        =s0         ";
"        =s0         ";
"        =s0         ";
"        =s0         ";
"        =s0         ";
"                    ";
"                    ";
"                    ";
"                    ";
"                    ";
"                    ";
"                    ";
"                    ";
"                    "]%xpm.

Definition Z : xpm_map := [
"20 35 24 1 ";
"  c #000000";
". c #060606";
"X c #080808";
"o c #1E1E1E";
"O c #202020";
"+ c #333333";
"@ c #343434";
"# c #666666";
"$ c #6A6A6A";
"% c #7C7C7C";
"& c #848484";
"* c #858585";
"= c #969696";
"- c #BABABA";
"; c #BDBDBD";
": c #C0C0C0";
"> c #C8C8C8";
", c #CCCCCC";
"< c #D3D3D3";
"1 c #D4D4D4";
"2 c #E3E3E3";
"3 c #F3F3F3";
"4 c #FBFBFB";
"5 c #FFFFFF";
"                    ";
"                    ";
"                    ";
"                    ";
"                    ";
"                    ";
"                    ";
"                    ";
"                    ";
"    :5555555555%    ";
"    =>>>>>>>>55$    ";
"            $5<.    ";
"           O35+     ";
"           ;5&      ";
"          $5<.      ";
"         O34+       ";
"         ;5&        ";
"        $5<.        ";
"       o34@         ";
"       -5&          ";
"      #5<.          ";
"     o35+           ";
"     -5&            ";
"    #51.            ";
"   .352>,,,,,,>=    ";
"   X55555555555;    ";
"                    ";
"                    ";
"                    ";
"                    ";
"                    ";
"                    ";
"                    ";
"                    ";
"                    "]%xpm.

End Letter.

(** number_char.h: the digits *)
Module Digit.

Definition n0 : xpm_map := [
"20 35 48 1 ";
"  c #000000";
". c #050505";
"X c #080808";
"o c #0C0C0C";
"O c #121212";
"+ c #161616";
"@ c #191919";
"# c #242424";
"$ c #2E2E2E";
"% c #343434";
"& c #3D3D3D";
"* c #434343";
"= c #454545";
"- c #4A4A4A";
"; c #4C4C4C";
": c #525252";
"> c #555555";
", c #5B5B5B";
"< c #5F5F5F";
"1 c #636363";
"2 c #6A6A6A";
"3 c #777777";
"4 c #7B7B7B";
"5 c #7C7C7C";
"6 c #818181";
"7 c #848484";
"8 c #898989";
"9 c #8B8B8B";
"0 c #909090";
"q c #989898";
"w c #9B9B9B";
"e c #9D9D9D";
"r c #ABABAB";
"t c #B3B3B3";
"y c #B6B6B6";
"u c #B9B9B9";
"i c #BCBCBC";
"p c #C3C3C3";
"a c #C9C9C9";
"s c #D3D3D3";
"d c #D5D5D5";
"f c #DFDFDF";
"g c #E8E8E8";
"h c #EDEDED";
"j c #F0F0F0";
"k c #F6F6F6";
"l c #FBFBFB";
"z c #FFFFFF";
"                    ";
"                    ";
"                    ";
"                    ";
"                    ";
"                    ";
"                    ";
"                    ";
"                    ";
"      o6dkhi;       ";
"     oszhypzz5      ";
"     ezrX  #fz&     ";
"    +lho    -zu     ";
"    <zw      glO    ";
"    0z1      tz=    ";
"    tz*      0z2    ";
"    pz%      6z4    ";
"    az$      4z7    ";
"    pz%      6z5    ";
"    rz*      0z2    ";
"    8z1      tz-    ";
"    >zw      gz@    ";
"    okho    -za     ";
"     8zrX  #fz:     ";
"     Xpzhyizzw      ";
"      .3skjp,       ";
"                    ";
"                    ";
"                    ";
"                    ";
"                    ";
"                    ";
"                    ";
"                    ";
"                    "]%xpm.

Definition n1 : xpm_map := [
"20 35 17 1 ";
"  c #000000";
". c #050505";
"X c #151515";
"o c #191919";
"O c #1F1F1F";
"+ c #494949";
"@ c #606060";
"# c #797979";
"$ c #828282";
"% c #868686";
"& c #8A8A8A";
"* c #999999";
"= c #C1C1C1";
"- c #CBCBCB";
"; c #E0E0E0";
": c #EDEDED";
"> c #FFFFFF";
"                    ";
"                    ";
"                    ";
"                    ";
"                    ";
"                    ";
"                    ";
"                    ";
"                    ";
"        O->@        ";
"       +:>>@        ";
"      $>;*>@        ";
"     &>=X#>@        ";
"     o%. $>@        ";
"         $>@        ";
"         %>@        ";
"         $>@        ";
"         %>@        ";
"         %>@        ";
"         $>@        ";
"         $>@        ";
"         %>@        ";
"         $>@        ";
"         %>@        ";
"         %>@        ";
"         %>@        ";
"                    ";
"                    ";
"                    ";
"                    ";
"                    ";
"                    ";
"                    ";
"                    ";
"                    "]%xpm.

Definition n2 : xpm_map := [
"20 35 38 1 ";
"  c #000000";
". c #121212";
"X c #151515";
"o c #181818";
"O c #1E1E1E";
"+ c #282828";
"@ c #353535";
"# c #3A3A3A";
"$ c #434343";
"% c #464646";
"& c #515151";
"* c #555555";
"= c #5E5E5E";
"- c #606060";
"; c #646464";
": c #696969";
"> c #707070";
", c #747474";
"< c #808080";
"1 c #888888";
"2 c #8D8D8D";
"3 c #919191";
"4 c #969696";
"5 c #AFAFAF";
"6 c #B3B3B3";
"7 c #BBBBBB";
"8 c #C5C5C5";
"9 c #CCCCCC";
"0 c #D1D1D1";
"q c #D5D5D5";
"w c #D8D8D8";
"e c #DCDCDC";
"r c #E6E6E6";
"t c #EDEDED";
"y c #F3F3F3";
"u c #F4F4F4";
"i c #F9F9F9";
"p c #FFFFFF";
"                    ";
"                    ";
"                    ";
"                    ";
"                    ";
"                    ";
"                    ";
"                    ";
"                    ";
"      *6rit7&       ";
"    +9pi859pp3      ";
"    @u1.   #yp$     ";
"     .      <p4     ";
"            &p5     ";
"            ;p2     ";
"            6p%     ";
"           #p0      ";
"          Ori@      ";
"         Xqp=       ";
"        X0p,        ";
"       X0p>         ";
"      oqp:          ";
"     Oqp-           ";
"    Oei*            ";
"    8pywwwwwwww=    ";
"    qpppppppppp>    ";
"                    ";
"                    ";
"                    ";
"                    ";
"                    ";
"                    ";
"                    ";
"                    ";
"                    "]%xpm.

Definition n3 : xpm_map := [
"20 35 47 1 ";
"  c #000000";
". c #040404";
"X c #0A0A0A";
"o c #0C0C0C";
"O c #131313";
"+ c #141414";
"@ c #191919";
"# c #1D1D1D";
"$ c #202020";
"% c #252525";
"& c #313131";
"* c #353535";
"= c #3B3B3B";
"- c #3F3F3F";
"; c #404040";
": c #494949";
"> c #4E4E4E";
", c #515151";
"< c #575757";
"1 c #5E5E5E";
"2 c #6C6C6C";
"3 c #707070";
"4 c #767676";
"5 c #808080";
"6 c #858585";
"7 c #8D8D8D";
"8 c #979797";
"9 c #9D9D9D";
"0 c #AAAAAA";
"q c #ADADAD";
"w c #B3B3B3";
"e c #B5B5B5";
"r c #BBBBBB";
"t c #BCBCBC";
"y c #C2C2C2";
"u c #C6C6C6";
"i c #CACACA";
"p c #CECECE";
"a c #D8D8D8";
"s c #DEDEDE";
"d c #E1E1E1";
"f c #E4E4E4";
"g c #EEEEEE";
"h c #F0F0F0";
"j c #F4F4F4";
"k c #FBFBFB";
"l c #FFFFFF";
"                    ";
"                    ";
"                    ";
"                    ";
"                    ";
"                    ";
"                    ";
"                    ";
"                    ";
"     O4tgkhu3.      ";
"    1jlhtquklio     ";
"    *t:    $al5     ";
"            <ly     ";
"            :le     ";
"            ql2     ";
"        .#,yl0      ";
"      :llllp:       ";
"      &qqrdlg6.     ";
"           &il7     ";
"            +hl+    ";
"             tl-    ";
"             yl;    ";
"            @klO    ";
"    7:     %ul9     ";
"    flgy00pllwX     ";
"    =8pfkks0>       ";
"                    ";
"                    ";
"                    ";
"                    ";
"                    ";
"                    ";
"                    ";
"                    ";
"                    "]%xpm.

Definition n4 : xpm_map := [
"20 35 33 1 ";
"  c #000000";
". c #080808";
"X c #0A0A0A";
"o c #0E0E0E";
"O c #141414";
"+ c #1D1D1D";
"@ c #272727";
"# c #282828";
"$ c #2D2D2D";
"% c #303030";
"& c #383838";
"* c #404040";
"= c #4E4E4E";
"- c #525252";
"; c #6C6C6C";
": c #717171";
"> c #777777";
", c #7C7C7C";
"< c #808080";
"1 c #959595";
"2 c #9A9A9A";
"3 c #A5A5A5";
"4 c #B3B3B3";
"5 c #B7B7B7";
"6 c #C4C4C4";
"7 c #CDCDCD";
"8 c #D7D7D7";
"9 c #E4E4E4";
"0 c #EBEBEB";
"q c #EEEEEE";
"w c #F7F7F7";
"e c #F8F8F8";
"r c #FFFFFF";
"                    ";
"                    ";
"                    ";
"                    ";
"                    ";
"                    ";
"                    ";
"                    ";
"                    ";
"           5r4      ";
"          :rr4      ";
"         %e3r5      ";
"        X80$r4      ";
"        2r=@r5      ";
"       -r1 @r4      ";
"      +q8X #r4      ";
"      6w$  #r4      ";
"     ,r;   #r5      ";
"    &e4    #r4      ";
"   o99O    #r4      ";
"   >r9666667rq66%   ";
"   <rrrrrrrrrrrr*   ";
"           #r4      ";
"           #r5      ";
"           #r5      ";
"           #r4      ";
"                    ";
"                    ";
"                    ";
"                    ";
"                    ";
"                    ";
"                    ";
"                    ";
"                    "]%xpm.

Definition n5 : xpm_map := [
"20 35 42 1 ";
"  c #000000";
". c #060606";
"X c #080808";
"o c #171717";
"O c #191919";
"+ c #1F1F1F";
"@ c #242424";
"# c #282828";
"$ c #363636";
"% c #393939";
"& c #3D3D3D";
"* c #414141";
"= c #444444";
"- c #4C4C4C";
"; c #515151";
": c #585858";
"> c #666666";
", c #6F6F6F";
"< c #707070";
"1 c #767676";
"2 c #787878";
"3 c #7E7E7E";
"4 c #848484";
"5 c #929292";
"6 c #969696";
"7 c #999999";
"8 c #A0A0A0";
"9 c #AFAFAF";
"0 c #B3B3B3";
"q c #BCBCBC";
"w c #C4C4C4";
"e c #C8C8C8";
"r c #CDCDCD";
"t c #D7D7D7";
"y c #D9D9D9";
"u c #DFDFDF";
"i c #EBEBEB";
"p c #EFEFEF";
"a c #F1F1F1";
"s c #F7F7F7";
"d c #FBFBFB";
"f c #FFFFFF";
"                    ";
"                    ";
"                    ";
"                    ";
"                    ";
"                    ";
"                    ";
"                    ";
"                    ";
"     ,ffffffff@     ";
"     4fteeeeee+     ";
"     7f$            ";
"     9f+            ";
"     wfX            ";
"     ya             ";
"     pi2685>o       ";
"     pffffffd2      ";
"     O=+XX#2sf2     ";
"            *fsX    ";
"             rf*    ";
"             9f;    ";
"             wf%    ";
"            @fa.    ";
"    -:X    *yf1     ";
"    <fsr0quff5      ";
"    o3widsu8&       ";
"                    ";
"                    ";
"                    ";
"                    ";
"                    ";
"                    ";
"                    ";
"                    ";
"                    "]%xpm.

Definition n6 : xpm_map := [
"20 35 44 1 ";
"  c #000000";
". c #060606";
"X c #090909";
"o c #121212";
"O c #1E1E1E";
"+ c #212121";
"@ c #303030";
"# c #323232";
"$ c #3C3C3C";
"% c #494949";
"& c #515151";
"* c #575757";
"= c #5B5B5B";
"- c #6B6B6B";
"; c #6D6D6D";
": c #727272";
"> c #7D7D7D";
", c #858585";
"< c #898989";
"1 c #8E8E8E";
"2 c #929292";
"3 c #949494";
"4 c #9B9B9B";
"5 c #9C9C9C";
"6 c #A5A5A5";
"7 c #A9A9A9";
"8 c #AEAEAE";
"9 c #B3B3B3";
"0 c #BCBCBC";
"q c #BDBDBD";
"w c #C1C1C1";
"e c #C5C5C5";
"r c #CACACA";
"t c #CDCDCD";
"y c #D2D2D2";
"u c #D9D9D9";
"i c #E1E1E1";
"p c #E2E2E2";
"a c #E9E9E9";
"s c #EDEDED";
"d c #F1F1F1";
"f c #F6F6F6";
"g c #FAFAFA";
"h c #FDFDFD";
"                    ";
"                    ";
"                    ";
"                    ";
"                    ";
"                    ";
"                    ";
"                    ";
"                    ";
"        $4udga@     ";
"      .6hht76e@     ";
"      8h9+          ";
"     *h9            ";
"     rhO            ";
"    +hq             ";
"    *h,O5pga8@      ";
"    ,h1sp42ehg%     ";
"    1hh<.   =haX    ";
"    5hq      9h&    ";
"    3h-      >h>    ";
"    >h;      ;h,    ";
"    %h6      <h:    ";
"    Xsf+    .uh@    ";
"     :hy+   1he     ";
"      6hgq7phpO     ";
"       =edgu,o      ";
"                    ";
"                    ";
"                    ";
"                    ";
"                    ";
"                    ";
"                    ";
"                    ";
"                    "]%xpm.

Definition n7 : xpm_map := [
"20 35 37 1 ";
"  c #000000";
". c #040404";
"X c #090909";
"o c #0D0D0D";
"O c #121212";
"+ c #181818";
"@ c #1D1D1D";
"# c #2A2A2A";
"$ c #2E2E2E";
"% c #3A3A3A";
"& c #414141";
"* c #4C4C4C";
"= c #595959";
"- c #5D5D5D";
"; c #6C6C6C";
": c #737373";
"> c #7E7E7E";
", c #808080";
"< c #898989";
"1 c #8F8F8F";
"2 c #9D9D9D";
"3 c #A1A1A1";
"4 c #B2B2B2";
"5 c #B5B5B5";
"6 c #B9B9B9";
"7 c #C3C3C3";
"8 c #C8C8C8";
"9 c #CDCDCD";
"0 c #D3D3D3";
"q c #E1E1E1";
"w c #E4E4E4";
"e c #EAEAEA";
"r c #EBEBEB";
"t c #F0F0F0";
"y c #F4F4F4";
"u c #F8F8F8";
"i c #FFFFFF";
"                    ";
"                    ";
"                    ";
"                    ";
"                    ";
"                    ";
"                    ";
"                    ";
"                    ";
"    wiiiiiiiiii,    ";
"    488888888ei:    ";
"            .qu+    ";
"            -i2     ";
"            0i#     ";
"           *i5      ";
"           7i&      ";
"          %i9       ";
"          4i=       ";
"         #i0.       ";
"         3i:        ";
"        @uto        ";
"        1i<         ";
"       Oyu@         ";
"       >i3          ";
"      Xei$          ";
"      ;i6           ";
"                    ";
"                    ";
"                    ";
"                    ";
"                    ";
"                    ";
"                    ";
"                    ";
"                    "]%xpm.

Definition n8 : xpm_map := [
"20 35 49 1 ";
"  c #000000";
". c #050505";
"X c #090909";
"o c #0E0E0E";
"O c #111111";
"+ c #191919";
"@ c #1D1D1D";
"# c #222222";
"$ c #242424";
"% c #292929";
"& c #2C2C2C";
"* c #313131";
"= c #464646";
"- c #494949";
"; c #4F4F4F";
": c #515151";
"> c #5A5A5A";
", c #5F5F5F";
"< c #606060";
"1 c #737373";
"2 c #787878";
"3 c #7D7D7D";
"4 c #858585";
"5 c #8A8A8A";
"6 c #949494";
"7 c #9F9F9F";
"8 c #A0A0A0";
"9 c #A4A4A4";
"0 c #AAAAAA";
"q c #ADADAD";
"w c #B1B1B1";
"e c #B7B7B7";
"r c #B8B8B8";
"t c #BFBFBF";
"y c #C3C3C3";
"u c #C4C4C4";
"i c #C9C9C9";
"p c #CCCCCC";
"a c #D2D2D2";
"s c #D7D7D7";
"d c #D8D8D8";
"f c #DEDEDE";
"g c #E0E0E0";
"h c #E4E4E4";
"j c #ECECEC";
"k c #EEEEEE";
"l c #F5F5F5";
"z c #FBFBFB";
"x c #FFFFFF";
"                    ";
"                    ";
"                    ";
"                    ";
"                    ";
"                    ";
"                    ";
"                    ";
"                    ";
"      %7fzla4O      ";
"     -zxp80hxg@     ";
"     hx,   X9x9     ";
"    &xp     +xh     ";
"    $xu     Oxs     ";
"     fz*    2x4     ";
"     =zj< o4xyo     ";
"      =gxfjz4X      ";
"      $exzxl5o      ";
"     :zj<X:ixf%     ";
"    %zg@    3xd.    ";
"    6x,      rx;    ";
"    tx&      3x1    ";
"    qx>      0x>    ";
"    >xg%    <xjO    ";
"     9xxy79sxl-     ";
"      :whzzd6#      ";
"                    ";
"                    ";
"                    ";
"                    ";
"                    ";
"                    ";
"                    ";
"                    ";
"                    "]%xpm.

Definition n9 : xpm_map := [
"20 35 46 1 ";
"  c #000000";
". c #050505";
"X c #090909";
"o c #121212";
"O c #161616";
"+ c #1B1B1B";
"@ c #232323";
"# c #292929";
"$ c #2C2C2C";
"% c #333333";
"& c #353535";
"* c #3A3A3A";
"= c #484848";
"- c #4F4F4F";
"; c #505050";
": c #585858";
"> c #5E5E5E";
", c #616161";
"< c #696969";
"1 c #6F6F6F";
"2 c #727272";
"3 c #7E7E7E";
"4 c #838383";
"5 c #8F8F8F";
"6 c #949494";
"7 c #9B9B9B";
"8 c #9C9C9C";
"9 c #A0A0A0";
"0 c #A5A5A5";
"q c #A9A9A9";
"w c #ACACAC";
"e c #BBBBBB";
"r c #BEBEBE";
"t c #C5C5C5";
"y c #C8C8C8";
"u c #D5D5D5";
"i c #D8D8D8";
"p c #DEDEDE";
"a c #E1E1E1";
"s c #E6E6E6";
"d c #E8E8E8";
"f c #ECECEC";
"g c #F3F3F3";
"h c #F7F7F7";
"j c #F9F9F9";
"k c #FFFFFF";
"                    ";
"                    ";
"                    ";
"                    ";
"                    ";
"                    ";
"                    ";
"                    ";
"                    ";
"      @8ajaw&       ";
"     =gkuwykk<      ";
"    Xfk:   %ak&     ";
"    1k9     *kr     ";
"    qk;      tko    ";
"    ek&      6k=    ";
"    wk-      9k>    ";
"    2kw     #hk<    ";
"    odk7#X+1fak>    ";
"     %pkkkkh10k-    ";
"      .-34,O tk@    ";
"            Xhf     ";
"            ,k7     ";
"           Osj$     ";
"          *ik4      ";
"     <w8qikj4       ";
"     <fkfu5#        ";
"                    ";
"                    ";
"                    ";
"                    ";
"                    ";
"                    ";
"                    ";
"                    ";
"                    "]%xpm.

End Digit.
