(* ===== verification/SpritesMenu.v ===== *)
(** * src/xpm/menu and messages.h: the pictures of the menu and of the end of a game *)

From S2P Require Import Prelude Xpm.

(** options.h *)
Module Options.

Definition start1 : xpm_map := [
"163 51 103 2 ";
"   c #000000";
".  c #040300";
"X  c #070500";
"o  c #080600";
"O  c #0B0900";
"+  c #0D0A00";
"@  c #0F0C00";
"#  c #120F00";
"$  c #131000";
"%  c #161200";
"&  c #181400";
"*  c #1B1600";
"=  c #1D1800";
"-  c #201A00";
";  c #221C00";
":  c #241E00";
">  c #262000";
",  c #2A2300";
"<  c #2C2500";
"1  c #302800";
"2  c #332B00";
"3  c #362D00";
"4  c #382F00";
"5  c #3B3100";
"6  c #3E3400";
"7  c #403500";
"8  c #433800";
"9  c #463B00";
"0  c #4A3E00";
"q  c #4B3F00";
"w  c #4E4100";
"e  c #524500";
"r  c #554700";
"t  c #564800";
"y  c #584A00";
"u  c #5E4F00";
"i  c #5F5000";
"p  c #605000";
"a  c #635300";
"s  c #685700";
"d  c #6B5A00";
"f  c #6D5B00";
"g  c #6F5D00";
"h  c #705E00";
"j  c #756200";
"k  c #766300";
"l  c #776400";
"z  c #796600";
"x  c #7F6B00";
"c  c #836E00";
"v  c #846F00";
"b  c #857000";
"n  c #897300";
"m  c #8C7600";
"M  c #8F7800";
"N  c #907900";
"B  c #947C00";
"V  c #957D00";
"C  c #998100";
"Z  c #9C8300";
"A  c #9D8400";
"S  c #A08600";
"D  c #A38900";
"F  c #A68B00";
"G  c #A78C00";
"H  c #A88D00";
"J  c #AC9100";
"K  c #AD9100";
"L  c #B39600";
"P  c #B49700";
"I  c #B79A00";
"U  c #B89B00";
"Y  c #BA9C00";
"T  c #BD9F00";
"R  c #BFA100";
"E  c #C1A200";
"W  c #C3A400";
"Q  c #C4A500";
"!  c #C7A700";
"~  c #C8A800";
"^  c #CBAB00";
"/  c #CEAD00";
"(  c #D0AF00";
")  c #D1B000";
"_  c #D6B400";
"`  c #D7B500";
"'  c #D9B600";
"]  c #DBB800";
"[  c #DCB900";
"{  c #DFBC00";
"}  c #E2BE00";
"|  c #E5C100";
" . c #E8C300";
".. c #EAC500";
"X. c #EDC700";
"o. c #EFC900";
"O. c #F1CB00";
"+. c #F3CC00";
"@. c #F5CE00";
"#. c #F7D000";
"$. c #FAD200";
"%. c #FCD400";
"&. c #FFD700";
"                                                                                                                                                                                                                                                                                                                                      ";
"                                                                                                                                                                                                                                                                                                                                      ";
"                                                                                                                                                                                                                                                                                                                                      ";
"                                                                                                                                                                                                                                                                                                                                      ";
"                                                                                                                                                                                                                                                                                                                                      ";
"                                                                                                                                                                                                                                                                                                                                      ";
"                                                                                                                                                                                                                                                                                                                                      ";
"                                                                                                                                                                                                                                                                                                                                      ";
"                                                                                                                                                                                                                                                                                                                                      ";
"                                                                                                                                                                                                                                                                                                                                      ";
"                                                                                                                                                                                                                                                                                                                                      ";
"                                                                                                                                                                                                                                                                                                                                      ";
"                                                                                                                                                                                                                                                                                                                                      ";
"                                                                      o u K [ +.&.O.[ I c 6         L &.&.&.&.&.&.&.&.&.&.&.&.&.&.&.&.&.&.N             $ #.&.]                           l &.&.&.&.&.&.&.+.| R V 7             L &.&.&.&.&.&.&.&.&.&.&.&.&.&.&.&.&.&.V                                                               ";
"                                                                    w | &.&.&.&.&.&.&.&.&.&.} 2     L &.&.&.&.&.&.&.&.&.&.&.&.&.&.&.&.&.&.V             g &.&.&.6                         z &.&.&.&.&.&.&.&.&.&.&.&.( 5         L &.&.&.&.&.&.&.&.&.&.&.&.&.&.&.&.&.&.N                                                               ";
"                                                                  u &.&.&.&.| W T ~ ..&.&.&.+.+     z P P P P P P P [ &.&.` L L P L L I L d             ) &.&.&.G                         z &.&.` K K K K Y ` $.&.&.&.#.7       z P P P P L L I [ &.&.` P L L I L L I d                                                               ";
"                                    +                           = @.&.&.Q 3           * y K Z                       m &.&.h                           5 &.&.' &.#.$                       z &.&.v             + p ..&.&.| @                     m &.&.h                                     o X                                       ";
"                                - A L                           x &.&./ X                                           m &.&.h                           C &.&.e &.&.d                       l &.&.v                 : @.&.&.p                     m &.&.h                                     < [ p .                                   ";
"                            = C $.&.U                           I &.&.u                                             m &.&.h                         O +.&.E   o.&./                       l &.&.v                   V &.&.G                     m &.&.h                                     < &.&.[ u                                 ";
"                        * V $.&.&.+.h                           Q &.&.5                                             m &.&.h                         a &.&.f   A &.&.2                     z &.&.v                   y &.&.W                     m &.&.h                                     % Q &.&.&.' i                             ";
"                    * N $.&.&.o.c $                             P &.&.r                                             m &.&.h                         Q &.$.*   7 &.&.V                     z &.&.v                   q &.&.~                     m &.&.h                                         7 R &.&.&.` t                         ";
"                % m @.&.&...z +                                 x &.&.K                                             m &.&.h                       , &.&.L       { &.+.X                   l &.&.v                   u &.&.I                     m &.&.h                                             3 I &.&.&.) e                     ";
"            # n @.&.&.| h O                                     : &.&.&.x                                           m &.&.h                       M &.&.e       c &.&.i                   z &.&.v                   S &.&.c                     m &.&.h                                                 2 K &.&.&./ w                 ";
"        # v @.&.&.{ s X                                           b &.&.&.Q 8                                       m &.&.h                     X ..&...X       = &.&.E                   l &.&.v                 2 &.&.$.;                     m &.&.h                                                     , G &.&.&.~ q             ";
"    @ c o.&.&.` p .                                                 m &.&.&.&.` j *                                 m &.&.h                     y &.&.N           E &.&.:                 z &.&.v             X p o.&.&.c                       m &.&.h                                                         > S $.&.&.Q 9         ";
"  = o.&.&.) y                                                         9 ( &.&.&.&.$.L 5                             m &.&.h                     T &.&.2           p &.&.b                 l &.&./ Z C A A G E +.&.&.&.m                         m &.&.h                                                             - C $.&.&.C       ";
"  < &.&.&.L 9                                                             q L $.&.&.&.&.Y :                         m &.&.h                   = &.&./             + @.&.| X               z &.&.&.&.&.&.&.&.&.&.&.Q 9                           m &.&.h                                                             O d [ &.&.I       ";
"  X d ' &.&.&.` d O                                                           % j ] &.&.&.+.9                       m &.&.h                   c &.&.h               S &.&.w               l &.&.&.&.&.&.&.&.&.&.{ X                             m &.&.h                                                         > M o.&.&.&.F 2       ";
"        w E &.&.&.O.m ;                                                             u ..&.&.O.=                     m &.&.h                   | &.&.&.&.&.&.&.&.&.&.&.&.&.L               z &.&.b           ) &.&.j                             m &.&.h                                                     q I &.&.&.+.m =           ";
"            2 F $.&.&.&.L 9                                                           * [ &.&.V                     m &.&.h                 q &.&.&.&.&.&.&.&.&.&.&.&.&.&.&.*             z &.&.c           8 &.&.+.*                           m &.&.h                                               # j ] &.&.&.[ j +               ";
"                = m O.&.&.&.` d +                                                       e &.&.[                     m &.&.h                 L &.&.~ E E E E R E E E R [ &.&.l             z &.&.b             L &.&.D                           m &.&.h                                           < V @.&.&.&.~ y o                   ";
"                    + h { &.&.&.O.N :                                                   + &.&.&.                    m &.&.h               % $.&.}                     5 &.&.'             z &.&.v             > $.&.&.5                         m &.&.h                                       r E &.&.&.&.L 6                         ";
"                        . t ~ &.&.&.U                                                   o &.&.$.                    m &.&.h               j &.&.v                       ` &.&.6           z &.&.v               N &.&./                         m &.&.h                                     < &.&.&.@.V ;                             ";
"                              5 K &.U                                                   5 &.&.'                     m &.&.h               ' &.&.;                       h &.&.G           l &.&.v               # o.&.&.s                       m &.&.h                                     < &.| z $                                 ";
"                                  ; u                                                 O W &.&.m                     m &.&.h             6 &.&.E                         % $.&.@.#         z &.&.v                 g &.&.X.#                     m &.&.h                                     * i X                                     ";
"                                                              : ' c 7 o             7 ~ &.&.o.*                     m &.&.h             D &.&.u                           K &.&.d         l &.&.v                 X ' &.&.V                     m &.&.h                                                                               ";
"                                                              : &.&.&.&.[ R L L W X.&.&.&.@.9                       m &.&.h           @ @.&.O.O                           q &.&./         z &.&.v                   w &.&.&.<                   m &.&.h                                                                               ";
"                                                              = $.&.&.&.&.&.&.&.&.&.&.&.W 2                         m &.&.h           d &.&.C                               } &.&.2       l &.&.v                     R &.&.E                   m &.&.h                                                                               ";
"                                                                # p A ~ | @.&.#. .Q M 5                             m &.&.h           / &.&.5                               c &.&.V       z &.&.v                     < &.&.&.y                 m &.&.h                                                                               ";
"                                                                                                                                                                                                                                                                                                                                      ";
"                                                                                                                                                                                                                                                                                                                                      ";
"                                                                                                                                                                                                                                                                                                                                      ";
"                                                                                                                                                                                                                                                                                                                                      ";
"                                                                                                                                                                                                                                                                                                                                      ";
"                                                                                                                                                                                                                                                                                                                                      ";
"                                                                                                                                                                                                                                                                                                                                      ";
"                                                                                                                                                                                                                                                                                                                                      ";
"                                                                                                                                                                                                                                                                                                                                      ";
"                                                                                                                                                                                                                                                                                                                                      ";
"                                                                                                                                                                                                                                                                                                                                      ";
"                                                                                                                                                                                                                                                                                                                                      "]%xpm.

Definition start2 : xpm_map := [
"163 51 87 1 ";
"  c #000000";
". c #040100";
"X c #0B0200";
"o c #0D0300";
"O c #110400";
"+ c #130500";
"@ c #160500";
"# c #190600";
"$ c #1B0700";
"% c #1D0700";
"& c #1E0800";
"* c #200800";
"= c #210800";
"- c #240900";
"; c #2A0B00";
": c #2C0B00";
"> c #2D0C00";
", c #330D00";
"< c #370E00";
"1 c #3B0F00";
"2 c #3D1000";
"3 c #3E1000";
"4 c #421100";
"5 c #461200";
"6 c #491300";
"7 c #4A1400";
"8 c #4E1500";
"9 c #521600";
"0 c #561700";
"q c #581700";
"w c #5A1800";
"e c #5E1900";
"r c #601900";
"t c #631A00";
"y c #6B1C00";
"u c #6F1E00";
"i c #701E00";
"p c #761F00";
"a c #772000";
"s c #792000";
"d c #7F2200";
"f c #822300";
"g c #832300";
"h c #842300";
"j c #892500";
"k c #8C2500";
"l c #902600";
"z c #912700";
"x c #942800";
"c c #952800";
"v c #992900";
"b c #9D2A00";
"n c #A12B00";
"m c #A32C00";
"M c #A62C00";
"N c #AA2E00";
"B c #AC2E00";
"V c #AF2F00";
"C c #B02F00";
"Z c #B33000";
"A c #B43000";
"S c #B83100";
"D c #BF3300";
"F c #C03300";
"G c #C13400";
"H c #C73500";
"J c #C83600";
"K c #CD3700";
"L c #CF3800";
"P c #D03800";
"I c #D53900";
"U c #D73A00";
"Y c #D93A00";
"T c #DB3B00";
"R c #DC3B00";
"E c #DF3C00";
"W c #E23D00";
"Q c #E63E00";
"! c #EA3F00";
"~ c #EC3F00";
"^ c #EF4000";
"/ c #F34100";
"( c #F64200";
") c #F94300";
"_ c #FA4300";
"` c #FC4400";
"' c #FF4500";
"                                                                                                                                                                   ";
"                                                                                                                                                                   ";
"                                                                                                                                                                   ";
"                                                                                                                                                                   ";
"                                                                                                                                                                   ";
"                                                                                                                                                                   ";
"                                                                                                                                                                   ";
"                                                                                                                                                                   ";
"                                                                                                                                                                   ";
"                                                                                                                                                                   ";
"                                                                                                                                                                   ";
"                                                                                                                                                                   ";
"                                                                                                                                                                   ";
"                                   XeNR/'/RAg3    Z''''''''''''''''''z      +('R             a'''''''/QGl4      Z''''''''''''''''''c                               ";
"                                  8Q''''''''''W,  C''''''''''''''''''c      y'''4            s''''''''''''P3    C''''''''''''''''''l                               ";
"                                 e''''QGDJ!'''(o  sAAAAAAAR''IAAAAAAAy      P'''M            s''IVNVVAI_''')4   sAAAAAZZE''IAAAAAAAy                               ";
"                  o             &(''G<     $wVv           k''i             <''Y'(+           s''h      or!''Qo          k''i                  X.                   ";
"                *bZ             d''K.                     k''i             b''9''y           a''h        -(''r          k''i                  ;Er.                 ";
"              &v_'S             A''e                      k''i            X/'G.^'K           a''h         c''M          k''i                  ;''Ee                ";
"            $c_''/i             H''1                      k''i            r''y b'',          s''h         q''G          k''i                  @H'''Ie              ";
"          $l_''^g+              A''0                      k''i            J''@ 4''c          s''h         6''K          k''i                    4D'''I0            ";
"        @k(''!so                d''V                      k''i           ;''C   R'/X         a''h         e''S          k''i                      <A'''P9          ";
"      @j/''QiX                  -'''d                     k''i           l''9   g''e         s''h         n''d          k''i                        ,V'''L8        ";
"    +h/''Wy                      h'''H5                   k''i          .!'~.   %''F         a''h        <_''*          k''i                          ;M'''K7      ";
"  og/''Ir.                        k''''Ip$                k''i          w''z     G''-        s''h      .r^''g           k''i                            -m_''H5    ";
" &^''Pw                            5P''''_Z3              k''i          A'',     r''h        a''LbbvbMG('''k            k''i                              &v_''v   ";
" >'''Z5                              8V_''''S-            k''i         &''L      o('Q.       s'''''''''''H4             k''i                              XyE''Z   ";
" .yY'''IyX                             @yY'''(5           k''i         g''i       b''8       s''''''''''W.              k''i                            -k/''_N,   ";
"    8G'''/k*                              e^''/&          k''i         Q'''''''''''''Z       s''h     P''p              k''i                          8A'''/k&     ";
"      ,M_'''Z5                             $E''l          k''i        7''''''''''''''_&      s''h     4''/$             k''i                       oiE'''Wio       ";
"        %k/'''Iyo                           8''E          k''i        Z''JGGDFFFGFFE''s      s''h      Z''m             k''i                     >v('''Jw          ";
"          oiE'''/l-                         o'''          k''i       @)'W          1''Y      s''h      -_''3            k''i                   0G''''C3            ";
"            .0J'''S                         .''_          k''i       p''h           I''3     s''h       l''K            k''i                  :'''/c-              ";
"               1V'S                         1''Y          k''i       Y''*           a''M     a''h       +^''y           k''i                  :'Qs@                ";
"                 *e                        XG''k          k''i      3''D            +_'(+    s''h        i''!+          k''i                  &e.                  ";
"                               -Yg3X      4J''~$          k''i      m''e             V''y    a''h        .Y''c          k''i                                       ";
"                               -''''RDZZG^'''(5           k''i     o('/X             6''K    s''h         8'''>         k''i                                       ";
"                               %_'''''''''''H>            k''i     y''v               W'',   a''h          D''G         k''i                                       ";
"                                +rbJQ(_(!Gk3              k''i     L''3               g''c   s''h          >_''w        k''i                                       ";
"                                                                                                                                                                   ";
"                                                                                                                                                                   ";
"                                                                                                                                                                   ";
"                                                                                                                                                                   ";
"                                                                                                                                                                   ";
"                                                                                                                                                                   ";
"                                                                                                                                                                   ";
"                                                                                                                                                                   ";
"                                                                                                                                                                   ";
"                                                                                                                                                                   ";
"                                                                                                                                                                   ";
"                                                                                                                                                                   "]%xpm.

Definition scores1 : xpm_map := [
"193 51 110 2 ";
"   c #000000";
".  c #040300";
"X  c #070500";
"o  c #080600";
"O  c #0B0900";
"+  c #0D0A00";
"@  c #0F0C00";
"#  c #110E00";
"$  c #131000";
"%  c #161200";
"&  c #1B1600";
"*  c #1D1800";
"=  c #201A00";
"-  c #221C00";
";  c #241E00";
":  c #272000";
">  c #282100";
",  c #2B2400";
"<  c #2D2500";
"1  c #302800";
"2  c #332B00";
"3  c #362D00";
"4  c #382F00";
"5  c #3B3100";
"6  c #3D3300";
"7  c #3E3400";
"8  c #403500";
"9  c #433800";
"0  c #463B00";
"q  c #483C00";
"w  c #4B3F00";
"e  c #4E4100";
"r  c #514400";
"t  c #524500";
"y  c #554700";
"u  c #564800";
"i  c #584A00";
"p  c #5B4C00";
"a  c #5E4F00";
"s  c #5F5000";
"d  c #605000";
"f  c #645400";
"g  c #685700";
"h  c #6B5A00";
"j  c #6C5B00";
"k  c #6F5D00";
"l  c #705E00";
"z  c #736000";
"x  c #766300";
"c  c #786500";
"v  c #796600";
"b  c #7B6700";
"n  c #7D6900";
"m  c #7F6B00";
"M  c #806B00";
"N  c #836E00";
"B  c #846F00";
"V  c #857000";
"C  c #887200";
"Z  c #8A7400";
"A  c #8C7600";
"S  c #8F7800";
"D  c #907900";
"F  c #937B00";
"G  c #957D00";
"H  c #988000";
"J  c #998100";
"K  c #9C8300";
"L  c #9D8400";
"P  c #A08600";
"I  c #A28800";
"U  c #A68B00";
"Y  c #A78C00";
"T  c #AA8F00";
"R  c #AC9100";
"E  c #AD9100";
"W  c #AF9300";
"Q  c #B39600";
"!  c #B49700";
"~  c #B59800";
"^  c #B89B00";
"/  c #BA9C00";
"(  c #BD9F00";
")  c #BFA100";
"_  c #C1A200";
"`  c #C3A400";
"'  c #C7A700";
"]  c #C8A800";
"[  c #CCAC00";
"{  c #D1B000";
"}  c #D4B200";
"|  c #D7B500";
" . c #D9B600";
".. c #DBB800";
"X. c #DDBA00";
"o. c #DFBC00";
"O. c #E2BE00";
"+. c #E4C000";
"@. c #E5C100";
"#. c #E8C300";
"$. c #EAC500";
"%. c #ECC600";
"&. c #EFC900";
"*. c #F1CB00";
"=. c #F3CC00";
"-. c #F5CE00";
";. c #F7D000";
":. c #FAD200";
">. c #FBD300";
",. c #FFD700";
"                                                                                                                                                                                                                                                                                                                                                                                                  ";
"                                                                                                                                                                                                                                                                                                                                                                                                  ";
"                                                                                                                                                                                                                                                                                                                                                                                                  ";
"                                                                                                                                                                                                                                                                                                                                                                                                  ";
"                                                                                                                                                                                                                                                                                                                                                                                                  ";
"                                                                                                                                                                                                                                                                                                                                                                                                  ";
"                                                                                                                                                                                                                                                                                                                                                                                                  ";
"                                                                                                                                                                                                                                                                                                                                                                                                  ";
"                                                                                                                                                                                                                                                                                                                                                                                                  ";
"                                                                                                                                                                                                                                                                                                                                                                                                  ";
"                                                                                                                                                                                                                                                                                                                                                                                                  ";
"                                                                                                                                                                                                                                                                                                                                                                                                  ";
"                                                                                                                                                                                                                                                                                                                                                                                                  ";
"                                                                      o a T X.=.,.*.X.~ N 7                           * l E ..*.,.=.@._ D e O                     0 Z ' o.=.-.O.] S 0 X                       v ,.,.,.,.,.,.,.=.@._ G 8                   v ,.,.,.,.,.,.,.,.,.,.,.,.,.X.              o a T ..*.,.*.o.~ B 7                                                                       ";
"                                                                    e @.,.,.,.,.,.,.,.,.,.,.O.2                   - Y ,.,.,.,.,.,.,.,.,.,.,.*.u               u  .,.,.,.,.,.,.,.,.,.,.| u                     v ,.,.,.,.,.,.,.,.,.,.,.,.{ 5               v ,.,.,.,.,.,.,.,.,.,.,.,.,...            e @.,.,.,.,.,.,.,.,.,.,.@.2                                                                   ";
"                                                                  a ,.,.,.,.@.` ) ] $.,.,.,.=.+                 d -.,.,.,.,.$.[ ( ' @.,.,.,.,.>           X I ,.,.,.,.,.X.] '  .:.,.,.,.,.L X                 v ,.,.| E E E E / { :.,.,.,.:.8             v ,.,...! ! ! ! ! ~ Q ~ Q ~ J           s ,.,.,.,.@.' / ] $.,.,.,.*.+                                                                   ";
"                                    +                           * -.,.,.' 3           & i E K                 l ,.,.,.:.Z 2           % i ~ U             / ,.,.,.{ i $         + e ' ,.,.,.Q                 c ,.,.B             + f #.,.,.@.+           v ,.,.N                               * -.,.,.' 3           & p E J                           o X                                       ";
"                                = L Q                           n ,.,.[ X                                   q ,.,.,.{ =                                 n ,.,.,.N                     j ,.,.,.v               v ,.,.B                 : -.,.,.d           v ,.,.V                               n ,.,.[ X                                               < X.d X                                   ";
"                            * J :.,.^                           ~ ,.,.a                                   + O.,.,.[ @                                 : ,.,.,.N                         h ,.,.:.:             v ,.,.B                   D ,.,.Y           c ,.,.N                               ~ ,.,.s                                                 , ,.,...s                                 ";
"                        & G :.,.,.=.l                           ' ,.,.7                                   v ,.,.-.;                                   J ,.,.[ X                           ) ,.,.G             c ,.,.B                   u ,.,.'           v ,.,.V                               ' ,.,.7                                                 % ` ,.,.,.| a                             ";
"                    & D :.,.,.&.N $                             ~ ,.,.u                                   O.,.,.C                                   O -.,.,.u                             q ,.,.-.+           v ,.,.B                   q ,.,.[           v ,.,.N                               ~ ,.,.r                                                     8 ( ,.,.,.} u                         ";
"                % A -.,.,.$.v +                                 n ,.,.E                                 2 ,.,.,.*                                   9 ,.,.&.X                               @.,.,.0           v ,.,.B                   s ,.,.~           v ,.,.V                               N ,.,.E                                                         4 ~ ,.,.,.{ y                     ";
"            % C -.,.,.@.l O                                     ; ,.,.,.n                               x ,.,.}                                     b ,.,./                                 E ,.,.N           v ,.,.B                   P ,.,.N           c ,.,.N                               - ,.,.,.n                                                           2 E ,.,.,.[ e                 ";
"        # B *.,.,.o.g X                                           V ,.,.,.' 0                           L ,.,.J                                     I ,.,.V                                 N ,.,.E           v ,.,.B                 2 :.,.>.-           c ,.,.V                                 V ,.,.,.' 9                                                           < U ,.,.,.[ q             ";
"    @ N &.,.,.| d .                                                 A ,.,.,.,.} z &                     / ,.,.n                                     ~ ,.,.z                                 h ,.,.(           v ,.,.B             X d $.,.,.M             v ,.,.,.,.,.,.,.,.,.,.,.,.,.<             A ,.,.,.,.| x &                                                         : P :.,.,.' 0         ";
"  * &.,.,.{ i                                                         0 { ,.,.,.,.:.Q 7                 ' ,.,.h                                     ' ,.,.f                                 i ,.,.[           v ,.,.[ L K L K U _ =.,.,.,.A               v ,.,.,.,.,.,.,.,.,.,.,.,.,.<               0 { ,.,.,.,.:.E 7                                                         = J :.,.,.J       ";
"  < ,.,.,.Q 0                                                             q ~ :.,.,.,.,./ ;             ' ,.,.h                                     _ ,.,.d                                 p ,.,.[           v ,.,.,.,.,.,.,.,.,.,.,.' 9                 c ,.,. .W E Q Q Q E Q Q W Q *                   q E ,.,.,.,.,./ -                                                     O h X.,.,.~       ";
"  X h  .,.,.,.| h O                                                           % z ..,.,.,.=.0           Q ,.,.v                                     Q ,.,.l                                 h ,.,.)           v ,.,.,.,.,.,.,.,.,.,.O.X                   c ,.,.V                                             % z  .,.,.,.=.0                                               ; S &.,.,.:.T 2       ";
"        e _ ,.,.,.*.A -                                                             s $.,.,.=.*         I ,.,.D                                     L ,.,.V                                 N ,.,.E           v ,.,.B           { ,.,.v                   v ,.,.N                                                   s $.,.,.=.*                                         e ~ ,.,.,.*.A *           ";
"            2 U :.,.,.,.Q 0                                                           & o.,.,.G         v ,.,.]                                     v ,.,./                                 E ,.,.M           v ,.,.B           9 ,.,.*.&                 v ,.,.V                                                     & o.,.,.G                                   # l X.,.,.,.O.z +               ";
"                * A *.,.,.,.| h +                                                       e ,.,.X.        8 ,.,.:.#                                   7 ,.,.%.X                               @.,.,.0           v ,.,.V             ! ,.,.I                 c ,.,.N                                                       e ,.,.o.                              < J -.,.,.,.] p .                   ";
"                    + l o.,.,.,.*.D ;                                                   + ,.,.,.        + -.,.,.z                                   O -.,.,.r                             0 ,.,.=.O           v ,.,.B             ; :.,.,.5               c ,.,.V                                                       @ ,.,.:.                        . y _ ,.,.,.,.E 7                         ";
"                        . u ] ,.,.,.^                                                   o ,.,.:.          J ,.,.@.$                                   G ,.,.'                             ^ ,.,.G             v ,.,.B               D ,.,.[               v ,.,.B                                                       X ,.,.:.                        < ,.,.,.-.G ;                             ";
"                              5 E ,.^                                                   5 ,.,. .          < ,.,.,.E .                                 > :.,.,.z                         d ,.,.:.:             v ,.,.B               # &.,.,.g             v ,.,.B                                                       5 ,.,. .                        < ,.@.v #                                 ";
"                                  - a                                                 o ` ,.,.Z             V ,.,.,.Q +                                 B ,.,.,.z                     a ,.,.,.x               v ,.,.B                 j ,.,.%.#           v ,.,.B                                                     o ' ,.,.A                         & s X                                     ";
"                                                              ;  .N 8 o             8 [ ,.,.&.&             . ) ,.,.,.%.x =             < f a           . / ,.,.,.' q O         X 7 ~ ,.,.,.Q                 v ,.,.B                 o  .,.,.D           v ,.,.B                             ;  .N 8 o           . 8 ] ,.,.&.%                                                                   ";
"                                                              ; ,.,.,.,.X.) Q Q _ &.,.,.,.-.0                 o T ,.,.,.,.,.O.] / ] X.-.,.,.U             X Y ,.,.,.,.-.[ ~ ~ ] *.,.,.,.,.L .                 v ,.,.B                   e ,.,.,.<         v ,.,.X.^ ^ ^ ^ ^ ^ ^ ^ ^ ^ L       ; ,.,.,.,.X.) Q Q _ &.,.,.,.-.0                                                                     ";
"                                                              * :.,.,.,.,.,.,.,.,.,.,.,.' <                       a X.,.,.,.,.,.,.,.,.,.,.,.I                 a ..,.,.,.,.,.,.,.,.,.,.| r                     v ,.,.B                     ) ,.,._         v ,.,.,.,.,.,.,.,.,.,.,.,.,...      * ;.,.,.,.,.,.,.,.,.,.,.,.' 2                                                                       ";
"                                                                # d L ] @.-.:.;.$.` S 5                             X q A ] O.-.,.=.O._ G u @                   X 0 S ] O.-.-.@.] A 0                         v ,.,.B                     < ,.,.,.i       v ,.,.,.,.,.,.,.,.,.,.,.,.,.X.        # d L ' @.-.:.:.#.' A 5                                                                           ";
"                                                                                                                                                                                                                                                                                                                                                                                                  ";
"                                                                                                                                                                                                                                                                                                                                                                                                  ";
"                                                                                                                                                                                                                                                                                                                                                                                                  ";
"                                                                                                                                                                                                                                                                                                                                                                                                  ";
"                                                                                                                                                                                                                                                                                                                                                                                                  ";
"                                                                                                                                                                                                                                                                                                                                                                                                  ";
"                                                                                                                                                                                                                                                                                                                                                                                                  ";
"                                                                                                                                                                                                                                                                                                                                                                                                  ";
"                                                                                                                                                                                                                                                                                                                                                                                                  ";
"                                                                                                                                                                                                                                                                                                                                                                                                  ";
"                                                                                                                                                                                                                                                                                                                                                                                                  ";
"                                                                                                                                                                                                                                                                                                                                                                                                  "]%xpm.

Definition scores2 : xpm_map := [
"193 51 91 1 ";
"  c #000000";
". c #040100";
"X c #0B0200";
"o c #0C0300";
"O c #0D0300";
"+ c #110400";
"@ c #130500";
"# c #160500";
"$ c #190600";
"% c #1B0700";
"& c #1D0700";
"* c #1E0800";
"= c #200800";
"- c #240900";
"; c #270A00";
": c #280A00";
"> c #2B0B00";
", c #2C0B00";
"< c #2F0C00";
"1 c #330D00";
"2 c #360E00";
"3 c #3B0F00";
"4 c #3D1000";
"5 c #3E1000";
"6 c #421100";
"7 c #471300";
"8 c #481300";
"9 c #4A1400";
"0 c #4E1500";
"q c #521600";
"w c #561700";
"e c #581700";
"r c #5A1800";
"t c #5E1900";
"y c #601900";
"u c #641B00";
"i c #681C00";
"p c #6A1C00";
"a c #6F1E00";
"s c #701E00";
"d c #751F00";
"f c #782000";
"g c #792000";
"h c #7D2100";
"j c #822300";
"k c #832300";
"l c #842300";
"z c #852300";
"x c #892500";
"c c #8C2500";
"v c #902600";
"b c #912700";
"n c #952800";
"m c #992900";
"M c #9C2A00";
"N c #9D2A00";
"B c #A02B00";
"V c #A32C00";
"C c #A62C00";
"Z c #AA2E00";
"A c #AE2F00";
"S c #AF2F00";
"D c #B02F00";
"F c #B33000";
"G c #B53000";
"H c #B83100";
"J c #BD3300";
"K c #BF3300";
"L c #C13400";
"P c #C23400";
"I c #C43500";
"U c #C83600";
"Y c #CD3700";
"T c #CF3800";
"R c #D13800";
"E c #D53900";
"W c #DA3A00";
"Q c #DC3B00";
"! c #DF3C00";
"~ c #E33D00";
"^ c #E63E00";
"/ c #EA3F00";
"( c #EC3F00";
") c #EF4000";
"_ c #F34100";
"` c #F64200";
"' c #F84300";
"] c #F94300";
"[ c #FA4300";
"{ c #FC4400";
"} c #FF4500";
"                                                                                                                                                                                                 ";
"                                                                                                                                                                                                 ";
"                                                                                                                                                                                                 ";
"                                                                                                                                                                                                 ";
"                                                                                                                                                                                                 ";
"                                                                                                                                                                                                 ";
"                                                                                                                                                                                                 ";
"                                                                                                                                                                                                 ";
"                                                                                                                                                                                                 ";
"                                                                                                                                                                                                 ";
"                                                                                                                                                                                                 ";
"                                                                                                                                                                                                 ";
"                                                                                                                                                                                                 ";
"                                   XtZQ_}_!Gk5             &pSE)}_^Lv0X          7xI!_`~Uc9.           g}}}}}}}_^Lv6         g}}}}}}}}}}}}}Q       XtZQ_[_!Fz5                                   ";
"                                  0^}}}}}}}}}}~<         =Z}}}}}}}}}}}_r       wW}}}}}}}}}}Ww          g}}}}}}}}}}}}R5       g}}}}}}}}}}}}}Q      0^}}}}}}}}}}~<                                 ";
"                                 t}}}}^LKU/}}}`O        t`}}}})TKI^}}}]:     .V}}}}}!ULW]}}}}V.        g}}EAAZAGE]}}}`6      g}}WGFGFGFGFGGm     t}}}}^LKI)}}}`X                                 ";
"                  O             *`}}L2     %rSm        p}}}[x1     #rGC      H}}}Rr@    X0I}}}F        f}}l      Oy)}}~O     g}}k               *`}}L3     %eSm             X                    ";
"                =NF             h}}TX                 0}}}R=                k}}}l          p}}}g       g}}l        =`}}y     g}}z               h}}YX                       <!y                  ";
"              *m[}H             G}}t                 O^}}TO                :]}}l            p}}]-      g}}l         n}}C     f}}k               G}}t                        >}}!y                ";
"            %n[}}_s             L}}3                 g}}[=                 n}}T              L}}n      f}}l         e}}L     f}}z               I}}5                        #L}}}Wr              ";
"          %v[}})k@              F}}w                 ~}}x                 X`}}w              7}}]O     g}}l         9}}Y     g}}k               G}}w                          5K}}}Er            ";
"        #c`}}/gO                k}}S                1}}[*                 6}}_.               )}}7     g}}l         t}}H     g}}z               k}}S                            5G}}}Rq          ";
"      @x`}}^sX                  -}}}h               g}}E                  g}}H                A}}h     g}}l         N}}k     f}}k               =}}}h                             1A}}}R0        ";
"    @k_}}~p                      l}}}I7             N}}m                  C}}x                k}}A     g}}l        2}}[*     f}}z                k}}}L7                             :C}}}U9      ";
"  Ok_}}Ey.                        c}}}}Ef%          H}}h                  G}}g                p}}K     g}}l      .y)}}k      g}}}}}}}}}}}}},      c}}}}Eg%                            -V[}}I7    ";
" *)}}Rr                            7R}}}}]F5        I}}p                  I}}t                r}}T     g}}TNmNNCL_}}}c       g}}}}}}}}}}}}},       7R}}}}]S5                            =m[}}m   ";
" ,}}}F7                              9F]}}}}H-      I}}p                  L}}t                t}}T     g}}}}}}}}}}}I6        f}}WSDDSDDDDDD*         9D[}}}}H-                          OpQ}}G   ";
" .pW}}}EpX                             #pW}}}_7     F}}g                  F}}g                p}}K     g}}}}}}}}}}~.         f}}z                      #pW}}}_7                       -c)}}[Z1   ";
"    0L}}}_c=                              t)}}_*    V}}n                  V}}k                h}}Z     g}}l     R}}g         g}}k                         t/}}`*                    0G}}}_c*     ";
"      1C[}}}F7                             #!}}b    g}}U                  g}}G                A}}k     g}}l     6}}_%        g}}z                          %Q}}n                 @sW}}}~sO       ";
"        &c_}}}EpO                           0}}!    6}}]@                 5}})                )}}7     g}}l      G}}V        f}}k                           0}}Q               <m`}}}Ur.         ";
"          Os!}}}_v-                         O}}}    o`}}d                 X`}}q              7]}_X     g}}l      =[}}3       f}}z                           O}}[            .wL}}}}A5            ";
"            .wU}}}H                         .}}[     m}}^@                 m}}I              H}}n      g}}l       b}}T       g}}k                           .}}[            <}}}`n-              ";
"               3S}H                         3}}W     ,}}}S                 :}}}s            u}}[-      g}}l       @)}}i      g}}z                           3}}W            :}^g@                ";
"                 =t                        XI}}x      z}}}GO                k}}}s          t}}}d       g}}l        p}})@     g}}z                          XI}}x            *t.                  ";
"                               -Wk5X      6U}}(%      .K}}}(g=      <ut      H}}}I9X     6D}}}F        g}}l        .E}}b     g}}z              -Wk5X      6U}})%                                 ";
"                               -}}}}QKFFL)}}}`7        XZ}}}}}~IHU!`}}C      .Z}}}}`UHGU`}}}}N         g}}l         q}}}<    g}}QHHHHHHHHHHN   -}}}}!KFFL)}}}`7                                  ";
"                               &[}}}}}}}}}}}I1           tQ}}}}}}}}}}}V        t!}}}}}}}}}}Eq          g}}l          K}}K    g}}}}}}}}}}}}}Q   &[}}}}}}}}}}}I<                                   ";
"                                @yNU^`[`/Lc5              .8cU~`}_!LnwO         .7cU~``~Yc7            g}}l          <}}}r   g}}}}}}}}}}}}}Q    @tNI^`[`/Ic3                                     ";
"                                                                                                                                                                                                 ";
"                                                                                                                                                                                                 ";
"                                                                                                                                                                                                 ";
"                                                                                                                                                                                                 ";
"                                                                                                                                                                                                 ";
"                                                                                                                                                                                                 ";
"                                                                                                                                                                                                 ";
"                                                                                                                                                                                                 ";
"                                                                                                                                                                                                 ";
"                                                                                                                                                                                                 ";
"                                                                                                                                                                                                 ";
"                                                                                                                                                                                                 "]%xpm.

Definition quit1 : xpm_map := [
"145 51 100 2 ";
"   c #000000";
".  c #040300";
"X  c #070500";
"o  c #080600";
"O  c #0B0900";
"+  c #0D0A00";
"@  c #0F0C00";
"#  c #110E00";
"$  c #131000";
"%  c #161200";
"&  c #1B1600";
"*  c #1C1700";
"=  c #1D1800";
"-  c #201A00";
";  c #231D00";
":  c #241E00";
">  c #262000";
",  c #282100";
"<  c #2C2500";
"1  c #2D2500";
"2  c #2E2600";
"3  c #332B00";
"4  c #352C00";
"5  c #382F00";
"6  c #3B3100";
"7  c #3E3400";
"8  c #413600";
"9  c #443900";
"0  c #463B00";
"q  c #473B00";
"w  c #483C00";
"e  c #4D4000";
"r  c #524500";
"t  c #544600";
"y  c #564800";
"u  c #584A00";
"i  c #5B4C00";
"p  c #5E4F00";
"a  c #5F5000";
"s  c #605000";
"d  c #675600";
"f  c #685700";
"g  c #6B5A00";
"h  c #6C5B00";
"j  c #6F5D00";
"k  c #705E00";
"l  c #726000";
"z  c #786500";
"x  c #7E6A00";
"c  c #806B00";
"v  c #836E00";
"b  c #846F00";
"n  c #857000";
"m  c #867000";
"M  c #887200";
"N  c #8B7500";
"B  c #8C7600";
"V  c #8E7700";
"C  c #907900";
"Z  c #927B00";
"A  c #957D00";
"S  c #988000";
"D  c #9D8400";
"F  c #A18700";
"G  c #A38900";
"H  c #A68B00";
"J  c #A78C00";
"K  c #AA8F00";
"L  c #AC9100";
"P  c #B29600";
"I  c #B39600";
"U  c #B49700";
"Y  c #B79A00";
"T  c #B89B00";
"R  c #BC9E00";
"E  c #BD9F00";
"W  c #C1A200";
"Q  c #C4A500";
"!  c #C7A700";
"~  c #C8A800";
"^  c #CEAD00";
"/  c #D0AF00";
"(  c #D1B000";
")  c #D7B500";
"_  c #D9B600";
"`  c #DBB800";
"'  c #DCB900";
"]  c #DFBC00";
"[  c #E1BD00";
"{  c #E5C100";
"}  c #EAC500";
"|  c #EDC700";
" . c #EFC900";
".. c #F1CB00";
"X. c #F3CC00";
"o. c #F5CE00";
"O. c #F7D000";
"+. c #FAD200";
"@. c #FCD400";
"#. c #FFD700";
"                                                                                                                                                                                                                                                                                                  ";
"                                                                                                                                                                                                                                                                                                  ";
"                                                                                                                                                                                                                                                                                                  ";
"                                                                                                                                                                                                                                                                                                  ";
"                                                                                                                                                                                                                                                                                                  ";
"                                                                                                                                                                                                                                                                                                  ";
"                                                                                                                                                                                                                                                                                                  ";
"                                                                                                                                                                                                                                                                                                  ";
"                                                                                                                                                                                                                                                                                                  ";
"                                                                                                                                                                                                                                                                                                  ";
"                                                                                                                                                                                                                                                                                                  ";
"                                                                                                                                                                                                                                                                                                  ";
"                                                                                                                                                                                                                                                                                                  ";
"                                                                              0 B ! ' o.O.[ ~ B 0 X                       R #.#.0                         + #.#...            z #.#.b       I #.#.#.#.#.#.#.#.#.#.#.#.#.#.#.#.#.#.A                                                               ";
"                                                                          u _ #.#.#.#.#.#.#.#.#.#._ y                     R #.#.0                         O #.#. .            z #.#.b       I #.#.#.#.#.#.#.#.#.#.#.#.#.#.#.#.#.#.A                                                               ";
"                                                                      X G #.#.#.#.#.' ~ Q _ +.#.#.#.#.G X                 E #.#.0                         + #.#...            z #.#.b       z U U U U U U U ' #.#.) I I Y I I I I f                                                               ";
"                                    +                                 T #.#.#.( u %         O e Q #.#.#.R                 R #.#.9                         @ #.#.X.            z #.#.b                       B #.#.k                                     o X                                       ";
"                                - D I                               v #.#.#.b                     g #.#.#.x               R #.#.0                         O #.#...            z #.#.b                       B #.#.k                                     1 ' s X                                   ";
"                            = S +.#.T                             , #.#.#.v                         j #.#.+.,             E #.#.0                         O #.#. .            z #.#.b                       B #.#.k                                     1 #.#.` a                                 ";
"                        & A +.#.#.X.k                             A #.#.^ .                           E #.#.S             R #.#.9                         + #.#...            z #.#.b                       B #.#.k                                     % Q #.#.#._ u                             ";
"                    & C +.#.#...v $                             O o.#.#.y                             w #.#.o.+           E #.#.0                         + #.#...            z #.#.b                       B #.#.k                                         8 R #.#.#.) y                         ";
"                % B o.#.#.} z +                                 8 #.#. .X                               { #.#.0           R #.#.0                         O #.#. .            z #.#.b                       B #.#.k                                             4 Y #.#.#.( r                     ";
"            % M o.#.#.{ k O                                     z #.#.R                                 I #.#.v           E #.#.9                         + #.#...            z #.#.b                       B #.#.k                                                 3 L #.#.#.^ e                 ";
"        # b ..#.#.] f X                                         G #.#.M                                 x #.#.L           R #.#.0                         O #.#...            z #.#.b                       B #.#.k                                                     1 J #.#.#.^ w             ";
"    @ v  .#.#.) s .                                             Y #.#.l                                 h #.#.R           R #.#.0                         + #.#. .            z #.#.b                       B #.#.k                                                         > G +.#.#.Q 0         ";
"  =  .#.#.( u                                                   Q #.#.a                                 p #.#.^           E #.#.9                         O #.#...            z #.#.b                       B #.#.k                                                             - S +.#.#.S       ";
"  1 #.#.#.I 0                                                   Q #.#.s                                 i #.#.(           E #.#.0                         + #.#...            z #.#.b                       B #.#.k                                                             + g ' #.#.R       ";
"  X g _ #.#.#.) g O                                             I #.#.k                                 g #.#.W           E #.#.0                         + #.#. .            z #.#.b                       B #.#.k                                                         > C  .#.#.+.L 1       ";
"        e W #.#.#...B ;                                         F #.#.m                                 x #.#.L           R #.#.9                         + #.#...            z #.#.b                       B #.#.k                                                     w Y #.#.#.X.N =           ";
"            3 H +.#.#.#.I 0                                     z #.#.Y                                 L #.#.v           R #.#.0                         + #.#. .            z #.#.b                       B #.#.k                                               @ l ' #.#.#.] l +               ";
"                = B ..#.#.#.) g +                               7 #.#.| .                               { #.#.e           K #.#.r                         * #.#.`             z #.#.b                       B #.#.k                                           1 A o.#.#.#.~ u X                   ";
"                    + k ] #.#.#...C :                           O o.#.#.e                             0 #.#.o.O           C #.#.k                         7 #.#.Q             z #.#.b                       B #.#.k                                       t W #.#.#.#.I 7                         ";
"                        . y ~ #.#.#.T                             A #.#.Q                             Y #.#.G             i #.#.T                         v #.#.N             z #.#.b                       B #.#.k                                     1 #.#.#.o.A :                             ";
"                              6 L #.T                             , #.#.#.k                         s #.#.#.,             % +.#.#.3                     # } #.#.7             z #.#.b                       B #.#.k                                     1 #.{ z #                                 ";
"                                  ; p                               c #.#.#.j                     i +.#.#.M                 S #.#._ &                 O R #.#.Q               z #.#.m                       B #.#.k                                     = s X                                     ";
"                                                                      R #.#.#.W 0 X           6 I #.#.#.R                   & { #.#.{ g +           e ^ #.#.X.1               z #.#.m                       B #.#.k                                                                               ";
"                                                                      o J #.#.#.#.X.~ I I Q  .#.#.#.#.L o                     4 } #.#.#.#.^ Y I Q X.#.#.#.X.0                 z #.#.b                       B #.#.k                                                                               ";
"                                                                          i ' #.#.#.#.#.#.#.#.#.#.[ p                           = R #.#.#.#.#.#.#.#.#.#.R :                   z #.#.b                       B #.#.k                                                                               ";
"                                                                            X 0 V ~ [ o.#.#.#.#.S .                                 3 m Q { O.O.{ Q m 4                       z #.#.b                       B #.#.k                                                                               ";
"                                                                                          C #.#.+.w                                                                                                                                                                                               ";
"                                                                                          X R #.#.o.5                                                                                                                                                                                             ";
"                                                                                            O ) #.#. .1                                                                                                                                                                                           ";
"                                                                                              :  .#.#.{ ;                                                                                                                                                                                         ";
"                                                                                                7 #.#.#.] &                                                                                                                                                                                       ";
"                                                                                                  d #.#.#.( #                                                                                                                                                                                     ";
"                                                                                                                                                                                                                                                                                                  ";
"                                                                                                                                                                                                                                                                                                  ";
"                                                                                                                                                                                                                                                                                                  ";
"                                                                                                                                                                                                                                                                                                  ";
"                                                                                                                                                                                                                                                                                                  ";
"                                                                                                                                                                                                                                                                                                  "]%xpm.

Definition quit2 : xpm_map := [
"145 51 85 1 ";
"  c #000000";
". c #040100";
"X c #0B0200";
"o c #0D0300";
"O c #0F0400";
"+ c #110400";
"@ c #130500";
"# c #160500";
"$ c #1B0700";
"% c #1D0700";
"& c #1E0800";
"* c #200800";
"= c #240900";
"- c #280A00";
"; c #290B00";
": c #2C0B00";
"> c #2D0C00";
", c #330D00";
"< c #350E00";
"1 c #3B0F00";
"2 c #3D1000";
"3 c #3F1100";
"4 c #411100";
"5 c #471300";
"6 c #481300";
"7 c #4A1400";
"8 c #4D1400";
"9 c #521600";
"0 c #561700";
"q c #571700";
"w c #581700";
"e c #5B1800";
"r c #5E1900";
"t c #601900";
"y c #621A00";
"u c #671B00";
"i c #6A1C00";
"p c #6F1E00";
"a c #701E00";
"s c #731F00";
"d c #782000";
"f c #7A2100";
"g c #7E2200";
"h c #832300";
"j c #842300";
"k c #852300";
"l c #892500";
"z c #8C2500";
"x c #902600";
"c c #932700";
"v c #952800";
"b c #982900";
"n c #9D2A00";
"m c #A02B00";
"M c #A62C00";
"N c #AA2E00";
"B c #AF2F00";
"V c #B12F00";
"C c #B33000";
"Z c #B73100";
"A c #B83100";
"S c #BD3300";
"D c #C03300";
"F c #C13400";
"G c #C73500";
"H c #C83600";
"J c #CE3700";
"K c #CF3800";
"L c #D03800";
"P c #D53900";
"I c #DA3A00";
"U c #DC3B00";
"Y c #DF3C00";
"T c #E03C00";
"R c #E13C00";
"E c #E53D00";
"W c #EA3F00";
"Q c #EC3F00";
"! c #EE4000";
"~ c #F34100";
"^ c #F54200";
"/ c #FA4300";
"( c #FC4400";
") c #FD4400";
"_ c #FF4500";
"                                                                                                                                                 ";
"                                                                                                                                                 ";
"                                                                                                                                                 ";
"                                                                                                                                                 ";
"                                                                                                                                                 ";
"                                                                                                                                                 ";
"                                                                                                                                                 ";
"                                                                                                                                                 ";
"                                                                                                                                                 ";
"                                                                                                                                                 ";
"                                                                                                                                                 ";
"                                                                                                                                                 ";
"                                                                                                                                                 ";
"                                       5lHY^^THx5.           S__5            O__~      a__k   C__________________v                               ";
"                                     eI__________I0          S__5            X__Q      f__h   B__________________x                               ";
"                                   Xn_____UGSI_____m.        S__4            o__^      f__k   fZZVZVZVU__PZVZVZVZi                               ";
"                  o                A___Lr@    X8D___A        A__5            O__!      f__k           z__a                  X.                   ";
"                *nC               h___k          p___g       S__5            X__~      f__h           z__a                  -Tt.                 ";
"              &b/_A              -___k            p__/-      S__4            X__!      f__k           z__a                  >__Yr                ";
"            $v/__~a              v__K              D__b      S__5            O__!      a__h           z__a                  #F___Ie              ";
"          $x/__!h@              X^__q              6__^o     S__5            O__^      f__k           z__a                    4S___Pw            ";
"        #z^__Wfo                4__!                E__5     A__4            X__Q      s__h           z__a                      <Z___L9          ";
"      @l^__EaX                  g__A                C__h     S__5            o__~      f__k           z__a                        ,B___K8        ";
"    @k~__Ti.                    m__l                g__B     S__5            X__~     .s__h           z__a                          :M___J7      ";
"  Oh~__It.                      C__f                i__S     S__4            o__Q      a__k           z__a                            -m/__G5    ";
" &!__Jq                         G__t                r__J     S__5            X__~      f__k           z__a                              *b/__n   ";
" :___C5                         F__t                e__L     A__5            o__~      g__h           z__a                              oiU__Z   ";
" .iI___PiX                      C__a                i__F     S__4            o__Q      a__k           z__a                            =x!__/M,   ";
"    8F___~z*                    n__k                g__B     S__5            o__~      f__h           z__a                          6Z___~z&     ";
"      ,M/___C5                  f__Z                B__h     A__5            o__!      g__k           z__a                       @aU___Tao       ";
"        %z~___Pio               3__!.               E__8     N__9            $__U      a__h           z__a                     >v^___He.         ";
"          oaY___~x=             X~__9              4__^X     x__a            3__G      f__k           z__a                   0F____B3            ";
"            .qG___A              v__G              Z__M      e__A            k__z      d__k           z__a                  >___^v*              ";
"               1B_A              -___a            t___=      #/__,          @W__4      d__h           z__a                  -_Ef@                ";
"                 *r               h___p          e/__l        b__I$        XZ__F       f__k           z__a                  &t.                  ";
"                                   A___F5.     1C___A.        $E__Wio     8L__~>       d__k           z__a                                       ";
"                                   XM____~HCVG!____BX          <W___/KZVG~___~5        d__k           z__a                                       ";
"                                     eU__________Tr             &A__________S=         f__k           z__a                                       ";
"                                      .5zHT^____b.                ,kGE^/EFk<           f__h           z__a                                       ";
"                                             x__/6                                                                                               ";
"                                             .A__^3                                                                                              ";
"                                              OI__Q>                                                                                             ";
"                                               *Q__E*                                                                                            ";
"                                                3___T$                                                                                           ";
"                                                 u___P@                                                                                          ";
"                                                                                                                                                 ";
"                                                                                                                                                 ";
"                                                                                                                                                 ";
"                                                                                                                                                 ";
"                                                                                                                                                 ";
"                                                                                                                                                 "]%xpm.

Definition cursor : xpm_map := [
"28 17 24 1 ";
"  c #000000";
". c #070707";
"X c #0C0C0C";
"o c #161616";
"O c #212121";
"+ c #252525";
"@ c #2B2B2B";
"# c #2C2C2C";
"$ c #2D2D2D";
"% c #4C4C4C";
"& c #5B5B5B";
"* c #757575";
"= c #828282";
"- c #AEAEAE";
"; c #B4B4B4";
": c #D1D1D1";
"> c #D8D8D8";
", c #DFDFDF";
"< c #EAEAEA";
"1 c #EFEFEF";
"2 c #F3F3F3";
"3 c #F9F9F9";
"4 c #FEFEFE";
"5 c #FFFFFF";
" $                          ";
" 1- o                       ";
" 152* @                     ";
" 1555>$                     ";
" 155555- o                  ";
" 15555552* @                ";
" 155555555>$                ";
" 15555555555- o             ";
" 1555555555552* @           ";
" 15555555555555>$           ";
" 1555555555555555- o        ";
" 155555555                  ";
" 155555555X                 ";
" 1555; <55=O                ";
" 155;    355%$              ";
" 15;      355%$             ";
" 1;       .-55:             "]%xpm.

End Options.

(** title.h *)
Module Title.

Definition title : xpm_map := [
"400 200 123 2 ";
"   c #000000";
".  c #0B0000";
"X  c #0B0B00";
"o  c #140000";
"O  c #1C0000";
"+  c #141400";
"@  c #1B1B00";
"#  c #230000";
"$  c #290000";
"%  c #230C00";
"&  c #340000";
"*  c #3C0000";
"=  c #3F0B00";
"-  c #261B00";
";  c #391500";
":  c #3C1800";
">  c #232300";
",  c #292600";
"<  c #292900";
"1  c #343400";
"2  c #383000";
"3  c #3C3C00";
"4  c #430000";
"5  c #4C0000";
"6  c #540000";
"7  c #5A0000";
"8  c #630000";
"9  c #6E0000";
"0  c #730000";
"q  c #7C0000";
"w  c #6A1F00";
"e  c #432100";
"r  c #4F3400";
"t  c #473F00";
"y  c #563D00";
"u  c #434300";
"i  c #4B4B00";
"p  c #554D00";
"a  c #545400";
"s  c #5A5A00";
"d  c #6B4A00";
"f  c #794700";
"g  c #7D5700";
"h  c #626200";
"j  c #6C6C00";
"k  c #737300";
"l  c #7C7C00";
"z  c #820000";
"x  c #8C0000";
"c  c #840A00";
"v  c #910000";
"b  c #9C0000";
"n  c #8A1D00";
"m  c #991600";
"M  c #A40000";
"N  c #AB0000";
"B  c #B30000";
"V  c #BC0000";
"C  c #953300";
"Z  c #A12900";
"A  c #C30000";
"S  c #CB0000";
"D  c #D60000";
"F  c #DB0000";
"G  c #D80900";
"H  c #E30000";
"J  c #EC0000";
"K  c #EA0E00";
"L  c #F30000";
"P  c #FF0000";
"I  c #FD0C00";
"U  c #FF1100";
"Y  c #FF1D00";
"T  c #CC2E00";
"R  c #FF2500";
"E  c #FF2B00";
"W  c #9E5400";
"Q  c #BB6400";
"!  c #FD4100";
"~  c #FF5600";
"^  c #FF5D00";
"/  c #C17200";
"(  c #ED6C00";
")  c #F76600";
"_  c #FF6900";
"`  c #F77200";
"'  c #828200";
"]  c #8C8C00";
"[  c #919100";
"{  c #9B9B00";
"}  c #A79700";
"|  c #A3A300";
" . c #ABAB00";
".. c #B3B300";
"X. c #BEB300";
"o. c #BCBC00";
"O. c #FD8600";
"+. c #FF9C00";
"@. c #C1A500";
"#. c #D5AC00";
"$. c #C6B800";
"%. c #C8BC00";
"&. c #D9BA00";
"*. c #F6A500";
"=. c #FFAF00";
"-. c #F2BA00";
";. c #FFBC00";
":. c #C4C400";
">. c #CACA00";
",. c #D4CD00";
"<. c #D4D400";
"1. c #DAD400";
"2. c #DCDC00";
"3. c #FFC600";
"4. c #FECA00";
"5. c #F2D100";
"6. c #FDD400";
"7. c #E2E200";
"8. c #EBEB00";
"9. c #F3E300";
"0. c #F4F400";
"q. c #FEF400";
"w. c #FFFF00";
"                                                                                                                                                                                                                                                                                                                                                                                                                                                                                                                                                                                                                                                                                                                                                                                                                                ";
"                                                                                                                                                                                                                                                                                                                                                                                                                                                                                                                                                                                                                                                                                                                                                                                                                                ";
"                                                                                                                                                                                                                                                                                                                                                                                                                                                                                                                                                                                                                                                                                                                                                                                                                                ";
"                                                                                                                                                                                                                                                                                                                                                                                                                                                                                                                                                                                                                                                                                                                                                                                                                                ";
"                                                                                                                                                                                                                                                                                                                                                                                                                                                                                                                                                                                                                                                                                                                                                                                                                                ";
"                                                                                                                                                                                                                                                                                                                                                                                                                                                                                                                                                                                                                                                                                                                                                                                                                                ";
"                                                                                                                                                                                                                                                                                                                                                                                                                                                                                                                                                                                                                                                                                                                                                                                                                                ";
"                                                                                                                                                                                                                                                                                                                                                                                                                                                                                                                                                                                                                                                                                                                                                                                                                                ";
"                                                                                                                                                                                                                                                                                                                                                                                                                                                                                                                                                                                                                                                                                                                                                                                                                                ";
"                                                                                                                                                                                                                                                                                                                                                                                                                                                                                                                                                                                                                                                                                                                                                                                                                                ";
"                                                                                                                                                                                                                                                                                                                                                                                                                                                                                                                                                                                                                                                                                                                                                                                                                                ";
"                                                                                                                                                                                                                                                                                                                                                                                                                                                                                                                                                                                                                                                                                                                                                                                                                                ";
"                                                                                                                                                                                                                                                                                                                                                                                                                                                                                                                                                                                                                                                                                                                                                                                                                                ";
"                                                                                                                                                                                                                                                                                                                                                                                                                                                                                                                                                                                                                                                                                                                                                                                                                                ";
"                                                                                                                                                                                                                                                                                                                                                                                                                                                                                                                                                                                                                                                                                                                                                                                                                                ";
"                                                                                                                                                                                                                                                                                                                                                                                                                                                                                                                                                                                                                                                                                                                                                                                                                                ";
"                                                                                                                                                                                                                                                                                                                                                                                                                                                                                                                                                                                                                                                                                                                                                                                                                                ";
"                                                                                                                                                                                                                                                                                                                                                                                                                                                                                                                                                                                                                                                                                                                                                                                                                                ";
"                                                                                                                                                                                                                                                                                                                                                                                                                                                                                                                                                                                                                                                                                                                                                                                                                                ";
"                                                                                                                                                                                                                                                                                                                                                                                                                                                                                                                                                                                                                                                                                                                                                                                                                                ";
"                                                                                                                                                                                                                                                                                                                                                                                                                                                                                                                                                                                                                                                                                                                                                                                                                                ";
"                                                                                                                                                                                                                                                                                                                                                                                                                                                                                                                                                                                                                                                                                                                                                                                                                                ";
"                                                                                                                                                                                                                                                                                                                                                                                                                                                                                                                                                                                                                                                                                                                                                                                                                                ";
"                                                                                                                                                                                                                                                                                                                                                                                                                                                                                                                                                                                                                                                                                                                                                                                                                                ";
"                                                                                                                                                                                                                                                                                                                                                                                                                                                                                                                                                                                                                                                                                                                                                                                                                                ";
"                                                                                                                                                                                                                                                                                                                                                                                                                                                                                                                                                                                                                                                                                                                                                                                                                                ";
"                                                                                                                                                                                                                                                                                                                                                                                                                                                                                                                                                                                                                                                                                                                                                                                                                                ";
"                                                                                                                                                                                                                                                                                                                                                                                                                                                                                                                                                                                                                                                                                                                                                                                                                                ";
"                                                                                                                                                                                                                                                                                                                                                                                                                                                                                                                                                                                                                                                                                                                                                                                                                                ";
"                                                                                                                                                                                                                                                                                                                                                                                                                                                                                                                                                                                                                                                                                                                                                                                                                                ";
"                                                                                                                                                                                                                                                                                                                                                                                                                                                                                                                                                                                                                                                                                                                                                                                                                                ";
"                                                                                                                                                                                                                                                                                                                                                                                                                                                                                                                                                                                                                                                                                                                                                                                                                                ";
"                                                                                                                                                                                                                                                                                                                                                                                                                                                                                                                                                                                                                                                                                                                                                                                                                                ";
"                                                                                                                                                                                                                                                                                                                                                                                                                                                                                                                                                                                                                                                                                                                                                                                                                                ";
"                                                                                                                                                                                                                                                                                                                                                                                                                                                                                                                                                                                                                                                                                                                                                                                                                                ";
"                                                                                                                                                                                                                                                                                                                                                                                                                                                                                                                                                                                                                                                                                                                                                                                                                                ";
"                                                                                                                                                                                                                                                                                                                                                                                                                                                                                                                                                                                                                                                                                                                                                                                                                                ";
"                                                                                                                                                                                                                                                                                                                                                                                                                                                                                                                                                                                                                                                                                                                                                                                                                                ";
"                                                                                                                                                                                                                                                                                                                                                                                                                                                                                                                                                                                                                                                                                                                                                                                                                                ";
"                                                                                                                                                                                                                                                                o O o .                                                                                                                                                                                                                                                                                                                                                                                                                                                                                                                                                         ";
"                                                                                                                                                                                                                                                    o 8 b S L P P P P P L D N 0 &                                                                                                                                                                                                               o 6 x B D J L P L J S N z 5 o                                                                                                                                                                                                                                                                                                   ";
"                                                                                                                                                                                                                                                * N P P P P P P P P P P P P P P P F x #                     . 5 q N D H L P P P P P P P P L H S B x 8 $                                                   o P P P P P P P P P 6                                                           . 9 A P P P P P P P P P P P P P P P A 0 o                 & P P P P P P P P P P P P P P P P P P P P P P P P P P P H                                                                                                                                                                                                                   ";
"                                                                                                                                                                                                                                            o M P P P P P J H J L P P P P P P P P P P P B $                 & P P P P P P P P P P P P P P P P P P P P P J M 4                                             z P P P P P P P P P A                                                       . z L P P P P P P P P P P P P P P P P P P P P b O             & P P P P P P P P P P P P P P P P P P P P P P P P P P P F                                                                                                                                                                                                                   ";
"                                                                                                                                                                                                                                          & J H b 9 $ .           . $ 6 x S P P P P P P P 5                 & P P P P P P P P P P P P P P P P P P P P P P P P D 7                                       . J P P P P P P P P P P &                                                   5 H P H N 0 5 $ . . . . o & 6 q N J P P P P P P P J             & P P P P P P P P P P P P P P P P P P P P P P P P P P P H                                                                                                                                                                                                                   ";
"                                                                                                                                                                                                                                        $ B 6       X + @ + X               # q D P P P J                   o $ O .               . . O & 5 0 b D P P P P P P P P A O                                                   N P P P N                                                 x L v *                             . * x H P P P P M                                                               O P P H                                                                                                                                                                                                                   ";
"                                                                                                                                                                                                                                      . 5 @ s { >.0.q.w.w.w.w.0.<. .k 1           5 D P b                                                         o 7 V P P P P P P J $                                                 * P P P P #                                             b q . @ a ] o.<.8.0.w.0.8.>. .' i +         . 8 H P P 4                                                               O P P H                                                                                                                                                                                                                   ";
"                                                                                                                                                                                                                                      u  .q.w.w.w.w.w.w.w.w.w.w.w.w.w.w.7.' <       B P &         X u l ..<.7.0.w.w.w.w.w.w.w.0.0.7.>...] h <           # M P P P P P J o .                     @ 0.w.w.w.w.w.w.w.w.a     S P P P x                                           0 % j :.w.w.w.w.w.w.w.w.w.w.w.w.w.w.w.:.k @       o P J     1 w.w.w.w.w.w.w.w.w.w.w.w.w.w.w.w.w.w.w.w.w.w.w.w.w.w.w.7.  # P P F                                                                                                                                                                                                                   ";
"                                                                                                                                                                                                                                  + | w.w.w.w.w.w.w.w.w.w.w.w.w.w.w.w.w.w.w.w...< o P F           1 w.w.w.w.w.w.w.w.w.w.w.w.w.w.w.w.w.w.w.w.w.8.| u         * H P P P P B                       ' w.w.w.w.w.w.w.w.w.:.    6 P P P L o                                       = ' 0.w.w.w.w.w.w.w.w.w.w.w.w.w.w.w.w.w.w.w.0.{ >   7 P v     1 w.w.w.w.w.w.w.w.w.w.w.w.w.w.w.w.w.w.w.w.w.w.w.w.w.w.w.2.  O P P H                                                                                                                                                                                                                   ";
"                                                                                                                                                                                                                                1 7.w.w.w.w.w.w.w.w.w.w.w.w.w.w.w.w.w.w.w.w.w.w.i 9 P q           1 w.w.w.w.w.w.w.w.w.w.w.w.w.w.w.w.w.w.w.w.w.w.w.w.2.s       o D P P P P 4                   X 0.w.w.w.w.w.w.w.w.w.w.1   . F P P P 0                                     p 7.w.w.w.w.w.w.w.w.w.w.w.w.w.w.w.w.w.w.w.w.w.w.w.8.  B P *     1 w.w.w.w.w.w.w.w.w.w.w.w.w.w.w.w.w.w.w.w.w.w.w.w.w.w.w.2.  # P P H                                                                                                                                                                                                                   ";
"                                                                                                                                                                                                                              < 8.w.w.w.w.w.w.w.w.w.w.w.w.w.w.w.w.w.w.w.w.w.w.8.  x P #           1 w.w.w.w.w.w.w.w.w.w.w.w.w.w.w.w.w.w.w.w.w.w.w.w.w.w.:.@     o H P P P N                   j w.w.w.w.w.w.w.w.w.w.w.|     9 P P P H .                                 ] w.w.w.w.w.w.w.w.w.w.w.w.w.w.w.w.w.w.w.w.w.w.w.w.w.| o P F       1 w.w.w.w.w.w.w.w.w.w.w.w.w.w.w.w.w.w.w.w.w.w.w.w.w.w.w.7.                                                                                                                                                                                                                            ";
"                                                                                                                                                                                                                            X 2.w.w.w.w.w.w.w.w.w.w.w.w.w.w.w.w.w.w.w.w.w.w.w.[     #             1 w.w.w.w.w.w.w.w.w.w.w.w.w.w.w.w.w.w.w.w.w.w.w.w.w.w.w.8.<     5 P P P L .                 2.w.w.w.w.w.w.w.w.w.w.w.w.>   . L P P P 6                             . | w.w.w.w.w.w.w.w.w.w.w.w.w.w.w.w.w.w.w.w.w.w.w.w.w.w.u . z 0       1 w.w.w.w.w.w.w.w.w.w.w.w.w.w.w.w.w.w.w.w.w.w.w.w.w.w.w.7.                                                                                                                                                                                                                            ";
"                                                                                                                                                                                                                            ' w.w.w.w.w.w.w.w.w.w.w.w.w.w.w.w.w.w.w.w.w.w.w.w.3                   1 w.w.w.w.w.w.w.w.w.w.w.w.w.w.w.w.w.w.w.w.w.w.w.w.w.w.w.w.8.@     V P P P *               a w.w.w.w.w.w.w.w.w.w.w.w.w.]     x P P P A                             { w.w.w.w.w.w.w.w.w.w.w.w.w.w.w.w.w.w.w.w.w.w.w.w.w.w.8.              1 w.w.w.w.w.w.w.w.w.w.w.w.w.w.w.w.w.w.w.w.w.w.w.w.w.w.w.7.                                                                                                                                                                                                                            ";
"                                                                                                                                                                                                                          + q.w.w.w.w.w.w.w.w.w.w.w.w.w.w.w.w.w.w.w.w.w.w.w.2.                    1 w.w.w.w.w.w.w.w.w.w.w.w.w.w.w.w.w.w.w.w.w.w.w.w.w.w.w.w.w...    6 P P P 8               >.w.w.w.w.w.w.w.w.w.w.w.w.w.0.+   O P P P P &                         k w.w.w.w.w.w.w.w.w.w.w.w.w.w.w.w.w.w.w.w.w.w.w.w.w.w.w.[               1 w.w.w.w.w.w.w.w.w.w.w.w.w.w.w.w.w.w.w.w.w.w.w.w.w.w.w.2.                                                                                                                                                                                                                            ";
"                                                                                                                                                                                                                          k w.w.w.w.w.w.w.w.w.w.$.^ E K . X @ 1 h { 7.w.w.w.l                     1 w.w.w.w.w.w.w.w.w.w.0.q.q.w.w.w.w.w.w.w.w.w.w.w.w.w.w.w.w.w.u   . P P P q             3 w.w.w.w.w.w.w.w.w.w.w.w.w.w.w.k     N P P P b                       1 w.w.w.w.w.w.w.w.w.w.w.w.w.0.o.] l k ' [  .7.w.w.w.w.w.w.3               1 w.w.w.w.w.w.w.w.w.w.w.w.w.w.w.w.w.w.w.w.w.w.w.w.w.w.w.7.                                                                                                                                                                                                                            ";
"                                                                                                                                                                                                                          o.w.w.w.w.w.w.w.w.w.j 9 P P P B .           u ..w.,                     1 w.w.w.w.w.w.w.w.w.1   D P P $ @ 3 j o.w.w.w.w.w.w.w.w.w.w.w. .    A P P z              .w.w.w.w.w.w.w.w.w.w.w.w.w.w.w.7.X   * P P P L o                     >.w.w.w.w.w.w.w.w.w.w.w.5.g X                 + s ..q.w.2.                1 w.w.w.w.w.w.w.w.w.<   D P P #                                                                                                                                                                                                                                                       ";
"                                                                                                                                                                                                                          7.w.w.w.w.w.w.w.w.>.  7 P P P P D 4             @                       1 w.w.w.w.w.w.w.w.w.<   D P P #         3 7.w.w.w.w.w.w.w.w.w.0.X   b P P z           > w.w.w.w.w.w.w.w.7.w.w.w.w.w.w.w.w.a     S P P P 0                   h w.w.w.w.w.w.w.w.w.w.w./ A                           + ' k                 1 w.w.w.w.w.w.w.w.w.<   D P P $                                                                                                                                                                                                                                                       ";
"                                                                                                                                                                                                                          w.w.w.w.w.w.w.w.w.{   o L P P P P P S 8 .                               1 w.w.w.w.w.w.w.w.w.<   D P P $           , 0.w.w.w.w.w.w.w.w.w.1   z P P q           ] w.w.w.w.w.w.w.q.3 w.w.w.w.w.w.w.w.:.    8 P P P D                   <.w.w.w.w.w.w.w.w.w.q.f P 8                                                 1 w.w.w.w.w.w.w.w.w.,   D P P $                                                                                                                                                                                                                                                       ";
"                                                                                                                                                                                                                        X w.w.w.w.w.w.w.w.w.{   . 5 L P P P P P P L M *                           1 w.w.w.w.w.w.w.w.w.<   D P P $             ] w.w.w.w.w.w.w.w.w.h   q P P 7         X 8.w.w.w.w.w.w.w...o 4.w.w.w.w.w.w.w.w.1   . J P P P 4               i w.w.w.w.w.w.w.w.w.w.k A P #                                                 1 w.w.w.w.w.w.w.w.w.<   D P P P P P P P P P P P P P P P P P P S                                                                                                                                                                                                                       ";
"                                                                                                                                                                                                                        X w.w.w.w.w.w.w.w.w.8.X     $ V P P P P P P P P D 9 .                     1 w.w.w.w.w.w.w.w.w.,   D P P $             u w.w.w.w.w.w.w.w.w.l   q P P &         h w.w.w.w.w.w.w.w.i 9 _ w.w.w.w.w.w.w.w.{     x P P P N                .w.w.w.w.w.w.w.w.w...* P L                                                   1 w.w.w.w.w.w.w.w.w.<   D P P P P P P P P P P P P P P P P P P A                                                                                                                                                                                                                       ";
"                                                                                                                                                                                                                          8.w.w.w.w.w.w.w.w.w...X       & b L P P P P P P P L x o                 1 w.w.w.w.w.w.w.w.w.<   D P P #             < w.w.w.w.w.w.w.w.w.]   z P J           >.w.w.w.w.w.w.w.8.  D U 0.w.w.w.w.w.w.w.0.+   $ P P P P o           X 0.w.w.w.w.w.w.w.w.w.3 b P D                                                   1 w.w.w.w.w.w.w.w.w.,   D P P P P P P P P P P P P P P P P P P S                                                                                                                                                                                                                       ";
"                                                                                                                                                                                                                          o.w.w.w.w.w.w.w.w.w.w.<.u         . 7 A P P P P P P P P q .             1 w.w.w.w.w.w.w.w.w.<   D P P 4 # # # $ * 6 C w.w.w.w.w.w.w.w.w.'   M P b         1 w.w.w.w.w.w.w.w.] & P N | w.w.w.w.w.w.w.w.k     V P P P 0           u w.w.w.w.w.w.w.w.w.:.  D P A                                                   1 w.w.w.w.w.w.w.w.w.<                                   * P P S                                                                                                                                                                                                                       ";
"                                                                                                                                                                                                                          k w.w.w.w.w.w.w.w.w.w.w.w.>.h X         $ x L P P P P P P D #           1 w.w.w.w.w.w.w.w.w.,   D P P P P P P P P P ~ w.w.w.w.w.w.w.w.w.k   D P &         { w.w.w.w.w.w.w.w.< v P 5 u w.w.w.w.w.w.w.w.2.    6 P P P D           l w.w.w.w.w.w.w.w.w.h . P P V                                                   1 w.w.w.w.w.w.w.w.w.<                                   & P P S                                                                                                                                                                                                                       ";
"                                                                                                                                                                                                                          + 0.w.w.w.w.w.w.w.w.w.w.w.w.w.0.| 3         . 0 H P P P P P J *         1 w.w.w.w.w.w.w.w.w.<   D P P P P P P P P J #.w.w.w.w.w.w.w.w.w.s . P b         X 0.w.w.w.w.w.w.w.>.. J J .   2.w.w.w.w.w.w.w.w.3   . J P P P *         | w.w.w.w.w.w.w.w.w., $ P P A                                                   1 w.w.w.w.w.w.w.w.w.w.w.w.w.w.w.w.w.w.w.w.w.w.w.w.w.:.  * P P A                                                                                                                                                                                                                       ";
"                                                                                                                                                                                                                            k w.w.w.w.w.w.w.w.w.w.w.w.w.w.w.w.<.k X       . z P P P P P J O       1 w.w.w.w.w.w.w.w.w.<   V F H F D A N z 4 p w.w.w.w.w.w.w.w.w.w.1 8 D .         j w.w.w.w.w.w.w.w.j 6 P b     l w.w.w.w.w.w.w.w. .    x P P P b         >.w.w.w.w.w.w.w.w.0.  * P P S                                                   1 w.w.w.w.w.w.w.w.w.w.w.w.w.w.w.w.w.w.w.w.w.w.w.w.w.>.  & P P S                                                                                                                                                                                                                       ";
"                                                                                                                                                                                                                            X :.w.w.w.w.w.w.w.w.w.w.w.w.w.w.w.w.w.0.] @       $ D P P P P S       1 w.w.w.w.w.w.w.w.w.,                 + ' q.w.w.w.w.w.w.w.w.w.0.  B O           <.w.w.w.w.w.w.w.0.+ B P *     > w.w.w.w.w.w.w.w.q.+   $ P P P L X       7.w.w.w.w.w.w.w.w.<.  4 P P F                                                   1 w.w.w.w.w.w.w.w.w.w.w.w.w.w.w.w.w.w.w.w.w.w.w.w.w.>.  $ D D M                                                                                                                                                                                                                       ";
"                                                                                                                                                                                                                              X <.w.w.w.w.w.w.w.w.w.w.w.w.w.w.w.w.w.w.0.l X     o A P P P P 5     1 w.w.w.w.w.w.w.w.w.u > > > , 3 s l ..0.w.w.w.w.w.w.w.w.w.w.w.{ * o           1 w.w.w.w.w.w.w.w. .o L H         o.w.w.w.w.w.w.w.w.k     A P P P 8       0.w.w.w.w.w.w.w.w.:.  * P P P .                                                 1 w.w.w.w.w.w.w.w.w.w.w.w.w.w.w.w.w.w.w.w.w.w.w.w.w.>.                                                                                                                                                                                                                                ";
"                                                                                                                                                                                                                                + ..w.w.w.w.w.w.w.w.w.w.w.w.w.w.w.w.w.w.w.<.,     o H P P P V     1 w.w.w.w.w.w.w.w.w.w.w.w.w.w.w.w.w.w.w.w.w.w.w.w.w.w.w.w.w.w.2               { w.w.w.w.w.w.w.w.i 9 P D x v v v Q w.w.w.w.w.w.w.w.<.    8 P P P A       q.w.w.w.w.w.w.w.w.o.  & P P P &                                                 1 w.w.w.w.w.w.w.w.w.w.w.w.w.w.w.w.w.w.w.w.w.w.w.w.w.:.                                                                                                                                                                                                                                ";
"                                                                                                                                                                                                                                    j 8.w.w.w.w.w.w.w.w.w.w.w.w.w.w.w.w.w.w.8.3     & P P P P .   1 w.w.w.w.w.w.w.w.w.w.w.w.w.w.w.w.w.w.w.w.w.w.w.w.w.w.w.w.w.|               X 8.w.w.w.w.w.w.w.8.X A P P P P P P U w.w.w.w.w.w.w.w.w.3   . L P P P O     w.w.w.w.w.w.w.w.w.:.  O P P P 9                                                 1 w.w.w.w.w.w.w.w.w.w.w.w.w.w.w.w.w.w.w.w.w.w.w.w.w.>.                                                                                                                                                                                                                                ";
"                                                                                                                                                                                                                                      X l 7.w.w.w.w.w.w.w.w.w.w.w.w.w.w.w.w.w.8.>     B P P P 4   1 w.w.w.w.w.w.w.w.w.w.w.w.w.w.w.w.w.w.w.w.w.w.w.w.w.w.w.w.2.X               s w.w.w.w.w.w.w.w.{ o P P P P P P P P =.w.w.w.w.w.w.w.w.{     b P P P q     0.w.w.w.w.w.w.w.w.>.    P P P A                                                 1 w.w.w.w.w.w.w.w.w.w.w.w.w.w.w.w.w.w.w.w.w.w.w.w.w.>.                                                                                                                                                                                                                                ";
"                                                                                                                                                                                                                                            a o.w.w.w.w.w.w.w.w.w.w.w.w.w.w.w.w.>.    * P P P 7   1 w.w.w.w.w.w.w.w.w.w.w.w.w.w.w.w.w.w.w.w.w.w.w.w.w.w.w.2.@                 o.w.w.w.w.w.w.w.w.3 $ 9 9 0 9 9 9 9 9 W w.w.w.w.w.w.w.w.0.X   4 P P P D     8.w.w.w.w.w.w.w.w.7.    S P P P #                                               1 w.w.w.w.w.w.w.w.w.2.<.6.6.6.1.<.<.<.<.<.<.<.<.<.<.|                                                                                                                                                                                                                                 ";
"                                                                                                                                                                                                                                                > l 2.w.w.w.w.w.w.w.w.w.w.w.w.w.w.i   . L P P 0   1 w.w.w.w.w.w.w.w.w.w.w.w.w.w.w.w.w.w.w.w.w.w.w.w.w.w. .+                 > w.w.w.w.w.w.w.w.7..                   X 0.w.w.w.w.w.w.w.w.h     H P P P &   <.w.w.w.w.w.w.w.w.w.X   v P P P B                                               1 w.w.w.w.w.w.w.w.w.<   D P P $                                                                                                                                                                                                                                                       ";
"                                                                                                                                                                                                                                                      u ..w.w.w.w.w.w.w.w.w.w.w.w.o.    V P P q   1 w.w.w.w.w.w.w.w.w.w.w.w.w.w.w.w.w.w.w.w.w.w.w.w.:.u                     l w.w.w.w.w.w.w.w.<.[ [ [ [ [ ] [ [ ] [ [ 2.w.w.w.w.w.w.w.w.o.    z P P P b   o.w.w.w.w.w.w.w.w.w.1   * P P P P 7                                             1 w.w.w.w.w.w.w.w.w.<   D P P #                                                                                                                                                                                                                                                       ";
"                                                                                                                                                                                                                                                          1 :.w.w.w.w.w.w.w.w.w.w.q.X   M P P q   1 w.w.w.w.w.w.w.w.w.w.w.w.w.w.w.w.w.w.w.w.w.2.[ 1                         2.w.w.w.w.w.w.w.w.w.w.w.w.w.w.w.w.w.w.w.w.w.w.w.w.w.w.w.w.w.w.@   # P P P J   { w.w.w.w.w.w.w.w.w.j     D P P P L 4                                           1 w.w.w.w.w.w.w.w.w.<   D P P #                                                                                                                                                                                                                                                       ";
"                                                                                                                                                                                                                                      * z o                   ' w.w.w.w.w.w.w.w.w.w.3   x P P 7   1 w.w.w.w.w.w.w.w.w.w.w.w.w.w.0.2.>. .' s >                             3 w.w.w.w.w.w.w.w.w.w.w.w.w.w.w.w.w.w.w.w.w.w.w.w.w.w.w.w.w.w.w.l     A P P P 5 h w.w.w.w.w.w.w.w.w.:.    5 P P P P P 0 .                             O z $ .   1 w.w.w.w.w.w.w.w.w.,   D P P $                                                                                                                                                                                                                                                       ";
"                                                                                                                                                                                                                                      b P L M 5 .               ..w.w.w.w.w.w.w.w.w.s   q P P &   1 w.w.w.w.w.w.w.w.w.<   D P P #                                         { w.w.w.w.w.w.w.w.w.w.w.w.w.w.w.w.w.w.w.w.w.w.w.w.w.w.w.w.w.w.w.2.    9 P P P N 1 w.w.w.w.w.w.w.w.w.w.,     N P P P P P D 6 .                   o 7 B P P x     1 w.w.w.w.w.w.w.w.w.<   D P P $                                                                                                                                                                                                                                                       ";
"                                                                                                                                                                                                                                    . J P P P P J B q 6 * $ # # d w.w.w.w.w.w.w.w.w.k   x P J X   1 w.w.w.w.w.w.w.w.w.<   D P P $                                       X 0.w.w.w.w.w.w.w.w.w.w.w.w.w.w.w.w.w.w.w.w.w.w.w.w.w.w.w.w.w.w.w.w.3   o L P P L . 7.w.w.w.w.w.w.w.w.w...    . B P P P P P P L V v q 0 0 z b B H P P P P P F     1 w.w.w.w.w.w.w.w.w.<   D P P P P P P P P P P P P P P P P P P P P P P 4                                                                                                                                                                                                               ";
"                                                                                                                                                                                                                                    4 P P P P P P P P P P P P P E w.w.w.w.w.w.w.w.w.l   b P b     1 w.w.w.w.w.w.w.w.w.<   D P P $                                       a w.w.w.w.w.w.w.w.w.w.w.w.w.w.w.w.w.w.w.w.w.w.w.w.w.w.w.w.w.w.w.w.w.{     B P P P 8 { w.w.w.w.w.w.w.w.w.w.s     . x P P P P P P P P P P P P P P P H 0 S P P P &   1 w.w.w.w.w.w.w.w.w.<   D P P P P P P P P P P P P P P P P P P P P P P 4                                                                                                                                                                                                               ";
"                                                                                                                                                                                                                                    . 7 B P P P P P P P P P P P ! w.w.w.w.w.w.w.w.w.l   S P #     1 w.w.w.w.w.w.w.w.w.,   D P P $                                       ..w.w.w.w.w.w.w.w.w.w.w.w.w.w.w.w.w.w.w.w.w.w.w.w.w.w.w.w.w.w.w.w.w.8.X   6 P P P V 3 w.w.w.w.w.w.w.w.w.w.0.i       $ N P P P P P P P P P P H M 6 .   q P P P x   1 w.w.w.w.w.w.w.w.w.,   D P P P P P P P P P P P P P P P P P P P P P P 4                                                                                                                                                                                                               ";
"                                                                                                                                                                                                                            1 ' +         o 5 z M A D F F D B q } w.w.w.w.w.w.w.w.w.h o P z       1 w.w.w.w.w.w.w.w.w.<   D P P $                                     + q.w.w.w.w.w.w.w.w.w.w.w.w.w.w.w.w.w.w.w.w.w.w.w.w.w.w.w.w.w.w.w.w.w.w.i   . L P P P o <.w.w.w.w.w.w.w.w.w.w.0.k         . 4 9 z x x q 9 4 O   @ ] <   # P P P H   1 w.w.w.w.w.w.w.w.w.<                                           V P P 4                                                                                                                                                                                                               ";
"                                                                                                                                                                                                                            { w.0.| i                         k w.w.w.w.w.w.w.w.w.w.1 8 B         1 w.w.w.w.w.w.w.w.w.<   D P P $                                     j w.w.w.w.w.w.w.w.w.1 z P q                         u w.w.w.w.w.w.w.w.w. .    b P P P 0 a w.w.w.w.w.w.w.w.w.w.w.w.<.s X                   @ s ..q.w.]     S P P P * 1 w.w.w.w.w.w.w.w.w.<                                           V P P 4                                                                                                                                                                                                               ";
"                                                                                                                                                                                                                          X 8.w.w.w.w.8...l a 3 < > , < i l <.w.w.w.w.w.w.w.w.w.w.0.X x .         1 w.w.w.w.w.w.w.w.w.<   D P P #                                     :.w.w.w.w.w.w.w.w.2.  D P #                           7.w.w.w.w.w.w.w.w.0.X   4 P P P A   :.w.w.w.w.w.w.w.w.w.w.w.w.w.0.o.[ l k k ' { ..7.w.w.w.w.w.2.    0 P P P x 1 w.w.w.w.w.w.w.w.w.w.w.w.w.w.w.w.w.w.w.w.w.w.w.w.w.w.w.w.w.u   V P P 4                                                                                                                                                                                                               ";
"                                                                                                                                                                                                                          i w.w.w.w.w.w.w.w.w.w.w.w.w.w.w.w.w.w.w.w.w.w.w.w.w.w.w.{ $             1 w.w.w.w.w.w.w.w.w.<   D P P $                                   > w.w.w.w.w.w.w.w.w.' & P S                             ] w.w.w.w.w.w.w.w.w.h     J P P P # > 0.w.w.w.w.w.w.w.w.w.w.w.w.w.w.w.w.w.w.w.w.w.w.w.w.w.w.w.w.3   o P H 0 . 1 w.w.w.w.w.w.w.w.w.w.w.w.w.w.w.w.w.w.w.w.w.w.w.w.w.w.w.w.w.u   V P P 4                                                                                                                                                                                                               ";
"                                                                                                                                                                                                                          | w.w.w.w.w.w.w.w.w.w.w.w.w.w.w.w.w.w.w.w.w.w.w.w.w.w.q.<               1 w.w.w.w.w.w.w.w.w.,   D P P $                                   l w.w.w.w.w.w.w.w.w.< z P q                             1 w.w.w.w.w.w.w.w.w.o.    v P P P q   s w.w.w.w.w.w.w.w.w.w.w.w.w.w.w.w.w.w.w.w.w.w.w.w.w.w.w.w.]     *       1 w.w.w.w.w.w.w.w.w.w.w.w.w.w.w.w.w.w.w.w.w.w.w.w.w.w.w.w.w.u   V P P 4                                                                                                                                                                                                               ";
"                                                                                                                                                                                                                        X 0.w.w.w.w.w.w.w.w.w.w.w.w.w.w.w.w.w.w.w.w.w.w.w.w.w.w.'                 1 w.w.w.w.w.w.w.w.w.<                                             <.w.w.w.w.w.w.w.w.>.                                      2.w.w.w.w.w.w.w.w.w.@                 k w.w.w.w.w.w.w.w.w.w.w.w.w.w.w.w.w.w.w.w.w.w.w.w.w.w.w.7.            1 w.w.w.w.w.w.w.w.w.w.w.w.w.w.w.w.w.w.w.w.w.w.w.w.w.w.w.w.w.u                                                                                                                                                                                                                         ";
"                                                                                                                                                                                                                        a w.w.w.w.w.w.w.w.w.w.w.w.w.w.w.w.w.w.w.w.w.w.w.w.w.w...                  1 w.w.w.w.w.w.w.w.w.<                                           1 w.w.w.w.w.w.w.w.w.k                                       ' w.w.w.w.w.w.w.w.w.j                   j q.w.w.w.w.w.w.w.w.w.w.w.w.w.w.w.w.w.w.w.w.w.w.w.w.w.w.3           1 w.w.w.w.w.w.w.w.w.w.w.w.w.w.w.w.w.w.w.w.w.w.w.w.w.w.w.w.w.u                                                                                                                                                                                                                         ";
"                                                                                                                                                                                                                        | w.w.w.w.w.w.w.w.w.w.w.w.w.w.w.w.w.w.w.w.w.w.w.w.w.| X                   1 w.w.w.w.w.w.w.w.w.,                                           ] w.w.w.w.w.w.w.w.w.,                                       1 w.w.w.w.w.w.w.w.w.>.                    3 7.w.w.w.w.w.w.w.w.w.w.w.w.w.w.w.w.w.w.w.w.w.w.w.w.w.]           1 w.w.w.w.w.w.w.w.w.w.w.w.w.w.w.w.w.w.w.w.w.w.w.w.w.w.w.w.w.u                                                                                                                                                                                                                         ";
"                                                                                                                                                                                                                        X j 7.w.w.w.w.w.w.w.w.w.w.w.w.w.w.w.w.w.w.w.w.w.8.h                       1 w.w.w.w.w.w.w.w.w.<                                           7.w.w.w.w.w.w.w.w.>.                                          2.w.w.w.w.w.w.w.w.w.>                     X l 0.w.w.w.w.w.w.w.w.w.w.w.w.w.w.w.w.w.w.w.w.w.7.k X           1 w.w.w.w.w.w.w.w.w.w.w.w.w.w.w.w.w.w.w.w.w.w.w.w.w.w.w.w.w.u                                                                                                                                                                                                                         ";
"                                                                                                                                                                                                                            X u { 8.w.w.w.w.w.w.w.w.w.w.w.w.w.w.w.w.<.j X                         1 w.w.w.w.w.w.w.w.w.<                                         3 w.w.w.w.w.w.w.w.w.l                                           ' w.w.w.w.w.w.w.w.w.l                         X j >.w.w.w.w.w.w.w.w.w.w.w.w.w.w.w.w.8.{ i                 1 w.w.w.w.w.w.w.w.w.w.w.w.w.w.w.w.w.w.w.w.w.w.w.w.w.w.w.w.w.u                                                                                                                                                                                                                         ";
"                                                                                                                                                                                                                                    < s [ ..<.8.0.q.w.0.8.2.o.[ s >                                                                                                                                                                                                                 @ a ] ..<.8.0.w.w.0.8.<...[ h <                                                                                                                                                                                                                                                                                                             ";
"                                                                                                                                                                                                                                                                                                                                                                                                                                                                                                                                                                                                                                                                                                                                                                                                                                ";
"                                                                                                                                                                                                                                                                                                                                                                                                                                                                                                                                                                                                                                                                                                                                                                                                                                ";
"                                                                                                                                                                                                                                                                                                                                                                                                                                                                                                                                                                                                                                                                                                                                                                                                                                ";
"                                                                                                                                                                                                                                                                                                                                                                                                                                                                                                                                                                                                                                                                                                                                                                                                                                ";
"                                                                                                                                                                                                                                                                                                                                                                                                                                                                                                                                                                                                                                                                                                                                                                                                                                ";
"                                                                                                                                                                                                                                                                                                                                                                                                                                                                                                                                                                                                                                                                                                                                                                                                                                ";
"                                                                                                                                                                                                                                                                                                                                                                                                                                                                                                                                                                                                                                                                                                                                                                                                                                ";
"                                                                                                                                                                                                                                                                                                                                                                                                                                                                                                                                                                                                                                                                                                                                                                                                                                ";
"                                                                                                                                                                                                                                                                                                                                                                                                                                                                                                                                                                                                                                                                                                                                                                                                                                ";
"                                                                                                                                                                                                                                                                                                                                                                                                                                                                                                                                                                                                                                                                                                                                                                                                                                ";
"                                                                                                                                                                                                                                                                                                                                                                                                                                                                                                                                                                                                                                                                                                                                                                                                                                ";
"                                                                                                                                                                                                                                                                                                                                                                                                                                                                                                                                                                                                                                                                                                                                                                                                                                ";
"                                                                                                                                                                                                                                                                                                                                                                                                                                                                                                                                                                                                                                                                                                                                                                                                                                ";
"                                                                                                                                                                                                                                                                                                                                                                                                                                                                                                                                                                                                                                                                                                                                                                                                                                ";
"                                                                                                                                                                                                                                                                                                                                                                                                                                                                                                                                                                                                                                                                                                                                                                                                                                ";
"                                                                                                                                                                                                                                                                                                                                                                                                                                                                                                                                                                                                                                                                                                                                                                                                                                ";
"                                                                                                                                                                                                                                                                                                                                                                                                                                                                                                                                                                                                                                                                                                                                                                                                                                ";
"                                                                                                                                                                                                                                                                                                                                                                                                                                                                                                                                                                                                                                                                                                                                                                                                                                ";
"                                                                                                                                                                                                                                                                                                                                                                                                                                                                                                                                                                                                                                                                                                . o O o .                                                                                                                       ";
"                                                                                                                    o 6 7 6 7 7 7 7 6 7 .                 o 6 7 7 6 7 7 7 &                                     * 7 6 7 7 6 7 7 7 &         $ z z z q z z q z q q                                           $ q q z q z z q z z 6                                                                                       . 5 0 M A D H L L L L L L L J H D A N z 7 $                                                                                                                                       . . o O O o .                                                               o 8 b D J P P P P P L D N 0 &                                                                                                             ";
"                                                                                                                    & P P P P P P P P P $                 & P P P P P P P L *                                   V P P P P P P P P x         o P P P P P P P P P P 4                                         v P P P P P P P P P 8                       . o P P P P P P P P P 6                                         & P P P P P P P P P P P P P P P P P P P P P J N 7 .                                     & P P P P P P P P P P P P P P P P P P P P P P P P P P P H                 # 5 q b B S H L P P P P P P P P H A b 9 & .                                             * M P P P P P P P P P P P P P P P H z #                                                                                                       ";
"                                                                                                                    & P P P P P P P P P #                 & P P P P P P P P L &                                 V P P P P P P P P v           V P P P P P P P P P b                                         H P P P P P P P P P .                         z P P P P P P P P P A                                         & P P P P P P P P P P P P P P P P P P P P P P P P L x O                                 & P P P P P P P P P P P P P P P P P P P P P P P P P P P F               & P P P P P P P P P P P P P P P P P P P P P J b *                                     o N P P P P P J H J L P P P P P P P P P P P B $                                                                                                   ";
"                                                                                                                    # M M N M M M L P P $                 # N M M N S P P P P H O                               q N M M N M S P P v           & q q z q q z P P P H                                     . o z q z q q z q N P N                         . J P P P P P P P P P P &                                       o & $ O . . . . . . . o o $ * 6 q M D P P P P P P P P L z .                             & P P P P P P P P P P P P P P P P P P P P P P P P P P P H               & P P P P P P L H H H J L P P P P P P P P P P P P A 4                               & H H M 8 & .           . # 6 x S P P P P P P P 5                                                                                                   ";
"                                                                                                                                  D P P $                           . A P P P P S .                                         9 P P v                         V P P P *                                                     b P 7                                         N P P P N                                                                             o 6 N L P P P P P P D #                                                                             # P P H               o 8 5 & o .               . o * 8 v S P P P P P P P P b .                         $ N 6         + @ + X               O q D P P P J .                                                                                                   ";
"                                                                                                          + a s a s s s a s s X   D P P $       + s s a s s s a 1     . S P P P P B                   u s a s s a s s s 1   9 P P Z l ' ' ' l ' l ' ' l     9 P P P v                             < W ' l ' ' ' l ' ' a . J L .                                         * P P P P #                           X i k | :.<.7.0.0.0.0.0.0.0.8.7.2.:. .' s <           . 0 H P P P P P L 4                                                                           O P P H               .       X X @ - @ + X                 o 8 A P P P P P P A o                     . 5 @ h { <.0.w.w.w.w.w.0.<. .k 1           5 D P v                                                                                                     ";
"                                                                                                          1 w.w.w.w.w.w.w.w.w.<   D P P $       1 w.w.w.w.w.w.w.0.3     o H P P P P z                 o.w.w.w.w.w.w.w.w.]   9 P P m w.w.w.w.w.w.w.w.w.w.u   o P P P H                             [ 0.w.w.w.w.w.w.w.w.s 5 P M                   @ q.w.w.w.w.w.w.w.w.a     S P P P x                           1 w.w.w.w.w.w.w.w.w.w.w.w.w.w.w.w.w.w.w.w.w.8. .a X       . q L P P P P L *             1 w.w.w.w.w.w.w.w.w.w.w.w.w.w.w.w.w.w.w.w.w.w.w.w.w.w.w.7.  O P P F       < a k { ..<.7.0.w.w.w.w.w.w.w.0.7.:.| j 1 X         & A P P P P P V                     t  .q.w.w.w.w.w.w.w.w.w.w.w.w.w.w.7.' ,       B P &                                                                                                     ";
"                                                                                                          1 w.w.w.w.w.w.w.w.w.<   D P P #       1 w.w.w.w.w.w.w.w.0.1     & L P P P P 5               o.w.w.w.w.w.w.w.w.[   0 P P v o.w.w.w.w.w.w.w.w.w.[   . A P P P &                           2.w.w.w.w.w.w.w.w.q.+ N P 5                   ' w.w.w.w.w.w.w.w.w.:.    6 P P P L .                         1 w.w.w.w.w.w.w.w.w.w.w.w.w.w.w.w.w.w.w.w.w.w.w.w.0.] @       & D P P P P J #           1 w.w.w.w.w.w.w.w.w.w.w.w.w.w.w.w.w.w.w.w.w.w.w.w.w.w.w.2.  # P P H     1 w.w.w.w.w.w.w.w.w.w.w.w.w.w.w.w.w.w.w.w.w.8.{ 3         8 L P P P P q               + | w.w.w.w.w.w.w.w.w.w.w.w.w.w.w.w.w.w.w.w...< o P D                                                                                                       ";
"                                                                                                          1 w.w.w.w.w.w.w.w.w.>   D P P $       1 w.w.w.w.w.w.w.w.w.8.@     5 P P P P L $             o.w.w.w.w.w.w.w.w.[   9 P P v h w.w.w.w.w.w.w.w.w.7.    0 P P P x                         3 w.w.w.w.w.w.w.w.w.... L J .                 X 8.w.w.w.w.w.w.w.w.w.w.1     H P P P 0                         1 w.w.w.w.w.w.w.w.w.w.w.w.w.w.w.w.w.w.w.w.w.w.w.w.w.w.0.' X     . V P P P P A           1 w.w.w.w.w.w.w.w.w.w.w.w.w.w.w.w.w.w.w.w.w.w.w.w.w.w.w.7.  O P P H     1 w.w.w.w.w.w.w.w.w.w.w.w.w.w.w.w.w.w.w.w.w.w.w.w.>.3       & J P P P L o           1 7.w.w.w.w.w.w.w.w.w.w.w.w.w.w.w.w.w.w.w.w.w.w.i 9 P z                                                                                                       ";
"                                                                                                          1 w.w.w.w.w.w.w.w.w.<   D P P $       1 w.w.w.w.w.w.w.w.w.w.>.X     q P P P P D .           o.w.w.w.w.w.w.w.w.[   9 P P x + q.w.w.w.w.w.w.w.w.w.3   O P P P H                         ] w.w.w.w.w.w.w.w.w.a 7 P b                   j w.w.w.w.w.w.w.w.w.w.w. .    0 P P P F .                       1 w.w.w.w.w.w.w.w.w.w.w.w.w.w.w.w.w.w.w.w.w.w.w.w.w.w.w.w.<.,     . A P P P P 9         1 w.w.w.w.w.w.w.w.w.w.w.w.w.w.w.w.w.w.w.w.w.w.w.w.w.w.w.7.              1 w.w.w.w.w.w.w.w.w.w.w.w.w.w.w.w.w.w.w.w.w.w.w.w.w.w.{ X     4 P P P P 0         < 8.w.w.w.w.w.w.w.w.w.w.w.w.w.w.w.w.w.w.w.w.w.w.8.X z P #                                                                                                       ";
"                                                                                                          1 w.w.w.w.w.w.w.w.w.<   D P P $       1 w.w.w.w.w.w.w.w.w.w.w...      B P P P P M           o.w.w.w.w.w.w.w.w.[   0 P P v   o.w.w.w.w.w.w.w.w.w.[     A P P P *                       7.w.w.w.w.w.w.w.w.0.X B P *                   2.w.w.w.w.w.w.w.w.w.w.w.w.-   . J P P P 6                       1 w.w.w.w.w.w.w.w.w.w.w.w.w.w.w.w.w.w.w.w.w.w.w.w.w.w.w.w.w.0.u     o F P P P H .       1 w.w.w.w.w.w.w.w.w.w.w.w.w.w.w.w.w.w.w.w.w.w.w.w.w.w.w.2.              1 w.w.w.w.w.w.w.w.w.w.w.w.w.w.w.w.w.w.w.w.w.w.w.w.w.w.w.:.X     x P P P V       X 2.w.w.w.w.w.w.w.w.w.w.w.w.w.w.w.w.w.w.w.w.w.w.w.[     #                                                                                                         ";
"                                                                                                          1 w.w.w.w.w.w.w.w.w.,   D P P $       1 w.w.w.w.w.w.w.w.w.w.w.w.'     . D P P P P 8         o.w.w.w.w.w.w.w.w.[   9 P P v   h w.w.w.w.w.w.w.w.w.7.    0 P P P v                     1 w.w.w.w.w.w.w.w.w.| . P H                   a w.w.w.w.w.w.w.w.w.w.w.w.w.[     x P P P A                       1 w.w.w.w.w.w.w.w.w.w.w.w.w.w.w.w.w.w.w.w.w.w.w.w.w.w.w.w.w.w.0.3     & P P P P 9       1 w.w.w.w.w.w.w.w.w.w.w.w.w.w.w.w.w.w.w.w.w.w.w.w.w.w.w.7.              1 w.w.w.w.w.w.w.w.w.w.w.w.w.w.w.w.w.w.w.w.w.w.w.w.w.w.w.w.o.X   . J P P P .     ' w.w.w.w.w.w.w.w.w.w.w.w.w.w.w.w.w.w.w.w.w.w.w.w.1                                                                                                               ";
"                                                                                                          1 w.w.w.w.w.w.w.w.w.<   D P P #       1 w.w.w.w.w.w.w.w.w.w.w.w.w.i     $ L P P P L $       o.w.w.w.w.w.w.w.w.]   0 P P v   + 0.w.w.w.w.w.w.w.w.w.1   # P P P H                     ] w.w.w.w.w.w.w.w.w.i 8 P x                   >.w.w.w.w.w.w.w.w.w.w.w.w.w.0.X   O P P P P $                     1 w.w.w.w.w.w.w.w.w.w.w.w.w.w.w.w.w.w.w.w.w.w.w.w.w.w.w.w.w.w.w.8.>     b P P P S       1 w.w.w.w.w.w.w.w.w.w.w.w.w.w.w.w.w.w.w.w.w.w.w.w.w.w.w.7.              1 w.w.w.w.w.w.w.w.w.w.w.w.w.w.w.w.w.w.w.w.w.w.w.w.w.w.w.w.w.k     x P P P #   + q.w.w.w.w.w.w.w.w.w.w.w.w.w.w.w.w.w.w.w.w.w.w.w.2.                                                                                                                ";
"                                                                                                          1 w.w.w.w.w.w.w.w.w.<   D P P $       1 w.w.w.w.w.w.w.w.w.w.w.w.w.0.<     7 P P P P D .     o.w.w.w.w.w.w.w.w.[   9 P P x      .w.w.w.w.w.w.w.w.w.]     A P P P *                   2.w.w.w.w.w.w.w.w.8.X A P $                 3 w.w.w.w.w.w.w.w.w.w.w.w.w.w.w.k     N P P P b                     1 w.w.w.w.w.w.w.w.w.3 X D P P : < u l ..0.w.w.w.w.w.w.w.w.w.w.w.w.:.    o L P P P #     1 w.w.w.w.w.w.w.w.w.w.w.w.w.w.w.w.w.w.w.w.w.w.w.w.w.w.w.7.              1 w.w.w.w.w.w.w.w.w.w.w.w.w.w.w.w.w.w.w.w.w.w.w.w.w.w.w.w.w.0.+   4 P P P *   k w.w.w.w.w.w.w.w.w.w.$.^ E K X X @ < h { 7.w.w.w.l                                                                                                                 ";
"                                                                                                          1 w.w.w.w.w.w.w.w.w.,   D P P $       1 w.w.w.w.w.w.w.w.w.w.w.w.w.w.<.X     b P P P P v     o.w.w.w.w.w.w.w.w.[   9 P P x     a w.w.w.w.w.w.w.w.w.7.    0 P P P v                 1 w.w.w.w.w.w.w.w.w.{ # P S                    .w.w.w.w.w.w.w.w.w.w.w.w.w.w.w.7.X   * P P P L o                   1 w.w.w.w.w.w.w.w.w.<   D P P $         + l 8.w.w.w.w.w.w.w.w.w.w.w.j     b P P P 9     1 w.w.w.w.w.w.w.w.w.<   D P P $                                         1 w.w.w.w.w.w.w.w.w.u + G P I ; 1 a { 7.w.w.w.w.w.w.w.w.w.w.w.k   . L P P 5   o.w.w.w.w.w.w.w.w.w.j 9 P P P B .           u ..w.>                                                                                                                 ";
"                                                                                                          1 w.w.w.w.w.w.w.w.w.<   D P P $       1 w.w.w.w.w.w.w.w.w.w.w.w.w.w.w.|     . D P P P P 5   o.w.w.w.w.w.w.w.w.[   0 P P v     X 8.w.w.w.w.w.w.w.w.w.3   o P P P H .               [ w.w.w.w.w.w.w.w.w.3 0 P 0                 > w.w.w.w.w.w.w.w.7.w.w.w.w.w.w.w.w.a     S P P P 0                   1 w.w.w.w.w.w.w.w.w.<   D P P $             + :.w.w.w.w.w.w.w.w.w.w.7.X   & P P P M     1 w.w.w.w.w.w.w.w.w.<   D P P #                                         1 w.w.w.w.w.w.w.w.w.<   D P P $       X j 0.w.w.w.w.w.w.w.w.w.o.    D P P *   7.w.w.w.w.w.w.w.w.>.  7 P P P P D 4             >                                                                                                                   ";
"                                                                                                          1 w.w.w.w.w.w.w.w.w.<   D P P $       1 w.w.w.w.w.w.w.w.w.w.w.w.w.w.w.w.h     $ P P P P J o o.w.w.w.w.w.w.w.w.[   9 P P v       { w.w.w.w.w.w.w.w.w.]     A P P P 4               7.w.w.w.w.w.w.w.w.7.  D P o                 ] w.w.w.w.w.w.w.0.3 w.w.w.w.w.w.w.w.:.    8 P P P D                   1 w.w.w.w.w.w.w.w.w.<   D P P $               X | w.w.w.w.w.w.w.w.w.w.j     D P P D     1 w.w.w.w.w.w.w.w.w.<   D P P $                                         1 w.w.w.w.w.w.w.w.w.<   D P P $           a w.w.w.w.w.w.w.w.w.w.    A P P $   w.w.w.w.w.w.w.w.w.{   o L P P P P P S 8 .                                                                                                                           ";
"                                                                                                          1 w.w.w.w.w.w.w.w.w.,   D P P $       1 w.w.w.w.w.w.w.w.w.w.w.w.w.w.w.w.0.<     9 P P P P B o.w.w.w.w.w.w.w.w.[   9 P P v       3 w.w.w.w.w.w.w.w.w.7.    9 P P P b             3 w.w.w.w.w.w.w.w.w.' $ P B                 X 8.w.w.w.w.w.w.w...o 4.w.w.w.w.w.w.w.w.1   . J P P P 4                 1 w.w.w.w.w.w.w.w.w.,   D P P $                 X <.w.w.w.w.w.w.w.w.w.>.    b P P L     1 w.w.w.w.w.w.w.w.w.,   D P P P P P P P P P P P P P P P P P P S         1 w.w.w.w.w.w.w.w.w.<   D P P $             :.w.w.w.w.w.w.w.w.w.,   V P P . X w.w.w.w.w.w.w.w.w.{     5 P P P P P P P L M *                                                                                                                       ";
"                                                                                                          1 w.w.w.w.w.w.w.w.w.<   D P P #       1 w.w.w.w.w.w.w.w.w.w.w.w.w.w.w.w.w.<.X     B P P P P &.w.w.w.w.w.w.w.w.]   0 P P v         2.w.w.w.w.w.w.w.w.w.3   o P P P J .           [ w.w.w.w.w.w.w.w.w.< x P 6                 s w.w.w.w.w.w.w.w.i 0 _ w.w.w.w.w.w.w.w.{     x P P P M                 1 w.w.w.w.w.w.w.w.w.<   D P P #                   1 w.w.w.w.w.w.w.w.w.w.>   7 P P P o   1 w.w.w.w.w.w.w.w.w.<   D P P P P P P P P P P P P P P P P P P A         1 w.w.w.w.w.w.w.w.w.<   D P P $             l w.w.w.w.w.w.w.w.w.3   V P S   X w.w.w.w.w.w.w.w.w.8.X     $ V P P P P P P P P D 9 o                                                                                                                 ";
"                                                                                                          1 w.w.w.w.w.w.w.w.w.<   D P P $       1 w.w.w.w.w.w.w.w.w.w.w.w.w.w.w.w.w.w.[     o J P P P ;.w.w.w.w.w.w.w.w.[   9 P P x         ' w.w.w.w.w.w.w.w.w.{     V P P P 5         X 7.w.w.w.w.w.w.w.w.<.. J J .                 >.w.w.w.w.w.w.w.8.  D I 0.w.w.w.w.w.w.w.0.+   $ P P P P o               1 w.w.w.w.w.w.w.w.w.<   D P P $                     :.w.w.w.w.w.w.w.w.w.j   $ P P P #   1 w.w.w.w.w.w.w.w.w.<   D P P P P P P P P P P P P P P P P P P S         1 w.w.w.w.w.w.w.w.w.<   D P P #             h w.w.w.w.w.w.w.w.w.i   D P q     8.w.w.w.w.w.w.w.w.w...X       & b L P P P P P P P L x o                                                                                                             ";
"                                                                                                          1 w.w.w.w.w.w.w.w.w.<   D P P $       1 w.w.w.w.w.w.w.w.w.>.w.w.w.w.w.w.w.w.w.i     5 P P P ;.w.w.w.w.w.w.w.w.[   9 P P x         , w.w.w.w.w.w.w.w.w.7.    8 P P P M         3 w.w.w.w.w.w.w.w.w.k 5 P v                 1 w.w.w.w.w.w.w.w.] & P N | w.w.w.w.w.w.w.w.k     V P P P 0               1 w.w.w.w.w.w.w.w.w.<   D P P #                     a w.w.w.w.w.w.w.w.w.|   . P P P $   1 w.w.w.w.w.w.w.w.w.<                                   * P P A         1 w.w.w.w.w.w.w.w.w.<   D P P M b x b M N S ` w.w.w.w.w.w.w.w.w.3 . L L O     o.w.w.w.w.w.w.w.w.w.w.<.u         . 7 A P P P P P P P L q .                                                                                                         ";
"                                                                                                          1 w.w.w.w.w.w.w.w.w.<   D P P $       1 w.w.w.w.w.w.w.w.w.> 7.w.w.w.w.w.w.w.w.8.+     x P P ;.w.w.w.w.w.w.w.w.[   9 P P v           >.w.w.w.w.w.w.w.w.w.u   o P P P L .       { w.w.w.w.w.w.w.w.q.+ N P $                 { w.w.w.w.w.w.w.w.< v P 5 u w.w.w.w.w.w.w.w.2.    6 P P P D               1 w.w.w.w.w.w.w.w.w.,   D P P $                     X w.w.w.w.w.w.w.w.w.<.    J P P &   1 w.w.w.w.w.w.w.w.w.<                                   & P P S         1 w.w.w.w.w.w.w.w.w.<   D P P P P P P P P P *.w.w.w.w.w.w.w.w.w.< $ P q       k w.w.w.w.w.w.w.w.w.w.w.w.>.h X         $ x L P P P P P P D #                                                                                                       ";
"                                                                                                          1 w.w.w.w.w.w.w.w.w.<   D P P $       1 w.w.w.w.w.w.w.w.w.X 1 w.w.w.w.w.w.w.w.w...    . D P ;.w.w.w.w.w.w.w.w.[   0 P P v           h w.w.w.w.w.w.w.w.w.{     B P P P 7     X 8.w.w.w.w.w.w.w.w.... P A                 X 0.w.w.w.w.w.w.w.>.. J J .   2.w.w.w.w.w.w.w.w.3   X J P P P *             1 w.w.w.w.w.w.w.w.w.<   D P P $                       1.w.w.w.w.w.w.w.w.0.    D P P &   1 w.w.w.w.w.w.w.w.w.w.w.w.w.w.w.w.w.w.w.w.w.w.w.w.w.>.  * P P S         1 w.w.w.w.w.w.w.w.w.<   D P P P P P P P S n 0.w.w.w.w.w.w.w.w.w.X z V .       + 0.w.w.w.w.w.w.w.w.w.w.w.w.w.0.| 3         . q H P P P P P J *                                                                                                     ";
"                                                                                                          1 w.w.w.w.w.w.w.w.w.>   D P P $       1 w.w.w.w.w.w.w.w.w.X   ) w.w.w.w.w.w.w.w.w.k     & P ;.w.w.w.w.w.w.w.w.[   9 P P v           X 0.w.w.w.w.w.w.w.w.8.X   7 P P P B     u w.w.w.w.w.w.w.w.w.a 9 P 8                 j w.w.w.w.w.w.w.w.j 6 P b     l w.w.w.w.w.w.w.w. .    x P P P b             1 w.w.w.w.w.w.w.w.w.<   D P P $                       | w.w.w.w.w.w.w.w.w.+   D P P #   1 w.w.w.w.w.w.w.w.w.w.w.w.w.w.w.w.w.w.w.w.w.w.w.w.w.>.  * P P A         1 w.w.w.w.w.w.w.w.w.<   7 9 9 8 7 5 & . @ >.w.w.w.w.w.w.w.w.w.>.. M .           k w.w.w.w.w.w.w.w.w.w.w.w.w.w.w.w.<.k X       . z L P P P P J #                                                                                                   ";
"                                                                                                          1 w.w.w.w.w.w.w.w.w.<   D P P #       1 w.w.w.w.w.w.w.w.w.X   L +.w.w.w.w.w.w.w.w.0.<     z ;.w.w.w.w.w.w.w.w.]   0 P P v             | w.w.w.w.w.w.w.w.w.i   . L P P L o   | w.w.w.w.w.w.w.w.8.X S L .                 <.w.w.w.w.w.w.w.0.+ B P *     @ w.w.w.w.w.w.w.w.q.+   $ P P P L .           1 w.w.w.w.w.w.w.w.w.<   D P P $                       [ w.w.w.w.w.w.w.w.w.>   S P P .   1 w.w.w.w.w.w.w.w.w.w.w.w.w.w.w.w.w.w.w.w.w.w.w.w.w.>.  $ D D M         1 w.w.w.w.w.w.w.w.w.,               1 ' 8.w.w.w.w.w.w.w.w.w.w.l 4               X :.w.w.w.w.w.w.w.w.w.w.w.w.w.w.w.w.w.0.] @       $ D P P P P S                                                                                                   ";
"                                                                                                          1 w.w.w.w.w.w.w.w.w.<   D P P $       1 w.w.w.w.w.w.w.w.w.X   L I 4.w.w.w.w.w.w.w.w.>.X   . -.w.w.w.w.w.w.w.w.[   9 P P x             u w.w.w.w.w.w.w.w.w.|     M P P P 9 X 0.w.w.w.w.w.w.w.w.[ & P b                 1 w.w.w.w.w.w.w.w.... P F         %.w.w.w.w.w.w.w.w.k     A P P P 7           1 w.w.w.w.w.w.w.w.w.,   D P P $                       ' w.w.w.w.w.w.w.w.w.<   D P J     1 w.w.w.w.w.w.w.w.w.w.w.w.w.w.w.w.w.w.w.w.w.w.w.w.w.:.                  1 w.w.w.w.w.w.w.w.w.| [ { { | ..>.0.w.w.w.w.w.w.w.w.w.w.w.w.0.-                   X <.w.w.w.w.w.w.w.w.w.w.w.w.w.w.w.w.w.w.0.l X     o A P P P P 5                                                                                                 ";
"                                                                                                          1 w.w.w.w.w.w.w.w.w.,   D P P $       1 w.w.w.w.w.w.w.w.w.X   L P Y 8.w.w.w.w.w.w.w.w.l     %.w.w.w.w.w.w.w.w.[   9 P P v               2.w.w.w.w.w.w.w.w.0.X   5 P P P S a w.w.w.w.w.w.w.w.w.< M P $                 { q.w.w.w.w.w.w.w.i 8 P D v v x x Q w.w.w.w.w.w.w.w.<.    8 P P P V           1 w.w.w.w.w.w.w.w.w.<   D P P $                       k w.w.w.w.w.w.w.w.w.3   F P S     1 w.w.w.w.w.w.w.w.w.w.w.w.w.w.w.w.w.w.w.w.w.w.w.w.w.:.                  1 w.w.w.w.w.w.w.w.w.w.w.w.w.w.w.w.w.w.w.w.w.w.w.w.w.w.w.w.w.l                       + ..w.w.w.w.w.w.w.w.w.w.w.w.w.w.w.w.w.w.w.<.,     o F P P P V                                                                                                 ";
"                                                                                                          1 w.w.w.w.w.w.w.w.w.<   D P P $       1 w.w.w.w.w.w.w.w.w.X   L P P p w.w.w.w.w.w.w.w.q.1   o.w.w.w.w.w.w.w.w.[   0 P P v               l w.w.w.w.w.w.w.w.w.s   . J P P P X.w.w.w.w.w.w.w.w.:.o L A                 X 0.w.w.w.w.w.w.w.8.X A P P P P P P U w.w.w.w.w.w.w.w.w.3   . L P P P #         1 w.w.w.w.w.w.w.w.w.<   D P P $                       ' w.w.w.w.w.w.w.w.w.<   J P b     1 w.w.w.w.w.w.w.w.w.w.w.w.w.w.w.w.w.w.w.w.w.w.w.w.w.>.                  1 w.w.w.w.w.w.w.w.w.w.w.w.w.w.w.w.w.w.w.w.w.w.w.w.w.w.w.w.&.z                           j 8.w.w.w.w.w.w.w.w.w.w.w.w.w.w.w.w.w.w.8.3     & P P P P .                                                                                               ";
"                                                                                                          1 w.w.w.w.w.w.w.w.w.<   D P P $       1 w.w.w.w.w.w.w.w.w.X   L P P . { w.w.w.w.w.w.w.w.<.  o.w.w.w.w.w.w.w.w.[   9 P P x               @ q.w.w.w.w.w.w.w.w...    b P P U q.w.w.w.w.w.w.w.w.s 9 P 8                 s w.w.w.w.w.w.w.w.{ # P P P P P P P P =.w.w.w.w.w.w.w.w.{     M P P P q         1 w.w.w.w.w.w.w.w.w.<   D P P #                       { w.w.w.w.w.w.w.w.w.> . P P 7     1 w.w.w.w.w.w.w.w.w.w.w.w.w.w.w.w.w.w.w.w.w.w.w.w.w.>.                  1 w.w.w.w.w.w.w.w.w.w.w.w.w.w.w.w.w.w.w.w.w.w.w.w.w.w.w.-.I P *                           X l 7.w.w.w.w.w.w.w.w.w.w.w.w.w.w.w.w.w.8.>     B P P P 4                                                                                               ";
"                                                                                                          1 w.w.w.w.w.w.w.w.w.,   D P P $       1 w.w.w.w.w.w.w.w.w.X   L P P . X 2.w.w.w.w.w.w.w.w.' o.w.w.w.w.w.w.w.w.[   9 P P v                  .w.w.w.w.w.w.w.w.q.+   & P P _ w.w.w.w.w.w.w.w.0.X D J .                 o.w.w.w.w.w.w.w.w.3 $ 9 9 9 9 9 0 9 0 W w.w.w.w.w.w.w.w.0.X   * P P P D         1 w.w.w.w.w.w.w.w.w.,   D P P $                        .w.w.w.w.w.w.w.w.w.+ & P P o     1 w.w.w.w.w.w.w.w.w.2.<.6.6.6.1.<.<.<.<.<.<.<.<.<.<.|                   1 w.w.w.w.w.w.w.w.w.w.w.w.w.w.w.w.w.w.w.w.w.w.w.w.w.0.O.P P P F .                             X a o.q.w.w.w.w.w.w.w.w.w.w.w.w.w.w.w.>.    4 P P P 7                                                                                               ";
"                                                                                                          1 w.w.w.w.w.w.w.w.w.<   D P P $       1 w.w.w.w.w.w.w.w.w.X   L P P .   3 q.w.w.w.w.w.w.w.0.7.w.w.w.w.w.w.w.w.]   0 P P v                 u w.w.w.w.w.w.w.w.w.j     D P 3.w.w.w.w.w.w.w.w.{ * P v                 > w.w.w.w.w.w.w.w.7.                    X 8.w.w.w.w.w.w.w.w.h     H P P P *       1 w.w.w.w.w.w.w.w.w.<   D P P $                       7.w.w.w.w.w.w.w.w.8.  9 P B       1 w.w.w.w.w.w.w.w.w.<   D P P $                                         1 w.w.w.w.w.w.w.w.w.w.w.w.w.w.w.w.w.w.w.w.w.w.w.w...1 q P P P P x                                   > l 2.w.w.w.w.w.w.w.w.w.w.w.w.w.w.i   . L P P 0                                                                                               ";
"                                                                                                          1 w.w.w.w.w.w.w.w.w.<   D P P #       1 w.w.w.w.w.w.w.w.w.X   L P P .     ' w.w.w.w.w.w.w.w.w.w.w.w.w.w.w.w.w.[   9 P P v                   2.w.w.w.w.w.w.w.w.>.    0 R w.w.w.w.w.w.w.w.w.< b P $                 l w.w.w.w.w.w.w.w.<.] [ [ [ [ [ ] [ [ [ [ 7.w.w.w.w.w.w.w.w.o.    z P P P b       1 w.w.w.w.w.w.w.w.w.<   D P P $                     > w.w.w.w.w.w.w.w.w.>.  M P 4       1 w.w.w.w.w.w.w.w.w.<   D P P $                                         1 w.w.w.w.w.w.w.w.w.w.w.w.w.w.w.w.w.w.w.w.w.w.w.:.    . A P P P P &                                       u ..w.w.w.w.w.w.w.w.w.w.w.w.o.    V P P q                                                                                               ";
"                                                                                                          1 w.w.w.w.w.w.w.w.w.>   D P P $       1 w.w.w.w.w.w.w.w.w.X   L P P .     X >.w.w.w.w.w.w.w.w.w.w.w.w.w.w.w.w.[   9 P P x                   k w.w.w.w.w.w.w.w.w.<   o O.w.w.w.w.w.w.w.w.>.. L A                   2.w.w.w.w.w.w.w.w.w.w.w.w.w.w.w.w.w.w.w.w.w.w.w.w.w.w.w.w.w.w.@   # P P P J .     1 w.w.w.w.w.w.w.w.w.<   D P P #                     k w.w.w.w.w.w.w.w.w.[ . J S         1 w.w.w.w.w.w.w.w.w.<   D P P $                                         1 w.w.w.w.w.w.w.w.w.w.w.w.w.w.w.w.w.w.w.w.w.w.w.w.l     # L P P P D .                                         1 o.w.w.w.w.w.w.w.w.w.w.q.X   M P P q                                                                                               ";
"                                                                                                          1 w.w.w.w.w.w.w.w.w.<   D P P $       1 w.w.w.w.w.w.w.w.w.X   L P P .       > 0.w.w.w.w.w.w.w.w.w.w.w.w.w.w.w.]   0 P P v                   @ q.w.w.w.w.w.w.w.w.]     9.w.w.w.w.w.w.w.w.s 9 P 6                 3 w.w.w.w.w.w.w.w.w.w.w.w.w.w.w.w.w.w.w.w.w.w.w.w.w.w.w.w.w.w.w.l     A P P P 5     1 w.w.w.w.w.w.w.w.w.,   D P P $                   & 9.w.w.w.w.w.w.w.w.w.s 5 P *         1 w.w.w.w.w.w.w.w.w.,   D P P #                                         1 w.w.w.w.w.w.w.w.w.<   D P I ,.w.w.w.w.w.w.w.w.w.w.3     9 P P P P 0                     * z o                 . ] w.w.w.w.w.w.w.w.w.w.u   x P P 7                                                                                               ";
"                                                                                                          1 w.w.w.w.w.w.w.w.w.<   D P P $       1 w.w.w.w.w.w.w.w.w.X   L P P .         k w.w.w.w.w.w.w.w.w.w.w.w.w.w.w.[   9 P P v                      .w.w.w.w.w.w.w.w.8.  i w.w.w.w.w.w.w.w.8.X D H .                 { w.w.w.w.w.w.w.w.w.w.w.w.w.w.w.w.w.w.w.w.w.w.w.w.w.w.w.w.w.w.w.2.    8 P P P N     1 w.w.w.w.w.w.w.w.w.<   D P P * .     . # $ 6 v S ( w.w.w.w.w.w.w.w.w.q.+ V b           1 w.w.w.w.w.w.w.w.w.<   D P P $                                         1 w.w.w.w.w.w.w.w.w.<   D P P e 0.w.w.w.w.w.w.w.w.w.2.X     S P P P L O                   b P L M 5                 ..w.w.w.w.w.w.w.w.w.s   z P P &                                                                                               ";
"                                                                                                          1 w.w.w.w.w.w.w.w.w.,   D P P $       1 w.w.w.w.w.w.w.w.w.X   L P P .           <.w.w.w.w.w.w.w.w.w.w.w.w.w.w.[   9 P P v                     u w.w.w.w.w.w.w.w.w.a  .w.w.w.w.w.w.w.w.{ * P q                 X 0.w.w.w.w.w.w.w.w.w.w.w.w.w.w.w.w.w.w.w.w.w.w.w.w.w.w.w.w.w.w.w.w.3   o P P P P .   1 w.w.w.w.w.w.w.w.w.<   D P P P P P P P P P P P T w.w.w.w.w.w.w.w.w.w...$ S .           1 w.w.w.w.w.w.w.w.w.<   D P P P P P P P P P P P P P P P P P P P P P P 4 1 w.w.w.w.w.w.w.w.w.<   D P P $ s w.w.w.w.w.w.w.w.w.w.[     $ P P P P M                 . J P P P P J B q 6 * $ # # d w.w.w.w.w.w.w.w.w.k   z P L .                                                                                               ";
"                                                                                                          1 w.w.w.w.w.w.w.w.w.<   D P P $       1 w.w.w.w.w.w.w.w.w.X   L P P .           1 w.w.w.w.w.w.w.w.w.w.w.w.w.w.[   0 P P v                       2.w.w.w.w.w.w.w.w.<.q.w.w.w.w.w.w.w.w.< N P o                 s w.w.w.w.w.w.w.w.w.w.w.w.w.w.w.w.w.w.w.w.w.w.w.w.w.w.w.w.w.w.w.w.w.{     B P P P 8   1 w.w.w.w.w.w.w.w.w.<   D P P P P P P P P P S w 2.w.w.w.w.w.w.w.w.w.w.u N O             1 w.w.w.w.w.w.w.w.w.<   D P P P P P P P P P P P P P P P P P P P P P P 4 1 w.w.w.w.w.w.w.w.w.,   D P P $    .w.w.w.w.w.w.w.w.w.w.1     x P P P P &               4 P P P P P P P P P P P P P E w.w.w.w.w.w.w.w.w.l   b P b                                                                                                 ";
"                                                                                                          1 w.w.w.w.w.w.w.w.w.<   D P P $       1 w.w.w.w.w.w.w.w.w.X   L P P .             ] w.w.w.w.w.w.w.w.w.w.w.w.w.]   9 P P v                       k w.w.w.w.w.w.w.w.w.w.w.w.w.w.w.w.w.:.o P M                   ..w.w.w.w.w.w.w.w.w.w.w.w.w.w.w.w.w.w.w.w.w.w.w.w.w.w.w.w.w.w.w.w.w.8.X   6 P P P V   1 w.w.w.w.w.w.w.w.w.<   A P P P L H D N 9 & 3 8.w.w.w.w.w.w.w.w.w.w.>.7 o               1 w.w.w.w.w.w.w.w.w.<   D P P P P P P P P P P P P P P P P P P P P P P 4 1 w.w.w.w.w.w.w.w.w.<   D P P $   @ 0.w.w.w.w.w.w.w.w.w.<.    . H P P P A               . 7 B P P P P P P P P P P P ! w.w.w.w.w.w.w.w.w.l   S P #                                                                                                 ";
"                                                                                                          1 w.w.w.w.w.w.w.w.w.,   D P P $       1 w.w.w.w.w.w.w.w.w.X   L P P .             X 7.w.w.w.w.w.w.w.w.w.w.w.w.[   9 P P x                       + 0.w.w.w.w.w.w.w.w.w.w.w.w.w.w.w.w.a z P $                 + q.w.w.w.w.w.w.w.w.w.w.w.w.w.w.w.w.w.w.w.w.w.w.w.w.w.w.w.w.w.w.w.w.w.w.i   . J P P P o 1 w.w.w.w.w.w.w.w.w.,                   1  .w.w.w.w.w.w.w.w.w.w.w.w.y .                 1 w.w.w.w.w.w.w.w.w.<                                           V P P 4 1 w.w.w.w.w.w.w.w.w.,   D P P #     j w.w.w.w.w.w.w.w.w.w.l     7 P P P P 6     3 ' +         o 5 z N A D F F D N q } w.w.w.w.w.w.w.w.w.h . P z                                                                                                   ";
"                                                                                                          1 w.w.w.w.w.w.w.w.w.<   D P P $       1 w.w.w.w.w.w.w.w.w.X   L P P .               i w.w.w.w.w.w.w.w.w.w.w.w.[   9 P P v                         { w.w.w.w.w.w.w.w.w.w.w.w.w.w.w.7.X J V                   j w.w.w.w.w.w.w.w.w.1 q P q                         u w.w.w.w.w.w.w.w.w. .    b P P P 0 1 w.w.w.w.w.w.w.w.w.3       X @ 1 a [ >.w.w.w.w.w.w.w.w.w.w.w.w.w.{                     1 w.w.w.w.w.w.w.w.w.<                                           V P P 4 1 w.w.w.w.w.w.w.w.w.<   D P P $       :.w.w.w.w.w.w.w.w.w.0.@     S P P P D     { w.0.| u X                       j w.w.w.w.w.w.w.w.w.w.1 8 B .                                                                                                   ";
"                                                                                                          1 w.w.w.w.w.w.w.w.w.<   D P P $       1 w.w.w.w.w.w.w.w.w.X   L P P .                  .w.w.w.w.w.w.w.w.w.w.w.[   9 P P v                         < w.w.w.w.w.w.w.w.w.w.w.w.w.w.w.l 7 P 4                   :.w.w.w.w.w.w.w.w.2.  D P #                           7.w.w.w.w.w.w.w.w.0.X   4 P P P S 1 w.w.w.w.w.w.w.w.w.w.w.w.w.w.w.w.w.w.w.w.w.w.w.w.w.w.w.w.w.w.w.>.X                     1 w.w.w.w.w.w.w.w.w.w.w.w.w.w.w.w.w.w.w.w.w.w.w.w.w.w.w.w.w.u   V P P 4 1 w.w.w.w.w.w.w.w.w.<   D P P $       < w.w.w.w.w.w.w.w.w.w.|     * P P P P 6 X 8.w.w.w.w.8...l a 3 < , > < i ' 2.w.w.w.w.w.w.w.w.w.w.0.X x .                                                                                                     ";
"                                                                                                          1 w.w.w.w.w.w.w.w.w.,   D P P $       1 w.w.w.w.w.w.w.w.w.X   L P P .                 @ 0.w.w.w.w.w.w.w.w.w.w.[   9 P P x                           o.w.w.w.w.w.w.w.w.w.w.w.w.w.0.+ D D                   , w.w.w.w.w.w.w.w.w.' & P S                             ] w.w.w.w.w.w.w.w.w.h     H P P P r w.w.w.w.w.w.w.w.w.w.w.w.w.w.w.w.w.w.w.w.w.w.w.w.w.w.w.w.w.w.2.@                       1 w.w.w.w.w.w.w.w.w.w.w.w.w.w.w.w.w.w.w.w.w.w.w.w.w.w.w.w.w.u   V P P 4 1 w.w.w.w.w.w.w.w.w.<   D P P $         { w.w.w.w.w.w.w.w.w.w.1     N P P P S i w.w.w.w.w.w.w.w.w.w.w.w.w.w.w.w.w.w.w.w.w.w.w.w.w.w.w.{ $                                                                                                         ";
"                                                                                                          1 w.w.w.w.w.w.w.w.w.<   D P P #       1 w.w.w.w.w.w.w.w.w.X   L P P .                   l w.w.w.w.w.w.w.w.w.w.[   0 P P v                           a w.w.w.w.w.w.w.w.w.w.w.w.w.| 4 P 8                   l w.w.w.w.w.w.w.w.w., z P q                             1 w.w.w.w.w.w.w.w.w.o.    v P P P C w.w.w.w.w.w.w.w.w.w.w.w.w.w.w.w.w.w.w.w.w.w.w.w.w.w.w.w.w.<.@                         1 w.w.w.w.w.w.w.w.w.w.w.w.w.w.w.w.w.w.w.w.w.w.w.w.w.w.w.w.w.u   V P P 4 1 w.w.w.w.w.w.w.w.w.,   D P P #         + 8.w.w.w.w.w.w.w.w.w.:.    $ P P P P @.w.w.w.w.w.w.w.w.w.w.w.w.w.w.w.w.w.w.w.w.w.w.w.w.w.w.0.,                                                                                                           ";
"                                                                                                          1 w.w.w.w.w.w.w.w.w.<                 1 w.w.w.w.w.w.w.w.w.X                             X 2.w.w.w.w.w.w.w.w.w.]                                       2.w.w.w.w.w.w.w.w.w.w.w.w.1                         <.w.w.w.w.w.w.w.w.>.                                      2.w.w.w.w.w.w.w.w.w.@           1 w.w.w.w.w.w.w.w.w.w.w.w.w.w.w.w.w.w.w.w.w.w.w.w.w.w.w.w. .X                           1 w.w.w.w.w.w.w.w.w.w.w.w.w.w.w.w.w.w.w.w.w.w.w.w.w.w.w.w.w.u           1 w.w.w.w.w.w.w.w.w.<   9 z z o           k w.w.w.w.w.w.w.w.w.w.a     6 q z c 0.w.w.w.w.w.w.w.w.w.w.w.w.w.w.w.w.w.w.w.w.w.w.w.w.w.w.'                                                                                                             ";
"                                                                                                          1 w.w.w.w.w.w.w.w.w.<                 1 w.w.w.w.w.w.w.w.w.X                               a w.w.w.w.w.w.w.w.w.[                                       j w.w.w.w.w.w.w.w.w.w.w.o.                        1 w.w.w.w.w.w.w.w.w.k                                       ' w.w.w.w.w.w.w.w.w.j           1 w.w.w.w.w.w.w.w.w.w.w.w.w.w.w.w.w.w.w.w.w.w.w.w.w.w.7.a                               1 w.w.w.w.w.w.w.w.w.w.w.w.w.w.w.w.w.w.w.w.w.w.w.w.w.w.w.w.w.u           1 w.w.w.w.w.w.w.w.w.<                     X <.w.w.w.w.w.w.w.w.w.<.          s w.w.w.w.w.w.w.w.w.w.w.w.w.w.w.w.w.w.w.w.w.w.w.w.w.w...X                                                                                                             ";
"                                                                                                          1 w.w.w.w.w.w.w.w.w.,                 1 w.w.w.w.w.w.w.w.w.X                                 :.w.w.w.w.w.w.w.w.]                                       X 8.w.w.w.w.w.w.w.w.w.w.u                         ' w.w.w.w.w.w.w.w.w.,                                       1 w.w.w.w.w.w.w.w.w.>.          1 w.w.w.w.w.w.w.w.w.w.w.w.w.w.w.w.w.w.w.w.w.w.w.w.2.h X                                 1 w.w.w.w.w.w.w.w.w.w.w.w.w.w.w.w.w.w.w.w.w.w.w.w.w.w.w.w.w.u           1 w.w.w.w.w.w.w.w.w.<                       a w.w.w.w.w.w.w.w.w.w.a         { w.w.w.w.w.w.w.w.w.w.w.w.w.w.w.w.w.w.w.w.w.w.w.w.w. .X                                                                                                               ";
"                                                                                                          1 w.w.w.w.w.w.w.w.w.<                 1 w.w.w.w.w.w.w.w.w.X                                 < w.w.w.w.w.w.w.w.[                                         ' w.w.w.w.w.w.w.w.w.<.                          7.w.w.w.w.w.w.w.w.>.                                          2.w.w.w.w.w.w.w.w.w.>         1 w.w.w.w.w.w.w.w.w.w.w.w.w.w.w.w.w.w.w.w.w.2.[ 3                                       1 w.w.w.w.w.w.w.w.w.w.w.w.w.w.w.w.w.w.w.w.w.w.w.w.w.w.w.w.w.u           1 w.w.w.w.w.w.w.w.w.<                         :.w.w.w.w.w.w.w.w.w.<.        X k 7.w.w.w.w.w.w.w.w.w.w.w.w.w.w.w.w.w.w.w.w.w.8.h                                                                                                                   ";
"                                                                                                          1 w.w.w.w.w.w.w.w.w.<                 1 w.w.w.w.w.w.w.w.w.X                                   { w.w.w.w.w.w.w.[                                         @ q.w.w.w.w.w.w.w.w.h                         3 w.w.w.w.w.w.w.w.w.l                                           ' w.w.w.w.w.w.w.w.w.l         X 3 k | >.2.0.w.w.w.w.w.w.w.q.8.2.:. .' a @                                             1 w.w.w.w.w.w.w.w.w.w.w.w.w.w.w.w.w.w.w.w.w.w.w.w.w.w.w.w.w.u           1 w.w.w.w.w.w.w.w.w.<                         3 w.w.w.w.w.w.w.w.w.w.a             i { 8.w.w.w.w.w.w.w.w.w.w.w.w.w.w.w.w.<.j X                                                                                                                     ";
"                                                                                                                                                                                                                                                                                                                                                                                                                                                                                                                                                                              @ ' l ' ' ' ' l ' l +                           j ' l ' ' ' l ' ' l s                   < s [ ..<.8.0.q.w.0.8.<.o.[ s >                                                                                                                           ";
"                                                                                                                                                                                                                                                                                                                                                                                                                                                                                                                                                                                                                                                                                                                                                                                                                                ";
"                                                                                                                                                                                                                                                                                                                                                                                                                                                                                                                                                                                                                                                                                                                                                                                                                                ";
"                                                                                                                                                                                                                                                                                                                                                                                                                                                                                                                                                                                                                                                                                                                                                                                                                                ";
"                                                                                                                                                                                                                                                                                                                                                                                                                                                                                                                                                                                                                                                                                                                                                                                                                                ";
"                                                                                                                                                                                                                                                                                                                                                                                                                                                                                                                                                                                                                                                                                                                                                                                                                                ";
"                                                                                                                                                                                                                                                                                                                                                                                                                                                                                                                                                                                                                                                                                                                                                                                                                                ";
"                                                                                                                                                                                                                                                                                                                                                                                                                                                                                                                                                                                                                                                                                                                                                                                                                                ";
"                                                                                                                                                                                                                                                                                                                                                                                                                                                                                                                                                                                                                                                                                                                                                                                                                                ";
"                                                                                                                                                                                                                                                                                                                                                                                                                                                                                                                                                                                                                                                                                                                                                                                                                                ";
"                                                                                                                                                                                                                                                                                                                                                                                                                                                                                                                                                                                                                                                                                                                                                                                                                                ";
"                                                                                                                                                                                                                                                                                                                                                                                                                                                                                                                                                                                                                                                                                                                                                                                                                                ";
"                                                                                                                                                                                                                                                                                                                                                                                                                                                                                                                                                                                                                                                                                                                                                                                                                                ";
"                                                                                                                                                                                                                                                                                                                                                                                                                                                                                                                                                                                                                                                                                                                                                                                                                                ";
"                                                                                                                                                                                                                                                                                                                                                                                                                                                                                                                                                                                                                                                                                                                                                                                                                                ";
"                                                                                                                                                                                                                                                                                                                                                                                                                                                                                                                                                                                                                                                                                                                                                                                                                                ";
"                                                                                                                                                                                                                                                                                                                                                                                                                                                                                                                                                                                                                                                                                                                                                                                                                                ";
"                                                                                                                                                                                                                                                                                                                                                                                                                                                                                                                                                                                                                                                                                                                                                                                                                                ";
"                                                                                                                                                                                                                                                                                                                                                                                                                                                                                                                                                                                                                                                                                                                                                                                                                                ";
"                                                                                                                                                                                                                                                                                                                                                                                                                                                                                                                                                                                                                                                                                                                                                                                                                                ";
"                                                                                                                                                                                                                                                                                                                                                                                                                                                                                                                                                                                                                                                                                                                                                                                                                                ";
"                                                                                                                                                                                                                                                                                                                                                                                                                                                                                                                                                                                                                                                                                                                                                                                                                                ";
"                                                                                                                                                                                                                                                                                                                                                                                                                                                                                                                                                                                                                                                                                                                                                                                                                                ";
"                                                                                                                                                                                                                                                                                                                                                                                                                                                                                                                                                                                                                                                                                                                                                                                                                                ";
"                                                                                                                                                                                                                                                                                                                                                                                                                                                                                                                                                                                                                                                                                                                                                                                                                                ";
"                                                                                                                                                                                                                                                                                                                                                                                                                                                                                                                                                                                                                                                                                                                                                                                                                                ";
"                                                                                                                                                                                                                                                                                                                                                                                                                                                                                                                                                                                                                                                                                                                                                                                                                                ";
"                                                                                                                                                                                                                                                                                                                                                                                                                                                                                                                                                                                                                                                                                                                                                                                                                                ";
"                                                                                                                                                                                                                                                                                                                                                                                                                                                                                                                                                                                                                                                                                                                                                                                                                                ";
"                                                                                                                                                                                                                                                                                                                                                                                                                                                                                                                                                                                                                                                                                                                                                                                                                                ";
"                                                                                                                                                                                                                                                                                                                                                                                                                                                                                                                                                                                                                                                                                                                                                                                                                                ";
"                                                                                                                                                                                                                                                                                                                                                                                                                                                                                                                                                                                                                                                                                                                                                                                                                                ";
"                                                                                                                                                                                                                                                                                                                                                                                                                                                                                                                                                                                                                                                                                                                                                                                                                                ";
"                                                                                                                                                                                                                                                                                                                                                                                                                                                                                                                                                                                                                                                                                                                                                                                                                                ";
"                                                                                                                                                                                                                                                                                                                                                                                                                                                                                                                                                                                                                                                                                                                                                                                                                                ";
"                                                                                                                                                                                                                                                                                                                                                                                                                                                                                                                                                                                                                                                                                                                                                                                                                                ";
"                                                                                                                                                                                                                                                                                                                                                                                                                                                                                                                                                                                                                                                                                                                                                                                                                                ";
"                                                                                                                                                                                                                                                                                                                                                                                                                                                                                                                                                                                                                                                                                                                                                                                                                                ";
"                                                                                                                                                                                                                                                                                                                                                                                                                                                                                                                                                                                                                                                                                                                                                                                                                                ";
"                                                                                                                                                                                                                                                                                                                                                                                                                                                                                                                                                                                                                                                                                                                                                                                                                                ";
"                                                                                                                                                                                                                                                                                                                                                                                                                                                                                                                                                                                                                                                                                                                                                                                                                                ";
"                                                                                                                                                                                                                                                                                                                                                                                                                                                                                                                                                                                                                                                                                                                                                                                                                                ";
"                                                                                                                                                                                                                                                                                                                                                                                                                                                                                                                                                                                                                                                                                                                                                                                                                                ";
"                                                                                                                                                                                                                                                                                                                                                                                                                                                                                                                                                                                                                                                                                                                                                                                                                                "]%xpm.

End Title.

(** messages.h: the two messages the program draws *)
Module Messages.

Definition message1 : xpm_map := [
"327 35 109 2 ";
"   c #000000";
".  c #040300";
"X  c #060500";
"o  c #090700";
"O  c #0B0900";
"+  c #0C0A00";
"@  c #0F0C00";
"#  c #100D00";
"$  c #131000";
"%  c #141000";
"&  c #181400";
"*  c #1C1700";
"=  c #1D1800";
"-  c #201A00";
";  c #231D00";
":  c #251F00";
">  c #262000";
",  c #272000";
"<  c #292200";
"1  c #2B2400";
"2  c #2D2500";
"3  c #2F2700";
"4  c #312900";
"5  c #332B00";
"6  c #342B00";
"7  c #372E00";
"8  c #382F00";
"9  c #393000";
"0  c #3D3300";
"q  c #3F3500";
"w  c #413600";
"e  c #423700";
"r  c #443900";
"t  c #473B00";
"y  c #493D00";
"u  c #4D4000";
"i  c #524500";
"p  c #554700";
"a  c #574900";
"s  c #584A00";
"d  c #5B4C00";
"f  c #5D4E00";
"g  c #5F5000";
"h  c #605000";
"j  c #635300";
"k  c #665600";
"l  c #6A5900";
"z  c #6D5B00";
"x  c #6F5D00";
"c  c #715F00";
"v  c #746100";
"b  c #776400";
"n  c #786500";
"m  c #7B6700";
"M  c #7C6800";
"N  c #806B00";
"B  c #816C00";
"V  c #846F00";
"C  c #877100";
"Z  c #887200";
"A  c #8E7700";
"S  c #8F7800";
"D  c #917A00";
"F  c #947C00";
"G  c #988000";
"H  c #9C8300";
"J  c #9D8400";
"K  c #A08600";
"L  c #A38900";
"P  c #A68B00";
"I  c #A78C00";
"U  c #A88D00";
"Y  c #AB9000";
"T  c #AC9100";
"R  c #AF9300";
"E  c #B09400";
"W  c #B49700";
"Q  c #B79A00";
"!  c #B99B00";
"~  c #BC9E00";
"^  c #BFA100";
"/  c #C2A300";
"(  c #C3A400";
")  c #C5A600";
"_  c #C7A700";
"`  c #CAAA00";
"'  c #CBAB00";
"]  c #CEAD00";
"[  c #D0AF00";
"{  c #D3B100";
"}  c #D4B200";
"|  c #D7B500";
" . c #D8B600";
".. c #DBB800";
"X. c #DEBB00";
"o. c #DFBC00";
"O. c #E1BD00";
"+. c #E3BF00";
"@. c #E4C000";
"#. c #E8C300";
"$. c #EBC600";
"%. c #ECC600";
"&. c #EEC800";
"*. c #F0CA00";
"=. c #F1CB00";
"-. c #F5CE00";
";. c #F7D000";
":. c #FBD300";
">. c #FFD700";
"                                                                                                                                                                                                                                                                                                                                                                                                                                                                                                                                                                                                                                                                              ";
"                                                                                                                                                                                                                                                                                                                                                                                                                                                                                                                                                                                                                                                                              ";
"                                                                                                                                                                                                                                                                                                                                                                                                                                                                                                                                                                                                                                                                              ";
"                                                                                                                                                                                                                                                                                                                                                                                                                                                                                                                                                                                                                                                                              ";
"                                                                                                                                                                                                                                                                                                                                                                                                                                                                                                                                                                                                                                                                              ";
"                                                                                                                                                                                                                                                                                                                                                                                                                                                                                                                                                                                                                                                                              ";
"                                                                                                                                                                                                                                                                                                                                                                                                                                                                                                                                                                                                                                                                              ";
"                                                                                                                                                                                                                                                                                                                                                                                                                                                                                                                                                                                                                                                                              ";
"                                                                          *.>..                                         =.:.                                                                                                                                                                                                                                                                                                                                                                                                                                                                                                                                                  ";
"                                                  % b ( $.:.$.{ U i o     *.>..       ` } +                             *.>.                                  L >.>.>.>.>.>.>.>.#.      L >.O.+               - >.~     ` >.>.>.>.>.>.>.>.>.>.>.>.#   L >.>.>.>.>.>.>.>.$.      P >.>.>.>.:.#.^ x O                                                                                                                                                                                   ` } +                                                                                                                                                                                   ";
"                                                p *.>.>.@.] o.:.>.>.2     *.>..     + >.>.,                             &.:.                                  P >. .) ( ) ( ( ) E       I >.>.G               - >.~     G ) ) ( )  .>.$.) ) ( ) ) O   I >. .) ( ( ) ) ( E       P >.{ ~ ~ ( o.>.>. .*                     = >.<                                                                                                                                       = >.,         + >.>.,                                                                                                                                                                                   ";
"                      O <                     c >.>.G ;       X y x       *.>..       h z                               *.>.                                  L >.s                     L >.-.>.e             - >.~               f >.K               I >.s                     L >.s         1 { >.E                     z >.,                                                                                                                                       x >.<           h z                                                                                                                                                         6                           ";
"                  + n $.M                   4 :.>.f                       *.>..                                         *.:.                                  L >.s                     P >.v >.X.O           - >.~               f >.K               P >.s                     L >.s           < >.>.+                 o ^ >.,                                                                                                                                     X / >.:                                                                                                                                                                       ` ] i                       ";
"              + n %.>.^ 4                   Q >.F                         *.>..       *.>..         X l ( &.:.o.Q r     *.>.        o / >.B                   P >.s                     L >.= ! >.S           - >.~               d >.J               L >.s                     P >.s             $.>.2               g $.>.>.>.>.>.O.      X l ) &.:.o.G :                           X l ) %.;.X.Q r       X l ( &.:.o.H :             *.~   l ) *.:.o.F %       g $.>.>.>.>.>.O.    *.>..       *.~   k ) *.>.o.F %         % >.@.            y >.T           X x ] -.-.] c X                                                                   f o.>.{ p                   ";
"          @ M &.>.E 7                     % :.>.*                         *.>..       *.>..       # ) >.:.] ( o.>.i     &.:.      X Q >.F                     P >.s                     P >.< - =.>.9         - >.~               f >.K               P >.s                     L >.s             &.>.-               i B @.>.F N N c     @ ) >.*.Q U } >.-.u                       # ) >.>.` / o.>.i     @ ) >.*.Q T } >.=.u           *.%.E *.G c M ` >...#     i B @.>.F N N c     *.>..       *.%.E *.G c B ` >.o.+       % >.@.            y >.T         + / >.$.E Q %.>.~ X                                                                   . f } >.{ a               ";
"      # B &.:.K <                         p >.{                           *.>..       *.>..       P >.^ &       ; X     *.>.      I >.L                       L >.s                     L >.2   x >.} o       - >.~               f >.K               L >.s                     L >.s           7 >.$.                    ` >.<           P >.T #       i ;.-.;                     I >.~ &       ; X     P >.T +       i >.*.:         *.>.@.-         Q >.v         ] >.<           *.>..       *.>.@.=         Q >.v       % >.@.            r >.T         G >.G X     # ^ >.B                                                                         u ` >.} d           ";
"  # B *.-.D =                             x >.U                           *.>..       *.>..     : >.%.#                 *.>.    G >.R X                       L >.} ^ / / ^ ^ / a       L >.4     / >.Z       - >.~               f >.K               L >.} ( ^ / ^ ^ / a       P >.a         < } >.x                     ` >.<         , >.$.O           M >.J                   : >.&.#               , >.#.O           M >.H         *.>.z           y >.T         ] >.,           *.>..       *.>.x           y >.E       % >.@.            y >.T       = >.} X         < >.%.                                                                            e ~ >. .f X     ";
"  ) >.` &                                 B >.J                           *.>..       *.>..     x >.G                   *.:.  C >.~ X                         P >.>.>.>.>.>.>.>.v       P >.7     : -.>.4     - >.~               d >.K               P >.>.>.>.>.>.>.>.v       L >.] Q Q ! } >.:.b                       ] >.,         x >.G             & >.$.                  x >.G                 x >.F             & >.$.        *.>.<           < >.`         ` >.<           *.>..       *.>.,           < >.)       % >.@.            t >.T       l >.Z             *.>.,                                                                               e %.>.b     ";
"  s { >.@.M &                             n >.U                           *.>..       *.>..     F >.x                   *.*.g >.=.@                           L >.s                     L >.6       v >.{ X   - >.~               d >.K               P >.a                     L >.>.>.>.>.>.=.=                         ` >.<         F >.l               %.>.%                 F >.x                 F >.x               &.>.%       *.>.O           : >.]         ] >.<           *.>..       *.>.O           ; >.`       % >.@.            y >.T       F >.>.>.>.>.>.>.>.>.>.7                                                                           2 F -.>.E 2     ";
"      r E >.:.U 0                         h >.`                           *.>..       *.>..     P >.g                   *.;.-.:.>.M                           L >.s                     L >.6         ` >.B   = >.~               f >.K               L >.a                     P >.s       ) >.v                         ] >.,         P >.g               O.>.:                 P >.h                 P >.g               O.>.:       *.>..           ; >.`         ] >.,           *.>..       *.>.            , >.]       % >.@.            r >.T       L >.^ F F F F F F F F =                                                                     X s ) >.*.F :         ";
"          : F -.>.{ k O                   < >.:.$                         *.>..       *.>..     G >.z                   *.>.T < *.>.q                         P >.s                     P >.4         2 :.:.2 % >.~               d >.K               L >.s                     L >.s       4 >.&.&                       ] >.:         S >.z               &.>.%                 G >.l                 S >.l               %.>.%       *.>..           ; >.]         ] >.,           *.>.X       *.>.X           , >.]       % >.O.            i >.T       G >.v                                                                                   = V $.>.X.v #             ";
"              + v O.>.*.p                    .>.B                         *.>..       *.>..     v >.G                   *.>.    a >.@.%                       P >.s                     L >.7           n >.] # >.~               f >.K               P >.s                     L >.s         G >.T                       ] >.<         l >.G             & >.%.                  v >.G                 l >.G             & >.%.        *.>..           : >.]         ` >.<           *.>.X       *.>.X           ; >.'       # >.@.            x >.T       x >.I                                                                                 D >.>./ i                   ";
"                    i ( n                   h >.:.e                       *.>..       *.>..     2 >.$.@                 *.:.      G >.!                       L >.s                     L >.6           X ] >.n >.!               f >.K               L >.s                     P >.s         $ $.>.r                     ^ >.8         & >.$.+           n >.K                   2 >.$.@               & >.$.@           M >.K         *.>..           ; >.`         ^ >.8           *.>.        *.>.            , >.]         :.>.O           R >.T       : >.:.-                                 o %         o %         O %                   / K 4                       ";
"                        +                     E >.:.B &         & 9       *.>..       *.>.X       E >.E #       % -     *.>.      O { >.n                     P >.s                     P >.6             2 :.:.>.~               d >.K               P >.s                     L >.s           l >.o.o                   G >.S           D >.W @       u ;.;.<                     E >.E #       % -     F >.E @       u ;.-.<         *.>..           : >.]         G >.S           *.>.X       *.>.X           ; >.]         ^ >.c         r >.>.T         J >.} <         7 u                 + @.>.p     + @.>.a     + @.>.a                 O                           ";
"                                              X J >.>.>.o.` { $.>.)       *.>..       *.>.X       % { >.-./ ! } >.c     *.:.        < ;.>.9                   L >. .) ( ) ( ) ( E       P >.6               C >.>.^               d >.K               P >. .) ( ) ( ) ( E       L >.s             ] >.M                   2 >.>./ J W     o W >.*.E I ] >.:.p                       % { >.-.( ! } >.x     O E >.*.E I ] >.:.i           *.>.X           : >.]         2 >.>.^ J Q     *.>.X       *.>.            : >.`         0 :.>.U c c U >.J >.T         O Q >.>.{ E ` $.>.U                 4 >.>.D     2 >.>.F     2 >.>.D                                             ";
"                                                  4 F } &.:.%. .I i       *.>..       *.>.          O v ` *.:.O.U 2     *.>.          h >.O.%                 P >.>.>.>.>.>.>.>.#.      P >.6               X { >.!               f >.K               L >.>.>.>.>.>.>.>.$.      P >.s             9 >.:.:                   e ( &.-.)         f / $.:.O.G ,                           O v ` *.:.O.T 2         h / $.:.O.H ,             *.>.            : >.`           e / &.-.)     *.>.        *.>.X           ; >.]           7 T $.:.$.Q y o >.T             s ~ %.>.=.{ A 2                 o ` %.q     o ` %.q     o ` %.e                                             ";
"                                                                                                                                                                                                                                                                                                                                                                                                                                                                                                                                                                                                                                                                              ";
"                                                                                                                                                                                                                                                                                                                                                                                                                                                                                                                                                                                                                                                                              ";
"                                                                                                                                                                                                                                                                                                                                                                                                                                                                                                                                                                                                                                                                              ";
"                                                                                                                                                                                                                                                                                                                                                                                                                                                                                                                                                                                                                                                                              ";
"                                                                                                                                                                                                                                                                                                                                                                                                                                                                                                                                                                                                                                                                              ";
"                                                                                                                                                                                                                                                                                                                                                                                                                                                                                                                                                                                                                                                                              ";
"                                                                                                                                                                                                                                                                                                                                                                                                                                                                                                                                                                                                                                                                              ";
"                                                                                                                                                                                                                                                                                                                                                                                                                                                                                                                                                                                                                                                                              ";
"                                                                                                                                                                                                                                                                                                                                                                                                                                                                                                                                                                                                                                                                              "]%xpm.

Definition message4 : xpm_map := [
"107 35 99 2 ";
"   c #000000";
".  c #040300";
"X  c #050400";
"o  c #080600";
"O  c #0A0800";
"+  c #0C0A00";
"@  c #0F0C00";
"#  c #100D00";
"$  c #151100";
"%  c #161200";
"&  c #181400";
"*  c #1D1800";
"=  c #201A00";
"-  c #221C00";
";  c #241E00";
":  c #272000";
">  c #282100";
",  c #2B2400";
"<  c #2F2700";
"1  c #332B00";
"2  c #362D00";
"3  c #382F00";
"4  c #3A3000";
"5  c #3C3200";
"6  c #3F3500";
"7  c #423700";
"8  c #433800";
"9  c #443900";
"0  c #4A3E00";
"q  c #4B3F00";
"w  c #4E4100";
"e  c #534500";
"r  c #544600";
"t  c #574900";
"y  c #594B00";
"u  c #5B4C00";
"i  c #5C4D00";
"p  c #625200";
"a  c #635300";
"s  c #675600";
"d  c #685700";
"f  c #6B5A00";
"g  c #6C5B00";
"h  c #6D5B00";
"j  c #705E00";
"k  c #736000";
"l  c #746100";
"z  c #796600";
"x  c #7E6A00";
"c  c #7F6B00";
"v  c #836E00";
"b  c #857000";
"n  c #897300";
"m  c #8B7500";
"M  c #8E7700";
"N  c #937B00";
"B  c #947C00";
"V  c #977F00";
"C  c #988000";
"Z  c #9A8100";
"A  c #9D8400";
"S  c #9F8600";
"D  c #A08600";
"F  c #A38900";
"G  c #A68B00";
"H  c #AA8F00";
"J  c #AB9000";
"K  c #AF9300";
"L  c #B09400";
"P  c #B49700";
"I  c #B69900";
"U  c #B99B00";
"Y  c #BB9D00";
"T  c #BC9E00";
"R  c #BD9F00";
"E  c #C2A300";
"W  c #C3A400";
"Q  c #C4A500";
"!  c #C8A800";
"~  c #CBAB00";
"^  c #CFAE00";
"/  c #D2B100";
"(  c #D5B300";
")  c #D7B500";
"_  c #D9B600";
"`  c #DBB800";
"'  c #DEBB00";
"]  c #E2BE00";
"[  c #E5C100";
"{  c #E8C300";
"}  c #EAC500";
"|  c #EDC700";
" . c #EFC900";
".. c #F0CA00";
"X. c #F2CC00";
"o. c #F5CE00";
"O. c #F7D000";
"+. c #FBD300";
"@. c #FFD700";
"                                                                                                                                                                                                                      ";
"                                                                                                                                                                                                                      ";
"                                                                                                                                                                                                                      ";
"                                                                                                                                                                                                                      ";
"                                                                                                                                                                                                                      ";
"                                                                                                                                                                                                                      ";
"                                                                                                                                                                                                                      ";
"                                                                                                                                                                                                                      ";
"                                                                                                                                                                                                                      ";
"~ @.@.@.@.@.@.@.@.@.@.@.@.#                                                                                                                                       ~ _ +                                     +.@.s     ";
"V W Q Q Q _ @.} Q Q Q Q Q +                                                                                                                                     O @.@.;                                     | @.y     ";
"          i @.D                                                                                                                                                   a h                                       ] @.0     ";
"          i @.D                                                                                                                                                                                             _ @.8     ";
"          i @.D             ..I   < L  .X.y Q @.0             1 @.]                   7 F ' +.o./ z X           i W ..@.@.@.@.@.@.V       8 G ' +.o./ z X         ..@..       ..T   s Q  .+.' N %           ~ @.1     ";
"          i @.D             ..~ 3 ..O.^ ` 5 a @.J             m @.b                 9 @.o.Q G P X.@.K         V @.' v k F @.@.W V 9     8 @.o.Q G P o.@.J         ..@..       ..| L ..Z j c ~ @.' @         T @.:     ";
"          i @.D             ..} ] J #       O ..+.%           ] @.:                   e +       * | @.:     1 @.' O       i @.D           w O       * | @.:       ..@.X       ..@.[ =         I @.l         L @.&     ";
"          i @.D             ..@.Q .           Z @.f         6 @.~                                 Z @.y     l @.v           +.o.                      Z @.y       ..@..       ..@.h           0 @.L         G @.#     ";
"          i @.D             ..@.0             2 @.~         Z @.s                           X O # n @.s     c @.j           | @.X               X # # n @.s       ..@..       ..@.>           > @.Q         Z @.      ";
"          i @.D             ..@.#               / @.,     . | +.+                   O k Q ..@.@.@.@.@.d     r @.K         > @.(         + j Q ..@.@.@.@.@.d       ..@..       ..@.O           ; @.~         m o.      ";
"          i @.D             ..@.X               h @.m     w @.H                   % ) @.Q l w 8 6 H @.d     X ) @.N 1 - w ( @.r       % ) @.Q k 0 7 6 H @.d       ..@..       ..@.X           ; @.^         c }       ";
"          i @.D             ..@..               # O.[ .   G @.0                   C @.A           M @.d       = Q @.@.@.@.] r         V @.D           M @.d       ..@..       ..@..           ; @.~         k '       ";
"          i @.D             ..@..                 G @.9 O X.} .                   ) @.2           H @.d       * ] L 4 8 >             ) @.2           H @.d       ..@..       ..@..           ; @.^         - 0       ";
"          i @.D             ..@..                 7 @.Z e @.M                     _ @.2         +  .@.s       K o.+                   _ @.2         +  .@.d       ..@..       ..@..           ; @.~         O &       ";
"          i @.D             ..@..                   _ [ F @.<                     J @.C       @ U @.@.s       ^ O.#                   J @.C       # Y @.@.d       ..@..       ..@..           ; @.^       @ [ @.t     ";
"          i @.D             ..@..                   z @.+.^                       2 +.@.^ A K X._ s @.d       c @. .E T T K N 4       1 +.@.^ A L .._ s @.d       ..@..       ..@.X           ; @.~       < @.@.N     ";
"          i @.D             ..@..                   & +.@.j                         2 U ..+.` M + = @.d     . f X.@.@.@.@.@.@.@.Z       2 U ..+.' M + = @.d       ..@..       ..@.X           ; @.~       o ~  .6     ";
"                                                      } @.%                                               . E o.s %       + 8 [ @.1                                                                                   ";
"                                                    0 @.P                                                 u @.n               m @.a                                                                                   ";
"                                                    I @.w                                                 v @.a               Z @.w                                                                                   ";
"                                                  a @./                                                   a @.Y X           r +.{ O                                                                                   ";
"                                            N F ~ @.o.1                                                   X W @.[ Z v v A _ @.} 4                                                                                     ";
"                                            K X.{ K ,                                                       X h E  .@.o.] Y j +                                                                                       ";
"                                                                                                                                                                                                                      ";
"                                                                                                                                                                                                                      ";
"                                                                                                                                                                                                                      "]%xpm.

End Messages.
