(* ===== verification/SpritesSpare.v ===== *)
(** * src/xpm: the pixmaps that no function draws

    The punctuation of special_char.h, which main.c includes, and the three messages of messages.h
    that the menu does not use, kept beside the others so that the whole of src/xpm is here. *)

From S2P Require Import Prelude Xpm.

(** special_char.h *)
Module Special.

Definition points : xpm_map := [
"20 35 15 1 ";
"  c #000000";
". c #080808";
"X c #0D0D0D";
"o c #131313";
"O c #161616";
"+ c #2F2F2F";
"@ c #3F3F3F";
"# c #444444";
"$ c #525252";
"% c #555555";
"& c #929292";
"* c #CBCBCB";
"= c #E6E6E6";
"- c #ECECEC";
"; c #FFFFFF";
"                    ";
"                    ";
"                    ";
"                    ";
"                    ";
"                    ";
"                    ";
"                    ";
"                    ";
"                    ";
"                    ";
"                    ";
"                    ";
"        .*-#        ";
"        +;;&        ";
"        X=;$        ";
"         .o         ";
"                    ";
"                    ";
"                    ";
"                    ";
"                    ";
"         .O         ";
"        X=;%        ";
"        +;;&        ";
"        .*-@        ";
"                    ";
"                    ";
"                    ";
"                    ";
"                    ";
"                    ";
"                    ";
"                    ";
"                    "]%xpm.

Definition bar : xpm_map := [
"20 35 26 1 ";
"  c #000000";
". c #050505";
"X c #0B0B0B";
"o c #161616";
"O c #171717";
"+ c #212121";
"@ c #323232";
"# c #343434";
"$ c #3F3F3F";
"% c #515151";
"& c #5F5F5F";
"* c #727272";
"= c #808080";
"- c #919191";
"; c #949494";
": c #9F9F9F";
"> c #B1B1B1";
", c #BFBFBF";
"< c #D1D1D1";
"1 c #D3D3D3";
"2 c #DEDEDE";
"3 c #EBEBEB";
"4 c #ECECEC";
"5 c #F3F3F3";
"6 c #FAFAFA";
"7 c #FFFFFF";
"                    ";
"                    ";
"                    ";
"                    ";
"                    ";
"                    ";
"                    ";
"                    ";
"                    ";
"           -7&      ";
"          .35X      ";
"          %7:       ";
"          >7$       ";
"         o62        ";
"         *7=        ";
"         <7+        ";
"        @7,         ";
"        -7&         ";
"       .45X         ";
"       %7:          ";
"       >7%          ";
"      O72           ";
"      *7=           ";
"      <7+           ";
"     #7,            ";
"     ;7&            ";
"                    ";
"                    ";
"                    ";
"                    ";
"                    ";
"                    ";
"                    ";
"                    ";
"                    "]%xpm.

Definition point : xpm_map := [
"20 35 12 1 ";
"  c #000000";
". c #080808";
"X c #0D0D0D";
"o c #161616";
"O c #2F2F2F";
"+ c #3F3F3F";
"@ c #555555";
"# c #929292";
"$ c #CACACA";
"% c #E6E6E6";
"& c #ECECEC";
"* c #FFFFFF";
"                    ";
"                    ";
"                    ";
"                    ";
"                    ";
"                    ";
"                    ";
"                    ";
"                    ";
"                    ";
"                    ";
"                    ";
"                    ";
"                    ";
"                    ";
"                    ";
"                    ";
"                    ";
"                    ";
"                    ";
"                    ";
"                    ";
"         .o         ";
"        X%*@        ";
"        O**#        ";
"        .$&+        ";
"                    ";
"                    ";
"                    ";
"                    ";
"                    ";
"                    ";
"                    ";
"                    ";
"                    "]%xpm.

Definition sub : xpm_map := [
"20 35 6 1 ";
"  c #000000";
". c #040404";
"X c #8F8F8F";
"o c #BCBCBC";
"O c #C4C4C4";
"+ c #FFFFFF";
"                    ";
"                    ";
"                    ";
"                    ";
"                    ";
"                    ";
"                    ";
"                    ";
"                    ";
"                    ";
"                    ";
"                    ";
"                    ";
"                    ";
"                    ";
"                    ";
"                    ";
"                    ";
"       OOOOOX       ";
"      .+++++o       ";
"                    ";
"                    ";
"                    ";
"                    ";
"                    ";
"                    ";
"                    ";
"                    ";
"                    ";
"                    ";
"                    ";
"                    ";
"                    ";
"                    ";
"                    "]%xpm.

End Special.

(** messages.h *)
Module SpareMessages.

Definition message2 : xpm_map := [
"401 35 116 2 ";
"   c #000000";
".  c #040300";
"X  c #050400";
"o  c #080600";
"O  c #0A0800";
"+  c #0C0A00";
"@  c #0F0C00";
"#  c #120F00";
"$  c #131000";
"%  c #161200";
"&  c #1A1500";
"*  c #1C1700";
"=  c #1D1800";
"-  c #201A00";
";  c #221C00";
":  c #231D00";
">  c #272000";
",  c #282100";
"<  c #2B2400";
"1  c #2F2700";
"2  c #302800";
"3  c #322A00";
"4  c #332B00";
"5  c #352C00";
"6  c #372E00";
"7  c #382F00";
"8  c #3A3000";
"9  c #3D3300";
"0  c #403500";
"q  c #433800";
"w  c #443900";
"e  c #483C00";
"r  c #4A3E00";
"t  c #4B3F00";
"y  c #4C4000";
"u  c #4F4200";
"i  c #504300";
"p  c #534500";
"a  c #554700";
"s  c #574900";
"d  c #5A4B00";
"f  c #5B4C00";
"g  c #5C4D00";
"h  c #5F5000";
"j  c #635300";
"k  c #675600";
"l  c #685700";
"z  c #6B5A00";
"x  c #6D5B00";
"c  c #6E5C00";
"v  c #715F00";
"b  c #726000";
"n  c #766300";
"m  c #7B6700";
"M  c #7C6800";
"N  c #7F6B00";
"B  c #806B00";
"V  c #816C00";
"C  c #846F00";
"Z  c #857000";
"A  c #897300";
"S  c #8C7600";
"D  c #8F7800";
"F  c #907900";
"G  c #947C00";
"H  c #967E00";
"J  c #977F00";
"K  c #988000";
"L  c #9C8300";
"P  c #9F8600";
"I  c #A18700";
"U  c #A38900";
"Y  c #A68B00";
"T  c #A78C00";
"R  c #AA8F00";
"E  c #AB9000";
"W  c #AD9100";
"Q  c #AF9300";
"!  c #B09400";
"~  c #B29600";
"^  c #B49700";
"/  c #B69900";
"(  c #B89B00";
")  c #B99B00";
"_  c #BC9E00";
"`  c #BFA100";
"'  c #C0A100";
"]  c #C3A400";
"[  c #C7A700";
"{  c #CAAA00";
"}  c #CBAB00";
"|  c #CCAC00";
" . c #CEAD00";
".. c #D0AF00";
"X. c #D1B000";
"o. c #D4B200";
"O. c #D7B500";
"+. c #D8B600";
"@. c #DBB800";
"#. c #DDBA00";
"$. c #DFBC00";
"%. c #E0BC00";
"&. c #E3BF00";
"*. c #E4C000";
"=. c #E7C200";
"-. c #E8C300";
";. c #E9C400";
":. c #EDC700";
">. c #EEC800";
",. c #F1CB00";
"<. c #F2CC00";
"1. c #F6CF00";
"2. c #F7D000";
"3. c #F9D100";
"4. c #FCD400";
"5. c #FFD700";
"                                                                                                                                                                                                                                                                                                                                                                                                                                                                                                                                                                                                                                                                                                                                                                                                                                  ";
"                                                                                                                                                                                                                                                                                                                                                                                                                                                                                                                                                                                                                                                                                                                                                                                                                                  ";
"                                                                                                                                                                                                                                                                                                                                                                                                                                                                                                                                                                                                                                                                                                                                                                                                                                  ";
"                                                                                                                                                                                                                                                                                                                                                                                                                                                                                                                                                                                                                                                                                                                                                                                                                                  ";
"                                                                                                                                                                                                                                                                                                                                                                                                                                                                                                                                                                                                                                                                                                                                                                                                                                  ";
"                                                                                                                                                                                                                                                                                                                                                                                                                                                                                                                                                                                                                                                                                                                                                                                                                                  ";
"                                                                                                                                                                                                                                                                                                                                                                                                                                                                                                                                                                                                                                                                                                                                                                                                                                  ";
"                                                                                                                                                                                                                                                                                                                                                                                                                                                                                                                                                                                                                                                                                                                                                                                                                                  ";
"                                                                                                                                                                                                                                                                                                                          >.5.                                                                                                                                                                                                                      ,.5..                                                                                                                                                                                                             ,.5..                                                       ";
"S 5.S             1 5.5.8             d 5.'                         { +.+                                                                                                                                                                                                               { o.+                             ,.5.                                                                                                                                                                  X o.1.=     $ n ' :.5.>.[ c X                       ,.5..                                                                                                                                                                                                             ,.5..                           # ;.%.@                     ";
"r 5. .            m 5.5.A             H 5.M                       + 5.5.>       = 5.,                                                                                                                                                                                                 + 5.5.,                             >.3.                                                                                                                                                                  A 5.n     g 1.5.>.' W [ 3.5.{ +                     >.5..                                 = 5.,           = 5.,                                                                                                                                                       ,.5..                             f 5.U                     ";
"O 3.5.$           [ 1.<.+.            #.5.6                         j x         c 5.,                                                                                                                                                                                                   j x                               >.5.                                                                                                                                                                : 5.@..     6 ) r         - +.5.V                     ,.5..                                 c 5.,           c 5.,                                                                                                                                                       >.5..                               [ 5.9                   ";
"  ' 5.p         # 5.[ ) 5.>         = 5.,.                                    o ' 5.>                                                                                                                                                                                                                                     ,.3.                                                                                                                                                                H 5.b                       s 5.'                     ,.5..                               X ' 5.:         X ' 5.,                                                                                                                                                       ,.5..                               d 5.W                   ";
"  m 5.H         h 5.A b 5.n         k 5.W       ,./   < W >.<.d     ,.5..   g ;.5.5.5.5.5.%.      X c  .1.1. .c X                 [ 5.r             3 5.%.      . z ] >.3.$.H :           % 5.%.            r 5.W         <./   1 W >.<.g                 ,.)   k [ <.3.#.H %           ,.5..         X z ] >.3.#./ w     ,.5.        o ] 5.V       ,._   k [ >.3.#.F %             0 Y $.3.1.X.m X         ,.) . v ..1.,.{ j     l { <.3.o.b             X v  .<.1. .c X                   + <.1.$                       r 5.~                     >.5..         X c  .<.1.{ v X     h ;.5.5.5.5.5.$.h -.5.5.5.5.5.%.      X b { 1.1.{ b X         ,./   < ~ >.,.d     & S o.>.<.+.Y s                     X z ] >.3.$.L :             ,._   k { ,.3.#.F %           >.5..   [ 5.r             3 5.%.    X ;.5.=     X { >.w     ";
"  6 5.+.        E 5.0 > 5.[         I 5.z       ,. .8 <.3. .#.9     ,.5..   p B =.5.H V V b     O ' 5.=.~ / >.5._ X               j 5.E             S 5.Z     @ [ 5.,./ E o.5.2.i         # 5.;.            r 5.W         >.{ 8 <.3. .#.8                 ,.:.W <.K b M { 5.#.@         ,.5.        # [ 5.3. .' $.5.p     ,.3.      X / 5.H         >.:.~ ,.K v V { 5.#.@         w 5.1.[ Y ^ <.5.E         >.:.~ =.S c H 1.5.M / ,.H c A =.5.F         + ' 5.-.~ ) :.5._ X                 u 5.)                         W 5.x                     ,.5..       + ' 5.=.~ / >.5._ X   p V =.5.H M V v p B =.5.H B B b     + ' 5.=.~ / :.5._ X       >. .8 <.2. .@.9   , >.5. .R ~ O.5.{                   @ [ 5.,./ E o.5.1.u           ,.:.W 1.K v M  .5.+.@         ,.5..   j 5.E             S 5.Z       I 5.x     3 5.5.F     ";
"    >.5.&     X ,.,.X   O.5.%       #.5.:       :.;.$.R #           >.5..        .5.:           K 5.P o     # ` 5.V               O <.3.#           =.5.>     Y 5.W +       p 2.1.:       % 5.%.            w 5.W         <.;.%.R #                       >.5.=.=         / 5.b         ,.5.X       Y 5.` &       : X     >.5.      R 5.I           ,.5.=.=         / 5.n           u O       = :.5.,       ,.5.#.#       q 5.5.>.:       = 1.3.%       K 5.L o     # ` 5.V                 S 5.M                 . * p [ 5.E                       ,.5..       K 5.P o     # ` 5.V        .5.>           { 5.,           K 5.P O     # ` 5.V       >.;.%.R #         P 5.k         * ,                   Y 5.~ +       p 1.1.:         >.5.-.=         / 5.n         ,.5..   O <.3.$           =.5.,       k 5.Y     o =.5.s     ";
"    W 5.g     w 5.E     S 5.j     : 5.$.        >.5.[               ,.5..        .5.,         = 5.+.X         , 5.:.                K 5.z         0 5.[     > 5.;.+           M 5.P       $ 5.=.            r 5.E         <.5.[                           ,.5.c           r 5.~         ,.5..     : 5.>.#                 >.5.    K 5.W             <.5.c           r 5.~                       K 5.d       ,.5.k           #.5.C           ~ 5.r     = 5.O.X         , 5.:.                [ 5.w             w 5.5.5.5. .r                         ,.5..     = 5.O.X         , 5.:.      { 5.,            .5.>         = 5.+..         , 5.:.      ,.5.[             ) 5.,                             > 5.;.O           M 5.P         ,.5.x           r 5.~         ,.5..     K 5.z         0 5.[         , 5.%.      o $       ";
"    l 5.P     F 5.g     9 5.~     k 5.K         ,.5.r               ,.5..       { 5.,         z 5.A             ,.5.:               6 5.{         K 5.z     c 5.H             & 5.;.      $ 5.%.            w 5.W         >.5.r                           >.5.,           > 5.[         ,.5..     c 5.K                   ,.3.  C 5._ o             <.5.,           > 5.[                 X @ # S 5.k       >.5.:           [ 5.r           F 5.g     z 5.Z             <.5.:               $.5.,             3 W W _ %.5.:.Z X                     >.5..     z 5.A             ,.5.:      .5.,            .5.,         z 5.A             <.5.:     >.5.r             M 5.[ :                           c 5.K             & 5.;.        >.5.,           < 5.[         >.5..     6 5.{         K 5.k         + 5.3.                ";
"    : 5.%.    @.5.#       :.2.O   T 5.p         ,.5.#               >.5..        .5.,         H 5.5.5.5.5.5.5.5.5.5.6                 X.5.<     X :.2.#     H 5.x               :.5.%     % 5.=.            r 5.E         >.5.#                           ,.5.+           : 5. .        >.5..     H 5.c                   >.,.h 5.,.@               ,.5.O           : 5. .        O v ' ,.5.5.5.5.5.k       ,.5.O           ' 5.3           F 5.g     H 5.5.5.5.5.5.5.5.5.5.6               <.5.$                       3 { 5.D                     ,.5..     H 5.5.5.5.5.5.5.5.5.5.6      .5.,            .5.,         F 5.5.5.5.5.5.5.5.5.5.6     >.5.#             X W 5.5.~ i .                     H 5.x               :.5.%       ,.5.O           : 5. .        ,.5..       X.5.<     . :.2.#           3.5.@               ";
"      %.5.: > 5.[         U 5.u   ;.5.#         ,.5.                ,.5..        .5.,         U 5._ F H H F H H H F -                 c 5.S     u 5.R       Y 5.h               #.5.:     # 5.=.            r 5.W         <.5.X                           ,.5.            : 5.{         ,.5.X     U 5.h                   ,.2.1.5.5.M               >.5..           : 5. .      % +.5.[ v u 0 0 R 5.k       ,.5..           ' 5.1           F 5.j     T 5._ H F F H H H F H -               5.5.X                         # ,.5.%                   ,.5..     U 5.) H H F H F H F H -      .5.,            .5.,         Y 5.) H H F H F H F H =     ,.5.X                 r / 5.5.=.v                   U 5.h               $.5.:       ,.5..           - 5. .        ,.5..       c 5.S     u 5.R             ;.5.=               ";
"      K 5.h z 5.m         a 5.H > 5.{           ,.5..               ,.5..       { 5.>         K 5.b                                   # 2.=.    Y 5.r       S 5.z               :.5.%     % 5.%.            p 5.E         ,.5..                           >.5..           : 5. .        ,.5.      K 5.z                   ,.5.W < ,.5.0             ,.5..           : 5.{       H 5.I           S 5.l       ,.5..           ' 5.3           F 5.g     H 5.b                                 1.5.#                           _ 5.9                   ,.5.      K 5.v                        .5.,            .5.:         H 5.b                       ,.5..                     = V ,.5.Y                 D 5.x               :.5.%       ,.5..           : 5.{         ,.5..       # 1.=.    T 5.u             2.5.#               ";
"      a 5.K E 5.1         O 3.O.j 5.Z           >.5..               >.5..        .5.,         v 5.R                                     T 5.w o <.=..       z 5.K             & 5.:.      # 5.=.            z 5.W         ,.5..                           ,.5..           > 5. .        ,.5.X     n 5.H                   ,.5.    s 5.%.%           >.5..           > 5. .      O.5.6           R 5.l       >.5..           ' 5.1           F 5.j     v 5.E                                 %.5.:                           [ 5.0                   ,.5.X     v 5.R                       { 5.>            .5.,         v 5.R                       ,.5..                         * %.5.1               z 5.K             & 5.:.        >.5..           : 5. .        >.5..         Y 5.q O 1.=.            O 5.5.                ";
"      # 5.[ #.%.            ) 5.U 5.0           ,.5..               ,.5.X       _ 5.8         : 5.1.-                                   0 5.J a 5.S         & 5.;.@           m 5.I         3.5.o           W 5.W         ,.5..                           ,.5.X           : 5.{         >.5..     1 5.;.+                 ,.3.      K 5./           ,.5..           : 5. .      +.5.6         @ ,.5.l       ,.5..           ' 5.3           F 5.g     : 5.1.-                                .5.0                         & 2.5.%                   ,.5.X     : 5.2.-                     ` 5.7           ` 5.8         : 5.2.-                     ,.5..                           K 5.i               & 5.;.+           m 5.I         ,.5..           : 5. .        ,.5..         0 5.K p 5.S             > 5.=.      O %       ";
"        { 1.5.H             z 5.<.1.X           ,.5..               ,.5.X       K 5.D           L 5.o.,         3 u                       @.=.U 5.1           F 5.~ @       u 1.1.,         ` 5.b         r 5.5.W         >.5..                           ,.5.X           : 5. .        ,.5..       ~ 5./ #       % -     >.5.      O X.5.m         ,.5..           : 5. .      E 5.H       # / 5.5.l       ,.5..           ' 5.3           F 5.j       P 5.o.>         3 i                 H 5.M         S r .         : { 5.K                     >.5..       P 5.o.,         3 u       K 5.S           K 5.D           P 5.o.,         3 u       >.5..             p :         % #.5.:                 F 5.~ @       u 1.1.>         ,.5..           > 5. .        ,.5.X           @.=.U 5.3             j 5.~     O =.5.s     ";
"        A 5.5.r             = 5.5./             ,.5.                >.5.X       2 5.5.` P ^     O ) 5.5. ./ { ;.5.R                       m 5.1.X.            o ^ 5.,.~ Y  .5.3.p           9 3.5.R v v R 5.P 5.R         ,.5.X                           ,.5.X           : 5. .        ,.5..       % X.5.2.` ) o.5.v     >.5.        < 2.5.9       <.5.X           : 5. .      3 3.5. .U ~ ,.O.k 5.l       ,.5.X           ' 5.1           F 5.j       + ) 5.5.../ { -.5.R                 s 5.)         =.5.,.] R W  .5.5.~ o                     ,.5..       o ) 5.5. .~ { =.5.R       1 5.5.' P ^     1 3.5.' P ^     O ) 5.5.X./ { -.5.R       ,.5..             ) 5.X.T P / 1.5.F                   O ~ 5.,.~ T  .5.3.p           ,.5..           : 5. .        ,.5.X           m 5.2. .              I 5.v     3 5.5.F     ";
"        0 5.1.o                .5.v             ,.5.X               ,.5..         0 ' <.1.[         f ) :.3.1.o.S 1                       % 5.5.v                 h ' :.3.#.P >               6 W ;.5.;./ r X 5.W         ,.5.                            ,.5.            > 5.|         >.5.X         O n { <.3.%.R 1     ,.5.          j 5.%.%     >.5.            : 5. .        8 ( <.3.+.S @ = 5.l       >.5..           ' 5.1           F 5.g           d ) ;.5.1.o.S 1                 % 3.1.#       8 H  .=.3.2.#.R u                         >.5..           f _ :.5.1.o.S 1         9 [ >.1.[       0 [ >.1.[         g ( >.4.<.O.S 1       >.5.X             q E $.1.5.:.) s                         g ' ;.3.%.L >             ,.5..           : 5. .        ,.5.            & 3.5.b             X =.5.,     X { :.0     ";
"                                                                                                                                            ;.3.%                                                                                                                                                                                                                                                                                                                                             P 5.c                                                                                                                                                                                                                                                                                   . ;.5.%             d 5.)                   ";
"                                                                                                                                          r 5./                                                                                                                                                                                                                                                                                                                                               1 5.+.                                                                                                                                                                                                                                                                                  r 5.~               ] 5.w                   ";
"                                                                                                                                          / 5.u                                                                                                                                                                                                                                                                                                                                                 F 5.c                                                                                                                                                                                                                                                                                 / 5.u             s 5.R                     ";
"                                                                                                                                        k 5.X.                                                                                                                                                                                                                                                                                                                                                  o o.<.&                                                                                                                                                                                                                                                                             j 5.X.            # =.=.#                     ";
"                                                                                                                                  H U [ 5.1.6                                                                                                                                                                                                                                                                                                                                                                                                                                                                                                                                                                                                                                 H Y [ 5.1.6                                         ";
"                                                                                                                                  W ,.;.~ ,                                                                                                                                                                                                                                                                                                                                                                                                                                                                                                                                                                                                                                   W <.;.W <                                           ";
"                                                                                                                                                                                                                                                                                                                                                                                                                                                                                                                                                                                                                                                                                                                                                                                                                                  ";
"                                                                                                                                                                                                                                                                                                                                                                                                                                                                                                                                                                                                                                                                                                                                                                                                                                  ";
"                                                                                                                                                                                                                                                                                                                                                                                                                                                                                                                                                                                                                                                                                                                                                                                                                                  "]%xpm.

Definition message3 : xpm_map := [
"167 35 110 2 ";
"   c #000000";
".  c #040300";
"X  c #060500";
"o  c #080600";
"O  c #0A0800";
"+  c #0D0A00";
"@  c #0F0C00";
"#  c #100D00";
"$  c #110E00";
"%  c #151100";
"&  c #161200";
"*  c #1A1500";
"=  c #1B1600";
"-  c #1E1900";
";  c #201A00";
":  c #221C00";
">  c #251F00";
",  c #272000";
"<  c #292200";
"1  c #2B2400";
"2  c #2F2700";
"3  c #332B00";
"4  c #342B00";
"5  c #382F00";
"6  c #3A3000";
"7  c #3C3200";
"8  c #413600";
"9  c #433800";
"0  c #443900";
"q  c #4B3F00";
"w  c #4E4100";
"e  c #504300";
"r  c #544600";
"t  c #554700";
"y  c #564800";
"u  c #594B00";
"i  c #5B4C00";
"p  c #5E4F00";
"a  c #5F5000";
"s  c #605000";
"d  c #625200";
"f  c #655500";
"g  c #685700";
"h  c #6A5900";
"j  c #6C5B00";
"k  c #6E5C00";
"l  c #705E00";
"z  c #726000";
"x  c #756200";
"c  c #796600";
"v  c #7C6800";
"b  c #806B00";
"n  c #836E00";
"m  c #846F00";
"M  c #887200";
"N  c #897300";
"B  c #8E7700";
"V  c #8F7800";
"C  c #937B00";
"Z  c #947C00";
"A  c #967E00";
"S  c #977F00";
"D  c #988000";
"F  c #9C8300";
"G  c #9D8400";
"H  c #A18700";
"J  c #A38900";
"K  c #A48A00";
"L  c #A78C00";
"P  c #A88D00";
"I  c #AB9000";
"U  c #AC9100";
"Y  c #AF9300";
"T  c #B09400";
"R  c #B39600";
"E  c #B49700";
"W  c #B69900";
"Q  c #B99B00";
"!  c #BB9D00";
"~  c #BC9E00";
"^  c #BFA100";
"/  c #C0A100";
"(  c #C3A400";
")  c #C6A600";
"_  c #CAAA00";
"`  c #CCAC00";
"'  c #CDAC00";
"]  c #CFAE00";
"[  c #D1B000";
"{  c #D5B300";
"}  c #D7B500";
"|  c #D8B600";
" . c #DCB900";
".. c #DEBB00";
"X. c #E1BD00";
"o. c #E3BF00";
"O. c #E4C000";
"+. c #E6C100";
"@. c #E8C300";
"#. c #EAC500";
"$. c #EDC700";
"%. c #EEC800";
"&. c #F1CB00";
"*. c #F3CC00";
"=. c #F6CF00";
"-. c #F7D000";
";. c #F8D100";
":. c #FBD300";
">. c #FCD400";
",. c #FFD700";
"                                                                                                                                                                                                                                                                                                                                              ";
"                                                                                                                                                                                                                                                                                                                                              ";
"                                                                                                                                                                                                                                                                                                                                              ";
"                                                                                                                                                                                                                                                                                                                                              ";
"                                                                                                                                                                                                                                                                                                                                              ";
"                                                                                                                                                                                                                                                                                                                                              ";
"                                                                                                                                                                                                                                                                                                                                              ";
"                                                                                                                                                                                                                                                                                                                                              ";
"                                                                                                                                                                                                                                  q ,.K                                                               &.,..                                   ";
"    K ,.X.+               ; ,.~         _ } +                                                                                                                                                                                     w ,.K                     _ | +                                     %.,..                         ;.,.f     ";
"    K ,.,.D               ; ,.~       + ,.,.,                                                                                                                                                                                     w ,.K                   + ,.,.,                                     &.,..                         %.,.i     ";
"    K ,.*.,.8             ; ,.~         s j                                                                                                                                                                                       q ,.K                     s j                                       &.,..                         X.,.w     ";
"    K ,.z ,. .O           ; ,.~                                                                                                                                                                                                   w ,.K                                                               &.,.                          } ,.8     ";
"    K ,.- ! ,.V           ; ,.~         &.,..         X h ( %.;...W 0       X j ` =.=.` j X                                   a ( &.,.,.,.,.,.,.A       X g ) %.;. .F >               X h ( %.;.X.D >               & C  .;.$.U 3 0 ,.K                     &.,..         X h ( %.;.X.F >             &.,.  p ) &.=.` l o           _ ,.4     ";
"    K ,.< ; *.,.6         ; ,.~         &.,.X       # ) ,.;.` / X.,.t     + / ,.O.E W $.,.! X                               A ,. .n z K ,.,./ A 0     @ ) ,.&.W I { ,.-.w           @ ) ,.*.W I { ,.=.q           ; X.,.O.P U o.,.M ,.K                     &.,..       @ ) ,.*.W I [ ,.=.w           %.&.F ,._ K W =.,.~ X         ~ ,.<     ";
"    K ,.2   j ,.} o       ; ,.~         &.,.        L ,.^ *       ; X     D ,.F +     # ^ ,.m                             4 ,. .O       p ,.H         K ,.U +       r -.*.,         K ,.U +       t =.=.>         ^ ,.L o     X n ,.,.K                     %.,..       K ,.U +       t -.*.>         &.,.&.6       # ` ,.c         R ,.*     ";
"    K ,.4     / ,.m       ; ,.~         &.,.      > ,.%.#               - ,.| X         < ,.$.                            x ,.b           ;.=.      , ,.#.O           v ,.G       , ,.#.O           v ,.F       3 ,.#.O           ` ,.K                     &.,..     > ,.@.+           v ,.G         &.,.v           2 ,.@.        K ,.@     ";
"    K ,.4     , =.,.3     ; ,.~         &.,.X     k ,.D                 g ,.M             &.,.;                           v ,.l           %.,.X     k ,.A             * ,.#.      k ,.D             * ,.#.      l ,.D             v ,.K                     %.,.X     l ,.A             * ,.#.        %.,.3             | ,.2       A ,.      ";
"    K ,.4       x ,.[ X   ; ,.~         %.,..     A ,.j                 A ,.,.,.,.,.,.,.,.,.,.4                           t ,.U         , ,.}       A ,.h               %.,.&     A ,.h               $.,.&     D ,.j             i ,.K                     &.,.      A ,.h               $.,.&       &.,.+             R ,.r       M =.      ";
"    K ,.4         _ ,.b   - ,.~         &.,..     J ,.a                 J ,.! C A C C A C A A ;                           X } ,.C 4 : w { ,.t       J ,.s               X.,.:     J ,.s               X.,.:     K ,.s             w ,.K                     &.,.X     J ,.a                .,.:       &.,.X             L ,.i       m #.      ";
"    K ,.4         < ;.;.2 & ,.~         &.,..     D ,.h                 D ,.z                                               ; ) ,.,.,.,.X.y         V ,.h               %.,.&     V ,.h               $.,.&     D ,.h             t ,.K                     &.,..     B ,.j               %.,.&       &.,.#             W ,.w       x  .      ";
"    K ,.4           v ,.` # ,.~         &.,..     x ,.D                 l ,.P                                               : X.R 6 8 <             h ,.D             * ,.$.      h ,.D             * ,.%.      c ,.C             l ,.K                     %.,..     h ,.D             * ,.$.        %.,.3             ..,.1       : q       ";
"    K ,.4           X ` ,.c ,.~         &.,..     2 ,.#.+               > ,.=.;                                             U -.O                   & ,.$.@           c ,.H       * ,.#.#           c ,.J       4 ,. .X           ^ ,.K                     &.,..     * ,.#.+           c ,.H         &.,.b           4 ,.O.        O &       ";
"    K ,.4             4 ;.=.,.~         %.,..       R ,.E #       & ;     F ,.{ <         3 w     & | | <                   ` -.#                     C ,.R @       q =.=.<         C ,.R #       w =.-.<         ) ,.D X       k ,.,.J                     &.,..       C ,.E +       w -.=.<         &.,.=.8       * { ,.x       @ @.,.u     ";
"    K ,.4               m ,.,.~         &.,..       & [ ,.=./ Q } ,.j     O ! ,.,.` R _ @.,.P     9 ,.%.X                   v ,.%.( ~ ~ Y C 6         O E ,.&.R L ` ,.;.t           o E ,.&.R K ` ,.;.t           > O.,.X.P P  .,.H ,.K                     &.,..       o E ,.&.E K ` ,.-.t           &.` F ,.` K W =.,.E .       2 ,.,.C     ";
"    K ,.4               X } ,.~         %.,..         O x _ *.;.X.P 3         i ~ $.;.=.{ B 2     x ,.G                   X h *.,.,.,.,.,.,.,.D           a / #.;.X.F ,                 a / #.;. .G <               * A X.;.%.~ q . ,.K                     %.,..           a / $.;.X.F ,             &.C   s _ &.=.` j .         o _ %.8     ";
"                                                                                                  U ,.7                 X / ;.f &       + 9 #.,.4                                                                                                           &.,..                                                                             ";
"                                                                                                  O.[                   u ,.M               N ,.s                                                                                                           &.,..                                                                             ";
"                                                                                                > ,.h                   n ,.s               D ,.w                                                                                                           ;.=.                                                                              ";
"                                                                                                                        a ,.~ X           y ;.O.O                                                                                                         4 ,.[                                                                               ";
"                                                                                                                        X ) ,.O.D n n G } ,.#.6                                                                                                     8 / U &.,.h                                                                               ";
"                                                                                                                          X k ( %.,.=.X.Q l @                                                                                                       5 @.;.| x                                                                                 ";
"                                                                                                                                                                                                                                                                                                                                              ";
"                                                                                                                                                                                                                                                                                                                                              ";
"                                                                                                                                                                                                                                                                                                                                              "]%xpm.

Definition message5 : xpm_map := [
"389 35 113 2 ";
"   c #000000";
".  c #040300";
"X  c #050400";
"o  c #090700";
"O  c #0B0900";
"+  c #0E0B00";
"@  c #0F0C00";
"#  c #100D00";
"$  c #131000";
"%  c #161200";
"&  c #181400";
"*  c #191500";
"=  c #1C1700";
"-  c #1E1900";
";  c #201A00";
":  c #211B00";
">  c #241E00";
",  c #262000";
"<  c #282100";
"1  c #2B2400";
"2  c #2D2500";
"3  c #2F2700";
"4  c #332B00";
"5  c #342B00";
"6  c #352C00";
"7  c #382F00";
"8  c #3A3000";
"9  c #3C3200";
"0  c #3F3500";
"q  c #413600";
"w  c #433800";
"e  c #453A00";
"r  c #483C00";
"t  c #4B3F00";
"y  c #4D4000";
"u  c #524500";
"i  c #554700";
"p  c #564800";
"a  c #584A00";
"s  c #5B4C00";
"d  c #5D4E00";
"f  c #5F5000";
"g  c #615100";
"h  c #675600";
"j  c #685700";
"k  c #695800";
"l  c #6C5B00";
"z  c #6D5B00";
"x  c #715F00";
"c  c #726000";
"v  c #756200";
"b  c #796600";
"n  c #7F6B00";
"m  c #806B00";
"M  c #836E00";
"N  c #846F00";
"B  c #857000";
"V  c #897300";
"C  c #8C7600";
"Z  c #8F7800";
"A  c #907900";
"S  c #947C00";
"D  c #977F00";
"F  c #988000";
"G  c #9A8100";
"H  c #9C8300";
"J  c #9F8600";
"K  c #A08600";
"L  c #A28800";
"P  c #A48A00";
"I  c #A78C00";
"U  c #A98E00";
"Y  c #AB9000";
"T  c #AD9100";
"R  c #AF9300";
"E  c #B09400";
"W  c #B39600";
"Q  c #B49700";
"!  c #B69900";
"~  c #B99B00";
"^  c #BC9E00";
"/  c #BD9F00";
"(  c #BEA000";
")  c #C1A200";
"_  c #C3A400";
"`  c #C4A500";
"'  c #C7A700";
"]  c #C8A800";
"[  c #CBAB00";
"{  c #CCAC00";
"}  c #CFAE00";
"|  c #D0AF00";
" . c #D3B100";
".. c #D5B300";
"X. c #D7B500";
"o. c #D9B600";
"O. c #DBB800";
"+. c #DEBB00";
"@. c #DFBC00";
"#. c #E1BD00";
"$. c #E7C200";
"%. c #E8C300";
"&. c #EAC500";
"*. c #ECC600";
"=. c #EFC900";
"-. c #F0CA00";
";. c #F2CC00";
":. c #F6CF00";
">. c #F7D000";
",. c #F9D100";
"<. c #FBD300";
"1. c #FCD400";
"2. c #FFD700";
"                                                                                                                                                                                                                                                                                                                                                                                                                                                                                                                                                                                                                                                                                                                                                                                                          ";
"                                                                                                                                                                                                                                                                                                                                                                                                                                                                                                                                                                                                                                                                                                                                                                                                          ";
"                                                                                                                                                                                                                                                                                                                                                                                                                                                                                                                                                                                                                                                                                                                                                                                                          ";
"                                                                                                                                                                                                                                                                                                                                                                                                                                                                                                                                                                                                                                                                                                                                                                                                          ";
"                                                                                                                                                                                                                                                                                                                                                                                                                                                                                                                                                                                                                                                                                                                                                                                                          ";
"                                                                                                                                                                                                                                                                                                                                                                                                                                                                                                                                                                                                                                                                                                                                                                                                          ";
"                                                                                                                                                                                                                                                                                                                                                                                                                                                                                                                                                                                                                                                                                                                                                                                                          ";
"                                                                                                                                                                                                                                                                                                                                                                                                                                                                                                                                                                                                                                                                                                                                                                                                          ";
"                                -.2..                                                                                     -.2..                                                                                                                                                                                                                                                                                                                                                                                                                                                                                       -.2..                                                                                                                                                                               ";
"    P 2.2.2.2.:.#.W g .         -.2..                                                                                     -.2..                                                                                                                                                                                                                                                                                                                                                                                                                                                                                       -.2..                                                                                                                                                                     ,.2.h     ";
"    P 2.| ~ ~ ` %.2.2.} %       -.2..                                                                     - 2.<           -.2..                                                                                                                                                                                                                                                                                                                             - 2.<                                                                                                         - 2.<                       - 2.<           -.2..                                                                                     - 2.<                                     - 2.<                                 =.2.a     ";
"    P 2.a         9 o.2.T       -.2..                                                                     z 2.<           -.2..                                                                                                                                                                                                                                                                                                                             z 2.<                                                                                                         z 2.<                       z 2.<           -.2..                                                                                     z 2.<                                     z 2.<                                 #.2.y     ";
"    P 2.a           1 2.2.@     -.2..                                                                   X ) 2.<           -.2..                                                                                                                                                                                                                                                                                                                           X ) 2.<                                                                                                       X ) 2.<                     X ) 2.<           -.2.X                                                                                   X ) 2.<                                   X ) 2.<                                 X.2.9     ";
"    P 2.a             #.2.2     -.2..         w P O.,.,. .b X     ` 2.t             4 2.#.            f %.2.2.2.2.2.#.    -.2.  i ) -.,.O.A #             X z | ;.:.} x X                       d ` -.2.2.2.2.2.2.S       e P O.,.>. .b X         -./ X z } >.-.[ g     j [ ;.:. .c             X z } :.;.} x .                       X k _ =.,.@.F >             -./ . h ` -.,.@.A %             X k ` =.>.@.! e       X z } >.-.} c .                 d &.2.2.2.2.2.O.      X k _ =.,.#.F >                           f _ -.2.2.2.2.2.2.S       X z } ;.:.} z X     f &.2.2.2.2.2.#.            f &.2.2.2.2.2.#.    -.2.  i ) -.,.O.Z #             X z } >.;.} x X                     = C  .-.:.o.I p   d &.2.2.2.2.2.#.      w P O.,.:. .b X     f %.2.2.2.2.2.#.    = C  .-.;.o.P p       [ 2.5     ";
"    P 2.a             $.2.,     -.2..       e 2.>.` P ! ;.2.Y     g 2.Y             C 2.B             u n $.2.S m m x     -.,.C 2.| U ! =.2.o.+         @ ) 2.%.W ! *.2./ X                   S 2.O.N c L 2.2._ A t     w 2.>.` P ! ;.2.T         =.&.W $.C x S >.2.n Q -.S x V %.2.A         + ) 2.$.W ~ *.2./ X                   @ ` 2.-.! Y  .2.,.y           -.*.T ;.F c m [ 2.O.@         # ` 2.,.} ( #.2.u     @ ) 2.$.W / &.2./ X               u m $.2.S m m x     # ` 2.;.! Y ..2.>.y                       S 2.O.B c L 2.2._ S t     @ ) 2.$.W ! =.2./ X   u m $.2.S M m x             u m $.2.S n M z     -.:.C 2.| U ! =.2.o.@         + ) 2.$.Q ! &.2./ .                 < =.2.} U W ..2.[   u m $.2.S m n x     e 2.:.` P ! ;.2.T     u n $.2.S M m x   < =.2.} U W ..2.[       / 2.<     ";
"    P 2.a           6 2.*..     -.2..         y O       - *.2.<   + ;.,.#           $.2.<                 } 2.<           -.2.;.e       % } 2.c         F 2.H O     # ) 2.m                 4 2.O.O       d 2.K           y +       - *.2.,       -.2.O.$       q 2.2.=.>       - :.,.%       H 2.F o     # / 2.M                   I 2.T @       u :.:.>         -.2.$.-         ! 2.c         U 2.( *       : X     F 2.F O     # / 2.M                   [ 2.<           P 2.T @       u >.;.,                   4 2.O.O       d 2.K         F 2.F O     # ( 2.m       } 2.>                       [ 2.<           -.2.:.e       $ } 2.c         F 2.F O     # ) 2.M                 J 2.h         - <       [ 2.<             y O       - *.2.,       } 2.<         J 2.h         - <       W 2.=     ";
"    P 2.a         e #.2.b       -.2..                     F 2.a     F 2.z         q 2.`                   } 2.,           -.2.n           p 2.W       - 2.X.          < 2.*.                v 2.M           ,.:.                      F 2.a       -.2.g           #.2.N           W 2.t     - 2.o.X         < 2.*.                , 2.&.O           n 2.J         -.2.z           t 2.W       , 2.*.#               - 2.X.X         < 2.*.                  } 2.<         , 2.&.O           n 2.H                   v 2.n           ,.:.      : 2.o.X         < 2.*.      [ 2.<                       } 2.,           -.2.n           i 2.W       - 2.o.X         < 2.*.                ! 2.<                   } 2.<                         F 2.a       } 2.,         ! 2.<                   L 2.#     ";
"    P 2.} W ~ ` *.2.2.Z         -.2..               X # # V 2.h     6 2.[         F 2.k                   [ 2.,           -.2.2           1 2.`       k 2.B             ;.2.>               n 2.x           =.2.X               X @ @ C 2.h       -.2.>           ` 2.e           A 2.d     k 2.V             ;.2.>               z 2.F             * 2.&.        -.2.,           , 2._       z 2.F                 k 2.V             ;.2.:                 [ 2.<         z 2.F             * 2.&.                  n 2.c           =.2.X     k 2.N             ;.2.>     } 2.<                       [ 2.,           -.2.2           2 2.[       k 2.B             ;.2.>               n 2.] :                 [ 2.<                   X @ @ C 2.h       [ 2.,         n 2.` :                 S 2.      ";
"    P 2.2.2.2.=.| S 4           -.2..       O c ` -.2.2.2.2.2.k        .2.1     X =.,.#                   } 2.<           -.2.+           > 2.[       S 2.2.2.2.2.2.2.2.2.2.6               u 2.T         < 2.X.        + c _ =.2.2.2.2.2.j       -.2.O           ) 2.4           A 2.f     S 2.2.2.2.2.2.2.2.2.2.5               F 2.k               *.2.%       -.2.O           > 2.}       S 2.z                 S 2.2.2.2.2.2.2.2.2.2.6                 } 2.<         F 2.k               *.2.%                 p 2.T         < 2.X.      S 2.2.2.2.2.2.2.2.2.2.5     } 2.<                       [ 2.<           -.2.+           > 2.[       S 2.2.2.2.2.2.2.2.2.2.6               X T 2.2.Q y .           } 2.>           O c _ -.2.2.2.2.2.j       } 2.<         X T 2.2.W y .           Z >.      ";
"    P 2.a                       -.2..     % X.2.` x y q q U 2.h       z 2.C     y 2.U                     } 2.<           =.2.X           > 2.}       P 2.( S S S S S S S S :               X o.2.A 6 : y ..2.u       % X.2.` c y q q U 2.k       =.2..           ( 2.4           A 2.g     L 2.( S S S S S S S S :               L 2.g               #.2.>       -.2.X           > 2.|       L 2.f                 P 2./ S S S S S S S S :                 [ 2.<         L 2.g               #.2.>                   o.2.A 6 : y ..2.i       L 2./ S S S S S S S S :     [ 2.<                       } 2.<           -.2.X           > 2.}       L 2./ S S S S S S S S :                   e ! 2.2.$.z .       [ 2.<         % X.2.` x y q q U 2.k       } 2.<             t ! 2.2.$.x         n &.      ";
"    P 2.a                       -.2.X     S 2.L           Z 2.h       # >.$.    P 2.y                     } 2.<           -.2.X           , 2.[       F 2.c                                   - _ 2.2.2.2.#.p         S 2.L           C 2.j       -.2..           ) 2.2           A 2.g     F 2.c                                 Z 2.k               *.2.%       -.2.X           > 2.}       F 2.k                 F 2.c                                   [ 2.<         Z 2.k               *.2.%                   - ` 2.2.2.2.#.p         S 2.c                       } 2.,                       [ 2.<           -.2..           > 2.}       F 2.c                                         - M -.2.I       } 2.<         S 2.L           C 2.j       } 2.<                 - M -.2.U       c O.      ";
"    P 2.a                       -.2.X     X.2.6           U 2.k         P 2.e O >.$..                     [ 2.<           -.2.            : 2.[       c 2.I                                   : #.W 8 q <             X.2.6           U 2.j       -.2..           ) 2.4           A 2.f     z 2.U                                 k 2.F             * 2.*.        -.2.            > 2.[       v 2.F                 z 2.U                                   [ 2.<         k 2.F             * 2.*.                    : #.W 8 w <             x 2.I                       | 2.,                       | 2.<           -.2..           > 2.[       x 2.I                                             * &.2.2     [ 2.<         o.2.6           U 2.j       [ 2.<                     * #.2.2     > t       ";
"    P 2.a                       -.2.      o.2.6         + =.2.h         q 2.F u 2.Z                       ( 2.6           -.2.X           > 2.}       > 2.>.-                                 Y >.O                   O.2.6         + =.2.j       -.2..           ) 2.2           A 2.g     : 2.:.-                               * 2.&.@           b 2.K         -.2.X           > 2.}       2 2.&.@               : 2.,.-                                 ( 2.8         * 2.&.+           b 2.K                     T >.@                   > 2.:.-                     ( 2.7                       ( 2.7           -.2..           > 2.[       > 2.>.:                                             S 2.y     ( 2.8         O.2.6         + =.2.j       ( 2.6                       F 2.y     O *       ";
"    P 2.a                       -.2.X     Y 2.F       @ ! 2.2.k           O.%.L 2.2                       F 2.Z           =.2.X           > 2.[         J 2. .1         4 y                   } >.#                   Y 2.S       # ! 2.2.j       -.2..           ( 2.4           A 2.d       J 2...<         4 y                   A 2.W #       y >.>.<         =.2.X           : 2.[         W 2.! #       % :     J 2.X.<         4 y                   F 2.Z           A 2.W @       y >.:.<                     } :.#                     J 2...<         4 y       F 2.A                       F 2.Z           -.2..           : 2.}         J 2...<         4 y                 u >         % O.2.,     F 2.Z         U 2.F       # ! 2.2.j       F 2.Z         u :         % @.2.,   @ $.2.a     ";
"    P 2.a                       -.2.X     4 ,.2.} J T ;.X.h 2.h           b 2.,.|                         2 2.2.) J !     -.2.X           > 2.[         + ~ 2.2.} ! [ $.2.U                   n 2.=.) / / T A 9       6 ,.2.} J W -.o.h 2.j       -.2..           ) 2.2           A 2.g       O ~ 2.2.} W [ &.2.U                   O ! 2.=.Q P } 2.,.u           -.2.X           > 2.[         %  .2.;.) ~  .2.z     O / 2.2.} ! ` %.2.U                   2 2.2.( J !     o W 2.-.W I } 2.,.u                       n 2.=.) / / T A 9         O ~ 2.2.} W [ %.2.U       2 2.2.) J Q                 2 2.2.( H Q     -.2..           > 2.}         O ~ 2.2.} W [ $.2.U                 / 2. .L J ! :.2.A       2 2.2.) J !   5 ,.2.} J W =.X.h 2.j       2 2.2.) J !   ~ 2. .P F ! >.2.Z     2 2.2.A     ";
"    P 2.a                       -.2..       7 ~ ;.,.O.C # : 2.k           * ,.2.c                           0 ` =.;.`     -.2..           > 2.}             p / *.,.;.o.C 3                 X k ;.2.2.2.2.2.2.2.F       7 ~ ;.,.O.C @ - 2.j       -.2..           ( 2.4           A 2.g           p / *.,.:.X.C 2                       d ) &.,.O.J ,             -.2.X           > 2.}           O c } ;.,.#.U 4         s ~ &.2.:.X.C 2                     q ` =.>.`         d ) &.,.@.H ,                       X k ;.2.2.2.2.2.2.2.F           a / &.2.;...Z 2         q _ =.:.`                   q ` =.:.`     -.2.X           > 2.}             p / *.2.;.X.Z 2                 q U #.,.,.&.~ p           0 ` =.;.`     7 ~ ;.,.O.C + : 2.j         0 ` =.:.`   w Y #.,.2.&.~ p       O [ *.q     ";
"                                                                            &.<.%                                                                                                         X ) >.h %       @ q &.2.5                                                                                                                                                                                                                                                                                               X ) >.h %       @ q &.2.6                                                                                                                                                                                                                                                               ";
"                                                                          y 2.W                                                                                                           s 2.V               V 2.g                                                                                                                                                                                                                                                                                               s 2.V               V 2.g                                                                                                                                                                                                                                                               ";
"                                                                          ! 2.y                                                                                                           M 2.g               F 2.t                                                                                                                                                                                                                                                                                               M 2.g               F 2.t                                                                                                                                                                                                                                                               ";
"                                                                        h 2. .                                                                                                            f 2./ X           i ,.%.O                                                                                                                                                                                                                                                                                               d 2./ X           i ,.%.O                                                                                                                                                                                                                                                               ";
"                                                                  S L [ 2.:.6                                                                                                             X ` 2.$.F N M J X.2.&.7                                                                                                                                                                                                                                                                                                 X ` 2.%.F M M J X.2.&.8                                                                                                                                                                                                                                                                 ";
"                                                                  T ;.&.T 1                                                                                                                 X z ) *.2.:.#.~ x +                                                                                                                                                                                                                                                                                                     X z ) &.2.>.#.~ x +                                                                                                                                                                                                                                                                   ";
"                                                                                                                                                                                                                                                                                                                                                                                                                                                                                                                                                                                                                                                                                                                                                                                                          ";
"                                                                                                                                                                                                                                                                                                                                                                                                                                                                                                                                                                                                                                                                                                                                                                                                          ";
"                                                                                                                                                                                                                                                                                                                                                                                                                                                                                                                                                                                                                                                                                                                                                                                                          "]%xpm.

End SpareMessages.
