(* ===== verification/Sprites.v ===== *)
(** * The sprite tables

    The arrays of glyphs that score.c indexes, and the dimensions of every sprite of src/xpm: each
    pixmap is well-formed, so the loader's law applies to it. *)

From S2P Require Import Prelude Xpm SpritesGame SpritesText SpritesMenu SpritesSpare.

(** score.c: [letters] and [numbers] *)
Definition letters : list xpm_map :=
  [Letter.A; Letter.B; Letter.C; Letter.D; Letter.E; Letter.F; Letter.G; Letter.H; Letter.I;
   Letter.J; Letter.K; Letter.L; Letter.M; Letter.N; Letter.O; Letter.P; Letter.Q; Letter.R;
   Letter.S; Letter.T; Letter.U; Letter.V; Letter.W; Letter.X; Letter.Y; Letter.Z].

Definition numbers : list xpm_map :=
  [Digit.n0; Digit.n1; Digit.n2; Digit.n3; Digit.n4; Digit.n5; Digit.n6; Digit.n7; Digit.n8;
   Digit.n9].

(** The pixmaps that nothing draws are well-formed, too; the punctuation has the size of the glyphs. *)
Lemma special_dims : Forall (λ m, xpm_dims m = Some (20, 35))
  [Special.points; Special.bar; Special.point; Special.sub].
Proof. repeat constructor; by_vm. Qed.
Lemma spare_messages_dims :
  map xpm_dims [SpareMessages.message2; SpareMessages.message3; SpareMessages.message5] =
  [Some (401, 35); Some (167, 35); Some (389, 35)].
Proof. by_vm. Qed.

(** Every glyph is 20 pixels wide and 35 high. *)
Lemma glyph_dims : Forall (λ m, xpm_dims m = Some (20, 35)) (letters ++ numbers).
Proof. repeat constructor; by_vm. Qed.

Lemma ship_dims : xpm_dims Player.ship = Some (50, 50).
Proof. by_vm. Qed.
Lemma bullet_dims : xpm_dims Player.bullet = Some (8, 30).
Proof. by_vm. Qed.
Lemma enemy_bullet_dims : xpm_dims Player.enemy_bullet = Some (5, 17).
Proof. by_vm. Qed.
Lemma alien1_dims : xpm_dims Aliens.Alien1 = Some (45, 34).
Proof. by_vm. Qed.
Lemma alien2_dims : xpm_dims Aliens.Alien2 = Some (45, 34).
Proof. by_vm. Qed.
Lemma alien3_dims : xpm_dims Aliens.Alien3 = Some (51, 34).
Proof. by_vm. Qed.
Lemma shield_dims : xpm_dims Shields.shield = Some (47, 34).
Proof. by_vm. Qed.
Lemma break_shield_dims : xpm_dims Shields.break_shield = Some (47, 34).
Proof. by_vm. Qed.
Lemma title_dims : xpm_dims Title.title = Some (400, 200).
Proof. by_vm. Qed.
Lemma start1_dims : xpm_dims Options.start1 = Some (163, 51).
Proof. by_vm. Qed.
Lemma start2_dims : xpm_dims Options.start2 = Some (163, 51).
Proof. by_vm. Qed.
Lemma scores1_dims : xpm_dims Options.scores1 = Some (193, 51).
Proof. by_vm. Qed.
Lemma scores2_dims : xpm_dims Options.scores2 = Some (193, 51).
Proof. by_vm. Qed.
Lemma quit1_dims : xpm_dims Options.quit1 = Some (145, 51).
Proof. by_vm. Qed.
Lemma quit2_dims : xpm_dims Options.quit2 = Some (145, 51).
Proof. by_vm. Qed.
Lemma message1_dims : xpm_dims Messages.message1 = Some (327, 35).
Proof. by_vm. Qed.
Lemma message4_dims : xpm_dims Messages.message4 = Some (107, 35).
Proof. by_vm. Qed.

Create HintDb sprites discriminated.
#[export] Hint Constants Opaque : sprites.
#[export] Hint Resolve ship_dims bullet_dims enemy_bullet_dims alien1_dims alien2_dims
  alien3_dims shield_dims break_shield_dims title_dims start1_dims start2_dims scores1_dims
  scores2_dims quit1_dims quit2_dims message1_dims message4_dims : sprites.
