(* ===== verification/Graphics.v ===== *)
(** * controllers/graphics/graphic.c: VBE mode, double buffering, pixels and sprites

    State: the globals [mode_info], [vram_size], [video_mem] and [back_buf]; a buffer is the
    list of its bytes, [None] a null pointer.  Every access goes through a bounds check whose
    failure is undefined behaviour ([Undef]), so a total-correctness theorem ([wp]) about a
    drawing function also says that it writes inside the buffers only.

    [get_pixel] reads a pixel back, and [paints] is the abstract effect of a drawing: which
    pixels take which colour, all others unchanged. *)

From S2P Require Import Prelude Machine Xpm.

Record gfx := Gfx {
  mode_info : vbe_mode_info;
  vram_size : Z;
  video_mem : option (list Z);
  back_buf : option (list Z);
}.

Definition set_back_buf (b : option (list Z)) (g : gfx) : gfx :=
  Gfx (mode_info g) (vram_size g) (video_mem g) b.
Definition set_video_mem (v : option (list Z)) (g : gfx) : gfx :=
  Gfx (mode_info g) (vram_size g) v (back_buf g).

(** panic() of the Minix library; its call is followed by [return 1]. *)
Class Panic (W : Type) := { panic : W → W }.

(** (mode_info.BitsPerPixel + 7) / 8 *)
Definition bytes_per_pixel (mi : vbe_mode_info) : Z := (BitsPerPixel mi + 7) / 8.

(** ** Mode setting *)
Section mode.
Context {W : Type} `{Video W} `{Panic W}.

Definition VBE : Z := 0x10.

Definition set_graphical_mode (mode : Z) : M W Z :=
  rc ← call (sys_int86 (Reg86 VBE 0x4F02 (u16 (Z.lor (BIT 14) mode))));
  if negb (rc =? 0) then mret 1 else mret 0.

(** The state is the machine and the graphics globals. *)
Definition set_frame_buffer (mode : Z) : M (W * gfx) Z := λ '(w, g),
  let '((rc, mi), w) := vbe_get_mode_info mode w in
  let g := Gfx mi (vram_size g) (video_mem g) (back_buf g) in
  if negb (rc =? 0) then Done (1, (w, g)) else
  let vram := u32 (u32 (i32 (XResolution mi * YResolution mi)) * bytes_per_pixel mi) in
  let g := Gfx mi vram (video_mem g) (back_buf g) in
  let mr_base := PhysBasePtr mi in
  let mr_limit := u32 (mr_base + vram) in
  let '(rc, w) := sys_privctl_add_mem mr_base mr_limit w in
  if negb (rc =? 0) then Done (1, (w, g)) else
  let '(vm, w) := vm_map_phys mr_base vram w in
  let g := set_video_mem vm g in
  match vm with
  | None => Done (1, (panic w, g))
  | Some _ =>
      let '(bb, w) := malloc vram w in
      let g := set_back_buf bb g in
      match bb with
      | None => Done (1, (w, g))
      | Some _ => Done (0, (w, g))
      end
  end.
End mode.

Definition cleanup_buffers : M gfx unit :=
  modify (λ g, match back_buf g with Some _ => set_back_buf None g | None => g end).

(** ** Memory access *)

(** [bs] written over [l] from index [i]. *)
Definition splice (i : nat) (bs l : list Z) : list Z :=
  take i l ++ bs ++ drop (i + length bs) l.

(** memcpy(&back_buf[idx], bytes, length bytes) *)
Definition store (idx : Z) (bs : list Z) : M gfx unit := λ g,
  match back_buf g with
  | Some buf =>
      if (0 <=? idx) && (idx + Z.of_nat (length bs) <=? Z.of_nat (length buf))
      then Done (tt, set_back_buf (Some (splice (Z.to_nat idx) bs buf)) g)
      else Undef
  | None => Undef
  end.

(** The first [n] bytes in memory of a [uint32_t], which has four. *)
Definition le_bytes (n : nat) (c : Z) : list Z :=
  take n [c mod 256; c / 256 mod 256; c / 65536 mod 256; c / 16777216 mod 256].

(** memcpy(&back_buf[idx], &color, bpp) *)
Definition store_color (idx color bpp : Z) : M gfx unit :=
  if bpp <=? 4 then store idx (le_bytes (Z.to_nat bpp) color) else undef.

(** ** Drawing *)

(** The result is [*n_color]; the C function always returns 0.  A shift by 32 or more is
    undefined. *)
Definition norm_color (color : Z) : M gfx Z :=
  bpp ← gets (BitsPerPixel ∘ mode_info);
  if bpp =? 32 then mret color
  else if bpp <? 32 then mret (Z.land color (u32 (i32 (BIT bpp - 1))))
  else undef.

(** [for (unsigned i = 0; i < vram_size; i += bytes_per_pixel)]: [fuel] bounds the iterations. *)
Fixpoint clear_loop (fuel : nat) (i color bpp : Z) : M gfx unit :=
  match fuel with
  | O => no_fuel
  | S fuel =>
      vram ← gets vram_size;
      if i <? vram then
        store_color i color bpp;;
        clear_loop fuel (u32 (i + bpp)) color bpp
      else mret tt
  end.

(** [vram_size + 1] iterations are enough for any pixel size of at least one byte. *)
Definition clear_back_buf (color : Z) : M gfx unit :=
  bpp ← gets (bytes_per_pixel ∘ mode_info);
  normalized_color ← norm_color color;
  vram ← gets vram_size;
  clear_loop (S (Z.to_nat vram)) 0 normalized_color bpp.

(** memcpy(video_mem, back_buf, vram_size) *)
Definition swap_buffers : M gfx unit := λ g,
  match video_mem g, back_buf g with
  | Some vm, Some bb =>
      if (vram_size g <=? Z.of_nat (length vm)) && (vram_size g <=? Z.of_nat (length bb))
      then Done (tt, set_video_mem (Some (splice 0 (take (Z.to_nat (vram_size g)) bb) vm)) g)
      else Undef
  | _, _ => Undef
  end.

Definition vg_draw_pixel (x y color : Z) : M gfx Z :=
  mi ← gets mode_info;
  if (x >=? XResolution mi) || (y >=? YResolution mi) || (x <? 0) || (y <? 0) then mret 1 else
  let bpp := bytes_per_pixel mi in
  let idx := u32 (u32 (i32 (i32 (XResolution mi * y) + x)) * bpp) in
  store_color idx color bpp;;
  mret 0.

Definition vg_draw_hline (x y len color : Z) : M gfx Z :=
  for_rc (Z.to_nat len) 0 (λ i, vg_draw_pixel (u16 (u32 (x + i))) y color).

Definition vg_draw_rectangle (x y width height color : Z) : M gfx Z :=
  for_rc (Z.to_nat height) 0 (λ i, vg_draw_hline x (u16 (u32 (y + i))) width color).

(** The loops of clear_area count in [uint16_t], so they are bounded by fuel; 65536 steps
    reach every value of the counter. *)
Fixpoint area_row (fuel : nat) (j stop i color : Z) : M gfx Z :=
  match fuel with
  | O => no_fuel
  | S fuel =>
      if j <? stop then vg_draw_pixel j i color ;? area_row fuel (u16 (j + 1)) stop i color
      else mret 0
  end.

Fixpoint area_rows (fuel : nat) (i stop x xstop color : Z) : M gfx Z :=
  match fuel with
  | O => no_fuel
  | S fuel =>
      if i <? stop then
        area_row (S (Z.to_nat 65536)) x xstop i color ;?
        area_rows fuel (u16 (i + 1)) stop x xstop color
      else mret 0
  end.

Definition clear_area (x y width height color : Z) : M gfx Z :=
  normalized_color ← norm_color color;
  area_rows (S (Z.to_nat 65536)) y (y + height) x (x + width) normalized_color.

Section sprites.
Context `{XpmLoader}.

(** The loops: the colour number h * width + w is drawn at (w + x, h + y); [color] reads the
    array, [None] outside it. *)
Definition print_image (width height : Z) (color : Z → option Z) (x y : Z) : M gfx Z :=
  for_rc (Z.to_nat height) 0 (λ h,
    for_rc (Z.to_nat width) 0 (λ w,
      c ← of_option (color (h * width + w));
      vg_draw_pixel (u16 (w + x)) (u16 (h + y)) c)).

(** The pixmap is loaded in the format XPM_8_8_8_8 and read as uint32_t's.  A failed load leaves
    [colors] null and [image] unset. *)
Definition print_xpm (xpm : xpm_map) (x y : Z) : M gfx Z :=
  image ← of_option (xpm_load xpm XPM_8_8_8_8);
  print_image (img_width image) (img_height image) (color_at image) x y.
End sprites.

(** ** Colour patterns of the tests: dir_mode and idx_mode

    A shift by 32 or more is undefined, and so is a remainder by zero. *)

Definition dir_component (size pos first add : Z) : option Z :=
  if (size <? 32) && (pos <? 32) then
    let n := u32 (BIT size) in
    if n =? 0 then None else
    Some (u32 (Z.land (u32 (i32 (BIT size - 1))) (Z.shiftr first pos) + add) mod n)
  else None.

Definition dir_mode (mi : vbe_mode_info) (col row step first : Z) : option Z :=
  r ← dir_component (RedMaskSize mi) (RedFieldPosition mi) first (u32 (col * step));
  g ← dir_component (GreenMaskSize mi) (GreenFieldPosition mi) first (u32 (row * step));
  b ← dir_component (BlueMaskSize mi) (BlueFieldPosition mi) first (u32 (u32 (col + row) * step));
  Some (Z.lor (Z.lor (u32 (Z.shiftl r (RedFieldPosition mi)))
                     (u32 (Z.shiftl g (GreenFieldPosition mi))))
              (u32 (Z.shiftl b (BlueFieldPosition mi)))).

Definition idx_mode (mi : vbe_mode_info) (col row step first no_rectangles : Z) : option Z :=
  if BitsPerPixel mi <? 32 then
    Some (u32 (first + u32 (u32 (u32 (row * no_rectangles) + col) * step))
          mod u32 (BIT (BitsPerPixel mi)))
  else None.

(** ** The abstract view: pixels and paintings *)

(** The [j]-th group of [n] bytes of a buffer. *)
Definition chunk (n j : nat) (l : list Z) : list Z := take n (drop (j * n) l).

Definition hres (g : gfx) : Z := XResolution (mode_info g).
Definition vres (g : gfx) : Z := YResolution (mode_info g).
Definition bpp (g : gfx) : Z := bytes_per_pixel (mode_info g).

(** The bytes of the pixel (px, py) of a buffer in the mode of [g]. *)
Definition pixel_of (g : gfx) (buf : option (list Z)) (px py : Z) : option (list Z) :=
  chunk (Z.to_nat (bpp g)) (Z.to_nat (hres g * py + px)) <$> buf.
Definition get_pixel (g : gfx) (px py : Z) : option (list Z) := pixel_of g (back_buf g) px py.

Definition in_screen (g : gfx) (px py : Z) : Prop := 0 <= px < hres g ∧ 0 <= py < vres g.

(** A buffer of the right size. *)
Definition buffer_ok (n : Z) (b : option (list Z)) : Prop :=
  ∃ l, b = Some l ∧ Z.of_nat (length l) = n.

(** The graphics state after a successful set_frame_buffer in a mode the program can use. *)
Record gfx_ok (g : gfx) : Prop := {
  ok_x : 0 <= hres g < 65536;
  ok_y : 0 <= vres g < 65536;
  ok_bits : 1 <= BitsPerPixel (mode_info g) <= 32;
  ok_small : hres g * vres g * bpp g < 2 ^ 31;
  ok_vram : vram_size g = hres g * vres g * bpp g;
  ok_back : buffer_ok (vram_size g) (back_buf g);
  ok_video : buffer_ok (vram_size g) (video_mem g);
}.

(** A partial colouring of the screen. *)
Definition painting : Type := Z → Z → option Z.
Definition nothing : painting := λ _ _, None.
Definition over (top under : painting) : painting :=
  λ px py, match top px py with Some c => Some c | None => under px py end.
(** The rectangle at (x, y) with the colours of an image of [w] columns and [h] rows. *)
Definition area (x y w h : Z) (col : Z → Z → Z) : painting := λ px py,
  if (x <=? px) && (px <? x + w) && (y <=? py) && (py <? y + h)
  then Some (col (py - y) (px - x)) else None.
Definition part_of (f a : painting) : Prop := ∀ px py c, f px py = Some c → a px py = Some c.

(** [g'] is [g] with the back buffer painted by [f], and nothing else changed. *)
Record paints (g g' : gfx) (f : painting) : Prop := {
  paints_ok : gfx_ok g';
  paints_mode : mode_info g' = mode_info g;
  paints_video : video_mem g' = video_mem g;
  paints_pixel : ∀ px py, in_screen g px py →
    get_pixel g' px py =
      match f px py with
      | Some c => Some (le_bytes (Z.to_nat (bpp g)) c)
      | None => get_pixel g px py
      end;
}.

(** The contract of a drawing function: code 0 and the whole painting when it fits, else code
    1 and a part of it. *)
Definition draws (g : gfx) (fits : bool) (a : painting) (rc : Z) (g' : gfx) : Prop :=
  if fits then rc = 0 ∧ paints g g' a else rc = 1 ∧ ∃ f, paints g g' f ∧ part_of f a.

(** The back buffer may differ, nothing else does. *)
Record redrawn (g g' : gfx) : Prop := {
  redrawn_ok : gfx_ok g';
  redrawn_mode : mode_info g' = mode_info g;
  redrawn_video : video_mem g' = video_mem g;
}.

(** ** Buffers *)

Lemma length_splice i bs l :
  (i + length bs <= length l)%nat → length (splice i bs l) = length l.
Proof. intros. unfold splice. rewrite !length_app, length_take, length_drop. lia. Qed.

Lemma lookup_splice i bs l k : (i + length bs <= length l)%nat →
  splice i bs l !! k =
    if decide (i <= k < i + length bs)%nat then bs !! (k - i)%nat else l !! k.
Proof.
  intros Hl. unfold splice. destruct (decide (k < i)%nat).
  { rewrite lookup_app_l by (rewrite length_take; lia).
    rewrite lookup_take_lt by lia. destruct (decide _); [lia|done]. }
  rewrite lookup_app_r by (rewrite length_take; lia). rewrite length_take, Nat.min_l by lia.
  destruct (decide _).
  - apply lookup_app_l. lia.
  - rewrite lookup_app_r by lia. rewrite lookup_drop. f_equal. lia.
Qed.

Lemma lookup_chunk n j l k : (k < n)%nat → chunk n j l !! k = l !! (j * n + k)%nat.
Proof. intros. unfold chunk. by rewrite lookup_take_lt, lookup_drop by lia. Qed.

Lemma chunk_ext n j l l' :
  (∀ k, (k < n)%nat → l !! (j * n + k)%nat = l' !! (j * n + k)%nat) → chunk n j l = chunk n j l'.
Proof.
  intros H. apply list_eq. intros k. destruct (decide (k < n)%nat).
  - rewrite !lookup_chunk by lia. by apply H.
  - unfold chunk. by rewrite !lookup_take_ge by lia.
Qed.

Lemma chunk_splice_same n i bs l :
  length bs = n → (i * n + n <= length l)%nat → chunk n i (splice (i * n) bs l) = bs.
Proof.
  intros Hb Hl. unfold chunk, splice. rewrite drop_app_length' by (rewrite length_take; lia).
  rewrite take_app_length'; [done|lia].
Qed.

Lemma chunk_splice_other n i j bs l :
  length bs = n → (i * n + n <= length l)%nat → i ≠ j →
  chunk n j (splice (i * n) bs l) = chunk n j l.
Proof.
  intros Hb Hl Hij. apply chunk_ext. intros k Hk. rewrite lookup_splice by lia.
  destruct (decide _); [|done]. exfalso. assert (i < j ∨ j < i)%nat as [?|?] by lia; nia.
Qed.

Lemma length_le_bytes n c : (n <= 4)%nat → length (le_bytes n c) = n.
Proof. intros. unfold le_bytes. rewrite length_take. simpl. lia. Qed.

(** ** Paintings *)

Lemma paints_refl g : gfx_ok g → paints g g nothing.
Proof. intros Hg. split; auto. Qed.

Lemma paints_ext g g' f f' :
  (∀ px py, in_screen g px py → f px py = f' px py) → paints g g' f → paints g g' f'.
Proof. intros Hf []. split; auto. intros px py Hin. rewrite <- Hf by done. auto. Qed.

Lemma paints_screen g g' f :
  paints g g' f → hres g' = hres g ∧ vres g' = vres g ∧ bpp g' = bpp g.
Proof. intros [_ Hm _ _]. unfold hres, vres, bpp. by rewrite Hm. Qed.

Lemma paints_trans g1 g2 g3 f1 f2 :
  paints g1 g2 f1 → paints g2 g3 f2 → paints g1 g3 (over f2 f1).
Proof.
  intros P1 P2. destruct (paints_screen _ _ _ P1) as (Hx & Hy & Hb).
  destruct P1 as [_ Hm1 Hv1 Hp1], P2 as [Hok Hm2 Hv2 Hp2].
  split; [done|congruence..|]. intros px py Hin. unfold over.
  rewrite Hp2 by (unfold in_screen in *; lia). rewrite Hb. destruct (f2 px py); auto.
Qed.

Lemma draws_ok g fits a rc g' : draws g fits a rc g' → gfx_ok g' ∧ mode_info g' = mode_info g.
Proof. unfold draws. destruct fits; intros; open_hyps; eauto using paints_ok, paints_mode. Qed.

Lemma paints_redrawn g g' f : paints g g' f → redrawn g g'.
Proof. intros []. by split. Qed.

Lemma draws_redrawn g fits a rc g' : draws g fits a rc g' → redrawn g g'.
Proof. unfold draws. destruct fits; intros; open_hyps; eauto using paints_redrawn. Qed.

Lemma redrawn_refl g : gfx_ok g → redrawn g g.
Proof. by split. Qed.

Lemma redrawn_trans g1 g2 g3 : redrawn g1 g2 → redrawn g2 g3 → redrawn g1 g3.
Proof. intros [] []. split; congruence. Qed.

Lemma redrawn_screen g g' :
  redrawn g g' → hres g' = hres g ∧ vres g' = vres g ∧ bpp g' = bpp g.
Proof. intros [_ Hm _]. unfold hres, vres, bpp. by rewrite Hm. Qed.

Lemma draws_ext g fits fits' a a' rc g' : fits = fits' → (∀ px py, a px py = a' px py) →
  draws g fits a rc g' → draws g fits' a' rc g'.
Proof.
  intros <- Ha. unfold draws, part_of. destruct fits.
  - intros [-> ?]. split; [done|]. eapply paints_ext; [|done]. auto.
  - intros (-> & f & ? & Hf). split; [done|]. exists f. split; [done|]. intros. rewrite <- Ha. auto.
Qed.

Lemma bpp_range g : gfx_ok g → 1 <= bpp g <= 4.
Proof.
  intros Hg. pose proof (ok_bits g Hg). unfold bpp, bytes_per_pixel.
  Z.to_euclidean_division_equations. lia.
Qed.

(** The pixels of the screen have distinct places in the buffer. *)
Lemma pixel_index g px py : in_screen g px py →
  0 <= hres g * py + px ∧ hres g * py + px + 1 <= hres g * vres g.
Proof. intros [[] []]. nia. Qed.

Lemma pixel_index_inj g px py px' py' : in_screen g px py → in_screen g px' py' →
  hres g * py + px = hres g * py' + px' → px = px' ∧ py = py'.
Proof.
  intros [] [] He. assert (py = py') as ->; [|split; [lia|done]].
  destruct (Z.lt_trichotomy py py') as [?|[?|?]]; [nia|done|nia].
Qed.

(** No product of the pixel address overflows. *)
Lemma pixel_bounds g px py : gfx_ok g → in_screen g px py →
  0 <= hres g * py < 2 ^ 31 ∧ 0 <= hres g * py + px < 2 ^ 31 ∧
  0 <= (hres g * py + px) * bpp g < 2 ^ 31.
Proof.
  intros Hg Hin. pose proof (pixel_index g px py Hin). pose proof (ok_small g Hg).
  pose proof (bpp_range g Hg). destruct Hin. nia.
Qed.

(** Storing a pixel's bytes changes that pixel only. *)
Lemma store_pixel g i j c : gfx_ok g → in_screen g i j →
  ∃ g', store_color ((hres g * j + i) * bpp g) c (bpp g) g = Done (tt, g') ∧
        paints g g' (area i j 1 1 (λ _ _, c)).
Proof.
  intros Hg Hin. pose proof (bpp_range g Hg) as Hb. pose proof (pixel_index g i j Hin) as [Hi0 Hi1].
  destruct (ok_back g Hg) as (l & Hl & Hlen). rewrite (ok_vram g Hg) in Hlen.
  set (n := Z.to_nat (bpp g)). set (k := Z.to_nat (hres g * j + i)).
  assert (length (le_bytes n c) = n) as Hn by (apply length_le_bytes; lia).
  assert (k * n + n <= length l)%nat as Hfit by nia.
  exists (set_back_buf (Some (splice (k * n) (le_bytes n c) l)) g). split.
  - unfold store_color. rewrite (proj2 (Z.leb_le _ _)) by lia. unfold store. fold n. rewrite Hl, Hn.
    rewrite (proj2 (Z.leb_le _ _)), (proj2 (Z.leb_le _ _)) by nia. simpl.
    by replace (Z.to_nat ((hres g * j + i) * bpp g)) with (k * n)%nat by nia.
  - split; try done.
    + destruct Hg as [Hg1 Hg2 Hg3 Hg4 Hg5 Hg6 Hg7]. split; try done. eexists; split; [done|].
      rewrite length_splice by lia. simpl. rewrite Hg5. lia.
    + intros px py Hpin. unfold get_pixel, pixel_of. simpl. rewrite Hl. simpl. fold n.
      unfold area. destruct (_ && _) eqn:E.
      * assert (px = i ∧ py = j) as [-> ->] by lia. fold k. f_equal. by apply chunk_splice_same.
      * f_equal. apply chunk_splice_other; [done..|]. intros Hk.
        assert (px = i ∧ py = j) as [-> ->]; [|lia].
        pose proof (pixel_index g px py Hpin). apply (pixel_index_inj g); [done..|]. lia.
Qed.

Lemma vg_draw_pixel_out g x y c :
  0 <= x → 0 <= y → hres g <= x ∨ vres g <= y → vg_draw_pixel x y c g = Done (1, g).
Proof.
  intros ?? Hout. unfold vg_draw_pixel, hres, vres in *. run_unfold.
  replace (_ || _) with true; [done|]. symmetry. rewrite !orb_true_iff. lia.
Qed.

(** vg_draw_pixel sets the pixel when it is on the screen, and fails without effect when not. *)
Lemma vg_draw_pixel_draws g x y c : gfx_ok g → 0 <= x → 0 <= y →
  wp (vg_draw_pixel x y c)
    (draws g ((x <? hres g) && (y <? vres g)) (area x y 1 1 (λ _ _, c))) g.
Proof.
  intros Hg ??. destruct (_ && _) eqn:E.
  - destruct (store_pixel g x y c Hg) as (g' & Hs & Hp); [unfold in_screen; lia|].
    unfold wp, vg_draw_pixel. run_unfold. fold (bpp g) (hres g) (vres g).
    replace ((x >=? hres g) || _ || _ || _) with false by (symmetry; rewrite !orb_false_iff; lia). destruct (pixel_bounds g x y Hg) as (? & ? & ?); [unfold in_screen; lia|].
    rewrite (i32_small (hres g * y)), (i32_small (_ + x)), (u32_small (_ + x)), u32_small by lia. rewrite Hs. by split.
  - unfold wp. rewrite vg_draw_pixel_out by lia. split; [done|]. exists nothing.
    split; [by apply paints_refl|]. intros ? ? ? [=].
Qed.

Lemma part_of_over f a full : part_of a full → part_of f full → part_of (over f a) full.
Proof. intros Ha Hf px py c. unfold over. destruct (f px py) eqn:E; [intros [= <-]|]; auto. Qed.

Lemma part_of_trans f a full : part_of f a → part_of a full → part_of f full.
Proof. unfold part_of. auto. Qed.

(** One more step of a drawing in progress. *)
Lemma draws_seq g s s' fits a b full rc :
  paints g s a → draws s fits b rc s' → part_of a full → part_of b full →
  if fits then rc = 0 ∧ paints g s' (over b a)
  else rc = 1 ∧ ∃ f, paints g s' f ∧ part_of f full.
Proof.
  intros Ha Hd Pa Pb. unfold draws in Hd. destruct fits.
  - destruct Hd as [-> ?]. split; [done|]. by eapply paints_trans.
  - destruct Hd as (-> & f & ? & ?). split; [done|]. exists (over f a).
    split; [by eapply paints_trans|]. apply part_of_over; [done|]. by eapply part_of_trans.
Qed.

(** Case analysis on whether a point is in an area. *)
Ltac area_cases :=
  unfold over, nothing, part_of, area; intros;
  repeat match goal with
  | |- context [if ?b then _ else _] => destruct b eqn:?
  | H : context [if ?b then _ else _] |- _ => destruct b eqn:?
  end;
  rewrite ?andb_true_iff, ?andb_false_iff, ?Z.leb_le, ?Z.leb_gt, ?Z.ltb_lt, ?Z.ltb_ge in *;
  simplify_eq; try done; try (exfalso; lia); repeat first [lia | done | f_equal].

Section raster.
Context (x : Z) (w : nat).
Context (Hx : 0 <= x < 65536).

Definition row_fits (g : gfx) (y : Z) : bool :=
  (Z.of_nat w =? 0) || (x + Z.of_nat w <=? hres g) && (y <? vres g).

Lemma draws_row (P : Z → M gfx Z) y c g : gfx_ok g → 0 <= y →
  (∀ j s, 0 <= j < Z.of_nat w → x + j < 65536 → P j s = vg_draw_pixel (x + j) y (c j) s) →
  wp (for_rc w 0 P) (draws g (row_fits g y) (area x y (Z.of_nat w) 1 (λ _, c))) g.
Proof.
  intros Hg Hy HP. set (a := λ n, area x y n 1 (λ _, c)).
  eapply wp_mono; [|apply (wp_for_rc w 0 P
    (λ j s, paints g s (a j) ∧ (j = 0 ∨ x + j <= hres g ∧ y < vres g))
    (λ j s, (hres g <= x + j ∨ vres g <= y) ∧ ∃ f, paints g s f ∧ part_of f (a (Z.of_nat w))))].
  - unfold row_fits. intros rc s [(-> & Hp & Hf)|(-> & j & Hj & Hf & f & Hp)].
    + replace (_ || _) with true by lia. by split.
    + replace (_ || _) with false by lia. split; [done|]. by exists f.
  - intros j s Hj [Hp Hf]. destruct (paints_screen _ _ _ Hp) as (Hhx & Hvy & _).
    pose proof (ok_x g Hg). eapply wp_ext; [apply HP; lia|].
    eapply wp_mono; [|apply (vg_draw_pixel_draws s); [by eapply paints_ok|lia..]].
    intros rc s' Hd. eapply (draws_seq g _ _ _ (a j) _ (a (Z.of_nat w))) in Hd; [|done|..].
    + rewrite Hhx, Hvy in Hd. destruct (_ && _) eqn:E; destruct Hd as [-> Hd]; simpl.
      * split; [|lia]. eapply paints_ext; [|done]. unfold a. area_cases.
      * split; [lia|done].
    + unfold a. area_cases.
    + unfold a. area_cases.
  - split; [|by left]. eapply paints_ext; [|by apply paints_refl]. unfold a. area_cases.
Qed.

Context (y : Z) (h : nat) (col : Z → Z → Z).
Context (Hy : 0 <= y < 65536).

(** An image fits on the screen, or has no pixel. *)
Definition image_fits (g : gfx) : bool :=
  (Z.of_nat w =? 0) || (Z.of_nat h =? 0) ||
  (x + Z.of_nat w <=? hres g) && (y + Z.of_nat h <=? vres g).

Lemma draws_raster (P : Z → Z → M gfx Z) g : gfx_ok g →
  (∀ i j s, 0 <= i < Z.of_nat h → 0 <= j < Z.of_nat w → x + j < 65536 → y + i < 65536 →
     P i j s = vg_draw_pixel (x + j) (y + i) (col i j) s) →
  wp (for_rc h 0 (λ i, for_rc w 0 (P i)))
    (draws g (image_fits g) (area x y (Z.of_nat w) (Z.of_nat h) col)) g.
Proof using Hx Hy.
  intros Hg HP. set (a := λ n, area x y (Z.of_nat w) n col).
  eapply wp_mono; [|apply (wp_for_rc h 0 (λ i, for_rc w 0 (P i))
    (λ i s, paints g s (a i) ∧ (i = 0 ∨ w = 0%nat ∨ x + Z.of_nat w <= hres g ∧ y + i <= vres g))
    (λ i s, (w ≠ 0%nat ∧ (hres g < x + Z.of_nat w ∨ vres g <= y + i)) ∧
            ∃ f, paints g s f ∧ part_of f (a (Z.of_nat h))))].
  - unfold image_fits. intros rc s [(-> & Hp & Hf)|(-> & i & Hi & Hf & f & Hp)].
    + replace (_ || _) with true by lia. by split.
    + replace (_ || _) with false by lia. split; [done|]. by exists f.
  - intros i s Hi [Hp Hf]. destruct (paints_screen _ _ _ Hp) as (Hhx & Hvy & _).
    pose proof (ok_x g Hg). pose proof (ok_y g Hg).
    destruct (decide (w = 0%nat)) as [Hw|Hw].
    { apply (wp_ext _ (mret 0)); [by rewrite Hw|]. apply wp_ret. simpl. split; [|auto].
      eapply paints_ext; [|done]. unfold a. area_cases. }
    eapply wp_mono; [|apply (draws_row (P i) (y + i) (col i) s)].
    + intros rc s' Hd. eapply (draws_seq g _ _ _ (a i) _ (a (Z.of_nat h))) in Hd; [|done|..].
      * unfold row_fits in Hd. rewrite Hhx, Hvy in Hd.
        destruct (_ || _) eqn:E; destruct Hd as [-> Hd]; simpl.
        -- split; [|lia]. eapply paints_ext; [|done]. unfold a. area_cases.
        -- split; [lia|done].
      * unfold a. area_cases.
      * unfold a. area_cases.
    + by eapply paints_ok.
    + lia.
    + intros j s0 Hj Hj'. apply HP; lia.
  - split; [|by left]. eapply paints_ext; [|by apply paints_refl]. unfold a. area_cases.
Qed.
End raster.

(** ** What the drawing functions paint *)

Lemma draws_weaken g a fits rc g' : draws g fits a rc g' →
  ∃ f, paints g g' f ∧ part_of f a ∧ rc = if fits then 0 else 1.
Proof.
  unfold draws, part_of. destruct fits; intros; open_hyps; subst; eauto 6.
Qed.

Lemma vg_draw_rectangle_draws g x y width height c : gfx_ok g →
  0 <= x < 65536 → 0 <= y < 65536 → 0 <= width < 65536 → 0 <= height < 65536 →
  wp (vg_draw_rectangle x y width height c)
    (draws g (image_fits x (Z.to_nat width) y (Z.to_nat height) g) (area x y width height (λ _ _, c))) g.
Proof.
  intros Hg Hx Hy Hw Hh. eapply wp_mono;
    [|apply (draws_raster x (Z.to_nat width) Hx y (Z.to_nat height) (λ _ _, c) Hy); [done|]].
  - intros rc g'. apply draws_ext; [done|]. intros. area_cases.
  - intros i j s ????. by rewrite !u32_small, !u16_small by (rewrite ?u32_small; lia).
Qed.

Lemma print_image_draws g w h color (f : Z → Z → Z) x y : gfx_ok g →
  0 < w < 65536 → 0 < h < 65536 → 0 <= x < 65536 → 0 <= y < 65536 →
  (∀ i j, 0 <= i < h → 0 <= j < w → color (i * w + j) = Some (f i j)) →
  wp (print_image w h color x y)
    (draws g ((x + w <=? hres g) && (y + h <=? vres g)) (area x y w h f)) g.
Proof.
  intros Hg Hw Hh Hx Hy Hc. unfold print_image.
  eapply wp_mono; [|apply (draws_raster x (Z.to_nat w) Hx y (Z.to_nat h) f Hy); [done|]].
  - intros rc g'. apply draws_ext; [|intros; area_cases]. unfold image_fits.
    rewrite !Z2Nat.id by lia. by destruct (w =? 0) eqn:?, (h =? 0) eqn:?; [lia..|].
  - intros i j s ????. rewrite Hc by lia. eapply eq_trans; [apply run_some|]. rewrite !u16_small by lia.
    by rewrite (Z.add_comm j), (Z.add_comm i).
Qed.

(** The loops draw what the colours are. *)
Lemma print_image_ext w h color color' x y :
  (∀ i j, 0 <= i < h → 0 <= j < w → color (i * w + j) = color' (i * w + j)) →
  ∀ g, print_image w h color x y g = print_image w h color' x y g.
Proof.
  intros Hc. unfold print_image. apply for_rc_ext. intros i Hi g. apply for_rc_ext.
  intros j Hj g'. by rewrite Hc by lia.
Qed.

Section sprite.
Context `{XpmLoader}.

(** The colour of row [i] and column [j] of a loaded pixmap. *)
Definition sprite_color (m : xpm_map) (i j : Z) : Z :=
  match xpm_load m XPM_8_8_8_8 with
  | Some img => default 0 (color_at img (i * img_width img + j))
  | None => 0
  end.

Lemma print_loaded_draws g m w h x y : gfx_ok g → loads_as m w h →
  0 <= x < 65536 → 0 <= y < 65536 →
  wp (print_xpm m x y)
    (draws g ((x + w <=? hres g) && (y + h <=? vres g)) (area x y w h (sprite_color m))) g.
Proof.
  intros Hg (Hw & Hh & img & Hl & <- & <- & Hlen) Hx Hy.
  unfold print_xpm. rewrite Hl. eapply wp_ext; [apply run_some|].
  apply print_image_draws; try done. intros i j Hi Hj. unfold sprite_color. rewrite Hl.
  destruct (color_at_inside img (i * img_width img + j)) as [c Hc]; [nia..|]. by rewrite Hc.
Qed.
End sprite.

Lemma print_xpm_draws `{XpmLoaderLaws} g m w h x y : gfx_ok g → xpm_dims m = Some (w, h) →
  0 <= x < 65536 → 0 <= y < 65536 →
  wp (print_xpm m x y)
    (draws g ((x + w <=? hres g) && (y + h <=? vres g)) (area x y w h (sprite_color m))) g.
Proof. intros Hg Hd. by apply print_loaded_draws, xpm_loads_as. Qed.

(** The colour norm_color yields. *)
Definition normal (g : gfx) (c : Z) : Z :=
  if BitsPerPixel (mode_info g) =? 32 then c
  else Z.land c (u32 (i32 (BIT (BitsPerPixel (mode_info g)) - 1))).

Lemma norm_color_run g c : gfx_ok g → norm_color c g = Done (normal g c, g).
Proof.
  intros Hg. pose proof (ok_bits g Hg). unfold norm_color, normal. run_unfold. simpl.
  destruct (_ =? 32) eqn:E; [done|]. by rewrite (proj2 (Z.ltb_lt _ _)) by lia.
Qed.

(** For a colour of the mode's depth it is the colour itself. *)
Lemma normal_id g c : gfx_ok g → 0 <= c < 2 ^ BitsPerPixel (mode_info g) →
  BitsPerPixel (mode_info g) < 31 → normal g c = c.
Proof.
  intros Hg Hc Hb. pose proof (ok_bits g Hg). unfold normal. destruct (_ =? 32); [done|].
  assert (2 ^ BitsPerPixel (mode_info g) <= 2 ^ 30) by (apply Z.pow_le_mono_r; lia).
  rewrite BIT_pow, i32_small, u32_small by lia.
  rewrite Z.sub_1_r, <- Z.ones_equiv, Z.land_ones by lia. by apply Z.mod_small.
Qed.

(** ** Clearing and swapping *)

Lemma clear_loop_paints fuel : ∀ k c g, gfx_ok g → 0 <= k <= hres g * vres g →
  hres g * vres g - k < Z.of_nat fuel →
  wp (clear_loop fuel (k * bpp g) c (bpp g))
    (λ _ g', paints g g' (λ px py, if k <=? hres g * py + px then Some c else None)) g.
Proof.
  induction fuel as [|fuel IH]; intros k c g Hg Hk Hfuel; [lia|].
  pose proof (bpp_range g Hg). pose proof (ok_small g Hg). pose proof (ok_x g Hg).
  simpl. apply wp_bind, wp_gets. rewrite (ok_vram g Hg).
  destruct (k * bpp g <? hres g * vres g * bpp g) eqn:E.
  - assert (k < hres g * vres g) as Hlt by nia.
    assert (hres g ≠ 0) by (intros E0; rewrite E0 in Hlt; lia).
    pose proof (Z.div_mod k (hres g)). pose proof (Z.mod_pos_bound k (hres g)).
    assert (in_screen g (k mod hres g) (k / hres g)) as Hin.
    { split; [lia|]. split; [apply Z.div_pos; lia|apply Z.div_lt_upper_bound; lia]. }
    destruct (store_pixel g _ _ c Hg Hin) as (g1 & Hs & Hp). rewrite <- Z.div_mod in Hs by lia.
    eapply wp_run; [exact Hs|]. destruct (paints_screen _ _ _ Hp) as (Hhx & Hvy & Hb).
    rewrite u32_small by nia. replace (k * bpp g + bpp g) with ((k + 1) * bpp g1) by nia.
    rewrite <- Hb. eapply wp_mono; [|apply IH; [by eapply paints_ok|nia..]].
    intros [] g2 Hp2. eapply paints_ext; [|by eapply paints_trans]. intros px py Hpin.
    rewrite Hhx. unfold over, area. pose proof (pixel_index_inj g px py _ _ Hpin Hin) as Hinj.
    destruct (k + 1 <=? _) eqn:E1, (k <=? _) eqn:E2; try done; try lia.
    all: destruct (_ && _) eqn:E3; try done; exfalso.
    + assert (px = k mod hres g ∧ py = k / hres g) as [-> ->] by (apply Hinj; lia). lia.
    + assert (px = k mod hres g ∧ py = k / hres g) as [-> ->] by lia. lia.
  - apply wp_ret. eapply paints_ext; [|by apply paints_refl]. intros px py Hin.
    pose proof (pixel_index g px py Hin). assert (k = hres g * vres g) as -> by nia.
    cbv beta. by rewrite (proj2 (Z.leb_gt _ _)) by lia.
Qed.

Lemma clear_back_buf_paints g c : gfx_ok g →
  wp (clear_back_buf c) (λ _ g', paints g g' (λ _ _, Some (normal g c))) g.
Proof.
  intros Hg. unfold clear_back_buf. apply wp_bind, wp_gets. eapply wp_run; [by apply norm_color_run|].
  apply wp_bind, wp_gets. pose proof (bpp_range g Hg).
  assert (0 <= hres g * vres g) by (apply Z.mul_nonneg_nonneg; apply (ok_x g) || apply (ok_y g); done).
  eapply wp_mono; [|apply (clear_loop_paints _ 0 (normal g c)); [done|lia|]].
  - intros [] g' Hp. eapply paints_ext; [|done]. intros px py Hin.
    pose proof (pixel_index g px py Hin). cbv beta. by rewrite (proj2 (Z.leb_le _ _)) by lia.
  - rewrite (ok_vram g Hg), Nat2Z.inj_succ, Z2Nat.id by nia. nia.
Qed.

(** swap_buffers makes the screen a copy of the back buffer. *)
Lemma swap_buffers_run g : gfx_ok g → swap_buffers g = Done (tt, set_video_mem (back_buf g) g).
Proof.
  intros Hg. destruct (ok_back g Hg) as (bb & Hb & Hbl), (ok_video g Hg) as (vm & Hv & Hvl).
  unfold swap_buffers. rewrite Hb, Hv, Hbl, Hvl, Z.leb_refl. simpl. do 3 f_equal. unfold splice.
  rewrite (take_ge bb), (drop_ge vm) by lia. by rewrite app_nil_r.
Qed.

Lemma swap_buffers_ok g : gfx_ok g → gfx_ok (set_video_mem (back_buf g) g).
Proof. intros []. by split. Qed.

(** ** Mode setting *)
Section mode_setting.
Context {W : Type} `{VideoLaws W} `{Panic W}.

(** A mode that the drawing code supports. *)
Definition usable (mi : vbe_mode_info) : Prop :=
  1 <= BitsPerPixel mi <= 32 ∧ XResolution mi * YResolution mi * bytes_per_pixel mi < 2 ^ 31.

Lemma set_frame_buffer_ok mode w g :
  let mi := (vbe_get_mode_info mode w).1.2 in
  wp (set_frame_buffer mode)
    (λ rc s, mode_info s.2 = mi ∧ (rc = 0 → usable mi → gfx_ok s.2)) (w, g).
Proof.
  simpl. unfold wp, set_frame_buffer.
  pose proof (vbe_field_range mode w) as Hr. simpl in Hr.
  destruct (vbe_get_mode_info mode w) as [[rc mi] w1]. simpl in *.
  destruct (negb (rc =? 0)); [by split|].
  set (n := u32 (u32 (i32 (XResolution mi * YResolution mi)) * bytes_per_pixel mi)).
  destruct (sys_privctl_add_mem _ _ _) as [rc2 w2].
  destruct (negb (rc2 =? 0)); [by split|].
  pose proof (vm_map_phys_length (PhysBasePtr mi) n w2) as Hvm.
  destruct (vm_map_phys _ _ _) as [[vm|] w3]; simpl; [|by split].
  pose proof (malloc_length n w3) as Hbb.
  destruct (malloc _ _) as [[bb|] w4]; simpl; [|by split].
  split; [done|]. intros _ [Hb Hs].
  pose proof (u32_range (u32 (i32 (XResolution mi * YResolution mi)) * bytes_per_pixel mi)).
  assert (1 <= bytes_per_pixel mi <= 4) as Hbpp
    by (unfold bytes_per_pixel; Z.to_euclidean_division_equations; lia).
  assert (n = XResolution mi * YResolution mi * bytes_per_pixel mi) as Hn.
  { unfold n. rewrite (i32_small (_ * _)), (u32_small (_ * YResolution mi)), u32_small by nia. done. }
  destruct Hr as (? & ? & ?). split; unfold hres, vres, bpp; simpl; try lia.
  - exists bb. split; [done|]. apply Hbb; [lia|done].
  - exists vm. split; [done|]. apply Hvm; [lia|done].
Qed.

(** The size of a screen, as set_frame_buffer computes it. *)
Definition screen_bytes (mi : vbe_mode_info) : Z :=
  u32 (u32 (i32 (XResolution mi * YResolution mi)) * bytes_per_pixel mi).

(** The BIOS, the kernel and malloc grant what set_frame_buffer asks for. *)
Definition frame_buffer_granted (mode : Z) (w : W) : Prop :=
  ∃ mi w1 w2 vm w3 bb w4,
    vbe_get_mode_info mode w = ((0, mi), w1) ∧
    sys_privctl_add_mem (PhysBasePtr mi) (u32 (PhysBasePtr mi + screen_bytes mi)) w1 = (0, w2) ∧
    vm_map_phys (PhysBasePtr mi) (screen_bytes mi) w2 = (Some vm, w3) ∧
    malloc (screen_bytes mi) w3 = (Some bb, w4).

Lemma frame_buffer_granted_iff mode w g :
  match set_frame_buffer mode (w, g) with Done (rc, _) => rc | _ => 1 end = 0 ↔
  frame_buffer_granted mode w.
Proof.
  unfold set_frame_buffer, frame_buffer_granted.
  destruct (vbe_get_mode_info mode w) as [[rc mi] w1]. fold (screen_bytes mi). cbv zeta.
  destruct (sys_privctl_add_mem _ _ w1) as [rc2 w2] eqn:E2.
  destruct (vm_map_phys _ _ w2) as [[vm|] w3] eqn:E3;
    [destruct (malloc _ w3) as [[bb|] w4] eqn:E4|].
  all: destruct (rc =? 0) eqn:E; [apply Z.eqb_eq in E as ->|]; cbn [negb];
    try (destruct (rc2 =? 0) eqn:E2'; [apply Z.eqb_eq in E2' as ->|]; cbn [negb]).
  all: split; intros; try done; try (by do 7 eexists); open_hyps; simplify_eq; merge_calls; lia.
Qed.
End mode_setting.

(** ** clear_area *)

Lemma area_row_draws fuel : ∀ j stop i c g, gfx_ok g → 0 <= j < 65536 → 0 <= i →
  65536 - j < Z.of_nat fuel →
  wp (area_row fuel j stop i c)
    (draws g ((stop <=? j) || (stop <=? hres g) && (i <? vres g))
       (area j i (stop - j) 1 (λ _ _, c))) g.
Proof.
  induction fuel as [|fuel IH]; intros j stop i c g Hg Hj Hi Hfuel; [lia|]. simpl.
  pose proof (ok_x g Hg). destruct (j <? stop) eqn:E.
  - apply wp_check. eapply wp_mono; [|apply vg_draw_pixel_draws; [done|lia..]].
    intros rc s Hd. destruct ((j <? hres g) && (i <? vres g)) eqn:Ef.
    + destruct Hd as [-> Hp]. simpl. destruct (paints_screen _ _ _ Hp) as (Hhx & Hvy & _).
      rewrite u16_small by lia. eapply wp_mono; [|apply IH; [by eapply paints_ok|lia..]].
      intros rc s' Hd. rewrite Hhx, Hvy in Hd.
      eapply (draws_seq g _ _ _ _ _ (area j i (stop - j) 1 (λ _ _, c))) in Hd;
        [|exact Hp|area_cases..].
      eapply (draws_ext _ ((stop <=? j + 1) || (stop <=? hres g) && (i <? vres g)) _
        (over (area (j + 1) i (stop - (j + 1)) 1 (λ _ _, c)) (area j i 1 1 (λ _ _, c))));
        [|intros; area_cases|].
      * replace (stop <=? j) with false by lia. destruct (stop <=? j + 1) eqn:?; [|done].
        replace (stop <=? hres g) with true by lia. simpl. lia.
      * unfold draws. destruct (_ || _); [done|]. destruct Hd as (-> & f & Hf & Hpart).
        split; [done|]. exists f. split; [done|]. eapply part_of_trans; [done|area_cases].
    + destruct Hd as (-> & f & Hp & Hpart). simpl. replace (_ || _) with false by lia.
      split; [done|]. exists f. split; [done|]. eapply part_of_trans; [done|area_cases].
  - apply wp_ret. replace (stop <=? j) with true by lia. split; [done|].
    eapply paints_ext; [|by apply paints_refl]. intros. area_cases.
Qed.

Lemma area_rows_draws fuel : ∀ i stop x xstop c g, gfx_ok g → 0 <= x < 65536 → 0 <= i < 65536 →
  x < xstop ∨ stop < 65536 → 65536 - i < Z.of_nat fuel →
  wp (area_rows fuel i stop x xstop c)
    (draws g ((xstop <=? x) || (stop <=? i) || (xstop <=? hres g) && (stop <=? vres g))
       (area x i (xstop - x) (stop - i) (λ _ _, c))) g.
Proof.
  induction fuel as [|fuel IH]; intros i stop x xstop c g Hg Hx Hi Hex Hfuel; [lia|].
  pose proof (ok_y g Hg). cbn [area_rows]. destruct (i <? stop) eqn:E.
  - apply wp_check. eapply wp_mono; [|apply area_row_draws; [done|lia..]].
    intros rc s Hd. destruct ((xstop <=? x) || (xstop <=? hres g) && (i <? vres g)) eqn:Ef.
    + destruct Hd as [-> Hp]. simpl. destruct (paints_screen _ _ _ Hp) as (Hhx & Hvy & _).
      rewrite u16_small by lia. eapply wp_mono; [|apply IH; [by eapply paints_ok|lia..]].
      intros rc s' Hd. rewrite Hhx, Hvy in Hd.
      eapply (draws_seq g _ _ _ _ _ (area x i (xstop - x) (stop - i) (λ _ _, c))) in Hd;
        [|exact Hp|area_cases..].
      replace ((xstop <=? x) || (stop <=? i) || _) with
        ((xstop <=? x) || (stop <=? i + 1) || (xstop <=? hres g) && (stop <=? vres g)) by lia.
      unfold draws. destruct (_ || _ || _); [|done]. destruct Hd as [-> Hd]. split; [done|].
      eapply paints_ext; [|done]. intros. area_cases.
    + destruct Hd as (-> & f & Hp & Hpart). simpl. replace (_ || _) with false by lia.
      split; [done|]. exists f. split; [done|]. eapply part_of_trans; [done|area_cases].
  - apply wp_ret. replace (_ || _) with true by lia. split; [done|].
    eapply paints_ext; [|by apply paints_refl]. intros. area_cases.
Qed.

Lemma area_row_empty fuel x i c g : area_row (S fuel) x x i c g = Done (0, g).
Proof. simpl. by rewrite Z.ltb_irrefl. Qed.

(** A row of no pixels never ends the loop over a 16-bit row counter that cannot reach [stop]. *)
Lemma area_rows_stuck fuel : ∀ i stop x c g, 0 <= i < 65536 → 65536 <= stop →
  area_rows fuel i stop x x c g = OutOfFuel.
Proof.
  induction fuel as [|fuel IH]; intros i stop x c g Hi Hs; [done|].
  cbn [area_rows]. rewrite (proj2 (Z.ltb_lt i stop)) by lia.
  unfold check. rewrite (run_done _ _ _ 0 g (area_row_empty _ _ _ _ _)).
  apply IH; [apply u16_range|done].
Qed.

(** ** Properties *)

Section properties.
Context {W : Type} `{VideoLaws W} `{Panic W} `{XpmLoaderLaws}.

(** C19. set_frame_buffer always returns; it succeeds exactly when the BIOS, the kernel and malloc
    accept the calls for one screen of the mode, in their order; and on success in a usable mode
    the two buffers are exactly one screen each, so every address that the drawing code computes
    is inside them. *)
Theorem set_frame_buffer_establishes mode w g :
  let mi := (vbe_get_mode_info mode w).1.2 in
  usable mi →
  wp (set_frame_buffer mode) (λ rc s,
    (rc = 0 ↔ frame_buffer_granted mode w) ∧
    (rc = 0 → gfx_ok s.2 ∧ hres s.2 = XResolution mi ∧
      ∀ px py, in_screen s.2 px py →
        (hres s.2 * py + px) * bpp s.2 + bpp s.2 <= vram_size s.2)) (w, g).
Proof.
  intros mi Hu. pose proof (set_frame_buffer_ok mode w g) as Hok.
  apply wp_done in Hok as (rc & s & Hr & Hm & Hok). apply wp_done. exists rc, s. split; [done|].
  split.
  - apply (f_equal (λ o, match o with Done (rc, _) => rc | _ => 1 end)) in Hr as Hrc. simpl in Hrc.
    rewrite <- Hrc. apply (frame_buffer_granted_iff mode w g).
  - intros Hrc. specialize (Hok Hrc Hu). split; [done|]. split; [by apply (f_equal XResolution) in Hm|].
    intros px py Hin. pose proof (pixel_index _ _ _ Hin). pose proof (bpp_range _ Hok).
    rewrite (ok_vram _ Hok). nia.
Qed.

(** C17. vg_draw_rectangle never writes outside the buffer; it returns 0 exactly when the
    rectangle fits on the screen (or is empty), and then the pixels inside read back as the
    colour; in all cases the pixels outside are unchanged. *)
Theorem vg_draw_rectangle_pixels g x y width height c : gfx_ok g →
  0 <= x < 65536 → 0 <= y < 65536 → 0 <= width < 65536 → 0 <= height < 65536 →
  wp (vg_draw_rectangle x y width height c) (λ rc g',
    gfx_ok g' ∧
    (rc = 0 ↔ width = 0 ∨ height = 0 ∨ x + width <= hres g ∧ y + height <= vres g) ∧
    ∀ px py, in_screen g px py →
      if (x <=? px) && (px <? x + width) && (y <=? py) && (py <? y + height)
      then rc = 0 → get_pixel g' px py = Some (le_bytes (Z.to_nat (bpp g)) c)
      else get_pixel g' px py = get_pixel g px py) g.
Proof.
  intros Hg Hx Hy Hw Hh. eapply wp_mono; [|by apply vg_draw_rectangle_draws].
  intros rc g' Hd. pose proof (draws_ok _ _ _ _ _ Hd) as [Hok _]. split; [done|].
  unfold draws, image_fits in Hd. rewrite !Z2Nat.id in Hd by lia. split.
  - destruct (_ || _) eqn:E; destruct Hd as [-> _]; lia.
  - intros px py Hin. destruct (_ || _) in Hd; destruct Hd as [-> Hd].
    + rewrite (paints_pixel _ _ _ Hd) by done. unfold area. by destruct (_ && _ && _ && _).
    + destruct Hd as (f & Hp & Hpart). destruct (_ && _) eqn:E; [done|].
      rewrite (paints_pixel _ _ _ Hp) by done. destruct (f px py) eqn:Ef; [|done].
      apply Hpart in Ef. unfold area in Ef. by rewrite E in Ef.
Qed.

(** C16. print_xpm of a well-formed pixmap of [w] by [h] pixels never writes outside the buffer;
    it returns 0 exactly when the whole image is on the screen, and then every pixel of the
    image reads back as the colour the loader gave it and every other pixel is unchanged. *)
Theorem print_xpm_pixels g m w h x y : gfx_ok g → xpm_dims m = Some (w, h) →
  0 <= x < 65536 → 0 <= y < 65536 →
  wp (print_xpm m x y) (λ rc g',
    gfx_ok g' ∧ (rc = 0 ↔ x + w <= hres g ∧ y + h <= vres g) ∧
    (rc = 0 → ∀ px py, in_screen g px py →
       get_pixel g' px py =
         if (x <=? px) && (px <? x + w) && (y <=? py) && (py <? y + h)
         then Some (le_bytes (Z.to_nat (bpp g)) (sprite_color m (py - y) (px - x)))
         else get_pixel g px py)) g.
Proof.
  intros Hg Hd Hx Hy. eapply wp_mono; [|by apply (print_xpm_draws g m w h)].
  intros rc g' Hdr. pose proof (draws_ok _ _ _ _ _ Hdr) as [Hok _]. split; [done|].
  unfold draws in Hdr. destruct (_ && _) eqn:E; destruct Hdr as [-> Hdr]; (split; [lia|]); [|done].
  intros _ px py Hin. rewrite (paints_pixel _ _ _ Hdr) by done. unfold area. by destruct (_ && _ && _ && _).
Qed.

(** clear_back_buf ends, and the frame that the following swap_buffers shows has the
    normalised colour at every pixel; the screen is then a copy of the back buffer. *)
Theorem clear_then_swap_shows g c : gfx_ok g →
  wp (clear_back_buf c;; swap_buffers) (λ _ g',
    gfx_ok g' ∧ video_mem g' = back_buf g' ∧
    ∀ px py, in_screen g px py →
      pixel_of g (video_mem g') px py = Some (le_bytes (Z.to_nat (bpp g)) (normal g c))) g.
Proof.
  intros Hg. apply wp_bind. eapply wp_mono; [|by apply clear_back_buf_paints].
  intros [] g1 Hp. pose proof (paints_ok _ _ _ Hp) as Hok.
  unfold wp. rewrite swap_buffers_run by done. split; [by apply swap_buffers_ok|].
  split; [done|]. intros px py Hin. destruct (paints_screen _ _ _ Hp) as (Hhx & Hvy & Hb).
  pose proof (paints_pixel _ _ _ Hp px py Hin) as Hpx. simpl in Hpx. rewrite <- Hpx.
  unfold get_pixel, pixel_of. simpl. by rewrite Hhx, Hb.
Qed.

(** C18. clear_area ends with the area drawn or clipped at the edge of the screen, except when
    its rows are empty and it reaches below row 65535: then its 16-bit row counter wraps
    forever, whatever the number of iterations allowed. *)
Theorem clear_area_result g x y width height c : gfx_ok g →
  0 <= x < 65536 → 0 <= y < 65536 → 0 <= width < 65536 → 0 <= height < 65536 →
  if (width =? 0) && (65536 <=? y + height)
  then ∀ fuel, area_rows fuel y (y + height) x (x + width) c g = OutOfFuel
  else wp (clear_area x y width height c)
         (draws g ((width =? 0) || (height =? 0) || (x + width <=? hres g) && (y + height <=? vres g))
            (area x y width height (λ _ _, normal g c))) g.
Proof.
  intros Hg Hx Hy Hw Hh. destruct (_ && _) eqn:E.
  - intros fuel. assert (width = 0) as -> by lia. rewrite Z.add_0_r. apply area_rows_stuck; lia.
  - unfold clear_area. eapply wp_run; [by apply norm_color_run|].
    eapply wp_mono; [|apply area_rows_draws; [done|lia..]].
    intros rc g'. apply draws_ext; [|intros; area_cases].
    destruct (width =? 0) eqn:?, (height =? 0) eqn:?; lia.
Qed.
End properties.

(** ** Witnesses: a 4x4 screen of one byte per pixel *)
Module Tiny.
Import Sim BlankLoader.

#[export] Instance sim_panic : Panic sim := {| panic := id |}.

Definition blank_buffer : list Z := replicate 16 0.
Definition tiny : gfx := Gfx tiny_mode 16 (Some blank_buffer) (Some blank_buffer).

Lemma tiny_ok : gfx_ok tiny.
Proof. split; vm_compute; first [done | split; done | eexists; split; done]. Qed.

(** A pixmap of 2 by 2 pixels. *)
Definition dot : xpm_map := ["2 2 1 1"; "a c #000000"; "aa"; "aa"]%xpm.

Lemma set_frame_buffer_establishes_witness :
  usable (vbe_get_mode_info 0x14c quiet).1.2 ∧
  wp (set_frame_buffer 0x14c) (λ rc s,
    (rc = 0 ↔ frame_buffer_granted 0x14c quiet) ∧
    (rc = 0 → gfx_ok s.2 ∧ hres s.2 = XResolution (vbe_get_mode_info 0x14c quiet).1.2 ∧
      ∀ px py, in_screen s.2 px py →
        (hres s.2 * py + px) * bpp s.2 + bpp s.2 <= vram_size s.2)) (quiet, tiny).
Proof.
  assert (usable (vbe_get_mode_info 0x14c quiet).1.2) as Hu
    by (split; [split; vm_compute; done|vm_compute; done]).
  split; [done|]. apply (set_frame_buffer_establishes 0x14c quiet tiny Hu).
Defined.

Lemma vg_draw_rectangle_pixels_witness :
  gfx_ok tiny ∧
  wp (vg_draw_rectangle 1 1 2 3 7) (λ rc g',
    gfx_ok g' ∧
    (rc = 0 ↔ 2 = 0 ∨ 3 = 0 ∨ 1 + 2 <= hres tiny ∧ 1 + 3 <= vres tiny) ∧
    ∀ px py, in_screen tiny px py →
      if (1 <=? px) && (px <? 1 + 2) && (1 <=? py) && (py <? 1 + 3)
      then rc = 0 → get_pixel g' px py = Some (le_bytes (Z.to_nat (bpp tiny)) 7)
      else get_pixel g' px py = get_pixel tiny px py) tiny.
Proof. split; [exact tiny_ok|]. apply (vg_draw_rectangle_pixels tiny 1 1 2 3 7 tiny_ok); lia. Defined.

Lemma print_xpm_pixels_witness :
  xpm_dims dot = Some (2, 2) ∧
  wp (print_xpm dot 1 2) (λ rc g',
    gfx_ok g' ∧ (rc = 0 ↔ 1 + 2 <= hres tiny ∧ 2 + 2 <= vres tiny) ∧
    (rc = 0 → ∀ px py, in_screen tiny px py →
       get_pixel g' px py =
         if (1 <=? px) && (px <? 1 + 2) && (2 <=? py) && (py <? 2 + 2)
         then Some (le_bytes (Z.to_nat (bpp tiny)) (sprite_color dot (py - 2) (px - 1)))
         else get_pixel tiny px py)) tiny.
Proof.
  assert (xpm_dims dot = Some (2, 2)) as Hd by (vm_compute; reflexivity).
  split; [exact Hd|]. apply (print_xpm_pixels tiny dot 2 2 1 2 tiny_ok Hd); lia.
Defined.

Lemma clear_then_swap_shows_witness :
  gfx_ok tiny ∧
  wp (clear_back_buf 0x3ff;; swap_buffers) (λ _ g',
    gfx_ok g' ∧ video_mem g' = back_buf g' ∧
    ∀ px py, in_screen tiny px py →
      pixel_of tiny (video_mem g') px py = Some (le_bytes (Z.to_nat (bpp tiny)) (normal tiny 0x3ff))) tiny.
Proof. split; [exact tiny_ok|]. apply (clear_then_swap_shows tiny 0x3ff tiny_ok). Defined.

Lemma clear_area_result_witness :
  gfx_ok tiny ∧
  if (2 =? 0) && (65536 <=? 1 + 3)
  then ∀ fuel, area_rows fuel 1 (1 + 3) 1 (1 + 2) 9 tiny = OutOfFuel
  else wp (clear_area 1 1 2 3 9)
         (draws tiny ((2 =? 0) || (3 =? 0) || (1 + 2 <=? hres tiny) && (1 + 3 <=? vres tiny))
            (area 1 1 2 3 (λ _ _, normal tiny 9))) tiny.
Proof. split; [exact tiny_ok|]. apply (clear_area_result tiny 1 1 2 3 9 tiny_ok); lia. Defined.

(** The buffer after a rectangle and a clipped sprite. *)
Example tiny_run :
  (vg_draw_rectangle 1 1 2 3 7;; print_xpm dot 3 0)
    tiny = Done (1, set_back_buf (Some [0;0;0;0; 0;7;7;0; 0;7;7;0; 0;7;7;0]) tiny).
Proof. vm_compute. reflexivity. Qed.
End Tiny.

(** The screen of mode 0x14c: 1152 by 864 pixels of 32 bits. *)
Module Screen.
Definition mode_14c : vbe_mode_info := VbeModeInfo 1152 864 32 6 8 16 8 8 8 0 0.
Definition blank : list Z := replicate (Z.to_nat 3981312) 0.
Definition screen : gfx := Gfx mode_14c 3981312 (Some blank) (Some blank).

Lemma screen_ok : gfx_ok screen.
Proof.
  assert (Z.of_nat (length blank) = 3981312) as Hl
    by (unfold blank; rewrite length_replicate, Z2Nat.id by lia; done).
  split; cbn -[blank]; try lia; try (split; lia).
  all: exists blank; split; [done|exact Hl].
Qed.
End Screen.
