(* ===== verification/Enemies.v ===== *)
(** * game/enemies/enemies.c: the alien formation

    State: the array [enemies] of [MAX_ENEMIES] entries and the globals of enemies.c.  A loop
    whose bound is the length of the array is a traversal of the list; [rep_length] holds that
    length.  The drawing functions run on the graphics state.

    [grid] is the abstract view and [represents] the relation to it: the active enemies stand on
    a rigid grid, and the theorems say that every move of the array is one [grid_step], which
    stays inside the screen and comes down. *)

From S2P Require Import Prelude Machine Xpm SpritesGame Sprites Graphics.

(** ** Constants of enemies.h *)
Definition MAX_ENEMIES : Z := 18.
Definition ENEMY_ROWS : Z := 3.
Definition ENEMY_COLS : Z := 6.
Definition ENEMY_WIDTH : Z := 40.
Definition ENEMY_HEIGHT : Z := 40.
Definition ENEMY_SPACING_X : Z := 100.
Definition ENEMY_SPACING_Y : Z := 80.
Definition ENEMY_START_X : Z := 100.
Definition ENEMY_START_Y : Z := 50.

Record Enemy := MkEnemy { ex : Z; ey : Z; eactive : bool; etype : Z }.

(** The array and the globals of enemies.c.  [enemy_drop_timer] is never read or written. *)
Record fleet := Fleet {
  enemies : list Enemy;
  enemy_direction : Z;
  enemy_move_timer : Z;
  enemy_drop_timer : Z;
  should_drop : bool;
}.

Definition set_enemies (l : list Enemy) (f : fleet) : fleet :=
  Fleet l (enemy_direction f) (enemy_move_timer f) (enemy_drop_timer f) (should_drop f).
Definition set_direction (d : Z) (f : fleet) : fleet :=
  Fleet (enemies f) d (enemy_move_timer f) (enemy_drop_timer f) (should_drop f).
Definition set_move_timer (t : Z) (f : fleet) : fleet :=
  Fleet (enemies f) (enemy_direction f) t (enemy_drop_timer f) (should_drop f).
Definition set_should_drop (b : bool) (f : fleet) : fleet :=
  Fleet (enemies f) (enemy_direction f) (enemy_move_timer f) (enemy_drop_timer f) b.

(** The static initialisers; C clears the array. *)
Definition fleet_start : fleet :=
  Fleet (replicate (Z.to_nat MAX_ENEMIES) (MkEnemy 0 0 false 0)) 1 0 0 false.

(** ** init_enemies *)

(** The inner loop, from column [col], with [n] columns left; [idx] is [enemy_index].  A store
    at an index below [MAX_ENEMIES] is inside the array. *)
Fixpoint init_cols (n : nat) (row col idx : Z) (l : list Enemy) : Z * list Enemy :=
  match n with
  | O => (idx, l)
  | S n =>
      if idx <? MAX_ENEMIES then
        let e := MkEnemy (i32 (ENEMY_START_X + i32 (col * ENEMY_SPACING_X)))
                         (i32 (ENEMY_START_Y + i32 (row * ENEMY_SPACING_Y))) true row in
        init_cols n row (col + 1) (idx + 1) (<[Z.to_nat idx := e]> l)
      else init_cols n row (col + 1) idx l
  end.

Fixpoint init_rows (n : nat) (row idx : Z) (l : list Enemy) : list Enemy :=
  match n with
  | O => l
  | S n =>
      let '(idx, l) := init_cols (Z.to_nat ENEMY_COLS) row 0 idx l in
      init_rows n (row + 1) idx l
  end.

Definition init_enemies : M fleet Z :=
  modify (λ f, set_enemies (init_rows (Z.to_nat ENEMY_ROWS) 0 0 (enemies f)) f);;
  mret 0.

(** ** Movement *)

(** The condition of the edge test of move_enemies, [xres] being [mode_info.XResolution]. *)
Definition at_edge (xres dir : Z) (e : Enemy) : bool :=
  eactive e &&
  ((dir >? 0) && (i32 (ex e + ENEMY_WIDTH) >=? xres - 20) || (dir <? 0) && (ex e <=? 20)).

(** The first loop of move_enemies, left at the first enemy at the edge. *)
Fixpoint hit_edge (xres dir : Z) (l : list Enemy) : bool :=
  match l with
  | [] => false
  | e :: l => if at_edge xres dir e then true else hit_edge xres dir l
  end.

(** The body of its second loop. *)
Definition step_enemy (drop : bool) (dir : Z) (e : Enemy) : Enemy :=
  if eactive e then
    if drop then MkEnemy (ex e) (i32 (ey e + 40)) (eactive e) (etype e)
    else MkEnemy (i32 (ex e + i32 (dir * 20))) (ey e) (eactive e) (etype e)
  else e.

Definition move_enemies (xres : Z) : M fleet Z :=
  f ← gets id;
  if hit_edge xres (enemy_direction f) (enemies f) then
    modify (λ f, set_should_drop true (set_direction (i32 (enemy_direction f * -1)) f));;
    mret 0
  else
    modify (λ f, set_enemies (step_enemy (should_drop f) (enemy_direction f) <$> enemies f) f);;
    modify (λ f, if should_drop f then set_should_drop false f else f);;
    mret 0.

(** The loop of count_active_enemies. *)
Fixpoint count_active (l : list Enemy) (count : Z) : Z :=
  match l with
  | [] => count
  | e :: l => count_active l (if eactive e then i32 (count + 1) else count)
  end.
Definition count_active_enemies : M fleet Z := gets (λ f, count_active (enemies f) 0).

(** game_state.c: enemies_moving *)
Definition enemies_moving (xres : Z) : M fleet unit :=
  modify (λ f, set_move_timer (i32 (enemy_move_timer f + 1)) f);;
  f ← gets id;
  if enemy_move_timer f >=? 30 then
    move_enemies xres;;
    modify (set_move_timer 0)
  else skip.

(** ** Drawing *)
Section drawing.
Context `{XpmLoader}.

Definition alien_sprite (type : Z) : xpm_map :=
  match type with
  | 0 => Aliens.Alien1
  | 1 => Aliens.Alien2
  | 2 => Aliens.Alien3
  | _ => Aliens.Alien1
  end.

(** The coordinates are converted to the uint16_t parameters of print_xpm. *)
Definition draw_enemy (e : Enemy) : M gfx Z :=
  if negb (eactive e) then mret 0
  else print_xpm (alien_sprite (etype e)) (u16 (ex e)) (u16 (ey e)).

Definition draw_all_enemies (l : list Enemy) : M gfx Z :=
  each_rc l (λ e, if eactive e then draw_enemy e else mret 0).

Definition clear_enemy (e : Enemy) : M gfx Z :=
  if negb (eactive e) then mret 0
  else clear_area (u16 (ex e)) (u16 (ey e)) ENEMY_WIDTH ENEMY_HEIGHT 0x000000;; mret 0.

Definition clear_all_enemies (l : list Enemy) : M gfx Z :=
  each_rc l (λ e, if eactive e then clear_enemy e else mret 0).
End drawing.

(** ** The formation *)

Definition col (k : nat) : Z := Z.of_nat k mod ENEMY_COLS.
Definition row (k : nat) : Z := Z.of_nat k / ENEMY_COLS.

(** The abstract state: the corner of the grid, its direction, whether it drops next, and which
    places are still occupied. *)
Record grid := Grid { ox : Z; oy : Z; dir : Z; drop : bool; alive : list bool }.

Definition alive_at (g : grid) (k : nat) : bool := default false (alive g !! k).

(** The whole grid turns when an occupied column reaches the margin of 20 pixels. *)
Definition grid_edge (xres : Z) (g : grid) : bool :=
  existsb (λ k, alive_at g k &&
    if dir g >? 0 then ox g + 100 * col k + 60 >=? xres else ox g + 100 * col k <=? 20)
    (seq 0 18).

Definition grid_step (xres : Z) (g : grid) : grid :=
  if grid_edge xres g then Grid (ox g) (oy g) (- dir g) true (alive g)
  else if drop g then Grid (ox g) (oy g + 40) (dir g) false (alive g)
  else Grid (ox g + 20 * dir g) (oy g) (dir g) false (alive g).

(** Occupied columns are inside the margins, on multiples of 20 pixels. *)
Record grid_ok (xres : Z) (g : grid) : Prop := {
  grid_dir : dir g = 1 ∨ dir g = -1;
  grid_mult : ox g mod 20 = 0;
  grid_top : 50 <= oy g;
  grid_x : ∀ k, (k < 18)%nat → alive_at g k = true → 20 <= ox g + 100 * col k <= xres - 41;
}.

(** [f] stands in the formation [g]; the places of dead aliens are unconstrained. *)
Record represents (g : grid) (f : fleet) : Prop := {
  rep_length : length (enemies f) = 18%nat;
  rep_alive : alive g = eactive <$> enemies f;
  rep_type : ∀ k e, enemies f !! k = Some e → etype e = row k;
  rep_place : ∀ k e, enemies f !! k = Some e → eactive e = true →
    ex e = ox g + 100 * col k ∧ ey e = oy g + 80 * row k;
  rep_dir : enemy_direction f = dir g;
  rep_drop : should_drop f = drop g;
}.

Lemma col_range k : 0 <= col k <= 5.
Proof. unfold col, ENEMY_COLS. pose proof (Z.mod_pos_bound (Z.of_nat k) 6). lia. Qed.
Lemma row_range k : (k < 18)%nat → 0 <= row k <= 2.
Proof. unfold row, ENEMY_COLS. intros. Z.to_euclidean_division_equations. lia. Qed.

Lemma alive_lookup g f k e : represents g f → enemies f !! k = Some e → alive_at g k = eactive e.
Proof. intros Hr He. unfold alive_at. by rewrite (rep_alive _ _ Hr), list_lookup_fmap, He. Qed.

Lemma enemy_index (f : fleet) k e :
  length (enemies f) = 18%nat → enemies f !! k = Some e → (k < 18)%nat.
Proof. intros <- He. by apply lookup_lt_Some in He. Qed.

Lemma hit_edge_existsb xres d l : hit_edge xres d l = existsb (at_edge xres d) l.
Proof. induction l as [|e l IH]; [done|]. simpl. by destruct (at_edge xres d e). Qed.

(** The place of every active alien, in numbers that do not overflow. *)
Lemma place_bounds xres g f k e : grid_ok xres g → represents g f → xres < 65536 →
  enemies f !! k = Some e → eactive e = true →
  20 <= ex e <= xres - 41 ∧ 50 <= ey e ∧ ex e mod 20 = 0.
Proof.
  intros Hg Hr Hx He Ha. destruct (rep_place _ _ Hr _ _ He Ha) as [-> ->].
  pose proof (enemy_index f k e (rep_length _ _ Hr) He) as Hk.
  pose proof (row_range k Hk). pose proof (grid_top _ _ Hg).
  pose proof (grid_x _ _ Hg k Hk) as Hb. rewrite (alive_lookup _ _ _ _ Hr He) in Hb.
  specialize (Hb Ha). split_and!; try lia.
  rewrite Z.add_mod, (grid_mult _ _ Hg) by lia. replace (100 * col k) with (5 * col k * 20) by lia.
  by rewrite Z.mod_mul.
Qed.

Lemma edge_refines xres g f : grid_ok xres g → represents g f → xres < 65536 →
  hit_edge xres (enemy_direction f) (enemies f) = grid_edge xres g.
Proof.
  intros Hg Hr Hx. rewrite hit_edge_existsb, (rep_dir _ _ Hr). apply eq_true_iff_eq.
  unfold grid_edge. rewrite !existsb_exists. split.
  - intros (e & Hin & He). apply list_elem_of_In, list_elem_of_lookup in Hin as [k Hk].
    exists k. pose proof (enemy_index f k e (rep_length _ _ Hr) Hk). split; [apply in_seq; lia|].
    rewrite (alive_lookup _ _ _ _ Hr Hk). unfold at_edge, ENEMY_WIDTH in He.
    apply andb_true_iff in He as [Ha He]. pose proof (place_bounds xres g f k e Hg Hr Hx Hk Ha).
    destruct (rep_place _ _ Hr _ _ Hk Ha) as [Hex _]. rewrite Ha. simpl. rewrite <- Hex.
    rewrite i32_small in He by lia. destruct (grid_dir _ _ Hg) as [Hd|Hd]; rewrite Hd in *; simpl in *; lia.
  - intros (k & Hin & Hk). apply in_seq in Hin. apply andb_true_iff in Hk as [Ha He].
    destruct (lookup_lt_is_Some_2 (enemies f) k) as [e Hek]; [rewrite (rep_length _ _ Hr); lia|].
    exists e. split; [by eapply list_elem_of_In, list_elem_of_lookup_2|].
    rewrite (alive_lookup _ _ _ _ Hr Hek) in Ha. unfold at_edge, ENEMY_WIDTH. rewrite Ha. simpl.
    pose proof (place_bounds xres g f k e Hg Hr Hx Hek Ha).
    destruct (rep_place _ _ Hr _ _ Hek Ha) as [Hex _]. rewrite <- Hex in He.
    rewrite i32_small by lia. destruct (grid_dir _ _ Hg) as [Hd|Hd]; rewrite Hd in *; simpl in *; lia.
Qed.

Lemma step_enemy_active b d e : eactive (step_enemy b d e) = eactive e.
Proof. unfold step_enemy. by destruct (eactive e) eqn:E, b. Qed.
Lemma step_enemy_type b d e : etype (step_enemy b d e) = etype e.
Proof. unfold step_enemy. by destruct (eactive e), b. Qed.

(** A change of the places of the aliens that keeps them alive. *)
Lemma represents_map h g g' f f' : represents g f →
  enemies f' = h <$> enemies f →
  (∀ e, eactive (h e) = eactive e) → (∀ e, etype (h e) = etype e) →
  (∀ k e, enemies f !! k = Some e → eactive e = true →
     ex (h e) = ox g' + 100 * col k ∧ ey (h e) = oy g' + 80 * row k) →
  alive g' = alive g → enemy_direction f' = dir g' → should_drop f' = drop g' →
  represents g' f'.
Proof.
  intros Hr He Ha Ht Hp Hal ??. split; try done; rewrite He.
  - by rewrite length_fmap, (rep_length _ _ Hr).
  - rewrite Hal, (rep_alive _ _ Hr), <- list_fmap_compose. apply list_fmap_ext. intros. symmetry. apply Ha.
  - intros k e. rewrite list_lookup_fmap. intros (e0 & Hk & ->)%fmap_Some. rewrite Ht.
    by apply (rep_type _ _ Hr).
  - intros k e. rewrite list_lookup_fmap. intros (e0 & Hk & ->)%fmap_Some. rewrite Ha. by apply Hp.
Qed.

(** One move of the array is one step of the grid. *)
Lemma move_enemies_refines_grid xres g f : grid_ok xres g → represents g f → xres < 65536 →
  oy g <= 2 ^ 30 →
  wp (move_enemies xres)
    (λ rc f', rc = 0 ∧ represents (grid_step xres g) f' ∧ enemy_move_timer f' = enemy_move_timer f) f.
Proof.
  intros Hg Hr Hx Hy. unfold move_enemies. apply wp_bind, wp_gets. simpl.
  rewrite (edge_refines xres g f Hg Hr Hx). unfold grid_step.
  destruct (grid_edge xres g) eqn:E.
  - apply wp_bind, wp_modify, wp_ret. split_and!; [done| |done]. destruct Hr. split; simpl; try done.
    rewrite rep_dir0. destruct (grid_dir _ _ Hg) as [Hd|Hd]; by rewrite Hd.
  - apply wp_bind, wp_modify. apply wp_bind, wp_modify, wp_ret.
    rewrite (rep_dir _ _ Hr), (rep_drop _ _ Hr). simpl. rewrite (rep_drop _ _ Hr).
    destruct (drop g) eqn:Ed; (split_and!; [done| |done]);
      (eapply represents_map; [done|done|apply step_enemy_active|apply step_enemy_type| |done|..]);
      simpl; rewrite ?(rep_dir _ _ Hr), ?(rep_drop _ _ Hr); try done.
    all: intros k e He Ha; pose proof (place_bounds xres g f k e Hg Hr Hx He Ha) as (? & ? & ?);
      destruct (rep_place _ _ Hr _ _ He Ha) as [? Hey];
      pose proof (row_range k (enemy_index f k e (rep_length _ _ Hr) He));
      unfold step_enemy; rewrite Ha; cbn [ex ey ox oy].
    + rewrite i32_small by lia. lia.
    + destruct (grid_dir _ _ Hg) as [Hd|Hd]; rewrite Hd;
        (rewrite (i32_small (_ * 20)), i32_small by lia); lia.
Qed.

Lemma grid_step_ok xres g : grid_ok xres g → grid_ok xres (grid_step xres g).
Proof.
  intros [Hd Hm Ht Hx]. unfold grid_step.
  destruct (grid_edge xres g) eqn:E; [|destruct (drop g)]; split; simpl; try done; try lia.
  - destruct Hd as [-> | ->]; rewrite Z.add_mod, Hm by lia; done.
  - intros k Hk Ha. assert (alive_at g k = true) as Ha' by done. specialize (Hx k Hk Ha').
    assert ((ox g + 100 * col k) mod 20 = 0) as Hmk.
    { rewrite Z.add_mod, Hm by lia. replace (100 * col k) with (5 * col k * 20) by lia.
      by rewrite Z.mod_mul. }
    unfold grid_edge in E. assert (∀ b, b = false ↔ b ≠ true) as Hnb by (by intros []).
    apply Hnb in E. rewrite existsb_exists in E.
    assert (¬ (if dir g >? 0 then ox g + 100 * col k + 60 >=? xres else ox g + 100 * col k <=? 20) = true)
      as Hn by (intros Hn; apply E; exists k; rewrite Ha', Hn; split; [apply in_seq; lia|done]).
    destruct Hd as [Hd|Hd]; rewrite Hd in *; simpl in Hn; [lia|].
    Z.to_euclidean_division_equations. lia.
Qed.

(** ** The formation at the start *)

Definition formation : list Enemy :=
  (λ k, MkEnemy (100 + 100 * col k) (50 + 80 * row k) true (row k)) <$> seq 0 18.

Lemma init_enemies_run f : length (enemies f) = 18%nat →
  init_enemies f = Done (0, set_enemies formation f).
Proof.
  intros Hl. unfold init_enemies. run_unfold. do 3 f_equal.
  destruct (enemies f) as [|e l]; [done|]. do 17 (destruct l; [done|]). destruct l; [|done].
  vm_compute. reflexivity.
Qed.

(** The corner of the formation and its direction after a start. *)
Definition grid_start (f : fleet) : grid :=
  Grid 100 50 (enemy_direction f) (should_drop f) (replicate 18 true).

Lemma formation_represents f : represents (grid_start f) (set_enemies formation f).
Proof.
  split; try done.
  - intros k e He. pose proof (lookup_lt_Some _ _ _ He) as Hk. simpl in Hk.
    do 18 (destruct k; [by injection He as <-|]). lia.
  - intros k e He _. pose proof (lookup_lt_Some _ _ _ He) as Hk. simpl in Hk.
    do 18 (destruct k; [by injection He as <-|]). lia.
Qed.

Lemma grid_start_ok xres f : 641 <= xres → enemy_direction f = 1 ∨ enemy_direction f = -1 →
  grid_ok xres (grid_start f).
Proof. intros Hx Hd. split; simpl; try done. intros k _ _. pose proof (col_range k). lia. Qed.

(** ** Counting *)

Lemma count_active_length l n : Z.of_nat (length l) + n < 2 ^ 31 → 0 <= n →
  count_active l n = n + Z.of_nat (length (filter (λ e, eactive e = true) l)).
Proof.
  revert n. induction l as [|e l IH]; intros n Hl Hn; simpl in *; [lia|].
  rewrite filter_cons. destruct (decide _) as [Ha|Ha].
  - rewrite Ha, i32_small, IH by lia. simpl. lia.
  - rewrite (not_true_is_false _ Ha). apply IH; lia.
Qed.

Lemma count_active_zero l : (length l <= 18)%nat →
  count_active l 0 = 0 ↔ Forall (λ e, eactive e = false) l.
Proof.
  intros Hl. rewrite count_active_length by lia. rewrite Forall_forall. split.
  - intros H0 e He%list_elem_of_In. destruct (eactive e) eqn:E; [|done].
    assert (e ∈ filter (λ e, eactive e = true) l) as Hin
      by (apply list_elem_of_filter; split; [exact E|exact He]).
    destruct (filter _ l); [by apply elem_of_nil in Hin|simpl in H0; lia].
  - intros Hf. assert (filter (λ e, eactive e = true) l = []) as ->; [|done].
    destruct (filter (λ e, eactive e = true) l) as [|e l'] eqn:E; [done|].
    assert (e ∈ filter (λ e, eactive e = true) l) as [Ha Hin]%list_elem_of_filter
      by (rewrite E; left).
    apply list_elem_of_In in Hin. by rewrite Hf in Ha.
Qed.

(** ** Drawing the aliens *)

(** The alien is dead or high enough for its sprite of 34 rows. *)
Definition above (yres : Z) (e : Enemy) : bool := negb (eactive e) || (ey e + 34 <=? yres).

Section drawing_lemmas.
Context `{XpmLoaderLaws}.

Lemma alien_sprite_dims t : ∃ w, 0 < w <= 51 ∧ xpm_dims (alien_sprite t) = Some (w, 34).
Proof.
  assert (xpm_dims Aliens.Alien1 = Some (45, 34)) as H1 by auto with sprites.
  assert (xpm_dims Aliens.Alien2 = Some (45, 34)) as H2 by auto with sprites.
  assert (xpm_dims Aliens.Alien3 = Some (51, 34)) as H3 by auto with sprites.
  unfold alien_sprite. destruct t as [|[p|[p|p|]|]|];
    first [exists 45; split; [lia|assumption] | exists 51; split; [lia|assumption]].
Qed.

Lemma draw_enemy_draws e g : gfx_ok g →
  (eactive e = true → 0 <= ex e ∧ ex e + 51 <= hres g ∧ 0 <= ey e < 65536) →
  wp (draw_enemy e) (λ rc g', (rc =? 0) = above (vres g) e ∧ redrawn g g') g.
Proof.
  intros Hg Hp. unfold draw_enemy, above. destruct (eactive e); simpl.
  - destruct (Hp eq_refl) as (? & ? & ?). pose proof (ok_x g Hg).
    destruct (alien_sprite_dims (etype e)) as (w & Hw & Hd). rewrite !u16_small by lia.
    eapply wp_mono; [|apply (print_xpm_draws g _ w 34 (ex e) (ey e)); [done..|lia|lia]].
    intros rc g' Hdr. split; [|by eapply draws_redrawn]. unfold draws in Hdr.
    destruct (_ && _) eqn:E; destruct Hdr as [-> _]; simpl; lia.
  - apply wp_ret. split; [done|by apply redrawn_refl].
Qed.

Lemma draw_all_enemies_draws l g : gfx_ok g →
  Forall (λ e, eactive e = true → 0 <= ex e ∧ ex e + 51 <= hres g ∧ 0 <= ey e < 65536) l →
  wp (draw_all_enemies l)
    (λ rc g', rc = (if forallb (above (vres g)) l then 0 else 1) ∧ redrawn g g') g.
Proof.
  intros Hg Hl. apply (wp_each_rc l _ (above (vres g)) (redrawn g)); [|by apply redrawn_refl].
  intros e s He Hs. destruct (redrawn_screen _ _ Hs) as (Hhx & Hvy & _).
  rewrite List.Forall_forall in Hl. specialize (Hl e (proj1 (list_elem_of_In _ _) He)).
  destruct (eactive e) eqn:Ea.
  - eapply wp_mono; [|apply draw_enemy_draws; [by eapply redrawn_ok|by rewrite Hhx, Ea]].
    rewrite Hvy. intros rc s' [-> Hs']. split; [done|]. by eapply redrawn_trans.
  - apply wp_ret. unfold above. by rewrite Ea.
Qed.
End drawing_lemmas.

(** ** The grid keeps descending *)

Lemma grid_edge_spec xres g : grid_edge xres g = true ↔ ∃ k, (k < 18)%nat ∧ alive_at g k = true ∧
  if dir g >? 0 then xres <= ox g + 100 * col k + 60 else ox g + 100 * col k <= 20.
Proof.
  unfold grid_edge. rewrite existsb_exists. split.
  - intros (k & Hin & Hk). apply in_seq in Hin. apply andb_true_iff in Hk as [? Hk].
    exists k. split_and!; [lia|done|]. destruct (dir g >? 0); lia.
  - intros (k & Hk & Ha & Hx). exists k. split; [apply in_seq; lia|]. rewrite Ha. simpl.
    destruct (dir g >? 0); lia.
Qed.

(** On a screen wider than the formation the two margins are not reached together. *)
Lemma no_two_edges xres g : 641 <= xres → dir g = 1 ∨ dir g = -1 → grid_edge xres g = true →
  grid_edge xres (Grid (ox g) (oy g) (- dir g) true (alive g)) = false.
Proof.
  intros Hx Hd (k & ? & ? & He)%grid_edge_spec.
  destruct (grid_edge xres (Grid _ _ _ _ _)) eqn:E2; [|done].
  apply grid_edge_spec in E2 as (k' & ? & ? & He'). simpl in He'.
  pose proof (col_range k). pose proof (col_range k').
  destruct Hd as [Hd|Hd]; rewrite Hd in *; cbv [Z.gtb Z.compare Z.opp] in He, He'; lia.
Qed.

(** A grid about to drop does so in at most two moves. *)
Lemma drop_soon xres g : 641 <= xres → grid_ok xres g → drop g = true →
  ∃ n, (n <= 2)%nat ∧ oy (Nat.iter n (grid_step xres) g) = oy g + 40.
Proof.
  intros Hx Hg Hd. destruct (grid_edge xres g) eqn:E.
  - exists 2%nat. split; [lia|]. simpl. unfold grid_step at 2. rewrite E. unfold grid_step.
    rewrite (no_two_edges xres g Hx (grid_dir _ _ Hg) E). done.
  - exists 1%nat. split; [lia|]. simpl. unfold grid_step. by rewrite E, Hd.
Qed.

(** The distance, in moves, of the column of place [k] to the margin it moves towards. *)
Definition to_edge (xres : Z) (g : grid) (k : nat) : Z :=
  if dir g >? 0 then xres - (ox g + 100 * col k) else ox g + 100 * col k.

Lemma turn_soon xres k n : ∀ g, grid_ok xres g → (k < 18)%nat → alive_at g k = true →
  drop g = false → to_edge xres g k <= 20 * Z.of_nat n →
  ∃ m, (m <= n)%nat ∧ drop (Nat.iter m (grid_step xres) g) = true ∧
       oy (Nat.iter m (grid_step xres) g) = oy g ∧ grid_ok xres (Nat.iter m (grid_step xres) g).
Proof.
  induction n as [|n IH]; intros g Hg Hk Ha Hd Hn.
  { pose proof (grid_x _ _ Hg k Hk Ha). unfold to_edge in Hn. destruct (dir g >? 0); lia. }
  destruct (grid_edge xres g) eqn:E.
  { exists 1%nat. split; [lia|]. simpl. split_and!; [..|by apply grid_step_ok]; unfold grid_step; by rewrite E. }
  assert (grid_step xres g = Grid (ox g + 20 * dir g) (oy g) (dir g) false (alive g)) as Hs
    by (unfold grid_step; by rewrite E, Hd).
  destruct (IH (grid_step xres g)) as (m & Hm & Hdm & Hym & Hgm).
  - by apply grid_step_ok.
  - done.
  - by rewrite Hs.
  - by rewrite Hs.
  - rewrite Hs. unfold to_edge in *. cbn [dir ox].
    destruct (grid_dir _ _ Hg) as [Hdr|Hdr]; rewrite Hdr in *; cbv [Z.gtb Z.compare] in *; lia.
  - exists (S m). rewrite Nat.iter_succ_r. split_and!; [lia|done| |done]. rewrite Hym. by rewrite Hs.
Qed.

Lemma grid_step_alive xres g : alive (grid_step xres g) = alive g.
Proof. unfold grid_step. destruct (grid_edge xres g); [done|by destruct (drop g)]. Qed.

Lemma grid_step_oy xres g : oy g <= oy (grid_step xres g) <= oy g + 40.
Proof. unfold grid_step. destruct (grid_edge xres g); [simpl; lia|destruct (drop g); simpl; lia]. Qed.

Lemma grid_iter xres n g : grid_ok xres g →
  grid_ok xres (Nat.iter n (grid_step xres) g) ∧ alive (Nat.iter n (grid_step xres) g) = alive g ∧
  oy g <= oy (Nat.iter n (grid_step xres) g) <= oy g + 40 * Z.of_nat n.
Proof.
  intros Hg. induction n as [|n (IHg & IHa & IHy)]; [split_and!; [done..|simpl; lia|simpl; lia]|].
  rewrite Nat.iter_succ. split; [by apply grid_step_ok|]. split; [by rewrite grid_step_alive|].
  pose proof (grid_step_oy xres (Nat.iter n (grid_step xres) g)). lia.
Qed.

(** A grid that still holds an alien is 40 pixels lower after at most [xres / 20 + 3] moves. *)
Lemma grid_descends xres g k : 641 <= xres → grid_ok xres g → (k < 18)%nat → alive_at g k = true →
  ∃ n, Z.of_nat n <= xres / 20 + 3 ∧ oy (Nat.iter n (grid_step xres) g) = oy g + 40.
Proof.
  intros Hx Hg Hk Ha. assert (32 <= xres / 20) by (apply Z.div_le_lower_bound; lia).
  destruct (drop g) eqn:Hd.
  - destruct (drop_soon xres g Hx Hg Hd) as (n & Hn & Hy). exists n. split; [lia|done].
  - destruct (turn_soon xres k (Z.to_nat (xres / 20 + 1)) g Hg Hk Ha Hd) as (m & Hm & Hdm & Hym & Hgm).
    { pose proof (grid_x _ _ Hg k Hk Ha). unfold to_edge. rewrite Z2Nat.id by lia.
      pose proof (col_range k). Z.to_euclidean_division_equations. destruct (dir g >? 0); lia. }
    destruct (drop_soon xres _ Hx Hgm Hdm) as (n & Hn & Hy).
    exists (n + m)%nat. split; [lia|]. rewrite Nat.iter_add, Hy. lia.
Qed.

Lemma grid_descends_by xres d k : ∀ g, 641 <= xres → grid_ok xres g → (k < 18)%nat →
  alive_at g k = true →
  ∃ n, Z.of_nat n <= Z.of_nat d * (xres / 20 + 3) ∧
       oy (Nat.iter n (grid_step xres) g) = oy g + 40 * Z.of_nat d.
Proof.
  induction d as [|d IH]; intros g Hx Hg Hk Ha; [exists 0%nat; simpl; lia|].
  destruct (grid_descends xres g k Hx Hg Hk Ha) as (n & Hn & Hy).
  destruct (grid_iter xres n g Hg) as (Hgn & Han & _).
  destruct (IH (Nat.iter n (grid_step xres) g)) as (m & Hm & Hym); [done..| |].
  { unfold alive_at in *. by rewrite Han. }
  exists (m + n)%nat. split; [nia|]. rewrite Nat.iter_add, Hym, Hy. lia.
Qed.

(** Any number of moves of the array. *)
Lemma moves_refine xres n i : ∀ g f, grid_ok xres g → represents g f → xres < 65536 →
  oy g + 40 * Z.of_nat n <= 2 ^ 30 →
  wp (for_rc n i (λ _, move_enemies xres))
    (λ rc f', rc = 0 ∧ represents (Nat.iter n (grid_step xres) g) f') f.
Proof.
  revert i. induction n as [|n IH]; intros i g f Hg Hr Hx Hy; [by apply wp_ret|].
  cbn [for_rc]. apply wp_check. eapply wp_mono; [|apply (move_enemies_refines_grid xres g); [done..|lia]].
  intros rc f' (-> & Hr' & _). rewrite Nat.iter_succ_r. simpl.
  apply IH; [by apply grid_step_ok|done..|]. pose proof (grid_step_oy xres g). lia.
Qed.

(** ** Properties *)

(** init_enemies fills the 18 entries, whatever they held: three rows of six active aliens
    100 and 80 pixels apart from (100, 50), the row being the type; on a screen at least 641
    pixels wide they stand inside the margins. *)
Theorem init_enemies_formation xres f : length (enemies f) = 18%nat → 641 <= xres →
  enemy_direction f = 1 ∨ enemy_direction f = -1 →
  wp init_enemies (λ rc f', rc = 0 ∧ enemies f' = formation ∧
    represents (grid_start f) f' ∧ grid_ok xres (grid_start f) ∧
    count_active (enemies f') 0 = 18) f.
Proof.
  intros Hl Hx Hd. unfold wp. rewrite init_enemies_run by done. split_and!; try done.
  - apply formation_represents.
  - by apply grid_start_ok.
Qed.

(** C14. move_enemies implements one step of the rigid grid: at a margin the whole fleet turns
    and arms the drop, an armed drop lowers every active alien by 40, and otherwise every active
    alien moves 20 pixels; the grid stays inside the margins, no alien is revived or killed, and
    no coordinate overflows. *)
Theorem move_enemies_refines xres g f : grid_ok xres g → represents g f → xres < 65536 →
  oy g <= 2 ^ 30 →
  wp (move_enemies xres) (λ rc f',
    rc = 0 ∧ represents (grid_step xres g) f' ∧ grid_ok xres (grid_step xres g) ∧
    eactive <$> enemies f' = eactive <$> enemies f ∧
    Forall (λ e, eactive e = true → 20 <= ex e <= xres - 41) (enemies f')) f.
Proof.
  intros Hg Hr Hx Hy. eapply wp_mono; [|by apply (move_enemies_refines_grid xres g)].
  intros rc f' (-> & Hr' & _). pose proof (grid_step_ok xres g Hg) as Hg'. split_and!; try done.
  - by rewrite <- (rep_alive _ _ Hr'), grid_step_alive, (rep_alive _ _ Hr).
  - apply List.Forall_forall. intros e [k He]%list_elem_of_In%list_elem_of_lookup Ha.
    by destruct (place_bounds xres _ f' k e Hg' Hr' Hx He Ha) as [? _].
Qed.

(** C15. Liveness: as long as an alien lives and nobody is killed, the fleet comes down.  For
    every depth [d] some number of moves, at most [d * (xres / 20 + 3)], lowers the corner of
    the grid by exactly [40 * d] pixels. *)
Theorem fleet_descends xres g f d k : 641 <= xres < 65536 → grid_ok xres g → represents g f →
  (k < 18)%nat → alive_at g k = true →
  oy g + 40 * (Z.of_nat d * (xres / 20 + 3)) <= 2 ^ 30 →
  ∃ n, Z.of_nat n <= Z.of_nat d * (xres / 20 + 3) ∧
    wp (for_rc n 0 (λ _, move_enemies xres)) (λ rc f', rc = 0 ∧
      ∀ k e e', enemies f !! k = Some e → enemies f' !! k = Some e' → eactive e = true →
        eactive e' = true ∧ ey e' = ey e + 40 * Z.of_nat d) f.
Proof.
  intros Hx Hg Hr Hk Ha Hb.
  destruct (grid_descends_by xres d k g) as (n & Hn & Hy); [lia|done..|].
  exists n. split; [done|]. eapply wp_mono; [|apply (moves_refine xres n 0 g f); [done..|lia|nia]].
  intros rc f' [-> Hr']. split; [done|]. intros k0 e e' He He' Hae.
  destruct (grid_iter xres n g Hg) as (_ & Hal & _).
  assert (eactive e' = true) as Hae'.
  { rewrite <- (alive_lookup _ _ _ _ Hr' He'). unfold alive_at. rewrite Hal.
    rewrite <- Hae, <- (alive_lookup _ _ _ _ Hr He). done. }
  split; [done|]. destruct (rep_place _ _ Hr _ _ He Hae) as [_ ->].
  destruct (rep_place _ _ Hr' _ _ He' Hae') as [_ ->]. lia.
Qed.

(** count_active_enemies counts the active entries, and is 0 exactly when none is left. *)
Theorem count_active_enemies_counts f : length (enemies f) = 18%nat →
  ∃ n, count_active_enemies f = Done (n, f) ∧
    n = Z.of_nat (length (filter (λ e, eactive e = true) (enemies f))) ∧
    (n = 0 ↔ Forall (λ e, eactive e = false) (enemies f)).
Proof.
  intros Hl. eexists. split; [reflexivity|]. split; [|apply count_active_zero; lia].
  rewrite count_active_length by lia. lia.
Qed.

(** On the 1152 pixels wide screen of the game, a formation inside its margins is always
    drawn without a horizontal overflow: draw_all_enemies returns 1 exactly when some active
    alien is too low for its sprite of 34 rows. *)
Lemma draw_all_enemies_result `{XpmLoaderLaws} g f s : gfx_ok s → hres s = 1152 →
  grid_ok 1152 g → represents g f → oy g <= 60000 →
  wp (draw_all_enemies (enemies f)) (λ rc s',
    redrawn s s' ∧ (rc = 0 ∨ rc = 1) ∧
    (rc = 1 ↔ ∃ k e, enemies f !! k = Some e ∧ eactive e = true ∧ vres s < ey e + 34)) s.
Proof.
  intros Hs Hh Hg Hr Hy. eapply wp_mono; [|apply draw_all_enemies_draws; [done|]].
  - intros rc s' [-> Hs']. split; [done|]. split; [destruct (forallb _ _); auto|].
    destruct (forallb _ _) eqn:E.
    + split; [done|]. intros (k & e & He & Ha & Hlow). rewrite forallb_forall in E.
      apply list_elem_of_lookup_2, list_elem_of_In, E in He. unfold above in He. rewrite Ha in He.
      simpl in He. lia.
    + split; [intros _|done]. apply not_true_iff_false in E. rewrite forallb_forall in E.
      destruct (existsb (λ e, negb (above (vres s) e)) (enemies f)) eqn:Ex.
      * apply existsb_exists in Ex as (e & [k He]%list_elem_of_In%list_elem_of_lookup & Hab).
        exists k, e. unfold above in Hab. destruct (eactive e); [|done]. split_and!; [done..|]. simpl in Hab. lia.
      * exfalso. apply E. intros e He. apply not_true_iff_false in Ex. rewrite existsb_exists in Ex.
        destruct (above (vres s) e) eqn:Eab; [done|]. exfalso. apply Ex. exists e. by rewrite Eab.
  - apply List.Forall_forall. intros e [k He]%list_elem_of_In%list_elem_of_lookup Ha.
    destruct (place_bounds 1152 g f k e Hg Hr) as (? & ? & ?); [lia|done..|].
    destruct (rep_place _ _ Hr _ _ He Ha) as [_ Hey].
    pose proof (row_range k (enemy_index f k e (rep_length _ _ Hr) He)).
    split_and!; try lia. Z.to_euclidean_division_equations. lia.
Qed.

(** ** Witnesses *)
Module Witness.
Import BlankLoader Screen.

Definition fleet0 : fleet := set_enemies formation fleet_start.
Definition grid0 : grid := grid_start fleet_start.

Lemma fleet0_represents : represents grid0 fleet0.
Proof. apply formation_represents. Qed.
Lemma grid0_ok : grid_ok 1152 grid0.
Proof. apply grid_start_ok; [lia|by left]. Qed.

Lemma init_enemies_formation_witness :
  length (enemies fleet_start) = 18%nat ∧
  wp init_enemies (λ rc f', rc = 0 ∧ enemies f' = formation ∧
    represents (grid_start fleet_start) f' ∧ grid_ok 1152 (grid_start fleet_start) ∧
    count_active (enemies f') 0 = 18) fleet_start.
Proof. split; [reflexivity|]. apply (init_enemies_formation 1152); [reflexivity|lia|by left]. Defined.

Lemma move_enemies_refines_witness :
  represents grid0 fleet0 ∧
  wp (move_enemies 1152) (λ rc f',
    rc = 0 ∧ represents (grid_step 1152 grid0) f' ∧ grid_ok 1152 (grid_step 1152 grid0) ∧
    eactive <$> enemies f' = eactive <$> enemies fleet0 ∧
    Forall (λ e, eactive e = true → 20 <= ex e <= 1152 - 41) (enemies f')) fleet0.
Proof.
  split; [exact fleet0_represents|].
  apply (move_enemies_refines 1152 grid0 fleet0 grid0_ok fleet0_represents); simpl; lia.
Defined.

Lemma fleet_descends_witness :
  alive_at grid0 17 = true ∧
  ∃ n, Z.of_nat n <= Z.of_nat 20 * (1152 / 20 + 3) ∧
    wp (for_rc n 0 (λ _, move_enemies 1152)) (λ rc f', rc = 0 ∧
      ∀ k e e', enemies fleet0 !! k = Some e → enemies f' !! k = Some e' → eactive e = true →
        eactive e' = true ∧ ey e' = ey e + 40 * Z.of_nat 20) fleet0.
Proof.
  split; [reflexivity|].
  apply (fleet_descends 1152 grid0 fleet0 20 17 ltac:(lia) grid0_ok fleet0_represents);
    [lia|reflexivity|vm_compute; discriminate].
Defined.

Lemma count_active_enemies_counts_witness :
  length (enemies fleet0) = 18%nat ∧
  ∃ n, count_active_enemies fleet0 = Done (n, fleet0) ∧
    n = Z.of_nat (length (filter (λ e, eactive e = true) (enemies fleet0))) ∧
    (n = 0 ↔ Forall (λ e, eactive e = false) (enemies fleet0)).
Proof. split; [reflexivity|]. apply (count_active_enemies_counts fleet0 eq_refl). Defined.

End Witness.
