(* ===== verification/Decimal.v ===== *)
(** * Decimal numbers as C prints and reads them

    The conversions [%d] of sprintf, fprintf and sscanf, on lists of character codes, and the
    round trip between them.  A 32-bit int prints in at most 11 characters. *)

From S2P Require Import Prelude.

(** ** Printing *)

(** The decimal digits of a natural number; [fuel + 1] digits are enough below [10 ^ (fuel + 1)]. *)
Fixpoint digits (fuel : nat) (n : Z) : list Z :=
  match fuel with
  | O => [48 + n mod 10]
  | S fuel => if n <? 10 then [48 + n] else digits fuel (n / 10) ++ [48 + n mod 10]
  end.

(** printf("%d", n); an int has at most 10 digits. *)
Definition sprintf_d (n : Z) : list Z :=
  if n <? 0 then 45 :: digits 9 (- n) else digits 9 n.

(** sprintf(buf, "%d", n) with [char buf[size]]: the string and its terminator must fit. *)
Definition sprintf_buf {S} (size : Z) (n : Z) : M S (list Z) :=
  if Z.of_nat (length (sprintf_d n)) + 1 <=? size then mret (sprintf_d n) else undef.

(** ** Reading *)

Definition is_space (c : Z) : bool := (c =? 32) || (9 <=? c) && (c <=? 13).
Definition is_digit (c : Z) : bool := (48 <=? c) && (c <=? 57).

Fixpoint skip_space (l : list Z) : list Z :=
  match l with
  | c :: l' => if is_space c then skip_space l' else l
  | [] => []
  end.

Fixpoint scan_digits (acc : Z) (l : list Z) : Z * list Z :=
  match l with
  | c :: l' => if is_digit c then scan_digits (acc * 10 + (c - 48)) l' else (acc, l)
  | [] => (acc, [])
  end.

(** At least one digit. *)
Definition scan_nat (l : list Z) : option (Z * list Z) :=
  match l with
  | c :: _ => if is_digit c then Some (scan_digits 0 l) else None
  | [] => None
  end.

(** The conversion %d of scanf: white space, a sign, digits; the value and the rest. *)
Definition scan_d (l : list Z) : option (Z * list Z) :=
  match skip_space l with
  | 45 :: l => '(n, rest) ← scan_nat l; Some (- n, rest)
  | 43 :: l => scan_nat l
  | l => scan_nat l
  end.

(** ** The round trip *)

Definition value (acc : Z) (ds : list Z) : Z := foldl (λ a c, a * 10 + (c - 48)) acc ds.

Lemma digits_are_digits fuel : ∀ n, 0 <= n → Forall (λ c, is_digit c = true) (digits fuel n).
Proof.
  assert (∀ n, is_digit (48 + n mod 10) = true) as Hm.
  { intros n. unfold is_digit. pose proof (Z.mod_pos_bound n 10). lia. }
  induction fuel as [|fuel IH]; intros n Hn; simpl;
    [constructor; [apply Hm|constructor]|].
  destruct (n <? 10) eqn:E.
  - constructor; [unfold is_digit; lia|constructor].
  - apply Forall_app. split; [apply IH, Z.div_pos; lia|constructor; [apply Hm|constructor]].
Qed.

Lemma digits_value fuel : ∀ n, 0 <= n < 10 ^ (Z.of_nat fuel + 1) → value 0 (digits fuel n) = n.
Proof.
  induction fuel as [|fuel IH]; intros n Hn; simpl.
  { unfold value. simpl in *. rewrite Z.mod_small by lia. lia. }
  destruct (n <? 10) eqn:E; [unfold value; simpl; lia|].
  unfold value. rewrite foldl_app. fold (value 0 (digits fuel (n / 10))).
  rewrite IH; [simpl; Z.to_euclidean_division_equations; lia|].
  split; [apply Z.div_pos; lia|]. apply Z.div_lt_upper_bound; [lia|].
  rewrite <- Z.pow_succ_r by lia. replace (Z.succ _) with (Z.of_nat (S fuel) + 1) by lia. lia.
Qed.

Lemma digits_head fuel n : 0 <= n → ∃ c ds, digits fuel n = c :: ds ∧ is_digit c = true.
Proof.
  intros Hn. pose proof (digits_are_digits fuel n Hn) as Hd.
  destruct (digits fuel n) as [|c ds] eqn:E.
  - destruct fuel; simpl in E; [done|]. destruct (n <? 10); [done|].
    by apply app_eq_nil in E as [_ ?].
  - exists c, ds. by inversion Hd.
Qed.

(** The first character that follows a number is no digit. *)
Definition stops (rest : list Z) : Prop :=
  match rest with c :: _ => is_digit c = false | [] => True end.

Lemma scan_digits_app ds : ∀ acc rest, Forall (λ c, is_digit c = true) ds → stops rest →
  scan_digits acc (ds ++ rest) = (value acc ds, rest).
Proof.
  induction ds as [|c ds IH]; intros acc rest Hd Hr; simpl.
  - destruct rest as [|c rest]; [done|]. simpl in *. by rewrite Hr.
  - inversion Hd as [|? ? Hc Hds]; subst. rewrite Hc. by apply IH.
Qed.

Lemma scan_nat_digits fuel n rest : 0 <= n < 10 ^ (Z.of_nat fuel + 1) → stops rest →
  scan_nat (digits fuel n ++ rest) = Some (n, rest).
Proof.
  intros Hn Hr. destruct (digits_head fuel n) as (c & ds & E & Hc); [lia|].
  unfold scan_nat. rewrite E. cbn [app]. rewrite Hc.
  change (c :: ds ++ rest) with ((c :: ds) ++ rest). rewrite <- E.
  rewrite scan_digits_app, digits_value by (done || apply digits_are_digits; lia). done.
Qed.

Lemma is_digit_no_space c : is_digit c = true → is_space c = false ∧ c ≠ 45 ∧ c ≠ 43.
Proof. unfold is_digit, is_space. lia. Qed.

(** Every 32-bit int is read back from its decimal text. *)
Lemma scan_d_sprintf_d n rest : -2147483648 <= n < 2147483648 → stops rest →
  scan_d (sprintf_d n ++ rest) = Some (n, rest).
Proof.
  intros Hn Hr. unfold sprintf_d, scan_d. destruct (n <? 0) eqn:E.
  - cbn -[digits scan_nat]. rewrite scan_nat_digits by (done || simpl; lia).
    cbn -[digits scan_nat]. do 2 f_equal. lia.
  - destruct (digits_head 9 n) as (c & ds & Ed & Hc); [lia|].
    destruct (is_digit_no_space c Hc) as (Hs & H1 & H2).
    pose proof (scan_nat_digits 9 n rest) as Hscan. rewrite Ed in *.
    cbn -[scan_nat is_space] in Hscan |- *. rewrite Hs.
    destruct c as [|p|p]; try (apply Hscan; [lia|done]).
    repeat (destruct p as [p|p|]; try (apply Hscan; [lia|done]); try done).
Qed.

Lemma digits_length fuel n : (1 <= length (digits fuel n) <= S fuel)%nat.
Proof.
  revert n. induction fuel as [|fuel IH]; intros n; simpl; [lia|].
  destruct (n <? 10); simpl; [lia|]. rewrite length_app. simpl. specialize (IH (n / 10)). lia.
Qed.

Lemma sprintf_d_length n : (1 <= length (sprintf_d n) <= 11)%nat.
Proof.
  unfold sprintf_d. pose proof (digits_length 9 n). pose proof (digits_length 9 (- n)).
  destruct (n <? 0); cbn [length]; lia.
Qed.

(** The [char num_str[12]] of the program holds every int. *)
Lemma sprintf_buf_fits {S} n (s : S) : sprintf_buf 12 n s = Done (sprintf_d n, s).
Proof.
  unfold sprintf_buf. pose proof (sprintf_d_length n). by rewrite (proj2 (Z.leb_le _ _)) by lia.
Qed.

Lemma sprintf_d_chars n : -2147483648 <= n < 2147483648 →
  Forall (λ c, is_digit c = true ∨ c = 45) (sprintf_d n).
Proof.
  intros Hn. assert (∀ m, 0 <= m → Forall (λ c, is_digit c = true ∨ c = 45) (digits 9 m)) as H.
  { intros m Hm. eapply Forall_impl; [|by apply digits_are_digits]. simpl. auto. }
  unfold sprintf_d. destruct (n <? 0) eqn:E; [constructor; [by right|]|]; apply H; lia.
Qed.
