(* ===== verification/Text.v ===== *)
(** * game/scores/score.c: drawing text and numbers

    Letters and digits are sprites of 20 by 35 pixels drawn 22 pixels apart.  The result of
    print_xpm is ignored by all of these functions, so a glyph that does not fit on the screen
    is clipped; the coordinates are ints converted to the uint16_t parameters of print_xpm.

    [glyphs] is the abstract painting of a string, and the theorems say which glyphs of a
    string appear and where. *)

From S2P Require Import Prelude Machine Xpm Sprites Graphics Decimal.

Definition CHAR_WIDTH : Z := 20.
Definition CHAR_HEIGHT : Z := 25.
Definition CHAR_SPACING : Z := 22.

Section operations.
Context `{XpmLoader}.

Definition draw_letter (letter x y : Z) : M gfx unit :=
  if (letter >=? 65) && (letter <=? 90) then
    m ← of_option (letters !! Z.to_nat (letter - 65));
    print_xpm m (u16 x) (u16 y);; skip
  else if (letter >=? 97) && (letter <=? 122) then
    m ← of_option (letters !! Z.to_nat (letter - 97));
    print_xpm m (u16 x) (u16 y);; skip
  else skip.

(** The loop of draw_text; [text] is the part of the string not yet read. *)
Fixpoint draw_text (text : list Z) (current_x y : Z) : M gfx unit :=
  match text with
  | [] => skip
  | c :: text =>
      if c =? 32 then
        draw_text text (i32 (current_x + CHAR_SPACING)) y
      else
        draw_letter c current_x y;;
        draw_text text (i32 (current_x + CHAR_SPACING)) y
  end.

(** [strlen(text) * CHAR_SPACING]: an unsigned product converted to int. *)
Definition calculate_text_width (text : list Z) : Z :=
  i32 (u32 (Z.of_nat (length text) * CHAR_SPACING)).

Definition draw_text_centered (text : list Z) (center_x y : Z) : M gfx unit :=
  let text_width := calculate_text_width text in
  let start_x := i32 (center_x - idiv text_width 2) in
  draw_text text start_x y.

Definition draw_digit (digit x y : Z) : M gfx unit :=
  if (digit >=? 0) && (digit <=? 9) then
    m ← of_option (numbers !! Z.to_nat digit);
    print_xpm m (u16 x) (u16 y);; skip
  else skip.

(** The loop of draw_number over the characters of [num_str]. *)
Fixpoint draw_digits (num_str : list Z) (current_x y : Z) : M gfx Z :=
  match num_str with
  | [] => mret current_x
  | c :: num_str =>
      let digit := c - 48 in
      draw_digit digit current_x y;;
      draw_digits num_str (i32 (current_x + CHAR_SPACING)) y
  end.

Definition draw_number (number x y : Z) : M gfx Z :=
  if number =? 0 then
    draw_digit 0 x y;;
    mret (i32 (x + CHAR_SPACING))
  else
    num_str ← sprintf_buf 12 number;
    draw_digits num_str x y.

Definition draw_label_and_number (label : list Z) (number x y : Z) : M gfx unit :=
  draw_text label x y;;
  let label_width := calculate_text_width label in
  draw_number number (i32 (x + label_width)) y;;
  skip.

Definition draw_label_and_number_centered (label : list Z) (number center_x y : Z) : M gfx unit :=
  num_str ← sprintf_buf 12 number;
  let num_width := calculate_text_width num_str in
  let label_width := calculate_text_width label in
  let total_width := i32 (label_width + num_width) in
  let start_x := i32 (center_x - idiv total_width 2) in
  draw_text label start_x y;;
  draw_number number (i32 (start_x + label_width)) y;;
  skip.
End operations.

(** ** The painting of a string *)

Definition letter_of (c : Z) : option xpm_map :=
  if (65 <=? c) && (c <=? 90) then letters !! Z.to_nat (c - 65)
  else if (97 <=? c) && (c <=? 122) then letters !! Z.to_nat (c - 97)
  else None.

Definition digit_of (c : Z) : option xpm_map :=
  if (48 <=? c) && (c <=? 57) then numbers !! Z.to_nat (c - 48) else None.

Lemma glyph_dims_letter m i : letters !! i = Some m → xpm_dims m = Some (20, 35).
Proof.
  intros Hi. pose proof glyph_dims as Hg. rewrite List.Forall_forall in Hg. apply Hg.
  apply list_elem_of_In, list_elem_of_lookup. exists i. by apply lookup_app_l_Some.
Qed.

Lemma glyph_dims_number m i : numbers !! i = Some m → xpm_dims m = Some (20, 35).
Proof.
  intros Hi. pose proof glyph_dims as Hg. rewrite List.Forall_forall in Hg. apply Hg.
  apply list_elem_of_In, elem_of_app. right. by eapply list_elem_of_lookup_2.
Qed.

Lemma letter_of_dims c m : letter_of c = Some m → xpm_dims m = Some (20, 35).
Proof. unfold letter_of. repeat case_match; try done; apply glyph_dims_letter. Qed.
Lemma digit_of_dims c m : digit_of c = Some m → xpm_dims m = Some (20, 35).
Proof. unfold digit_of. case_match; [apply glyph_dims_number|done]. Qed.

Section paintings.
Context `{XpmLoaderLaws}.

Definition glyph (m : option xpm_map) (x y : Z) : painting :=
  match m with Some m => area x y 20 35 (sprite_color m) | None => nothing end.

Fixpoint glyphs (f : Z → option xpm_map) (s : list Z) (x y : Z) : painting :=
  match s with
  | [] => nothing
  | c :: s => over (glyphs f s (x + 22) y) (glyph (f c) x y)
  end.

(** All the glyphs of a string of [n] characters at (x, y) are on the screen. *)
Definition string_fits (g : gfx) (n x y : Z) : Prop :=
  0 <= x ∧ x + 22 * n <= hres g ∧ 0 <= y ∧ y + 35 <= vres g.

(** Drawing one glyph, at any coordinates: it never leaves the buffer, and on the screen it
    paints the sprite. *)
Lemma glyph_draws m g x y : gfx_ok g → xpm_dims m = Some (20, 35) →
  wp (print_xpm m (u16 x) (u16 y);; skip) (λ _ g', redrawn g g' ∧
    (string_fits g 1 x y → paints g g' (area x y 20 35 (sprite_color m)))) g.
Proof.
  intros Hg Hd. apply wp_bind. pose proof (u16_range x). pose proof (u16_range y).
  eapply wp_mono; [|apply (print_xpm_draws g m 20 35); [done..|lia|lia]].
  intros rc g' Hdr. apply wp_ret. split; [by eapply draws_redrawn|]. intros (? & ? & ? & ?).
  pose proof (ok_x g Hg). pose proof (ok_y g Hg). rewrite !u16_small in Hdr by lia.
  unfold draws in Hdr. replace (_ && _) with true in Hdr by lia. by destruct Hdr.
Qed.

Lemma draw_letter_draws c g x y : gfx_ok g →
  wp (draw_letter c x y) (λ _ g', redrawn g g' ∧
    (string_fits g 1 x y → paints g g' (glyph (letter_of c) x y))) g.
Proof.
  intros Hg. assert (∀ i, (i < 26)%nat → ∃ m, letters !! i = Some m) as Hl
    by (intros i Hi; apply lookup_lt_is_Some_2; done).
  unfold draw_letter, letter_of. rewrite !Z.geb_leb. 
  destruct ((65 <=? c) && (c <=? 90)) eqn:E1; [|destruct ((97 <=? c) && (c <=? 122)) eqn:E2].
  - destruct (Hl (Z.to_nat (c - 65))) as [m Hm]; [lia|]. rewrite Hm.
    eapply wp_ext; [apply run_some|]. apply glyph_draws; [done|by eapply glyph_dims_letter].
  - destruct (Hl (Z.to_nat (c - 97))) as [m Hm]; [lia|]. rewrite Hm.
    eapply wp_ext; [apply run_some|]. apply glyph_draws; [done|by eapply glyph_dims_letter].
  - apply wp_ret. split; [by apply redrawn_refl|]. intros _. by apply paints_refl.
Qed.

Lemma draw_digit_draws c g x y : gfx_ok g →
  wp (draw_digit (c - 48) x y) (λ _ g', redrawn g g' ∧
    (string_fits g 1 x y → paints g g' (glyph (digit_of c) x y))) g.
Proof.
  intros Hg. unfold draw_digit, digit_of.
  replace ((c - 48 >=? 0) && (c - 48 <=? 9)) with ((48 <=? c) && (c <=? 57)) by lia.
  destruct (_ && _) eqn:E.
  - destruct (lookup_lt_is_Some_2 numbers (Z.to_nat (c - 48))) as [m Hm]; [simpl; lia|].
    rewrite Hm. eapply wp_ext; [apply run_some|].
    apply glyph_draws; [done|by eapply glyph_dims_number].
  - apply wp_ret. split; [by apply redrawn_refl|]. intros _. by apply paints_refl.
Qed.

(** One glyph, then the rest of the string. *)
Lemma glyph_then f c s g g1 g2 x y n : string_fits g (n + 1) x y → 0 <= n →
  redrawn g g1 → (string_fits g 1 x y → paints g g1 (glyph (f c) x y)) →
  (string_fits g1 n (i32 (x + 22)) y → paints g1 g2 (glyphs f s (i32 (x + 22)) y)) →
  gfx_ok g → paints g g2 (glyphs f (c :: s) x y).
Proof.
  intros (? & ? & ? & ?) Hn Hr Hp1 Hp2 Hg. pose proof (ok_x g Hg).
  destruct (redrawn_screen _ _ Hr) as (Hx & Hy & _). rewrite i32_small in Hp2 by lia.
  eapply paints_trans; [apply Hp1|apply Hp2]; unfold string_fits; lia.
Qed.

Lemma draw_text_draws s : ∀ g x y, gfx_ok g →
  wp (draw_text s x y) (λ _ g', redrawn g g' ∧
    (string_fits g (Z.of_nat (length s)) x y → paints g g' (glyphs letter_of s x y))) g.
Proof.
  induction s as [|c s IH]; intros g x y Hg; cbn [draw_text].
  { apply wp_ret. split; [by apply redrawn_refl|]. intros _. by apply paints_refl. }
  destruct (c =? 32) eqn:E.
  - apply Z.eqb_eq in E as ->. eapply wp_mono; [|by apply IH].
    intros [] g' [Hr Hp]. split; [done|]. intros Hfit.
    apply (glyph_then letter_of 32 s g g g' x y (Z.of_nat (length s))); [|lia| | |done..].
    + by replace (Z.of_nat (length s) + 1) with (Z.of_nat (length (32 :: s))) by (simpl; lia).
    + by apply redrawn_refl.
    + intros _. by apply paints_refl.
  - apply wp_bind. eapply wp_mono; [|by apply draw_letter_draws]. intros [] g1 [Hr1 Hp1].
    eapply wp_mono; [|apply IH; by eapply redrawn_ok]. intros [] g2 [Hr2 Hp2].
    split; [by eapply redrawn_trans|]. intros Hfit.
    apply (glyph_then letter_of c s g g1 g2 x y (Z.of_nat (length s))); [|lia|done..].
    by replace (Z.of_nat (length s) + 1) with (Z.of_nat (length (c :: s))) by (simpl; lia).
Qed.

Lemma draw_digits_draws s : ∀ g x y, gfx_ok g →
  wp (draw_digits s x y) (λ r g', redrawn g g' ∧
    (string_fits g (Z.of_nat (length s)) x y →
       r = x + 22 * Z.of_nat (length s) ∧ paints g g' (glyphs digit_of s x y))) g.
Proof.
  induction s as [|c s IH]; intros g x y Hg; cbn [draw_digits].
  { apply wp_ret. split; [by apply redrawn_refl|]. intros _. split; [simpl; lia|by apply paints_refl]. }
  apply wp_bind. eapply wp_mono; [|by apply draw_digit_draws]. intros [] g1 [Hr1 Hp1].
  eapply wp_mono; [|apply IH; by eapply redrawn_ok]. intros r g2 [Hr2 Hp2].
  split; [by eapply redrawn_trans|]. intros Hfit.
  assert (string_fits g (Z.of_nat (length s) + 1) x y) as Hfit'
    by (by replace (Z.of_nat (length s) + 1) with (Z.of_nat (length (c :: s))) by (simpl; lia)).
  assert (string_fits g1 (Z.of_nat (length s)) (i32 (x + 22)) y) as Hfit1.
  { pose proof (ok_x g Hg). destruct Hfit' as (? & ? & ? & ?).
    destruct (redrawn_screen _ _ Hr1) as (Hx1 & Hy1 & _). unfold string_fits, CHAR_SPACING.
    rewrite i32_small by lia. lia. }
  split.
  - destruct (Hp2 Hfit1) as [-> _]. pose proof (ok_x g Hg). destruct Hfit' as (? & ? & ? & ?).
    unfold CHAR_SPACING. rewrite i32_small by lia. cbn [length]. lia.
  - apply (glyph_then digit_of c s g g1 g2 x y (Z.of_nat (length s))); [done|lia|done|done| |done].
    intros Hf. by apply Hp2.
Qed.

Lemma draw_number_draws number g x y : gfx_ok g →
  wp (draw_number number x y) (λ r g', redrawn g g' ∧
    (string_fits g (Z.of_nat (length (sprintf_d number))) x y →
       r = x + 22 * Z.of_nat (length (sprintf_d number)) ∧
       paints g g' (glyphs digit_of (sprintf_d number) x y))) g.
Proof.
  intros Hg. unfold draw_number. destruct (number =? 0) eqn:E.
  - apply Z.eqb_eq in E as ->. apply wp_bind. eapply wp_mono; [|by apply (draw_digit_draws 48)].
    intros [] g' [Hr Hp]. apply wp_ret. split; [done|]. intros Hfit. pose proof (ok_x g Hg).
    split; [unfold CHAR_SPACING; destruct Hfit as (? & ? & ? & ?); simpl in *; rewrite i32_small; lia|].
    eapply paints_ext; [|apply Hp, Hfit]. intros. simpl. unfold over, nothing. by destruct (area _ _ _ _ _ _ _).
  - eapply wp_run; [apply sprintf_buf_fits|]. by apply draw_digits_draws.
Qed.

(** A string of fewer than 2^20 characters has its width computed without overflow. *)
Lemma text_width_small s : Z.of_nat (length s) < 2 ^ 20 →
  calculate_text_width s = 22 * Z.of_nat (length s).
Proof.
  intros Hl. unfold calculate_text_width, CHAR_SPACING. rewrite u32_small, i32_small by (rewrite ?u32_small; lia). lia.
Qed.

(** A label and the number after it. *)
Definition label_glyphs (label : list Z) (number x y : Z) : painting :=
  over (glyphs digit_of (sprintf_d number) (x + 22 * Z.of_nat (length label)) y)
       (glyphs letter_of label x y).

Definition label_length (label : list Z) (number : Z) : Z :=
  Z.of_nat (length label) + Z.of_nat (length (sprintf_d number)).

Lemma draw_label_draws label number x y g : gfx_ok g → Z.of_nat (length label) < 2 ^ 20 →
  wp (draw_text label x y;; draw_number number (i32 (x + calculate_text_width label)) y;; skip)
    (λ _ g', redrawn g g' ∧ (string_fits g (label_length label number) x y →
                               paints g g' (label_glyphs label number x y))) g.
Proof.
  intros Hg Hl. apply wp_bind. eapply wp_mono; [|by apply draw_text_draws]. intros [] g1 [Hr1 Hp1].
  apply wp_bind. eapply wp_mono; [|apply draw_number_draws; by eapply redrawn_ok].
  intros r g2 [Hr2 Hp2]. apply wp_ret. split; [by eapply redrawn_trans|].
  intros (? & Hw & ? & ?). unfold label_length in Hw. pose proof (ok_x g Hg).
  pose proof (sprintf_d_length number). rewrite text_width_small, i32_small in Hp2 by (try done; lia).
  destruct (redrawn_screen _ _ Hr1) as (Hx & Hy & _).
  eapply paints_trans; [apply Hp1|apply Hp2]; unfold string_fits; lia.
Qed.

(** A centred label and number: half of the characters on each side of [center_x]. *)
Lemma draw_label_centered_draws label number center_x y g : gfx_ok g →
  Z.of_nat (length label) < 2 ^ 20 → 
  let start := center_x - 11 * label_length label number in
  wp (draw_label_and_number_centered label number center_x y) (λ _ g',
    redrawn g g' ∧
    (string_fits g (label_length label number) start y →
       paints g g' (label_glyphs label number start y))) g.
Proof.
  intros Hg Hl start. unfold draw_label_and_number_centered.
  eapply wp_run; [apply sprintf_buf_fits|]. pose proof (sprintf_d_length number) as Hn.
  eapply wp_mono; [|by apply draw_label_draws].
  intros _ g' [Hr Hp]. split; [done|]. intros Hfit. pose proof (ok_x g Hg).
  replace (i32 (center_x - _)) with start in Hp; [by apply Hp|].
  rewrite !text_width_small by lia. unfold start, string_fits, label_length, idiv in *.
  rewrite (i32_small (22 * _ + _)) by lia.
  replace (22 * _ + 22 * _) with
    (11 * (Z.of_nat (length label) + Z.of_nat (length (sprintf_d number))) * 2) by lia.
  rewrite Z.quot_mul by lia. rewrite (i32_small (11 * _)), i32_small by lia. done.
Qed.

(** ** Properties *)

(** draw_number on the screen: it returns the x coordinate after the last digit, and
    draws one digit sprite per decimal digit; a minus sign only leaves its space. *)
Theorem draw_number_paints number x y g : gfx_ok g → -2147483648 <= number < 2147483648 →
  string_fits g (Z.of_nat (length (sprintf_d number))) x y →
  wp (draw_number number x y) (λ r g',
    r = x + 22 * Z.of_nat (length (sprintf_d number)) ∧
    paints g g' (glyphs digit_of (sprintf_d number) x y) ∧
    Forall (λ c, digit_of c = None ↔ c = 45) (sprintf_d number)) g.
Proof.
  intros Hg Hn Hfit. eapply wp_mono; [|by apply draw_number_draws].
  intros r g' [_ Hp]. destruct (Hp Hfit) as [-> ?]. split_and!; [done..|].
  eapply Forall_impl; [|by apply sprintf_d_chars]. intros c Hc. unfold digit_of, is_digit in *.
  split; [|by intros ->]. destruct Hc as [Hc|Hc]; [|done]. rewrite Hc.
  destruct (lookup_lt_is_Some_2 numbers (Z.to_nat (c - 48))) as [m ->]; [simpl; lia|done].
Qed.
End paintings.

(** ** Witnesses *)
Module Witness.
Import BlankLoader Screen.

Lemma draw_number_paints_witness :
  string_fits screen (Z.of_nat (length (sprintf_d (-250)))) 400 130 ∧
  wp (draw_number (-250) 400 130) (λ r g',
    r = 400 + 22 * Z.of_nat (length (sprintf_d (-250))) ∧
    paints screen g' (glyphs digit_of (sprintf_d (-250)) 400 130) ∧
    Forall (λ c, digit_of c = None ↔ c = 45) (sprintf_d (-250))) screen.
Proof.
  assert (string_fits screen (Z.of_nat (length (sprintf_d (-250)))) 400 130) as Hf
    by (unfold string_fits, hres, vres; simpl; lia).
  split; [exact Hf|]. apply (draw_number_paints (-250) 400 130 screen screen_ok); [lia|exact Hf].
Defined.
End Witness.
