(* ===== verification/Score.v ===== *)
(** * game/scores/score.c: the score of one game

    State: [current_score] and the flags of the current game.  The score shown while playing,
    the final score and the texts on the two score screens.

    Module [Spec] gives the score as a function of the shots and seconds of a game, and the
    theorems show that any sequence of shots and clock ticks ends with that score. *)

From S2P Require Import Prelude Machine Xpm Sprites Graphics Decimal Text.
Import (notations) String.

Record scoring := Scoring {
  bullets_fired : Z;
  game_time_seconds : Z;
  final_score : Z;
  game_start_time : Z;
  game_active : bool;
  highscore_saved_this_game : bool;
}.

(** The static initialisers. *)
Definition scoring_start : scoring := Scoring 0 0 0 0 false false.

(** [timer_counter] is the global of timer.c. *)
Definition score_init (timer_counter : Z) : M scoring unit :=
  modify (λ s, Scoring 0 0 0 timer_counter true false).

Definition score_add_bullet : M scoring unit :=
  modify (λ s, if game_active s
    then Scoring (i32 (bullets_fired s + 1)) (game_time_seconds s) (final_score s)
           (game_start_time s) (game_active s) (highscore_saved_this_game s)
    else s).

Definition score_update_time (timer_ticks : Z) : M scoring unit :=
  modify (λ s, if game_active s
    then Scoring (bullets_fired s) (idiv (i32 (timer_ticks - game_start_time s)) 60)
           (final_score s) (game_start_time s) (game_active s) (highscore_saved_this_game s)
    else s).

(** [base_score - bullet_penalty - time_penalty], at least 100: in score_calculate_final and
    in draw_live_score. *)
Definition live_score (s : scoring) : Z :=
  let base_score := 10000 in
  let bullet_penalty := i32 (bullets_fired s * 50) in
  let time_penalty := i32 (game_time_seconds s * 10) in
  let score := i32 (i32 (base_score - bullet_penalty) - time_penalty) in
  if score <? 100 then 100 else score.

Definition score_calculate_final : M scoring Z :=
  s ← gets id;
  if negb (game_active s) then mret (final_score s) else
  modify (λ s, Scoring (bullets_fired s) (game_time_seconds s) (live_score s)
                 (game_start_time s) false (highscore_saved_this_game s));;
  gets final_score.

Definition score_reset : M scoring unit := modify (λ s, Scoring 0 0 0 0 false false).

(** ** The texts *)
Section drawing.
Context `{XpmLoader}.

Definition draw_live_score (s : scoring) : M gfx unit :=
  mi ← gets mode_info;
  let margin := 20 in
  let top_y := margin in
  draw_label_and_number (codes "SCORE ") (live_score s) margin top_y;;
  let center_x := idiv (XResolution mi) 2 in
  draw_label_and_number_centered (codes "TIME ") (game_time_seconds s) center_x top_y;;
  let shots_text := codes "SHOTS " in
  shots_num ← sprintf_buf 12 (bullets_fired s);
  let shots_total_width :=
    i32 (u32 (calculate_text_width shots_text + u32 (Z.of_nat (length shots_num) * CHAR_SPACING))) in
  let shots_x := i32 (i32 (XResolution mi - shots_total_width) - margin) in
  draw_label_and_number shots_text (bullets_fired s) shots_x top_y.

(** [assigned_name] is always "UNKNOWN": it is empty when first read and never set. *)
Definition draw_final_score_display (s : scoring) : M gfx unit :=
  mi ← gets mode_info;
  let center_x := idiv (XResolution mi) 2 in
  let center_y := idiv (YResolution mi) 2 in
  let line_spacing := CHAR_HEIGHT + 15 in
  let start_y := i32 (center_y - line_spacing * 3) in
  draw_text_centered (codes "YOU WON") center_x start_y;;
  draw_text_centered (codes "PILOT") (i32 (center_x - 60)) (i32 (start_y + line_spacing));;
  draw_text_centered (codes "UNKNOWN") (i32 (center_x + 60)) (i32 (start_y + line_spacing));;
  draw_label_and_number_centered (codes "FINAL SCORE ") (final_score s) center_x
    (i32 (start_y + line_spacing * 2));;
  draw_label_and_number_centered (codes "TIME ") (game_time_seconds s) center_x
    (i32 (start_y + line_spacing * 3));;
  draw_label_and_number_centered (codes "SHOTS FIRED ") (bullets_fired s) center_x
    (i32 (start_y + line_spacing * 4));;
  (if bullets_fired s >? 0 then
     let efficiency := idiv (i32 (final_score s * 100)) 10000 in
     let efficiency := if efficiency >? 100 then 100 else efficiency in
     draw_label_and_number_centered (codes "EFFICIENCY ") efficiency center_x
       (i32 (start_y + line_spacing * 5))
   else skip);;
  draw_text_centered (codes "PRESS ENTER") center_x (i32 (start_y + line_spacing * 6)).
End drawing.

(** ** What the score of a game is *)
Module Spec.

(** 10000 points, less 50 for each shot and 10 for each second, but never below 100. *)
Definition points (shots seconds : Z) : Z := Z.max 100 (10000 - 50 * shots - 10 * seconds).

(** What happens in a game: a shot, or a clock update at a tick of the 60 Hz timer. *)
Inductive event := Shot | Clock (ticks : Z).

Fixpoint shots (es : list event) : Z :=
  match es with
  | [] => 0
  | Shot :: es => 1 + shots es
  | Clock _ :: es => shots es
  end.

(** The last clock reading. *)
Fixpoint clock (start : Z) (es : list event) : Z :=
  match es with
  | [] => start
  | Shot :: es => clock start es
  | Clock t :: es => clock t es
  end.

(** The clock of a game runs forward from its start, for less than 2^31 ticks. *)
Definition clocks_ok (start : Z) (es : list event) : Prop :=
  Forall (λ e, match e with Shot => True | Clock t => start <= t < start + 2 ^ 31 end) es.
End Spec.
Import Spec.

Fixpoint play (es : list event) : M scoring unit :=
  match es with
  | [] => skip
  | Shot :: es => score_add_bullet;; play es
  | Clock t :: es => score_update_time t;; play es
  end.

(** ** Lemmas *)

Lemma live_score_points s : 0 <= bullets_fired s < 2 ^ 24 → 0 <= game_time_seconds s < 2 ^ 26 →
  live_score s = points (bullets_fired s) (game_time_seconds s).
Proof.
  intros Hb Ht. unfold live_score, points.
  rewrite (i32_small (bullets_fired s * 50)), (i32_small (game_time_seconds s * 10)) by lia.
  rewrite (i32_small (10000 - _)), i32_small by lia.
  destruct (_ <? 100) eqn:E; lia.
Qed.

Lemma live_score_range s : 100 <= live_score s < 2147483648.
Proof.
  unfold live_score. pose proof (i32_range (i32 (10000 - i32 (bullets_fired s * 50)) - i32 (game_time_seconds s * 10))).
  destruct (_ <? 100) eqn:E; lia.
Qed.

Lemma score_calculate_final_run s : score_calculate_final s =
  if game_active s then
    Done (live_score s, Scoring (bullets_fired s) (game_time_seconds s) (live_score s)
                          (game_start_time s) false (highscore_saved_this_game s))
  else Done (final_score s, s).
Proof. unfold score_calculate_final. run_unfold. simpl. by destruct (game_active s). Qed.

Section drawing_lemmas.
Context `{XpmLoaderLaws}.

Lemma draw_label_and_number_safe label number x y g : gfx_ok g →
  Z.of_nat (length label) < 2 ^ 20 →
  wp (draw_label_and_number label number x y) (λ _, redrawn g) g.
Proof. intros Hg Hl. eapply wp_mono; [|by apply draw_label_draws]. by intros [] g' [? _]. Qed.

Lemma draw_label_centered_safe label number x y g : gfx_ok g →
  Z.of_nat (length label) < 2 ^ 20 →
  wp (draw_label_and_number_centered label number x y) (λ _, redrawn g) g.
Proof.
  intros Hg Hl. eapply wp_run; [apply sprintf_buf_fits|].
  eapply wp_mono; [|by apply draw_label_draws]. by intros [] g' [? _].
Qed.

Lemma draw_text_safe s x y g : gfx_ok g → wp (draw_text s x y) (λ _, redrawn g) g.
Proof. intros Hg. eapply wp_mono; [|by apply draw_text_draws]. by intros [] g' [? _]. Qed.

Lemma draw_text_centered_safe s x y g : gfx_ok g →
  wp (draw_text_centered s x y) (λ _, redrawn g) g.
Proof. intros Hg. by apply draw_text_safe. Qed.

(** Sequencing drawings that stay inside the buffer. *)
Lemma redrawn_seq {A B} (m : M gfx A) (k : A → M gfx B) g :
  wp m (λ _, redrawn g) g →
  (∀ a g', redrawn g g' → wp (k a) (λ _, redrawn g') g') →
  wp (m ≫= k) (λ _, redrawn g) g.
Proof.
  intros Hm Hk. apply wp_bind. eapply wp_mono; [|exact Hm]. intros a g' Hr.
  eapply wp_mono; [|by apply Hk]. intros b g2. by apply redrawn_trans.
Qed.
End drawing_lemmas.

Create HintDb drawing.
#[export] Hint Resolve draw_text_safe draw_text_centered_safe draw_label_and_number_safe
  draw_label_centered_safe redrawn_refl : drawing.
#[export] Hint Extern 1 (Z.of_nat (length _) < _) => vm_compute; reflexivity : drawing.

(** Proves that a sequence of text drawings stays inside the buffer. *)
Ltac drawing_steps :=
  repeat first
    [ solve [auto with drawing]
    | eapply wp_run; [apply sprintf_buf_fits|]
    | apply wp_bind, wp_gets
    | eapply redrawn_seq;
        [solve [auto with drawing]|
         let Hr := fresh in intros ? ? Hr; pose proof (redrawn_ok _ _ Hr); clear Hr]
    | apply wp_ret ].

(** ** The course of a game *)

Lemma shots_nonneg es : 0 <= shots es.
Proof. induction es as [|[] es IH]; simpl; lia. Qed.

(** An active game counts every shot and keeps the last clock reading. *)
Lemma play_active es : ∀ s t, game_active s = true → clocks_ok (game_start_time s) es →
  0 <= bullets_fired s → bullets_fired s + shots es < 2 ^ 31 →
  game_start_time s <= t < game_start_time s + 2 ^ 31 →
  game_time_seconds s = (t - game_start_time s) / 60 →
  play es s = Done (tt, Scoring (bullets_fired s + shots es) ((clock t es - game_start_time s) / 60)
    (final_score s) (game_start_time s) true (highscore_saved_this_game s)).
Proof.
  induction es as [|e es IH]; intros s t Ha Hc Hb0 Hb Ht Hs; simpl.
  { rewrite Z.add_0_r, <- Hs, <- Ha. by destruct s. }
  inversion Hc as [|? ? He Hes]; subst. destruct e as [|t']; simpl in *.
  - pose proof (shots_nonneg es). unfold score_add_bullet. rewrite run_modify, Ha.
    rewrite i32_small by lia. rewrite (IH _ t); simpl; try done; try lia.
    by rewrite <- Z.add_assoc.
  - unfold score_update_time. rewrite run_modify, Ha.
    rewrite (IH _ t'); simpl; try done; try lia.
    unfold idiv. rewrite (i32_small (t' - _)) by lia. rewrite Z.quot_div_nonneg by lia.
    apply i32_small. Z.to_euclidean_division_equations. lia.
Qed.

(** After the end of a game nothing changes its score. *)
Lemma play_inactive es s : game_active s = false → play es s = Done (tt, s).
Proof.
  intros Ha. induction es as [|[|t] es IH]; simpl; [done|..].
  - unfold score_add_bullet. by rewrite run_modify, Ha.
  - unfold score_update_time. by rewrite run_modify, Ha.
Qed.

Lemma clock_range es : ∀ start t, clocks_ok start es → start <= t < start + 2 ^ 31 →
  start <= clock t es < start + 2 ^ 31.
Proof.
  induction es as [|[|t'] es IH]; intros start t Hc Ht; simpl; [done|..];
    inversion Hc; subst; by apply IH.
Qed.

(** ** Drawing the score *)
Section score_drawing.
Context `{XpmLoaderLaws}.

Lemma draw_live_score_safe s g : gfx_ok g → wp (draw_live_score s) (λ _, redrawn g) g.
Proof. intros Hg. unfold draw_live_score. drawing_steps. Qed.

Lemma draw_final_score_display_safe s g : gfx_ok g →
  wp (draw_final_score_display s) (λ _, redrawn g) g.
Proof.
  intros Hg. unfold draw_final_score_display. drawing_steps.
  eapply redrawn_seq; [destruct (_ >? 0); drawing_steps|].
  intros ? ? Hr. pose proof (redrawn_ok _ _ Hr). drawing_steps.
Qed.
End score_drawing.

(** ** Properties *)

(** C25. The score of a game: whatever the state before, score_init, then any sequence of shots
    and clock updates, then score_calculate_final give 10000 - 50 per shot - 10 per second (at
    least 100, at most 10000), where the seconds are those of the last clock reading; later
    shots, clock updates and calculations do not change it.  Every shot counts, whether it hit or
    not, and no alien does: README.md, which bases the score on the enemies eliminated and the
    wasted ammunition, says otherwise. *)
Theorem final_score_of_game start es late s :
  clocks_ok start es → shots es < 2 ^ 24 →
  let seconds := (clock start es - start) / 60 in
  let r := points (shots es) seconds in
  100 <= r <= 10000 ∧
  wp (score_init start;; play es;; score_calculate_final)
    (λ r1 s1, r1 = r ∧ final_score s1 = r ∧ bullets_fired s1 = shots es ∧
              game_time_seconds s1 = seconds ∧
              wp (play late;; score_calculate_final) (λ r2 s2, r2 = r ∧ s2 = s1) s1) s.
Proof.
  intros Hc Hs seconds r. pose proof (shots_nonneg es).
  pose proof (clock_range es start start Hc ltac:(lia)).
  assert (0 <= seconds < 2 ^ 26) by (unfold seconds; Z.to_euclidean_division_equations; lia).
  split; [unfold r, points; lia|]. unfold score_init. eapply wp_run; [reflexivity|].
  eapply wp_run.
  { apply (play_active es _ start); simpl; try done; try lia. by rewrite Z.sub_diag. }
  unfold wp at 1. rewrite score_calculate_final_run. cbn -[live_score play].
  rewrite live_score_points by done. split_and!; [done..|].
  eapply wp_run; [by apply play_inactive|].
  unfold wp. rewrite score_calculate_final_run. done.
Qed.

(** The live score on the 1152 pixels wide screen: the three labels with their numbers are
    painted whole, SCORE at the left, TIME in the middle and SHOTS at the right, and they do
    not touch each other, whatever the numbers. *)
Theorem draw_live_score_layout `{XpmLoaderLaws} s g : gfx_ok g → hres g = 1152 → 55 <= vres g →
  let score_end := 20 + 22 * label_length (codes "SCORE ") (live_score s) in
  let time_x := 576 - 11 * label_length (codes "TIME ") (game_time_seconds s) in
  let time_end := 576 + 11 * label_length (codes "TIME ") (game_time_seconds s) in
  let shots_x := 1132 - 22 * label_length (codes "SHOTS ") (bullets_fired s) in
  score_end < time_x ∧ time_end < shots_x ∧
  wp (draw_live_score s) (λ _ g', paints g g'
    (over (label_glyphs (codes "SHOTS ") (bullets_fired s) shots_x 20)
    (over (label_glyphs (codes "TIME ") (game_time_seconds s) time_x 20)
          (label_glyphs (codes "SCORE ") (live_score s) 20 20)))) g.
Proof.
  intros Hg Hx Hy. cbv zeta. unfold label_length.
  change (Z.of_nat (length (codes "SCORE "))) with 6. change (Z.of_nat (length (codes "TIME "))) with 5.
  change (Z.of_nat (length (codes "SHOTS "))) with 6.
  pose proof (sprintf_d_length (live_score s)). pose proof (sprintf_d_length (game_time_seconds s)).
  pose proof (sprintf_d_length (bullets_fired s)). split; [lia|]. split; [lia|].
  unfold draw_live_score. apply wp_bind, wp_gets. fold (hres g). rewrite Hx.
  change (idiv 1152 2) with 576.
  apply wp_bind. eapply wp_mono; [|apply draw_label_draws; [done|vm_compute; done]].
  intros [] g1 [Hr1 Hp1]. destruct (redrawn_screen _ _ Hr1) as (Hx1 & Hy1 & _).
  apply wp_bind. eapply wp_mono; [|apply draw_label_centered_draws;
    [by eapply redrawn_ok|vm_compute; done]].
  intros [] g2 [Hr2 Hp2]. destruct (redrawn_screen _ _ Hr2) as (Hx2 & Hy2 & _).
  eapply wp_run; [apply sprintf_buf_fits|].
  eapply wp_mono; [|apply draw_label_draws; [by eapply redrawn_ok|vm_compute; done]].
  intros [] g3 [Hr3 Hp3].
  change (calculate_text_width (codes "SHOTS ")) with (22 * 6) in Hp3. unfold CHAR_SPACING in Hp3.
  rewrite (u32_small (Z.of_nat _ * 22)), (u32_small (22 * 6 + _)), (i32_small (22 * 6 + _)),
    (i32_small (1152 - _)), i32_small in Hp3 by lia.
  unfold label_length, string_fits in *.
  change (Z.of_nat (length (codes "SCORE "))) with 6 in *.
  change (Z.of_nat (length (codes "TIME "))) with 5 in *.
  change (Z.of_nat (length (codes "SHOTS "))) with 6 in *.
  eapply paints_trans; [|eapply paints_ext; [|apply Hp3; lia]].
  - eapply paints_trans; [apply Hp1; lia|apply Hp2; lia].
  - intros. f_equal; lia.
Qed.

(** ** Witnesses *)
Module Witness.
Import BlankLoader Screen.

Definition game : list event := [Shot; Clock 160; Shot; Shot; Clock 700].

Lemma final_score_of_game_witness :
  points (shots game) ((clock 100 game - 100) / 60) = 9750 ∧
  100 <= points (shots game) ((clock 100 game - 100) / 60) <= 10000 ∧
  wp (score_init 100;; play game;; score_calculate_final)
    (λ r1 s1, r1 = points (shots game) ((clock 100 game - 100) / 60) ∧
              final_score s1 = points (shots game) ((clock 100 game - 100) / 60) ∧
              bullets_fired s1 = shots game ∧
              game_time_seconds s1 = (clock 100 game - 100) / 60 ∧
              wp (play [Shot; Clock 9000];; score_calculate_final)
                (λ r2 s2, r2 = points (shots game) ((clock 100 game - 100) / 60) ∧ s2 = s1) s1)
    scoring_start.
Proof.
  split; [vm_compute; reflexivity|].
  apply (final_score_of_game 100 game [Shot; Clock 9000] scoring_start); [|vm_compute; done].
  repeat constructor; vm_compute; done.
Defined.

Lemma draw_live_score_layout_witness :
  gfx_ok screen ∧
  let s := scoring_start in
  let score_end := 20 + 22 * label_length (codes "SCORE ") (live_score s) in
  let time_x := 576 - 11 * label_length (codes "TIME ") (game_time_seconds s) in
  let time_end := 576 + 11 * label_length (codes "TIME ") (game_time_seconds s) in
  let shots_x := 1132 - 22 * label_length (codes "SHOTS ") (bullets_fired s) in
  score_end < time_x ∧ time_end < shots_x ∧
  wp (draw_live_score s) (λ _ g', paints screen g'
    (over (label_glyphs (codes "SHOTS ") (bullets_fired s) shots_x 20)
    (over (label_glyphs (codes "TIME ") (game_time_seconds s) time_x 20)
          (label_glyphs (codes "SCORE ") (live_score s) 20 20)))) screen.
Proof.
  assert (55 <= vres screen) as Hv by (vm_compute; discriminate).
  exact (conj screen_ok (draw_live_score_layout scoring_start screen screen_ok eq_refl Hv)).
Defined.
End Witness.
