(* ===== verification/HighScores.v ===== *)
(** * game/scores/score.c: the high-score table and its CSV file

    State: the array [highscores] of [MAX_HIGHSCORES] entries with its count, and the file
    ./highscores.csv with the permissions that decide whether the C library can open and write
    it.  Array accesses outside the array, a name too long for its field and a number that does
    not fit an int are undefined behaviour. *)

From Stdlib Require Import Sorted Permutation.
From S2P Require Import Prelude Machine Xpm Sprites Graphics Decimal Text Score.
Import (notations) String.

Definition MAX_NAME_LENGTH : Z := 20.
Definition MAX_HIGHSCORES : Z := 100.

Record HighScoreEntry := Entry {
  hs_name : list Z;
  hs_score : Z;
  hs_bullets_fired : Z;
  hs_game_time_seconds : Z;
}.

(** [seeded] is the static of get_random_anime_name. *)
Record board := Board {
  highscores : list HighScoreEntry;
  highscore_count : Z;
  seeded : bool;
}.

Definition set_count (n : Z) (b : board) : board := Board (highscores b) n (seeded b).
Definition set_highscores (l : list HighScoreEntry) (b : board) : board :=
  Board l (highscore_count b) (seeded b).

Definition board_start : board :=
  Board (replicate (Z.to_nat MAX_HIGHSCORES) (Entry [] 0 0 0)) 0 false.

(** The file and what the C library may do with it. *)
Record disk := Disk {
  csv : option (list Z);
  can_read : bool;
  can_append : bool;
  can_create : bool;
  can_write : bool;
}.

Definition set_csv (c : list Z) (d : disk) : disk :=
  Disk (Some c) (can_read d) (can_append d) (can_create d) (can_write d).

(** ** The C library on the file *)

(** fopen(CSV_FILENAME, "r"), "a" and "w": the content to read, the file after opening. *)
Definition fopen_r (d : disk) : option (list Z) := if can_read d then csv d else None.
Definition fopen_a (d : disk) : option disk :=
  if can_append d then Some (set_csv (default [] (csv d)) d) else None.
Definition fopen_w (d : disk) : option disk :=
  if can_create d then Some (set_csv [] d) else None.

(** fprintf: the number of characters written, or a negative number. *)
Definition fprintf (text : list Z) (d : disk) : Z * disk :=
  if can_write d then (Z.of_nat (length text), set_csv (default [] (csv d) ++ text) d) else (-1, d).

(** fgets(line, n + 1, file): at most [n] characters, up to and with the first newline; the
    string read and the rest of the file. *)
Fixpoint fgets (n : nat) (l : list Z) : list Z * list Z :=
  match n, l with
  | S n, c :: l =>
      if c =? 10 then ([c], l)
      else let '(s, rest) := fgets n l in (c :: s, rest)
  | _, _ => ([], l)
  end.

(** A C string ends at the first zero. *)
Fixpoint c_string (l : list Z) : list Z :=
  match l with
  | c :: l => if c =? 0 then [] else c :: c_string l
  | [] => []
  end.

(** %[^,] with a maximal width. *)
Fixpoint scan_field (n : nat) (l : list Z) : list Z * list Z :=
  match n, l with
  | S n, c :: l' => if c =? 44 then ([], l) else let '(s, rest) := scan_field n l' in (c :: s, rest)
  | _, _ => ([], l)
  end.

(** The conversion %d into an int, for which other numbers are undefined behaviour. *)
Definition scan_int {S} (l : list Z) : M S (option (Z * list Z)) :=
  match scan_d l with
  | None => mret None
  | Some (n, rest) =>
      if (-2147483648 <=? n) && (n <=? 2147483647) then mret (Some (n, rest)) else undef
  end.

(** A comma and then %d. *)
Definition scan_comma_int {S} (l : list Z) : M S (option (Z * list Z)) :=
  match l with
  | 44 :: l => scan_int l
  | _ => mret None
  end.

(** sscanf(line, "%19[^,],%d,%d,%d", ...) == 4: the four values, if all were converted. *)
Definition sscanf_entry {S} (line : list Z) : M S (option HighScoreEntry) :=
  match scan_field 19 (c_string line) with
  | ([], _) => mret None
  | (name, rest) =>
      r ← scan_comma_int rest;
      match r with None => mret None | Some (score, rest) =>
      r ← scan_comma_int rest;
      match r with None => mret None | Some (bullets, rest) =>
      r ← scan_comma_int rest;
      match r with None => mret None | Some (time, _) =>
        mret (Some (Entry name score bullets time))
      end end end
  end.

(** ** sort_highscores *)

(** The inner loop: [n] more comparisons, from index [j]. *)
Fixpoint sort_inner (n j : nat) (l : list HighScoreEntry) : option (list HighScoreEntry) :=
  match n with
  | O => Some l
  | S n =>
      a ← l !! j;
      b ← l !! S j;
      sort_inner n (S j)
        (if hs_score a <? hs_score b then <[S j := a]> (<[j := b]> l) else l)
  end.

(** The outer loop: [n] more passes, from index [i]. *)
Fixpoint sort_outer (n i count : nat) (l : list HighScoreEntry) : option (list HighScoreEntry) :=
  match n with
  | O => Some l
  | S n => l ← sort_inner (count - i - 1) 0 l; sort_outer n (S i) count l
  end.

Definition sort_highscores : M board unit :=
  b ← gets id;
  if highscore_count b <=? 1 then skip else
  let n := Z.to_nat (highscore_count b) in
  l ← of_option (sort_outer (n - 1) 0 n (highscores b));
  modify (set_highscores l).

(** ** Saving and loading *)

(** strcpy into the name and the stores into highscores[highscore_count++]. *)
Definition store_entry (e : HighScoreEntry) : M board unit :=
  b ← gets id;
  let i := highscore_count b in
  if (0 <=? i) && (i <? Z.of_nat (length (highscores b)))
     && (Z.of_nat (length (hs_name e)) + 1 <=? MAX_NAME_LENGTH)
  then modify (λ b, Board (<[Z.to_nat i := e]> (highscores b)) (i32 (i + 1)) (seeded b))
  else undef.

Definition header : list Z := codes "Name,Score,Bullets_Fired,Game_Time_Seconds" ++ [10].

(** fprintf(file, "%s,%d,%d,%d\n", ...) *)
Definition csv_line (e : HighScoreEntry) : list Z :=
  hs_name e ++ [44] ++ sprintf_d (hs_score e) ++ [44] ++ sprintf_d (hs_bullets_fired e)
  ++ [44] ++ sprintf_d (hs_game_time_seconds e) ++ [10].

(** The state is the table and the file. *)
Definition on_board {A} (m : M board A) : M (board * disk) A := zoom fst (λ b s, (b, s.2)) m.

Definition save_highscore_to_csv (e : HighScoreEntry) : M (board * disk) Z := λ '(b, d),
  let file_exists := match fopen_r d with Some _ => true | None => false end in
  let opened :=
    match fopen_a d with
    | Some d => Some (d, file_exists)
    | None => match fopen_w d with Some d => Some (d, false) | None => None end
    end in
  match opened with
  | None => Done (-1, (b, d))
  | Some (d, file_exists) =>
      let d := if negb file_exists then (fprintf header d).2 else d in
      let '(result, d) := fprintf (csv_line e) d in
      if result <? 0 then Done (-1, (b, d)) else
      on_board (b ← gets id;
                (if highscore_count b <? MAX_HIGHSCORES
                 then store_entry e;; sort_highscores
                 else skip);;
                mret 0) (b, d)
  end.

(** The while loop of load_highscores_from_csv; every fgets that reads something shortens [l],
    so [length l + 1] iterations are enough. *)
Fixpoint load_loop (fuel : nat) (l : list Z) : M board unit :=
  match fuel with
  | O => no_fuel
  | S fuel =>
      match l with
      | [] => skip
      | _ =>
          let '(line, l) := fgets 255 l in
          b ← gets id;
          if highscore_count b <? MAX_HIGHSCORES then
            r ← sscanf_entry line;
            match r with Some e => store_entry e | None => skip end;;
            load_loop fuel l
          else skip
      end
  end.

Definition load_highscores_from_csv : M (board * disk) Z := λ '(b, d),
  on_board
    (match fopen_r d with
     | None => modify (set_count 0);; mret 0
     | Some content =>
         modify (set_count 0);;
         match content return M board Z with
         | [] => mret 0
         | _ =>
             let '(_, rest) := fgets 255 content in
             load_loop (S (length rest)) rest;;
             sort_highscores;;
             gets highscore_count
         end
     end) (b, d).

(** ** The name of the winner *)

Definition anime_names : list (list Z) :=
  codes <$> ["MUGEN"; "JIN"; "FUU"; "SARA"; "SHIREN"; "YUKIMARU"; "KOZA"; "UMANOSUKE"; "KARIYA";
    "OKURU"; "SPIKE"; "JET"; "FAYE"; "EDWARD"; "VICIOUS"; "JULIA"; "GREN"; "PIERCE"; "RHINT";
    "ASIMOV"; "KATERINA"; "ROCO"; "MILES"; "ZEBRA"; "RASHID"; "UDAI"]%string.
Definition NUM_ANIME_NAMES : Z := 26.

(** The state of the scores: the machine, the current game, the table and the file. *)
Record hstate (W : Type) := HState {
  h_world : W;
  h_scoring : scoring;
  h_board : board;
  h_disk : disk;
}.
Arguments HState {_} _ _ _ _.
Arguments h_world {_} _.
Arguments h_scoring {_} _.
Arguments h_board {_} _.
Arguments h_disk {_} _.

Section winner.
Context {W : Type} `{Random W}.

Definition get_random_anime_name : M (W * board) (list Z) := λ '(w, b),
  let '(w, b) :=
    if negb (seeded b) then (srand_time w, Board (highscores b) (highscore_count b) true)
    else (w, b) in
  let '(r, w) := rand w in
  let index := i32 (u32 r mod NUM_ANIME_NAMES) in
  of_option (anime_names !! Z.to_nat index) (w, b).

Definition save_win_highscore : M (hstate W) unit :=
  s ← gets h_scoring;
  if negb (highscore_saved_this_game s) then
    winner_name ← zoom (λ h, (h_world h, h_board h))
                       (λ '(w, b) h, HState w (h_scoring h) b (h_disk h)) get_random_anime_name;
    zoom (λ h, (h_board h, h_disk h)) (λ '(b, d) h, HState (h_world h) (h_scoring h) b d)
      (save_highscore_to_csv
         (Entry winner_name (final_score s) (bullets_fired s) (game_time_seconds s)));;
    modify (λ h, HState (h_world h)
      (Scoring (bullets_fired s) (game_time_seconds s) (final_score s) (game_start_time s)
         (game_active s) true) (h_board h) (h_disk h))
  else skip.
End winner.

(** ** The table on the screen *)
Section drawing.
Context `{XpmLoader}.

(** sprintf(rank_str, "%dTH", i + 1) and its three special cases. *)
Definition rank_str (i : Z) : list Z :=
  if i =? 0 then codes "1ST" else if i =? 1 then codes "2ND" else if i =? 2 then codes "3RD"
  else sprintf_d (i32 (i + 1)) ++ codes "TH".

(** The rows of the table, the entries from index [i]. *)
Fixpoint draw_rows (n : nat) (i : Z) (l : list HighScoreEntry) (title_y line_height : Z) : M gfx unit :=
  match n with
  | O => skip
  | S n =>
      let row_y := i32 (title_y + i32 ((i + 1) * line_height)) in
      (if Z.of_nat (length (rank_str i)) + 1 <=? 8 then draw_text (rank_str i) 80 row_y else undef);;
      e ← of_option (l !! Z.to_nat i);
      draw_text (hs_name e) 200 row_y;;
      draw_number (hs_score e) 400 row_y;;
      draw_number (hs_bullets_fired e) 550 row_y;;
      draw_number (hs_game_time_seconds e) 700 row_y;;
      draw_text (codes "S") (i32 (700 + calculate_text_width (codes "999"))) row_y;;
      draw_rows n (i + 1) l title_y line_height
  end.

Definition draw_scoreboard_menu (b : board) : M gfx unit :=
  mi ← gets mode_info;
  let center_x := idiv (XResolution mi) 2 in
  let start_y := 80 in
  let line_height := 40 in
  draw_text_centered (codes "HIGH SCORES") center_x start_y;;
  let title_y := start_y + 50 in
  let display_count := if highscore_count b <? 8 then highscore_count b else 8 in
  (if display_count =? 0 then
     draw_text_centered (codes "NO HIGH SCORES YET") center_x (title_y + line_height * 2);;
     draw_text_centered (codes "PLAY A GAME TO SET YOUR FIRST SCORE") center_x
       (title_y + line_height * 3)
   else
     draw_text (codes "RANK") 80 title_y;;
     draw_text (codes "PILOT") 200 title_y;;
     draw_text (codes "SCORE") 400 title_y;;
     draw_text (codes "SHOTS") 550 title_y;;
     draw_text (codes "TIME") 700 title_y;;
     draw_rows (Z.to_nat display_count) 0 (highscores b) title_y line_height);;
  let instruction_y := i32 (YResolution mi - 80) in
  draw_text_centered (codes "PRESS ESC TO RETURN TO MENU") center_x instruction_y.
End drawing.

(** ** Sorting *)

(** The order of the table: higher scores first. *)
Definition ahead (a b : HighScoreEntry) : Prop := hs_score b <= hs_score a.

(** One pass over the array, as a function on lists: [a] is carried along and left behind at
    the first entry that does not beat it. *)
Fixpoint bubble (a : HighScoreEntry) (l : list HighScoreEntry) : list HighScoreEntry :=
  match l with
  | [] => [a]
  | b :: l => if hs_score a <? hs_score b then b :: bubble a l else a :: bubble b l
  end.

Lemma sort_inner_bubble l : ∀ pre a post,
  sort_inner (length l) (length pre) (pre ++ a :: l ++ post) = Some (pre ++ bubble a l ++ post).
Proof.
  induction l as [|b l IH]; intros pre a post; simpl; [done|].
  rewrite (list_lookup_middle pre _ a (length pre) eq_refl). simpl.
  rewrite lookup_app_r, Nat.sub_succ_l, Nat.sub_diag by lia. simpl.
  assert (∀ c, S (length pre) = length (pre ++ [c])) as Hlen
    by (intros c; rewrite length_app; simpl; lia).
  destruct (hs_score a <? hs_score b).
  - rewrite (insert_app_r_alt _ _ (length pre)), Nat.sub_diag by lia. simpl.
    rewrite insert_app_r_alt, Nat.sub_succ_l, Nat.sub_diag by lia. simpl.
    change (b :: a :: l ++ post) with ([b] ++ a :: l ++ post). rewrite app_assoc, (Hlen b), IH.
    by rewrite <- app_assoc.
  - change (a :: b :: l ++ post) with ([a] ++ b :: l ++ post). rewrite app_assoc, (Hlen a), IH.
    by rewrite <- app_assoc.
Qed.

Lemma bubble_perm l : ∀ a, bubble a l ≡ₚ a :: l.
Proof.
  induction l as [|b l IH]; intros a; simpl; [done|].
  destruct (_ <? _); rewrite IH; [apply Permutation_swap|done].
Qed.

(** A pass leaves a smallest entry at the end. *)
Lemma bubble_last l : ∀ a, ∃ u m, bubble a l = u ++ [m] ∧ Forall (λ x, ahead x m) u.
Proof.
  induction l as [|b l IH]; intros a; simpl; [by exists [], a|].
  unfold ahead in *. destruct (hs_score a <? hs_score b) eqn:E.
  - destruct (IH a) as (u & m & Hu & Hm). exists (b :: u), m. rewrite Hu. split; [done|].
    constructor; [|done]. assert (a ∈ u ++ [m]) as Hin
      by (rewrite <- Hu, bubble_perm; by left).
    apply elem_of_app in Hin as [Hin|Hin].
    + rewrite List.Forall_forall in Hm. specialize (Hm a (proj1 (list_elem_of_In _ _) Hin)). lia.
    + apply list_elem_of_singleton in Hin as ->. lia.
  - destruct (IH b) as (u & m & Hu & Hm). exists (a :: u), m. rewrite Hu. split; [done|].
    constructor; [|done]. assert (b ∈ u ++ [m]) as Hin
      by (rewrite <- Hu, bubble_perm; by left).
    apply elem_of_app in Hin as [Hin|Hin].
    + rewrite List.Forall_forall in Hm. specialize (Hm b (proj1 (list_elem_of_In _ _) Hin)). lia.
    + apply list_elem_of_singleton in Hin as ->. lia.
Qed.

(** The invariant of the outer loop: [u] is still to sort, [s] is in place and behind it. *)
Lemma sort_outer_sorts n : ∀ i u s post, length u = S n → length (u ++ s) = (S n + i)%nat →
  StronglySorted ahead s → (∀ x y, x ∈ u → y ∈ s → ahead x y) →
  ∃ l, sort_outer n i (S n + i) (u ++ s ++ post) = Some (l ++ post) ∧
       l ≡ₚ u ++ s ∧ StronglySorted ahead l.
Proof.
  induction n as [|n IH]; intros i u s post Hu Hlen Hs Hus.
  { exists (u ++ s). simpl. split; [by rewrite app_assoc|]. split; [done|].
    destruct u as [|x [|]]; try done. simpl. constructor; [done|].
    apply List.Forall_forall. intros y Hy%list_elem_of_In. apply Hus; [by left|done]. }
  destruct u as [|a l]; [done|]. simpl in Hu. injection Hu as Hl. simpl sort_outer.
  pose proof (sort_inner_bubble l [] a (s ++ post)) as Hin. simpl in Hin. simpl.
  replace (S (S (n + i)) - i - 1)%nat with (length l) by lia. rewrite Hin. simpl.
  destruct (bubble_last l a) as (u' & m & Hb & Hm). pose proof (bubble_perm l a) as Hp.
  rewrite Hb in *. assert (∀ x, x ∈ u' ++ [m] → x ∈ a :: l) as Hsub by (intros x; by rewrite Hp).
  assert (length (u' ++ [m]) = S (length l)) as Hlu by (rewrite Hp; done).
  rewrite length_app in Hlu, Hlen. simpl in Hlu, Hlen.
  destruct (IH (S i) u' (m :: s) post) as (l' & Hl' & Hperm & Hsort).
  - lia.
  - rewrite length_app. simpl. lia.
  - constructor; [done|]. apply List.Forall_forall. intros y Hy%list_elem_of_In.
    apply Hus; [|done]. apply Hsub, elem_of_app. right. by left.
  - intros x y Hx Hy. apply elem_of_cons in Hy as [->|Hy].
    + rewrite List.Forall_forall in Hm. by apply Hm, list_elem_of_In.
    + apply Hus; [|done]. apply Hsub, elem_of_app. by left.
  - exists l'. split; [|split; [|done]].
    + rewrite <- Hl'. rewrite <- app_assoc. simpl. f_equal. lia.
    + rewrite Hperm. change (m :: s) with ([m] ++ s). by rewrite app_assoc, Hp.
Qed.

(** The table holds [MAX_HIGHSCORES] entries and a count of them. *)
Record board_ok (b : board) : Prop := {
  board_length : length (highscores b) = 100%nat;
  board_count : 0 <= highscore_count b <= 100;
}.

(** The entries that count. *)
Definition ranking (b : board) : list HighScoreEntry :=
  take (Z.to_nat (highscore_count b)) (highscores b).

Lemma sort_highscores_run b : board_ok b →
  ∃ l, sort_highscores b = Done (tt, set_highscores (l ++ drop (Z.to_nat (highscore_count b)) (highscores b)) b) ∧
       l ≡ₚ ranking b ∧ StronglySorted ahead l.
Proof.
  intros [Hl Hc]. unfold sort_highscores, ranking. set (n := Z.to_nat (highscore_count b)).
  destruct (highscore_count b <=? 1) eqn:E.
  - exists (take n (highscores b)). split.
    + run_unfold. simpl. rewrite E. rewrite take_drop. by destruct b.
    + split; [done|]. assert (n = 0 ∨ n = 1)%nat as [-> | ->] by lia; [constructor|].
      destruct (highscores b); [constructor|]. repeat constructor.
  - destruct (sort_outer_sorts (n - 1) 0 (take n (highscores b)) [] (drop n (highscores b)))
      as (l & Hrun & Hp & Hs).
    + rewrite length_take. lia.
    + rewrite app_nil_r, length_take. lia.
    + constructor.
    + intros x y _ Hy. by apply elem_of_nil in Hy.
    + exists l. rewrite app_nil_r in Hp. split; [|done].
      simpl in Hrun. rewrite take_drop in Hrun. replace (S (n - 1) + 0)%nat with n in Hrun by lia.
      run_unfold. simpl. rewrite E. fold n.
      replace (S (n - 1 + 0)) with n in Hrun by lia. by rewrite Hrun.
Qed.

Lemma sorted_board b l : board_ok b → l ≡ₚ ranking b →
  let b' := set_highscores (l ++ drop (Z.to_nat (highscore_count b)) (highscores b)) b in
  board_ok b' ∧ ranking b' = l ∧ highscore_count b' = highscore_count b.
Proof.
  intros [Hl Hc] Hp. pose proof (Permutation_length Hp) as Hlen. unfold ranking in *.
  rewrite length_take in Hlen. simpl. split; [split; simpl; [|done]|split; [|done]].
  - rewrite length_app, length_drop. lia.
  - unfold ranking. simpl. apply take_app_length'. lia.
Qed.

(** ** The file format *)

Definition name_char (c : Z) : Prop := c ≠ 44 ∧ c ≠ 10 ∧ c ≠ 0.
Definition is_int (n : Z) : Prop := -2147483648 <= n < 2147483648.

(** An entry that the file can hold: a name of 1 to 19 characters, none of them a comma, a
    newline or a zero, and three ints. *)
Record entry_ok (e : HighScoreEntry) : Prop := {
  entry_name : Forall name_char (hs_name e);
  entry_length : (1 <= length (hs_name e) <= 19)%nat;
  entry_score : is_int (hs_score e);
  entry_bullets : is_int (hs_bullets_fired e);
  entry_time : is_int (hs_game_time_seconds e);
}.

Definition csv_lines (es : list HighScoreEntry) : list Z := concat (csv_line <$> es).

(** The file holds the header and one line for each entry. *)
Definition stored (es : list HighScoreEntry) (d : disk) : Prop :=
  csv d = Some (header ++ csv_lines es).

Lemma fgets_line s : ∀ n rest, Forall (λ c, c ≠ 10) s → (length s < n)%nat →
  fgets n (s ++ 10 :: rest) = (s ++ [10], rest).
Proof.
  induction s as [|c s IH]; intros n rest Hs Hn; (destruct n as [|n]; [simpl in Hn; lia|]); [done|].
  inversion Hs as [|? ? Hc Hs']; subst. simpl in *. rewrite (proj2 (Z.eqb_neq _ _) Hc).
  by rewrite IH by (done || lia).
Qed.

Lemma c_string_id l : Forall (λ c, c ≠ 0) l → c_string l = l.
Proof.
  induction 1 as [|c l Hc Hl IH]; simpl; [done|].
  by rewrite (proj2 (Z.eqb_neq _ _) Hc), IH.
Qed.

Lemma scan_field_name s : ∀ n rest, Forall name_char s → (length s <= n)%nat →
  scan_field n (s ++ 44 :: rest) = (s, 44 :: rest).
Proof.
  induction s as [|c s IH]; intros n rest Hs Hn; [by destruct n|].
  destruct n as [|n]; [simpl in Hn; lia|]. inversion Hs as [|? ? (Hc & _ & _) Hs']; subst.
  simpl in *. rewrite (proj2 (Z.eqb_neq _ _) Hc). by rewrite IH by (done || lia).
Qed.

Lemma scan_comma_int_run {S} n rest (s : S) : is_int n → stops rest →
  scan_comma_int (44 :: sprintf_d n ++ rest) s = Done (Some (n, rest), s).
Proof.
  intros Hn Hr. unfold scan_comma_int, scan_int. rewrite scan_d_sprintf_d by done.
  unfold is_int in Hn. by rewrite (proj2 (Z.leb_le _ _)), (proj2 (Z.leb_le _ _)) by lia.
Qed.

(** The characters of a line before its newline. *)
Definition line_text (e : HighScoreEntry) : list Z :=
  hs_name e ++ 44 :: sprintf_d (hs_score e) ++ 44 :: sprintf_d (hs_bullets_fired e)
  ++ 44 :: sprintf_d (hs_game_time_seconds e).

Lemma csv_line_text e : csv_line e = line_text e ++ [10].
Proof. unfold csv_line, line_text. by rewrite <- !app_assoc; simpl; rewrite <- !app_assoc; simpl; rewrite <- !app_assoc. Qed.

Lemma sprintf_chars n (P : Z → Prop) : is_int n → P 45 → (∀ c, 48 <= c <= 57 → P c) →
  Forall P (sprintf_d n).
Proof.
  intros Hn H45 Hd. eapply Forall_impl; [|by apply sprintf_d_chars]. simpl. intros c [Hc| ->]; [|done].
  apply Hd. unfold is_digit in Hc. lia.
Qed.

Lemma line_text_chars e : entry_ok e → Forall (λ c, c ≠ 10 ∧ c ≠ 0) (line_text e).
Proof.
  intros [Hn _ Hs Hb Ht]. unfold line_text.
  apply Forall_app. split; [eapply Forall_impl; [|exact Hn]; by intros c (_ & ? & ?)|].
  constructor; [done|]. apply Forall_app. split; [apply sprintf_chars; (done || lia)|].
  constructor; [done|]. apply Forall_app. split; [apply sprintf_chars; (done || lia)|].
  constructor; [done|]. apply sprintf_chars; (done || lia).
Qed.

Lemma line_text_length e : entry_ok e → (length (line_text e) < 60)%nat.
Proof.
  intros [_ [_ Hl] _ _ _]. unfold line_text. pose proof (sprintf_d_length (hs_score e)).
  pose proof (sprintf_d_length (hs_bullets_fired e)).
  pose proof (sprintf_d_length (hs_game_time_seconds e)).
  repeat (rewrite length_app || cbn [length]). lia.
Qed.

(** What fprintf wrote, sscanf reads. *)
Lemma sscanf_csv_line {S} e (s : S) : entry_ok e → sscanf_entry (csv_line e) s = Done (Some e, s).
Proof.
  intros He. unfold sscanf_entry. rewrite c_string_id.
  2: { rewrite csv_line_text. apply Forall_app. split; [|by repeat constructor].
       eapply Forall_impl; [|by apply line_text_chars]. by intros c [_ ?]. }
  destruct He as [Hn [Hl1 Hl2] Hs Hb Ht]. unfold csv_line. cbn [app].
  rewrite scan_field_name by done. destruct e as [nm sc bu ti].
  cbn [hs_name hs_score hs_bullets_fired hs_game_time_seconds] in *.
  destruct nm as [|c nm]; [simpl in Hl1; lia|].
  rewrite (run_done _ _ _ _ _ (scan_comma_int_run sc (44 :: _) s Hs eq_refl)).
  rewrite (run_done _ _ _ _ _ (scan_comma_int_run bu (44 :: _) s Hb eq_refl)).
  by rewrite (run_done _ _ _ _ _ (scan_comma_int_run ti [10] s Ht eq_refl)).
Qed.

Lemma fgets_csv_line e rest : entry_ok e → fgets 255 (csv_line e ++ rest) = (csv_line e, rest).
Proof.
  intros He. rewrite csv_line_text, <- app_assoc. simpl app at 2. apply fgets_line.
  - eapply Forall_impl; [|by apply line_text_chars]. by intros c [? _].
  - pose proof (line_text_length e He). lia.
Qed.

Lemma fgets_header rest : fgets 255 (header ++ rest) = (header, rest).
Proof. reflexivity. Qed.

(** ** The table *)

Lemma store_entry_run e b : board_ok b → highscore_count b < 100 → (length (hs_name e) <= 19)%nat →
  ∃ b', store_entry e b = Done (tt, b') ∧ board_ok b' ∧ ranking b' = ranking b ++ [e] ∧
        highscore_count b' = highscore_count b + 1 ∧ seeded b' = seeded b.
Proof.
  intros [Hl [Hc0 Hc1]] Hc Hn. unfold store_entry. run_unfold. simpl. rewrite Hl.
  rewrite (proj2 (Z.leb_le _ _)), (proj2 (Z.ltb_lt _ _)), (proj2 (Z.leb_le _ _)) by
    (unfold MAX_NAME_LENGTH; lia).
  simpl. eexists. split; [done|]. rewrite i32_small by lia. split_and!; try done.
  - split; simpl; [by rewrite length_insert|lia].
  - unfold ranking. simpl. replace (Z.to_nat (highscore_count b + 1)) with (S (Z.to_nat (highscore_count b))) by lia.
    rewrite (take_S_r _ _ e) by (apply list_lookup_insert_eq; lia).
    by rewrite take_insert_ge by lia.
Qed.

Lemma load_loop_lines es : ∀ fuel b, Forall entry_ok es → board_ok b → (length es < fuel)%nat →
  ∃ b', load_loop fuel (csv_lines es) b = Done (tt, b') ∧ board_ok b' ∧
        ranking b' = ranking b ++ take (100 - Z.to_nat (highscore_count b)) es ∧
        highscore_count b' = Z.min 100 (highscore_count b + Z.of_nat (length es)) ∧
        seeded b' = seeded b.
Proof.
  induction es as [|e es IH]; intros fuel b Hes Hb Hf.
  { destruct fuel; [lia|]. exists b. split; [done|]. split; [done|].
    rewrite take_nil, app_nil_r. destruct (board_count _ Hb). simpl. split; [done|]. split; [lia|done]. }
  inversion Hes as [|? ? He Hes']; subst. destruct fuel as [|fuel]; [lia|].
  unfold csv_lines. cbn [fmap list_fmap concat]. fold (csv_lines es).
  assert (csv_line e ++ csv_lines es ≠ []) as Hne.
  { rewrite csv_line_text, <- app_assoc. intros Hnil. apply app_eq_nil in Hnil as [_ ?]. done. }
  cbn [load_loop]. rewrite (fgets_csv_line e _ He).
  destruct (csv_line e ++ csv_lines es) as [|c l] eqn:El; [done|]. clear Hne El c l.
  destruct (highscore_count b <? 100) eqn:E.
  - destruct (store_entry_run e b Hb) as (b1 & Hr1 & Hb1 & Hk1 & Hc1 & Hs1);
      [lia|by apply (entry_length _ He)|].
    destruct (IH fuel b1) as (b2 & Hr2 & Hb2 & Hk2 & Hc2 & Hs2); [done..|simpl in Hf; lia|].
    exists b2. split.
    { unfold MAX_HIGHSCORES. run_unfold. unfold id. rewrite E. erewrite sscanf_csv_line by done. by rewrite Hr1. }
    split; [done|]. destruct (board_count _ Hb). rewrite Hk2, Hk1, Hc1, <- app_assoc. split.
    { replace (100 - Z.to_nat (highscore_count b))%nat with
        (S (100 - Z.to_nat (highscore_count b + 1))) by lia. done. }
    split; [rewrite Hc2, Hc1; cbn [length]; lia|congruence].
  - exists b. destruct (board_count _ Hb). split; [unfold MAX_HIGHSCORES; run_unfold; unfold id; by rewrite E|].
    split; [done|]. replace (100 - Z.to_nat (highscore_count b))%nat with 0%nat by lia.
    rewrite take_0, app_nil_r. split; [done|]. split; [lia|done].
Qed.

Lemma length_csv_lines es : (length es <= length (csv_lines es))%nat.
Proof.
  induction es as [|e es IH]; [done|]. unfold csv_lines in *. cbn [fmap list_fmap concat length].
  rewrite length_app, csv_line_text, length_app. simpl. lia.
Qed.

Lemma set_count_zero b : length (highscores b) = 100%nat →
  board_ok (set_count 0 b) ∧ ranking (set_count 0 b) = [].
Proof. intros Hl. by split. Qed.

(** Sorting a table, as a total-correctness rule. *)
Lemma wp_sort b : board_ok b →
  wp sort_highscores (λ _ b', board_ok b' ∧ ranking b' ≡ₚ ranking b ∧
    StronglySorted ahead (ranking b') ∧ highscore_count b' = highscore_count b ∧
    seeded b' = seeded b ∧
    drop (Z.to_nat (highscore_count b)) (highscores b') =
      drop (Z.to_nat (highscore_count b)) (highscores b)) b.
Proof.
  intros Hb. destruct (sort_highscores_run b Hb) as (l & Hr & Hp & Hs).
  destruct (sorted_board b l Hb Hp) as (Hok & Hk & Hc). unfold wp. rewrite Hr.
  split; [done|]. rewrite Hk. split_and!; try done.
  simpl. apply drop_app_length'. rewrite <- (Permutation_length (symmetry Hp)).
  unfold ranking. rewrite length_take. destruct Hb as [Hl ?]. rewrite Hl. lia.
Qed.

Lemma wp_on_board {A} (m : M board A) Q b d :
  wp m (λ a b', Q a (b', d)) b → wp (on_board m) Q (b, d).
Proof. intros H. by apply wp_zoom. Qed.

(** Loading a stored table. *)
Lemma load_stored es b d : Forall entry_ok es → length (highscores b) = 100%nat →
  stored es d → can_read d = true →
  wp load_highscores_from_csv (λ n s, s.2 = d ∧ board_ok s.1 ∧
    n = Z.min 100 (Z.of_nat (length es)) ∧ highscore_count s.1 = n ∧
    ranking s.1 ≡ₚ take 100 es ∧ StronglySorted ahead (ranking s.1)) (b, d).
Proof.
  intros Hes Hb Hst Hr. unfold load_highscores_from_csv. apply wp_on_board.
  unfold fopen_r. rewrite Hr, Hst. eapply wp_run; [reflexivity|].
  destruct (header ++ csv_lines es) as [|c l] eqn:E; [done|]. rewrite <- E, fgets_header. clear c l E.
  destruct (set_count_zero b Hb) as [Hb0 Hk0].
  destruct (load_loop_lines es (S (length (csv_lines es))) (set_count 0 b))
    as (b1 & Hr1 & Hb1 & Hk1 & Hc1 & _); [done..|pose proof (length_csv_lines es); lia|].
  eapply wp_run; [exact Hr1|]. apply wp_bind. eapply wp_mono; [|by apply wp_sort].
  intros [] b2 (Hb2 & Hp2 & Hs2 & Hc2 & _). apply wp_gets.
  rewrite Hk0 in Hk1. simpl in Hk1, Hc1. rewrite Hk1 in Hp2. split_and!; try done; simpl; lia.
Qed.

Lemma wp_moved {S A} (m : M S A) Q s s' : wp m Q s' → wp (λ _, m s') Q s.
Proof. done. Qed.

(** Adding an entry to the table and sorting it again. *)
Lemma wp_add_entry e b : board_ok b → (length (hs_name e) <= 19)%nat →
  wp (b0 ← gets id;
      (if highscore_count b0 <? MAX_HIGHSCORES then store_entry e;; sort_highscores else skip);;
      mret 0)
    (λ rc b', rc = 0 ∧ board_ok b' ∧ seeded b' = seeded b ∧
      if highscore_count b <? 100
      then ranking b' ≡ₚ ranking b ++ [e] ∧ StronglySorted ahead (ranking b') ∧
           highscore_count b' = highscore_count b + 1
      else b' = b) b.
Proof.
  intros Hb Hn. apply wp_bind, wp_gets. unfold id, MAX_HIGHSCORES.
  destruct (highscore_count b <? 100) eqn:E.
  - destruct (store_entry_run e b Hb) as (b1 & Hr1 & Hb1 & Hk1 & Hc1 & Hs1); [lia|done|].
    apply wp_bind. eapply wp_run; [exact Hr1|]. eapply wp_mono; [|by apply wp_sort].
    intros [] b2 (Hb2 & Hp2 & Hs2 & Hc2 & Hd2 & _). apply wp_ret. rewrite Hk1 in Hp2.
    split_and!; try done; congruence.
  - eapply wp_run; [reflexivity|]. by apply wp_ret.
Qed.

(** The file once it is open for writing. *)
Definition open_file (d : disk) : option (disk * bool) :=
  match fopen_a d with
  | Some d' => Some (d', match fopen_r d with Some _ => true | None => false end)
  | None => match fopen_w d with Some d' => Some (d', false) | None => None end
  end.

Lemma open_file_same d d1 ex : open_file d = Some (d1, ex) →
  can_write d1 = can_write d ∧ can_read d1 = can_read d.
Proof.
  unfold open_file, fopen_a, fopen_w.
  destruct (can_append d); [|destruct (can_create d)]; intros [=]; by subst.
Qed.

(** Saving is opening, writing the missing header and the line, then storing the entry. *)
Lemma save_highscore_open e b d : save_highscore_to_csv e (b, d) =
  match open_file d with
  | None => Done (-1, (b, d))
  | Some (d1, ex) =>
      if can_write d then
        on_board (b ← gets id;
                  (if highscore_count b <? MAX_HIGHSCORES then store_entry e;; sort_highscores else skip);;
                  mret 0)
          (b, set_csv (default [] (csv d1) ++ (if ex then [] else header) ++ csv_line e) d1)
      else Done (-1, (b, d1))
  end.
Proof.
  unfold save_highscore_to_csv. fold (open_file d).
  destruct (open_file d) as [[d1 ex]|] eqn:Eo; [|done].
  destruct (open_file_same d d1 ex Eo) as [<- _]. unfold fprintf.
  destruct (can_write d1) eqn:Ew, ex; simpl; rewrite ?Ew; simpl; try done.
  all: rewrite (proj2 (Z.ltb_ge _ _)) by lia; by rewrite <- ?app_assoc.
Qed.

Lemma wp_save e b d : board_ok b → (length (hs_name e) <= 19)%nat →
  wp (save_highscore_to_csv e) (λ rc s,
    (rc = 0 ∨ rc = -1) ∧ (rc = 0 ↔ is_Some (open_file d) ∧ can_write d = true) ∧
    board_ok s.1 ∧ seeded s.1 = seeded b ∧
    if rc =? 0 then
      (if highscore_count b <? 100
       then ranking s.1 ≡ₚ ranking b ++ [e] ∧ StronglySorted ahead (ranking s.1) ∧
            highscore_count s.1 = highscore_count b + 1
       else s.1 = b) ∧
      ∃ d1 ex, open_file d = Some (d1, ex) ∧
        csv s.2 = Some (default [] (csv d1) ++ (if ex then [] else header) ++ csv_line e) ∧
        can_read s.2 = can_read d
    else s.1 = b) (b, d).
Proof.
  intros Hb Hn. set (Q := λ (rc : Z) (s : board * disk), _).
  pose proof (save_highscore_open e b d) as Hrun. eapply (wp_ext _ (λ _, _)); [exact Hrun|]. clear Hrun.
  destruct (open_file d) as [[d1 ex]|] eqn:Eo.
  2: { unfold wp, Q. rewrite ?Eo. split_and!; auto; [|done]. split; [done|]. by intros [[? ?] _]. }
  destruct (open_file_same d d1 ex Eo) as (Hw1 & Hr1).
  destruct (can_write d) eqn:Ew.
  2: { unfold wp, Q. rewrite ?Eo, ?Ew. split_and!; auto; [|done]. split; [done|]. by intros [_ ?]. }
  apply wp_moved, wp_on_board. eapply wp_mono; [|by apply wp_add_entry].
  intros rc b' (-> & Hb' & Hs' & Hadd). unfold Q. rewrite ?Eo, ?Ew. simpl.
  split_and!; [by left|by split; eauto|done|done|done|]. exists d1, ex. split; [done|]. split; [done|]. done.
Qed.

(** ** Reading any file *)

Lemma scan_comma_int_cases {S} l (s : S) :
  scan_comma_int l s = Undef ∨ ∃ r, scan_comma_int l s = Done (r, s).
Proof.
  assert (∀ l, scan_int l s = Undef ∨ ∃ r, scan_int l s = Done (r, s)) as Hint.
  { intros l'. unfold scan_int. destruct (scan_d l') as [[n rest]|]; [|right; by eexists].
    destruct (_ && _); [right; by eexists|by left]. }
  unfold scan_comma_int. destruct l as [|c l]; [right; by eexists|].
  destruct c as [|p|p]; try (right; by eexists).
  repeat (destruct p as [p|p|]; try (right; by eexists)). apply Hint.
Qed.

Lemma scan_field_length n l s rest : scan_field n l = (s, rest) → (length s <= n)%nat.
Proof.
  revert l s rest. induction n as [|n IH]; intros l s rest; simpl; [intros [= <- _]; simpl; lia|].
  destruct l as [|c l]; [intros [= <- _]; simpl; lia|].
  destruct (c =? 44); [intros [= <- _]; simpl; lia|].
  destruct (scan_field n l) as [s' rest'] eqn:E. intros [= <- _]. simpl. specialize (IH l s' rest' E). lia.
Qed.

Lemma sscanf_entry_cases {S} line (s : S) :
  sscanf_entry line s = Undef ∨
  ∃ r, sscanf_entry line s = Done (r, s) ∧ ∀ e, r = Some e → (length (hs_name e) <= 19)%nat.
Proof.
  unfold sscanf_entry. destruct (scan_field 19 (c_string line)) as [nm rest] eqn:E.
  apply scan_field_length in E. destruct nm as [|c nm]; [right; by eexists|].
  repeat match goal with
  | |- context [(scan_comma_int ?l ≫= _) s] =>
      let r := fresh "r" in let Hr := fresh "Hr" in
      destruct (scan_comma_int_cases l s) as [Hr|[r Hr]];
      [left; unfold mbind, M_bind; by rewrite Hr|];
      rewrite !(run_done _ _ _ _ _ Hr); destruct r as [[? ?]|]; [|right; by eexists]
  end.
  right. eexists. split; [done|]. by intros ? [= <-].
Qed.

Lemma fgets_split n l s rest : fgets n l = (s, rest) → l = s ++ rest.
Proof.
  revert l s rest. induction n as [|n IH]; intros l s rest; simpl; [by intros [= <- <-]|].
  destruct l as [|c l]; [by intros [= <- <-]|]. destruct (c =? 10); [by intros [= <- <-]|].
  destruct (fgets n l) as [s' rest'] eqn:E. intros [= <- <-]. simpl. by rewrite (IH _ _ _ E).
Qed.

Lemma fgets_progress n c l : (length (fgets (S n) (c :: l)).2 <= length l)%nat.
Proof.
  simpl. destruct (c =? 10); [done|]. destruct (fgets n l) as [s rest] eqn:E.
  apply fgets_split in E as ->. simpl. rewrite length_app. lia.
Qed.

(** A part of a file. *)
Definition inside (line content : list Z) : Prop := ∃ pre post, content = pre ++ line ++ post.

(** A run that ends in [Q], unless some part of the file holds a number that is no int. *)
Definition reads_or_overflows {A} (content : list Z) (m : outcome (A * board)) (Q : board → Prop) : Prop :=
  match m with
  | Done (_, b') => Q b'
  | Undef => ∃ line b', inside line content ∧ sscanf_entry line (b' : board) = Undef
  | OutOfFuel => False
  end.

Lemma load_loop_any content fuel : ∀ l b, board_ok b → (length l < fuel)%nat →
  (∃ pre, content = pre ++ l) →
  reads_or_overflows content (load_loop fuel l b) board_ok.
Proof.
  induction fuel as [|fuel IH]; intros l b Hb Hf [pre Hl]; [lia|]. cbn [load_loop].
  destruct l as [|c l]; [done|]. pose proof (fgets_progress 254 c l) as Hp.
  destruct (fgets 255 (c :: l)) as [line rest] eqn:E. simpl in Hp, Hf. apply fgets_split in E.
  unfold MAX_HIGHSCORES. run_unfold. unfold id. destruct (highscore_count b <? 100) eqn:Ec; [|done].
  destruct (sscanf_entry_cases line b) as [Hu|(r & Hr & Hn)].
  { rewrite Hu. exists line, b. split; [|done]. exists pre, rest. by rewrite Hl, E. }
  rewrite Hr. assert (∃ pre, content = pre ++ rest) as Hrest
    by (exists (pre ++ line); rewrite Hl, E; by rewrite app_assoc).
  destruct r as [e|].
  - destruct (store_entry_run e b Hb) as (b1 & Hr1 & Hb1 & _); [lia|by apply Hn|].
    rewrite Hr1. apply IH; [done|lia|done].
  - apply IH; [done|lia|done].
Qed.

Lemma sort_board b : board_ok b → ∃ b', sort_highscores b = Done (tt, b') ∧ board_ok b' ∧
  StronglySorted ahead (ranking b').
Proof.
  intros Hb. destruct (sort_highscores_run b Hb) as (l & Hr & Hp & Hs).
  destruct (sorted_board b l Hb Hp) as (Hok & Hk & _). eexists. split; [exact Hr|].
  by rewrite Hk.
Qed.

(** ** The names *)

#[export] Instance name_char_dec c : Decision (name_char c).
Proof. unfold name_char. apply _. Defined.

Lemma anime_names_ok : Forall (λ n, Forall name_char n ∧ (1 <= length n <= 19)%nat) anime_names.
Proof. apply (bool_decide_unpack _). vm_compute. exact I. Qed.

Section names.
Context {W : Type} `{Random W}.

Lemma get_random_anime_name_run (w : W) b :
  wp get_random_anime_name (λ n s, n ∈ anime_names ∧ highscores s.2 = highscores b ∧
    highscore_count s.2 = highscore_count b ∧ seeded s.2 = true) (w, b).
Proof.
  unfold wp, get_random_anime_name.
  set (p := if negb (seeded b) then _ else _).
  assert (highscores p.2 = highscores b ∧ highscore_count p.2 = highscore_count b ∧ seeded p.2 = true)
    as (H1 & H2 & H3) by (unfold p; by destruct (seeded b) eqn:E; simpl).
  destruct p as [w1 b1]. simpl in *. destruct (rand w1) as [r w2].
  assert (0 <= u32 r mod 26 < 26) as Hr by (apply Z.mod_pos_bound; lia).
  unfold NUM_ANIME_NAMES. rewrite i32_small by lia.
  destruct (lookup_lt_is_Some_2 anime_names (Z.to_nat (u32 r mod 26))) as [n Hn].
  { change (length anime_names) with 26%nat. lia. }
  rewrite Hn. simpl. split; [by eapply list_elem_of_lookup_2|done].
Qed.
End names.

(** ** The table on the screen *)
Section drawing_lemmas.
Context `{XpmLoaderLaws}.

Lemma draw_number_safe n x y g : gfx_ok g → wp (draw_number n x y) (λ _, redrawn g) g.
Proof. intros Hg. eapply wp_mono; [|by apply draw_number_draws]. by intros r g' [? _]. Qed.

#[local] Hint Resolve draw_number_safe : drawing.

Lemma draw_rows_safe n : ∀ i l ty lh g, gfx_ok g → 0 <= i → Z.of_nat n + i <= 8 →
  (Z.to_nat i + n <= length l)%nat → wp (draw_rows n i l ty lh) (λ _, redrawn g) g.
Proof.
  induction n as [|n IH]; intros i l ty lh g Hg Hi Hn Hl; cbn [draw_rows].
  { apply wp_ret. by apply redrawn_refl. }
  assert (Z.of_nat (length (rank_str i)) + 1 <= 8) as Hrank.
  { assert (i = 0 ∨ i = 1 ∨ i = 2 ∨ i = 3 ∨ i = 4 ∨ i = 5 ∨ i = 6 ∨ i = 7) as Hi' by lia.
    repeat (destruct Hi' as [->|Hi']; [vm_compute; discriminate|]). rewrite Hi'. vm_compute; discriminate. }
  rewrite (proj2 (Z.leb_le _ _) Hrank).
  destruct (lookup_lt_is_Some_2 l (Z.to_nat i)) as [e He]; [lia|]. rewrite He.
  eapply redrawn_seq; [auto with drawing|intros ? g1 Hr1; apply redrawn_ok in Hr1].
  eapply wp_ext; [apply run_some|].
  repeat (eapply redrawn_seq; [solve [auto with drawing]|
    let Hr := fresh in intros ? ? Hr; pose proof (redrawn_ok _ _ Hr); clear Hr]).
  apply IH; (done || lia).
Qed.

Lemma draw_scoreboard_menu_safe b g : gfx_ok g → board_ok b →
  wp (draw_scoreboard_menu b) (λ _, redrawn g) g.
Proof.
  intros Hg [Hl Hc]. unfold draw_scoreboard_menu. apply wp_bind, wp_gets.
  eapply redrawn_seq; [auto with drawing|intros ? g1 Hr1; apply redrawn_ok in Hr1].
  eapply redrawn_seq; [|intros ? g2 Hr2; apply redrawn_ok in Hr2; auto with drawing].
  destruct (_ =? 0); [drawing_steps|].
  repeat (eapply redrawn_seq; [solve [auto with drawing]|
    let Hr := fresh in intros ? ? Hr; pose proof (redrawn_ok _ _ Hr); clear Hr]).
  apply draw_rows_safe; [done|lia|destruct (_ <? 8) eqn:E; lia|destruct (_ <? 8) eqn:E; lia].
Qed.
End drawing_lemmas.

Lemma save_win_wp {W} `{Random W} (h : hstate W) : board_ok (h_board h) →
  wp save_win_highscore (λ _ h',
    highscore_saved_this_game (h_scoring h') = true ∧ board_ok (h_board h') ∧
    final_score (h_scoring h') = final_score (h_scoring h) ∧
    (highscore_saved_this_game (h_scoring h) = true → h' = h) ∧
    (highscore_saved_this_game (h_scoring h) = false → highscore_count (h_board h) < 100 →
     can_append (h_disk h) = true → can_write (h_disk h) = true →
     ∃ name, name ∈ anime_names ∧ ranking (h_board h') ≡ₚ ranking (h_board h) ++
       [Entry name (final_score (h_scoring h)) (bullets_fired (h_scoring h))
              (game_time_seconds (h_scoring h))])) h.
Proof.
  intros Hb. unfold save_win_highscore. apply wp_bind, wp_gets.
  destruct (highscore_saved_this_game (h_scoring h)) eqn:E; simpl.
  { by apply wp_ret. }
  apply wp_bind, wp_zoom. eapply wp_mono; [|apply get_random_anime_name_run].
  intros name [w1 b1] (Hin & Hh & Hc & Hs). simpl in *.
  assert (board_ok b1) as Hb1 by (destruct Hb; split; by rewrite ?Hh, ?Hc).
  assert (length name <= 19)%nat as Hlen.
  { pose proof anime_names_ok as Hn. rewrite List.Forall_forall in Hn.
    by destruct (Hn name (proj1 (list_elem_of_In _ _) Hin)) as [_ [_ ?]]. }
  apply wp_bind, wp_zoom. eapply wp_mono; [|by apply wp_save].
  intros rc [b2 d2] (H01 & Hrc & Hb2 & Hs2 & Hres). simpl in *. apply wp_modify.
  split_and!; try done. intros _ Hlt Ha Hw. exists name. split; [done|]. simpl.
  assert (rc = 0) as -> by (apply Hrc; split; [unfold open_file, fopen_a; rewrite Ha; by eexists|done]).
  simpl in Hres. destruct Hres as [Hres _]. rewrite Hc, (proj2 (Z.ltb_lt _ _) Hlt) in Hres.
  destruct Hres as [Hp _]. unfold ranking at 2 in Hp. by rewrite Hh, Hc in Hp.
Qed.

Lemma load_any b d content : length (highscores b) = 100%nat → fopen_r d = Some content →
  match load_highscores_from_csv (b, d) with
  | Done (n, s) => s.2 = d ∧ board_ok s.1 ∧
                   (content ≠ [] → n = highscore_count s.1 ∧ StronglySorted ahead (ranking s.1))
  | Undef => ∃ line b', inside line content ∧ sscanf_entry line (b' : board) = Undef
  | OutOfFuel => False
  end.
Proof.
  intros Hb Hr. unfold load_highscores_from_csv, on_board, zoom. rewrite Hr. cbn [fst snd].
  destruct (set_count_zero b Hb) as [Hb0 _]. rewrite run_modify.
  destruct content as [|c l]; [by split_and!|]. pose proof (fgets_split 255 (c :: l)) as Hsplit.
  destruct (fgets 255 (c :: l)) as [line rest]. specialize (Hsplit _ _ eq_refl).
  pose proof (load_loop_any (c :: l) (S (length rest)) rest (set_count 0 b) Hb0) as Hany.
  specialize (Hany ltac:(lia) (ex_intro _ line Hsplit)).
  unfold mbind at 1, M_bind at 1. unfold reads_or_overflows in Hany.
  destruct (load_loop (S (length rest)) rest (set_count 0 b)) as [[[] b1]| |]; [|done..].
  destruct (sort_board b1 Hany) as (b2 & Hr2 & Hb2 & Hs2). rewrite (run_done _ _ _ _ _ Hr2).
  cbn. by split_and!.
Qed.

(** The file on the disk, if it can be read, holds no number beyond an int. *)
Definition readable (d : disk) : Prop := ∀ content line (b : board),
  fopen_r d = Some content → inside line content → sscanf_entry line b ≠ Undef.

Lemma load_readable b d : length (highscores b) = 100%nat → readable d →
  wp load_highscores_from_csv (λ n s, s.2 = d ∧ board_ok s.1) (b, d).
Proof.
  intros Hb Hd. destruct (fopen_r d) as [content|] eqn:Ef.
  - pose proof (load_any b d content Hb Ef) as Hl. unfold wp.
    destruct (load_highscores_from_csv (b, d)) as [[n s]| |]; [by destruct Hl as (? & ? & _)| |done].
    destruct Hl as (line & b' & Hin & Hu). by apply (Hd content line b').
  - unfold wp, load_highscores_from_csv, on_board, zoom. rewrite Ef. cbn. split; [done|].
    by apply set_count_zero.
Qed.

(** ** Properties *)

(** C13. sort_highscores never leaves the array, whatever the count between 0 and
    [MAX_HIGHSCORES]; it permutes the counted entries into descending order of score and keeps
    the others. *)
Theorem sort_highscores_sorts b : board_ok b →
  wp sort_highscores (λ _ b',
    board_ok b' ∧ highscore_count b' = highscore_count b ∧
    ranking b' ≡ₚ ranking b ∧ StronglySorted ahead (ranking b') ∧
    drop (Z.to_nat (highscore_count b)) (highscores b') =
      drop (Z.to_nat (highscore_count b)) (highscores b)) b.
Proof.
  intros Hb. eapply wp_mono; [|by apply wp_sort]. intros _ b' (? & ? & ? & ? & _ & ?).
  by split_and!.
Qed.

(** C11. Round trip through the file: saving an entry whose name has 1 to 19 characters and no
    comma or newline, to a file that holds [es] (or to none), succeeds and appends one line;
    loading that file later gives back the first 100 entries, sorted. *)
Theorem save_load_round_trip es e b b0 d :
  Forall entry_ok (es ++ [e]) → stored es d ∨ csv d = None ∧ es = [] →
  can_read d = true → can_append d = true → can_write d = true →
  board_ok b → length (highscores b0) = 100%nat →
  wp (save_highscore_to_csv e) (λ rc s,
    rc = 0 ∧ stored (es ++ [e]) s.2 ∧
    wp load_highscores_from_csv (λ n s',
      n = Z.min 100 (Z.of_nat (length es) + 1) ∧ highscore_count s'.1 = n ∧
      ranking s'.1 ≡ₚ take 100 (es ++ [e]) ∧ StronglySorted ahead (ranking s'.1)) (b0, s.2)) (b, d).
Proof.
  intros Hes Hd Hr Ha Hw Hb Hb0. pose proof (proj1 (Forall_app _ _ _) Hes) as [_ He].
  inversion He as [|? ? He' _]; subst.
  eapply wp_mono; [|apply wp_save; [done|by apply (entry_length _ He')]].
  intros rc [b1 d1] (_ & Hrc & _ & _ & Hres). simpl in *.
  assert (open_file d = Some (set_csv (default [] (csv d)) d, match csv d with Some _ => true | None => false end))
    as Ho by (unfold open_file, fopen_a, fopen_r; by rewrite Ha, Hr).
  assert (rc = 0) as -> by (apply Hrc; split; [by eexists|done]). split; [done|].
  destruct Hres as (_ & d2 & ex & Ho2 & Hc2 & Hr2). rewrite Ho in Ho2. injection Ho2 as <- <-.
  assert (stored (es ++ [e]) d1) as Hst.
  { unfold stored. rewrite Hc2. simpl. unfold csv_lines. rewrite fmap_app, concat_app. simpl.
    destruct Hd as [Hd|[Hd ->]]; rewrite Hd; simpl; by rewrite ?app_nil_r, <- ?app_assoc. }
  split; [done|]. eapply wp_mono; [|apply (load_stored (es ++ [e])); [done..|congruence]].
  intros n s' (_ & _ & -> & Hc & Hp & Hs). split_and!; try done.
  rewrite length_app. simpl. lia.
Qed.

(** C27. Every branch of save_highscore_to_csv: it fails with -1 exactly when the file can be
    neither appended to nor created, or not written, and then the table is untouched; otherwise
    it returns 0 and a table that is not full gets the entry in its place, in order. *)
Theorem save_highscore_result e b d : board_ok b → (length (hs_name e) <= 19)%nat →
  wp (save_highscore_to_csv e) (λ rc s,
    (rc = -1 ↔ can_append d = false ∧ can_create d = false ∨ can_write d = false) ∧
    (rc = 0 ∨ rc = -1) ∧ board_ok s.1 ∧
    (rc = -1 → s.1 = b) ∧
    (rc = 0 → if highscore_count b <? 100
              then ranking s.1 ≡ₚ ranking b ++ [e] ∧ StronglySorted ahead (ranking s.1)
              else s.1 = b)) (b, d).
Proof.
  intros Hb Hn. eapply wp_mono; [|by apply wp_save]. intros rc s (H01 & Hrc & Hok & _ & Hres).
  assert (open_file d = None ↔ can_append d = false ∧ can_create d = false) as Ho.
  { unfold open_file, fopen_a, fopen_w. destruct (can_append d), (can_create d); split; intuition congruence. }
  assert (is_Some (open_file d) ↔ ¬ (can_append d = false ∧ can_create d = false)) as Ho'
    by (rewrite <- Ho; destruct (open_file d); [by split; eauto|by split; [intros [? ?]|]]).
  rewrite Ho' in Hrc. split_and!; [|done|done|..].
  - clear Hres Ho Ho' Hok. destruct (can_append d), (can_create d), (can_write d), H01 as [->| ->];
      intuition congruence.
  - by intros ->.
  - intros ->. simpl in Hres. destruct Hres as [Hres _].
    destruct (highscore_count b <? 100); [by destruct Hres as (? & ? & _)|done].
Qed.

(** C12. Loading any file ends, never overruns a name or the table, and leaves a sorted table of
    at most 100 entries, unless some part of the file has a decimal number that no int holds
    (for which C leaves sscanf undefined). *)
Theorem load_any_file b d content : length (highscores b) = 100%nat → fopen_r d = Some content →
  match load_highscores_from_csv (b, d) with
  | Done (n, s) => s.2 = d ∧ board_ok s.1 ∧
                   (content ≠ [] → n = highscore_count s.1 ∧ StronglySorted ahead (ranking s.1))
  | Undef => ∃ line b', inside line content ∧ sscanf_entry line (b' : board) = Undef
  | OutOfFuel => False
  end.
Proof. apply load_any. Qed.

(** A win is saved at most once per game: the first call of save_win_highscore picks one of
    the 26 names and saves the entry, a second call changes nothing; and when the file is
    writable the table holds the new entry. *)
Theorem save_win_highscore_once {W} `{Random W} (h : hstate W) :
  board_ok (h_board h) →
  wp save_win_highscore (λ _ h',
    highscore_saved_this_game (h_scoring h') = true ∧ board_ok (h_board h') ∧
    save_win_highscore h' = Done (tt, h') ∧
    (highscore_saved_this_game (h_scoring h) = true → h' = h) ∧
    (highscore_saved_this_game (h_scoring h) = false → highscore_count (h_board h) < 100 →
     can_append (h_disk h) = true → can_write (h_disk h) = true →
     ∃ name, name ∈ anime_names ∧ ranking (h_board h') ≡ₚ ranking (h_board h) ++
       [Entry name (final_score (h_scoring h)) (bullets_fired (h_scoring h))
              (game_time_seconds (h_scoring h))])) h.
Proof.
  intros Hb. eapply wp_mono; [|by apply save_win_wp]. intros [] h' (Hs & Hok & _ & H1 & H2).
  split_and!; try done. unfold save_win_highscore. run_unfold. by rewrite Hs.
Qed.

(** ** Witnesses *)
Module Witness.
Import Sim.

Definition jin : HighScoreEntry := Entry (codes "JIN") 9650 3 20.
Definition fuu : HighScoreEntry := Entry (codes "FUU") 9800 2 10.
Definition jet : HighScoreEntry := Entry (codes "JET") 100 500 42.

Definition table : board :=
  Board ([jin; fuu; jet] ++ replicate 97 (Entry [] 0 0 0)) 3 false.
Definition file : disk := Disk (Some (header ++ csv_lines [jin])) true true true true.

Lemma table_ok : board_ok table.
Proof. split; [reflexivity|simpl; lia]. Qed.

(** The state plays no part in reading a line. *)
Lemma scan_comma_int_state {S T} l (s : S) (t : T) :
  match scan_comma_int l s, scan_comma_int l t with
  | Done (r, s'), Done (r', t') => r = r' ∧ s' = s ∧ t' = t
  | Undef, Undef => True
  | _, _ => False
  end.
Proof.
  unfold scan_comma_int, scan_int. destruct l as [|c l]; [done|].
  assert (∀ l, match
    match scan_d l with None => mret None
    | Some (n, rest) => if (-2147483648 <=? n) && (n <=? 2147483647) then mret (Some (n, rest)) else undef
    end s,
    match scan_d l with None => mret None
    | Some (n, rest) => if (-2147483648 <=? n) && (n <=? 2147483647) then mret (Some (n, rest)) else undef
    end t with
  | Done (r, s'), Done (r', t') => r = r' ∧ s' = s ∧ t' = t
  | Undef, Undef => True
  | _, _ => False
  end) as Hd by (intros l'; destruct (scan_d l') as [[n rest]|]; [by destruct (_ && _)|done]).
  destruct c as [|p|p]; try done. do 6 (destruct p as [p|p|]; try done). apply Hd.
Qed.

Lemma sscanf_entry_state {S T} line (s : S) (t : T) :
  sscanf_entry line s = Undef → sscanf_entry line t = Undef.
Proof.
  unfold sscanf_entry. destruct (scan_field _ _) as [[|c nm] rest]; [done|].
  unfold mbind, M_bind.
  repeat match goal with
  | |- context [scan_comma_int ?l s] =>
      pose proof (scan_comma_int_state l s t); destruct (scan_comma_int l s) as [[? ?]| |];
      destruct (scan_comma_int l t) as [[? ?]| |]; open_hyps; subst; try done
  | |- context [match ?o with _ => _ end] => is_var o; destruct o as [[? ?]|]; try done
  end.
Qed.

Lemma file_readable : readable file.
Proof.
  intros content line b Hf (pre & post & Hc) Hu%(sscanf_entry_state _ _ ()).
  assert (header ++ csv_lines [jin] = pre ++ line ++ post) as Hc' by (rewrite <- Hc; by injection Hf).
  clear Hc. rename Hc' into Hc.
  set (ok := λ l, match sscanf_entry l () with Undef => false | _ => true end).
  assert (forallb (λ i, forallb (λ j, ok (take j (drop i (header ++ csv_lines [jin])))) (seq 0 60)) (seq 0 60) = true)
    as Hall by by_vm.
  assert (length (header ++ csv_lines [jin]) < 60)%nat as Hlen by (by apply Nat.ltb_lt).
  rewrite Hc in Hall, Hlen. rewrite !length_app in Hlen.
  rewrite forallb_forall in Hall. specialize (Hall (length pre) ltac:(apply in_seq; lia)).
  rewrite forallb_forall in Hall. specialize (Hall (length line) ltac:(apply in_seq; lia)).
  rewrite drop_app_length, take_app_length in Hall. unfold ok in Hall. by rewrite Hu in Hall.
Qed.

Lemma entries_ok : Forall entry_ok ([jin] ++ [fuu]).
Proof.
  repeat constructor; try (vm_compute; lia); try (vm_compute; discriminate).
Qed.

Example table_sorted : (λ o, match o with Done (_, b) => hs_score <$> take 4 (highscores b) | _ => [] end)
  (sort_highscores table) = [9800; 9650; 100; 0].
Proof. vm_compute. reflexivity. Qed.

Lemma sort_highscores_sorts_witness :
  board_ok table ∧
  wp sort_highscores (λ _ b',
    board_ok b' ∧ highscore_count b' = highscore_count table ∧
    ranking b' ≡ₚ ranking table ∧ StronglySorted ahead (ranking b') ∧
    drop (Z.to_nat (highscore_count table)) (highscores b') =
      drop (Z.to_nat (highscore_count table)) (highscores table)) table.
Proof. split; [exact table_ok|]. exact (sort_highscores_sorts table table_ok). Defined.

Lemma save_load_round_trip_witness :
  stored [jin] file ∧
  wp (save_highscore_to_csv fuu) (λ rc s,
    rc = 0 ∧ stored ([jin] ++ [fuu]) s.2 ∧
    wp load_highscores_from_csv (λ n s',
      n = Z.min 100 (Z.of_nat (length [jin]) + 1) ∧ highscore_count s'.1 = n ∧
      ranking s'.1 ≡ₚ take 100 ([jin] ++ [fuu]) ∧ StronglySorted ahead (ranking s'.1))
      (board_start, s.2)) (table, file).
Proof.
  split; [reflexivity|].
  exact (save_load_round_trip [jin] fuu table board_start file entries_ok (or_introl eq_refl)
           eq_refl eq_refl eq_refl table_ok eq_refl).
Defined.

Lemma save_highscore_result_witness :
  board_ok table ∧
  wp (save_highscore_to_csv fuu) (λ rc s,
    (rc = -1 ↔ can_append file = false ∧ can_create file = false ∨ can_write file = false) ∧
    (rc = 0 ∨ rc = -1) ∧ board_ok s.1 ∧
    (rc = -1 → s.1 = table) ∧
    (rc = 0 → if highscore_count table <? 100
              then ranking s.1 ≡ₚ ranking table ++ [fuu] ∧ StronglySorted ahead (ranking s.1)
              else s.1 = table)) (table, file).
Proof.
  split; [exact table_ok|]. apply (save_highscore_result fuu table file table_ok). simpl. lia.
Defined.

Lemma load_any_file_witness :
  fopen_r file = Some (header ++ csv_lines [jin]) ∧
  match load_highscores_from_csv (table, file) with
  | Done (n, s) => s.2 = file ∧ board_ok s.1 ∧
                   (header ++ csv_lines [jin] ≠ [] →
                    n = highscore_count s.1 ∧ StronglySorted ahead (ranking s.1))
  | Undef => ∃ line b', inside line (header ++ csv_lines [jin]) ∧
                        sscanf_entry line (b' : board) = Undef
  | OutOfFuel => False
  end.
Proof.
  split; [reflexivity|].
  exact (load_any_file table file (header ++ csv_lines [jin]) eq_refl eq_refl).
Defined.

Definition won : hstate sim :=
  HState (MkSim [] [] 0 [] [] [1000] tiny_mode) (Scoring 2 10 9800 0 false false) table file.

Lemma save_win_highscore_once_witness :
  board_ok (h_board won) ∧
  wp save_win_highscore (λ _ h',
    highscore_saved_this_game (h_scoring h') = true ∧ board_ok (h_board h') ∧
    save_win_highscore h' = Done (tt, h') ∧
    (highscore_saved_this_game (h_scoring won) = true → h' = won) ∧
    (highscore_saved_this_game (h_scoring won) = false → highscore_count (h_board won) < 100 →
     can_append (h_disk won) = true → can_write (h_disk won) = true →
     ∃ name, name ∈ anime_names ∧ ranking (h_board h') ≡ₚ ranking (h_board won) ++
       [Entry name (final_score (h_scoring won)) (bullets_fired (h_scoring won))
              (game_time_seconds (h_scoring won))])) won.
Proof. split; [exact table_ok|]. exact (save_win_highscore_once won table_ok). Defined.
End Witness.
