(* ===== verification/Ship.v ===== *)
(** * game/ship/ship.c: the ship, the bullets and the shields

    State: the globals of ship.c and the arrays of ship.h.  The structs Bullet and EnemyBullet
    have the same fields and share one record.  A loop whose bound is the length of its array
    is a traversal of the list; [ship_ok] holds those lengths.

    The mode's resolution, the scancode and the aliens are read from other components and are
    arguments; the calls to score.c run on the pair of the two states. *)

From S2P Require Import Prelude Machine Xpm SpritesGame Sprites Graphics Keyboard Score Enemies.

(** ** Constants of ship.h *)
Definition MAX_BULLETS : Z := 10.
Definition MAX_ENEMY_BULLETS : Z := 10.
Definition BULLET_WIDTH : Z := 8.
Definition BULLET_HEIGHT : Z := 30.
Definition ENEMY_BULLET_WIDTH : Z := 5.
Definition ENEMY_BULLET_HEIGHT : Z := 17.
Definition NUM_SHIELDS : Z := 4.
Definition SHIELD_WIDTH : Z := 47.
Definition SHIELD_HEIGHT : Z := 34.

Record Bullet := MkBullet { bullet_x : Z; bullet_y : Z; bullet_active : bool }.
Inductive ShieldState := SHIELD_FULL | SHIELD_BROKEN | SHIELD_NONE.
Record Shield := MkShield { shield_x : Z; shield_y : Z; shield_state : ShieldState }.

#[export] Instance ShieldState_eq_dec : EqDecision ShieldState.
Proof. solve_decision. Defined.

(** The ints [ship_width] and [ship_height] are never assigned. *)
Definition ship_width : Z := 50.
Definition ship_height : Z := 50.

(** [ship_x] is the uint16_t [x]. *)
Record ship := Ship {
  ship_x : Z;
  fire_delay_counter : Z;
  bullets : list Bullet;
  enemy_bullets : list Bullet;
  shields : list Shield;
}.

Definition set_ship_x (x : Z) (s : ship) : ship :=
  Ship x (fire_delay_counter s) (bullets s) (enemy_bullets s) (shields s).
Definition set_fire_delay (n : Z) (s : ship) : ship :=
  Ship (ship_x s) n (bullets s) (enemy_bullets s) (shields s).
Definition set_bullets (l : list Bullet) (s : ship) : ship :=
  Ship (ship_x s) (fire_delay_counter s) l (enemy_bullets s) (shields s).
Definition set_enemy_bullets (l : list Bullet) (s : ship) : ship :=
  Ship (ship_x s) (fire_delay_counter s) (bullets s) l (shields s).
Definition set_shields (l : list Shield) (s : ship) : ship :=
  Ship (ship_x s) (fire_delay_counter s) (bullets s) (enemy_bullets s) l.

(** The static initialisers. *)
Definition ship_start : ship :=
  Ship 350 150 (replicate 10 (MkBullet 0 0 false)) (replicate 10 (MkBullet 0 0 false))
    (replicate 4 (MkShield 0 0 SHIELD_FULL)).

Definition deactivate (b : Bullet) : Bullet := MkBullet (bullet_x b) (bullet_y b) false.

(** ** Initialisation *)

Definition init_bullets : M ship unit :=
  modify (λ s, set_bullets (deactivate <$> bullets s) s).

Definition init_enemy_bullets : M ship unit :=
  modify (λ s, set_enemy_bullets (deactivate <$> enemy_bullets s) s).

Definition init_shields (mi : vbe_mode_info) : M ship unit :=
  let spacing := 200 in
  let start_x := idiv (i32 (XResolution mi - (NUM_SHIELDS * SHIELD_WIDTH + (NUM_SHIELDS - 1) * spacing))) 2 in
  let shield_y := i32 (YResolution mi - 250) in
  modify (λ s, set_shields
    (imap (λ i _, MkShield (i32 (start_x + i32 (Z.of_nat i * (SHIELD_WIDTH + spacing)))) shield_y SHIELD_FULL)
       (shields s)) s).

(** ** Player actions *)

(** The loop over a bullet array that fills the first inactive entry and leaves. *)
Fixpoint fire_first (b : Bullet) (l : list Bullet) : option (list Bullet) :=
  match l with
  | [] => None
  | b' :: l =>
      if negb (bullet_active b') then Some (b :: l)
      else l' ← fire_first b l; Some (b' :: l')
  end.

Definition ship_action (scancode : Z) (xres : Z) : M (ship * scoring) unit :=
  s ← gets fst;
  let x := ship_x s in
  if scancode =? KB_A then
    if x >? ship_width then modify (λ '(s, sc), (set_ship_x (u16 (x - 30)) s, sc)) else skip
  else if scancode =? KB_D then
    let x := u16 (x + 30) in
    modify (λ '(s, sc), (set_ship_x x s, sc));;
    if x >? xres - ship_width
    then modify (λ '(s, sc), (set_ship_x (u16 (xres - ship_width)) s, sc)) else skip
  else if scancode =? KB_SPACE then
    if fire_delay_counter s >=? 30 then
      (match fire_first (MkBullet (i32 (x + idiv ship_width 2 - 2)) (700 - BULLET_HEIGHT) true) (bullets s) with
       | Some l =>
           modify (λ '(s, sc), (set_bullets l s, sc));;
           zoom snd (λ sc p, (p.1, sc)) score_add_bullet
       | None => skip
       end);;
      modify (λ '(s, sc), (set_fire_delay 0 s, sc))
    else skip
  else skip.

(** ** Alien bullets *)

(** The outer loop of fire_enemy_bullet, over the aliens not yet visited; [count] is
    [active_enemy_count].  A full bullet array lets the search run on, in vain. *)
Fixpoint fire_loop (es : list Enemy) (count random_enemy_index : Z) (bs : list Bullet) : list Bullet :=
  match es with
  | [] => bs
  | e :: es =>
      if eactive e then
        let fired :=
          if count =? random_enemy_index
          then fire_first (MkBullet (i32 (ex e + idiv ENEMY_WIDTH 2)) (i32 (ey e + ENEMY_HEIGHT)) true) bs
          else None in
        match fired with
        | Some bs' => bs'
        | None => fire_loop es (i32 (count + 1)) random_enemy_index bs
        end
      else fire_loop es count random_enemy_index bs
  end.

Definition fire_enemy_bullet {W} `{Random W} (es : list Enemy) : M (W * ship) unit := λ '(w, s),
  let active_enemies := count_active es 0 in
  if active_enemies =? 0 then Done (tt, (w, s)) else
  let '(r, w) := rand w in
  let random_enemy_index := Z.rem r active_enemies in
  Done (tt, (w, set_enemy_bullets (fire_loop es 0 random_enemy_index (enemy_bullets s)) s)).

(** ** Movement *)

Definition step_bullet (b : Bullet) : Bullet :=
  if bullet_active b then
    let y := i32 (bullet_y b - 20) in
    MkBullet (bullet_x b) y (negb (y <? 0))
  else b.

Definition update_bullets : M ship unit :=
  modify (λ s, set_bullets (step_bullet <$> bullets s) s).

Definition step_enemy_bullet (yres : Z) (b : Bullet) : Bullet :=
  if bullet_active b then
    let y := i32 (bullet_y b + 20) in
    MkBullet (bullet_x b) y (negb (y >? yres))
  else b.

Definition update_enemy_bullets (yres : Z) : M ship unit :=
  modify (λ s, set_enemy_bullets (step_enemy_bullet yres <$> enemy_bullets s) s).

(** ** Drawing *)
Section drawing.
Context `{XpmLoader}.

Definition draw_ship (x : Z) : M gfx Z :=
  rc ← print_xpm Player.ship x 700;
  if negb (rc =? 0) then mret 1 else mret 0.

Definition draw_shields (l : list Shield) : M gfx unit :=
  each_do l (λ s,
    match shield_state s with
    | SHIELD_FULL => print_xpm Shields.shield (u16 (shield_x s)) (u16 (shield_y s));; skip
    | SHIELD_BROKEN => print_xpm Shields.break_shield (u16 (shield_x s)) (u16 (shield_y s));; skip
    | SHIELD_NONE => skip
    end).

Definition draw_bullet (b : Bullet) : M gfx Z :=
  if negb (bullet_active b) then mret 0 else
  rc ← print_xpm Player.bullet (u16 (bullet_x b)) (u16 (bullet_y b));
  if negb (rc =? 0) then mret 1 else mret 0.

Definition draw_enemy_bullets (l : list Bullet) : M gfx unit :=
  each_do l (λ b,
    if bullet_active b then
      print_xpm Player.enemy_bullet (u16 (bullet_x b)) (u16 (bullet_y b));; skip
    else skip).

Definition draw_all_bullets (l : list Bullet) : M gfx Z :=
  each_rc l (λ b, if bullet_active b then draw_bullet b else mret 0).
End drawing.

(** ** The invariant *)

Record ship_ok (xres : Z) (s : ship) : Prop := {
  ship_on_screen : 21 <= ship_x s <= xres - ship_width;
  ship_bullets : length (bullets s) = 10%nat;
  ship_enemy_bullets : length (enemy_bullets s) = 10%nat;
  ship_shields : length (shields s) = 4%nat;
  (** Flying bullets are where draw_bullet succeeds. *)
  ship_bullets_in : Forall (λ b, bullet_active b = true →
    0 <= bullet_x b <= xres - 27 ∧ 0 <= bullet_y b <= 670) (bullets s);
  ship_enemy_bullets_in : Forall (λ b, bullet_active b = true →
    0 <= bullet_x b < 70000 ∧ 0 <= bullet_y b < 70000) (enemy_bullets s);
}.

Lemma ship_start_ok xres : 400 <= xres → ship_ok xres ship_start.
Proof. intros. split; simpl; try done; [unfold ship_width; lia|repeat constructor; done..]. Qed.

Lemma fire_first_spec b l :
  match fire_first b l with
  | Some l' => ∃ pre b0 post, l = pre ++ b0 :: post ∧ l' = pre ++ b :: post ∧
                 bullet_active b0 = false ∧ Forall (λ b, bullet_active b = true) pre
  | None => Forall (λ b, bullet_active b = true) l
  end.
Proof.
  induction l as [|b' l IH]; simpl; [constructor|]. destruct (bullet_active b') eqn:E; simpl.
  - destruct (fire_first b l) as [l'|]; simpl; [|by constructor].
    destruct IH as (pre & b0 & post & -> & -> & H0 & Hpre).
    exists (b' :: pre), b0, post. split_and!; try done. by constructor.
  - exists [], b', l. by split_and!.
Qed.

Lemma fire_first_forall (P : Bullet → Prop) b l l' :
  fire_first b l = Some l' → P b → Forall P l → Forall P l' ∧ length l' = length l.
Proof.
  intros Hf Hb Hl. pose proof (fire_first_spec b l) as Hs. rewrite Hf in Hs.
  destruct Hs as (pre & b0 & post & -> & -> & _). rewrite !Forall_app in *.
  destruct Hl as [Hpre Hpost]. inversion Hpost; subst. rewrite !length_app. simpl.
  split; [|lia]. split; [done|by constructor].
Qed.

(** ** Steering and firing *)

(** Where the ship is after a key. *)
Definition steer (scancode xres x : Z) : Z :=
  if scancode =? KB_A then (if x >? 50 then x - 30 else x)
  else if scancode =? KB_D then Z.min (x + 30) (xres - 50)
  else x.

(** The space key fires when 30 ticks have passed and a bullet is left. *)
Definition fires (scancode : Z) (s : ship) : bool :=
  (scancode =? KB_SPACE) && (fire_delay_counter s >=? 30)
  && existsb (λ b, negb (bullet_active b)) (bullets s).

Definition flying (l : list Bullet) : Z :=
  Z.of_nat (length (filter (λ b, bullet_active b = true) l)).

Lemma fire_first_free b l :
  existsb (λ b, negb (bullet_active b)) l = match fire_first b l with Some _ => true | None => false end.
Proof.
  induction l as [|b' l IH]; simpl; [done|]. destruct (bullet_active b'); simpl; [|done].
  rewrite IH. by destruct (fire_first b l).
Qed.

Lemma flying_fire b l l' : bullet_active b = true → fire_first b l = Some l' →
  flying l' = flying l + 1.
Proof.
  intros Hb Hf. pose proof (fire_first_spec b l) as Hs. rewrite Hf in Hs.
  destruct Hs as (pre & b0 & post & -> & -> & H0 & _). unfold flying.
  rewrite !list.filter_app, !length_app, !filter_cons.
  rewrite (decide_True (P := bullet_active b = true)) by done.
  rewrite (decide_False (P := bullet_active b0 = true)) by congruence. simpl. lia.
Qed.

Lemma ship_action_wp scancode xres s sc : 400 <= xres < 65536 → ship_ok xres s →
  wp (ship_action scancode xres) (λ _ p,
    ship_ok xres p.1 ∧ ship_x p.1 = steer scancode xres (ship_x s) ∧
    enemy_bullets p.1 = enemy_bullets s ∧ shields p.1 = shields s ∧
    flying (bullets p.1) = flying (bullets s) + (if fires scancode s then 1 else 0) ∧
    (0 <= bullets_fired sc < 2147483647 →
     p.2 = if fires scancode s && game_active sc
           then Scoring (bullets_fired sc + 1) (game_time_seconds sc) (final_score sc)
                  (game_start_time sc) (game_active sc) (highscore_saved_this_game sc)
           else sc)) (s, sc).
Proof.
  intros Hx Hs. pose proof (ship_on_screen _ _ Hs) as Hon. unfold ship_width in Hon.
  unfold ship_action, steer, fires. apply wp_bind, wp_gets. cbn [fst].
  destruct (scancode =? KB_A) eqn:EA.
  { assert ((scancode =? KB_SPACE) = false) as -> by (unfold KB_A, KB_SPACE in *; lia). simpl.
    unfold ship_width. destruct (ship_x s >? 50) eqn:E; [apply wp_modify|apply wp_ret]; simpl.
    - rewrite u16_small by lia. split_and!; try done; [|lia].
      destruct Hs; split; simpl; try done. unfold ship_width. lia.
    - split_and!; try done. lia. }
  destruct (scancode =? KB_D) eqn:ED.
  { assert ((scancode =? KB_SPACE) = false) as -> by (unfold KB_D, KB_SPACE in *; lia). simpl.
    apply wp_bind, wp_modify. unfold ship_width. rewrite (u16_small (ship_x s + 30)) by lia.
    destruct (_ >? xres - 50) eqn:E; [apply wp_modify|apply wp_ret]; simpl;
      rewrite ?u16_small by lia; (split_and!; try done; try lia);
      destruct Hs; split; simpl; try done; unfold ship_width; lia. }
  destruct (scancode =? KB_SPACE) eqn:ES; simpl; [|apply wp_ret; simpl; split_and!; try done; lia].
  destruct (fire_delay_counter s >=? 30) eqn:EF; simpl; [|apply wp_ret; simpl; split_and!; try done; lia].
  change (idiv ship_width 2) with 25.
  set (b := MkBullet _ _ true). rewrite (fire_first_free b).
  destruct (fire_first b (bullets s)) as [l|] eqn:Ef; simpl.
  - apply wp_bind, wp_bind, wp_modify, wp_zoom. unfold score_add_bullet. apply wp_modify, wp_modify.
    simpl. destruct (fire_first_forall (λ b, bullet_active b = true →
      0 <= bullet_x b <= xres - 27 ∧ 0 <= bullet_y b <= 670) b _ _ Ef) as [Hl1 Hl2].
    { intros _. unfold b. simpl. rewrite i32_small by lia. unfold BULLET_HEIGHT. lia. }
    { apply (ship_bullets_in _ _ Hs). }
    split_and!; try done.
    + destruct Hs; split; simpl; try done. congruence.
    + by apply (flying_fire b).
    + intros Hsc. destruct (game_active sc) eqn:Eg; [|done]. by rewrite i32_small by lia.
  - apply wp_bind, wp_ret, wp_modify. simpl. split_and!; try done; [by destruct Hs|lia].
Qed.

(** ** Movement *)

Lemma step_bullet_in xres b :
  (bullet_active b = true → 0 <= bullet_x b <= xres - 27 ∧ 0 <= bullet_y b <= 670) →
  bullet_active (step_bullet b) = true →
  0 <= bullet_x (step_bullet b) <= xres - 27 ∧ 0 <= bullet_y (step_bullet b) <= 670.
Proof.
  unfold step_bullet. destruct (bullet_active b) eqn:E; simpl; [|by rewrite E].
  intros Hb. specialize (Hb eq_refl). rewrite i32_small by lia. lia.
Qed.

Lemma update_bullets_ok xres s : ship_ok xres s →
  wp update_bullets (λ _ s', ship_ok xres s' ∧ bullets s' = step_bullet <$> bullets s ∧
    ship_x s' = ship_x s ∧ enemy_bullets s' = enemy_bullets s ∧ shields s' = shields s) s.
Proof.
  intros Hs. apply wp_modify. split; [|done]. destruct Hs; split; simpl; try done.
  - by rewrite length_fmap.
  - apply Forall_fmap. eapply Forall_impl; [|done]. intros b Hb. exact (step_bullet_in xres b Hb).
Qed.

Lemma update_enemy_bullets_ok xres yres s : ship_ok xres s → 0 <= yres < 65536 →
  wp (update_enemy_bullets yres) (λ _ s', ship_ok xres s' ∧
    enemy_bullets s' = step_enemy_bullet yres <$> enemy_bullets s ∧
    ship_x s' = ship_x s ∧ bullets s' = bullets s ∧ shields s' = shields s) s.
Proof.
  intros Hs Hy. apply wp_modify. split; [|done]. destruct Hs; split; simpl; try done.
  - by rewrite length_fmap.
  - apply Forall_fmap. eapply Forall_impl; [|done]. intros b Hb. cbv beta in Hb. unfold step_enemy_bullet, compose.
    destruct (bullet_active b) eqn:E; simpl; [|by rewrite E].
    specialize (Hb eq_refl). rewrite i32_small by lia. lia.
Qed.

(** A bullet [n] updates later: it rises 20 pixels per update, and is gone with the update that
    takes it above the screen, where it stays. *)
Definition risen (n : Z) (b : Bullet) : Bullet :=
  if bullet_active b then
    MkBullet (bullet_x b) (bullet_y b - 20 * Z.min n (bullet_y b / 20 + 1)) (20 * n <=? bullet_y b)
  else b.

Lemma risen_0 b : 0 <= bullet_y b → risen 0 b = b.
Proof.
  intros Hb. unfold risen. destruct b as [x y []]; simpl in *; [|done].
  pose proof (Z.div_pos y 20 Hb). rewrite Z.min_l by lia. f_equal; lia.
Qed.

Lemma step_risen n b : 0 <= n → 0 <= bullet_y b <= 670 →
  step_bullet (risen n b) = risen (n + 1) b.
Proof.
  intros Hn Hb. unfold risen. destruct b as [x y []]; simpl in *; [|done]. unfold step_bullet. simpl.
  destruct (20 * n <=? y) eqn:E; simpl.
  - rewrite (Z.min_l n), (Z.min_l (n + 1)), i32_small by (Z.to_euclidean_division_equations; lia).
    f_equal; lia.
  - rewrite (Z.min_r n), (Z.min_r (n + 1)) by (Z.to_euclidean_division_equations; lia). f_equal. lia.
Qed.

Lemma step_bullets_iter n l : Forall (λ b, bullet_active b = true → 0 <= bullet_y b <= 670) l →
  Nat.iter n (fmap step_bullet) l = risen (Z.of_nat n) <$> l.
Proof.
  intros Hl. induction n as [|n IH].
  - change (Z.of_nat 0) with 0. cbn [Nat.iter].
    induction Hl as [|b l Hb _ IH]; [done|]. rewrite fmap_cons, <- IH. f_equal.
    destruct (bullet_active b) eqn:E; [by rewrite risen_0 by (specialize (Hb eq_refl); lia)|].
    unfold risen. by rewrite E.
  - rewrite Nat.iter_succ, IH. clear IH. induction Hl as [|b l Hb _ IH]; [done|].
    rewrite !fmap_cons, IH. f_equal. destruct (bullet_active b) eqn:E.
    + rewrite step_risen by (lia || auto). f_equal. lia.
    + unfold risen. rewrite E. unfold step_bullet. by rewrite E.
Qed.

Lemma updates_iterate n i s :
  wp (for_do n i (λ _, update_bullets))
    (λ _ s', s' = set_bullets (Nat.iter n (fmap step_bullet) (bullets s)) s) s.
Proof.
  revert i s. induction n as [|n IH]; intros i s; cbn [for_do]; [apply wp_ret; by destruct s|].
  apply wp_bind, wp_modify. rewrite Nat.iter_succ_r. eapply wp_mono; [|apply (IH (i + 1))]. by intros [] s' ->.
Qed.

(** ** The aliens fire *)

(** The bullet of an alien: below its middle. *)
Definition shot_of (e : Enemy) : Bullet := MkBullet (ex e + 20) (ey e + 40) true.

(** The aliens alive. *)
Definition living (es : list Enemy) : Z := Z.of_nat (length (filter (λ e, eactive e = true) es)).

Lemma living_exists es : 0 < living es → ∃ k e, es !! k = Some e ∧ eactive e = true.
Proof.
  unfold living. destruct (filter (λ e, eactive e = true) es) as [|e l] eqn:E; [simpl; lia|]. intros _.
  assert (e ∈ filter (λ e, eactive e = true) es) as [Ha [k Hk]%list_elem_of_lookup]%list_elem_of_filter
    by (rewrite E; left).
  by exists k, e.
Qed.

Lemma living_cons e es : living (e :: es) = (if eactive e then 1 else 0) + living es.
Proof.
  unfold living. rewrite filter_cons. destruct (eactive e) eqn:E.
  - rewrite decide_True by done. simpl. lia.
  - by rewrite decide_False by done.
Qed.

Lemma fire_loop_full es bs : ∀ count idx, Forall (λ b, bullet_active b = true) bs →
  fire_loop es count idx bs = bs.
Proof.
  intros count idx Hbs. revert count.
  assert (∀ b, fire_first b bs = None) as Hnone.
  { intros b. pose proof (fire_first_spec b bs) as Hs. destruct (fire_first b bs); [|done].
    destruct Hs as (pre & b0 & post & -> & _ & H0 & _). apply Forall_app in Hbs as [_ Hbs].
    inversion Hbs; congruence. }
  induction es as [|e es IH]; intros count; simpl; [done|].
  destruct (eactive e); [|done]. rewrite Hnone. by destruct (count =? idx).
Qed.

(** With a free bullet, the alien number [idx - count] among the living ones fires. *)
Lemma fire_loop_fires es : ∀ bs count idx,
  existsb (λ b, negb (bullet_active b)) bs = true →
  Forall (λ e, eactive e = true → -100000 <= ex e <= 100000 ∧ -100000 <= ey e <= 100000) es →
  0 <= count <= idx → idx < count + living es → idx < 2 ^ 30 →
  ∃ e, e ∈ es ∧ eactive e = true ∧ fire_first (shot_of e) bs = Some (fire_loop es count idx bs).
Proof.
  induction es as [|e es IH]; intros bs count idx Hfree Hes Hc Hi Hmax.
  { unfold living in Hi. simpl in Hi. lia. }
  rewrite living_cons in Hi. inversion Hes as [|? ? He Hes']; subst. simpl.
  destruct (eactive e) eqn:Ea.
  - destruct (count =? idx) eqn:Ec.
    + destruct (He eq_refl). exists e. split; [by left|]. split; [done|].
      assert (MkBullet (i32 (ex e + idiv ENEMY_WIDTH 2)) (i32 (ey e + ENEMY_HEIGHT)) true = shot_of e) as ->.
      { unfold shot_of, ENEMY_HEIGHT. change (idiv ENEMY_WIDTH 2) with 20. by rewrite !i32_small by lia. }
      rewrite (fire_first_free (shot_of e)) in Hfree. by destruct (fire_first (shot_of e) bs).
    + rewrite i32_small by lia. destruct (IH bs (count + 1) idx) as (e' & Hin & ?); [done..|lia|lia|lia|].
      exists e'. split; [by right|done].
  - destruct (IH bs count idx) as (e' & Hin & ?); [done..|lia|lia|].
    exists e'. split; [by right|done].
Qed.

Section firing.
Context {W : Type} `{RandomLaws W}.

Lemma fire_enemy_bullet_wp (w : W) es s : (length es <= 18)%nat →
  Forall (λ e, eactive e = true → -100000 <= ex e <= 100000 ∧ -100000 <= ey e <= 100000) es →
  wp (fire_enemy_bullet es) (λ _ p,
    (living es = 0 ∨ Forall (λ b, bullet_active b = true) (enemy_bullets s)) ∧ p.2 = s ∨
    ∃ e l, e ∈ es ∧ eactive e = true ∧ fire_first (shot_of e) (enemy_bullets s) = Some l ∧
           p.2 = set_enemy_bullets l s) (w, s).
Proof.
  intros Hl Hes. unfold wp, fire_enemy_bullet. rewrite count_active_length by lia. fold (living es).
  rewrite Z.add_0_l. destruct (living es =? 0) eqn:E; [left; split; [left; lia|done]|].
  pose proof (rand_range w) as Hr. destruct (rand w) as [r w']. simpl in Hr.
  assert (0 <= living es) by (unfold living; lia).
  pose proof (Z.rem_bound_pos r (living es)). 
  destruct (existsb (λ b, negb (bullet_active b)) (enemy_bullets s)) eqn:Ef.
  - right. destruct (fire_loop_fires es (enemy_bullets s) 0 (Z.rem r (living es)))
      as (e & Hin & Ha & Hf); [done..|lia|lia| |].
    { assert (living es <= 18); [|lia]. unfold living. pose proof (length_filter (λ e, eactive e = true) es). lia. }
    exists e, (fire_loop es 0 (Z.rem r (living es)) (enemy_bullets s)). by split_and!.
  - left. assert (Forall (λ b, bullet_active b = true) (enemy_bullets s)) as Hfull.
    { rewrite (fire_first_free (MkBullet 0 0 true)) in Ef.
      pose proof (fire_first_spec (MkBullet 0 0 true) (enemy_bullets s)) as Hs.
      by destruct (fire_first _ _). }
    split; [by right|]. simpl. rewrite fire_loop_full by done. by destruct s.
Qed.
End firing.

(** ** Drawing *)
Section drawing_lemmas.
Context `{XpmLoaderLaws}.

(** A sprite whose code is ignored. *)
Lemma sprite_safe m w h x y g : gfx_ok g → xpm_dims m = Some (w, h) →
  wp (print_xpm m (u16 x) (u16 y);; skip) (λ _, redrawn g) g.
Proof.
  intros Hg Hd. apply wp_bind. pose proof (u16_range x). pose proof (u16_range y).
  eapply wp_mono; [|by apply (print_xpm_draws g m w h)].
  intros rc g' Hdr. apply wp_ret. by eapply draws_redrawn.
Qed.

(** A sprite that fits on the screen is drawn with code 0. *)
Lemma sprite_fits m w h x y g : gfx_ok g → xpm_dims m = Some (w, h) →
  0 <= x → 0 <= y → x + w <= hres g → y + h <= vres g →
  wp (rc ← print_xpm m x y; if negb (rc =? 0) then mret 1 else mret 0)
    (λ rc g', rc = 0 ∧ paints g g' (area x y w h (sprite_color m))) g.
Proof.
  intros Hg Hd ????. pose proof (ok_x g Hg). pose proof (ok_y g Hg).
  pose proof (xpm_dims_range _ _ _ Hd).
  apply wp_bind. eapply wp_mono; [|apply (print_xpm_draws g m w h); [done..|lia|lia]].
  intros rc g' Hdr. unfold draws in Hdr. replace (_ && _) with true in Hdr by lia.
  destruct Hdr as [-> ?]. by apply wp_ret.
Qed.

Lemma draw_ship_fits x g : gfx_ok g → 0 <= x → x + 50 <= hres g → 750 <= vres g →
  wp (draw_ship x) (λ rc g', rc = 0 ∧ paints g g' (area x 700 50 50 (sprite_color Player.ship))) g.
Proof. intros. apply sprite_fits; [done|apply ship_dims|lia..]. Qed.

Lemma draw_all_bullets_fits l g xres : gfx_ok g → hres g = xres → 700 <= vres g →
  Forall (λ b, bullet_active b = true →
    0 <= bullet_x b <= xres - 27 ∧ 0 <= bullet_y b <= 670) l →
  wp (draw_all_bullets l) (λ rc g', rc = 0 ∧ redrawn g g') g.
Proof.
  intros Hg <- Hy Hl. pose proof (ok_x g Hg). pose proof (ok_y g Hg).
  eapply wp_mono; [|apply (wp_each_rc l _ (λ _, true) (redrawn g)); [|by apply redrawn_refl]].
  { intros rc g' [-> ?]. assert (forallb (λ _ : Bullet, true) l = true) as ->; [|done].
    by apply forallb_forall. }
  intros b s Hb Hs. destruct (bullet_active b) eqn:Ea; [|by apply wp_ret].
  destruct (redrawn_screen _ _ Hs) as (Hhx & Hvy & _).
  rewrite List.Forall_forall in Hl.
  destruct (Hl b (proj1 (list_elem_of_In _ _) Hb) Ea) as [? ?].
  unfold draw_bullet. rewrite Ea. cbn [negb]. rewrite !u16_small by lia.
  eapply wp_mono; [|apply (sprite_fits Player.bullet 8 30);
    [by eapply redrawn_ok|apply bullet_dims|lia..]].
  intros rc s' [-> Hp]. split; [done|]. eapply redrawn_trans; [done|by eapply paints_redrawn].
Qed.

Lemma draw_enemy_bullets_safe l g : gfx_ok g → wp (draw_enemy_bullets l) (λ _, redrawn g) g.
Proof.
  intros Hg. apply wp_each_do; [|by apply redrawn_refl]. intros b s _ Hs.
  destruct (bullet_active b); [|by apply wp_ret].
  eapply wp_mono; [|apply (sprite_safe _ 5 17); [by eapply redrawn_ok|apply enemy_bullet_dims]].
  intros [] s' Hs'. by eapply redrawn_trans.
Qed.

Lemma draw_shields_safe l g : gfx_ok g → wp (draw_shields l) (λ _, redrawn g) g.
Proof.
  intros Hg. apply wp_each_do; [|by apply redrawn_refl]. intros b s _ Hs.
  destruct (shield_state b); [..|by apply wp_ret];
    (eapply wp_mono; [|apply (sprite_safe _ 47 34); [by eapply redrawn_ok|]];
     [intros [] s' Hs'; by eapply redrawn_trans|]); [apply shield_dims|apply break_shield_dims].
Qed.
End drawing_lemmas.

(** ** Starting a game *)

Lemma inits_ok mi s xres : XResolution mi = 1152 → YResolution mi = 864 → ship_ok xres s →
  wp (init_bullets;; init_enemy_bullets;; init_shields mi) (λ _ s', ship_ok xres s' ∧
    ship_x s' = ship_x s ∧
    Forall (λ b, bullet_active b = false) (bullets s') ∧
    Forall (λ b, bullet_active b = false) (enemy_bullets s') ∧
    shields s' = [MkShield 182 614 SHIELD_FULL; MkShield 429 614 SHIELD_FULL;
                  MkShield 676 614 SHIELD_FULL; MkShield 923 614 SHIELD_FULL]) s.
Proof.
  intros Hx Hy Hs. apply wp_bind, wp_modify, wp_bind, wp_modify. unfold init_shields. rewrite Hx, Hy.
  apply wp_modify.
  assert (∀ l P, Forall (λ b, bullet_active b = true → P b) (deactivate <$> l)) as Hd.
  { intros l P. apply Forall_fmap, List.Forall_forall. by intros b _ ?. }
  assert (∀ l, Forall (λ b, bullet_active b = false) (deactivate <$> l)) as Hd'.
  { intros l. apply Forall_fmap, List.Forall_forall. by intros b _. }
  destruct Hs as [H1 H2 H3 H4 H5 H6]. split_and!; simpl; try done.
  - split; simpl; rewrite ?length_fmap, ?length_imap; try done; apply Hd.
  - destruct (shields s) as [|? [|? [|? [|? [|]]]]]; try done.
Qed.

(** ** Properties *)

(** C23. Any sequence of keys moves the ship as [steer] says, keeps it on the screen and its
    bullets where they can be drawn, and in an active game every bullet fired is counted in the
    score and every counted shot is a bullet in flight. *)
Theorem keys_keep_ship xres ks s sc : 400 <= xres < 65536 → ship_ok xres s →
  game_active sc = true → 0 <= bullets_fired sc → 
  bullets_fired sc + Z.of_nat (length ks) < 2147483647 →
  wp (each_do ks (λ k, ship_action k xres)) (λ _ p,
    ship_ok xres p.1 ∧ 21 <= ship_x p.1 ∧ ship_x p.1 + 50 <= xres ∧
    ship_x p.1 = foldl (λ x k, steer k xres x) (ship_x s) ks ∧
    bullets_fired p.2 - bullets_fired sc = flying (bullets p.1) - flying (bullets s) ∧
    bullets_fired sc <= bullets_fired p.2 <= bullets_fired sc + Z.of_nat (length ks)) (s, sc).
Proof.
  intros Hx. revert s sc. induction ks as [|k ks IH]; intros s sc Hs Ha Hb0 Hb; cbn [each_do].
  { apply wp_ret. pose proof (ship_on_screen _ _ Hs). unfold ship_width in *. simpl. split_and!; (done || lia). }
  cbn [length] in *. apply wp_bind. eapply wp_mono; [|by apply ship_action_wp].
  intros [] [s1 sc1] (Hs1 & Hsx & _ & _ & Hf & Hsc). simpl in Hs1, Hsx, Hf, Hsc. specialize (Hsc ltac:(lia)). rewrite Ha, andb_true_r in Hsc.
  eapply wp_mono; [|apply IH; [done|by rewrite Hsc; destruct (fires k s)|..]].
  - intros [] [s2 sc2] (? & ? & ? & Hx2 & Hd & Hr). simpl in *. rewrite Hsx in Hx2.
    split_and!; try done; rewrite Hsc in Hd, Hr; destruct (fires k s); simpl in *; lia.
  - rewrite Hsc. destruct (fires k s); simpl; lia.
  - rewrite Hsc. destruct (fires k s); simpl; lia.
Qed.

(** One key: A moves the ship 30 pixels left while it is right of column 50, D moves it
    right up to the edge, any other key leaves it; the space bar fires exactly when 30 ticks
    have passed since the last shot and one of the ten bullets is free. *)
Theorem ship_action_result scancode xres s sc : 400 <= xres < 65536 → ship_ok xres s →
  0 <= bullets_fired sc < 2147483647 →
  wp (ship_action scancode xres) (λ _ p,
    ship_x p.1 = steer scancode xres (ship_x s) ∧
    flying (bullets p.1) = flying (bullets s) + (if fires scancode s then 1 else 0) ∧
    bullets_fired p.2 = bullets_fired sc + (if fires scancode s && game_active sc then 1 else 0) ∧
    (scancode ≠ KB_SPACE → bullets p.1 = bullets s ∧ p.2 = sc)) (s, sc).
Proof.
  intros Hx Hs Hb. pose proof (ship_action_wp scancode xres s sc Hx Hs) as Hwp.
  apply wp_done in Hwp as (u & p & Hrun & _ & Hsx & _ & _ & Hf & Hsc). specialize (Hsc Hb).
  apply wp_done. exists u, p. split; [done|]. split_and!; [done|done|..].
  - rewrite Hsc. destruct (fires scancode s && game_active sc); simpl; lia.
  - intros Hk. assert ((scancode =? KB_SPACE) = false) as Hk' by lia.
    revert Hrun. unfold ship_action. run_unfold. rewrite Hk'.
    repeat case_match; intros [= <- <-]; done.
Qed.

(** C24. update_bullets [n] times, for any [n]: every flying bullet of the player has risen 20
    pixels per update in its column, up to the update that takes it above the screen, which
    makes it inactive; inactive bullets stay as they are, and so does the rest of the ship.  The
    bullets still flying are in the range where draw_bullet succeeds, and after 34 updates none
    flies. *)
Theorem bullets_leave_screen xres s n : ship_ok xres s →
  wp (for_do n 0 (λ _, update_bullets)) (λ _ s',
    s' = set_bullets (risen (Z.of_nat n) <$> bullets s) s ∧
    Forall (λ b, bullet_active b = true →
      0 <= bullet_x b <= xres - 27 ∧ 0 <= bullet_y b <= 670 - 20 * Z.of_nat n) (bullets s') ∧
    ((34 <= n)%nat → Forall (λ b, bullet_active b = false) (bullets s'))) s.
Proof.
  intros Hs. eapply wp_mono; [|apply updates_iterate]. intros [] s' ->.
  pose proof (ship_bullets_in _ _ Hs) as Hin.
  rewrite step_bullets_iter by (eapply Forall_impl; [|exact Hin]; simpl; intros b Hb Ha; by apply Hb).
  assert (Forall (λ b, bullet_active b = true → 0 <= bullet_x b <= xres - 27 ∧
    0 <= bullet_y b <= 670 - 20 * Z.of_nat n) (risen (Z.of_nat n) <$> bullets s)) as Hf.
  { apply Forall_fmap. eapply Forall_impl; [|exact Hin]. intros b Hb. unfold compose, risen. cbv beta in Hb.
    destruct (bullet_active b) eqn:E; simpl; [|by rewrite E]. destruct (Hb eq_refl). intros Hn.
    rewrite Z.min_l by (Z.to_euclidean_division_equations; lia). lia. }
  split; [done|]. split; [done|]. intros Hn. eapply Forall_impl; [|exact Hf]. cbv beta. intros b Hb.
  destruct (bullet_active b); [|done]. specialize (Hb eq_refl). lia.
Qed.

(** fire_enemy_bullet fires one bullet, from just below a living alien, exactly when an
    alien lives and one of the ten bullets is free; otherwise nothing changes.  The random
    number decides only which alien fires. *)
Theorem fire_enemy_bullet_result {W} `{RandomLaws W} (w : W) es s : (length es <= 18)%nat →
  Forall (λ e, eactive e = true → -100000 <= ex e <= 100000 ∧ -100000 <= ey e <= 100000) es →
  wp (fire_enemy_bullet es) (λ _ p,
    let can := negb (living es =? 0) && existsb (λ b, negb (bullet_active b)) (enemy_bullets s) in
    flying (enemy_bullets p.2) = flying (enemy_bullets s) + (if can then 1 else 0) ∧
    (can = false → p.2 = s) ∧
    (can = true → ∃ e pre b0 post, e ∈ es ∧ eactive e = true ∧ bullet_active b0 = false ∧
       enemy_bullets s = pre ++ b0 :: post ∧
       p.2 = set_enemy_bullets (pre ++ shot_of e :: post) s)) (w, s).
Proof.
  intros Hl Hes. eapply wp_mono; [|by apply fire_enemy_bullet_wp].
  intros _ p [[Hno ->]|(e & l & Hin & Ha & Hf & ->)]; cbv zeta.
  - replace (negb (living es =? 0) && _) with false; [split_and!; [lia|done|done]|].
    symmetry. destruct Hno as [->|Hfull]; [done|]. apply andb_false_iff. right.
    apply not_true_is_false. intros (b & Hb & Hnb)%existsb_exists.
    rewrite List.Forall_forall in Hfull. by rewrite (Hfull b Hb) in Hnb.
  - assert (negb (living es =? 0) = true) as ->.
    { apply negb_true_iff, Z.eqb_neq. unfold living.
      assert (e ∈ filter (λ e, eactive e = true) es) as Hin' by (by apply list_elem_of_filter).
      destruct (filter _ es); [by apply elem_of_nil in Hin'|simpl; lia]. }
    rewrite (fire_first_free (shot_of e)), Hf. simpl. split_and!; [by apply (flying_fire (shot_of e))|done|].
    intros _. pose proof (fire_first_spec (shot_of e) (enemy_bullets s)) as Hs. rewrite Hf in Hs.
    destruct Hs as (pre & b0 & post & Heq & -> & Hfree & _). exists e, pre, b0, post. by split_and!.
Qed.

(** ** Witnesses *)
Module Witness.
Import Sim.

Definition armed : ship := ship_start.
Definition playing : scoring := Scoring 0 0 0 0 true false.

Lemma armed_ok : ship_ok 1152 armed.
Proof. apply ship_start_ok. lia. Qed.

Lemma keys_keep_ship_witness :
  ship_ok 1152 armed ∧
  wp (each_do [KB_A; KB_SPACE; KB_D; KB_SPACE] (λ k, ship_action k 1152)) (λ _ p,
    ship_ok 1152 p.1 ∧ 21 <= ship_x p.1 ∧ ship_x p.1 + 50 <= 1152 ∧
    ship_x p.1 = foldl (λ x k, steer k 1152 x) (ship_x armed) [KB_A; KB_SPACE; KB_D; KB_SPACE] ∧
    bullets_fired p.2 - bullets_fired playing = flying (bullets p.1) - flying (bullets armed) ∧
    bullets_fired playing <= bullets_fired p.2 <= bullets_fired playing + Z.of_nat 4) (armed, playing).
Proof.
  split; [exact armed_ok|].
  apply (keys_keep_ship 1152 [KB_A; KB_SPACE; KB_D; KB_SPACE] armed playing);
    [lia|exact armed_ok|reflexivity|simpl; lia|simpl; lia].
Defined.

Lemma ship_action_result_witness :
  fires KB_SPACE armed = true ∧
  wp (ship_action KB_SPACE 1152) (λ _ p,
    ship_x p.1 = steer KB_SPACE 1152 (ship_x armed) ∧
    flying (bullets p.1) = flying (bullets armed) + (if fires KB_SPACE armed then 1 else 0) ∧
    bullets_fired p.2 = bullets_fired playing + (if fires KB_SPACE armed && game_active playing then 1 else 0) ∧
    (KB_SPACE ≠ KB_SPACE → bullets p.1 = bullets armed ∧ p.2 = playing)) (armed, playing).
Proof.
  split; [reflexivity|].
  apply (ship_action_result KB_SPACE 1152 armed playing); [lia|exact armed_ok|simpl; lia].
Defined.

(** A bullet just fired. *)
Definition shot : ship := set_bullets (MkBullet 373 670 true :: replicate 9 (MkBullet 0 0 false)) ship_start.

Lemma shot_ok : ship_ok 1152 shot.
Proof.
  pose proof (ship_start_ok 1152 ltac:(lia)) as []. split; try done.
  constructor; [simpl; lia|]. by repeat constructor.
Qed.

Lemma bullets_leave_screen_witness :
  bullets (set_bullets (risen 2 <$> bullets shot) shot) !! 0%nat = Some (MkBullet 373 630 true) ∧
  bullets (set_bullets (risen 34 <$> bullets shot) shot) !! 0%nat = Some (MkBullet 373 (-10) false) ∧
  wp (for_do 34 0 (λ _, update_bullets)) (λ _ s',
    s' = set_bullets (risen (Z.of_nat 34) <$> bullets shot) shot ∧
    Forall (λ b, bullet_active b = true →
      0 <= bullet_x b <= 1152 - 27 ∧ 0 <= bullet_y b <= 670 - 20 * Z.of_nat 34) (bullets s') ∧
    ((34 <= 34)%nat → Forall (λ b, bullet_active b = false) (bullets s'))) shot.
Proof.
  split; [reflexivity|]. split; [reflexivity|]. exact (bullets_leave_screen 1152 shot 34 shot_ok).
Defined.

Lemma formation_small :
  Forall (λ e, eactive e = true → -100000 <= ex e <= 100000 ∧ -100000 <= ey e <= 100000) formation.
Proof. repeat constructor; vm_compute; discriminate. Qed.

Lemma fire_enemy_bullet_result_witness :
  (length formation <= 18)%nat ∧
  wp (fire_enemy_bullet formation) (λ _ p,
    let can := negb (living formation =? 0)
               && existsb (λ b, negb (bullet_active b)) (enemy_bullets armed) in
    flying (enemy_bullets p.2) = flying (enemy_bullets armed) + (if can then 1 else 0) ∧
    (can = false → p.2 = armed) ∧
    (can = true → ∃ e pre b0 post, e ∈ formation ∧ eactive e = true ∧ bullet_active b0 = false ∧
       enemy_bullets armed = pre ++ b0 :: post ∧
       p.2 = set_enemy_bullets (pre ++ shot_of e :: post) armed))
    (MkSim [] [] 0 [] [] [77] tiny_mode, armed).
Proof.
  split; [vm_compute; lia|].
  apply (fire_enemy_bullet_result _ formation armed); [vm_compute; lia|exact formation_small].
Defined.
End Witness.
