(* ===== verification/Collision.v ===== *)
(** * game/game_state.c: the collision checks

    The four checks of a frame.  Each compares bounding boxes with int arithmetic.  The
    aliens' bullets are tested with the size of the player's bullets ([BULLET_WIDTH],
    [BULLET_HEIGHT]), not with that of their own sprite. *)

From S2P Require Import Prelude Machine Graphics Enemies Ship.

(** The global [y] of game_state.c is never assigned. *)
Definition ship_y : Z := 700.

(** The test of every check: box [a] against box [b], by their corners and sizes. *)
Definition touches (ax ay aw ah bx by_ bw bh : Z) : bool :=
  (ax <? i32 (bx + bw)) && (i32 (ax + aw) >? bx) && (ay <? i32 (by_ + bh)) && (i32 (ay + ah) >? by_).

Definition bullet_touches_enemy (b : Bullet) (e : Enemy) : bool :=
  touches (bullet_x b) (bullet_y b) BULLET_WIDTH BULLET_HEIGHT (ex e) (ey e) ENEMY_WIDTH ENEMY_HEIGHT.
Definition bullet_touches_ship (b : Bullet) (x : Z) : bool :=
  touches (bullet_x b) (bullet_y b) BULLET_WIDTH BULLET_HEIGHT x ship_y ship_width ship_height.
Definition ship_touches_enemy (x : Z) (e : Enemy) : bool :=
  touches x ship_y ship_width ship_height (ex e) (ey e) ENEMY_WIDTH ENEMY_HEIGHT.
Definition bullet_touches_shield (b : Bullet) (s : Shield) : bool :=
  touches (bullet_x b) (bullet_y b) BULLET_WIDTH BULLET_HEIGHT (shield_x s) (shield_y s)
    SHIELD_WIDTH SHIELD_HEIGHT.

Definition kill (e : Enemy) : Enemy := MkEnemy (ex e) (ey e) false (etype e).

(** ** check_bullet_enemy_collision *)

(** The inner loop, left at the first active alien that [b] touches. *)
Fixpoint hit_enemy (b : Bullet) (es : list Enemy) : option (list Enemy) :=
  match es with
  | [] => None
  | e :: es =>
      if eactive e && bullet_touches_enemy b e then Some (kill e :: es)
      else es' ← hit_enemy b es; Some (e :: es')
  end.

(** The outer loop, left at the first hit. *)
Fixpoint hit_scan (bs : list Bullet) (es : list Enemy) : option (list Bullet * list Enemy) :=
  match bs with
  | [] => None
  | b :: bs =>
      let next := '(bs', es') ← hit_scan bs es; Some (b :: bs', es') in
      if negb (bullet_active b) then next
      else match hit_enemy b es with
           | Some es' => Some (deactivate b :: bs, es')
           | None => next
           end
  end.

Definition check_bullet_enemy_collision : M (ship * fleet) Z := λ '(s, f),
  match hit_scan (bullets s) (enemies f) with
  | Some (bs, es) => Done (1, (set_bullets bs s, set_enemies es f))
  | None => Done (0, (s, f))
  end.

(** ** check_enemy_bullet_collision: the state is the ship and [player_lost] *)

Fixpoint ship_hits (x : Z) (bs : list Bullet) (player_lost : bool) : list Bullet * bool :=
  match bs with
  | [] => ([], player_lost)
  | b :: bs =>
      if bullet_active b && bullet_touches_ship b x
      then let '(bs, l) := ship_hits x bs true in (deactivate b :: bs, l)
      else let '(bs, l) := ship_hits x bs player_lost in (b :: bs, l)
  end.

Definition check_enemy_bullet_collision : M (ship * bool) unit := λ '(s, player_lost),
  let '(bs, l) := ship_hits (ship_x s) (enemy_bullets s) player_lost in
  Done (tt, (set_enemy_bullets bs s, l)).

(** ** check_ship_alien_collision *)

Fixpoint alien_hits (x : Z) (es : list Enemy) (player_lost : bool) : bool :=
  match es with
  | [] => player_lost
  | e :: es => if eactive e && ship_touches_enemy x e then true else alien_hits x es player_lost
  end.

Definition check_ship_alien_collision (x : Z) (es : list Enemy) : M bool unit :=
  modify (alien_hits x es).

(** ** check_shield_collision *)

(** The change of a shield's state when a bullet hits it. *)
Definition decay (st : ShieldState) : ShieldState :=
  match st with
  | SHIELD_FULL => SHIELD_BROKEN
  | SHIELD_BROKEN => SHIELD_NONE
  | SHIELD_NONE => SHIELD_NONE
  end.

(** The inner loop: the state of the shield is not tested again after a hit. *)
Fixpoint shield_hits (s : Shield) (bs : list Bullet) : Shield * list Bullet :=
  match bs with
  | [] => (s, [])
  | b :: bs =>
      if bullet_active b && bullet_touches_shield b s
      then let '(s, bs) := shield_hits (MkShield (shield_x s) (shield_y s) (decay (shield_state s))) bs in
           (s, deactivate b :: bs)
      else let '(s, bs) := shield_hits s bs in (s, b :: bs)
  end.

Fixpoint shields_hits (ss : list Shield) (bs : list Bullet) : list Shield * list Bullet :=
  match ss with
  | [] => ([], bs)
  | s :: ss =>
      if bool_decide (shield_state s = SHIELD_NONE)
      then let '(ss, bs) := shields_hits ss bs in (s :: ss, bs)
      else let '(s, bs) := shield_hits s bs in
           let '(ss, bs) := shields_hits ss bs in (s :: ss, bs)
  end.

Definition check_shield_collision : M ship unit :=
  modify (λ s, let '(ss, bs) := shields_hits (shields s) (enemy_bullets s) in
               set_enemy_bullets bs (set_shields ss s)).

(** ** A bullet hits an alien *)

(** The alien that [b] hits is the first active one it touches. *)
Definition first_touched (b : Bullet) (pre : list Enemy) (e : Enemy) : Prop :=
  eactive e = true ∧ bullet_touches_enemy b e = true ∧
  ∀ e', e' ∈ pre → eactive e' = true → bullet_touches_enemy b e' = false.

(** No active bullet of [bs] touches an active alien of [es]. *)
Definition no_hit (bs : list Bullet) (es : list Enemy) : Prop :=
  ∀ b e, b ∈ bs → e ∈ es → bullet_active b = true → eactive e = true →
    bullet_touches_enemy b e = false.

Lemma no_hit_cons b bs es : no_hit bs es →
  (bullet_active b = true → ∀ e, e ∈ es → eactive e = true → bullet_touches_enemy b e = false) →
  no_hit (b :: bs) es.
Proof. intros Hn Hb b' e [->|Hin]%elem_of_cons He Ha; [by apply Hb|by apply Hn]. Qed.

Lemma hit_enemy_spec b es :
  match hit_enemy b es with
  | Some es' => ∃ pre e post, es = pre ++ e :: post ∧ es' = pre ++ kill e :: post ∧
                  first_touched b pre e
  | None => ∀ e, e ∈ es → eactive e = true → bullet_touches_enemy b e = false
  end.
Proof.
  induction es as [|e es IH]; simpl; [by intros e He%elem_of_nil|].
  destruct (eactive e && bullet_touches_enemy b e) eqn:E.
  - apply andb_true_iff in E as [Ha Ht]. exists [], e, es. unfold first_touched.
    split_and!; try done. by intros e' He'%elem_of_nil.
  - assert (eactive e = true → bullet_touches_enemy b e = false) as Hno by (intros Ha; by rewrite Ha in E).
    destruct (hit_enemy b es) as [es'|]; simpl.
    + destruct IH as (pre & e0 & post & -> & -> & ? & ? & Hpre). exists (e :: pre), e0, post.
      unfold first_touched. split_and!; try done. intros e' [->|Hin]%elem_of_cons; [done|by apply Hpre].
    + intros e' [->|Hin]%elem_of_cons Ha; [by apply Hno|by apply IH].
Qed.

Lemma hit_scan_spec bs es :
  match hit_scan bs es with
  | Some (bs', es') =>
      ∃ pre b post pre' e post', bs = pre ++ b :: post ∧ bs' = pre ++ deactivate b :: post ∧
        es = pre' ++ e :: post' ∧ es' = pre' ++ kill e :: post' ∧
        bullet_active b = true ∧ first_touched b pre' e ∧ no_hit pre es
  | None => no_hit bs es
  end.
Proof.
  induction bs as [|b bs IH]; simpl; [intros b e Hb; by apply elem_of_nil in Hb|].
  pose proof (hit_enemy_spec b es) as Hh.
  destruct (bullet_active b) eqn:Ea; simpl; [destruct (hit_enemy b es) as [es'|]|].
  - destruct Hh as (pre' & e & post' & -> & -> & ?). exists [], b, bs, pre', e, post'.
    split_and!; try done. intros b' e' Hb'. by apply elem_of_nil in Hb'.
  - destruct (hit_scan bs es) as [[bs' es']|]; simpl; [|by apply no_hit_cons].
    destruct IH as (pre & b0 & post & pre' & e & post' & -> & -> & ? & ? & ? & ? & ?).
    exists (b :: pre), b0, post, pre', e, post'. split_and!; try done. by apply no_hit_cons.
  - destruct (hit_scan bs es) as [[bs' es']|]; simpl; [|apply no_hit_cons; [done|congruence]].
    destruct IH as (pre & b0 & post & pre' & e & post' & -> & -> & ? & ? & ? & ? & ?).
    exists (b :: pre), b0, post, pre', e, post'. split_and!; try done. apply no_hit_cons; [done|congruence].
Qed.

Lemma living_app es es' : living (es ++ es') = living es + living es'.
Proof. unfold living. rewrite list.filter_app, length_app. lia. Qed.

Lemma living_kill pre e post : eactive e = true →
  living (pre ++ kill e :: post) = living (pre ++ e :: post) - 1.
Proof. intros Ha. rewrite !living_app, !living_cons, Ha. simpl. lia. Qed.

Lemma flying_app bs bs' : flying (bs ++ bs') = flying bs + flying bs'.
Proof. unfold flying. rewrite list.filter_app, length_app. lia. Qed.

Lemma flying_cons b bs : flying (b :: bs) = (if bullet_active b then 1 else 0) + flying bs.
Proof.
  unfold flying. rewrite filter_cons. destruct (bullet_active b) eqn:E.
  - rewrite decide_True by done. simpl. lia.
  - by rewrite decide_False by done.
Qed.

(** The formation without the alien that was hit. *)
Definition without (g : grid) (es : list Enemy) : grid :=
  Grid (ox g) (oy g) (dir g) (drop g) (eactive <$> es).

Lemma kill_represents g f pre e post xres : represents g f → grid_ok xres g →
  enemies f = pre ++ e :: post →
  let es := pre ++ kill e :: post in
  represents (without g es) (set_enemies es f) ∧ grid_ok xres (without g es).
Proof.
  intros Hr Hg He es. unfold es.
  assert (∀ k e', (pre ++ kill e :: post) !! k = Some e' →
    ∃ e0, enemies f !! k = Some e0 ∧ ex e' = ex e0 ∧ ey e' = ey e0 ∧ etype e' = etype e0 ∧
          (eactive e' = true → eactive e0 = true)) as Hk.
  { intros k e' Hk. rewrite He. rewrite lookup_app in Hk |- *.
    destruct (pre !! k) eqn:Ep; [simplify_eq; by exists e'|].
    destruct (k - length pre)%nat as [|n]; simpl in *; [simplify_eq; by exists e|by exists e']. }
  split.
  - destruct Hr. split; simpl; try done.
    + rewrite <- rep_length, He, !length_app. done.
    + intros k e' Hk'. destruct (Hk k e' Hk') as (e0 & He0 & _ & _ & -> & _). eauto.
    + intros k e' Hk' Ha. destruct (Hk k e' Hk') as (e0 & He0 & -> & -> & _ & Ha0). eauto.
  - destruct Hg as [H1 H2 H3 H4]. split; simpl; try done. intros k Hlt Ha. apply H4; [done|].
    unfold alive_at in Ha. simpl in Ha. rewrite list_lookup_fmap in Ha.
    destruct ((pre ++ kill e :: post) !! k) as [e'|] eqn:Ek; [|done].
    destruct (Hk k e' Ek) as (e0 & He0 & _ & _ & _ & Ha0). simpl in Ha.
    rewrite (alive_lookup _ _ _ _ Hr He0). auto.
Qed.

(** ** The ship is hit *)

Lemma ship_hits_spec x bs : ∀ lost,
  ship_hits x bs lost =
    ((λ b, if bullet_active b && bullet_touches_ship b x then deactivate b else b) <$> bs,
     lost || existsb (λ b, bullet_active b && bullet_touches_ship b x) bs).
Proof.
  induction bs as [|b bs IH]; intros lost; simpl; [by rewrite orb_false_r|].
  destruct (bullet_active b && bullet_touches_ship b x); rewrite IH; [|done].
  by rewrite orb_true_r.
Qed.

Lemma alien_hits_spec x es lost :
  alien_hits x es lost = lost || existsb (λ e, eactive e && ship_touches_enemy x e) es.
Proof.
  induction es as [|e es IH]; simpl; [by rewrite orb_false_r|].
  destruct (eactive e && ship_touches_enemy x e); [by rewrite orb_true_r|done].
Qed.

(** ** A shield is hit *)

(** [n] hits. *)
Definition worn (n : nat) (s : Shield) : Shield :=
  MkShield (shield_x s) (shield_y s) (Nat.iter n decay (shield_state s)).

(** Bullets of the second list are those of the first, some of them gone. *)
Definition spent (b b' : Bullet) : Prop := b' = b ∨ bullet_active b = true ∧ b' = deactivate b.

Lemma spent_refl bs : Forall2 spent bs bs.
Proof. induction bs; constructor; [by left|done]. Qed.

Lemma spent_trans bs bs' bs'' : Forall2 spent bs bs' → Forall2 spent bs' bs'' → Forall2 spent bs bs''.
Proof.
  intros H1. revert bs''. induction H1 as [|b b' bs bs' Hb Hbs IH]; intros bs'' H2;
    inversion H2 as [|? b'' ? bs2 Hb2 Hbs2]; subst; constructor; [|by apply IH].
  destruct Hb as [->|[Ha ->]], Hb2 as [->|[Ha2 ->]]; unfold spent; auto.
Qed.

(** The hits of one shield by the bullets [bs]: the active ones that touch it, if it stands. *)
Definition standing (s : Shield) : bool := negb (bool_decide (shield_state s = SHIELD_NONE)).
Definition touching (s : Shield) (bs : list Bullet) : nat :=
  length (List.filter (λ b, bullet_active b && bullet_touches_shield b s) bs).
Definition takes (s : Shield) (bs : list Bullet) : nat := if standing s then touching s bs else 0%nat.

(** The bullets after the check: those that touched a standing shield are gone. *)
Definition absorbed (ss : list Shield) (b : Bullet) : Bullet :=
  if bullet_active b && existsb (λ s, standing s && bullet_touches_shield b s) ss
  then deactivate b else b.

(** The hits of every shield: of the bullets the shields before it left. *)
Definition hit_counts (ss : list Shield) (bs : list Bullet) : list nat :=
  imap (λ i s, takes s (absorbed (take i ss) <$> bs)) ss.

Lemma absorbed_nil (bs : list Bullet) : absorbed [] <$> bs = bs.
Proof.
  rewrite <- (list_fmap_id bs) at 2. apply list_fmap_ext. intros _ b _. unfold absorbed. simpl.
  by rewrite andb_false_r.
Qed.

Lemma absorbed_cons s ss (bs : list Bullet) : absorbed (s :: ss) <$> bs = absorbed ss <$> (absorbed [s] <$> bs).
Proof.
  rewrite <- list_fmap_compose. apply list_fmap_ext. intros _ b _. unfold compose, absorbed. simpl.
  rewrite orb_false_r. destruct (bullet_active b) eqn:Ea; simpl; [|by rewrite Ea].
  destruct (standing s && bullet_touches_shield b s); simpl; by rewrite ?Ea.
Qed.

Lemma hit_counts_cons s ss bs :
  hit_counts (s :: ss) bs = takes s bs :: hit_counts ss (absorbed [s] <$> bs).
Proof.
  unfold hit_counts. rewrite imap_cons. simpl. rewrite absorbed_nil. f_equal.
  apply imap_ext. intros i s' _. simpl. by rewrite absorbed_cons.
Qed.

Lemma hit_counts_lookup ss bs i s : ss !! i = Some s →
  hit_counts ss bs !! i = Some (takes s (absorbed (take i ss) <$> bs)).
Proof. intros Hs. unfold hit_counts. by rewrite list_lookup_imap, Hs. Qed.

(** A shield's own bullets, whatever its state: the inner loop. *)
Lemma shield_hits_spec bs : ∀ s,
  shield_hits s bs = (worn (touching s bs) s,
    (λ b, if bullet_active b && bullet_touches_shield b s then deactivate b else b) <$> bs).
Proof.
  induction bs as [|b bs IH]; intros s; simpl; [by destruct s|]. unfold touching. simpl.
  destruct (bullet_active b && bullet_touches_shield b s); rewrite IH; [|done].
  unfold worn. cbn [shield_x shield_y shield_state]. simpl length. by rewrite Nat.iter_succ_r.
Qed.

Lemma touching_flying s bs :
  flying ((λ b, if bullet_active b && bullet_touches_shield b s then deactivate b else b) <$> bs) =
  flying bs - Z.of_nat (touching s bs).
Proof.
  induction bs as [|b bs IH]; [done|]. rewrite fmap_cons, !flying_cons, IH. unfold touching. cbn [List.filter].
  destruct (bullet_active b) eqn:Ea; simpl; [|rewrite Ea; lia].
  destruct (bullet_touches_shield b s); simpl; rewrite ?Ea; lia.
Qed.

Lemma worn_none n s : shield_state s = SHIELD_NONE → worn n s = s.
Proof.
  intros Hs. unfold worn. replace (Nat.iter n decay (shield_state s)) with (shield_state s); [by destruct s|].
  rewrite Hs. induction n as [|n IH]; [done|]. rewrite Nat.iter_succ. by rewrite <- IH.
Qed.

(** One shield, standing or not. *)
Lemma shields_hits_cons s ss bs :
  shields_hits (s :: ss) bs =
    (worn (takes s bs) s :: (shields_hits ss (absorbed [s] <$> bs)).1,
     (shields_hits ss (absorbed [s] <$> bs)).2).
Proof.
  assert ((λ b, if bullet_active b && standing s && bullet_touches_shield b s then deactivate b else b) <$> bs
          = absorbed [s] <$> bs) as Ha.
  { apply list_fmap_ext. intros _ b _. unfold absorbed. simpl. by rewrite orb_false_r, andb_assoc. }
  simpl. rewrite <- Ha. unfold takes, standing.
  destruct (bool_decide_reflect (shield_state s = SHIELD_NONE)) as [Hn|Hn]; simpl.
  - rewrite worn_none by done.
    replace ((λ b, if bullet_active b && false && bullet_touches_shield b s then deactivate b else b) <$> bs)
      with bs; [by destruct (shields_hits ss bs)|].
    rewrite <- (list_fmap_id bs) at 1. apply list_fmap_ext. intros _ b _. by rewrite andb_false_r.
  - rewrite shield_hits_spec.
    replace ((λ b, if bullet_active b && true && bullet_touches_shield b s then deactivate b else b) <$> bs)
      with ((λ b, if bullet_active b && bullet_touches_shield b s then deactivate b else b) <$> bs);
      [by destruct (shields_hits ss _)|].
    apply list_fmap_ext. intros _ b _. by rewrite andb_true_r.
Qed.

Lemma shields_hits_spec ss : ∀ bs,
  shields_hits ss bs = (zip_with worn (hit_counts ss bs) ss, absorbed ss <$> bs).
Proof.
  induction ss as [|s ss IH]; intros bs; [by rewrite absorbed_nil|].
  rewrite shields_hits_cons, IH, hit_counts_cons, (absorbed_cons s ss). done.
Qed.

Lemma absorbed_flying s bs : flying (absorbed [s] <$> bs) = flying bs - Z.of_nat (takes s bs).
Proof.
  unfold takes, absorbed. destruct (standing s) eqn:Es.
  - rewrite <- touching_flying. f_equal. apply list_fmap_ext. intros _ b _. simpl.
    by rewrite Es, orb_false_r.
  - rewrite Z.sub_0_r. f_equal. rewrite <- (list_fmap_id bs) at 2. apply list_fmap_ext. intros _ b _.
    simpl. by rewrite Es, andb_false_r.
Qed.

Lemma hit_counts_flying ss : ∀ bs,
  flying (absorbed ss <$> bs) = flying bs - Z.of_nat (sum_list (hit_counts ss bs)).
Proof.
  induction ss as [|s ss IH]; intros bs; [rewrite absorbed_nil; simpl; lia|].
  rewrite absorbed_cons, IH, hit_counts_cons, absorbed_flying. simpl. lia.
Qed.

Lemma absorbed_spent ss (bs : list Bullet) : Forall2 spent bs (absorbed ss <$> bs).
Proof.
  induction bs as [|b bs IH]; simpl; constructor; [|done]. unfold absorbed.
  destruct (bullet_active b) eqn:Ea; simpl; [|by left].
  destruct (existsb _ ss); [by right|by left].
Qed.

(** ** The checks keep the invariant of the ship *)

Lemma spent_forall (P : Bullet → Prop) bs bs' :
  Forall2 spent bs bs' → Forall (λ b, bullet_active b = true → P b) bs →
  Forall (λ b, bullet_active b = true → P b) bs'.
Proof.
  induction 1 as [|b b' bs bs' Hb _ IH]; intros Hf; [constructor|].
  inversion Hf; subst. constructor; [|by apply IH]. by destruct Hb as [->|[_ ->]].
Qed.

Lemma ship_ok_spent xres s bs : ship_ok xres s → Forall2 spent (enemy_bullets s) bs →
  ship_ok xres (set_enemy_bullets bs s).
Proof.
  intros [] Hs. split; simpl; try done.
  - by rewrite <- (Forall2_length Hs).
  - by eapply spent_forall.
Qed.

Lemma ship_ok_hit xres s pre b post : ship_ok xres s → bullets s = pre ++ b :: post →
  ship_ok xres (set_bullets (pre ++ deactivate b :: post) s).
Proof.
  intros [Hx Hl1 Hl2 Hl3 Hin1 Hin2] Hb. rewrite Hb in Hl1, Hin1. split; simpl; try done.
  - rewrite <- Hl1, !length_app. done.
  - apply list.Forall_app in Hin1 as [? Hp]. apply list.Forall_app. split; [done|].
    inversion Hp; subst. by constructor.
Qed.

Lemma ship_hits_spent x bs :
  Forall2 spent bs ((λ b, if bullet_active b && bullet_touches_ship b x then deactivate b else b) <$> bs).
Proof.
  induction bs as [|b bs IH]; simpl; constructor; [|done].
  destruct (bullet_active b && bullet_touches_ship b x) eqn:E; [right|by left].
  by apply andb_true_iff in E as [? _].
Qed.

(** ** Properties *)

(** C20. check_bullet_enemy_collision reports a hit exactly when an active bullet touches an
    active alien.  Then the first such bullet in array order and the first active alien it
    touches are deactivated, and nothing else changes: every other bullet and every other alien
    is as before, one alien fewer lives, one bullet fewer flies, and the formation is the same
    without that alien.  Without a hit nothing changes. *)
Theorem check_bullet_enemy_collision_result xres g s f : represents g f → grid_ok xres g →
  wp check_bullet_enemy_collision (λ rc p,
    (rc = 1 ↔ ∃ b e, b ∈ bullets s ∧ e ∈ enemies f ∧ bullet_active b = true ∧
                eactive e = true ∧ bullet_touches_enemy b e = true) ∧
    if rc =? 1
    then (∃ pre b post pre' e post',
            bullets s = pre ++ b :: post ∧ enemies f = pre' ++ e :: post' ∧
            bullet_active b = true ∧ first_touched b pre' e ∧ no_hit pre (enemies f) ∧
            p = (set_bullets (pre ++ deactivate b :: post) s,
                 set_enemies (pre' ++ kill e :: post') f)) ∧
         flying (bullets p.1) = flying (bullets s) - 1 ∧
         living (enemies p.2) = living (enemies f) - 1 ∧
         represents (without g (enemies p.2)) p.2 ∧ grid_ok xres (without g (enemies p.2))
    else rc = 0 ∧ p = (s, f)) (s, f).
Proof.
  intros Hr Hg. unfold wp, check_bullet_enemy_collision.
  pose proof (hit_scan_spec (bullets s) (enemies f)) as Hs.
  destruct (hit_scan (bullets s) (enemies f)) as [[bs es]|].
  - destruct Hs as (pre & b & post & pre' & e & post' & Hb & -> & He & -> & Hba & Hft & Hno).
    pose proof Hft as (Hea & Ht & _). split.
    + split; [intros _|done]. exists b, e. rewrite Hb, He. split_and!; try done; apply elem_of_app; right; left.
    + split; [by exists pre, b, post, pre', e, post'|].
      simpl. rewrite Hb, He, !flying_app, !flying_cons, Hba, (living_kill _ _ _ Hea). simpl.
      split; [lia|]. split; [done|]. by apply (kill_represents g f pre' e post' xres).
  - split; [|done]. split; [done|]. intros (b & e & Hb & He & Hba & Hea & Ht).
    by rewrite (Hs b e) in Ht.
Qed.

(** C21. The two checks of the ship: exactly the active alien bullets that touch it are spent,
    every other bullet is as before; the player has lost afterwards exactly when he had already
    lost, an active alien bullet touched the ship, or an active alien touched it; the ship is
    otherwise unchanged. *)
Theorem ship_checks_result s es lost :
  wp (check_enemy_bullet_collision;;
      zoom snd (λ l p, (p.1, l)) (check_ship_alien_collision (ship_x s) es)) (λ _ p,
    let hits b := bullet_active b && bullet_touches_ship b (ship_x s) in
    p.1 = set_enemy_bullets ((λ b, if hits b then deactivate b else b) <$> enemy_bullets s) s ∧
    p.2 = lost || existsb hits (enemy_bullets s)
               || existsb (λ e, eactive e && ship_touches_enemy (ship_x s) e) es ∧
    (∀ b, b ∈ enemy_bullets p.1 → bullet_active b = true → bullet_touches_ship b (ship_x s) = false))
    (s, lost).
Proof.
  apply wp_bind. unfold wp at 1, check_enemy_bullet_collision. rewrite ship_hits_spec. simpl.
  apply wp_zoom, wp_modify. simpl. rewrite alien_hits_spec. split_and!; try done.
  intros b' (b & -> & Hb)%list_elem_of_fmap Ha.
  destruct (bullet_active b && bullet_touches_ship b (ship_x s)) eqn:E; [done|].
  by rewrite Ha in E.
Qed.

(** C22. check_shield_collision: the aliens' bullets that touch a shield still standing at the
    start of the check are spent, and no others.  Every shield goes from full to broken to
    destroyed, one step for each active bullet that touches it among those the shields before
    it in the array left; a destroyed shield takes none.  As many bullets are spent as steps
    are taken, and nothing else of the ship changes. *)
Theorem check_shield_collision_result s :
  wp check_shield_collision (λ _ s',
    s' = set_enemy_bullets (absorbed (shields s) <$> enemy_bullets s) (set_shields (shields s') s) ∧
    length (shields s') = length (shields s) ∧
    (∀ i sh, shields s !! i = Some sh →
       shields s' !! i =
         Some (worn (takes sh (absorbed (take i (shields s)) <$> enemy_bullets s)) sh)) ∧
    flying (enemy_bullets s') =
      flying (enemy_bullets s) - Z.of_nat (sum_list (hit_counts (shields s) (enemy_bullets s)))) s.
Proof.
  apply wp_modify. rewrite shields_hits_spec. simpl. split_and!; [done| | |apply hit_counts_flying].
  - rewrite length_zip_with. unfold hit_counts. rewrite length_imap. lia.
  - intros i sh Hsh. by rewrite lookup_zip_with, (hit_counts_lookup _ _ _ _ Hsh), Hsh.
Qed.

(** The aliens' bullets hit the ship before their 5 by 17 pixel sprite reaches it: there is
    a bullet whose sprite is entirely left of the ship and that the check still counts, because
    it uses the 8 by 30 box of the player's bullets. *)
Theorem enemy_bullet_box_too_large x : 8 <= x <= 1102 →
  ∃ b, bullet_x b + ENEMY_BULLET_WIDTH <= x ∧ bullet_touches_ship b x = true.
Proof.
  intros Hx. exists (MkBullet (x - 7) 700 true). unfold ENEMY_BULLET_WIDTH, bullet_touches_ship, touches. simpl.
  split; [lia|]. unfold BULLET_WIDTH, BULLET_HEIGHT, ship_width, ship_height, ship_y.
  rewrite !i32_small by lia. rewrite !andb_true_iff. lia.
Qed.

(** ** Witnesses *)
Module Witness.
Import Enemies.Witness.

Definition shooter : ship := set_bullets [MkBullet 110 60 true] ship_start.

Lemma check_bullet_enemy_collision_result_witness :
  bullet_touches_enemy (MkBullet 110 60 true) (MkEnemy 100 50 true 0) = true ∧
  wp check_bullet_enemy_collision (λ rc p,
    (rc = 1 ↔ ∃ b e, b ∈ bullets shooter ∧ e ∈ enemies fleet0 ∧ bullet_active b = true ∧
                eactive e = true ∧ bullet_touches_enemy b e = true) ∧
    if rc =? 1
    then (∃ pre b post pre' e post',
            bullets shooter = pre ++ b :: post ∧ enemies fleet0 = pre' ++ e :: post' ∧
            bullet_active b = true ∧ first_touched b pre' e ∧ no_hit pre (enemies fleet0) ∧
            p = (set_bullets (pre ++ deactivate b :: post) shooter,
                 set_enemies (pre' ++ kill e :: post') fleet0)) ∧
         flying (bullets p.1) = flying (bullets shooter) - 1 ∧
         living (enemies p.2) = living (enemies fleet0) - 1 ∧
         represents (without grid0 (enemies p.2)) p.2 ∧ grid_ok 1152 (without grid0 (enemies p.2))
    else rc = 0 ∧ p = (shooter, fleet0)) (shooter, fleet0).
Proof.
  split; [reflexivity|].
  exact (check_bullet_enemy_collision_result 1152 grid0 shooter fleet0 fleet0_represents grid0_ok).
Defined.

Lemma enemy_bullet_box_too_large_witness :
  8 <= 350 <= 1102 ∧
  ∃ b, bullet_x b + ENEMY_BULLET_WIDTH <= 350 ∧ bullet_touches_ship b 350 = true.
Proof. split; [lia|]. apply (enemy_bullet_box_too_large 350). lia. Defined.
End Witness.
