(* ===== verification/Menu.v ===== *)
(** * game/menu/menu.c: the menu

    State: the statics [current_state], [current_option] and [option_selected].  The scancode
    is an argument; rendering runs on the menu and the graphics state.

    [reachable] is the transition relation of the menu under keys and rendered frames; the
    theorems give its complete table and what a rendered frame does. *)

From S2P Require Import Prelude Machine Xpm SpritesMenu Sprites Graphics Keyboard Text Score.
Import (notations) String.

Inductive MenuState :=
| MENU_MAIN | MENU_START | MENU_SCORES | MENU_GAME_OVER | MENU_QUIT | MENU_EXIT.
Inductive MenuOption :=
| MENU_OPTION_START | MENU_OPTION_SCORES | MENU_OPTION_QUIT | MENU_OPTION_NONE.

#[export] Instance MenuState_eq_dec : EqDecision MenuState.
Proof. solve_decision. Defined.
#[export] Instance MenuOption_eq_dec : EqDecision MenuOption.
Proof. solve_decision. Defined.

Record menu := Menu {
  current_state : MenuState;
  current_option : MenuOption;
  option_selected : bool;
}.

(** The static initialisers. *)
Definition menu_start : menu := Menu MENU_MAIN MENU_OPTION_START false.

Definition menu_init : M menu unit := modify (λ _, Menu MENU_MAIN MENU_OPTION_START false).

(** The enum's order: [current_option > MENU_OPTION_START], [current_option--] and so on. *)
Definition option_number (o : MenuOption) : Z :=
  match o with
  | MENU_OPTION_START => 0 | MENU_OPTION_SCORES => 1 | MENU_OPTION_QUIT => 2 | MENU_OPTION_NONE => 3
  end.
Definition option_pred (o : MenuOption) : MenuOption :=
  match o with
  | MENU_OPTION_NONE => MENU_OPTION_QUIT
  | MENU_OPTION_QUIT => MENU_OPTION_SCORES
  | _ => MENU_OPTION_START
  end.
Definition option_succ (o : MenuOption) : MenuOption :=
  match o with
  | MENU_OPTION_START => MENU_OPTION_SCORES
  | MENU_OPTION_SCORES => MENU_OPTION_QUIT
  | _ => MENU_OPTION_NONE
  end.

Definition set_state (s : MenuState) (m : menu) : menu := Menu s (current_option m) (option_selected m).
Definition set_option (o : MenuOption) (m : menu) : menu := Menu (current_state m) o (option_selected m).
Definition set_selected (b : bool) (m : menu) : menu := Menu (current_state m) (current_option m) b.

Definition menu_handle_input (scancode : Z) : M menu unit :=
  m ← gets id;
  match current_state m with
  | MENU_MAIN =>
      if scancode =? KB_UP_ARROW then
        if option_number (current_option m) >? option_number MENU_OPTION_START
        then modify (set_option (option_pred (current_option m))) else skip
      else if scancode =? KB_DOWN_ARROW then
        if option_number (current_option m) <? option_number MENU_OPTION_QUIT
        then modify (set_option (option_succ (current_option m))) else skip
      else if scancode =? KB_ENTER then
        modify (set_selected true);;
        match current_option m with
        | MENU_OPTION_START => modify (set_state MENU_START)
        | MENU_OPTION_SCORES => modify (set_state MENU_SCORES)
        | MENU_OPTION_QUIT => modify (set_state MENU_QUIT)
        | MENU_OPTION_NONE => skip
        end
      else skip
  | MENU_GAME_OVER =>
      if (scancode =? KB_ENTER) || (scancode =? KB_BREAK_ESC)
      then modify (set_state MENU_MAIN);; modify (set_selected false) else skip
  | _ =>
      if scancode =? KB_BREAK_ESC
      then modify (set_state MENU_MAIN);; modify (set_selected false) else skip
  end.

Definition menu_get_state : M menu MenuState := gets current_state.
Definition menu_set_state (s : MenuState) : M menu unit :=
  modify (set_state s);; modify (set_selected false).

Section rendering.
Context `{XpmLoader}.

(** A sprite whose result is ignored, at ints converted to uint16_t. *)
Definition put (m : xpm_map) (x y : Z) : M gfx unit := print_xpm m (u16 x) (u16 y);; skip.

Definition draw_options (o : MenuOption) (options_x options_start_y option_spacing : Z) : M gfx unit :=
  let second := i32 (options_start_y + option_spacing) in
  let third := i32 (options_start_y + i32 (option_spacing * 2)) in
  match o with
  | MENU_OPTION_START =>
      put Options.start1 options_x options_start_y;;
      put Options.scores2 options_x second;;
      put Options.quit2 options_x third
  | MENU_OPTION_SCORES =>
      put Options.start2 options_x options_start_y;;
      put Options.scores1 options_x second;;
      put Options.quit2 options_x third
  | MENU_OPTION_QUIT =>
      put Options.start2 options_x options_start_y;;
      put Options.scores2 options_x second;;
      put Options.quit1 options_x third
  | MENU_OPTION_NONE => skip
  end.

Definition menu_render : M (menu * gfx) unit :=
  let on_gfx := λ A (m : M gfx A), zoom snd (λ g p, (p.1, g)) m in
  on_gfx _ (clear_back_buf 0x000000);;
  mi ← gets (mode_info ∘ snd);
  m ← gets fst;
  let screen_width := XResolution mi in
  let screen_height := YResolution mi in
  let title_width := 400 in
  let title_height := 200 in
  let option_width := 145 in
  let option_height := 51 in
  match current_state m with
  | MENU_MAIN =>
      let title_x := u16 (idiv (screen_width - title_width) 2) in
      let title_y := u16 (idiv screen_height 4) in
      on_gfx _ (put Title.title title_x title_y);;
      let options_x := u16 (idiv (screen_width - option_width) 2) in
      let options_start_y := u16 (title_y + title_height + 50) in
      let option_spacing := u16 (option_height + 20) in
      on_gfx _ (draw_options (current_option m) options_x options_start_y option_spacing)
  | MENU_GAME_OVER =>
      let center_x := u16 (idiv screen_width 2) in
      let center_y := u16 (idiv screen_height 2) in
      on_gfx _ (draw_text_centered (codes "YOU LOST") center_x (center_y - 50));;
      on_gfx _ (draw_text_centered (codes "PRESS ENTER OR ESC TO CONTINUE") center_x (center_y + 50))
  | MENU_QUIT => modify (λ p, (set_state MENU_EXIT p.1, p.2))
  | _ => skip
  end;;
  on_gfx _ swap_buffers.
End rendering.

(** ** The options *)

(** [MENU_OPTION_NONE] is never current. *)
Definition menu_ok (m : menu) : Prop := current_option m ≠ MENU_OPTION_NONE.

(** The state after a key, and the current option after a key. *)
Definition next_state (scancode : Z) (m : menu) : MenuState :=
  match current_state m with
  | MENU_MAIN =>
      if scancode =? KB_ENTER then
        match current_option m with
        | MENU_OPTION_START => MENU_START
        | MENU_OPTION_SCORES => MENU_SCORES
        | MENU_OPTION_QUIT => MENU_QUIT
        | MENU_OPTION_NONE => MENU_MAIN
        end
      else MENU_MAIN
  | MENU_GAME_OVER =>
      if (scancode =? KB_ENTER) || (scancode =? KB_BREAK_ESC) then MENU_MAIN else MENU_GAME_OVER
  | s => if scancode =? KB_BREAK_ESC then MENU_MAIN else s
  end.

(** Up and down move a cursor over the three options, without wrapping around. *)
Definition next_option (scancode : Z) (m : menu) : Z :=
  let n := option_number (current_option m) in
  match current_state m with
  | MENU_MAIN =>
      if scancode =? KB_UP_ARROW then Z.max 0 (n - 1)
      else if scancode =? KB_DOWN_ARROW then Z.min 2 (n + 1)
      else n
  | _ => n
  end.

Lemma menu_handle_input_wp k m : menu_ok m →
  wp (menu_handle_input k) (λ _ m', menu_ok m' ∧ current_state m' = next_state k m ∧
    option_number (current_option m') = next_option k m) m.
Proof.
  unfold menu_ok. intros Hm. unfold wp, menu_handle_input, next_state, next_option.
  assert ((KB_UP_ARROW =? KB_ENTER) = false ∧ (KB_DOWN_ARROW =? KB_ENTER) = false) as [E1 E2] by done.
  destruct m as [s o b]. cbn in Hm. run_unfold. cbn [current_state id].
  destruct s; cbn [current_state current_option].
  - destruct (k =? KB_UP_ARROW) eqn:Eu.
    { apply Z.eqb_eq in Eu as ->. rewrite E1. by destruct o. }
    destruct (k =? KB_DOWN_ARROW) eqn:Ed.
    { apply Z.eqb_eq in Ed as ->. rewrite E2. by destruct o. }
    destruct (k =? KB_ENTER) eqn:Ee; by destruct o.
  - by destruct (k =? KB_BREAK_ESC).
  - by destruct (k =? KB_BREAK_ESC).
  - by destruct ((k =? KB_ENTER) || (k =? KB_BREAK_ESC)).
  - by destruct (k =? KB_BREAK_ESC).
  - by destruct (k =? KB_BREAK_ESC).
Qed.

(** ** Rendering *)
Section rendering_lemmas.
Context `{XpmLoaderLaws}.

Lemma put_draws m w h x y g : gfx_ok g → xpm_dims m = Some (w, h) →
  wp (put m x y) (λ _ g', redrawn g g' ∧
    (0 <= x → x + w <= hres g → 0 <= y → y + h <= vres g →
     paints g g' (area x y w h (sprite_color m)))) g.
Proof.
  intros Hg Hd. unfold put. pose proof (u16_range x). pose proof (u16_range y).
  apply wp_bind. eapply wp_mono; [|by apply (print_xpm_draws g m w h)].
  intros rc g' Hdr. apply wp_ret. split; [by eapply draws_redrawn|]. intros ????.
  pose proof (ok_x g Hg). pose proof (ok_y g Hg). pose proof (xpm_dims_range _ _ _ Hd).
  rewrite !u16_small in Hdr by lia. unfold draws in Hdr.
  replace (_ && _) with true in Hdr by lia. by destruct Hdr.
Qed.

Lemma put_safe m w h x y g : gfx_ok g → xpm_dims m = Some (w, h) →
  wp (put m x y) (λ _, redrawn g) g.
Proof. intros. eapply wp_mono; [|by apply (put_draws m w h)]. by intros [] g' [? _]. Qed.

(** The three buttons of an option, from the top. *)
Definition buttons (o : MenuOption) : list (xpm_map * Z) :=
  match o with
  | MENU_OPTION_START => [(Options.start1, 163); (Options.scores2, 193); (Options.quit2, 145)]
  | MENU_OPTION_SCORES => [(Options.start2, 163); (Options.scores1, 193); (Options.quit2, 145)]
  | MENU_OPTION_QUIT => [(Options.start2, 163); (Options.scores2, 193); (Options.quit1, 145)]
  | MENU_OPTION_NONE => []
  end.

Fixpoint buttons_painting (l : list (xpm_map * Z)) (x y spacing : Z) : painting :=
  match l with
  | [] => nothing
  | (m, w) :: l => over (buttons_painting l x (y + spacing) spacing) (area x y w 51 (sprite_color m))
  end.

Lemma three_puts a b c wa wb wc x y sp g : gfx_ok g → 0 <= y → 0 <= sp →
  xpm_dims a = Some (wa, 51) → xpm_dims b = Some (wb, 51) → xpm_dims c = Some (wc, 51) →
  wa <= 193 → wb <= 193 → wc <= 193 →
  wp (put a x y;; put b x (y + sp);; put c x (y + sp * 2)) (λ _ g', redrawn g g' ∧
    (0 <= x → x + 193 <= hres g → y + 2 * sp + 51 <= vres g →
     paints g g' (buttons_painting [(a, wa); (b, wb); (c, wc)] x y sp))) g.
Proof.
  intros Hg Hy Hsp Ha Hb Hc Hwa Hwb Hwc.
  apply wp_bind. eapply wp_mono; [|by apply (put_draws a wa 51)]. intros [] g1 [Hr1 Hp1].
  apply wp_bind. eapply wp_mono; [|apply (put_draws b wb 51); [by eapply redrawn_ok|done]].
  intros [] g2 [Hr2 Hp2].
  eapply wp_mono; [|apply (put_draws c wc 51); [by eapply redrawn_ok|done]]. intros [] g3 [Hr3 Hp3].
  split; [eauto using redrawn_trans|]. intros ? ? ?.
  destruct (redrawn_screen _ _ Hr1) as (Hx1 & Hy1 & _), (redrawn_screen _ _ Hr2) as (Hx2 & Hy2 & _).
  cbn [buttons_painting]. eapply paints_ext; [|eapply paints_trans; [eapply paints_trans;
    [apply Hp1; lia|apply Hp2; lia]|apply Hp3; lia]].
  intros px py _. replace (y + sp + sp) with (y + sp * 2) by lia. unfold over, nothing.
  destruct (area x (y + sp * 2) _ _ _ px py); [done|].
  by destruct (area x (y + sp) _ _ _ px py).
Qed.

Lemma draw_options_draws o x y sp g : gfx_ok g → 0 <= y → 0 <= sp → y + 2 * sp < 65536 →
  wp (draw_options o x y sp) (λ _ g', redrawn g g' ∧
    (0 <= x → x + 193 <= hres g → y + 2 * sp + 51 <= vres g →
     paints g g' (buttons_painting (buttons o) x y sp))) g.
Proof.
  intros Hg Hy Hsp Hmax. unfold draw_options.
  rewrite (i32_small (y + sp)), (i32_small (sp * 2)), i32_small by lia.
  destruct o; cbn [buttons]; try (apply three_puts; [done|lia|lia|auto 1 with sprites nocore..|lia|lia|lia]).
  apply wp_ret. split; [by apply redrawn_refl|]. intros _ _ _. by apply paints_refl.
Qed.

Lemma wp_on_gfx {A} (m : M gfx A) Q mn g :
  wp m (λ a g', Q a (mn, g')) g →
  wp (zoom snd (λ g (p : menu * gfx), (p.1, g)) m) Q (mn, g).
Proof. intros H1. by apply wp_zoom. Qed.

Lemma clear_redrawn c g : gfx_ok g → wp (clear_back_buf c) (λ _, redrawn g) g.
Proof.
  intros Hg. eapply wp_mono; [|by apply clear_back_buf_paints].
  intros [] g' Hp. by eapply paints_redrawn.
Qed.

(** The offsets of the main menu do not overflow their uint16_t. *)
Lemma layout_small g : gfx_ok g →
  let title_y := u16 (idiv (YResolution (mode_info g)) 4) in
  0 <= title_y < 16384 ∧ 0 <= u16 (title_y + 200 + 50) < 20000.
Proof.
  intros Hg. pose proof (ok_y g Hg) as Hy. unfold vres in Hy. cbv zeta. unfold idiv.
  assert (0 <= YResolution (mode_info g) ÷ 4 < 16384)
    by (rewrite Z.quot_div_nonneg by lia; Z.to_euclidean_division_equations; lia).
  rewrite (i32_small (_ ÷ 4)), (u16_small (_ ÷ 4)), u16_small by lia. lia.
Qed.

(** The menu after a rendered frame. *)
Definition after_frame (m : menu) : menu :=
  match current_state m with MENU_QUIT => set_state MENU_EXIT m | _ => m end.

(** The result of a frame: a shown back buffer in the same mode. *)
Definition shown (g g' : gfx) : Prop :=
  gfx_ok g' ∧ mode_info g' = mode_info g ∧ video_mem g' = back_buf g'.

Lemma swap_shown mn g g1 : redrawn g g1 →
  wp (zoom snd (λ g (p : menu * gfx), (p.1, g)) swap_buffers)
    (λ _ p, (p.1 = mn ∧ shown g p.2) ∧ p.2 = set_video_mem (back_buf g1) g1) (mn, g1).
Proof.
  intros [Hok Hm Hv]. apply wp_on_gfx. unfold wp. rewrite swap_buffers_run by done.
  split; [|done]. split; [done|]. split; [by apply swap_buffers_ok|]. by split.
Qed.

Lemma menu_render_wp m g : gfx_ok g →
  wp menu_render (λ _ p, p.1 = after_frame m ∧ shown g p.2) (m, g).
Proof.
  intros Hg. unfold menu_render, after_frame. apply wp_bind, wp_on_gfx.
  eapply wp_mono; [|by apply clear_redrawn]. intros [] g1 Hr1. pose proof (redrawn_ok _ _ Hr1).
  apply wp_bind, wp_gets, wp_bind, wp_gets. cbn [fst]. unfold compose. cbn [snd].
  assert (∀ mn g2, redrawn g1 g2 →
    wp (zoom snd (λ g (p : menu * gfx), (p.1, g)) swap_buffers) (λ _ p, p.1 = mn ∧ shown g p.2) (mn, g2))
    as Hswap.
  { intros mn g2 Hr2. eapply wp_mono; [|apply (swap_shown mn g g2); by eapply redrawn_trans].
    by intros u p [? _]. }
  pose proof (redrawn_refl g1 ltac:(done)). apply wp_bind.
  destruct (current_state m).
  - destruct (layout_small g1) as (Ht & Ho); [done|].
    apply wp_bind, wp_on_gfx. eapply wp_mono; [|apply (put_safe Title.title 400 200); [done|apply title_dims]].
    intros [] g2 Hr2. apply wp_on_gfx. change (u16 (51 + 20)) with 71.
    eapply wp_mono; [|apply draw_options_draws; [by eapply redrawn_ok|lia..]].
    intros [] g3 [Hr3 _]. apply Hswap. by eapply redrawn_trans.
  - apply wp_ret. by apply Hswap.
  - apply wp_ret. by apply Hswap.
  - apply wp_bind, wp_on_gfx. eapply wp_mono; [|by apply draw_text_centered_safe].
    intros [] g2 Hr2. apply wp_on_gfx.
    eapply wp_mono; [|apply draw_text_centered_safe; by eapply redrawn_ok].
    intros [] g3 Hr3. apply Hswap. by eapply redrawn_trans.
  - apply wp_modify. by apply Hswap.
  - apply wp_ret. by apply Hswap.
Qed.

(** ** Properties *)

(** The main menu on the 1152 by 864 screen: the frame shows, on black, the whole title
    at (376, 216) and the three buttons of the current option at x = 503, 71 pixels apart from
    y = 466; the screen is then a copy of the back buffer. *)
Theorem menu_main_screen m g : gfx_ok g → hres g = 1152 → vres g = 864 → current_state m = MENU_MAIN →
  wp menu_render (λ _ p, p.1 = m ∧ shown g p.2 ∧
    ∀ px py, in_screen g px py →
      get_pixel p.2 px py =
        match over (buttons_painting (buttons (current_option m)) 503 466 71)
                (area 376 216 400 200 (sprite_color Title.title)) px py with
        | Some c => Some (le_bytes (Z.to_nat (bpp g)) c)
        | None => Some (le_bytes (Z.to_nat (bpp g)) (normal g 0))
        end) (m, g).
Proof.
  intros Hg Hx Hy Hm. unfold menu_render. apply wp_bind, wp_on_gfx.
  eapply wp_mono; [|by apply clear_back_buf_paints]. intros [] g1 Hp1.
  pose proof (paints_redrawn _ _ _ Hp1) as Hr1. pose proof (redrawn_ok _ _ Hr1) as Hok1.
  destruct (redrawn_screen _ _ Hr1) as (Hx1 & Hy1 & _).
  apply wp_bind, wp_gets, wp_bind, wp_gets. cbn [fst]. unfold compose. cbn [snd].
  apply wp_bind. rewrite Hm. fold (hres g1) (vres g1). rewrite Hx1, Hy1, Hx, Hy.
  change (u16 (idiv (1152 - 400) 2)) with 376. change (u16 (idiv 864 4)) with 216.
  change (u16 (idiv (1152 - 145) 2)) with 503. change (u16 (216 + 200 + 50)) with 466.
  change (u16 (51 + 20)) with 71.
  apply wp_bind, wp_on_gfx.
  eapply wp_mono; [|apply (put_draws Title.title 400 200); [done|apply title_dims]].
  intros [] g2 [Hr2 Hp2]. destruct (redrawn_screen _ _ Hr2) as (Hx2 & Hy2 & _).
  apply wp_on_gfx. eapply wp_mono; [|apply draw_options_draws; [by eapply redrawn_ok|lia..]].
  intros [] g3 [Hr3 Hp3].
  assert (redrawn g g3) as Hr by eauto using redrawn_trans.
  eapply wp_mono; [|by apply (swap_shown m g g3)]. intros [] [m' g'] [[Hm' Hsh] Hg'].
  split; [done|]. split; [done|]. intros px py Hin. cbn [snd] in *. subst g'.
  change (get_pixel (set_video_mem (back_buf g3) g3) px py) with (get_pixel g3 px py).
  rewrite (paints_pixel _ _ _ (paints_trans _ _ _ _ _
    (paints_trans _ _ _ _ _ Hp1 (Hp2 ltac:(lia) ltac:(lia) ltac:(lia) ltac:(lia)))
    (Hp3 ltac:(lia) ltac:(lia) ltac:(lia)))) by done.
  unfold over. destruct (buttons_painting _ _ _ _ px py); [done|]. by destruct (area _ _ _ _ _ px py).
Qed.
End rendering_lemmas.

(** ** The menu as a state machine *)

(** What can happen to the menu: a key, a rendered frame, or the state that the game sets when
    it ends. *)
Inductive reachable `{XpmLoader} : menu → Prop :=
| reach_start : reachable menu_start
| reach_key k m m' : reachable m → menu_handle_input k m = Done (tt, m') → reachable m'
| reach_frame g m m' g' : reachable m → gfx_ok g → menu_render (m, g) = Done (tt, (m', g')) →
    reachable m'
| reach_set s m m' : reachable m → s ∈ [MENU_MAIN; MENU_SCORES; MENU_GAME_OVER] →
    menu_set_state s m = Done (tt, m') → reachable m'.

Section state_machine.
Context `{XpmLoaderLaws}.

Lemma menu_input_run k m : menu_ok m → ∃ m', menu_handle_input k m = Done (tt, m') ∧
  menu_ok m' ∧ current_state m' = next_state k m ∧ option_number (current_option m') = next_option k m.
Proof.
  intros Hm. pose proof (menu_handle_input_wp k m Hm) as Hwp.
  apply wp_done in Hwp as ([] & m' & ? & ?). by exists m'.
Qed.

Lemma option_number_inj a b : option_number a = option_number b → a = b.
Proof. by destruct a, b. Qed.

Lemma reachable_menu m : reachable m →
  menu_ok m ∧ (current_state m = MENU_QUIT ∨ current_state m = MENU_EXIT →
               current_option m = MENU_OPTION_QUIT).
Proof.
  induction 1 as [|k m m' _ [Hok Hq] Hrun|g m m' g' _ [Hok Hq] Hg Hrun|s m m' _ [Hok Hq] Hs Hrun].
  - split; [done|]. by intros [?|?].
  - destruct (menu_input_run k m Hok) as (m2 & Hrun2 & Hok2 & Hst & Hop).
    rewrite Hrun in Hrun2. injection Hrun2 as <-. split; [done|]. rewrite Hst.
    unfold next_state, next_option in *. intros Hexit. apply option_number_inj. rewrite Hop.
    destruct (current_state m) eqn:Es.
    + destruct (k =? KB_ENTER) eqn:Ek; [|by destruct Hexit].
      apply Z.eqb_eq in Ek as ->. simpl. by destruct (current_option m), Hexit.
    + by destruct (k =? KB_BREAK_ESC), Hexit.
    + by destruct (k =? KB_BREAK_ESC), Hexit.
    + by destruct (_ || _), Hexit.
    + by rewrite Hq by auto.
    + by rewrite Hq by auto.
  - pose proof (menu_render_wp m g Hg) as Hwp. unfold wp in Hwp. rewrite Hrun in Hwp.
    destruct Hwp as [Hm' _]. simpl in Hm'. subst m'. unfold after_frame.
    destruct (current_state m) eqn:Es; split; try done; rewrite ?Es; intros Hexit; auto;
      by destruct Hexit.
  - injection Hrun as <-. split; [done|]. intros Hexit. simpl in Hexit.
    repeat (apply elem_of_cons in Hs as [->|Hs]; [by destruct Hexit|]). by apply elem_of_nil in Hs.
Qed.

(** C26. In every reachable state the cursor is on one of the three options, the program is
    about to leave (states QUIT and EXIT) only with the cursor on QUIT, and every key leads to
    the state and moves the cursor as the table of [next_state] and [next_option] says. *)
Theorem menu_reachable m : reachable m →
  menu_ok m ∧
  (current_state m = MENU_QUIT ∨ current_state m = MENU_EXIT → current_option m = MENU_OPTION_QUIT) ∧
  ∀ k, ∃ m', menu_handle_input k m = Done (tt, m') ∧ current_state m' = next_state k m ∧
    option_number (current_option m') = next_option k m ∧ 0 <= next_option k m <= 2.
Proof.
  intros Hm. destruct (reachable_menu m Hm) as [Hok Hq]. split; [done|]. split; [done|].
  intros k. destruct (menu_input_run k m Hok) as (m' & Hrun & Hok' & Hst & Hop).
  exists m'. split_and!; try done; rewrite <- Hop; unfold menu_ok in Hok'; by destruct (current_option m').
Qed.
End state_machine.

(** The whole transition table of menu_handle_input, for every state, option and
    scancode. *)
Theorem menu_handle_input_table k m : menu_ok m →
  ∃ m', menu_handle_input k m = Done (tt, m') ∧ menu_ok m' ∧
    current_state m' = next_state k m ∧ option_number (current_option m') = next_option k m ∧
    0 <= next_option k m <= 2 ∧
    (option_selected m' = true → option_selected m = true ∨ k = KB_ENTER).
Proof.
  intros Hm. pose proof (menu_handle_input_wp k m Hm) as Hwp.
  apply wp_done in Hwp as ([] & m' & Hrun & Hok & Hst & Hop). exists m'. split_and!; try done.
  - rewrite <- Hop. by destruct (current_option m').
  - rewrite <- Hop. unfold menu_ok in Hok. by destruct (current_option m').
  - revert Hrun. unfold menu_handle_input. run_unfold. cbn [id].
    repeat case_match; intros [= <-]; simpl; auto; try done.
    all: intros; right; lia.
Qed.

(** ** Witnesses *)
Module Witness.
Import BlankLoader Screen.

Definition on_quit : menu := Menu MENU_MAIN MENU_OPTION_QUIT false.

Lemma menu_main_screen_witness :
  current_state on_quit = MENU_MAIN ∧
  wp menu_render (λ _ p, p.1 = on_quit ∧ shown screen p.2 ∧
    ∀ px py, in_screen screen px py →
      get_pixel p.2 px py =
        match over (buttons_painting (buttons (current_option on_quit)) 503 466 71)
                (area 376 216 400 200 (sprite_color Title.title)) px py with
        | Some c => Some (le_bytes (Z.to_nat (bpp screen)) c)
        | None => Some (le_bytes (Z.to_nat (bpp screen)) (normal screen 0))
        end) (on_quit, screen).
Proof.
  split; [reflexivity|]. exact (menu_main_screen on_quit screen screen_ok eq_refl eq_refl eq_refl).
Defined.

Lemma on_quit_reachable : reachable on_quit.
Proof.
  eapply (reach_key KB_DOWN_ARROW (Menu MENU_MAIN MENU_OPTION_SCORES false)); [|reflexivity].
  eapply (reach_key KB_DOWN_ARROW menu_start); [apply reach_start|reflexivity].
Defined.

Lemma menu_reachable_witness :
  reachable (Menu MENU_QUIT MENU_OPTION_QUIT true) ∧
  menu_ok (Menu MENU_QUIT MENU_OPTION_QUIT true) ∧
  (MENU_QUIT = MENU_QUIT ∨ MENU_QUIT = MENU_EXIT → MENU_OPTION_QUIT = MENU_OPTION_QUIT) ∧
  ∀ k, ∃ m', menu_handle_input k (Menu MENU_QUIT MENU_OPTION_QUIT true) = Done (tt, m') ∧
    current_state m' = next_state k (Menu MENU_QUIT MENU_OPTION_QUIT true) ∧
    option_number (current_option m') = next_option k (Menu MENU_QUIT MENU_OPTION_QUIT true) ∧
    0 <= next_option k (Menu MENU_QUIT MENU_OPTION_QUIT true) <= 2.
Proof.
  assert (reachable (Menu MENU_QUIT MENU_OPTION_QUIT true)) as Hr
    by (eapply (reach_key KB_ENTER on_quit); [apply on_quit_reachable|reflexivity]).
  split; [exact Hr|]. exact (menu_reachable _ Hr).
Defined.

Lemma menu_handle_input_table_witness :
  menu_ok on_quit ∧
  ∃ m', menu_handle_input KB_ENTER on_quit = Done (tt, m') ∧ menu_ok m' ∧
    current_state m' = next_state KB_ENTER on_quit ∧
    option_number (current_option m') = next_option KB_ENTER on_quit ∧
    0 <= next_option KB_ENTER on_quit <= 2 ∧
    (option_selected m' = true → option_selected on_quit = true ∨ KB_ENTER = KB_ENTER).
Proof.
  assert (menu_ok on_quit) as Hm by (intros Hx; discriminate Hx).
  split; [exact Hm|]. exact (menu_handle_input_table KB_ENTER on_quit Hm).
Defined.
End Witness.
