(* ===== verification/System.v ===== *)
(** * The state of the whole program

    Every global of the program, by component, and the machine it runs on.  A component's
    operation runs on its part of the state through one of the [on_*] combinators. *)

From S2P Require Import Prelude Triples Machine Graphics Enemies Score HighScores Ship Menu.

Record sys (W : Type) := Sys {
  world : W;
  scancode : Z;
  timer_counter : Z;
  kb_hook_id : Z;
  hook_id : Z;
  irq_set_keyboard : Z;
  irq_set_timer : Z;
  video : gfx;
  aliens : fleet;
  player : ship;
  current_score : scoring;
  table : board;
  file : disk;
  the_menu : menu;
  player_win : bool;
  player_lost : bool;
  show_scores_drawn : bool;
}.
Arguments Sys {_}.
Arguments world {_} _.
Arguments scancode {_} _.
Arguments timer_counter {_} _.
Arguments kb_hook_id {_} _.
Arguments hook_id {_} _.
Arguments irq_set_keyboard {_} _.
Arguments irq_set_timer {_} _.
Arguments video {_} _.
Arguments aliens {_} _.
Arguments player {_} _.
Arguments current_score {_} _.
Arguments table {_} _.
Arguments file {_} _.
Arguments the_menu {_} _.
Arguments player_win {_} _.
Arguments player_lost {_} _.
Arguments show_scores_drawn {_} _.

Section setters.
Context {W : Type}.
Implicit Types s : sys W.

Definition set_world (v : W) (s : sys W) : sys W :=
  Sys v (scancode s) (timer_counter s) (kb_hook_id s) (hook_id s) (irq_set_keyboard s)
    (irq_set_timer s) (video s) (aliens s) (player s) (current_score s) (table s) (file s)
    (the_menu s) (player_win s) (player_lost s) (show_scores_drawn s).
Definition set_scancode (v : Z) (s : sys W) : sys W :=
  Sys (world s) v (timer_counter s) (kb_hook_id s) (hook_id s) (irq_set_keyboard s)
    (irq_set_timer s) (video s) (aliens s) (player s) (current_score s) (table s) (file s)
    (the_menu s) (player_win s) (player_lost s) (show_scores_drawn s).
Definition set_timer_counter (v : Z) (s : sys W) : sys W :=
  Sys (world s) (scancode s) v (kb_hook_id s) (hook_id s) (irq_set_keyboard s)
    (irq_set_timer s) (video s) (aliens s) (player s) (current_score s) (table s) (file s)
    (the_menu s) (player_win s) (player_lost s) (show_scores_drawn s).
Definition set_kb_hook_id (v : Z) (s : sys W) : sys W :=
  Sys (world s) (scancode s) (timer_counter s) v (hook_id s) (irq_set_keyboard s)
    (irq_set_timer s) (video s) (aliens s) (player s) (current_score s) (table s) (file s)
    (the_menu s) (player_win s) (player_lost s) (show_scores_drawn s).
Definition set_hook_id (v : Z) (s : sys W) : sys W :=
  Sys (world s) (scancode s) (timer_counter s) (kb_hook_id s) v (irq_set_keyboard s)
    (irq_set_timer s) (video s) (aliens s) (player s) (current_score s) (table s) (file s)
    (the_menu s) (player_win s) (player_lost s) (show_scores_drawn s).
Definition set_irq_set_keyboard (v : Z) (s : sys W) : sys W :=
  Sys (world s) (scancode s) (timer_counter s) (kb_hook_id s) (hook_id s) v (irq_set_timer s)
    (video s) (aliens s) (player s) (current_score s) (table s) (file s) (the_menu s)
    (player_win s) (player_lost s) (show_scores_drawn s).
Definition set_irq_set_timer (v : Z) (s : sys W) : sys W :=
  Sys (world s) (scancode s) (timer_counter s) (kb_hook_id s) (hook_id s) (irq_set_keyboard s)
    v (video s) (aliens s) (player s) (current_score s) (table s) (file s) (the_menu s)
    (player_win s) (player_lost s) (show_scores_drawn s).
Definition set_video (v : gfx) (s : sys W) : sys W :=
  Sys (world s) (scancode s) (timer_counter s) (kb_hook_id s) (hook_id s) (irq_set_keyboard s)
    (irq_set_timer s) v (aliens s) (player s) (current_score s) (table s) (file s)
    (the_menu s) (player_win s) (player_lost s) (show_scores_drawn s).
Definition set_aliens (v : fleet) (s : sys W) : sys W :=
  Sys (world s) (scancode s) (timer_counter s) (kb_hook_id s) (hook_id s) (irq_set_keyboard s)
    (irq_set_timer s) (video s) v (player s) (current_score s) (table s) (file s)
    (the_menu s) (player_win s) (player_lost s) (show_scores_drawn s).
Definition set_player (v : ship) (s : sys W) : sys W :=
  Sys (world s) (scancode s) (timer_counter s) (kb_hook_id s) (hook_id s) (irq_set_keyboard s)
    (irq_set_timer s) (video s) (aliens s) v (current_score s) (table s) (file s)
    (the_menu s) (player_win s) (player_lost s) (show_scores_drawn s).
Definition set_current_score (v : scoring) (s : sys W) : sys W :=
  Sys (world s) (scancode s) (timer_counter s) (kb_hook_id s) (hook_id s) (irq_set_keyboard s)
    (irq_set_timer s) (video s) (aliens s) (player s) v (table s) (file s) (the_menu s)
    (player_win s) (player_lost s) (show_scores_drawn s).
Definition set_table (v : board) (s : sys W) : sys W :=
  Sys (world s) (scancode s) (timer_counter s) (kb_hook_id s) (hook_id s) (irq_set_keyboard s)
    (irq_set_timer s) (video s) (aliens s) (player s) (current_score s) v (file s)
    (the_menu s) (player_win s) (player_lost s) (show_scores_drawn s).
Definition set_file (v : disk) (s : sys W) : sys W :=
  Sys (world s) (scancode s) (timer_counter s) (kb_hook_id s) (hook_id s) (irq_set_keyboard s)
    (irq_set_timer s) (video s) (aliens s) (player s) (current_score s) (table s) v
    (the_menu s) (player_win s) (player_lost s) (show_scores_drawn s).
Definition set_the_menu (v : menu) (s : sys W) : sys W :=
  Sys (world s) (scancode s) (timer_counter s) (kb_hook_id s) (hook_id s) (irq_set_keyboard s)
    (irq_set_timer s) (video s) (aliens s) (player s) (current_score s) (table s) (file s) v
    (player_win s) (player_lost s) (show_scores_drawn s).
Definition set_player_win (v : bool) (s : sys W) : sys W :=
  Sys (world s) (scancode s) (timer_counter s) (kb_hook_id s) (hook_id s) (irq_set_keyboard s)
    (irq_set_timer s) (video s) (aliens s) (player s) (current_score s) (table s) (file s)
    (the_menu s) v (player_lost s) (show_scores_drawn s).
Definition set_player_lost (v : bool) (s : sys W) : sys W :=
  Sys (world s) (scancode s) (timer_counter s) (kb_hook_id s) (hook_id s) (irq_set_keyboard s)
    (irq_set_timer s) (video s) (aliens s) (player s) (current_score s) (table s) (file s)
    (the_menu s) (player_win s) v (show_scores_drawn s).
Definition set_show_scores_drawn (v : bool) (s : sys W) : sys W :=
  Sys (world s) (scancode s) (timer_counter s) (kb_hook_id s) (hook_id s) (irq_set_keyboard s)
    (irq_set_timer s) (video s) (aliens s) (player s) (current_score s) (table s) (file s)
    (the_menu s) (player_win s) (player_lost s) v.

(** The state at the start of the program: the static initialisers, and what the machine and
    the disk hold. *)
Definition sys_start (w : W) (g : gfx) (d : disk) : sys W :=
  Sys w 0 0 1 0 0 0 g fleet_start ship_start scoring_start board_start d menu_start
    false false false.

(** ** Running a component's operation on its part of the state *)
Definition on_world {A} (m : M W A) : M (sys W) A := zoom world set_world m.
Definition on_gfx {A} (m : M gfx A) : M (sys W) A := zoom video set_video m.
Definition on_fleet {A} (m : M fleet A) : M (sys W) A := zoom aliens set_aliens m.
Definition on_ship {A} (m : M ship A) : M (sys W) A := zoom player set_player m.
Definition on_score {A} (m : M scoring A) : M (sys W) A := zoom current_score set_current_score m.
Definition on_menu {A} (m : M menu A) : M (sys W) A := zoom the_menu set_the_menu m.
Definition on_lost {A} (m : M bool A) : M (sys W) A := zoom player_lost set_player_lost m.

Definition on_ship_score {A} (m : M (ship * scoring) A) : M (sys W) A :=
  zoom (λ s, (player s, current_score s)) (λ p s, set_current_score p.2 (set_player p.1 s)) m.
Definition on_ship_fleet {A} (m : M (ship * fleet) A) : M (sys W) A :=
  zoom (λ s, (player s, aliens s)) (λ p s, set_aliens p.2 (set_player p.1 s)) m.
Definition on_ship_lost {A} (m : M (ship * bool) A) : M (sys W) A :=
  zoom (λ s, (player s, player_lost s)) (λ p s, set_player_lost p.2 (set_player p.1 s)) m.
Definition on_world_ship {A} (m : M (W * ship) A) : M (sys W) A :=
  zoom (λ s, (world s, player s)) (λ p s, set_player p.2 (set_world p.1 s)) m.
Definition on_world_gfx {A} (m : M (W * gfx) A) : M (sys W) A :=
  zoom (λ s, (world s, video s)) (λ p s, set_video p.2 (set_world p.1 s)) m.
Definition on_menu_gfx {A} (m : M (menu * gfx) A) : M (sys W) A :=
  zoom (λ s, (the_menu s, video s)) (λ p s, set_video p.2 (set_the_menu p.1 s)) m.
Definition on_table_file {A} (m : M (board * disk) A) : M (sys W) A :=
  zoom (λ s, (table s, file s)) (λ p s, set_file p.2 (set_table p.1 s)) m.
Definition on_hstate {A} (m : M (hstate W) A) : M (sys W) A :=
  zoom (λ s, HState (world s) (current_score s) (table s) (file s))
    (λ h s, set_file (h_disk h) (set_table (h_board h)
              (set_current_score (h_scoring h) (set_world (h_world h) s)))) m.
End setters.

(** ** Frames *)

(** An operation on a component keeps what does not look at the component. *)
Ltac frame_zoom := apply keeps_zoom; frame_side.
#[export] Hint Extern 3 (keeps _ (on_world _)) => frame_zoom : keeps.
#[export] Hint Extern 3 (keeps _ (on_gfx _)) => frame_zoom : keeps.
#[export] Hint Extern 3 (keeps _ (on_fleet _)) => frame_zoom : keeps.
#[export] Hint Extern 3 (keeps _ (on_ship _)) => frame_zoom : keeps.
#[export] Hint Extern 3 (keeps _ (on_score _)) => frame_zoom : keeps.
#[export] Hint Extern 3 (keeps _ (on_menu _)) => frame_zoom : keeps.
#[export] Hint Extern 3 (keeps _ (on_lost _)) => frame_zoom : keeps.
#[export] Hint Extern 3 (keeps _ (on_ship_score _)) => frame_zoom : keeps.
#[export] Hint Extern 3 (keeps _ (on_ship_fleet _)) => frame_zoom : keeps.
#[export] Hint Extern 3 (keeps _ (on_ship_lost _)) => frame_zoom : keeps.
#[export] Hint Extern 3 (keeps _ (on_world_ship _)) => frame_zoom : keeps.
#[export] Hint Extern 3 (keeps _ (on_world_gfx _)) => frame_zoom : keeps.
#[export] Hint Extern 3 (keeps _ (on_menu_gfx _)) => frame_zoom : keeps.
#[export] Hint Extern 3 (keeps _ (on_table_file _)) => frame_zoom : keeps.
#[export] Hint Extern 3 (keeps _ (on_hstate _)) => frame_zoom : keeps.
