(* ===== verification/GameState.v ===== *)
(** * game/game_state.c: the game loop

    [game_update] and [game_draw] are the two halves of the timer branch of game_state: the
    game logic, then the drawing and the end of the game.  A half that leaves the function
    returns [Some rc], [None] continues the loop.  The loop waits for messages that the kernel
    decides, so its recursion has fuel; safety holds for every fuel, and the game ends for some fuel
    when the timer's interrupts come again and again. *)

From S2P Require Import Prelude Machine Xpm Graphics Keyboard Timer Enemies Score HighScores Ship.
From S2P Require Import Collision Menu System Events.
Import Keyboard.Spec.

Definition screen_width {W} (s : sys W) : Z := XResolution (mode_info (video s)).
Definition screen_height {W} (s : sys W) : Z := YResolution (mode_info (video s)).

Section operations.
Context {W : Type} `{PortIO W} `{Interrupts W} `{Receive W} `{Random W} `{XpmLoader}.

(** kbc_ih(): the handler stores the global scancode. *)
Definition read_scancode : M (sys W) unit :=
  sc ← gets scancode;
  v ← on_world (kbc_ih sc);
  modify (set_scancode v).

(** The keyboard branch. *)
Definition game_key : M (sys W) unit :=
  read_scancode;;
  sc ← gets scancode;
  let is_break := has_bit sc KB_BREAK_CODE_BIT in
  if negb is_break then
    xres ← gets screen_width;
    on_ship_score (ship_action sc xres)
  else skip.

Definition timer_tick : M (sys W) unit :=
  modify (λ s, set_timer_counter (timer_int_handler (timer_counter s)) s).

(** The timer branch up to the collision checks. *)
Definition game_update : M (sys W) unit :=
  timer_tick;;
  on_ship (modify (λ p, set_fire_delay (i32 (fire_delay_counter p + 1)) p));;
  t ← gets timer_counter;
  on_score (score_update_time t);;
  on_gfx (clear_back_buf 0x000000);;
  on_ship update_bullets;;
  yres ← gets screen_height;
  on_ship (update_enemy_bullets yres);;
  xres ← gets screen_width;
  on_fleet (enemies_moving xres);;
  t ← gets timer_counter;
  (if Z.rem t 60 =? 0 then
     es ← gets (enemies ∘ aliens);
     on_world_ship (fire_enemy_bullet es)
   else skip);;
  on_ship_lost check_enemy_bullet_collision;;
  on_ship_fleet check_bullet_enemy_collision;;
  s ← gets id;
  on_lost (check_ship_alien_collision (ship_x (player s)) (enemies (aliens s)));;
  on_ship check_shield_collision.

(** After the frame is shown: loss, win, or the next message. *)
Definition game_outcome : M (sys W) (option Z) :=
  lost ← gets player_lost;
  if lost : bool then
    on_score score_calculate_final;;
    on_menu (menu_set_state MENU_GAME_OVER);;
    mret (Some 0)
  else
    n ← on_fleet count_active_enemies;
    if n =? 0 then
      modify (set_player_win true);;
      on_score score_calculate_final;;
      on_hstate save_win_highscore;;
      on_menu (menu_set_state MENU_SCORES);;
      mret (Some 0)
    else mret None.

(** The drawing part of the timer branch. *)
Definition game_draw : M (sys W) (option Z) :=
  s ← gets id;
  rc ← on_gfx (draw_ship (ship_x (player s)));
  if negb (rc =? 0) then mret (Some 1) else
  rc ← on_gfx (draw_all_enemies (enemies (aliens s)));
  if negb (rc =? 0) then mret (Some 1) else
  rc ← on_gfx (draw_all_bullets (bullets (player s)));
  if negb (rc =? 0) then mret (Some 1) else
  on_gfx (draw_enemy_bullets (enemy_bullets (player s)));;
  on_gfx (draw_shields (shields (player s)));;
  on_gfx (draw_live_score (current_score s));;
  on_gfx swap_buffers;;
  game_outcome.

(** A received message. *)
Definition game_message (m : message) : M (sys W) (option Z) :=
  if from_hardware m then
    irq_kbd ← gets irq_set_keyboard;
    (if irq_pending m irq_kbd then game_key else skip);;
    irq_tim ← gets irq_set_timer;
    if irq_pending m irq_tim then game_update;; game_draw else mret None
  else mret None.

Definition game_step : M (sys W) (option Z) :=
  '(rc, m) ← on_world (call driver_receive);
  if negb (rc =? 0) then mret None else game_message m.

Fixpoint game_loop (fuel : nat) : M (sys W) Z :=
  match fuel with
  | O => no_fuel
  | S fuel =>
      sc ← gets scancode;
      if negb (sc =? KB_BREAK_ESC) then
        r ← game_step;
        match r with
        | Some rc => mret rc
        | None => game_loop fuel
        end
      else
        on_score score_reset;;
        on_menu (menu_set_state MENU_MAIN);;
        mret 0
  end.

Definition game_state (fuel : nat) : M (sys W) Z :=
  modify (set_player_lost false);;
  modify (set_player_win false);;
  t ← gets timer_counter;
  on_score (score_init t);;
  game_loop fuel.
End operations.

(** ** The invariant *)

(** The screen of mode 0x14c, a table within its array and a cursor on an option. *)
Record sys_ok {W} (s : sys W) : Prop := {
  sys_gfx : gfx_ok (video s);
  sys_width : hres (video s) = 1152;
  sys_height : vres (video s) = 864;
  sys_ship : ship_ok 1152 (player s);
  sys_table : board_ok (table s);
  sys_menu : menu_ok (the_menu s);
  sys_fleet : length (enemies (aliens s)) = 18%nat;
  sys_direction : enemy_direction (aliens s) = 1 ∨ enemy_direction (aliens s) = -1;
  sys_move_timer : 0 <= enemy_move_timer (aliens s) < 30;
}.

(** A game is on: the aliens stand in the formation [g]. *)
Record playing {W} (g : grid) (s : sys W) : Prop := {
  playing_sys : sys_ok s;
  playing_fleet : represents g (aliens s);
  playing_grid : grid_ok 1152 g;
}.

(** Some living alien is too low for its sprite. *)
Definition landed {W} (s : sys W) : Prop :=
  ∃ k e, enemies (aliens s) !! k = Some e ∧ eactive e = true ∧ 830 < ey e.

Lemma draws_screen {W} (s : sys W) g : sys_ok s → redrawn (video s) g → sys_ok (set_video g s).
Proof.
  intros [] Hr. destruct (redrawn_screen _ _ Hr) as (Hx & Hy & _).
  split; simpl; try done; [by eapply redrawn_ok|congruence|congruence].
Qed.

Lemma ship_sys {W} (s : sys W) p : sys_ok s → ship_ok 1152 p → sys_ok (set_player p s).
Proof. intros [] Hp. by split. Qed.

(** Coordinates of the aliens of a formation that is not too low. *)
Lemma formation_bounds g f : represents g f → grid_ok 1152 g → oy g <= 60000 →
  Forall (λ e, eactive e = true → -100000 <= ex e <= 100000 ∧ -100000 <= ey e <= 100000) (enemies f).
Proof.
  intros Hr Hg Hy. apply List.Forall_forall. intros e [k He]%list_elem_of_In%list_elem_of_lookup Ha.
  destruct (place_bounds 1152 g f k e Hg Hr) as (? & ? & _); [lia|done..|].
  destruct (rep_place _ _ Hr _ _ He Ha) as [_ Hey].
  pose proof (row_range k (enemy_index f k e (rep_length _ _ Hr) He)). lia.
Qed.

(** ** The aliens' timer *)

Lemma enemies_moving_wp xres g f : grid_ok xres g → represents g f → xres < 65536 → oy g <= 2 ^ 30 →
  0 <= enemy_move_timer f < 30 →
  let g' := if enemy_move_timer f =? 29 then grid_step xres g else g in
  wp (enemies_moving xres) (λ _ f', represents g' f' ∧ grid_ok xres g' ∧
    enemy_move_timer f' = (enemy_move_timer f + 1) mod 30) f.
Proof.
  intros Hg Hr Hx Hy Ht. unfold enemies_moving. apply wp_bind, wp_modify, wp_bind, wp_gets. unfold id.
  cbn [enemy_move_timer set_move_timer]. rewrite i32_small by lia.
  assert (∀ t f0 g0, represents g0 f0 → represents g0 (set_move_timer t f0)) as Hset
    by (intros t f0 g0 []; by split).
  destruct (_ >=? 30) eqn:E.
  - assert (enemy_move_timer f = 29) as -> by lia. apply wp_bind.
    eapply wp_mono; [|apply (move_enemies_refines_grid xres g); [done|by apply Hset|done..]].
    intros rc f' (_ & Hr' & _). apply wp_modify. split; [by apply Hset|]. split; [by apply grid_step_ok|done].
  - replace (enemy_move_timer f =? 29) with false by lia. apply wp_ret. split; [by apply Hset|].
    split; [done|]. cbn. rewrite Z.mod_small by lia. done.
Qed.

(** ** Steps that keep the game going *)

(** The parts of the state that a frame does not touch before its outcome, the timer apart. *)
Record rest {W} (s s' : sys W) : Prop := {
  rest_scancode : scancode s' = scancode s;
  rest_timer : timer_counter s' = timer_counter s;
  rest_irq_kbd : irq_set_keyboard s' = irq_set_keyboard s;
  rest_irq_tim : irq_set_timer s' = irq_set_timer s;
  rest_menu : the_menu s' = the_menu s;
  rest_table : table s' = table s;
  rest_file : file s' = file s;
  rest_win : player_win s' = player_win s;
}.

Lemma rest_refl {W} (s : sys W) : rest s s.
Proof. by split. Qed.
Lemma rest_trans {W} (s1 s2 s3 : sys W) : rest s1 s2 → rest s2 s3 → rest s1 s3.
Proof. intros [] []. split; congruence. Qed.

(** A formation that lost some aliens. *)
Record thins (g g' : grid) : Prop := {
  thins_x : ox g' = ox g;
  thins_y : oy g' = oy g;
  thins_dir : dir g' = dir g;
  thins_drop : drop g' = drop g;
  thins_alive : ∀ k, alive_at g' k = true → alive_at g k = true;
}.

Lemma thins_refl g : thins g g.
Proof. by split. Qed.
Lemma thins_trans g1 g2 g3 : thins g1 g2 → thins g2 g3 → thins g1 g3.
Proof. intros [] []. split; [congruence..|auto]. Qed.

(** A step that leaves the aliens alone; one that may kill some; a whole update, in which the
    timer of the aliens advances and at its 30th tick the formation moves. *)
Definition stays {W} (g : grid) (s s' : sys W) : Prop :=
  rest s s' ∧ playing g s' ∧ aliens s' = aliens s.
Definition thinned {W} (g : grid) (s s' : sys W) : Prop :=
  rest s s' ∧ enemy_move_timer (aliens s') = enemy_move_timer (aliens s) ∧
  ∃ g', playing g' s' ∧ thins g g'.
Definition advanced {W} (g : grid) (s s' : sys W) : Prop :=
  rest s s' ∧ enemy_move_timer (aliens s') = (enemy_move_timer (aliens s) + 1) mod 30 ∧
  ∃ g', playing g' s' ∧ thins (if enemy_move_timer (aliens s) =? 29 then grid_step 1152 g else g) g'.

Section sequencing.
Context {W A B : Type} (g : grid) (s : sys W) (c : M (sys W) A) (k : A → M (sys W) B).

Lemma stays_seq : wp c (λ _, stays g s) s →
  (∀ a s', playing g s' → aliens s' = aliens s → wp (k a) (λ _, advanced g s') s') →
  wp (c ≫= k) (λ _, advanced g s) s.
Proof.
  intros Hc Hk. apply wp_bind. eapply wp_mono; [|exact Hc]. intros a s' (Hr & Hp & Ha).
  eapply wp_mono; [|by apply Hk]. intros b s'' (Hr' & Ht & Hg). rewrite Ha in *.
  split; [by eapply rest_trans|done].
Qed.

Lemma thinned_seq : wp c (λ _, thinned g s) s →
  (∀ a g' s', playing g' s' → thins g g' → wp (k a) (λ _, thinned g' s') s') →
  wp (c ≫= k) (λ _, thinned g s) s.
Proof.
  intros Hc Hk. apply wp_bind. eapply wp_mono; [|exact Hc]. intros a s' (Hr & Ht & g' & Hp & Hg).
  eapply wp_mono; [|by apply (Hk a g')]. intros b s'' (Hr' & Ht' & g'' & Hp' & Hg').
  split; [by eapply rest_trans|]. split; [congruence|]. exists g''. split; [done|by eapply thins_trans].
Qed.

Lemma advanced_seq : wp c (λ _, advanced g s) s →
  (∀ a g' s', playing g' s' → oy g' <= oy g + 40 → wp (k a) (λ _, thinned g' s') s') →
  wp (c ≫= k) (λ _, advanced g s) s.
Proof.
  intros Hc Hk. apply wp_bind. eapply wp_mono; [|exact Hc]. intros a s' (Hr & Ht & g' & Hp & Hg).
  eapply wp_mono; [|apply (Hk a g'); [done|]].
  - intros b s'' (Hr' & Ht' & g'' & Hp' & Hg'). split; [by eapply rest_trans|].
    split; [congruence|]. exists g''. split; [done|by eapply thins_trans].
  - rewrite (thins_y _ _ Hg). destruct (_ =? 29); [apply grid_step_oy|lia].
Qed.
End sequencing.

Lemma stays_thinned {W} g (s s' : sys W) : stays g s s' → thinned g s s'.
Proof. intros (Hr & Hp & Ha). split; [done|]. rewrite Ha. split; [done|]. exists g. split; [done|apply thins_refl]. Qed.

Section steps.
Context {W : Type}.
Implicit Types s : sys W.

Lemma on_ship_goes {A} (m : M ship A) g s : playing g s →
  wp m (λ _ p, ship_ok 1152 p) (player s) → wp (on_ship m) (λ _, stays g s) s.
Proof.
  intros [Hs Hf Hg] Hm. apply wp_zoom. eapply wp_mono; [|exact Hm]. intros a p Hp.
  split; [by split|]. split; [|done]. split; try done. by apply ship_sys.
Qed.

Lemma on_score_goes {A} (m : M scoring A) g s : playing g s →
  wp m (λ _ _, True) (current_score s) → wp (on_score m) (λ _, stays g s) s.
Proof.
  intros [[] Hf Hg] Hm. apply wp_zoom. eapply wp_mono; [|exact Hm]. intros a p _.
  by split_and!.
Qed.

Lemma on_gfx_goes {A} (m : M gfx A) g s : playing g s →
  wp m (λ _, redrawn (video s)) (video s) → wp (on_gfx m) (λ _, stays g s) s.
Proof.
  intros [Hs Hf Hg] Hm. apply wp_zoom. eapply wp_mono; [|exact Hm]. intros a v Hv.
  split; [by split|]. split; [|done]. split; try done. by apply draws_screen.
Qed.

Lemma enemies_moving_goes g s : playing g s → oy g <= 2 ^ 30 →
  wp (on_fleet (enemies_moving (screen_width s))) (λ _, advanced g s) s.
Proof.
  intros [Hs Hf Hg] Hy. assert (screen_width s = 1152) as -> by apply (sys_width s Hs).
  apply wp_zoom. eapply wp_mono; [|by apply (enemies_moving_wp 1152 g); [..|apply sys_move_timer]].
  intros [] f' (Hr' & Hok' & Ht). split; [by split|]. split; [done|].
  set (g' := if enemy_move_timer (aliens s) =? 29 then grid_step 1152 g else g) in *.
  exists g'. split; [|apply thins_refl]. destruct Hs. split; [|done..]. split; simpl; try done.
  - by apply (rep_length g').
  - rewrite (rep_dir _ _ Hr'). apply (grid_dir _ _ Hok').
  - rewrite Ht. by apply Z.mod_pos_bound.
Qed.

Lemma fire_goes `{RandomLaws W} g s : playing g s → oy g <= 60000 →
  wp (on_world_ship (fire_enemy_bullet (enemies (aliens s)))) (λ _, stays g s) s.
Proof.
  intros [Hs Hf Hg] Hy. apply wp_zoom.
  eapply wp_mono; [|apply (fire_enemy_bullet_wp (world s) (enemies (aliens s)) (player s));
    [rewrite (rep_length _ _ Hf); lia|by apply (formation_bounds g)]].
  intros [] [w p] Hres. simpl in Hres. split; [by split|]. split; [|done].
  assert (ship_ok 1152 p) as Hp.
  { destruct Hres as [[_ ->]|(e & l & Hin & Ha & Hl & ->)]; [by apply sys_ship|].
    destruct (sys_ship s Hs) as [H1 H2 H3 H4 H5 H6]. apply list_elem_of_lookup in Hin as [k Hk].
    destruct (place_bounds 1152 g (aliens s) k e Hg Hf) as (? & ? & _); [lia|done..|].
    destruct (rep_place _ _ Hf _ _ Hk Ha) as [_ Hey].
    pose proof (row_range k (enemy_index (aliens s) k e (rep_length _ _ Hf) Hk)).
    destruct (fire_first_forall (λ b, bullet_active b = true →
      0 <= bullet_x b < 70000 ∧ 0 <= bullet_y b < 70000) _ _ _ Hl) as [? ?];
      [intros _; simpl; lia|done|].
    split; simpl; try done. congruence. }
  split; try done. destruct Hs. by split.
Qed.

(** A bullet that hits leaves the formation without one alien. *)
Lemma bullet_enemy_goes g s : playing g s →
  wp (on_ship_fleet check_bullet_enemy_collision) (λ _, thinned g s) s.
Proof.
  intros [Hs Hf Hg]. apply wp_zoom. unfold wp, check_bullet_enemy_collision.
  pose proof (hit_scan_spec (bullets (player s)) (enemies (aliens s))) as Hh.
  destruct (hit_scan _ _) as [[bs es]|].
  - destruct Hh as (pre & b & post & pre' & e & post' & Hb & -> & He & -> & Hba & _).
    destruct (kill_represents g (aliens s) pre' e post' 1152 Hf Hg He) as [Hf' Hg'].
    split; [by split|]. split; [done|]. exists (without g (pre' ++ kill e :: post')). split.
    + split; try done. destruct Hs. split; simpl; try done; [by apply ship_ok_hit|].
      by apply (rep_length _ _ Hf').
    + split; try done. intros k. unfold alive_at. rewrite (rep_alive _ _ Hf), He. simpl.
      rewrite !list_lookup_fmap, !lookup_app. destruct (pre' !! k); [done|].
      by destruct (k - length pre')%nat.
  - split; [by split|]. split; [done|]. exists g. split; [|apply thins_refl].
    split; try done. destruct Hs. by split.
Qed.

Lemma ship_bullets_goes g s : playing g s →
  wp (on_ship_lost check_enemy_bullet_collision) (λ _, stays g s) s.
Proof.
  intros [Hs Hf Hg]. apply wp_zoom. unfold wp, check_enemy_bullet_collision.
  rewrite ship_hits_spec. split; [by split|]. split; [|done]. split; try done.
  assert (ship_ok 1152 (set_enemy_bullets ((λ b, if bullet_active b && bullet_touches_ship b
    (ship_x (player s)) then deactivate b else b) <$> enemy_bullets (player s)) (player s)))
    by (apply ship_ok_spent; [by apply sys_ship|apply ship_hits_spent]).
  destruct Hs. by split.
Qed.

Lemma aliens_lost_goes g s x es : playing g s →
  wp (on_lost (check_ship_alien_collision x es)) (λ _, stays g s) s.
Proof.
  intros [[] Hf Hg]. apply wp_zoom, wp_modify. by split_and!.
Qed.

Lemma shields_goes g s : playing g s →
  wp (on_ship check_shield_collision) (λ _, stays g s) s.
Proof.
  intros Hp. apply on_ship_goes; [done|]. apply wp_modify.
  rewrite shields_hits_spec.
  pose proof (sys_ship s (playing_sys g s Hp)) as Hok.
  apply (ship_ok_spent _ _ (absorbed (shields (player s)) <$> enemy_bullets (player s))) in Hok;
    [|apply absorbed_spent].
  destruct Hok. split; simpl; try done.
  rewrite length_zip_with. unfold hit_counts. rewrite length_imap. simpl in *. lia.
Qed.
End steps.

(** ** A frame *)
Lemma low_iff y e : y = 864 → 830 < e ↔ y < e + 34.
Proof. lia. Qed.

Section frame.
Context {W : Type} `{RandomLaws W} `{XpmLoaderLaws}.
Implicit Types s : sys W.

(** Saving a win keeps the table and the score. *)
Lemma save_win_keeps (h : hstate W) : board_ok (h_board h) →
  wp save_win_highscore (λ _ h', board_ok (h_board h') ∧
    highscore_saved_this_game (h_scoring h') = true ∧
    final_score (h_scoring h') = final_score (h_scoring h)) h.
Proof.
  intros Hb. eapply wp_mono; [|by apply save_win_wp]. intros [] h' (? & ? & ? & ?). by split_and!.
Qed.

Definition tick (s : sys W) : sys W :=
  set_timer_counter (timer_int_handler (timer_counter s)) s.

Lemma tick_playing g s : playing g s → playing g (tick s).
Proof. intros [[]]. by split. Qed.

(** One update of the game logic. *)
Lemma game_update_goes g s : playing g s → oy g <= 50000 →
  wp game_update (λ _, advanced g (tick s)) s.
Proof.
  intros Hp Hy. unfold game_update. apply wp_bind, wp_modify. fold (tick s).
  apply tick_playing in Hp. generalize (tick s) Hp. clear s Hp. intros s Hp.
  eapply stays_seq; [apply on_ship_goes; [done|]|].
  { apply wp_modify. destruct (sys_ship s (playing_sys g s Hp)). by split. }
  intros _ s1 Hp1 _. apply wp_bind, wp_gets.
  eapply stays_seq; [by apply on_score_goes|]. intros _ s2 Hp2 _. eapply stays_seq.
  { apply on_gfx_goes; [done|]. apply clear_redrawn, (sys_gfx s2), (playing_sys g s2 Hp2). }
  intros _ s3 Hp3 _. eapply stays_seq.
  { apply on_ship_goes; [done|]. eapply wp_mono; [|apply update_bullets_ok, sys_ship, (playing_sys _ _ Hp3)].
    by intros ? ? [? _]. }
  intros _ s4 Hp4 _. apply wp_bind, wp_gets. eapply stays_seq.
  { apply on_ship_goes; [done|].
    assert (screen_height s4 = 864) as -> by apply (sys_height s4 (playing_sys g s4 Hp4)).
    eapply wp_mono; [|apply update_enemy_bullets_ok; [apply sys_ship, (playing_sys _ _ Hp4)|lia]].
    by intros ? ? [? _]. }
  intros _ s5 Hp5 _. apply wp_bind, wp_gets. eapply advanced_seq.
  { apply enemies_moving_goes; [done|lia]. }
  intros _ g6 s6 Hp6 Hy6. apply wp_bind, wp_gets. eapply thinned_seq.
  { eapply wp_mono; [intros ? ?; apply stays_thinned|].
    destruct (_ =? 0); [apply wp_bind, wp_gets, fire_goes; [done|lia]|]. by apply wp_ret. }
  intros _ g7 s7 Hp7 _. eapply thinned_seq.
  { eapply wp_mono; [intros ? ?; apply stays_thinned|by apply ship_bullets_goes]. }
  intros _ g8 s8 Hp8 _. eapply thinned_seq; [by apply bullet_enemy_goes|].
  intros _ g9 s9 Hp9 _. apply wp_bind, wp_gets. eapply thinned_seq.
  { eapply wp_mono; [intros ? ?; apply stays_thinned|by apply aliens_lost_goes]. }
  intros _ g10 s10 Hp10 _. eapply wp_mono; [intros ? ?; apply stays_thinned|by apply shields_goes].
Qed.

(** The end of a frame in a shown state: what the outcome is, and that the invariant of the
    program still holds. *)
Definition outcome_of (s : sys W) : option Z :=
  if player_lost s then Some 0
  else if count_active (enemies (aliens s)) 0 =? 0 then Some 0 else None.

(** How the state changes with the outcome. *)
Record ended (s s' : sys W) : Prop := {
  ended_lost : player_lost s' = player_lost s;
  ended_aliens : aliens s' = aliens s;
  ended_player : player s' = player s;
  ended_video : video s' = video s;
  ended_irq : irq_set_timer s' = irq_set_timer s;
  ended_win : player_win s' = player_win s || negb (player_lost s) && (count_active (enemies (aliens s)) 0 =? 0);
  ended_state : current_state (the_menu s') =
    if player_lost s then MENU_GAME_OVER
    else if count_active (enemies (aliens s)) 0 =? 0 then MENU_SCORES
    else current_state (the_menu s);
  ended_score : outcome_of s = Some 0 → game_active (current_score s) = true →
    final_score (current_score s') = live_score (current_score s);
  ended_saved : outcome_of s = Some 0 → player_lost s = false →
    highscore_saved_this_game (current_score s') = true;
}.

Lemma game_outcome_wp s : sys_ok s →
  wp game_outcome (λ r s', r = outcome_of s ∧ sys_ok s' ∧ ended s s') s.
Proof.
  intros Hs. unfold game_outcome, outcome_of. apply wp_bind, wp_gets.
  destruct (player_lost s) eqn:El.
  - apply wp_bind, wp_zoom. unfold wp at 1. rewrite score_calculate_final_run.
    assert (∀ sc, (game_active (current_score s) = true → final_score sc = live_score (current_score s)) →
      wp (on_menu (menu_set_state MENU_GAME_OVER);; mret (Some 0)) (λ r s', r = Some 0 ∧ sys_ok s' ∧ ended s s')
        (set_current_score sc s)) as Hend.
    { intros sc Hsc. apply wp_bind, wp_zoom, wp_bind, wp_modify, wp_modify, wp_ret.
      split; [done|]. split; [destruct Hs; by split|].
      split; simpl; rewrite ?El; try done; first [by rewrite orb_false_r|auto]. }
    destruct (game_active (current_score s)) eqn:Ea; by apply Hend.
  - apply wp_bind, wp_zoom, wp_gets. destruct (count_active _ _ =? 0) eqn:Ec.
    2: { apply wp_ret. split; [done|]. split; [destruct Hs; by split|].
         split; unfold outcome_of; simpl; rewrite ?El, ?Ec; try done; by rewrite orb_false_r. }
    apply wp_bind, wp_modify, wp_bind, wp_zoom. unfold wp at 1. rewrite score_calculate_final_run.
    assert (∀ sc, (game_active (current_score s) = true → final_score sc = live_score (current_score s)) →
      wp (on_hstate save_win_highscore;; on_menu (menu_set_state MENU_SCORES);; mret (Some 0))
        (λ r s', r = Some 0 ∧ sys_ok s' ∧ ended s s')
        (set_current_score sc (set_player_win true (set_aliens (aliens s) s)))) as Hend.
    { intros sc Hsc. apply wp_bind, wp_zoom. eapply wp_mono; [|apply save_win_keeps; exact (sys_table s Hs)].
      intros [] h (Hb & Hsaved & Hf). apply wp_bind, wp_zoom, wp_bind, wp_modify, wp_modify, wp_ret.
      split; [done|]. split; [destruct Hs; by split|]. simpl in Hf, Hsaved.
      split; simpl; rewrite ?El, ?Ec; try done; [by rewrite orb_true_r|]. intros _ Ha.
      rewrite Hf. auto. }
    cbn [game_active current_score set_player_win set_aliens].
    destruct (game_active (current_score s)) eqn:Ea; by apply Hend.
Qed.

(** A frame whose aliens all fit is shown and ends with its outcome; if an alien is too low,
    the drawing is given up and the function returns 1. *)
Lemma game_draw_wp g s : playing g s → oy g <= 60000 →
  wp game_draw (λ r s', sys_ok s' ∧ aliens s' = aliens s ∧
    (landed s ∧ r = Some 1 ∧ rest s s' ∨
     ¬ landed s ∧ r = outcome_of s ∧
       ∃ v, shown (video s) v ∧ ended (set_video v s) s')) s.
Proof.
  intros [Hs Hf Hg] Hy. pose proof (sys_width s Hs) as Hw. pose proof (sys_height s Hs) as Hh.
  pose proof (sys_ship s Hs) as Hship. pose proof (ship_on_screen _ _ Hship) as Hx.
  unfold ship_width in Hx. unfold game_draw. apply wp_bind, wp_gets. unfold id.
  apply wp_bind, wp_zoom. eapply wp_mono; [|apply draw_ship_fits; [by apply sys_gfx|lia..]].
  intros rc g1 [-> Hp1]. apply paints_redrawn in Hp1 as Hr1. cbn [Z.eqb negb].
  destruct (redrawn_screen _ _ Hr1) as (Hx1 & Hy1 & _).
  apply wp_bind, wp_zoom. eapply wp_mono;
    [|apply (draw_all_enemies_result g (aliens s) g1); [by eapply redrawn_ok|congruence|done..]].
  intros rc g2 (Hr2 & Hrc & Hlow).
  assert (rc = 1 ↔ landed s) as Hland.
  { rewrite Hlow. unfold landed. by setoid_rewrite <- (low_iff (vres g1)); [|congruence]. }
  assert (redrawn (video s) g2) as Hr by by eapply redrawn_trans.
  destruct Hrc as [->| ->]; cbn [Z.eqb negb].
  2: { apply wp_ret. split; [by apply (draws_screen s g2)|]. split; [done|]. left. by rewrite <- Hland. }
  destruct (redrawn_screen _ _ Hr) as (Hx2 & Hy2 & _).
  apply wp_bind, wp_zoom. eapply wp_mono; [|apply (draw_all_bullets_fits _ g2 1152);
    [by eapply redrawn_ok|congruence|lia|by apply ship_bullets_in]].
  intros rc g3 [-> Hr3]. cbn [Z.eqb negb].
  apply wp_bind, wp_zoom. eapply wp_mono; [|apply draw_enemy_bullets_safe; by eapply redrawn_ok].
  intros [] g4 Hr4. apply wp_bind, wp_zoom.
  eapply wp_mono; [|apply draw_shields_safe; by eapply redrawn_ok].
  intros [] g5 Hr5. apply wp_bind, wp_zoom.
  eapply wp_mono; [|apply draw_live_score_safe; by eapply redrawn_ok].
  intros [] g6 Hr6. apply wp_bind, wp_zoom.
  assert (redrawn (video s) g6) as [Hok6 Hm6 Hv6] by eauto using redrawn_trans.
  unfold wp at 1. cbn [video set_video]. rewrite swap_buffers_run by done.
  set (v := set_video_mem (back_buf g6) g6).
  assert (shown (video s) v) as Hsh by (split; [by apply swap_buffers_ok|by split]).
  assert (sys_ok (set_video v s)) as Hok.
  { destruct Hs. split; simpl; try done; [apply Hsh|..]; unfold hres, vres in *;
      destruct Hsh as (_ & -> & _); done. }
  eapply wp_mono; [|apply (game_outcome_wp (set_video v s) Hok)].
  intros r s' (-> & Hok' & Hend). split; [done|]. split; [by rewrite (ended_aliens _ _ Hend)|].
  right. split; [rewrite <- Hland; lia|]. split; [done|]. by exists v.
Qed.
End frame.

(** ** The loop *)

(** The state between two messages of a game. *)
Definition in_game {W} (s : sys W) : Prop := ∃ g, playing g s ∧ oy g <= 830.

Section loop.
Context {W : Type} `{PortIO W} `{Receive W} `{RandomLaws W} `{XpmLoaderLaws}.
Implicit Types s : sys W.

(** The keyboard's handler has read the controller. *)
Definition has_read (w w' : W) : Prop := ∃ r, reads KEYBOARD_OUT_CMD false 10 w r w'.

Lemma read_scancode_wp s (Q : unit → sys W → Prop) :
  (∀ v w, has_read (world s) w → Q tt (set_scancode v (set_world w s))) → wp read_scancode Q s.
Proof.
  intros HQ. unfold read_scancode. apply wp_bind, wp_gets, wp_bind, wp_zoom.
  destruct (kbc_ih_scancode (scancode s) (world s)) as (r & w & Hr & E). unfold wp at 1. rewrite E.
  apply wp_modify, HQ. by exists r.
Qed.

Lemma game_key_wp g s : playing g s → wp game_key (λ _ s', playing g s' ∧
  aliens s' = aliens s ∧ irq_set_timer s' = irq_set_timer s ∧ has_read (world s) (world s')) s.
Proof.
  intros [Hs Hf Hg]. unfold game_key. apply wp_bind, read_scancode_wp. intros v w Hw0.
  apply wp_bind, wp_gets. destruct (negb _).
  - apply wp_bind, wp_gets. apply wp_zoom. assert (screen_width s = 1152) as Hw by apply (sys_width s Hs).
    change (screen_width (set_scancode v (set_world w s))) with (screen_width s). rewrite Hw.
    eapply wp_mono; [|apply (ship_action_wp _ 1152 (player s)); [lia|by apply sys_ship]].
    intros [] [p sc] (Hp & _). split; [|done]. split; try done. destruct Hs. by split.
  - apply wp_ret. split; [|done]. split; try done. destruct Hs. by split.
Qed.

(** What a frame returns. *)
Definition frame_result (r : option Z) s' : Prop :=
  sys_ok s' ∧
  match r with
  | None => in_game s' ∧ player_lost s' = false ∧ 0 < living (enemies (aliens s')) ∧ ¬ landed s' ∧
            video_mem (video s') = back_buf (video s')
  | Some rc =>
      rc = 1 ∧ landed s' ∨
      rc = 0 ∧ ¬ landed s' ∧ video_mem (video s') = back_buf (video s') ∧
      (player_lost s' = true ∧ current_state (the_menu s') = MENU_GAME_OVER ∨
       player_lost s' = false ∧ living (enemies (aliens s')) = 0 ∧ player_win s' = true ∧
       current_state (the_menu s') = MENU_SCORES ∧
       highscore_saved_this_game (current_score s') = true)
  end.

Lemma landed_same s s' : aliens s' = aliens s → landed s' ↔ landed s.
Proof. unfold landed. by intros ->. Qed.

(** A formation with a living alien that fits is not below 830. *)
Lemma not_landed_low g s : playing g s → ¬ landed s → 0 < living (enemies (aliens s)) → oy g <= 830.
Proof.
  intros [Hs Hf Hg] Hn (k & e & Hk & Ha)%living_exists.
  destruct (rep_place _ _ Hf _ _ Hk Ha) as [_ Hey].
  pose proof (row_range k (enemy_index (aliens s) k e (rep_length _ _ Hf) Hk)).
  destruct (Z_le_gt_dec (oy g) 830) as [?|?]; [done|]. exfalso. apply Hn. exists k, e. split_and!; [done..|lia].
Qed.

(** The next state of a game that goes on. *)
Definition continues g s s' : Prop :=
  irq_set_timer s' = irq_set_timer s ∧
  enemy_move_timer (aliens s') = (enemy_move_timer (aliens s) + 1) mod 30 ∧
  ∃ g', playing g' s' ∧ oy g' <= 830 ∧
    thins (if enemy_move_timer (aliens s) =? 29 then grid_step 1152 g else g) g'.

Lemma frame_wp g s : playing g s → oy g <= 830 →
  wp (game_update;; game_draw) (λ r s', frame_result r s' ∧ (r = None → continues g s s')) s.
Proof.
  intros Hp Hy. apply wp_bind. eapply wp_mono; [|apply (game_update_goes g); [done|lia]].
  intros [] s1 (Hrest & Ht & g1 & Hp1 & Hth).
  assert (oy g1 <= 50000) as Hy1.
  { rewrite (thins_y _ _ Hth). pose proof (grid_step_oy 1152 g). destruct (_ =? 29); lia. }
  eapply wp_mono; [|apply (game_draw_wp g1); [done|lia]].
  intros r s2 (Hok & Ha & [(Hl & -> & _)|(Hl & -> & v & (_ & _ & Hv) & Hend)]).
  { split; [|done]. split; [done|]. left. split; [done|]. by rewrite (landed_same s1). }
  assert (¬ landed s2) as Hl2 by by rewrite (landed_same s1).
  assert (video_mem (video s2) = back_buf (video s2)) as Hshown by by rewrite (ended_video _ _ Hend).
  pose proof (ended_lost _ _ Hend) as Elost. pose proof (ended_win _ _ Hend) as Ewin.
  pose proof (ended_state _ _ Hend) as Est. pose proof (ended_saved _ _ Hend) as Esv.
  pose proof (ended_irq _ _ Hend) as Eirq. pose proof (rest_irq_tim _ _ Hrest) as Eirq1.
  assert (playing g1 s2) as Hp2 by (destruct Hp1 as [? ? ?]; split; [done| |done]; by rewrite Ha).
  rewrite <- Ha in Ht. unfold outcome_of in *.
  cbn [set_video player_lost aliens player_win the_menu irq_set_timer tick set_timer_counter] in *.
  rewrite <- Ha in *.
  assert (count_active (enemies (aliens s2)) 0 = living (enemies (aliens s2))) as Hcnt.
  { pose proof (sys_fleet _ Hok). rewrite count_active_length by lia. unfold living. lia. }
  destruct (player_lost s1) eqn:El.
  - split; [|done]. split; [done|]. right. split_and!; try done. left. split; [congruence|done].
  - rewrite Hcnt in *. destruct (living (enemies (aliens s2)) =? 0) eqn:Ec.
    + split; [|done]. split; [done|]. right. split_and!; try done. right. simpl in *.
      rewrite orb_true_r in Ewin. split_and!; [congruence|lia|done..|]. by apply Esv.
    + assert (0 < living (enemies (aliens s2))) by (unfold living in *; lia).
      assert (oy g1 <= 830) by by apply (not_landed_low g1 s2).
      split.
      * split; [done|]. split_and!; try done; try congruence. by exists g1.
      * intros _. split; [congruence|]. split; [done|]. by exists g1.
Qed.

(** A message without the timer's bit changes the ship alone. *)
Lemma game_message_wp m g s : playing g s → oy g <= 830 →
  wp (game_message m) (λ r s', frame_result r s' ∧ (r = None → continues g s s') ∨
    (irq_pending m (irq_set_timer s) && from_hardware m = false) ∧
    r = None ∧ playing g s' ∧ aliens s' = aliens s ∧ irq_set_timer s' = irq_set_timer s ∧
    (world s' = world s ∨ has_read (world s) (world s'))) s.
Proof.
  intros Hp Hy. unfold game_message.
  destruct (from_hardware m); [|apply wp_ret; right; rewrite andb_false_r; by split_and!; auto].
  apply wp_bind, wp_gets. apply wp_bind.
  assert (∀ s', playing g s' → aliens s' = aliens s → irq_set_timer s' = irq_set_timer s →
    world s' = world s ∨ has_read (world s) (world s') →
    wp (irq_tim ← gets irq_set_timer;
      if irq_pending m irq_tim then game_update;; game_draw else mret None)
    (λ r s', frame_result r s' ∧ (r = None → continues g s s') ∨
      (irq_pending m (irq_set_timer s) && true = false) ∧
      r = None ∧ playing g s' ∧ aliens s' = aliens s ∧ irq_set_timer s' = irq_set_timer s ∧
      (world s' = world s ∨ has_read (world s) (world s'))) s') as Hrec.
  { intros s0 Hp0 Ha Hi Hw. apply wp_bind, wp_gets. rewrite Hi.
    destruct (irq_pending _ _); [|apply wp_ret; by right].
    eapply wp_mono; [|by apply (frame_wp g)]. intros r s' [? Hc]. left. split; [done|].
    intros Hr. unfold continues. rewrite <- Ha, <- Hi. by apply Hc. }
  destruct (irq_pending m (irq_set_keyboard s)); [|by apply wp_ret, Hrec; auto].
  eapply wp_mono; [|by apply (game_key_wp g)]. intros [] s1 (? & ? & ? & ?). by apply Hrec; auto.
Qed.

(** The end of a game, with the code that game_state returns. *)
Definition game_result (rc : Z) s' : Prop :=
  sys_ok s' ∧
  (rc = 1 ∧ landed s' ∨
   rc = 0 ∧ (current_state (the_menu s') = MENU_MAIN ∧ scancode s' = KB_BREAK_ESC ∨
             current_state (the_menu s') = MENU_GAME_OVER ∧ player_lost s' = true ∨
             current_state (the_menu s') = MENU_SCORES ∧ player_win s' = true ∧
               living (enemies (aliens s')) = 0)).

Lemma game_step_wp g s : playing g s → oy g <= 830 →
  wp game_step (λ r s', frame_result r s' ∧ (r = None → continues g s s') ∨
    ¬ brings (irq_set_timer s) (world s) ∧ passes (world s) (world s') ∧
    r = None ∧ playing g s' ∧ aliens s' = aliens s ∧ irq_set_timer s' = irq_set_timer s) s.
Proof.
  intros Hp Hy. unfold game_step, brings, is_interrupt. apply wp_bind, wp_zoom. unfold wp at 1, call.
  destruct (driver_receive (world s)) as [[rc m] w] eqn:E.
  assert (playing g (set_world w s)) as Hp' by (destruct Hp as [[] ? ?]; by split).
  destruct (Z.eqb_spec rc 0) as [->|Hrc]; cbn [negb].
  - eapply wp_mono; [|by apply (game_message_wp m g)].
    intros r s' [?|(Hm & ? & ? & ? & ? & Hw)]; [by left|]. right. cbn [irq_set_timer set_world world] in *.
    split; [intros [_ Hb]; by rewrite andb_comm, Hm in Hb|]. split; [|done].
    destruct Hw as [->|[r0 Hr]]; [by eapply passes_by|by eapply passes_read].
  - apply wp_ret. right. split; [by intros []|]. split; [by eapply passes_by|done].
Qed.

Lemma esc_result s : sys_ok s → scancode s = KB_BREAK_ESC →
  wp (on_score score_reset;; on_menu (menu_set_state MENU_MAIN);; mret 0) game_result s.
Proof.
  intros [] Hs. apply wp_bind, wp_zoom, wp_modify, wp_bind, wp_zoom, wp_bind, wp_modify, wp_modify, wp_ret.
  split; [by split|]. right. split; [done|]. by left.
Qed.

Lemma frame_game_result rc s : frame_result (Some rc) s → game_result rc s.
Proof.
  intros [Hok [?|(-> & _ & _ & Hres)]]; (split; [done|]); [by left|].
  right. split; [done|]. right. destruct Hres as [[? ?]|(? & ? & ? & ? & ?)]; [by left|right; by split_and!].
Qed.

Lemma game_loop_wlp fuel : ∀ s, in_game s → wlp (game_loop fuel) game_result s.
Proof.
  induction fuel as [|fuel IH]; intros s (g & Hp & Hy); [done|]. cbn [game_loop].
  apply wlp_bind. unfold wlp at 1, gets. destruct (scancode s =? KB_BREAK_ESC) eqn:Esc; cbn [negb].
  - apply wp_wlp, esc_result; [apply Hp|lia].
  - apply wlp_bind, wp_wlp. eapply wp_mono; [|by apply (game_step_wp g)].
    intros [rc|] s' [[Hres Hc]|(_ & _ & ? & ? & _)]; [|done| |by apply IH; exists g].
    + by apply frame_game_result.
    + apply IH. by destruct Hres as [_ [? _]].
Qed.

(** ** Termination

    The potential of a formation bounds the moves until it is below 830: three moves for
    every pixel left, and the moves to the edge, the turn and the drop before it. *)
Definition moves_left (g : grid) : Z :=
  3 * (870 - oy g) +
  (if drop g then if grid_edge 1152 g then 2 else 1
   else (if dir g >? 0 then 1111 - ox g else ox g + 500) / 20 + 3).

Definition frames_left (g : grid) (t : Z) : Z := 30 * moves_left g + (30 - t).

Lemma edge_thins g g' : thins g g' → grid_edge 1152 g' = true → grid_edge 1152 g = true.
Proof.
  intros [Hx _ Hd _ Ha]. rewrite !grid_edge_spec, Hx, Hd. intros (k & ? & ? & ?). exists k. auto.
Qed.

Lemma moves_left_thins g g' : thins g g' → moves_left g' <= moves_left g.
Proof.
  intros Hth. unfold moves_left. pose proof (edge_thins g g' Hth) as He.
  destruct Hth as [-> -> -> -> _]. destruct (drop g); [|lia].
  destruct (grid_edge 1152 g'); [rewrite He by done; lia|]. destruct (grid_edge 1152 g); lia.
Qed.

Lemma some_alive g s : playing g s → 0 < living (enemies (aliens s)) →
  ∃ k, (k < 18)%nat ∧ alive_at g k = true.
Proof.
  intros [Hs Hf Hg] (k & e & Hk & Ha)%living_exists.
  exists k. split; [by eapply enemy_index; [apply (rep_length _ _ Hf)|]|].
  by rewrite (alive_lookup _ _ _ _ Hf Hk).
Qed.

(** With an alien on the screen the potential is neither negative nor large. *)
Lemma moves_left_bounds g k : grid_ok 1152 g → (k < 18)%nat → alive_at g k = true → oy g <= 830 →
  0 <= moves_left g <= 2600.
Proof.
  intros Hg Hk Ha Hy. pose proof (grid_x _ _ Hg k Hk Ha) as Hx. pose proof (col_range k) as Hc.
  pose proof (grid_top _ _ Hg). unfold moves_left.
  destruct (drop g); [destruct (grid_edge 1152 g); lia|].
  destruct (dir g >? 0); Z.to_euclidean_division_equations; lia.
Qed.

Lemma moves_left_step g k : grid_ok 1152 g → (k < 18)%nat → alive_at g k = true →
  moves_left (grid_step 1152 g) < moves_left g.
Proof.
  intros Hg Hk Ha. pose proof (grid_x _ _ Hg k Hk Ha) as Hx. pose proof (col_range k) as Hc.
  pose proof (no_two_edges 1152 g ltac:(lia) (grid_dir _ _ Hg)) as Ht.
  unfold moves_left, grid_step. destruct (grid_edge 1152 g) eqn:E; cbn [oy drop dir ox].
  - rewrite Ht by done. destruct (drop g); [lia|].
    destruct (grid_dir _ _ Hg) as [Hd|Hd]; rewrite Hd; cbn [Z.gtb Z.compare];
      Z.to_euclidean_division_equations; lia.
  - destruct (drop g); cbn [oy drop dir ox]; destruct (grid_dir _ _ Hg) as [Hd|Hd]; rewrite Hd; cbn [Z.gtb Z.compare];
      Z.to_euclidean_division_equations; lia.
Qed.

Lemma continues_closer g s s' : playing g s → continues g s s' → 0 < living (enemies (aliens s')) →
  ∃ g', playing g' s' ∧ oy g' <= 830 ∧ irq_set_timer s' = irq_set_timer s ∧
    frames_left g' (enemy_move_timer (aliens s')) < frames_left g (enemy_move_timer (aliens s)).
Proof.
  intros [Hs Hf Hg] (Hi & Ht & g' & Hp' & Hy' & Hth) Hl. exists g'. split_and!; try done.
  destruct (some_alive g' s' Hp' Hl) as (k & Hk & Ha). apply (thins_alive _ _ Hth) in Ha.
  apply moves_left_thins in Hth. pose proof (sys_move_timer s Hs). unfold frames_left. rewrite Ht.
  destruct (_ =? 29) eqn:E.
  - unfold alive_at in Ha. rewrite grid_step_alive in Ha.
    pose proof (moves_left_step g k Hg Hk Ha). replace (enemy_move_timer (aliens s)) with 29 by lia.
    change ((29 + 1) mod 30) with 0. lia.
  - rewrite Z.mod_small by lia. lia.
Qed.

Lemma game_loop_wp n : ∀ g s, playing g s → oy g <= 830 →
  (∀ w, brings (irq_set_timer s) w) →
  frames_left g (enemy_move_timer (aliens s)) <= Z.of_nat n →
  wp (game_loop (S n)) game_result s.
Proof.
  induction n as [|n IH]; intros g s Hp Hy Hticks Hn; cbn [game_loop];
    apply wp_bind, wp_gets; (destruct (scancode s =? KB_BREAK_ESC) eqn:Esc; cbn [negb];
      [apply esc_result; [apply Hp|lia]|]);
    apply wp_bind; (eapply wp_mono; [|by apply (game_step_wp g)]);
    (intros [rc|] s' [[Hres Hc]|(Hnt & _)]; [by apply frame_game_result|by destruct Hnt| |by destruct Hnt]);
    destruct Hres as (Hok & _ & _ & Hl & _);
    destruct (continues_closer g s s' Hp (Hc eq_refl) Hl) as (g' & Hp' & Hy' & Hi & Hless).
  - exfalso. destruct Hp' as [Hs' Hf' Hg']. pose proof (sys_move_timer s' Hs').
    destruct (some_alive g' s') as (k & Hk & Ha); [by split|done|].
    pose proof (moves_left_bounds g' k Hg' Hk Ha Hy'). unfold frames_left in *. lia.
  - apply (IH g'); [done..|by rewrite Hi|lia].
Qed.

(** One message of the loop: the game ends, or the potential falls, or nothing of the formation
    changes and the next message with a tick is nearer. *)
Lemma game_loop_turn g s : playing g s → oy g <= 830 →
  (∀ fuel, wp (game_loop (S fuel)) game_result s) ∨
  ∃ g' s', playing g' s' ∧ oy g' <= 830 ∧ irq_set_timer s' = irq_set_timer s ∧
    (∀ fuel, wp (game_loop fuel) game_result s' → wp (game_loop (S fuel)) game_result s) ∧
    let left := frames_left g (enemy_move_timer (aliens s)) in
    let left' := frames_left g' (enemy_move_timer (aliens s')) in
    (left' < left ∧ 0 < left' ∨
     ¬ brings (irq_set_timer s) (world s) ∧ passes (world s) (world s') ∧ left' = left).
Proof.
  intros Hp Hy. pose proof (game_step_wp g s Hp Hy) as Hw. apply wp_done in Hw as (r & s1 & E & Hcase).
  destruct (scancode s =? KB_BREAK_ESC) eqn:Esc.
  { left. intros fuel. cbn [game_loop]. apply wp_bind, wp_gets. rewrite Esc.
    apply esc_result; [apply Hp|lia]. }
  assert (∀ fuel, wp (match r with Some rc => mret rc | None => game_loop fuel end) game_result s1 →
    wp (game_loop (S fuel)) game_result s) as Hturn.
  { intros fuel Hw. cbn [game_loop]. apply wp_bind, wp_gets. rewrite Esc. by eapply wp_run. }
  destruct Hcase as [[Hres Hc]|(Hnb & Hpass & -> & Hp1 & Ha & Hi)].
  - destruct r as [rc|]; [left; intros fuel; by apply Hturn, frame_game_result|right].
    destruct Hres as (_ & _ & _ & Hl & _).
    destruct (continues_closer g s s1 Hp (Hc eq_refl) Hl) as (g' & Hp' & Hy' & Hi & Hless).
    exists g', s1. do 4 (split; [done|]). left. split; [done|].
    destruct (some_alive g' s1 Hp' Hl) as (k & Hk & Ha).
    pose proof (moves_left_bounds g' k (playing_grid g' s1 Hp') Hk Ha Hy').
    pose proof (sys_move_timer s1 (playing_sys g' s1 Hp')). unfold frames_left. lia.
  - right. exists g, s1. do 4 (split; [done|]). right. by rewrite Ha.
Qed.

(** Messages without the timer's bit may come in between, as long as the next tick is due. *)
Lemma game_loop_fair n : ∀ g s, playing g s → oy g <= 830 → (∀ w, due (irq_set_timer s) w) →
  frames_left g (enemy_move_timer (aliens s)) <= Z.of_nat n →
  ∃ fuel, wp (game_loop fuel) game_result s.
Proof.
  induction n as [n IHn] using lt_wf_ind. intros g s Hp Hy Hdue Hn. remember (world s) as w eqn:Ew.
  pose proof (Hdue w) as Hd. remember (irq_set_timer s) as irq eqn:Ei.
  revert g s Ei Ew Hp Hy Hn.
  induction Hd as [w Hb|w _ IHw]; intros g s -> -> Hp Hy Hn;
    (destruct (game_loop_turn g s Hp Hy) as [Hend|(g' & s' & Hp' & Hy' & Hi & Hturn & Hcase)];
      [by exists 1%nat|]).
  - destruct Hcase as [[? ?]|[? _]]; [|done].
    destruct (IHn (Z.to_nat (frames_left g' (enemy_move_timer (aliens s'))))) with (g := g') (s := s')
      as [fuel Hf]; [lia|done|done|by rewrite Hi|lia|]. exists (S fuel). by apply Hturn.
  - destruct Hcase as [[? ?]|(_ & Hpass & Heq)].
    + destruct (IHn (Z.to_nat (frames_left g' (enemy_move_timer (aliens s'))))) with (g := g') (s := s')
        as [fuel Hf]; [lia|done|done|by rewrite Hi|lia|]. exists (S fuel). by apply Hturn.
    + destruct (IHw _ Hpass g' s') as [fuel Hf]; [done|done|done|done|simpl in *; lia|].
      exists (S fuel). by apply Hturn.
Qed.
End loop.

(** ** Properties *)

Lemma start_game {W} g (s : sys W) sc : playing g s →
  playing g (set_current_score sc (set_player_win false (set_player_lost false s))).
Proof. intros [[] ? ?]. by split. Qed.

Lemma game_state_start {W} `{PortIO W} `{Receive W} `{RandomLaws W} `{XpmLoaderLaws} g (s : sys W) :
  playing g s → ∃ s1, playing g s1 ∧ irq_set_timer s1 = irq_set_timer s ∧
    ∀ fuel, game_state fuel s = game_loop fuel s1.
Proof. intros Hp. eexists. split; [by eapply start_game|]. split; [done|reflexivity]. Qed.

Lemma game_state_wlp {W} `{PortIO W} `{Receive W} `{RandomLaws W} `{XpmLoaderLaws} fuel (s : sys W) :
  in_game s → wlp (game_state fuel) game_result s.
Proof.
  intros (g & Hp & Hy). unfold game_state.
  do 2 (apply wlp_bind; unfold wlp at 1, modify). apply wlp_bind. unfold wlp at 1, gets.
  apply wlp_bind, wp_wlp, wp_zoom, wp_modify. apply game_loop_wlp. exists g.
  split; [|done]. by apply start_game.
Qed.

(** C8. One interrupt message with the timer's bit, whatever else it carries, runs one frame:
    the keyboard's handler if its bit is set, the update and the drawing.  game_state is left
    with 1 exactly when a living alien is too low to be drawn; otherwise the drawn frame is on
    the screen, and the game is left with 0 when the player lost (the menu shows the game over)
    or when no alien is left (the score is saved once and the menu shows the scores), and goes
    on if not: the aliens made at most one step of the formation, at the 30th tick, some of them
    were shot, and no access left an array or the screen. *)
Theorem timer_frame_result {W} `{PortIO W} `{Receive W} `{RandomLaws W} `{XpmLoaderLaws} m g (s : sys W) :
  playing g s → oy g <= 830 → from_hardware m = true → irq_pending m (irq_set_timer s) = true →
  wp (game_message m) (λ r s', frame_result r s' ∧ (r = None → continues g s s')) s.
Proof.
  intros Hp Hy Hm Hi. eapply wp_mono; [|by apply (game_message_wp m g)].
  intros r s' [?|(Hn & _)]; [done|]. by rewrite Hm, Hi in Hn.
Qed.

(** A game never reaches undefined behaviour, whatever messages it receives and however
    long it runs, and if it ends then with 1 because an alien landed, or with 0 and the menu in
    the state that matches the reason: the main menu after ESC, the game over after a loss, the
    scores after the last alien was shot. *)
Theorem game_state_result {W} `{PortIO W} `{Receive W} `{RandomLaws W} `{XpmLoaderLaws} fuel (s : sys W) :
  in_game s → wlp (game_state fuel) game_result s.
Proof. apply game_state_wlp. Qed.

(** C7. Every game ends, whatever the player, the random numbers and the devices do: if only
    finitely many messages come before each next interrupt of the timer, game_state returns after
    some number of messages, because the aliens that are not shot come down until the player lost
    or one of them landed. *)
Theorem game_always_ends {W} `{PortIO W} `{Receive W} `{RandomLaws W} `{XpmLoaderLaws} (s : sys W) :
  in_game s → (∀ w : W, due (irq_set_timer s) w) → ∃ fuel, wp (game_state fuel) game_result s.
Proof.
  intros (g & Hp & Hy) Hdue. destruct (game_state_start g s Hp) as (s1 & Hp1 & Hi & Hrun).
  destruct (game_loop_fair (Z.to_nat (frames_left g (enemy_move_timer (aliens s1)))) g s1)
    as [fuel Hf]; [done|done|by rewrite Hi|lia|].
  exists fuel. by apply (wp_ext _ _ _ _ (Hrun fuel)).
Qed.

(** When every message brings the timer's interrupt, 80000 messages are enough. *)
Theorem game_length_bounded {W} `{PortIO W} `{Receive W} `{RandomLaws W} `{XpmLoaderLaws} fuel (s : sys W) :
  in_game s → 0 < living (enemies (aliens s)) → (∀ w, brings (irq_set_timer s) w) →
  80000 <= Z.of_nat fuel → wp (game_state fuel) game_result s.
Proof.
  intros (g & Hp & Hy) Hl Ht Hfuel. destruct (some_alive g s Hp Hl) as (k & Hk & Ha).
  pose proof (moves_left_bounds g k (playing_grid g s Hp) Hk Ha Hy).
  pose proof (sys_move_timer s (playing_sys g s Hp)).
  destruct fuel as [|n]; [lia|]. unfold game_state.
  do 2 (apply wp_bind, wp_modify). apply wp_bind, wp_gets, wp_bind, wp_zoom, wp_modify.
  apply (game_loop_wp n g); [by apply start_game|done..|]. simpl. unfold frames_left. lia.
Qed.

(** ** Witnesses *)
Module GameWitness.
Import Sim BlankLoader Screen Enemies.Witness.

(** A machine that first hands over the messages of its queue, and then nothing but interrupts of
    the timer, on irq 0. *)
#[local] Instance metronome : Receive sim := {|
  driver_receive := λ w,
    match queue w with
    | m :: ms => ((0, m), MkSim (inputs w) (out_log w) (delays w) (hooks w) ms (rands w) (mode w))
    | [] => ((0, hw_message 1), w)
    end |}.

Lemma reads_queue port mouse n (w w' : sim) r : reads port mouse n w r w' → queue w' = queue w.
Proof.
  assert (∀ p (w w' : sim) v, sys_inb p w = (v, w') → queue w' = queue w) as Hin.
  { intros p w0 w1 v E. simpl in E. unfold sim_inb in E. destruct (inputs w0); by simplify_eq. }
  induction 1; repeat match goal with E : sys_inb _ _ = _ |- _ => apply Hin in E end; simpl in *; congruence.
Qed.

Lemma metronome_due w : due 0 w.
Proof.
  remember (length (queue w)) as n eqn:En. revert w En.
  induction n as [|n IH]; intros w En; destruct (queue w) as [|m ms] eqn:Eq; simplify_eq/=.
  { apply due_now. unfold brings. simpl. by rewrite Eq. }
  apply due_later. intros w' Hp. apply IH.
  destruct Hp as [rc m' w1 E|m' w1 r w2 E Hr]; simpl in E; rewrite Eq in E; simplify_eq; [done|].
  by rewrite (reads_queue _ _ _ _ _ _ Hr).
Qed.

(** A game at its start on the screen of mode 0x14c, with the keyboard on irq 1. *)
Definition game0 : sys sim :=
  set_irq_set_keyboard 1 (set_aliens fleet0 (sys_start quiet screen (Disk None true true true true))).

Lemma game0_sys : sys_ok game0.
Proof.
  split; [exact screen_ok|done|done|apply ship_start_ok; lia| |done|done|by left|done].
  done.
Qed.

Lemma game0_playing : playing grid0 game0.
Proof. split; [exact game0_sys|exact fleet0_represents|exact grid0_ok]. Qed.

Lemma timer_frame_result_witness :
  irq_pending (hw_message 3) (irq_set_timer game0) = true ∧
  wp (game_message (hw_message 3)) (λ r s', frame_result r s' ∧ (r = None → continues grid0 game0 s')) game0.
Proof.
  split; [reflexivity|]. apply (timer_frame_result (hw_message 3) grid0 game0 game0_playing);
    [vm_compute; discriminate|reflexivity|reflexivity].
Defined.

Lemma game_state_result_witness : wlp (game_state 3) game_result game0.
Proof.
  apply (game_state_result 3 game0). exists grid0. split; [exact game0_playing|vm_compute; discriminate].
Defined.

Lemma game_always_ends_witness : ∃ fuel, wp (game_state fuel) game_result game0.
Proof.
  apply (game_always_ends game0).
  - exists grid0. split; [exact game0_playing|vm_compute; discriminate].
  - exact metronome_due.
Defined.
End GameWitness.
