(* ===== verification/Logs.v ===== *)
(** * A machine with a log of what is taken and given back

    [logged W] is any machine [W] that also keeps a log of the calls that take something from the
    system or give it back: the graphics mode, the interrupt subscriptions.  The log is no part of
    the programs: the instances below pass every call on to the machine.

    [follows calls stops rc l] is the promise of a program that makes the calls [calls], in this
    order: with code 0 it made them all and each succeeded, with any other code it stopped at the
    one that failed, or at one of the places [stops] where something else can fail.
    [logged_step] and [logged_bind] prove it along the code; [still_taken] is what a log leaves
    taken. *)

From S2P Require Import Prelude Triples Machine Utils Xpm Graphics Keyboard Timer Mouse.

(** ** The log *)
Inductive event :=
| Graphics (rc : Z)
| Subscribe (irq policy hook_in hook : Z) (rc : Z)
| Unsubscribe (hook : Z) (rc : Z)
| Text (rc : Z).

Record logged (W : Type) := Logged { inner : W; log : list event }.
Arguments Logged {_}.
Arguments inner {_} _.
Arguments log {_} _.

Section machine.
Context {W : Type} `{PortIO W} `{Interrupts W} `{Receive W} `{Random W} `{Video W} `{Panic W}.

(** A call that is not logged, and one that is. *)
Definition lift {A} (f : W → A * W) (x : logged W) : A * logged W :=
  let '(a, w) := f (inner x) in (a, Logged w (log x)).
Definition lift_log {A} (f : W → A * W) (e : A → event) (x : logged W) : A * logged W :=
  let '(a, w) := f (inner x) in (a, Logged w (log x ++ [e a])).

#[export] Instance logged_ports : PortIO (logged W) := {|
  sys_inb := λ port, lift (sys_inb port);
  sys_outb := λ port v, lift (sys_outb port v);
  micros_to_ticks := micros_to_ticks;
  tickdelay := λ n x, Logged (tickdelay n (inner x)) (log x) |}.

#[export] Instance logged_interrupts : Interrupts (logged W) := {|
  sys_irqsetpolicy := λ irq policy hook,
    lift_log (sys_irqsetpolicy irq policy hook) (λ '(rc, h), Subscribe irq policy hook h rc);
  sys_irqrmpolicy := λ hook,
    lift_log (sys_irqrmpolicy hook) (λ '(rc, _), Unsubscribe hook rc) |}.

#[export] Instance logged_receive : Receive (logged W) := {| driver_receive := lift driver_receive |}.

#[export] Instance logged_random : Random (logged W) := {|
  rand := lift rand;
  srand_time := λ x, Logged (srand_time (inner x)) (log x) |}.

#[export] Instance logged_video : Video (logged W) := {|
  vbe_get_mode_info := λ m, lift (vbe_get_mode_info m);
  sys_int86 := λ r, lift_log (sys_int86 r) Graphics;
  sys_privctl_add_mem := λ b l, lift (sys_privctl_add_mem b l);
  vm_map_phys := λ b n, lift (vm_map_phys b n);
  malloc := λ n, lift (malloc n);
  vg_exit := lift_log vg_exit Text |}.

#[export] Instance logged_panic : Panic (logged W) := {|
  panic := λ x, Logged (panic (inner x)) (log x) |}.
End machine.

(** ** What leaves the log alone *)
Section quiet.
Context {W : Type} `{PortIO W} `{Interrupts W} `{Receive W} `{Random W} `{Video W} `{Panic W}.
Variable l : list event.

Definition unlogged (x : logged W) : Prop := log x = l.

Lemma lift_quiet {A} (f : W → A * W) : keeps unlogged (call (lift f)).
Proof. intros x a x' Hx. unfold call, lift. destruct (f (inner x)). by intros [= _ <-]. Qed.

Lemma sys_inb_quiet port : keeps unlogged (call (sys_inb port)).
Proof. apply lift_quiet. Qed.
Lemma sys_outb_quiet port v : keeps unlogged (call (sys_outb port v)).
Proof. apply lift_quiet. Qed.
Lemma receive_quiet : keeps unlogged (call driver_receive).
Proof. apply lift_quiet. Qed.
Lemma delay_quiet n : keeps unlogged (modify (tickdelay n)).
Proof. by apply keeps_modify. Qed.
#[local] Hint Resolve sys_inb_quiet sys_outb_quiet receive_quiet delay_quiet : keeps.

Lemma util_sys_inb_quiet port v : keeps unlogged (util_sys_inb port v).
Proof. unfold util_sys_inb. keeping. Qed.
#[local] Hint Resolve util_sys_inb_quiet : keeps.

Lemma read_tries_quiet n : ∀ port o mouse st, keeps unlogged (read_tries n port o mouse st).
Proof. induction n; intros; cbn [read_tries]; keeping. Qed.
#[local] Hint Resolve read_tries_quiet : keeps.

Lemma kbc_ih_quiet sc : keeps unlogged (kbc_ih sc).
Proof. unfold kbc_ih, read_keyboard_output. keeping. Qed.

Lemma read_keyboard_output_quiet port o mouse : keeps unlogged (read_keyboard_output port o mouse).
Proof. unfold read_keyboard_output. keeping. Qed.

Lemma timer_set_frequency_quiet timer freq : keeps unlogged (timer_set_frequency timer freq).
Proof. unfold timer_set_frequency, timer_get_conf. keeping. Qed.

Lemma kbc_check_in_buf_quiet : keeps unlogged kbc_check_in_buf.
Proof. unfold kbc_check_in_buf, kbc_read_status. keeping. Qed.
#[local] Hint Resolve kbc_check_in_buf_quiet : keeps.

Lemma kbc_command_handler_quiet fuel cmd arg : keeps unlogged (kbc_command_handler fuel cmd arg).
Proof.
  assert (∀ n port v, keeps unlogged (kbc_write_tries n port v)).
  { intros n port v. induction n; cbn [kbc_write_tries]; unfold pause; keeping. }
  assert (∀ n c a, keeps unlogged (mouse_write_tries n c a)).
  { intros n c a. induction n; cbn [mouse_write_tries]; unfold pause; keeping. }
  assert (∀ tries, keeps unlogged (command_loop fuel cmd arg tries)).
  { induction fuel as [|n IH]; intros tries; cbn [command_loop];
      unfold kbc_write_command, kbc_write_argument, mouse_write_command; keeping. }
  unfold kbc_command_handler. keeping.
Qed.

Lemma mouse_ih_quiet d : keeps unlogged (mouse_ih d).
Proof. unfold mouse_ih, kbc_check_out_buf, kbc_read_status, kbc_read_buffer. keeping. Qed.
End quiet.

#[export] Hint Resolve sys_inb_quiet sys_outb_quiet receive_quiet delay_quiet kbc_ih_quiet
  read_keyboard_output_quiet timer_set_frequency_quiet kbc_command_handler_quiet mouse_ih_quiet : keeps.

(** ** Taking and giving back *)

(** Calls that all succeeded, and calls of which the last one failed. *)
Definition all_good (calls : list (Z → event)) : list event := (λ c, c 0) <$> calls.
Definition cut_short (calls : list (Z → event)) (l : list event) : Prop :=
  ∃ n c rc, calls !! n = Some c ∧ rc ≠ 0 ∧ l = all_good (take n calls) ++ [c rc].

(** The calls depend on the two hooks that the kernel gives. *)
Definition follows (calls : Z → Z → list (Z → event)) (stops : list nat) (rc : Z) (l : list event)
    : Prop :=
  rc = 0 ∧ (∃ k h, l = all_good (calls k h)) ∨
  rc ≠ 0 ∧ ∃ k h, cut_short (calls k h) l ∨ ∃ n, n ∈ stops ∧ l = all_good (take n (calls k h)).

(** What is taken after the calls of a log: the graphics mode, and the hooks of subscriptions. *)
Fixpoint remove_hook (h : Z) (l : list Z) : list Z :=
  match l with
  | [] => []
  | h' :: l => if h' =? h then l else h' :: remove_hook h l
  end.

Definition taken_next (t : bool * list Z) (e : event) : bool * list Z :=
  match e with
  | Graphics 0 => (true, t.2)
  | Subscribe _ _ _ hook 0 => (t.1, t.2 ++ [hook])
  | Unsubscribe hook 0 => (t.1, remove_hook hook t.2)
  | Text 0 => (false, t.2)
  | _ => t
  end.
Definition still_taken (l : list event) : bool * list Z := fold_left taken_next l (false, []).

(** Nothing is still taken once all the calls have been made. *)
Definition balanced (calls : Z → Z → list (Z → event)) : Prop :=
  ∀ k h, still_taken (all_good (calls k h)) = (false, []).

(** The promise, and that nothing is left taken. *)
Definition accounted (calls : Z → Z → list (Z → event)) (stops : list nat) (rc : Z) (l : list event)
    : Prop :=
  follows calls stops rc l ∧ (rc = 0 → still_taken l = (false, [])).

Lemma follows_accounted calls stops rc l : balanced calls → follows calls stops rc l →
  accounted calls stops rc l.
Proof. intros Hb Hf. split; [done|]. intros ->. destruct Hf as [[_ (k & h & ->)]|[? _]]; [apply Hb|done]. Qed.

Lemma follows_cut calls stops k h l : cut_short (calls k h) l → follows calls stops 1 l.
Proof. intros Hc. right. split; [done|]. exists k, h. by left. Qed.
Lemma follows_stop calls stops n k h l : n ∈ stops → l = all_good (take n (calls k h)) →
  follows calls stops 1 l.
Proof. intros Hn Hl. right. split; [done|]. exists k, h. right. by exists n. Qed.
Lemma follows_done calls stops k h l : l = all_good (calls k h) → follows calls stops 0 l.
Proof. intros Hl. left. split; [done|]. by exists k, h. Qed.

Ltac prove_balanced :=
  intros k h; unfold still_taken; cbn;
  repeat (rewrite ?Z.eqb_refl; cbn); try done;
  destruct (Z.eqb_spec k h) as [->|]; cbn; by rewrite ?Z.eqb_refl.

Section protocol.
Context {S : Type}.
(** The log is [l], and the program's two hooks are [k] and [h]. *)
Variables (log_of : S → list event) (holding : list event → Z → Z → S → Prop).
Hypothesis holding_log : ∀ l k h s, holding l k h s → log_of s = l.

(** What a logged call appends, and what it returns. *)
Definition logs (l : list event) (c : Z → event) (k h : Z) (rc : Z) (s : S) : Prop :=
  ∃ r, holding (l ++ [c r]) k h s ∧ (rc = 0 ↔ r = 0).

(** The step of a logged call: what follows it starts with all the calls up to it made, or with
    the calls cut short.  What the kernel answers, [x], may occur in the calls. *)
Lemma logged_bind {X A B} (calls : X → list (Z → event)) n (c : X → Z → event) (k' h' : X → Z)
    l k h (m : M S A) (code : A → Z) (f : A → M S B) Q :
  (∀ x, calls x !! n = Some (c x)) → (∀ x, l = all_good (take n (calls x))) →
  triple (holding l k h) m (λ a s, ∃ x, logs l (c x) (k' x) (h' x) (code a) s) →
  (∀ x a, code a ≠ 0 → triple (λ s, cut_short (calls x) (log_of s)) (f a) Q) →
  (∀ x a, code a = 0 → triple (holding (all_good (take (Datatypes.S n) (calls x))) (k' x) (h' x)) (f a) Q) →
  triple (holding l k h) (m ≫= f) Q.
Proof.
  intros Hn Hl Hm Hbad Hgood. eapply triple_bind; [exact Hm|]. intros a. apply triple_exists. intros x.
  destruct (decide (code a = 0)) as [Ha|Ha].
  - eapply triple_weaken; [| |apply (Hgood x a Ha)]; [|done]. intros s (r & Hs & Hr).
    assert (r = 0) as -> by (by apply Hr).
    rewrite (take_S_r _ _ _ (Hn x)). unfold all_good. rewrite fmap_app. by rewrite (Hl x) in Hs.
  - eapply triple_weaken; [| |apply (Hbad x a Ha)]; [|done]. intros s (r & Hs & Hr).
    exists n, (c x), r. split; [done|]. split; [by rewrite <- Hr|].
    rewrite <- Hl. by apply (holding_log _ _ _ _ Hs).
Qed.

(** A call whose failure is returned as 1. *)
Lemma logged_step {X} (calls : X → list (Z → event)) n (c : X → Z → event) (k' h' : X → Z)
    l k h (m next : M S Z) Q :
  (∀ x, calls x !! n = Some (c x)) → (∀ x, l = all_good (take n (calls x))) →
  triple (holding l k h) m (λ rc s, ∃ x, logs l (c x) (k' x) (h' x) rc s) →
  (∀ x s, cut_short (calls x) (log_of s) → Q 1 s) →
  (∀ x, triple (holding (all_good (take (Datatypes.S n) (calls x))) (k' x) (h' x)) next Q) →
  triple (holding l k h) (m ;? next) Q.
Proof.
  intros Hn Hl Hm HQ Hnext. unfold check.
  apply (logged_bind calls n c k' h' l k h m (λ rc, rc)); [done|done|done|..].
  - intros x rc Hrc. rewrite (proj2 (Z.eqb_neq _ _) Hrc). by apply triple_ret, HQ.
  - intros x rc ->. apply Hnext.
Qed.

(** A subscription, whose second result is the bit of its interrupt. *)
Lemma logged_subscribe {X} (calls : X → list (Z → event)) n (c : X → Z → event) (k' h' : X → Z)
    l k h (m : M S (Z * Z)) (f : Z → M S Z) Q :
  (∀ x, calls x !! n = Some (c x)) → (∀ x, l = all_good (take n (calls x))) →
  triple (holding l k h) m (λ a s, ∃ x, logs l (c x) (k' x) (h' x) a.1 s) →
  (∀ x s, cut_short (calls x) (log_of s) → Q 1 s) →
  (∀ x irq, triple (holding (all_good (take (Datatypes.S n) (calls x))) (k' x) (h' x)) (f irq) Q) →
  triple (holding l k h) ('(rc, irq) ← m; if negb (rc =? 0) then mret 1 else f irq) Q.
Proof.
  intros Hn Hl Hm HQ Hnext. apply (logged_bind calls n c k' h' l k h m fst); [done|done|done|..].
  - intros x [rc irq] Hrc. simpl in Hrc. rewrite (proj2 (Z.eqb_neq _ _) Hrc). by apply triple_ret, HQ.
  - intros x [rc irq] Hrc. simpl in Hrc. subst rc. apply Hnext.
Qed.
End protocol.
