(* ===== verification/Records.v ===== *)
(** * The records: what a game does to the table of scores and its file

    [held es b d]: the table [b] and the file [d] hold the same entries, the file [es] in the order
    in which they were saved, the table the first 100 of them in the order of their scores.

    The theorem: a game saves one entry if it is won, the winner's, and nothing otherwise, and the
    table and the file keep holding the same.  It is about the part of the state that [held]
    looks at; the frame rules of [Triples] take care of the rest. *)

From Stdlib Require Import Sorted Permutation.
From S2P Require Import Prelude Triples Machine Xpm Graphics Keyboard Enemies Score HighScores.
From S2P Require Import Ship Collision Menu System GameState.

(** ** The table and the file *)

(** A disk on which the file can be written, or one that refuses to open it for writing. *)
Definition disk_ok (d : disk) : Prop :=
  can_read d = true ∧
  (can_append d = true ∧ can_write d = true ∨ can_append d = false ∧ can_create d = false).

Record held (es : list HighScoreEntry) (b : board) (d : disk) : Prop := {
  held_board : board_ok b;
  held_entries : Forall entry_ok es;
  held_file : stored es d ∨ csv d = None ∧ es = [];
  held_disk : disk_ok d;
  held_count : highscore_count b = Z.min 100 (Z.of_nat (length es));
  held_ranking : ranking b ≡ₚ take 100 es;
  held_sorted : StronglySorted ahead (ranking b);
}.

(** The entries after [e] was saved. *)
Definition saved (d : disk) (es : list HighScoreEntry) (e : HighScoreEntry) : list HighScoreEntry :=
  if can_append d then es ++ [e] else es.

Lemma stored_snoc es e d d1 : csv d1 = Some (default [] (csv d) ++
    match csv d with Some _ => [] | None => header end ++ csv_line e) →
  stored es d ∨ csv d = None ∧ es = [] → stored (es ++ [e]) d1.
Proof.
  intros Hc Hd. unfold stored in *. rewrite Hc. unfold csv_lines. rewrite fmap_app, concat_app. simpl.
  destruct Hd as [Hd|[Hd ->]]; rewrite Hd; simpl; by rewrite ?app_nil_r, <- ?app_assoc.
Qed.

Lemma held_add es e b b' d d' : held es b d → entry_ok e → board_ok b' →
  (if highscore_count b <? 100
   then ranking b' ≡ₚ ranking b ++ [e] ∧ StronglySorted ahead (ranking b') ∧
        highscore_count b' = highscore_count b + 1
   else b' = b) →
  stored (es ++ [e]) d' → disk_ok d' → held (es ++ [e]) b' d'.
Proof.
  intros [Hb Hes _ _ Hc Hr Hs] He Hb' Hadd Hst Hd.
  assert (Z.of_nat (length (es ++ [e])) = Z.of_nat (length es) + 1) as Hl
    by (rewrite length_app; simpl; lia).
  assert (Forall entry_ok (es ++ [e]))
    by (apply Forall_app; split; [done|by apply List.Forall_cons]).
  destruct (highscore_count b <? 100) eqn:E.
  - destruct Hadd as (Hp & Hs' & Hc'). split; try done.
    + by left.
    + lia.
    + rewrite Hp, Hr, !take_ge by lia. done.
  - subst b'. split; try done.
    + by left.
    + lia.
    + by rewrite take_app_le by lia.
Qed.

Lemma save_held es e b d : held es b d → entry_ok e →
  wp (save_highscore_to_csv e)
    (λ _ s, held (saved d es e) s.1 s.2 ∧ can_append s.2 = can_append d) (b, d).
Proof.
  intros Hh He. pose proof (save_highscore_open e b d) as Hrun.
  eapply (wp_ext _ (λ _, _)); [exact Hrun|]. clear Hrun. unfold open_file, fopen_a, fopen_w, saved.
  destruct (held_disk _ _ _ Hh) as [Hr [[Ha Hw]|[Ha Hc]]]; rewrite Ha; [|by rewrite Hc].
  rewrite Hw. apply wp_moved, wp_on_board.
  eapply wp_mono; [|apply wp_add_entry; [apply (held_board _ _ _ Hh)|apply (entry_length _ He)]].
  intros rc b' (-> & Hb' & _ & Hadd). split; [|done]. cbn [fst snd].
  eapply held_add; [done..| |]; [|by split; [|left]].
  eapply (stored_snoc _ _ d); [|by apply (held_file _ _ _ Hh)].
  unfold fopen_r. rewrite Hr. simpl. by destruct (csv d).
Qed.

Lemma held_seeded es b b' d : highscores b' = highscores b →
  highscore_count b' = highscore_count b → held es b d → held es b' d.
Proof.
  intros Hh Hc [[] ? ? ? ? ? ?].
  assert (ranking b' = ranking b) as E by (unfold ranking; by rewrite Hh, Hc).
  split; rewrite ?E, ?Hh, ?Hc; try done. split; by rewrite ?Hh, ?Hc.
Qed.

(** ** The winner's entry *)

Definition winner (sc : scoring) (e : HighScoreEntry) : Prop :=
  hs_name e ∈ anime_names ∧ hs_score e = final_score sc ∧
  hs_bullets_fired e = bullets_fired sc ∧ hs_game_time_seconds e = game_time_seconds sc.

(** Numbers that the C types hold. *)
Definition counts_ok (sc : scoring) : Prop := is_int (bullets_fired sc) ∧ is_int (game_time_seconds sc).

Lemma winner_ok sc e : winner sc e → counts_ok sc → is_int (final_score sc) → entry_ok e.
Proof.
  intros (Hn & Hs & Hb & Ht) [? ?] ?. pose proof anime_names_ok as Hok.
  rewrite List.Forall_forall in Hok. destruct (Hok _ (proj1 (list_elem_of_In _ _) Hn)).
  split; [done|done|congruence..].
Qed.

Section winning.
Context {W : Type} `{Random W}.

Lemma save_win_held es (h : hstate W) : held es (h_board h) (h_disk h) →
  highscore_saved_this_game (h_scoring h) = false → counts_ok (h_scoring h) →
  is_int (final_score (h_scoring h)) →
  wp save_win_highscore (λ _ h', ∃ e, winner (h_scoring h) e ∧ winner (h_scoring h') e ∧
    held (saved (h_disk h) es e) (h_board h') (h_disk h') ∧
    can_append (h_disk h') = can_append (h_disk h) ∧
    live_score (h_scoring h') = live_score (h_scoring h)) h.
Proof.
  intros Hh Hs Hc Hf. unfold save_win_highscore. apply wp_bind, wp_gets. rewrite Hs. cbn [negb].
  apply wp_bind, wp_zoom. eapply wp_mono; [|apply get_random_anime_name_run].
  intros name [w1 b1] (Hin & Hb1 & Hc1 & _). simpl in *.
  set (e := Entry name _ _ _). assert (winner (h_scoring h) e) as Hw by (by split_and!).
  apply wp_bind, wp_zoom. eapply wp_mono; [|apply (save_held es); [by eapply held_seeded|by eapply winner_ok]].
  intros rc [b2 d2] [Hh2 Ha2]. apply wp_modify. exists e. by split_and!.
Qed.
End winning.

(** ** Frames: what the parts of a game leave alone *)

(** A game that goes on: [counts_ok], and nothing saved or finished yet. *)
Definition on_going (sc : scoring) : Prop :=
  counts_ok sc ∧ game_active sc = true ∧ highscore_saved_this_game sc = false.

Lemma score_add_bullet_keeps : keeps on_going score_add_bullet.
Proof.
  apply keeps_modify. intros sc [[Hb Ht] [Ha Hs]]. rewrite Ha. split; [|done].
  split; [|done]. pose proof (i32_range (bullets_fired sc + 1)). unfold is_int. simpl. lia.
Qed.

Lemma score_update_time_keeps t : keeps on_going (score_update_time t).
Proof.
  apply keeps_modify. intros sc [[Hb Ht] [Ha Hs]]. rewrite Ha. split; [|done].
  split; [done|]. pose proof (i32_range (Z.quot (i32 (t - game_start_time sc)) 60)).
  unfold is_int, idiv. simpl. lia.
Qed.

Lemma ship_action_keeps k xres : keeps (λ p, on_going p.2) (ship_action k xres).
Proof.
  assert (keeps (λ p : ship * scoring, on_going p.2) (zoom snd (λ sc p, (p.1, sc)) score_add_bullet))
    by (apply (keeps_zoom_part _ on_going); [done|done|apply score_add_bullet_keeps]).
  assert (∀ f : ship → ship, keeps (λ p : ship * scoring, on_going p.2)
    (modify (λ '(s, sc), (f s, sc)))) by (intros f; apply keeps_modify; by intros []).
  unfold ship_action.
  repeat first [done | apply keeps_bind; [|intros ?] | apply keeps_gets | apply keeps_skip
    | match goal with |- keeps _ (if ?b then _ else _) => destruct b end
    | match goal with |- keeps _ (match ?o with _ => _ end) => destruct o end
    | match goal with H : ∀ f, keeps _ _ |- _ => apply H end].
Qed.

Section frames.
Context {W : Type} `{PortIO W} `{Receive W} `{Random W} `{XpmLoader}.
Variables (b : board) (d : disk) (mn : menu) (dr : bool).
Implicit Types s : sys W.

(** The state of a game between its start and its end, the table and the file aside. *)
Definition game_on s : Prop :=
  table s = b ∧ file s = d ∧ the_menu s = mn ∧ player_win s = false ∧ show_scores_drawn s = dr ∧
  on_going (current_score s).

Lemma game_update_keeps : keeps game_on game_update.
Proof.
  assert (∀ t, keeps game_on (on_score (score_update_time t))) as Hs.
  { intros t. apply (keeps_zoom_part _ on_going); [by intros s (_ & _ & _ & _ & _ & ?)| |apply score_update_time_keeps].
    intros s sc (? & ? & ? & ? & ? & _) ?. by split_and!. }
  unfold game_update, timer_tick. keeping.
Qed.

Lemma game_key_keeps : keeps game_on game_key.
Proof.
  assert (∀ k xres, keeps game_on (on_ship_score (ship_action k xres))) as Hs.
  { intros k xres.
    apply (keeps_zoom_part _ (λ p, on_going p.2)); [by intros s (_ & _ & _ & _ & _ & ?)| |apply ship_action_keeps].
    intros s [p sc] (? & ? & ? & ? & ? & _) ?. by split_and!. }
  unfold game_key, read_scancode. keeping.
Qed.

Lemma drawing_keeps {A} (m : M gfx A) : keeps game_on (on_gfx m).
Proof. keeping. Qed.

(** ** How a game ends *)
Inductive ending := Won | Lost | Abandoned | Landed.

Variable es : list HighScoreEntry.

(** The state after a game that ended like [r] and returned [rc]. *)
Definition ended_as (r : ending) (rc : Z) s : Prop :=
  show_scores_drawn s = dr ∧ current_option (the_menu s) = current_option mn ∧
  can_append (file s) = can_append d ∧
  match r with
  | Won => rc = 0 ∧ player_win s = true ∧ player_lost s = false ∧
      current_state (the_menu s) = MENU_SCORES ∧
      ∃ e, winner (current_score s) e ∧ hs_score e = live_score (current_score s) ∧
           held (saved d es e) (table s) (file s)
  | Lost => rc = 0 ∧ player_win s = false ∧ player_lost s = true ∧
      current_state (the_menu s) = MENU_GAME_OVER ∧ table s = b ∧ file s = d ∧
      final_score (current_score s) = live_score (current_score s)
  | Abandoned => rc = 0 ∧ player_win s = false ∧ player_lost s = false ∧
      current_state (the_menu s) = MENU_MAIN ∧ scancode s = KB_BREAK_ESC ∧ table s = b ∧ file s = d ∧
      current_score s = scoring_start
  | Landed => rc = 1 ∧ player_win s = false ∧ the_menu s = mn ∧ table s = b ∧ file s = d
  end.

(** Between two messages; after one. *)
Definition between s : Prop := game_on s ∧ player_lost s = false.
Definition after_message (r : option Z) s : Prop :=
  match r with
  | None => between s
  | Some rc => ∃ e, ended_as e rc s
  end.

Hypothesis Hheld : held es b d.

Lemma live_score_is_int sc : is_int (live_score sc).
Proof. pose proof (live_score_range sc). unfold is_int. lia. Qed.

Lemma game_outcome_ends : triple game_on game_outcome after_message.
Proof.
  apply wp_triple. intros s (Hb & Hd & Hm & Hw & Hdr & Hc & Ha & Hs). unfold game_outcome.
  apply wp_bind, wp_gets. destruct (player_lost s) eqn:El.
  - apply wp_bind, wp_zoom. unfold wp at 1. rewrite score_calculate_final_run, Ha.
    apply wp_bind, wp_zoom, wp_bind, wp_modify, wp_modify, wp_ret. exists Lost.
    unfold ended_as. simpl. rewrite Hd, Hm. by split_and!.
  - apply wp_bind, wp_zoom, wp_gets. destruct (count_active _ _ =? 0).
    2: { apply wp_ret. by split; [split_and!|]. }
    apply wp_bind, wp_modify, wp_bind, wp_zoom. unfold wp at 1. cbn [current_score set_player_win set_aliens].
    rewrite score_calculate_final_run, Ha. apply wp_bind, wp_zoom.
    set (sc := Scoring _ _ (live_score _) _ _ _).
    eapply wp_mono; [|apply (save_win_held es)].
    + intros [] h (e & He & He' & Hh & Hca & Hlive). apply wp_bind, wp_zoom, wp_bind, wp_modify, wp_modify, wp_ret.
      exists Won. simpl in *. unfold ended_as. simpl. rewrite Hm. rewrite Hd in *.
      split_and!; try done. exists e. split; [done|]. split; [|done].
      rewrite Hlive. apply He.
    + simpl. by rewrite Hb, Hd.
    + done.
    + done.
    + apply live_score_is_int.
Qed.

Lemma abandons_frame s : game_on s → after_message (Some 1) s.
Proof.
  intros (Hb & Hd & Hm & Hw & Hdr & _). exists Landed. unfold ended_as. rewrite Hd, Hm.
  by split_and!.
Qed.

Lemma game_draw_ends : triple game_on game_draw after_message.
Proof.
  unfold game_draw. apply triple_seq; [keeping|intros s0].
  do 3 (apply triple_seq; [apply drawing_keeps|intros rc; destruct (negb (rc =? 0));
    [apply triple_ret, abandons_frame|clear rc]]).
  do 4 (apply triple_seq; [apply drawing_keeps|intros _]). apply game_outcome_ends.
Qed.

Lemma game_message_ends m : triple between (game_message m) after_message.
Proof.
  unfold game_message. destruct (from_hardware m); [|by apply triple_ret].
  apply triple_gets. intros kbd. apply (triple_weaken between _ _ after_message); [by intros ? []|done|].
  assert (keeps between game_key).
  { apply keeps_and; [apply game_key_keeps|]. unfold game_key, read_scancode. keeping. }
  apply triple_seq; [keeping|intros _]. apply triple_gets. intros tim.
  apply (triple_weaken between _ _ after_message); [by intros ? []|done|].
  destruct (irq_pending m tim); [|by apply triple_ret].
  apply (triple_weaken game_on _ _ after_message); [by intros ? []|done|].
  apply triple_seq; [apply game_update_keeps|intros _; apply game_draw_ends].
Qed.

Lemma game_step_ends : triple between game_step after_message.
Proof.
  unfold game_step. apply triple_seq; [keeping|intros [rc m]].
  destruct (negb (rc =? 0)); [by apply triple_ret|apply game_message_ends].
Qed.

Lemma game_loop_ends fuel : triple between (game_loop fuel) (λ rc s, ∃ e, ended_as e rc s).
Proof.
  induction fuel as [|fuel IH]; cbn [game_loop]; [by intros s a s'|].
  apply triple_gets. intros sc. destruct (Z.eqb_spec sc KB_BREAK_ESC) as [->|_]; cbn [negb].
  - apply wp_triple. intros s [[(Hb & Hd & Hm & Hw & Hdr & _) Hl] Hsc].
    apply wp_bind, wp_zoom, wp_modify, wp_bind, wp_zoom, wp_bind, wp_modify, wp_modify, wp_ret.
    exists Abandoned. unfold ended_as. simpl. rewrite Hd, Hm. by split_and!.
  - apply (triple_weaken between _ _ (λ rc s, ∃ e, ended_as e rc s)); [by intros ? []|done|].
    apply (triple_bind _ _ _ after_message); [apply game_step_ends|].
    intros [rc|]; [by apply triple_ret|exact IH].
Qed.
End frames.

(** ** Properties *)

Lemma game_state_ends {W} `{PortIO W} `{Receive W} `{Random W} `{XpmLoader} es fuel (s s' : sys W) rc :
  held es (table s) (file s) → game_state fuel s = Done (rc, s') →
  ∃ r, ended_as (table s) (file s) (the_menu s) (show_scores_drawn s) es r rc s'.
Proof.
  intros Hh Hr.
  eapply (game_loop_ends (table s) (file s) (the_menu s) (show_scores_drawn s) es Hh fuel);
    [|exact Hr]. by split; [split_and!|].
Qed.

(** C5. A game changes the table of scores and its file only if it is won, and then by one entry:
    one of the 26 names, with the score of that game; it is appended to the file, unless the disk
    refuses, and table and file keep holding the same entries, the table in the order of the
    scores.  The flags and the state that a game leaves behind tell a win, a loss, a game
    abandoned with ESC and a landed alien apart, and no game ends otherwise. *)
Theorem game_records {W} `{PortIO W} `{Receive W} `{Random W} `{XpmLoader} es fuel (s s' : sys W) rc :
  held es (table s) (file s) → game_state fuel s = Done (rc, s') →
  ∃ r, ended_as (table s) (file s) (the_menu s) (show_scores_drawn s) es r rc s'.
Proof. apply game_state_ends. Qed.

(** ** Witnesses *)
Module RecordsWitness.
Import Sim BlankLoader Tiny.

(** No records yet; the queue brings one message of the keyboard, with the break code of ESC. *)
Definition esc_script : sim := MkSim [0x01; KB_BREAK_ESC] [] 0 [] [hw_message 2] [] tiny_mode.
Definition game1 : sys sim :=
  set_irq_set_keyboard 1 (sys_start esc_script tiny (Disk None true true true true)).

Lemma game1_held : held [] (table game1) (file game1).
Proof. split; try done; [by right|by split; [|left]|constructor]. Qed.

Lemma game_records_witness : ∃ s', held [] (table game1) (file game1) ∧
  game_state 3 game1 = Done (0, s') ∧
  ∃ r, ended_as (table game1) (file game1) (the_menu game1) (show_scores_drawn game1) [] r 0 s'.
Proof.
  eexists. split; [exact game1_held|]. split; [vm_compute; reflexivity|].
  apply (game_records [] 3 game1 _ 0 game1_held). vm_compute. reflexivity.
Defined.
End RecordsWitness.
