(* ===== verification/Main.v ===== *)
(** * main.c and the score screen: the whole program

    [proj_main_loop] composes every component on the state of the program: initialisation, the
    menu loop, which starts the games and shows the scores, and the clean-up.  The three loops
    that wait for messages (menu_handler, game_state, score_state) recurse on fuel, and every
    theorem holds for every fuel. *)

From S2P Require Import Prelude Machine Utils Xpm SpritesMenu Sprites Graphics Keyboard Timer.
From S2P Require Import Enemies Score HighScores Ship Menu System GameState.

(** ** Constants of main.c and confs.h *)
Definition TIMER : Z := 0.
Definition FREQ : Z := 60.
Definition MODE : Z := 0x14c.

Section operations.
Context {W : Type} `{PortIO W} `{Interrupts W} `{Receive W} `{Random W} `{Video W} `{Panic W}
  `{XpmLoader}.

(** ** Subscriptions: the functions of the drivers on the globals they are given *)
Definition kb_subscribe : M (sys W) Z :=
  s ← gets id;
  '(rc, bit_no, hook) ← on_world (kb_subscribe_int (Some (irq_set_keyboard s)) (kb_hook_id s));
  modify (set_irq_set_keyboard (default (irq_set_keyboard s) bit_no));;
  modify (set_kb_hook_id hook);;
  mret rc.

Definition timer_subscribe : M (sys W) Z :=
  s ← gets id;
  '(rc, bit_no, hook) ← on_world (timer_subscribe_int (Some (irq_set_timer s)) (hook_id s));
  modify (set_irq_set_timer (default (irq_set_timer s) bit_no));;
  modify (set_hook_id hook);;
  mret rc.

Definition kb_unsubscribe : M (sys W) Z :=
  h ← gets kb_hook_id;
  '(rc, hook) ← on_world (kb_unsubscribe_int h);
  modify (set_kb_hook_id hook);;
  mret rc.

Definition timer_unsubscribe : M (sys W) Z :=
  h ← gets hook_id;
  '(rc, hook) ← on_world (timer_unsubscribe_int h);
  modify (set_hook_id hook);;
  mret rc.

Definition init_game : M (sys W) Z :=
  on_world (timer_set_frequency TIMER FREQ) ;?
  (on_world_gfx (set_frame_buffer MODE) ;?
  (on_world (set_graphical_mode MODE) ;?
  (kb_subscribe ;?
  (timer_subscribe ;?
  (on_table_file load_highscores_from_csv;;
   on_menu menu_init;;
   mret 0))))).

Definition close_game : M (sys W) Z :=
  kb_unsubscribe ;?
  (timer_unsubscribe ;?
  (on_world (call vg_exit) ;?
   mret 0)).

(** ** score.c: score_state *)

(** A received message; [true] leaves the loop. *)
Definition score_message (m : message) : M (sys W) bool :=
  irq_kbd ← gets irq_set_keyboard;
  if from_hardware m && irq_pending m irq_kbd then
    read_scancode;;
    sc ← gets scancode;
    mret ((sc =? KB_ENTER) || (sc =? KB_BREAK_ESC))
  else mret false.

Fixpoint score_state (fuel : nat) : M (sys W) Z :=
  match fuel with
  | O => no_fuel
  | S fuel =>
      sc ← gets scancode;
      if negb (sc =? KB_BREAK_ESC) then
        '(rc, m) ← on_world (call driver_receive);
        if negb (rc =? 0) then score_state fuel else
        leave ← score_message m;
        if leave : bool then mret 0 else score_state fuel
      else mret 0
  end.

(** ** The branches of menu_handler *)

Definition start_branch (fuel : nat) : M (sys W) (option Z) :=
  on_gfx (clear_back_buf 0x000000);;
  x ← gets (ship_x ∘ player);
  rc ← on_gfx (draw_ship x);
  if negb (rc =? 0) then mret (Some 1) else
  on_ship init_bullets;;
  on_fleet init_enemies;;
  on_ship init_enemy_bullets;;
  mi ← gets (mode_info ∘ video);
  on_ship (init_shields mi);;
  rc ← game_state fuel;
  if negb (rc =? 0) then mret (Some 1) else mret None.

(** What the scores branch draws, when nothing is drawn yet. *)
Definition draw_scores : M (sys W) (option Z) :=
  s ← gets id;
  let mi := mode_info (video s) in
  rc ← on_gfx (vg_draw_rectangle 0 0 (XResolution mi) (YResolution mi) 0x000000);
  if negb (rc =? 0) then mret (Some 1) else
  r ← (if negb (player_win s) && negb (player_lost s) then
         on_gfx (draw_scoreboard_menu (table s));;
         on_gfx swap_buffers;;
         modify (set_show_scores_drawn true);;
         mret None
       else if player_win s then
         on_gfx (draw_final_score_display (current_score s));;
         mret None
       else if player_lost s then
         rc ← on_gfx (print_xpm Messages.message4 400 200);
         if negb (rc =? 0) then mret (Some 1) else
         on_gfx (draw_final_score_display (current_score s));;
         rc ← on_gfx (print_xpm Messages.message1 300 500);
         if negb (rc =? 0) then mret (Some 1) else mret None
       else mret None);
  match r with
  | Some rc => mret (Some rc)
  | None =>
      on_gfx swap_buffers;;
      modify (set_show_scores_drawn true);;
      mret None
  end.

Definition scores_branch (fuel : nat) : M (sys W) (option Z) :=
  drawn ← gets show_scores_drawn;
  r ← (if negb drawn then draw_scores else mret None);
  match r with
  | Some rc => mret (Some rc)
  | None =>
      rc ← score_state fuel;
      if negb (rc =? 0) then mret (Some 1) else
      modify (set_player_win false);;
      modify (set_player_lost false);;
      modify (set_show_scores_drawn false);;
      on_score score_reset;;
      on_menu (menu_set_state MENU_MAIN);;
      mret None
  end.

Definition menu_timer (fuel : nat) : M (sys W) (option Z) :=
  timer_tick;;
  state ← on_menu menu_get_state;
  match state with
  | MENU_START => start_branch fuel
  | MENU_SCORES => scores_branch fuel
  | MENU_EXIT => mret (Some 0)
  | _ => on_menu_gfx menu_render;; mret None
  end.

Definition menu_key : M (sys W) unit :=
  read_scancode;;
  sc ← gets scancode;
  on_menu (menu_handle_input sc).

Definition menu_message (fuel : nat) (m : message) : M (sys W) (option Z) :=
  if from_hardware m then
    irq_kbd ← gets irq_set_keyboard;
    (if irq_pending m irq_kbd then menu_key else skip);;
    irq_tim ← gets irq_set_timer;
    if irq_pending m irq_tim then menu_timer fuel else mret None
  else mret None.

(** The loop of menu_handler; [inner] is the fuel of the loops it calls. *)
Fixpoint menu_handler (inner fuel : nat) : M (sys W) Z :=
  match fuel with
  | O => no_fuel
  | S fuel =>
      sc ← gets scancode;
      if negb (sc =? KB_BREAK_ESC) then
        '(rc, m) ← on_world (call driver_receive);
        if negb (rc =? 0) then menu_handler inner fuel else
        r ← menu_message inner m;
        match r with
        | Some rc => mret rc
        | None => menu_handler inner fuel
        end
      else mret 0
  end.

Definition proj_main_loop (fuel : nat) : M (sys W) Z :=
  init_game ;?
  (menu_handler fuel fuel ;?
   close_game).
End operations.

(** ** Waiting on the score screen *)

(** The parts of the state a read scancode changes. *)
Definition scanned {W} (s s' : sys W) : Prop :=
  ∃ v w, s' = set_scancode v (set_world w s).

Lemma scanned_refl {W} (s : sys W) : scanned s s.
Proof. exists (scancode s), (world s). by destruct s. Qed.
Lemma scanned_world {W} (s s' : sys W) w : scanned (set_world w s) s' → scanned s s'.
Proof. intros (v' & w' & ->). by exists v', w'. Qed.
Lemma scanned_trans {W} (s1 s2 s3 : sys W) : scanned s1 s2 → scanned s2 s3 → scanned s1 s3.
Proof. intros (v & w & ->) (v' & w' & ->). by exists v', w'. Qed.
Lemma scanned_ok {W} (s s' : sys W) : scanned s s' → sys_ok s → sys_ok s'.
Proof. intros (v & w & ->) []. by split. Qed.

Section score_screen.
Context {W : Type} `{PortIO W} `{Receive W}.
Implicit Types s : sys W.

Lemma score_message_wp m s :
  wp (score_message m) (λ b s', scanned s s' ∧
    (b = true → scancode s' = KB_ENTER ∨ scancode s' = KB_BREAK_ESC)) s.
Proof.
  unfold score_message. apply wp_bind, wp_gets.
  destruct (_ && _); [|apply wp_ret; split; [apply scanned_refl|done]].
  apply wp_bind, read_scancode_wp. intros v w _. apply wp_bind, wp_gets, wp_ret.
  split; [by exists v, w|]. lia.
Qed.

Lemma score_state_wlp fuel : ∀ s, wlp (score_state fuel) (λ rc s',
  rc = 0 ∧ scanned s s' ∧ (scancode s' = KB_ENTER ∨ scancode s' = KB_BREAK_ESC)) s.
Proof.
  induction fuel as [|fuel IH]; intros s; [done|]. cbn [score_state].
  apply wlp_bind. unfold wlp at 1, gets. destruct (scancode s =? KB_BREAK_ESC) eqn:E; cbn [negb].
  { split; [done|]. split; [apply scanned_refl|lia]. }
  apply wlp_bind, wp_wlp, wp_zoom. unfold wp, call.
  destruct (driver_receive (world s)) as [[rc m] w]. destruct (negb (rc =? 0)).
  { eapply wlp_mono; [|apply IH]. intros rc' s' (? & Hs & ?). split; [done|]. split; [|done].
    by eapply scanned_world. }
  apply wlp_bind, wp_wlp. eapply wp_mono; [|apply score_message_wp].
  intros [] s' [Hs Hb]; [split; [done|]; split; [by eapply scanned_world|by apply Hb]|].
  eapply wlp_mono; [|apply IH]. intros rc' s2 (? & Hs2 & ?). split; [done|]. split; [|done].
  eapply scanned_world, scanned_trans; done.
Qed.
End score_screen.

(** ** The branches of the menu loop *)

Section branches.
Context {W : Type} `{PortIO W} `{Receive W} `{RandomLaws W} `{XpmLoaderLaws}.
Implicit Types s : sys W.

Lemma screen_dims s g : sys_ok s → redrawn (video s) g → gfx_ok g ∧ hres g = 1152 ∧ vres g = 864.
Proof.
  intros [] Hr. destruct (redrawn_screen _ _ Hr) as (? & ? & _).
  split; [by eapply redrawn_ok|]. split; congruence.
Qed.

(** The state in which start_branch enters the game. *)
Lemma new_game s g p : sys_ok s → redrawn (video s) g → ship_ok 1152 p →
  in_game (set_player p (set_aliens (set_enemies formation (aliens s)) (set_video g s))).
Proof.
  intros Hs Hr Hp. apply (draws_screen _ g Hs) in Hr as Hd. exists (grid_start (aliens s)).
  split; [|simpl; lia]. destruct Hs, Hd. split.
  - split; done.
  - apply formation_represents.
  - apply grid_start_ok; [lia|done].
Qed.

(** start_branch enters the game in a state [s1] of the invariant, from which the rest runs. *)
Definition enters_game s s1 : Prop :=
  in_game s1 ∧ world s1 = world s ∧ scancode s1 = scancode s ∧
  irq_set_keyboard s1 = irq_set_keyboard s ∧
  ∀ fuel, start_branch fuel s =
    (rc ← game_state fuel; if negb (rc =? 0) then mret (Some 1) else mret None) s1.

Lemma start_branch_enters s : sys_ok s → ∃ s1, enters_game s s1.
Proof.
  intros Hs. pose proof (sys_ship s Hs) as Hship. pose proof (ship_on_screen _ _ Hship) as Hx.
  unfold ship_width in Hx.
  assert (wp (on_gfx (clear_back_buf 0x000000)) (λ _ s', ∃ g, s' = set_video g s ∧ redrawn (video s) g) s)
    as ([] & s1 & E1 & g1 & -> & Hr1)%wp_done.
  { apply wp_zoom. eapply wp_mono; [|by apply clear_redrawn, sys_gfx]. intros [] g1 ?. by exists g1. }
  destruct (screen_dims s g1 Hs Hr1) as (Hok1 & Hw1 & Hh1).
  assert (wp (on_gfx (draw_ship (ship_x (player s)))) (λ rc s', rc = 0 ∧
    ∃ g, s' = set_video g s ∧ redrawn (video s) g) (set_video g1 s)) as (rc & s2 & E2 & -> & g2 & -> & Hr2)%wp_done.
  { apply wp_zoom. eapply wp_mono; [|apply draw_ship_fits; [done|simpl; lia..]].
    intros rc g2 [-> Hp%paints_redrawn]. split; [done|]. exists g2. split; [done|by eapply redrawn_trans]. }
  pose proof (inits_ok (mode_info g2) (player s) 1152) as Hin.
  destruct (screen_dims s g2 Hs Hr2) as (_ & Hw2 & Hh2). specialize (Hin Hw2 Hh2 Hship).
  unfold init_bullets, init_enemy_bullets, init_shields in Hin.
  apply wp_bind_inv, wp_bind_inv in Hin. destruct Hin as [Hin _].
  eexists. split; [exact (new_game s g2 _ Hs Hr2 Hin)|]. do 3 (split; [done|]). intros fuel.
  unfold start_branch. rewrite (run_done _ _ _ _ _ E1). erewrite run_done by reflexivity.
  unfold compose. rewrite (run_done _ _ _ _ _ E2). cbn [Z.eqb negb].
  erewrite run_done by reflexivity. erewrite run_done.
  2: { unfold on_fleet, zoom. by rewrite init_enemies_run by apply (sys_fleet s Hs). }
  do 3 (erewrite run_done by reflexivity). reflexivity.
Qed.

Lemma start_branch_wlp fuel s : sys_ok s →
  wlp (start_branch fuel) (λ r s', sys_ok s' ∧
    (r = None ∧ game_result 0 s' ∨ r = Some 1 ∧ landed s')) s.
Proof.
  intros (s1 & Hgame & _ & _ & _ & E)%start_branch_enters. unfold wlp. rewrite E.
  apply wlp_bind. eapply wlp_mono; [|by apply game_state_wlp].
  intros rc s' Hres. pose proof Hres as [Hok Hrc]. destruct (Z.eqb_spec rc 0) as [->|Hne]; cbn [negb].
  - split; [done|]. by left.
  - split; [done|]. right. split; [done|]. destruct Hrc as [[_ ?]|[-> _]]; done.
Qed.

(** The end of a frame of the scores. *)
Lemma show_scores s g b : gfx_ok g → mode_info g = mode_info (video s) →
  wp (on_gfx swap_buffers;; modify (set_show_scores_drawn true);; mret (None : option Z))
    (λ r s', r = None ∧ ∃ g, shown (video s) g ∧
      s' = set_show_scores_drawn true (set_video g s)) (set_show_scores_drawn b (set_video g s)).
Proof.
  intros Hg Hm. apply wp_bind, wp_zoom. unfold wp at 1. cbn [video set_video set_show_scores_drawn].
  rewrite swap_buffers_run by done. apply wp_bind, wp_modify, wp_ret. split; [done|].
  exists (set_video_mem (back_buf g) g). split; [|done]. split; [by apply swap_buffers_ok|by split].
Qed.

Lemma message_fits m w h x y s g : sys_ok s → redrawn (video s) g → xpm_dims m = Some (w, h) →
  0 <= x → 0 <= y → x + w <= 1152 → y + h <= 864 →
  wp (print_xpm m x y) (λ rc g', rc = 0 ∧ redrawn (video s) g') g.
Proof.
  intros Hs Hr Hd ????. destruct (screen_dims s g Hs Hr) as (Hok & Hw & Hh).
  pose proof (xpm_dims_range m w h Hd).
  eapply wp_mono; [|apply (print_xpm_draws g m w h); [done..|lia|lia]].
  intros rc g' Hdr. apply draws_redrawn in Hdr as Hr'. split; [|by eapply redrawn_trans].
  unfold draws in Hdr. rewrite Hw, Hh in Hdr. replace (_ && _) with true in Hdr by lia. by destruct Hdr.
Qed.

(** A frame of the scores: it is drawn and shown. *)
Lemma draw_scores_wp s : sys_ok s →
  wp draw_scores (λ r s', r = None ∧ ∃ g, shown (video s) g ∧
    s' = set_show_scores_drawn true (set_video g s)) s.
Proof.
  intros Hs. pose proof (sys_gfx s Hs) as Hg. pose proof (ok_x _ Hg). pose proof (ok_y _ Hg).
  unfold draw_scores. apply wp_bind, wp_gets. unfold id. apply wp_bind, wp_zoom.
  change (XResolution (mode_info (video s))) with (hres (video s)).
  change (YResolution (mode_info (video s))) with (vres (video s)).
  eapply wp_mono; [|apply vg_draw_rectangle_draws; [done|lia..]].
  intros rc g1 Hd. apply draws_redrawn in Hd as Hr1. unfold draws, image_fits in Hd.
  rewrite !Z2Nat.id in Hd by lia.
  replace (_ || _) with true in Hd by lia. destruct Hd as [-> _]. cbn [Z.eqb negb].
  pose proof (redrawn_ok _ _ Hr1) as Hok1. pose proof (redrawn_mode _ _ Hr1) as Hm1.
  set (b := show_scores_drawn s).
  assert (set_video g1 s = set_show_scores_drawn b (set_video g1 s)) as Heq by reflexivity.
  assert (∀ g, redrawn g1 g → gfx_ok g ∧ mode_info g = mode_info (video s)) as Hnext.
  { intros g Hr. split; [by eapply redrawn_ok|]. rewrite (redrawn_mode _ _ Hr). done. }
  apply wp_bind. destruct (negb (player_win s) && negb (player_lost s)).
  { apply wp_bind, wp_zoom. eapply wp_mono; [|by apply draw_scoreboard_menu_safe, sys_table].
    intros [] g2 [Hok2 Hm2]%Hnext. apply wp_bind, wp_zoom. unfold wp at 1.
    cbn [video set_video]. rewrite swap_buffers_run by done.
    apply wp_bind, wp_modify, wp_ret.
    apply (show_scores s (set_video_mem (back_buf g2) g2) true); [by apply swap_buffers_ok|done]. }
  destruct (player_win s).
  { apply wp_bind, wp_zoom. eapply wp_mono; [|by apply draw_final_score_display_safe].
    intros [] g2 [Hok2 Hm2]%Hnext. apply wp_ret. by apply (show_scores s g2 b). }
  destruct (player_lost s); [|apply wp_ret; by apply (show_scores s g1 b)].
  apply wp_bind, wp_zoom. eapply wp_mono; [|apply (message_fits _ 107 35 400 200 s); [done|done|apply message4_dims|lia..]].
  intros rc g2 [-> Hr2]. cbn [Z.eqb negb]. pose proof (redrawn_ok _ _ Hr2).
  apply wp_bind, wp_zoom. eapply wp_mono; [|by apply draw_final_score_display_safe].
  intros [] g3 Hr3. assert (redrawn (video s) g3) as Hr03 by by eapply redrawn_trans.
  apply wp_bind, wp_zoom. eapply wp_mono; [|apply (message_fits _ 327 35 300 500 s); [done|exact Hr03|apply message1_dims|lia..]].
  intros rc g4 [-> Hr4]. cbn [Z.eqb negb]. apply wp_ret.
  apply (show_scores s g4 b); [by eapply redrawn_ok|by eapply redrawn_mode].
Qed.

(** The scores are left for the main menu, everything about the last game forgotten. *)
Record left_scores s s' : Prop := {
  left_ok : sys_ok s';
  left_menu : current_state (the_menu s') = MENU_MAIN;
  left_win : player_win s' = false;
  left_lost : player_lost s' = false;
  left_drawn : show_scores_drawn s' = false;
  left_score : current_score s' = Scoring 0 0 0 0 false false;
  left_table : table s' = table s;
  left_file : file s' = file s;
  left_key : scancode s' = KB_ENTER ∨ scancode s' = KB_BREAK_ESC;
  left_shown : show_scores_drawn s = false → shown (video s) (video s');
}.

Lemma scores_branch_wlp fuel s : sys_ok s →
  wlp (scores_branch fuel) (λ r s', r = None ∧ left_scores s s') s.
Proof.
  intros Hs. unfold scores_branch. apply wlp_bind. unfold wlp at 1, gets. apply wlp_bind, wp_wlp.
  assert (∀ s1, sys_ok s1 → table s1 = table s → file s1 = file s →
    (show_scores_drawn s = false → shown (video s) (video s1)) →
    wlp (rc ← score_state fuel;
      if negb (rc =? 0) then mret (Some 1) else
      modify (set_player_win false);; modify (set_player_lost false);;
      modify (set_show_scores_drawn false);; on_score score_reset;;
      on_menu (menu_set_state MENU_MAIN);; mret None)
    (λ r s', r = None ∧ left_scores s s') s1) as Hwait.
  { intros s1 Hs1 Ht Hf Hsh. apply wlp_bind. eapply wlp_mono; [|apply score_state_wlp].
    intros rc s2 (-> & Hsc & Hk). cbn [Z.eqb negb]. apply (scanned_ok _ _ Hsc) in Hs1.
    destruct Hsc as (v & w & ->). split; [done|]. destruct Hs1. by split. }
  destruct (show_scores_drawn s) eqn:Ed; cbn [negb]; [by apply wp_ret, Hwait|].
  eapply wp_mono; [|by apply draw_scores_wp]. intros r s' (-> & g & Hsh & ->).
  apply Hwait; [|done..]. destruct Hsh as (Hok & Hm & _). destruct Hs.
  split; simpl; try done; unfold hres, vres in *; congruence.
Qed.
End branches.

(** ** The menu loop *)

Section menu_loop.
Context {W : Type} `{PortIO W} `{Receive W} `{RandomLaws W} `{XpmLoaderLaws}.
Implicit Types s : sys W.

(** What the timer branch of menu_handler does in the state [s]. *)
Definition menu_timer_result (r : option Z) s s' : Prop :=
  sys_ok s' ∧
  match current_state (the_menu s) with
  | MENU_START => r = None ∧ game_result 0 s' ∨ r = Some 1 ∧ landed s'
  | MENU_SCORES => r = None ∧ left_scores s s'
  | MENU_EXIT => r = Some 0 ∧ the_menu s' = the_menu s
  | _ => r = None ∧ the_menu s' = after_frame (the_menu s) ∧ shown (video s) (video s') ∧
         scancode s' = scancode s ∧ aliens s' = aliens s
  end.

Lemma menu_timer_wlp fuel s : sys_ok s →
  wlp (menu_timer fuel) (λ r s', menu_timer_result r s s') s.
Proof.
  intros Hs. unfold menu_timer, menu_timer_result, timer_tick.
  apply wlp_bind, wp_wlp, wp_modify. set (s1 := set_timer_counter _ s).
  assert (sys_ok s1) as Hs1 by (destruct Hs; by split).
  apply wlp_bind, wp_wlp, wp_zoom. unfold wp at 1, menu_get_state, gets.
  change (set_the_menu (the_menu s1) s1) with s1.
  change (current_state (the_menu s1)) with (current_state (the_menu s)).
  assert (current_state (the_menu s) = MENU_MAIN ∨ current_state (the_menu s) = MENU_GAME_OVER ∨
          current_state (the_menu s) = MENU_QUIT →
    wlp (on_menu_gfx menu_render;; mret (None : option Z)) (λ r s', sys_ok s' ∧ r = None ∧
      the_menu s' = after_frame (the_menu s) ∧ shown (video s) (video s') ∧
      scancode s' = scancode s ∧ aliens s' = aliens s) s1) as Hrender.
  { intros Hst. apply wlp_bind, wp_wlp, wp_zoom.
    eapply wp_mono; [|apply (menu_render_wp (the_menu s) (video s)), (sys_gfx s Hs)].
    intros [] [m g] [Hm Hsh]. simpl in Hm, Hsh. subst m. split; [|by split_and!].
    destruct Hsh as (Hok & Hmode & _), Hs1. split; simpl; try done.
    - unfold hres in *. by rewrite Hmode.
    - unfold vres in *. by rewrite Hmode.
    - unfold after_frame, menu_ok in *. by destruct (current_state (the_menu s)). }
  destruct (current_state (the_menu s)); [by apply Hrender; auto| |
    |by apply Hrender; auto|by apply Hrender; auto|by split].
  - eapply wlp_mono; [|by apply start_branch_wlp]. intros r s' [? ?]. by split.
  - eapply wlp_mono; [|by apply scores_branch_wlp].
    intros r s' [-> Hl]. split; [apply Hl|]. split; [done|]. destruct Hl. by split.
Qed.

Lemma menu_key_wp s : sys_ok s → wp menu_key (λ _ s', sys_ok s' ∧
  aliens s' = aliens s ∧ irq_set_timer s' = irq_set_timer s ∧
  current_state (the_menu s') = next_state (scancode s') (the_menu s)) s.
Proof.
  intros Hs. unfold menu_key. apply wp_bind, read_scancode_wp. intros v w _.
  apply wp_bind, wp_gets, wp_zoom.
  eapply wp_mono; [|by apply (menu_handle_input_wp v (the_menu s)), sys_menu].
  intros [] m (Hm & Hst & _). split_and!; try done. destruct Hs. by split.
Qed.

(** How menu_handler ends. *)
Definition menu_result (rc : Z) s' : Prop :=
  sys_ok s' ∧
  (rc = 0 ∧ (scancode s' = KB_BREAK_ESC ∨ current_state (the_menu s') = MENU_EXIT) ∨
   rc = 1 ∧ landed s').

Lemma menu_message_wlp fuel m s : sys_ok s →
  wlp (menu_message fuel m) (λ r s', sys_ok s' ∧
    match r with
    | Some rc => menu_result rc s'
    | None => True
    end) s.
Proof.
  intros Hs. unfold menu_message. destruct (from_hardware m); [|by apply wp_wlp, wp_ret].
  apply wlp_bind. unfold wlp at 1, gets. apply wlp_bind.
  assert (∀ s, sys_ok s → wlp (irq_tim ← gets irq_set_timer;
    if irq_pending m irq_tim then menu_timer fuel else mret None)
    (λ r s', sys_ok s' ∧ match r with Some rc => menu_result rc s' | None => True end) s) as Ht.
  { intros s0 Hs0. apply wlp_bind. unfold wlp at 1, gets.
    destruct (irq_pending _ _); [|by apply wp_wlp, wp_ret].
    eapply wlp_mono; [|by apply menu_timer_wlp]. intros r s' [Hok Hres]. split; [done|].
    destruct (current_state (the_menu s0)) eqn:Est; destruct r as [rc|]; try done;
      first [by destruct Hres|idtac].
    - destruct Hres as [[? _]|[[= ->] ?]]; [done|]. split; [done|]. by right.
    - destruct Hres as [[= ->] Hm]. split; [done|]. left. split; [done|]. right. by rewrite Hm. }
  destruct (irq_pending m (irq_set_keyboard s)); [|by apply wp_wlp, wp_ret, Ht].
  apply wp_wlp. eapply wp_mono; [|by apply menu_key_wp]. intros [] s1 [Hs1 _]. by apply Ht.
Qed.

Lemma menu_handler_wlp inner fuel : ∀ s, sys_ok s →
  wlp (menu_handler inner fuel) menu_result s.
Proof.
  induction fuel as [|fuel IH]; intros s Hs; [done|]. cbn [menu_handler].
  apply wlp_bind. unfold wlp at 1, gets. destruct (scancode s =? KB_BREAK_ESC) eqn:E; cbn [negb].
  { split; [done|]. left. split; [done|]. left. lia. }
  apply wlp_bind, wp_wlp, wp_zoom. unfold wp, call.
  destruct (driver_receive (world s)) as [[rc m] w].
  assert (sys_ok (set_world w s)) as Hs' by (destruct Hs; by split).
  destruct (negb (rc =? 0)); [by apply IH|].
  apply wlp_bind. eapply wlp_mono; [|by apply menu_message_wlp].
  intros [rc'|] s' [Hok Hres]; [done|by apply IH].
Qed.
End menu_loop.

(** ** Initialisation *)

(** Mode 0x14c of the VBE BIOS: 1152 by 864 pixels, at most four bytes each. *)
Class GameMode (W : Type) `{Video W} := {
  game_mode w : let '(rc, mi, _) := vbe_get_mode_info MODE w in
    rc = 0 → XResolution mi = 1152 ∧ YResolution mi = 864 ∧ usable mi;
}.

Section initialisation.
Context {W : Type} `{PortIO W} `{Interrupts W} `{VideoLaws W} `{Panic W} `{!GameMode W}.
Implicit Types s : sys W.

(** The drivers return 0 or 1 and stay away from the rest of the state. *)
Definition quiet_call {T} (m : M T Z) : Prop :=
  ∀ t, wp m (λ rc _, rc = 0 ∨ rc = 1) t.

(** Loading the file [d] ends, with a table that has the property [good]. *)
Definition loads (good : board → Prop) (d : disk) : Prop := ∀ b, length (highscores b) = 100%nat →
  wp load_highscores_from_csv (λ _ p, p.2 = d ∧ board_ok p.1 ∧ good p.1) (b, d).

Lemma readable_loads d : readable d → loads (λ _, True) d.
Proof. intros Hd b Hb. eapply wp_mono; [|by apply load_readable]. by intros n p []. Qed.

Variable good : board → Prop.

(** What the static initialisers give, before a mode is set. *)
Record booted s : Prop := {
  boot_ship : ship_ok 1152 (player s);
  boot_table : length (highscores (table s)) = 100%nat;
  boot_file : loads good (file s);
  boot_fleet : length (enemies (aliens s)) = 18%nat;
  boot_direction : enemy_direction (aliens s) = 1 ∨ enemy_direction (aliens s) = -1;
  boot_timer : 0 <= enemy_move_timer (aliens s) < 30;
}.

Lemma start_booted w g d : loads good d → booted (sys_start w g d).
Proof.
  intros Hd. split; try done; [apply ship_start_ok; lia|by left].
Qed.

(** The 1152 by 864 screen is ready. *)
Definition screen_ready s : Prop := gfx_ok (video s) ∧ hres (video s) = 1152 ∧ vres (video s) = 864.

Lemma set_frame_buffer_ready w g :
  wp (set_frame_buffer MODE) (λ rc p, (rc = 0 ∨ rc = 1) ∧
    (rc = 0 → gfx_ok p.2 ∧ hres p.2 = 1152 ∧ vres p.2 = 864)) (w, g).
Proof.
  pose proof (set_frame_buffer_ok MODE w g) as Hok. pose proof (game_mode w) as Hm.
  apply wp_done in Hok as (rc & p & Hr & Hmode & Hok). unfold wp. rewrite Hr.
  unfold set_frame_buffer in Hr. destruct (vbe_get_mode_info MODE w) as [[rc0 mi] w1].
  simpl in *. destruct (rc0 =? 0) eqn:E0; cbn [negb] in Hr.
  - destruct Hm as (Hx & Hy & Hu); [lia|]. split.
    + repeat match type of Hr with
      | context [sys_privctl_add_mem ?a ?b ?w] => destruct (sys_privctl_add_mem a b w)
      | context [vm_map_phys ?a ?b ?w] => destruct (vm_map_phys a b w) as [[]?]
      | context [malloc ?a ?w] => destruct (malloc a w) as [[]?]
      | context [if ?b then _ else _] => destruct b
      end; injection Hr as <- <-; auto.
    + intros ->. split; [by apply Hok|]. unfold hres, vres. by rewrite Hmode.
  - injection Hr as <- <-. split; [by right|done].
Qed.

(** One step of the initialisation: it fails with 1, or the next one runs in a state that
    satisfies the invariant [I]. *)
Lemma init_step (I : sys W → Prop) (Q : Z → sys W → Prop) m k s :
  wp m (λ rc s', (rc = 0 ∨ rc = 1) ∧ (rc = 0 → I s')) s →
  (∀ s', Q 1 s') → (∀ s', I s' → wp k Q s') → wp (m ;? k) Q s.
Proof.
  intros Hm HQ Hk. apply wp_check. eapply wp_mono; [|exact Hm]. intros rc s' [[->| ->] HI]; simpl; auto.
Qed.

Lemma booted_world s w : booted s → booted (set_world w s).
Proof. intros []. by split. Qed.

Lemma set_graphical_mode_returns : quiet_call (set_graphical_mode (W := W) MODE).
Proof.
  intros w. unfold set_graphical_mode, wp. run_unfold. destruct (sys_int86 _ w) as [rc w'].
  destruct (negb (rc =? 0)); cbn; auto.
Qed.

Lemma kb_subscribe_wp s : wp kb_subscribe (λ rc s', (rc = 0 ∨ rc = 1) ∧
  ∃ w i h, s' = set_kb_hook_id h (set_irq_set_keyboard i (set_world w s))) s.
Proof.
  unfold kb_subscribe. apply wp_bind, wp_gets, wp_bind, wp_zoom. unfold id, wp, kb_subscribe_int.
  run_unfold. destruct (sys_irqsetpolicy _ _ _ _) as [[rc h] w].
  destruct (negb (rc =? 0)); cbn; eauto 6.
Qed.

Lemma timer_subscribe_wp s : wp timer_subscribe (λ rc s', (rc = 0 ∨ rc = 1) ∧
  ∃ w i h, s' = set_hook_id h (set_irq_set_timer i (set_world w s))) s.
Proof.
  unfold timer_subscribe. apply wp_bind, wp_gets, wp_bind, wp_zoom. unfold id, wp, timer_subscribe_int.
  run_unfold. destruct (sys_irqsetpolicy _ _ _ _) as [[rc h] w].
  destruct (negb (rc =? 0)); cbn; eauto 6.
Qed.

Lemma init_game_wp s : booted s →
  wp init_game (λ rc s', (rc = 0 ∨ rc = 1) ∧
    (rc = 0 → sys_ok s' ∧ good (table s') ∧ the_menu s' = menu_start ∧ scancode s' = scancode s)) s.
Proof.
  intros Hb. unfold init_game.
  set (Q := λ (rc : Z) (s' : sys W), (rc = 0 ∨ rc = 1) ∧
    (rc = 0 → sys_ok s' ∧ good (table s') ∧ the_menu s' = menu_start ∧ scancode s' = scancode s)).
  assert (∀ s', Q 1 s') as Q1 by (intros s'; split; [by right|done]).
  apply (init_step (λ s', booted s' ∧ scancode s' = scancode s)); [|done|].
  { apply wp_zoom. eapply wp_mono; [|apply timer_set_frequency_returns].
    intros rc w Hrc. split; [done|]. intros _. split; [by apply booted_world|done]. }
  intros s1 [Hb1 Hk1].
  apply (init_step (λ s', booted s' ∧ scancode s' = scancode s ∧ screen_ready s')); [|done|].
  { apply wp_zoom. eapply wp_mono; [|apply set_frame_buffer_ready].
    intros rc [w g] [Hrc Hready]. split; [done|]. intros Hz. split_and!; try done; [|by apply Hready].
    destruct Hb1. by split. }
  intros s2 (Hb2 & Hk2 & Hr2).
  apply (init_step (λ s', booted s' ∧ scancode s' = scancode s ∧ screen_ready s')); [|done|].
  { apply wp_zoom. eapply wp_mono; [|apply set_graphical_mode_returns].
    intros rc w Hrc. split; [done|]. intros _. split; [by apply booted_world|done]. }
  clear s2 Hb2 Hk2 Hr2. intros s2 (Hb2 & Hk2 & Hr2).
  apply (init_step (λ s', booted s' ∧ scancode s' = scancode s ∧ screen_ready s')); [|done|].
  { eapply wp_mono; [|apply kb_subscribe_wp]. intros rc s' (Hrc & w & i & h & ->).
    split; [done|]. intros _. split; [destruct Hb2; by split|done]. }
  clear s2 Hb2 Hk2 Hr2. intros s2 (Hb2 & Hk2 & Hr2).
  apply (init_step (λ s', booted s' ∧ scancode s' = scancode s ∧ screen_ready s')); [|done|].
  { eapply wp_mono; [|apply timer_subscribe_wp]. intros rc s' (Hrc & w & i & h & ->).
    split; [done|]. intros _. split; [destruct Hb2; by split|done]. }
  clear s2 Hb2 Hk2 Hr2. intros s2 (Hb2 & Hk2 & (Hg & Hx & Hy)).
  apply wp_bind, wp_zoom.
  eapply wp_mono; [|apply (boot_file s2 Hb2), (boot_table s2 Hb2)].
  intros n [b d] (Hd & Hbd & Hgood). simpl in Hd, Hbd. subst d.
  apply wp_bind, wp_zoom, wp_modify, wp_ret. split; [by left|]. intros _.
  split; [|done]. destruct Hb2. by split.
Qed.

Lemma kb_unsubscribe_wp s : wp kb_unsubscribe (λ rc s', (rc = 0 ∨ rc = 1) ∧
  ∃ w h, s' = set_kb_hook_id h (set_world w s)) s.
Proof.
  unfold kb_unsubscribe. apply wp_bind, wp_gets, wp_bind, wp_zoom. unfold wp, kb_unsubscribe_int.
  run_unfold. destruct (sys_irqrmpolicy _ _) as [[rc h] w]. destruct (negb (rc =? 0)); cbn; eauto 6.
Qed.

Lemma timer_unsubscribe_wp s : wp timer_unsubscribe (λ rc s', (rc = 0 ∨ rc = 1) ∧
  ∃ w h, s' = set_hook_id h (set_world w s)) s.
Proof.
  unfold timer_unsubscribe. apply wp_bind, wp_gets, wp_bind, wp_zoom. unfold wp, timer_unsubscribe_int.
  run_unfold. destruct (sys_irqrmpolicy _ _) as [[rc h] w]. destruct (negb (rc =? 0)); cbn; eauto 6.
Qed.

Lemma close_game_wp s : wp close_game (λ rc s', rc = 1 ∨
  rc = 0 ∧ ∃ w k h, s' = set_hook_id h (set_kb_hook_id k (set_world w s))) s.
Proof.
  unfold close_game. apply wp_check. eapply wp_mono; [|apply kb_unsubscribe_wp].
  intros rc s' [[->| ->] (w & k & ->)]; [|by left]. cbn [Z.eqb].
  apply wp_check. eapply wp_mono; [|apply timer_unsubscribe_wp].
  intros rc s' [[->| ->] (w' & h & ->)]; [|by left]. cbn [Z.eqb].
  apply wp_check, wp_zoom. unfold wp at 1, call. destruct (vg_exit _) as [rc w2].
  destruct (rc =? 0); [|by left]. apply wp_ret. right. split; [done|]. by exists w2, k, h.
Qed.
End initialisation.

(** ** Properties *)

(** The initialisation: init_game returns 0 or 1, whatever the devices answer, and after 0
    the program is in the state every other theorem starts from: two buffers of one 1152 by 864
    screen, the table of scores within its array and loaded from any readable file, the aliens'
    array and timer in range, and the menu on its first option. *)
Theorem init_game_result {W} `{PortIO W} `{Interrupts W} `{VideoLaws W} `{Panic W} `{!GameMode W}
    (w : W) g d : readable d →
  wp init_game (λ rc s', (rc = 0 ∨ rc = 1) ∧
    (rc = 0 → sys_ok s' ∧ the_menu s' = menu_start ∧ scancode s' = 0)) (sys_start w g d).
Proof.
  intros Hd. eapply wp_mono; [|by apply (init_game_wp (λ _, True)), start_booted, readable_loads].
  intros rc s' [Hrc Hok]. split; [done|]. by intros (? & _ & ?)%Hok.
Qed.

(** C9. One tick of the timer in the menu, in each of its states: a selected start runs a whole
    game and the loop goes on when it ended with 0, but the handler is left with 1 when it ended
    with 1; selected scores are drawn, shown and left at the first ENTER or ESC with the flags
    and the score of the last game cleared; a selected exit leaves with 0; in any other state
    the frame of that state is rendered and shown, and a selected quit becomes an exit. *)
Theorem menu_timer_table {W} `{PortIO W} `{Receive W} `{RandomLaws W} `{XpmLoaderLaws} fuel (s : sys W) :
  sys_ok s → wlp (menu_timer fuel) (λ r s', menu_timer_result r s s') s.
Proof. apply menu_timer_wlp. Qed.

(** The score screen says that ESC returns to the menu, and the state of the menu is set to
    the main menu; but menu_handler tests the same scancode next, so ESC ends the program, while
    ENTER goes back to the menu. *)
Theorem esc_on_scores_quits {W} `{PortIO W} `{Receive W} `{RandomLaws W} `{XpmLoaderLaws}
    fuel n (s : sys W) : sys_ok s → current_state (the_menu s) = MENU_SCORES →
  wlp (menu_timer fuel) (λ r s', r = None ∧ current_state (the_menu s') = MENU_MAIN ∧
    (scancode s' = KB_ENTER ∨
     scancode s' = KB_BREAK_ESC ∧ menu_handler fuel (S n) s' = Done (0, s'))) s.
Proof.
  intros Hs Hst. eapply wlp_mono; [|by apply menu_timer_wlp]. unfold menu_timer_result. rewrite Hst.
  intros r s' (_ & -> & Hl). split; [done|]. split; [apply Hl|].
  destruct (left_key _ _ Hl) as [Hk|Hk]; [by left|right]. split; [done|].
  cbn [menu_handler]. unfold mbind, M_bind, gets. by rewrite Hk.
Qed.

(** menu_handler never reaches undefined behaviour, through any number of games and visits
    to the scores, and is left with 0 after ESC or a selected quit, or with 1 because an alien
    of a game landed; nothing that it draws fails otherwise. *)
Theorem menu_handler_result {W} `{PortIO W} `{Receive W} `{RandomLaws W} `{XpmLoaderLaws}
    inner fuel (s : sys W) : sys_ok s → wlp (menu_handler inner fuel) menu_result s.
Proof. apply menu_handler_wlp. Qed.

(** C1. The whole program, from the static initialisers, on any machine that keeps the laws of
    its BIOS and C library and with any file of scores whose numbers fit in an int: however long
    it runs, no access leaves an array or a buffer, no null pointer is used, and if it returns
    then 0 or 1, 0 only after ESC or a selected quit, in a state of the invariant. *)
Theorem proj_main_loop_safe {W} `{PortIO W} `{Interrupts W} `{Receive W} `{RandomLaws W}
    `{VideoLaws W} `{Panic W} `{!GameMode W} `{XpmLoaderLaws} fuel (w : W) g d : readable d →
  wlp (proj_main_loop fuel) (λ rc s', rc = 1 ∨ rc = 0 ∧ sys_ok s' ∧
    (scancode s' = KB_BREAK_ESC ∨ current_state (the_menu s') = MENU_EXIT)) (sys_start w g d).
Proof.
  intros Hd. unfold proj_main_loop. apply wlp_bind, wp_wlp.
  eapply wp_mono; [|by apply (init_game_wp (λ _, True)), start_booted, readable_loads].
  intros rc s1 [[->| ->] Hok]; [|by left]. destruct Hok as (Hok & _); [done|]. cbn [Z.eqb].
  apply wlp_bind. eapply wlp_mono; [|by apply menu_handler_wlp].
  intros rc s2 [Hok2 [[-> Hend]|[-> _]]]; [|by left]. cbn [Z.eqb]. apply wp_wlp.
  eapply wp_mono; [|apply close_game_wp]. intros rc s3 [->|(-> & w3 & k & h & ->)]; [by left|right].
  split; [done|]. split; [|done]. destruct Hok2. by split.
Qed.

(** ** Witnesses *)
Module MainWitness.
Import Sim BlankLoader Screen HighScores.Witness GameWitness.

(** A machine whose BIOS always reports the mode of the game. *)
#[local] Instance vbe : Video sim := {|
  vbe_get_mode_info := λ _ w, ((0, mode_14c), w);
  sys_int86 := λ _ w, (0, w);
  sys_privctl_add_mem := λ _ _ w, (0, w);
  vm_map_phys := λ _ n w, (Some (replicate (Z.to_nat n) 0), w);
  malloc := λ n w, (Some (replicate (Z.to_nat n) 0), w);
  vg_exit := λ w, (0, w) |}.

#[local] Instance vbe_laws : VideoLaws sim.
Proof.
  split; simpl.
  - intros _ w. lia.
  - intros _ n _ l Hn [= <-]. rewrite length_replicate. lia.
  - intros n _ l Hn [= <-]. rewrite length_replicate. lia.
Qed.

#[local] Instance vbe_game_mode : GameMode sim.
Proof. split. intros w _. split; [done|]. split; [done|]. split; vm_compute; done. Qed.

#[local] Instance no_panic : Panic sim := {| panic := id |}.

(** No mode set, nothing mapped. *)
Definition off : gfx := Gfx (VbeModeInfo 0 0 0 0 0 0 0 0 0 0 0) 0 None None.

Lemma init_game_result_witness : readable HighScores.Witness.file ∧
  wp init_game (λ rc s', (rc = 0 ∨ rc = 1) ∧
    (rc = 0 → sys_ok s' ∧ the_menu s' = menu_start ∧ scancode s' = 0))
    (sys_start quiet off HighScores.Witness.file).
Proof. split; [exact file_readable|]. apply (init_game_result quiet off _ file_readable). Defined.

(** The menu on its scores and on its start. *)
Definition scores0 : sys sim := set_the_menu (Menu MENU_SCORES MENU_OPTION_SCORES true) game0.
Definition start0 : sys sim := set_the_menu (Menu MENU_START MENU_OPTION_START true) game0.

Lemma scores0_ok : sys_ok scores0.
Proof. destruct game0_sys. by split. Qed.
Lemma start0_ok : sys_ok start0.
Proof. destruct game0_sys. by split. Qed.

Lemma menu_timer_table_witness :
  sys_ok start0 ∧ wlp (menu_timer 5) (λ r s', menu_timer_result r start0 s') start0.
Proof. split; [exact start0_ok|]. apply (menu_timer_table 5 start0 start0_ok). Defined.

Lemma esc_on_scores_quits_witness :
  sys_ok scores0 ∧ wlp (menu_timer 5) (λ r s', r = None ∧ current_state (the_menu s') = MENU_MAIN ∧
    (scancode s' = KB_ENTER ∨
     scancode s' = KB_BREAK_ESC ∧ menu_handler 5 1 s' = Done (0, s'))) scores0.
Proof. split; [exact scores0_ok|]. apply (esc_on_scores_quits 5 0 scores0 scores0_ok eq_refl). Defined.

Lemma menu_handler_result_witness :
  sys_ok start0 ∧ wlp (menu_handler 5 5) menu_result start0.
Proof. split; [exact start0_ok|]. apply (menu_handler_result 5 5 start0 start0_ok). Defined.

Lemma proj_main_loop_safe_witness : readable HighScores.Witness.file ∧
  wlp (proj_main_loop 5) (λ rc s', rc = 1 ∨ rc = 0 ∧ sys_ok s' ∧
    (scancode s' = KB_BREAK_ESC ∨ current_state (the_menu s') = MENU_EXIT))
    (sys_start quiet off HighScores.Witness.file).
Proof. split; [exact file_readable|]. apply (proj_main_loop_safe 5 quiet off _ file_readable). Defined.
End MainWitness.

Module QuitRun.
Import Sim BlankLoader Graphics.Tiny.

(** A whole run on a 4 by 4 screen: the keys DOWN, DOWN and ENTER select Quit, and two ticks of
    the timer end the program with 0, all bytes and messages consumed and both hooks removed. *)
Definition quit_script : sim :=
  MkSim [0x34; 0x01; KB_DOWN_ARROW; 0x01; KB_DOWN_ARROW; 0x01; KB_ENTER] [] 0 []
    [hw_message 2; hw_message 2; hw_message 2; hw_message 1; hw_message 1] [] tiny_mode.

Example quit_run :
  match proj_main_loop 6 (sys_start quit_script tiny (Disk None true true true true)) with
  | Done (rc, s) => (rc, current_state (the_menu s), inputs (world s), queue (world s), hooks (world s))
  | _ => (1, MENU_MAIN, [], [], [])
  end = (0, MENU_EXIT, [], [], []).
Proof. vm_compute. reflexivity. Qed.
End QuitRun.
