(* ===== verification/Screens.v ===== *)
(** * What the score screen shows, pixel by pixel

    A page is a list of pieces: a word in the letter sprites, a number in the digit sprites, a
    sprite.  [shows m l]: on the 1152 by 864 screen, [m] paints the page [l] and nothing else.
    The theorem gives the page of each of the three score screens: the records, the score of a
    game that was won, and that of a game that was lost. *)

From Stdlib Require Import Sorted Permutation.
From S2P Require Import Prelude Triples Machine Xpm SpritesMenu Sprites Graphics Decimal Text.
From S2P Require Import Keyboard Enemies Score HighScores Ship Menu System GameState Records Main.
Import (notations) String.

(** ** Pages *)
Inductive piece :=
| Word (s : list Z) (x y : Z)
| Figures (n x y : Z)
| Sprite (m : xpm_map) (w h x y : Z).

Section pages.
Context `{XpmLoaderLaws}.

Definition piece_painting (p : piece) : painting :=
  match p with
  | Word s x y => glyphs letter_of s x y
  | Figures n x y => glyphs digit_of (sprintf_d n) x y
  | Sprite m w h x y => area x y w h (sprite_color m)
  end.

(** Later pieces are drawn over earlier ones. *)
Fixpoint picture (l : list piece) : painting :=
  match l with
  | [] => nothing
  | p :: l => over (picture l) (piece_painting p)
  end.

Definition shows {A} (m : M gfx A) (l : list piece) : Prop :=
  ∀ g, gfx_ok g → hres g = 1152 → vres g = 864 → wp m (λ _ g', paints g g' (picture l)) g.

Lemma picture_app l1 l2 px py : picture (l1 ++ l2) px py = over (picture l2) (picture l1) px py.
Proof.
  induction l1 as [|p l1 IH]; simpl.
  - unfold over, nothing. by destruct (picture l2 px py).
  - unfold over in *. rewrite IH. by destruct (picture l2 px py).
Qed.

Lemma shows_bind {A B} (m : M gfx A) (k : A → M gfx B) l1 l2 :
  shows m l1 → (∀ a, shows (k a) l2) → shows (m ≫= k) (l1 ++ l2).
Proof.
  intros Hm Hk g Hg Hx Hy. apply wp_bind. eapply wp_mono; [|by apply Hm]. intros a g1 P1.
  destruct (paints_screen _ _ _ P1) as (Hx1 & Hy1 & _).
  eapply wp_mono; [|apply Hk; [apply P1|congruence..]]. intros b g2 P2.
  eapply paints_ext; [|exact (paints_trans _ _ _ _ _ P1 P2)]. intros px py _. symmetry. apply picture_app.
Qed.

Lemma shows_then {A B} (m : M gfx A) (k : A → M gfx B) p l :
  shows m [p] → (∀ a, shows (k a) l) → shows (m ≫= k) (p :: l).
Proof. apply (shows_bind m k [p]). Qed.

Lemma shows_some {A B} (a : A) (k : A → M gfx B) l : shows (k a) l → shows (of_option (Some a) ≫= k) l.
Proof. done. Qed.

Lemma shows_ret {A} (a : A) : shows (mret a) [].
Proof. intros g Hg _ _. by apply wp_ret, paints_refl. Qed.

Lemma shows_mode {A} (k : vbe_mode_info → M gfx A) l :
  (∀ mi, XResolution mi = 1152 → YResolution mi = 864 → shows (k mi) l) → shows (gets mode_info ≫= k) l.
Proof. intros Hk g Hg Hx Hy. apply wp_bind, wp_gets. by apply (Hk (mode_info g)). Qed.

(** Then the rest draws nothing: a result that is dropped. *)
Lemma shows_drop {A B} (m : M gfx A) (b : B) l : shows m l → shows (m;; mret b) l.
Proof. intros Hm. rewrite <- (app_nil_r l). apply shows_bind; [done|]. intros _. apply shows_ret. Qed.

(** ** Pieces *)
Lemma shows_text s x y : 0 <= x → x + 22 * Z.of_nat (length s) <= 1152 → 0 <= y <= 829 →
  shows (draw_text s x y) [Word s x y].
Proof.
  intros ??? g Hg Hx Hy. eapply wp_mono; [|by apply draw_text_draws]. intros [] g' [_ Hp].
  eapply paints_ext; [|apply Hp; unfold string_fits; lia]. done.
Qed.

Lemma shows_number n x y : 0 <= x → x <= 910 → 0 <= y <= 829 →
  shows (draw_number n x y) [Figures n x y].
Proof.
  intros ??? g Hg Hx Hy. pose proof (sprintf_d_length n).
  eapply wp_mono; [|by apply draw_number_draws]. intros r g' [_ Hp].
  eapply paints_ext; [|apply Hp; unfold string_fits; lia]. done.
Qed.

Lemma sprite_shown m w h x y g : xpm_dims m = Some (w, h) → 0 <= x → 0 <= y → x + w <= 1152 →
  y + h <= 864 → gfx_ok g → hres g = 1152 → vres g = 864 →
  wp (print_xpm m x y) (λ rc g', rc = 0 ∧ paints g g' (picture [Sprite m w h x y])) g.
Proof.
  intros Hd ???? Hg Hx Hy. pose proof (xpm_dims_range _ _ _ Hd).
  eapply wp_mono; [|apply (print_xpm_draws g m w h); [done..|lia|lia]].
  intros rc g' Hdr. unfold draws in Hdr. rewrite Hx, Hy in Hdr.
  replace (_ && _) with true in Hdr by lia. destruct Hdr as [-> Hp]. split; [done|].
  by eapply paints_ext; [|exact Hp].
Qed.

(** Text around the middle of the screen, and around any column. *)
Definition Around (c : Z) (s : list Z) (y : Z) : piece := Word s (c - 11 * Z.of_nat (length s)) y.
Definition Centred : list Z → Z → piece := Around 576.

Lemma shows_around c s y : 0 <= c - 11 * Z.of_nat (length s) → c + 11 * Z.of_nat (length s) <= 1152 →
  0 <= y <= 829 → shows (draw_text_centered s c y) [Around c s y].
Proof.
  intros Hc Hl Hy. unfold draw_text_centered. rewrite text_width_small by lia. unfold idiv.
  replace (22 * Z.of_nat (length s)) with (11 * Z.of_nat (length s) * 2) by lia.
  rewrite Z.quot_mul by lia. rewrite (i32_small (11 * _)), i32_small by lia.
  apply shows_text; lia.
Qed.

(** A centred label with its number. *)
Definition Labelled (label : list Z) (n y : Z) : list piece :=
  let x := 576 - 11 * label_length label n in
  [Word label x y; Figures n (x + 22 * Z.of_nat (length label)) y].

Lemma shows_labelled label n y : Z.of_nat (length label) <= 40 → 0 <= y <= 829 →
  shows (draw_label_and_number_centered label n 576 y) (Labelled label n y).
Proof.
  intros Hl Hy g Hg Hx Hv. pose proof (sprintf_d_length n).
  eapply wp_mono; [|apply draw_label_centered_draws; [done|lia]]. intros [] g' [_ Hp].
  eapply paints_ext; [|apply Hp; unfold string_fits, label_length; lia]. intros px py _.
  unfold label_glyphs, Labelled. simpl. unfold over, nothing. by destruct (glyphs digit_of _ _ _ px py).
Qed.
End pages.

(** ** The pages of the score screen *)

Definition row (i : Z) (e : HighScoreEntry) : list piece :=
  let y := 130 + 40 * (i + 1) in
  [Word (rank_str i) 80 y; Word (hs_name e) 200 y; Figures (hs_score e) 400 y;
   Figures (hs_bullets_fired e) 550 y; Figures (hs_game_time_seconds e) 700 y;
   Word (codes "S") 766 y].

Fixpoint rows (i : Z) (es : list HighScoreEntry) : list piece :=
  match es with
  | [] => []
  | e :: es => row i e ++ rows (i + 1) es
  end.

(** The scoreboard with the entries [es]. *)
Definition scoreboard (es : list HighScoreEntry) : list piece :=
  [Centred (codes "HIGH SCORES") 80] ++
  (match es with
   | [] => [Centred (codes "NO HIGH SCORES YET") 210;
            Centred (codes "PLAY A GAME TO SET YOUR FIRST SCORE") 250]
   | _ => [Word (codes "RANK") 80 130; Word (codes "PILOT") 200 130; Word (codes "SCORE") 400 130;
           Word (codes "SHOTS") 550 130; Word (codes "TIME") 700 130] ++ rows 0 es
   end) ++
  [Centred (codes "PRESS ESC TO RETURN TO MENU") 784].

(** The percentage on the page of a finished game. *)
Definition efficiency (sc : scoring) : Z := Z.min 100 (idiv (i32 (final_score sc * 100)) 10000).

Definition final_page (sc : scoring) : list piece :=
  [Centred (codes "YOU WON") 312;
   Around 516 (codes "PILOT") 352; Around 636 (codes "UNKNOWN") 352] ++
  Labelled (codes "FINAL SCORE ") (final_score sc) 392 ++
  Labelled (codes "TIME ") (game_time_seconds sc) 432 ++
  Labelled (codes "SHOTS FIRED ") (bullets_fired sc) 472 ++
  (if bullets_fired sc >? 0 then Labelled (codes "EFFICIENCY ") (efficiency sc) 512 else []) ++
  [Centred (codes "PRESS ENTER") 552].

Definition game_over_page (sc : scoring) : list piece :=
  [Sprite Messages.message4 107 35 400 200] ++ final_page sc ++
  [Sprite Messages.message1 327 35 300 500].

Definition score_page (win lost : bool) (es : list HighScoreEntry) (sc : scoring) : list piece :=
  if win then final_page sc else if lost then game_over_page sc else scoreboard es.

Section drawings.
Context `{XpmLoaderLaws}.

(** The next piece of a page. *)
Ltac piece :=
  first [ apply shows_around; (done || lia) | apply shows_text; (done || lia)
        | apply shows_number; (done || lia) | apply shows_labelled; (done || lia) ].
Ltac next_piece := apply shows_then; [piece|intros _].

Lemma rows_shown l n : ∀ i, 0 <= i → i + Z.of_nat n <= 8 → (Z.to_nat i + n <= length l)%nat →
  Forall (λ e, (length (hs_name e) <= 19)%nat) (take (Z.to_nat i + n) l) →
  shows (draw_rows n i l 130 40) (rows i (take n (skipn (Z.to_nat i) l))).
Proof.
  induction n as [|n IH]; intros i Hi Hn Hl Hnames; cbn [draw_rows]; [apply shows_ret|].
  assert (Z.of_nat (length (rank_str i)) <= 4) as Hrank.
  { assert (i = 0 ∨ i = 1 ∨ i = 2 ∨ i = 3 ∨ i = 4 ∨ i = 5 ∨ i = 6 ∨ i = 7) as Hi' by lia.
    repeat (destruct Hi' as [->|Hi']; [vm_compute; discriminate|]). rewrite Hi'. vm_compute; discriminate. }
  rewrite (proj2 (Z.leb_le _ 8)) by lia.
  destruct (lookup_lt_is_Some_2 l (Z.to_nat i)) as [e He]; [lia|].
  assert (length (hs_name e) <= 19)%nat as Hname.
  { rewrite List.Forall_forall in Hnames. apply (Hnames e), list_elem_of_In, list_elem_of_lookup.
    exists (Z.to_nat i). rewrite lookup_take_lt; [done|lia]. }
  rewrite (drop_S _ _ _ He). cbn [take rows].
  rewrite (i32_small ((i + 1) * 40)), (i32_small (130 + _)) by lia.
  replace (130 + (i + 1) * 40) with (130 + 40 * (i + 1)) by lia.
  change (i32 (700 + calculate_text_width (codes "999"))) with 766.
  cbn [row app]. next_piece. rewrite He. apply shows_some. do 5 next_piece.
  replace (S (Z.to_nat i)) with (Z.to_nat (i + 1)) by lia.
  apply IH; [lia|lia|lia|]. by replace (Z.to_nat (i + 1) + n)%nat with (Z.to_nat i + S n)%nat by lia.
Qed.

Lemma scoreboard_shown b : board_ok b →
  Forall (λ e, (length (hs_name e) <= 19)%nat) (ranking b) →
  shows (draw_scoreboard_menu b) (scoreboard (take 8 (ranking b))).
Proof.
  intros [Hl Hc] Hnames. unfold draw_scoreboard_menu. apply shows_mode. intros mi Hx Hy. rewrite Hx, Hy.
  change (idiv 1152 2) with 576. change (i32 (864 - 80)) with 784. unfold scoreboard.
  apply shows_then; [piece|intros _]. apply shows_bind; [|intros _; piece].
  set (n := if highscore_count b <? 8 then highscore_count b else 8).
  assert (take 8 (ranking b) = take (Z.to_nat n) (highscores b)) as E.
  { unfold ranking. rewrite take_take. f_equal. subst n. destruct (highscore_count b <? 8) eqn:E; lia. }
  assert (0 <= n <= 8) as Hn by (subst n; destruct (highscore_count b <? 8) eqn:?; lia).
  assert (Forall (λ e, (length (hs_name e) <= 19)%nat) (take (Z.to_nat n) (highscores b))) as Hnm
    by (rewrite <- E; by apply Forall_take).
  rewrite E. destruct (Z.eqb_spec n 0) as [->|Hn0].
  - apply shows_then; [piece|intros _; piece].
  - replace (match take (Z.to_nat n) (highscores b) with [] => _ | _ => _ end) with
      ([Word (codes "RANK") 80 130; Word (codes "PILOT") 200 130; Word (codes "SCORE") 400 130;
        Word (codes "SHOTS") 550 130; Word (codes "TIME") 700 130] ++
       rows 0 (take (Z.to_nat n) (highscores b))).
    2: { destruct (highscores b) as [|e l] eqn:Eb; [done|]. by destruct (Z.to_nat n) eqn:Et; [lia|]. }
    cbn [app]. do 5 next_piece. apply (rows_shown (highscores b) (Z.to_nat n) 0); (done || lia).
Qed.

Lemma final_page_shown sc : shows (draw_final_score_display sc) (final_page sc).
Proof.
  unfold draw_final_score_display. apply shows_mode. intros mi Hx Hy. rewrite Hx, Hy.
  change (idiv 1152 2) with 576. change (i32 (idiv 864 2 - (CHAR_HEIGHT + 15) * 3)) with 312.
  cbv zeta. change (i32 (576 - 60)) with 516. change (i32 (576 + 60)) with 636.
  change (i32 (312 + (CHAR_HEIGHT + 15))) with 352. change (i32 (312 + (CHAR_HEIGHT + 15) * 2)) with 392.
  change (i32 (312 + (CHAR_HEIGHT + 15) * 3)) with 432. change (i32 (312 + (CHAR_HEIGHT + 15) * 4)) with 472.
  change (i32 (312 + (CHAR_HEIGHT + 15) * 5)) with 512. change (i32 (312 + (CHAR_HEIGHT + 15) * 6)) with 552.
  unfold final_page. cbn [app]. do 3 next_piece. do 3 (apply shows_bind; [piece|intros _]).
  apply shows_bind; [|intros _; piece]. destruct (bullets_fired sc >? 0); [|apply shows_ret].
  replace (if _ >? 100 then 100 else _) with (efficiency sc); [piece|].
  unfold efficiency. destruct (_ >? 100) eqn:E; lia.
Qed.

(** ** On the screen *)

(** The back buffer shows the page on black, in the mode of [g]. *)
Definition displays (g g' : gfx) (l : list piece) : Prop :=
  gfx_ok g' ∧ mode_info g' = mode_info g ∧ ∀ px py, in_screen g px py →
    get_pixel g' px py = Some (le_bytes (Z.to_nat (bpp g)) (default 0 (picture l px py))).

Lemma displays_swap g g' l : displays g g' l → displays g (set_video_mem (back_buf g') g') l.
Proof. intros (Hg & Hm & Hp). split; [by apply swap_buffers_ok|]. by split. Qed.

Lemma displays_more g g1 g2 l1 l2 : displays g g1 l1 → paints g1 g2 (picture l2) → displays g g2 (l1 ++ l2).
Proof.
  intros (Hg1 & Hm1 & Hp1) P. split; [apply P|]. split; [by rewrite (paints_mode _ _ _ P)|].
  intros px py Hin. unfold in_screen, hres, vres, bpp in *. rewrite (paints_pixel _ _ _ P), picture_app.
  - unfold over, bpp. rewrite Hm1. destruct (picture l2 px py); [done|by apply Hp1].
  - unfold in_screen, hres, vres. by rewrite Hm1.
Qed.

Lemma displays_screen g g' l : displays g g' l → hres g = 1152 → vres g = 864 →
  gfx_ok g' ∧ hres g' = 1152 ∧ vres g' = 864.
Proof. intros (Hg & Hm & _) Hx Hy. unfold hres, vres in *. by rewrite Hm. Qed.
End drawings.

Section score_screen.
Context {W : Type} `{XpmLoaderLaws}.
Implicit Types s : sys W.

(** A drawing that adds [l2] to the page. *)
Lemma on_gfx_shows {A} (m : M gfx A) l1 l2 g0 g1 s : shows m l2 → displays g0 g1 l1 →
  hres g0 = 1152 → vres g0 = 864 →
  wp (on_gfx m) (λ _ s', ∃ g2, s' = set_video g2 s ∧ displays g0 g2 (l1 ++ l2)) (set_video g1 s).
Proof.
  intros Hm Hd Hx Hy. destruct (displays_screen _ _ _ Hd Hx Hy) as (Hg1 & Hx1 & Hy1).
  apply wp_zoom. eapply wp_mono; [|by apply Hm]. intros a g2 P. exists g2. split; [done|].
  by eapply displays_more.
Qed.

(** A sprite that fits. *)
Lemma on_gfx_sprite m w h x y l g0 g1 s : xpm_dims m = Some (w, h) → 0 <= x → 0 <= y →
  x + w <= 1152 → y + h <= 864 → displays g0 g1 l → hres g0 = 1152 → vres g0 = 864 →
  wp (on_gfx (print_xpm m x y)) (λ rc s', rc = 0 ∧ ∃ g2, s' = set_video g2 s ∧
    displays g0 g2 (l ++ [Sprite m w h x y])) (set_video g1 s).
Proof.
  intros ????? Hd Hx Hy. destruct (displays_screen _ _ _ Hd Hx Hy) as (Hg1 & Hx1 & Hy1).
  apply wp_zoom. eapply wp_mono; [|by apply (sprite_shown m w h x y)]. intros rc g2 [-> P].
  split; [done|]. exists g2. split; [done|]. by eapply displays_more.
Qed.

(** The black rectangle under every page. *)
Lemma black_displays g : gfx_ok g → hres g = 1152 → vres g = 864 →
  wp (vg_draw_rectangle 0 0 1152 864 0x000000) (λ rc g', rc = 0 ∧ displays g g' []) g.
Proof.
  intros Hg Hx Hy. eapply wp_mono; [|apply vg_draw_rectangle_draws; [done|lia..]].
  intros rc g' Hd. unfold draws, image_fits in Hd. rewrite !Z2Nat.id, Hx, Hy in Hd by lia.
  replace (_ || _) with true in Hd by lia. destruct Hd as [-> P]. split; [done|].
  split; [apply P|]. split; [by rewrite (paints_mode _ _ _ P)|]. intros px py Hin.
  rewrite (paints_pixel _ _ _ P px py Hin). unfold in_screen in Hin. rewrite Hx, Hy in Hin.
  unfold area. replace (_ && _) with true by lia. done.
Qed.

(** The page of the score screen on the back buffer, shown already or not. *)
Definition page_ready s l s' : Prop :=
  ∃ g b, s' = set_show_scores_drawn b (set_video g s) ∧ displays (video s) g l.

Lemma page_shown s l s' : page_ready s l s' →
  wp (on_gfx swap_buffers;; modify (set_show_scores_drawn true);; mret (None : option Z))
    (λ r s2, r = None ∧ ∃ g, s2 = set_show_scores_drawn true (set_video g s) ∧
      video_mem g = back_buf g ∧ displays (video s) g l) s'.
Proof.
  intros (g & b & -> & Hd). apply wp_bind, wp_zoom. unfold wp at 1. cbn [video set_video set_show_scores_drawn].
  rewrite swap_buffers_run by apply Hd. apply wp_bind, wp_modify, wp_ret. split; [done|].
  exists (set_video_mem (back_buf g) g). split; [done|]. split; [done|by apply displays_swap].
Qed.

Lemma draw_scores_shows s : sys_ok s →
  Forall (λ e, (length (hs_name e) <= 19)%nat) (ranking (table s)) →
  wp draw_scores (λ r s', r = None ∧ ∃ g, s' = set_show_scores_drawn true (set_video g s) ∧
    video_mem g = back_buf g ∧ displays (video s) g (score_page (player_win s) (player_lost s)
      (take 8 (ranking (table s))) (current_score s))) s.
Proof.
  intros Hs Hnames. pose proof (sys_gfx s Hs) as Hg. pose proof (sys_width s Hs) as Hx.
  pose proof (sys_height s Hs) as Hy.
  unfold draw_scores. apply wp_bind, wp_gets. unfold id. apply wp_bind, wp_zoom.
  fold (hres (video s)) (vres (video s)). rewrite Hx, Hy.
  eapply wp_mono; [|by apply black_displays]. intros rc g1 [-> Hd1]. cbn [Z.eqb negb].
  apply wp_bind. set (l := score_page _ _ _ _).
  apply (wp_mono _ (λ r s', r = None ∧ page_ready s l s')); [by intros r s' [-> Hp]; apply page_shown|].
  assert (∀ g2, displays (video s) g2 l → page_ready s l (set_video g2 s)) as Hready
    by (intros g2 Hd2; by exists g2, (show_scores_drawn s)).
  subst l. unfold score_page in *. destruct (player_win s); cbn [negb andb].
  { apply wp_bind. eapply wp_mono; [|by apply (on_gfx_shows _ [] _ _ _ _ (final_page_shown _) Hd1)].
    intros _ s2 (g2 & -> & Hd2). apply wp_ret. split; [done|by apply Hready]. }
  destruct (player_lost s); cbn [negb].
  - apply wp_bind. eapply wp_mono; [|eapply on_gfx_sprite; [exact message4_dims|lia..|exact Hd1|done|done]].
    intros rc s2 (-> & g2 & -> & Hd2). cbn [Z.eqb negb]. apply wp_bind.
    eapply wp_mono; [|by apply (on_gfx_shows _ _ _ _ _ _ (final_page_shown _) Hd2)].
    intros _ s3 (g3 & -> & Hd3). apply wp_bind.
    eapply wp_mono; [|eapply on_gfx_sprite; [exact message1_dims|lia..|exact Hd3|done|done]].
    intros rc s4 (-> & g4 & -> & Hd4). cbn [Z.eqb negb]. apply wp_ret. split; [done|]. apply Hready.
    unfold game_over_page. by rewrite app_assoc.
  - apply wp_bind. pose proof (scoreboard_shown (table s) (sys_table s Hs) Hnames) as Hsb.
    eapply wp_mono; [|by apply (on_gfx_shows _ [] _ _ _ _ Hsb Hd1)].
    intros _ s2 (g2 & -> & Hd2). apply wp_bind, wp_zoom. unfold wp at 1. cbn [video set_video].
    rewrite swap_buffers_run by apply Hd2. apply wp_bind, wp_modify, wp_ret. split; [done|].
    exists (set_video_mem (back_buf g2) g2), true. split; [done|by apply displays_swap].
Qed.
End score_screen.

(** ** The pages of the menu *)

Definition option_buttons (o : MenuOption) : list piece :=
  match o with
  | MENU_OPTION_START => [Sprite Options.start1 163 51 503 466; Sprite Options.scores2 193 51 503 537;
                          Sprite Options.quit2 145 51 503 608]
  | MENU_OPTION_SCORES => [Sprite Options.start2 163 51 503 466; Sprite Options.scores1 193 51 503 537;
                           Sprite Options.quit2 145 51 503 608]
  | MENU_OPTION_QUIT => [Sprite Options.start2 163 51 503 466; Sprite Options.scores2 193 51 503 537;
                         Sprite Options.quit1 145 51 503 608]
  | MENU_OPTION_NONE => []
  end.

Definition menu_page (st : MenuState) (o : MenuOption) : list piece :=
  match st with
  | MENU_MAIN => Sprite Title.title 400 200 376 216 :: option_buttons o
  | MENU_GAME_OVER => [Centred (codes "YOU LOST") 382;
                       Centred (codes "PRESS ENTER OR ESC TO CONTINUE") 482]
  | _ => []
  end.

Section menu_pages.
Context `{XpmLoaderLaws}.

Lemma put_shown m w h x y : xpm_dims m = Some (w, h) → 0 <= x → 0 <= y → x + w <= 1152 →
  y + h <= 864 → shows (put m x y) [Sprite m w h x y].
Proof.
  intros Hd ???? g Hg Hx Hy. eapply wp_mono; [|by apply (put_draws m w h)].
  intros [] g' [_ Hp]. eapply paints_ext; [|apply Hp; lia]. done.
Qed.

Lemma option_buttons_shown o : shows (draw_options o 503 466 71) (option_buttons o).
Proof.
  unfold draw_options. change (i32 (466 + 71)) with 537. change (i32 (466 + i32 (71 * 2))) with 608.
  destruct o; cbn [option_buttons]; try apply shows_ret;
    (apply shows_then; [apply put_shown; (auto 1 with sprites nocore || lia)|intros _];
     apply shows_then; [apply put_shown; (auto 1 with sprites nocore || lia)|intros _];
     apply put_shown; (auto 1 with sprites nocore || lia)).
Qed.

(** A drawing of the menu. *)
Lemma menu_gfx_shows {A} (m : M gfx A) l1 l2 g0 g1 mn : shows m l2 → displays g0 g1 l1 →
  hres g0 = 1152 → vres g0 = 864 →
  wp (zoom snd (λ g (p : menu * gfx), (p.1, g)) m)
    (λ _ p, p.1 = mn ∧ displays g0 p.2 (l1 ++ l2)) (mn, g1).
Proof.
  intros Hm Hd Hx Hy. destruct (displays_screen _ _ _ Hd Hx Hy) as (Hg1 & Hx1 & Hy1).
  apply wp_on_gfx. eapply wp_mono; [|by apply Hm]. intros a g2 P. split; [done|].
  by eapply displays_more.
Qed.

Lemma clear_displays g : gfx_ok g → wp (clear_back_buf 0x000000) (λ _ g', displays g g' []) g.
Proof.
  intros Hg. eapply wp_mono; [|by apply clear_back_buf_paints]. intros [] g' P.
  split; [apply P|]. split; [apply P|]. intros px py Hin. rewrite (paints_pixel _ _ _ P px py Hin).
  unfold normal. by destruct (_ =? 32).
Qed.

Lemma menu_render_shows m g : gfx_ok g → hres g = 1152 → vres g = 864 →
  wp menu_render (λ _ p, video_mem p.2 = back_buf p.2 ∧
    displays g p.2 (menu_page (current_state m) (current_option m))) (m, g).
Proof.
  intros Hg Hx Hy. unfold menu_render. apply wp_bind, wp_on_gfx.
  eapply wp_mono; [|by apply clear_displays]. intros [] g1 Hd1.
  destruct (displays_screen _ _ _ Hd1 Hx Hy) as (Hg1 & Hx1 & Hy1).
  apply wp_bind, wp_gets, wp_bind, wp_gets. unfold compose. cbn [fst snd].
  fold (hres g1) (vres g1). rewrite Hx1, Hy1. apply wp_bind.
  eapply (wp_mono _ (λ _ p, displays g p.2 (menu_page (current_state m) (current_option m)))).
  { intros [] [m2 g2] Hd2. apply wp_on_gfx. unfold wp. rewrite swap_buffers_run by apply Hd2.
    split; [done|by apply displays_swap]. }
  destruct (current_state m) eqn:Est.
  - change (u16 (idiv (1152 - 400) 2)) with 376. change (u16 (idiv 864 4)) with 216.
    change (u16 (idiv (1152 - 145) 2)) with 503. change (u16 (216 + 200 + 50)) with 466.
    change (u16 (51 + 20)) with 71. apply wp_bind.
    eapply wp_mono; [|apply (menu_gfx_shows _ [] [Sprite Title.title 400 200 376 216]); [|exact Hd1|done|done]].
    2: { apply put_shown; [apply title_dims|lia..]. }
    intros [] [m2 g2] [E Hd2]. simpl in E. subst m2.
    eapply wp_mono; [|by apply (menu_gfx_shows _ _ _ _ _ _ (option_buttons_shown (current_option m)) Hd2)].
    by intros [] p [_ ?].
  - by apply wp_ret.
  - by apply wp_ret.
  - change (u16 (idiv 1152 2)) with 576. change (u16 (idiv 864 2) - 50) with 382.
    change (u16 (idiv 864 2) + 50) with 482. apply wp_bind.
    assert (shows (draw_text_centered (codes "YOU LOST") 576 382) [Centred (codes "YOU LOST") 382]) as Hs1
      by (apply shows_around; (done || lia)).
    assert (shows (draw_text_centered (codes "PRESS ENTER OR ESC TO CONTINUE") 576 482)
      [Centred (codes "PRESS ENTER OR ESC TO CONTINUE") 482]) as Hs2 by (apply shows_around; (done || lia)).
    eapply wp_mono; [|by apply (menu_gfx_shows _ [] _ _ _ _ Hs1 Hd1)].
    intros [] [m2 g2] [E Hd2]. simpl in E. subst m2.
    eapply wp_mono; [|by apply (menu_gfx_shows _ _ _ _ _ _ Hs2 Hd2)]. by intros [] p [_ ?].
  - by apply wp_modify.
  - by apply wp_ret.
Qed.
End menu_pages.

(** ** A tick of the timer in the menu *)

(** The page is what the video memory holds. *)
Definition on_screen {W} `{XpmLoader} (l : list piece) (s : sys W) : Prop :=
  ∀ px py, in_screen (video s) px py → pixel_of (video s) (video_mem (video s)) px py =
    Some (le_bytes (Z.to_nat (bpp (video s))) (default 0 (picture l px py))).

Section ticks.
Context {W : Type} `{PortIO W} `{Receive W} `{RandomLaws W} `{XpmLoaderLaws}.
Implicit Types s : sys W.

Lemma displays_on_screen g0 l s : displays g0 (video s) l → video_mem (video s) = back_buf (video s) →
  on_screen l s.
Proof.
  intros (Hg & Hm & Hp) Hv px py Hin. unfold in_screen, hres, vres, bpp in *. rewrite Hm in *.
  rewrite <- (Hp px py Hin). unfold get_pixel. by rewrite Hv.
Qed.

(** The page of the score screen in the state [s]. *)
Definition scores_page s : list piece :=
  score_page (player_win s) (player_lost s) (take 8 (ranking (table s))) (current_score s).

Lemma scores_branch_screen fuel s : sys_ok s → show_scores_drawn s = false →
  Forall (λ e, (length (hs_name e) <= 19)%nat) (ranking (table s)) →
  wlp (scores_branch fuel) (λ _ s', on_screen (scores_page s) s') s.
Proof.
  intros Hs Hd Hn. unfold scores_branch. apply wlp_bind. unfold wlp at 1, gets. rewrite Hd. cbn [negb].
  apply wlp_bind, wp_wlp. eapply wp_mono; [|by apply draw_scores_shows].
  intros r s1 (-> & g & -> & Hv & Hg). set (s1 := set_show_scores_drawn true _).
  assert (on_screen (scores_page s) s1) as Hsc by (by apply (displays_on_screen (video s))).
  apply wlp_bind. eapply wlp_mono; [|apply score_state_wlp]. intros rc s2 (-> & (v & w & ->) & _).
  cbn [Z.eqb negb]. exact Hsc.
Qed.

(** What the tick leaves on the screen. *)
Lemma menu_timer_screen fuel s : sys_ok s → show_scores_drawn s = false →
  Forall (λ e, (length (hs_name e) <= 19)%nat) (ranking (table s)) →
  wlp (menu_timer fuel) (λ _ s', match current_state (the_menu s) with
    | MENU_START => True
    | MENU_SCORES => on_screen (scores_page s) s'
    | MENU_EXIT => video s' = video s
    | st => on_screen (menu_page st (current_option (the_menu s))) s'
    end) s.
Proof.
  intros Hs Hd Hn. unfold menu_timer, timer_tick. apply wlp_bind, wp_wlp, wp_modify.
  set (s1 := set_timer_counter _ s). assert (sys_ok s1) as Hs1 by (destruct Hs; by split).
  apply wlp_bind, wp_wlp, wp_zoom. unfold wp at 1, menu_get_state, gets.
  change (set_the_menu (the_menu s1) s1) with s1.
  assert (wlp (on_menu_gfx menu_render;; mret (None : option Z)) (λ _ s',
    on_screen (menu_page (current_state (the_menu s)) (current_option (the_menu s))) s') s1) as Hrender.
  { apply wlp_bind, wp_wlp, wp_zoom.
    eapply wp_mono; [|apply (menu_render_shows (the_menu s) (video s)); apply Hs].
    intros [] [m g] [Hv Hg]. by apply (displays_on_screen (video s)). }
  change (current_state (the_menu s1)) with (current_state (the_menu s)).
  destruct (current_state (the_menu s)); try exact Hrender; try done.
  - pose proof (start_branch_wlp fuel s1 Hs1) as Hw. by eapply wlp_mono; [|exact Hw].
  - by apply (scores_branch_screen fuel s1).
Qed.
End ticks.

(** ** Properties *)

Lemma held_names es b d : held es b d → Forall (λ e, (length (hs_name e) <= 19)%nat) (ranking b).
Proof.
  intros [_ Hes _ _ _ Hr _]. rewrite Hr. apply Forall_take.
  eapply Forall_impl; [|exact Hes]. intros e He. by destruct (entry_length _ He).
Qed.

(** C10. The score screen, pixel by pixel.  From the menu it shows the scoreboard: one row for each
    of the best eight entries of the table, with the letters of its rank (the digits are not
    drawn), its name, score, shots and seconds, or two lines if there are none; after a win the page with the
    score of the game; after a loss the same page, YOU WON included, between the two game over
    sprites.  Every other pixel is black, and the frame is in video memory. *)
Theorem score_screen_shows {W} `{XpmLoaderLaws} es (s : sys W) : sys_ok s →
  held es (table s) (file s) →
  wp draw_scores (λ r s', r = None ∧ ∀ px py, in_screen (video s) px py →
    pixel_of (video s) (video_mem (video s')) px py =
      Some (le_bytes (Z.to_nat (bpp (video s))) (default 0
        (picture (score_page (player_win s) (player_lost s) (take 8 (ranking (table s)))
           (current_score s)) px py)))) s.
Proof.
  intros Hs Hh. eapply wp_mono; [|by apply draw_scores_shows, (held_names _ _ _ Hh)].
  intros r s' (-> & g & -> & Hv & Hg & Hm & Hp). split; [done|]. intros px py Hin.
  specialize (Hp px py Hin). cbn [video set_show_scores_drawn set_video]. rewrite Hv, <- Hp.
  unfold get_pixel, pixel_of, hres, bpp. by rewrite Hm.
Qed.

(** ** Witness *)
Module ScreensWitness.
Import Sim BlankLoader HighScores.Witness MainWitness GameWitness.

(** The score screen of a first start: no file, no records. *)
Lemma scores0_held : held [] (System.table scores0) (System.file scores0).
Proof. split; try done; [by right|by split; [|left]|constructor]. Qed.

Lemma score_screen_shows_witness : (sys_ok scores0 ∧ held [] (System.table scores0) (System.file scores0)) ∧
  wp draw_scores (λ r s', r = None ∧ ∀ px py, in_screen (video scores0) px py →
    pixel_of (video scores0) (video_mem (video s')) px py =
      Some (le_bytes (Z.to_nat (bpp (video scores0))) (default 0
        (picture (scoreboard []) px py)))) scores0.
Proof.
  split; [exact (conj scores0_ok scores0_held)|].
  apply (score_screen_shows [] scores0 scores0_ok scores0_held).
Defined.
End ScreensWitness.
