(* ===== verification/Ending.v ===== *)
(** * The program ends, if only ESC is pressed

    [escapes irq w]: however the program goes on from the machine [w], there is no endless
    sequence of messages without the break code of ESC being read by its keyboard handler.
    Nothing is assumed of the timer, of the order of the interrupts, of the other keys.

    The theorem: then proj_main_loop returns, from any amount of fuel on, through all the games
    and score screens in between. *)

From stdpp Require Import relations.
From S2P Require Import Prelude Triples Machine Utils Xpm Graphics Keyboard Timer.
From S2P Require Import Enemies Score HighScores Ship Menu System GameState Main.

#[local] Hint Resolve rtc_refl : core.

(** ** One message *)
Section machine.
Context {W : Type} `{PortIO W} `{Receive W} `{Random W}.

(** The C library's random numbers. *)
Definition chance (w w' : W) : Prop := w' = (rand w).2 ∨ w' = srand_time w.

(** One message handled, without reading ESC: with a key if it brings the keyboard's interrupt,
    and with random numbers perhaps. *)
Inductive handled (irq : Z) (w w' : W) : Prop :=
| handled_other rc m w1 :
    driver_receive w = ((rc, m), w1) →
    (rc =? 0) && (from_hardware m && irq_pending m irq) = false →
    rtc chance w1 w' → handled irq w w'
| handled_key m w1 sc v w2 :
    driver_receive w = ((0, m), w1) → from_hardware m && irq_pending m irq = true →
    kbc_ih sc w1 = Done (v, w2) → v ≠ KB_BREAK_ESC →
    rtc chance w2 w' → handled irq w w'.

Definition escapes (irq : Z) (w : W) : Prop := sn (handled irq) w.

Lemma handled_chance irq w w1 w2 : handled irq w w1 → chance w1 w2 → handled irq w w2.
Proof.
  intros [rc m w0 E Hno Hc|m w0 sc v w0' E Hm Hk Hv Hc] Hw; [eapply handled_other|eapply handled_key];
    try done; by eapply rtc_r.
Qed.

(** ESC was read, or at least one message was handled since [w]. *)
Definition on_way (irq : Z) (w : W) (s : sys W) : Prop :=
  irq_set_keyboard s = irq ∧ (scancode s = KB_BREAK_ESC ∨ tc (handled irq) w (world s)).

Lemma on_way_escapes irq w s : escapes irq w → on_way irq w s →
  irq_set_keyboard s = irq ∧
  (scancode s = KB_BREAK_ESC ∨ escapes irq (world s) ∧ tc (handled irq) w (world s)).
Proof.
  intros Hw [Hi [?|Ht]]; (split; [done|]); [by left|right]. split; [|done].
  clear Hi. induction Ht as [w w' Ht|w w1 w' Ht _ IH]; [exact (Acc_inv Hw Ht)|].
  apply IH, (Acc_inv Hw Ht).
Qed.
End machine.

(** ** What the code does between two messages stays on the way *)
Section steps.
Context {W : Type} `{PortIO W} `{Receive W} `{Random W} `{XpmLoader}.
Variables (irq : Z) (w : W).
Implicit Types s : sys W.

Lemma tc_chance w1 w2 : tc (handled irq) w w1 → chance w1 w2 → tc (handled irq) w w2.
Proof.
  induction 1 as [w w1 Ht|w w0 w1 Ht _ IH]; intros Hc.
  - apply tc_once. by eapply handled_chance.
  - eapply tc_l; [done|by apply IH].
Qed.

Lemma on_way_chance s s' : on_way irq w s → irq_set_keyboard s' = irq_set_keyboard s →
  scancode s' = scancode s → rtc chance (world s) (world s') → on_way irq w s'.
Proof.
  intros [Hi Ht] Hi' Hk Hc. split; [congruence|]. rewrite Hk. destruct Ht as [?|Ht]; [by left|right].
  induction Hc as [|x y z Hxy _ IH]; [done|]. apply IH. by eapply tc_chance.
Qed.

Lemma fire_on_way es : keeps (on_way irq w) (on_world_ship (fire_enemy_bullet es)).
Proof.
  intros s a s' Hs. unfold on_world_ship, zoom, fire_enemy_bullet. simpl.
  destruct (_ =? 0); [intros [= _ <-]; apply (on_way_chance s); [done..|apply rtc_refl]|].
  destruct (rand (world s)) as [r x] eqn:E. intros [= _ <-]. apply (on_way_chance s); try done.
  apply rtc_once. left. simpl. by rewrite E.
Qed.

Lemma name_chance x : keeps (λ p : W * board, rtc chance x p.1) get_random_anime_name.
Proof.
  intros [y b] n p Hx. unfold get_random_anime_name.
  set (q := if negb (seeded b) then _ else _).
  assert (rtc chance x q.1) as Hq.
  { subst q. destruct (negb _); [|done]. eapply rtc_r; [exact Hx|by right]. }
  destruct q as [y1 b1]. simpl in Hq. destruct (rand y1) as [r y2] eqn:E.
  destruct (anime_names !! _); intros [= _ <-]. eapply rtc_r; [exact Hq|]. left. by rewrite E.
Qed.

Lemma save_chance x : keeps (λ h : hstate W, rtc chance x (h_world h)) save_win_highscore.
Proof.
  unfold save_win_highscore. apply keeps_bind; [apply keeps_gets|intros sc].
  destruct (negb _); [|apply keeps_skip]. apply keeps_bind; [|intros name].
  { eapply keeps_zoom_part; [| |apply (name_chance x)]; [done|by intros h []]. }
  apply keeps_bind; [|intros _; by apply keeps_modify]. apply keeps_zoom. by intros h [].
Qed.

Lemma save_on_way : keeps (on_way irq w) (on_hstate save_win_highscore).
Proof.
  intros s a s' Hs. unfold on_hstate, zoom.
  destruct (save_win_highscore _) as [[[] h]| |] eqn:E; [|done..]. intros [= _ <-].
  apply (on_way_chance s); [done..|]. eapply (save_chance (world s)); [|exact E]. apply rtc_refl.
Qed.
#[local] Hint Resolve fire_on_way save_on_way : keeps.

(** The parts of the loops after the keyboard's handler. *)
Lemma game_frame_on_way : keeps (on_way irq w) (game_update;; game_draw).
Proof. unfold game_update, timer_tick, game_draw, game_outcome. keeping. Qed.

(** The keyboard's handler, on a received message. *)
Definition received (m : message) s : Prop :=
  irq_set_keyboard s = irq ∧ driver_receive w = ((0, m), world s).

Lemma read_on_way m : from_hardware m = true → irq_pending m irq = true →
  triple (received m) read_scancode (λ _, on_way irq w).
Proof.
  intros Hm Hi. apply wp_triple. intros s [Hk Hr]. unfold read_scancode.
  apply wp_bind, wp_gets, wp_bind, wp_zoom.
  assert (∃ v x, kbc_ih (scancode s) (world s) = Done (v, x)) as (v & x & E).
  { destruct (kbc_ih_scancode (scancode s) (world s)) as (r & x & _ & E). eauto. }
  unfold wp at 1. rewrite E. apply wp_modify. split; [done|].
  destruct (decide (v = KB_BREAK_ESC)) as [?|Hv]; [by left|right].
  apply tc_once. eapply handled_key; [exact Hr|by rewrite Hm|exact E|exact Hv|apply rtc_refl].
Qed.

Lemma no_key_on_way m s : from_hardware m && irq_pending m irq = false → received m s → on_way irq w s.
Proof. intros Hm [Hk Hr]. split; [done|right]. apply tc_once. by eapply handled_other. Qed.

(** The keyboard's part of a message, and the rest. *)
Lemma message_on_way {A} m (k : M (sys W) unit) (rest : M (sys W) A) : from_hardware m = true →
  keeps (on_way irq w) k → keeps (on_way irq w) rest →
  triple (received m) (i ← gets irq_set_keyboard;
    (if irq_pending m i then read_scancode;; k else skip);; rest) (λ _, on_way irq w).
Proof.
  intros Hm Hk Hrest. apply triple_gets. intros i.
  apply (triple_bind _ _ _ (λ _, on_way irq w)); [|by intros []].
  destruct (irq_pending m i) eqn:Ep.
  - apply (triple_bind _ _ _ (λ _, on_way irq w)); [|by intros []].
    intros s a s' [Hr Hi]. refine (read_on_way m Hm _ s a s' Hr). destruct Hr as [<- _]. by rewrite Hi.
  - apply triple_ret. intros s [Hr Hi]. apply (no_key_on_way m); [|done].
    destruct Hr as [<- _]. by rewrite Hi, Ep, andb_false_r.
Qed.

(** A message that is received, or is not. *)
Lemma receive_on_way {A} (k : Z * message → M (sys W) A) :
  (∀ m, triple (received m) (k (0, m)) (λ _, on_way irq w)) →
  (∀ rc m, rc ≠ 0 → keeps (on_way irq w) (k (rc, m))) →
  triple (λ s, irq_set_keyboard s = irq ∧ world s = w) (on_world (call driver_receive) ≫= k)
    (λ _, on_way irq w).
Proof.
  intros Hgot Hnot s a s' [Hi Hw]. unfold on_world, zoom, call, mbind, M_bind. rewrite Hw.
  destruct (driver_receive w) as [[rc m] x] eqn:E. destruct (decide (rc = 0)) as [->|Hrc].
  - apply (Hgot m). by split.
  - apply (Hnot rc m Hrc). split; [done|right]. apply tc_once. eapply handled_other; [exact E| |apply rtc_refl].
    by rewrite (proj2 (Z.eqb_neq _ _) Hrc).
Qed.

Lemma game_step_on_way :
  triple (λ s, irq_set_keyboard s = irq ∧ world s = w) game_step (λ _, on_way irq w).
Proof.
  apply receive_on_way; [intros m; cbn [Z.eqb negb]|intros rc m Hrc].
  - unfold game_message. destruct (from_hardware m) eqn:Hm.
    + apply message_on_way; [done|cbv zeta; keeping|]. pose proof game_frame_on_way. keeping.
    + apply triple_ret. intros s. apply no_key_on_way. by rewrite Hm.
  - rewrite (proj2 (Z.eqb_neq _ _) Hrc). apply keeps_ret.
Qed.

Lemma score_message_on_way m : triple (received m) (score_message m) (λ _, on_way irq w).
Proof.
  unfold score_message. apply triple_gets. intros i.
  destruct (from_hardware m && irq_pending m i) eqn:E.
  - apply andb_prop in E as [Hm Hp]. apply (triple_bind _ _ _ (λ _, on_way irq w));
      [|intros []; apply keeps_bind; [apply keeps_gets|intros ?; apply keeps_ret]].
    intros s a s' [Hr Hi]. refine (read_on_way m Hm _ s a s' Hr). destruct Hr as [<- _]. by rewrite Hi.
  - apply triple_ret. intros s [Hr Hi]. apply (no_key_on_way m); [|done].
    destruct Hr as [<- _]. by rewrite Hi.
Qed.
End steps.

(** ** The loops stay on the way *)
Section loops.
Context {W : Type} `{PortIO W} `{Receive W} `{Random W} `{XpmLoader}.
Variables (irq : Z).
Implicit Types s : sys W.

Definition at_world (w : W) s : Prop := irq_set_keyboard s = irq ∧ world s = w.

(** A loop whose body handles a message and that ESC ends. *)
Lemma loop_on_way {A} (body stop : M (sys W) A) :
  (∀ w, triple (at_world w) body (λ _, on_way irq w)) → (∀ w, keeps (on_way irq w) stop) →
  ∀ w, keeps (on_way irq w) (sc ← gets scancode; if negb (sc =? KB_BREAK_ESC) then body else stop).
Proof.
  intros Hb Hstop w. apply triple_gets. intros sc.
  destruct (Z.eqb_spec sc KB_BREAK_ESC) as [_|Hne]; simpl; intros s a s' [[Hi Ht] Hk] Hr.
  - by apply (Hstop w s a s').
  - destruct Ht as [?|Ht]; [congruence|].
    destruct (Hb (world s) s a s' (conj Hi eq_refl) Hr) as [Hi' Ht']. split; [done|].
    destruct Ht' as [?|Ht']; [by left|right]. by eapply tc_trans.
Qed.

Lemma game_loop_on_way fuel : ∀ w, keeps (on_way irq w) (game_loop fuel).
Proof.
  induction fuel as [|fuel IH]; cbn [game_loop]; [intros; apply keeps_no_fuel|].
  apply loop_on_way; [|intros; keeping]. intros w.
  apply (triple_bind _ _ _ (λ _, on_way irq w)); [apply game_step_on_way|].
  intros [rc|]; [apply keeps_ret|apply IH].
Qed.

Lemma score_state_on_way fuel : ∀ w, keeps (on_way irq w) (score_state fuel).
Proof.
  induction fuel as [|fuel IH]; cbn [score_state]; [intros; apply keeps_no_fuel|].
  apply loop_on_way; [|intros; keeping]. intros w.
  apply receive_on_way; [intros m; cbn [Z.eqb negb]|intros rc m Hrc].
  - apply (triple_bind _ _ _ (λ _, on_way irq w)); [apply score_message_on_way|].
    intros []; [apply keeps_ret|apply IH].
  - rewrite (proj2 (Z.eqb_neq _ _) Hrc). apply IH.
Qed.

Lemma menu_timer_on_way fuel w : keeps (on_way irq w) (menu_timer fuel).
Proof.
  pose proof game_loop_on_way. pose proof score_state_on_way.
  unfold menu_timer, timer_tick, start_branch, game_state, scores_branch, draw_scores. keeping.
Qed.

Lemma menu_message_on_way fuel m w :
  triple (received irq w m) (menu_message fuel m) (λ _, on_way irq w).
Proof.
  unfold menu_message. destruct (from_hardware m) eqn:Hm.
  - apply message_on_way; [done|keeping|]. pose proof menu_timer_on_way. keeping.
  - apply triple_ret. intros s. apply no_key_on_way. by rewrite Hm.
Qed.
End loops.

(** ** Every loop ends *)
Section settling.
Context {W : Type} `{PortIO W} `{Receive W} `{RandomLaws W} `{XpmLoaderLaws}.
Variables (irq : Z).
Implicit Types s : sys W.

(** ESC is the last key, or it will be read. *)
Definition ends_soon s : Prop :=
  irq_set_keyboard s = irq ∧ (scancode s = KB_BREAK_ESC ∨ escapes irq (world s)).

Lemma on_way_ends_soon w s : escapes irq w → on_way irq w s → ends_soon s.
Proof. intros Hw [Hi Hk]%(on_way_escapes _ _ _ Hw). split; [done|]. destruct Hk as [?|[? _]]; auto. Qed.

(** A loop settles if it does after each message that can be handled; [x] is what else the loop
    spends. *)
Lemma loop_settles {X A} (m : X → nat → M (sys W) A) (I : sys W → Prop) Q :
  (∀ x s, I s → scancode s = KB_BREAK_ESC → settles (m x) s Q) →
  (∀ x s, I s → irq_set_keyboard s = irq → escapes irq (world s) → scancode s ≠ KB_BREAK_ESC →
    (∀ x s', I s' → on_way irq (world s) s' → settles (m x) s' Q) → settles (m x) s Q) →
  ∀ s x, I s → ends_soon s → settles (m x) s Q.
Proof.
  intros Hesc Hstep s x HI [Hi [Hk|Hw]]; [by apply Hesc|]. pose proof (sn_tc _ _ Hw) as Htc.
  remember (world s) as w eqn:Ew. revert s x HI Hi Ew Hw.
  induction Htc as [w _ IH]. intros s x HI Hi -> Hw.
  destruct (decide (scancode s = KB_BREAK_ESC)) as [Hk|Hk]; [by apply Hesc|].
  apply Hstep; [done..|]. intros x' s' HI' Hon.
  destruct (on_way_escapes _ _ _ Hw Hon) as [Hi' [Hk'|[Hw' Ht]]]; [by apply Hesc|].
  by apply (IH (world s')).
Qed.

Lemma game_loop_settles s : in_game s → ends_soon s → settles game_loop s game_result.
Proof.
  apply (loop_settles (λ _ : (), game_loop) in_game game_result) with (x := ()); clear s.
  - intros _ s (g & Hp & _) Hk. apply settles_unit. apply settles_seq, wp_gets. rewrite Hk.
    apply settles_wp, esc_result; [apply Hp|done].
  - intros _ s (g & Hp & Hy) Hi _ Hk Hnext. apply settles_unit. cbn [game_loop]. apply settles_seq, wp_gets.
    rewrite (proj2 (Z.eqb_neq _ _) Hk). cbn [negb]. apply settles_seq.
    pose proof (game_step_wp g s Hp Hy) as (r & s1 & E & Hres)%wp_done.
    pose proof (game_step_on_way irq (world s) s r s1 (conj Hi eq_refl) E) as Hw.
    apply wp_done. exists r, s1. split; [exact E|]. destruct r as [rc|].
    + apply settles_wp, wp_ret. destruct Hres as [[Hres _]|(_ & _ & ? & _)]; [|done]. by apply frame_game_result.
    + apply (Hnext ()); [|done]. destruct Hres as [[Hres Hc]|(_ & _ & _ & Hp1 & _)]; [|by exists g].
      destruct (Hc eq_refl) as (_ & _ & g' & Hp' & Hy' & _). by exists g'.
Qed.

Lemma score_state_settles s : ends_soon s → settles score_state s (λ _ _, True).
Proof.
  intros Hs. apply (loop_settles (λ _ : (), score_state) (λ _, True)) with (x := ()); [| |done|done].
  - intros _ s1 _ Hk. apply settles_unit. apply settles_seq, wp_gets. rewrite Hk. by apply settles_wp, wp_ret.
  - intros _ s1 _ Hi _ Hk Hnext. apply settles_unit. cbn [score_state]. apply settles_seq, wp_gets.
    rewrite (proj2 (Z.eqb_neq _ _) Hk). cbn [negb]. apply settles_seq, wp_zoom. unfold wp, call.
    destruct (driver_receive (world s1)) as [[rc m] x] eqn:E.
    destruct (Z.eqb_spec rc 0) as [->|Hrc]; cbn [negb].
    + apply settles_seq. pose proof (score_message_wp m (set_world x s1)) as (b & s2 & E2 & _)%wp_done.
      pose proof (score_message_on_way irq (world s1) m (set_world x s1) b s2 (conj Hi E) E2) as Hw.
      apply wp_done. exists b, s2. split; [exact E2|]. destruct b; [by apply settles_wp, wp_ret|by apply (Hnext ())].
    + apply (Hnext ()); [done|]. split; [done|right]. apply tc_once.
      eapply handled_other; [exact E| |apply rtc_refl]. by rewrite (proj2 (Z.eqb_neq _ _) Hrc).
Qed.

(** A tick of the timer in the menu, with all that it starts. *)
Lemma start_branch_settles s : sys_ok s → ends_soon s → settles start_branch s (λ _ _, True).
Proof.
  intros Hs [Hi Hk]. destruct (start_branch_enters s Hs) as (s1 & (g & Hp & Hy) & Hw & Hk1 & Hi1 & E).
  eapply (settles_ext _ (λ fuel, game_state fuel ≫= _) s s1); [exact E|].
  apply (settles_bind _ _ _ game_result).
  - unfold game_state. do 2 (apply settles_seq, wp_modify). apply settles_seq, wp_gets.
    apply settles_seq, wp_zoom, wp_modify. apply game_loop_settles.
    + exists g. split; [by apply start_game|done].
    + split; [by rewrite <- Hi, <- Hi1|]. simpl. by rewrite Hk1, Hw.
  - intros rc s2 _. destruct (negb (rc =? 0)); by apply settles_wp, wp_ret.
Qed.

Lemma scores_branch_settles s : sys_ok s → ends_soon s → settles scores_branch s (λ _ _, True).
Proof.
  intros Hs Hends. unfold scores_branch. apply settles_seq, wp_gets, settles_seq.
  assert (∀ s1, ends_soon s1 → settles (λ fuel, rc ← score_state fuel;
    if negb (rc =? 0) then mret (Some 1) else
    modify (set_player_win false);; modify (set_player_lost false);;
    modify (set_show_scores_drawn false);; on_score score_reset;;
    on_menu (menu_set_state MENU_MAIN);; mret None) s1 (λ _ _, True)) as Hwait.
  { intros s1 Hs1. apply (settles_bind _ _ _ (λ _ _, True)); [by apply score_state_settles|].
    intros rc s2 _. apply settles_wp. by destruct (negb (rc =? 0)). }
  destruct (show_scores_drawn s); cbn [negb]; [by apply wp_ret, Hwait|].
  eapply wp_mono; [|by apply draw_scores_wp]. intros r s' (-> & g & _ & ->). by apply Hwait.
Qed.

Lemma menu_timer_settles s : sys_ok s → ends_soon s → settles menu_timer s (λ _ _, True).
Proof.
  intros Hs Hends. unfold menu_timer, timer_tick. apply settles_seq, wp_modify.
  set (s1 := set_timer_counter _ s). assert (sys_ok s1) as Hs1 by (destruct Hs; by split).
  apply settles_seq, wp_zoom, wp_gets. change (set_the_menu (the_menu s1) s1) with s1.
  assert (settles (λ _, on_menu_gfx menu_render;; mret (None : option Z)) s1 (λ _ _, True)) as Hrender.
  { apply settles_wp, wp_bind, wp_zoom.
    eapply wp_mono; [|apply (menu_render_wp (the_menu s1) (video s1)), (sys_gfx s1 Hs1)]. done. }
  destruct (current_state (the_menu s1)); try exact Hrender.
  - by apply start_branch_settles.
  - by apply scores_branch_settles.
  - by apply settles_wp, wp_ret.
Qed.

Lemma menu_key_on_way w m : from_hardware m = true → irq_pending m irq = true →
  triple (received irq w m) menu_key (λ _, on_way irq w).
Proof.
  intros Hm Hp. apply (triple_bind _ _ _ (λ _, on_way irq w)); [by apply read_on_way|].
  intros []. apply keeps_bind; [apply keeps_gets|intros sc]. keeping.
Qed.

(** A message of the menu. *)
Lemma menu_message_settles w m s : escapes irq w → received irq w m s → sys_ok s →
  settles (λ fuel, menu_message fuel m) s (λ r s', sys_ok s' ∧ on_way irq w s' ∧
    match r with Some rc => menu_result rc s' | None => True end).
Proof.
  intros Hw Hr Hs.
  assert (settles (λ fuel, menu_message fuel m) s (λ _ _, True)) as Hend.
  { unfold menu_message. destruct (from_hardware m) eqn:Hm; [|by apply settles_wp, wp_ret].
    apply settles_seq, wp_gets, settles_seq.
    assert (∀ s, sys_ok s → on_way irq w s → settles (λ fuel, irq_tim ← gets irq_set_timer;
      if irq_pending m irq_tim then menu_timer fuel else mret None) s (λ _ _, True)) as Ht.
    { intros s0 Hs0 Hw0. apply settles_seq, wp_gets. destruct (irq_pending _ _).
      - apply menu_timer_settles; [done|by eapply on_way_ends_soon].
      - by apply settles_wp, wp_ret. }
    destruct (irq_pending m (irq_set_keyboard s)) eqn:Ep.
    - pose proof (menu_key_wp s Hs) as (a & s1 & E & Hs1 & _)%wp_done. apply wp_done.
      exists a, s1. split; [exact E|]. apply Ht; [done|].
      refine (menu_key_on_way w m Hm _ s a s1 Hr E). destruct Hr as [<- _]. exact Ep.
    - apply wp_ret, Ht; [done|]. apply (no_key_on_way irq w m); [|done].
      destruct Hr as [<- _]. by rewrite Ep, andb_false_r. }
  destruct Hend as (n & r & s' & _ & E).
  pose proof (wlp_run _ _ _ _ _ (menu_message_wlp n m s Hs) (E n (le_n n))) as [Hok Hres].
  pose proof (menu_message_on_way irq n m w s r s' Hr (E n (le_n n))).
  by exists n, r, s'.
Qed.

Lemma menu_handler_settles s k : sys_ok s → ends_soon s →
  settles (λ fuel, menu_handler (k + fuel) fuel) s menu_result.
Proof.
  apply (loop_settles (λ k fuel, menu_handler (k + fuel) fuel) sys_ok menu_result); clear s k.
  - intros k s Hs Hk. apply settles_unit. apply settles_seq, wp_gets. rewrite Hk.
    apply settles_wp, wp_ret. split; [done|]. left. split; [done|by left].
  - intros k s Hs Hi Hw Hk Hnext.
    assert (∀ s', sys_ok s' → on_way irq (world s) s' →
      settles (λ fuel, menu_handler (k + S fuel) fuel) s' menu_result) as Hrest.
    { intros s' Hs' Hon. eapply (settles_ext _ (λ fuel, menu_handler (S k + fuel) fuel) s' s');
        [intros fuel; by rewrite <- Nat.add_succ_comm|by apply Hnext]. }
    apply settles_unit. cbn [menu_handler]. apply settles_seq, wp_gets.
    rewrite (proj2 (Z.eqb_neq _ _) Hk). cbn [negb]. apply settles_seq, wp_zoom. unfold wp, call.
    destruct (driver_receive (world s)) as [[rc m] x] eqn:E.
    assert (sys_ok (set_world x s)) as Hs1 by (destruct Hs; by split).
    destruct (Z.eqb_spec rc 0) as [->|Hrc]; cbn [negb].
    + apply (settles_bind (λ fuel, menu_message (k + S fuel) m) _ _ (λ r s', sys_ok s' ∧
        on_way irq (world s) s' ∧ match r with Some rc => menu_result rc s' | None => True end)).
      * apply (settles_more (λ fuel, menu_message fuel m)); [lia|]. by apply (menu_message_settles (world s)).
      * intros [rc|] s' (Hs' & Hon & Hres); [by apply settles_wp, wp_ret|by apply Hrest].
    + apply Hrest; [done|]. split; [done|right]. apply tc_once.
      eapply handled_other; [exact E| |apply rtc_refl]. by rewrite (proj2 (Z.eqb_neq _ _) Hrc).
Qed.
End settling.

(** ** Properties *)
Section program.
Context {W : Type} `{PortIO W} `{Interrupts W} `{Receive W} `{RandomLaws W} `{VideoLaws W}
  `{Panic W} `{!GameMode W} `{XpmLoaderLaws}.

(** init_game leaves the keyboard's interrupt on bit 1, the hook id that it started from. *)
Lemma init_game_irq :
  triple (λ s : sys W, kb_hook_id s = 1) init_game (λ rc s, rc = 0 → irq_set_keyboard s = 1).
Proof.
  unfold init_game.
  do 3 (apply triple_check; [keeping|done|]).
  apply (triple_step _ (λ s, irq_set_keyboard s = 1)).
  - intros s rc s' Hk Hr. split; [intros _|done]. revert Hr.
    unfold kb_subscribe, on_world, zoom, kb_subscribe_int, id. run_unfold. simpl. rewrite Hk.
    destruct (sys_irqsetpolicy _ _ _ _) as [[r k'] w].
    destruct (Z.eqb_spec r 0); simpl; by intros [= _ <-].
  - assert (keeps (λ s : sys W, irq_set_keyboard s = 1) timer_subscribe) as Ht
      by (unfold timer_subscribe; keeping).
    apply triple_check; [done|done|].
    apply (triple_weaken (λ s, irq_set_keyboard s = 1) _ _ (λ _ s, irq_set_keyboard s = 1)); [done|done|].
    change (keeps (λ s : sys W, irq_set_keyboard s = 1)
      (on_table_file load_highscores_from_csv;; on_menu menu_init;; mret 0)). keeping.
Qed.

Lemma program_settles (w : W) g d : readable d →
  (∀ s, init_game (sys_start w g d) = Done (0, s) → escapes 1 (world s)) →
  settles proj_main_loop (sys_start w g d) (λ rc s', rc = 1 ∨ rc = 0 ∧ sys_ok s' ∧
    (scancode s' = KB_BREAK_ESC ∨ current_state (the_menu s') = MENU_EXIT)).
Proof.
  intros Hd Hesc. unfold proj_main_loop, check at 1. apply settles_seq.
  pose proof (init_game_wp (λ _, True) (sys_start w g d) (start_booted _ _ _ _ (readable_loads _ Hd)))
    as (rc & s1 & E & Hrc & Hok)%wp_done.
  pose proof (init_game_irq (sys_start w g d) rc s1 eq_refl E) as Hi.
  apply wp_done. exists rc, s1. split; [exact E|].
  destruct Hrc as [->| ->]; [|by apply settles_wp, wp_ret; left]. cbn [Z.eqb].
  destruct (Hok eq_refl) as (Hs & _). unfold check at 1.
  apply (settles_bind (λ fuel, menu_handler fuel fuel) _ _ menu_result).
  - apply (menu_handler_settles 1 s1 0 Hs). split; [by apply Hi|by right; apply Hesc].
  - intros rc s2 [Hs2 [[-> Hend]|[-> _]]]; cbn [Z.eqb]; apply settles_wp; [|by apply wp_ret; left].
    eapply wp_mono; [|apply close_game_wp]. intros rc s3 [->|(-> & w3 & k & h & ->)]; [by left|right].
    split; [done|]. split; [|done]. destruct Hs2. by split.
Qed.
End program.

(** C2. The program ends.  If after the initialisation there is no endless sequence of messages
    without the break code of ESC being read by the keyboard's handler, then proj_main_loop returns,
    through any games and score screens, whatever else the devices, the player and the random
    numbers do: with 0 after ESC or a confirmed quit, or with 1. *)
Theorem program_ends {W} `{PortIO W} `{Interrupts W} `{Receive W} `{RandomLaws W} `{VideoLaws W}
    `{Panic W} `{!GameMode W} `{XpmLoaderLaws} (w : W) g d : readable d →
  (∀ s, init_game (sys_start w g d) = Done (0, s) → escapes 1 (world s)) →
  ∃ n, ∀ fuel, (n <= fuel)%nat → wp (proj_main_loop fuel) (λ rc s', rc = 1 ∨ rc = 0 ∧ sys_ok s' ∧
    (scancode s' = KB_BREAK_ESC ∨ current_state (the_menu s') = MENU_EXIT)) (sys_start w g d).
Proof. intros Hd Hesc. by apply settles_returns, program_settles. Qed.

(** ** Witness *)
Module EndingWitness.
Import Sim BlankLoader HighScores.Witness MainWitness.

(** After the scripted bytes and messages, a player who only presses ESC. *)
#[local] Instance player_ports : PortIO sim := {|
  sys_inb := λ port w,
    match inputs w with
    | _ :: _ => sim_inb port w
    | [] => ((0, if port =? KEYBOARD_STATUS then 1 else KB_BREAK_ESC), w)
    end;
  sys_outb := sim_outb; micros_to_ticks := λ us, us * 60 / 1000000; tickdelay := sim_delay |}.

#[local] Instance player_receive : Receive sim := {|
  driver_receive := λ w,
    match queue w with
    | m :: ms => ((0, m), MkSim (inputs w) (out_log w) (delays w) (hooks w) ms (rands w) (mode w))
    | [] => ((0, hw_message 2), w)
    end |}.

#[local] Existing Instance MainWitness.vbe.
#[local] Existing Instance MainWitness.vbe_laws.
#[local] Existing Instance MainWitness.vbe_game_mode.
#[local] Existing Instance MainWitness.no_panic.

(** What is left of the script. *)
Definition scripted (w : sim) : nat := length (queue w) + length (inputs w).

Lemma inb_script p (w w' : sim) v : sys_inb p w = (v, w') →
  queue w' = queue w ∧ length (inputs w') = pred (length (inputs w)).
Proof. simpl. unfold sim_inb. destruct (inputs w) eqn:E; intros [= _ <-]; by rewrite ?E. Qed.

Lemma reads_script port mouse n (w w' : sim) r : Spec.reads port mouse n w r w' →
  queue w' = queue w ∧ (length (inputs w') <= length (inputs w))%nat ∧
  (n ≠ 0 → length (inputs w') <= pred (length (inputs w)))%nat.
Proof.
  induction 1; repeat match goal with E : sys_inb _ _ = _ |- _ => apply inb_script in E end;
    open_hyps; simpl in *; (split; [congruence|lia]).
Qed.

Lemma chance_script (w w' : sim) : rtc chance w w' → scripted w' = scripted w.
Proof.
  induction 1 as [w|w w1 w' Hw _ IH]; [done|]. rewrite IH. destruct Hw as [->| ->]; [|done].
  simpl. by destruct (rands w).
Qed.

(** A player with nothing left to do presses ESC. *)
Lemma handled_script (w w' : sim) : handled 1 w w' → (scripted w' < scripted w)%nat.
Proof.
  assert (∀ w m w1 rc, driver_receive w = ((rc, m), w1) → inputs w1 = inputs w ∧
    (queue w = m :: queue w1 ∨ queue w = [] ∧ rc = 0 ∧ m = hw_message 2 ∧ w1 = w)) as Hrec.
  { intros w0 m w1 rc. simpl. destruct (queue w0) eqn:E; intros [= <- <- <-];
      (split; [done|]); [by right|by left]. }
  intros [rc m w1 E%Hrec Hno Hc%chance_script|m w1 sc v w2 E%Hrec Hm Hk Hv Hc%chance_script];
    rewrite Hc; unfold scripted.
  - destruct E as [-> [->|(_ & -> & -> & _)]]; [simpl; lia|done].
  - destruct (kbc_ih_scancode sc w1) as (r & w3 & Hr & Hk'). rewrite Hk in Hk'. injection Hk' as -> ->.
    apply reads_script in Hr as (-> & Hle & Hlt).
    destruct E as [Ei [->|(Eq & _ & _ & ->)]]; [simpl; rewrite <- Ei; lia|].
    destruct (inputs w) as [|x l] eqn:Ei'; [|simpl in *; lia]. exfalso. apply Hv.
    assert (kbc_ih sc w = Done (KB_BREAK_ESC, w)) as E.
    { destruct w. simpl in Ei'. subst. vm_compute. reflexivity. }
    rewrite Hk in E. by injection E.
Qed.

Lemma player_escapes (w : sim) : escapes 1 w.
Proof.
  remember (scripted w) as n eqn:En. revert w En. induction n as [n IH] using lt_wf_ind. intros w ->.
  constructor. intros w' Hw%handled_script. by apply (IH (scripted w')).
Qed.

Lemma program_ends_witness : (readable HighScores.Witness.file ∧
    ∀ s, init_game (sys_start quiet off HighScores.Witness.file) = Done (0, s) → escapes 1 (world s)) ∧
  ∃ n, ∀ fuel, (n <= fuel)%nat → wp (proj_main_loop fuel) (λ rc s', rc = 1 ∨ rc = 0 ∧ sys_ok s' ∧
    (scancode s' = KB_BREAK_ESC ∨ current_state (the_menu s') = MENU_EXIT))
    (sys_start quiet off HighScores.Witness.file).
Proof.
  split; [split; [exact file_readable|intros s _; apply player_escapes]|].
  apply (program_ends quiet off HighScores.Witness.file file_readable). intros s _. apply player_escapes.
Defined.
End EndingWitness.
