(* ===== verification/Resources.v ===== *)
(** * What the program takes from the system, and gives back

    The theorem, on the machine with a log of [Logs]: whenever the program returns 0 it has given
    everything back, in order, each subscription by the hook that it was given; a run that returns
    1 stopped at the call that failed, or before the first one or in menu_handler, and what was
    taken until then is still taken. *)

From S2P Require Import Prelude Triples Machine Utils Xpm Graphics Keyboard Timer Logs.
From S2P Require Import Enemies Score HighScores Ship Menu System GameState Main.

(** ** What leaves the log alone *)
Section quiet.
Context {W : Type} `{PortIO W} `{Interrupts W} `{Receive W} `{Random W} `{Video W} `{Panic W}
  `{XpmLoader}.
Variable l : list event.

Lemma fire_enemy_bullet_quiet es : keeps (λ p, unlogged l p.1) (fire_enemy_bullet es).
Proof.
  intros [x s] a p Hx. unfold fire_enemy_bullet. simpl in *. unfold lift.
  destruct (_ =? 0); [by intros [= _ <-]|]. destruct (rand _). by intros [= _ <-].
Qed.

Lemma set_frame_buffer_quiet m : keeps (λ p, unlogged l p.1) (set_frame_buffer m).
Proof.
  intros [x g] a p Hx. unfold set_frame_buffer. simpl in *. unfold lift.
  repeat (case_match; simplify_eq/=); by intros [= _ <-].
Qed.

Lemma get_random_anime_name_quiet : keeps (λ p, unlogged l p.1) (get_random_anime_name (W := logged W)).
Proof.
  intros [x b] n p Hx. unfold get_random_anime_name. simpl. unfold lift.
  repeat (case_match; simplify_eq/=); destruct (anime_names !! _); by intros [= _ <-].
Qed.

Lemma save_win_highscore_quiet : keeps (λ h, unlogged l (h_world h)) save_win_highscore.
Proof.
  unfold save_win_highscore. apply keeps_bind; [apply keeps_gets|intros sc].
  destruct (negb _); [|apply keeps_skip]. apply keeps_bind; [|intros name].
  { eapply keeps_zoom_part; [| |apply get_random_anime_name_quiet]; [done|by intros h []]. }
  apply keeps_bind; [|intros _; by apply keeps_modify]. apply keeps_zoom. by intros h [].
Qed.

(** ** The loops of the program *)

(** Nothing logged, and both hooks as they were. *)
Definition holding (k h : Z) (s : sys (logged W)) : Prop :=
  unlogged l (world s) ∧ kb_hook_id s = k ∧ hook_id s = h.

Variables k h : Z.

Lemma on_world_holds {A} (m : M (logged W) A) : keeps (unlogged l) m → keeps (holding k h) (on_world m).
Proof. intros Hm. apply (keeps_zoom_part _ (unlogged l)); [by intros s []|by intros s x []|done]. Qed.

Lemma on_world_ship_holds es : keeps (holding k h) (on_world_ship (fire_enemy_bullet es)).
Proof.
  apply (keeps_zoom_part _ (λ p, unlogged l p.1)); [by intros s []|by intros s p []|].
  apply fire_enemy_bullet_quiet.
Qed.

Lemma on_hstate_holds : keeps (holding k h) (on_hstate save_win_highscore).
Proof.
  apply (keeps_zoom_part _ (λ h, unlogged l (h_world h))); [by intros s []|by intros s p []|].
  apply save_win_highscore_quiet.
Qed.
#[local] Hint Resolve on_world_holds on_world_ship_holds on_hstate_holds : keeps.

Lemma game_state_holds fuel : keeps (holding k h) (game_state fuel).
Proof.
  assert (keeps (holding k h) game_step) as Hg.
  { unfold game_step, game_message, game_key, game_update, timer_tick, game_draw, game_outcome, read_scancode.
    keeping. }
  assert (keeps (holding k h) (game_loop fuel)) by (induction fuel; cbn [game_loop]; keeping).
  unfold game_state. keeping.
Qed.
#[local] Hint Resolve game_state_holds : keeps.

Lemma menu_timer_holds fuel : keeps (holding k h) (menu_timer fuel).
Proof.
  assert (∀ fuel, keeps (holding k h) (score_state fuel)).
  { clear fuel. intros fuel. induction fuel; cbn [score_state]; unfold score_message, read_scancode; keeping. }
  unfold menu_timer, timer_tick, start_branch, scores_branch, draw_scores. keeping.
Qed.
#[local] Hint Resolve menu_timer_holds : keeps.

Lemma menu_handler_holds n fuel : keeps (holding k h) (menu_handler n fuel).
Proof.
  induction fuel; cbn [menu_handler]; unfold menu_message, menu_key, read_scancode; keeping.
Qed.
End quiet.

(** ** Taking and giving back *)

(** The calls of a whole run, in order; [k] and [h] are the hooks that the kernel gave. *)
Definition taken (k h : Z) : list (Z → event) :=
  [Graphics; Subscribe KEYBOARD_IRQ (Z.lor IRQ_REENABLE IRQ_EXCLUSIVE) 1 k;
   Subscribe TIMER0_IRQ IRQ_REENABLE 0 h].
Definition given_back (k h : Z) : list (Z → event) := [Unsubscribe k; Unsubscribe h; Text].
Definition program_calls (k h : Z) : list (Z → event) := taken k h ++ given_back k h.

Section protocol.
Context {W : Type} `{PortIO W} `{Interrupts W} `{Receive W} `{Random W} `{Video W} `{Panic W}
  `{XpmLoader}.
Implicit Types s : sys (logged W).

(** The log of a state. *)
Definition log_of s : list event := log (world s).
Abbreviation logs := (Logs.logs holding).

Lemma holding_log l k h s : holding l k h s → log_of s = l.
Proof. by intros []. Qed.

Ltac run_logged :=
  intros s a s' (Hl & <- & <-); unfold unlogged in Hl; run_unfold; simpl; unfold lift_log.

(** The answer of a logged call: its code [r], and the hook [x] that it was given. *)
Ltac answered r :=
  destruct (Z.eqb_spec r 0); simpl; intros [= <- <-]; exists r; (split; [by split_and!|lia]).
Ltac answered_with x r :=
  destruct (Z.eqb_spec r 0); simpl; intros [= <- <-]; exists x, r; (split; [by split_and!|lia]).

Lemma set_graphical_mode_logs l k h :
  triple (holding l k h) (on_world (set_graphical_mode MODE)) (logs l Graphics k h).
Proof.
  unfold on_world, zoom, set_graphical_mode. run_logged.
  destruct (sys_int86 _ _) as [r w]. rewrite Hl.
  answered r.
Qed.

Lemma kb_subscribe_logs l k h : triple (holding l k h) kb_subscribe (λ rc s, ∃ k',
  logs l (Subscribe KEYBOARD_IRQ (Z.lor IRQ_REENABLE IRQ_EXCLUSIVE) k k') k' h rc s).
Proof.
  unfold kb_subscribe, on_world, zoom, kb_subscribe_int. run_logged.
  destruct (sys_irqsetpolicy _ _ _ _) as [[r k'] w]. rewrite Hl.
  answered_with k' r.
Qed.

Lemma timer_subscribe_logs l k h : triple (holding l k h) timer_subscribe (λ rc s, ∃ h',
  logs l (Subscribe TIMER0_IRQ IRQ_REENABLE h h') k h' rc s).
Proof.
  unfold timer_subscribe, on_world, zoom, timer_subscribe_int. run_logged.
  destruct (sys_irqsetpolicy _ _ _ _) as [[r h'] w]. rewrite Hl.
  answered_with h' r.
Qed.

Lemma kb_unsubscribe_logs l k h : triple (holding l k h) kb_unsubscribe (λ rc s, ∃ k',
  logs l (Unsubscribe k) k' h rc s).
Proof.
  unfold kb_unsubscribe, on_world, zoom, kb_unsubscribe_int. run_logged.
  destruct (sys_irqrmpolicy _ _) as [[r k'] w]. rewrite Hl.
  answered_with k' r.
Qed.

Lemma timer_unsubscribe_logs l k h : triple (holding l k h) timer_unsubscribe (λ rc s, ∃ h',
  logs l (Unsubscribe h) k h' rc s).
Proof.
  unfold timer_unsubscribe, on_world, zoom, timer_unsubscribe_int. run_logged.
  destruct (sys_irqrmpolicy _ _) as [[r h'] w]. rewrite Hl.
  answered_with h' r.
Qed.

Lemma vg_exit_logs l k h : triple (holding l k h) (on_world (call vg_exit)) (logs l Text k h).
Proof.
  unfold on_world, zoom. run_logged. destruct (vg_exit _) as [r w]. rewrite Hl.
  answered r.
Qed.

(** How init_game ends, and the whole program. *)
Definition opened (rc : Z) s : Prop :=
  rc = 0 ∧ (∃ k h, holding (all_good (taken k h)) k h s) ∨
  rc = 1 ∧ (log (world s) = [] ∨ ∃ k h, cut_short (taken k h) (log (world s))).

Lemma init_game_opens : triple (holding [] 1 0) init_game opened.
Proof.
  assert (∀ m k, keeps (holding [] 1 0) m → triple (holding [] 1 0) k opened →
    triple (holding [] 1 0) (m ;? k) opened) as Hquiet.
  { intros m k Hm Hk. apply triple_check; [done| |done]. intros s [Hl _]. right. split; [done|by left]. }
  assert (∀ k h s, cut_short (taken k h) (log (world s)) → opened 1 s) as Hcut.
  { intros k h s Hc. right. split; [done|]. right. by exists k, h. }
  unfold init_game. apply Hquiet; [apply on_world_holds, timer_set_frequency_quiet|].
  apply Hquiet.
  { apply (keeps_zoom_part _ (λ p, unlogged [] p.1)); [by intros s []|by intros s p []|].
    apply set_frame_buffer_quiet. }
  apply (logged_step log_of holding holding_log (λ _ : (), taken 0 0) 0 (λ _, Graphics) (λ _, 1) (λ _, 0)); [done|done| |intros _; apply Hcut|intros _].
  { eapply triple_weaken; [| |apply set_graphical_mode_logs]; [done|]. intros rc s Hl. by exists (). }
  eapply (logged_step log_of holding holding_log (λ k, taken k 0) 1 _ (λ k, k) (λ _, 0)); [done|done|apply kb_subscribe_logs|intros k; apply Hcut|intros k].
  eapply (logged_step log_of holding holding_log (λ h, taken k h) 2 _ (λ _, k) (λ h, h)); [done|done|apply timer_subscribe_logs|intros h; apply Hcut|intros h].
  apply (triple_seq (holding (all_good (taken k h)) k h)); [keeping|intros _].
  apply (triple_seq (holding (all_good (taken k h)) k h)); [keeping|intros _].
  apply triple_ret. intros s Hs. left. split; [done|]. by exists k, h.
Qed.

Definition closed (k h : Z) (rc : Z) s : Prop :=
  rc = 0 ∧ log (world s) = all_good (taken k h ++ given_back k h) ∨
  rc = 1 ∧ cut_short (taken k h ++ given_back k h) (log (world s)).

Lemma close_game_closes k h : triple (holding (all_good (taken k h)) k h) close_game (closed k h).
Proof.
  assert (∀ s, cut_short (taken k h ++ given_back k h) (log (world s)) → closed k h 1 s) as Hcut by by right.
  unfold close_game.
  eapply (logged_step log_of holding holding_log (λ _, taken k h ++ given_back k h) 3 _ (λ k, k) (λ _, h)); [done|done|apply kb_unsubscribe_logs|intros _; apply Hcut|intros k'].
  eapply (logged_step log_of holding holding_log (λ _, taken k h ++ given_back k h) 4 _ (λ _, k') (λ h, h)); [done|done|apply timer_unsubscribe_logs|intros _; apply Hcut|intros h'].
  apply (logged_step log_of holding holding_log (λ _ : (), taken k h ++ given_back k h) 5 (λ _, Text) (λ _, k') (λ _, h'));
    [done|done| |intros _; apply Hcut|intros _].
  { eapply triple_weaken; [| |apply vg_exit_logs]; [done|]. intros rc s Hl. by exists (). }
  apply triple_ret. intros s [Hl _]. by left.
Qed.
End protocol.

(** ** Properties *)

(** C6. The program gives back what it took.  On any machine, when it returns 0 the calls that
    take and give back were, each once and in this order: graphics mode, the keyboard's exclusive
    subscription, the timer's subscription, the end of the keyboard's by the hook that its
    subscription was given, the end of the timer's by its own, text mode; nothing is left taken.
    When it returns another code these calls stop after the one that failed, or before the first
    one, or, because menu_handler failed, after the first three. *)
Theorem resources_given_back {W} `{PortIO W} `{Interrupts W} `{Receive W} `{Random W} `{Video W}
    `{Panic W} `{XpmLoader} fuel (w : W) g d rc s :
  proj_main_loop fuel (sys_start (Logged w []) g d) = Done (rc, s) →
  accounted program_calls [0; 3]%nat rc (log (world s)).
Proof.
  assert (∀ k h l, cut_short (taken k h) l → cut_short (program_calls k h) l) as Hcut.
  { intros k h l (n & c & r & Hn & ? & ->). exists n, c, r. unfold program_calls.
    rewrite take_app_le by (apply lookup_lt_Some in Hn; lia). split; [by apply lookup_app_l_Some|done]. }
  intros Hr. apply follows_accounted; [prove_balanced|]. revert rc s Hr. unfold proj_main_loop.
  enough (triple (holding [] 1 0) (init_game ;? (menu_handler fuel fuel ;? close_game))
    (λ rc s, follows program_calls [0; 3]%nat rc (log (world s)))) as Ht by (intros rc s; by apply Ht).
  eapply triple_step.
  { eapply triple_weaken; [| |apply init_game_opens]; [done|]. intros rc s [[-> Ho]|[-> Ho]].
    - split; [intros _; exact Ho|done].
    - split; [done|]. intros _. right. split; [done|]. destruct Ho as [E|(k & h & Hc)].
      + exists 0, 0. right. exists 0%nat. by split; [left|].
      + exists k, h. left. by apply Hcut. }
  apply triple_exists. intros k. apply triple_exists. intros h. eapply triple_step.
  { eapply triple_weaken; [| |apply menu_handler_holds]; [done|]. intros rc s Hs.
    split; [intros _; exact Hs|]. intros _. right. split; [done|]. exists k, h. right.
    exists 3%nat. split; [by right; left|apply Hs]. }
  eapply triple_weaken; [| |apply close_game_closes]; [done|]. intros rc s [[-> Hl]|[-> Hc]].
  - left. split; [done|]. by exists k, h.
  - right. split; [done|]. exists k, h. by left.
Qed.

(** ** Witness *)
Module ResourcesWitness.
Import Sim BlankLoader Graphics.Tiny QuitRun.

(** The run of [QuitRun.quit_run]: DOWN, DOWN and ENTER, then two ticks. *)
Lemma resources_given_back_witness : ∃ s,
  proj_main_loop 6 (sys_start (Logged quit_script []) tiny (Disk None true true true true)) = Done (0, s) ∧
  accounted program_calls [0; 3]%nat 0 (log (world s)).
Proof.
  eexists. split; [vm_compute; reflexivity|].
  apply (resources_given_back 6 quit_script tiny (Disk None true true true true)).
  vm_compute. reflexivity.
Defined.
End ResourcesWitness.
