(* ===== verification/Session.v ===== *)
(** * A session: the whole program against an abstract machine

    [Spec.session] is what the program promises as a machine that knows nothing of ports, bullets
    or frame buffers: its state ([view]) is the last key, the menu's state and cursor, how the last
    game ended and its score, the saved records, and the page that is on the screen; its input are
    the messages, with the key that was read and whether the timer's interrupt came; a game is one
    step with one of four endings, after which the screen is open until the next tick draws one.

    The theorems: main.c's loop, with everything it calls, refines this machine ([sees] relates
    their states); so does the program from its start.  [loop_turns] is menu_handler's loop with the
    states before and after each message, [games_won] the games that a run won, read off it; their
    records, and no others, are what the run adds to the file and what the next start will show. *)

From Stdlib Require Import Sorted Permutation.
From S2P Require Import Prelude Triples Machine Xpm Graphics Keyboard Enemies Score HighScores.
From S2P Require Import Ship Menu System GameState Records Main Screens.

(** ** The machine *)
Module Spec.

Record view := View {
  v_key : Z;
  v_state : MenuState;
  v_option : MenuOption;
  v_win : bool;
  v_lost : bool;
  v_records : list HighScoreEntry;
  v_score : scoring;
  v_screen : option (list piece);
}.

Definition start_view (es : list HighScoreEntry) : view :=
  View 0 MENU_MAIN MENU_OPTION_START false false es scoring_start None.

(** The keys move the cursor and choose the screen. *)
Definition key_option (c : Z) (v : view) : MenuOption :=
  match v_state v, v_option v with
  | MENU_MAIN, MENU_OPTION_START => if c =? KB_DOWN_ARROW then MENU_OPTION_SCORES else MENU_OPTION_START
  | MENU_MAIN, MENU_OPTION_SCORES =>
      if c =? KB_UP_ARROW then MENU_OPTION_START
      else if c =? KB_DOWN_ARROW then MENU_OPTION_QUIT else MENU_OPTION_SCORES
  | MENU_MAIN, MENU_OPTION_QUIT => if c =? KB_UP_ARROW then MENU_OPTION_SCORES else MENU_OPTION_QUIT
  | _, o => o
  end.

Definition key_state (c : Z) (v : view) : MenuState :=
  match v_state v with
  | MENU_MAIN =>
      if c =? KB_ENTER then
        match v_option v with
        | MENU_OPTION_START => MENU_START
        | MENU_OPTION_SCORES => MENU_SCORES
        | MENU_OPTION_QUIT => MENU_QUIT
        | MENU_OPTION_NONE => MENU_MAIN
        end
      else MENU_MAIN
  | MENU_GAME_OVER => if (c =? KB_ENTER) || (c =? KB_BREAK_ESC) then MENU_MAIN else MENU_GAME_OVER
  | st => if c =? KB_BREAK_ESC then MENU_MAIN else st
  end.

Definition press (k : option Z) (v : view) : view :=
  match k with
  | Some c => View c (key_state c v) (key_option c v) (v_win v) (v_lost v) (v_records v) (v_score v)
                (v_screen v)
  | None => v
  end.

(** The record of a win: one of the names, and the score of its shots and seconds. *)
Definition record_of_win (e : HighScoreEntry) : Prop :=
  hs_name e ∈ anime_names ∧
  hs_score e = live_score (Scoring (hs_bullets_fired e) (hs_game_time_seconds e) 0 0 false false).

(** The score of the game that the record is of. *)
Definition score_of (sc : scoring) (e : HighScoreEntry) : Prop :=
  hs_score e = final_score sc ∧ hs_bullets_fired e = bullets_fired sc ∧
  hs_game_time_seconds e = game_time_seconds sc.

(** The best eight of the records that the table has room for. *)
Definition best_of (es best : list HighScoreEntry) : Prop :=
  ∃ rk, StronglySorted ahead rk ∧ rk ≡ₚ take 100 es ∧ best = take 8 rk.

(** The same view with another state and page. *)
Definition showing (st : MenuState) (page : list piece) (v : view) : view :=
  View (v_key v) st (v_option v) (v_win v) (v_lost v) (v_records v) (v_score v) (Some page).

(** A tick of the timer; [w] says whether the disk takes new records.  A code leaves the loop. *)
Inductive turn (w : bool) (v : view) : option Z → view → Prop :=
| turn_shown : v_state v = MENU_MAIN ∨ v_state v = MENU_GAME_OVER →
    turn w v None (showing (v_state v) (menu_page (v_state v) (v_option v)) v)
| turn_quit : v_state v = MENU_QUIT → turn w v None (showing MENU_EXIT [] v)
| turn_exit : v_state v = MENU_EXIT → turn w v (Some 0) v
| turn_won c e sc : v_state v = MENU_START → record_of_win e → score_of sc e →
    turn w v None (View c MENU_SCORES (v_option v) true false
                     (if w then v_records v ++ [e] else v_records v) sc None)
| turn_lost c sc : v_state v = MENU_START → final_score sc = live_score sc →
    turn w v None (View c MENU_GAME_OVER (v_option v) false true (v_records v) sc None)
| turn_abandoned : v_state v = MENU_START →
    turn w v None (View KB_BREAK_ESC MENU_MAIN (v_option v) false false (v_records v) scoring_start None)
| turn_landed c win lost sc : v_state v = MENU_START → (win = true → v_win v = true) →
    turn w v (Some 1) (View c MENU_START (v_option v) win lost (v_records v) sc None)
| turn_scores c best : v_state v = MENU_SCORES → c = KB_ENTER ∨ c = KB_BREAK_ESC →
    best_of (v_records v) best →
    turn w v None (View c MENU_MAIN (v_option v) false false (v_records v) scoring_start
                     (Some (score_page (v_win v) (v_lost v) best (v_score v)))).

(** The messages until the program leaves the loop, with its code. *)
Inductive session (w : bool) (v : view) : list (option Z * bool) → Z → view → Prop :=
| session_esc : v_key v = KB_BREAK_ESC → session w v [] 0 v
| session_key k l rc v' : v_key v ≠ KB_BREAK_ESC →
    session w (press k v) l rc v' → session w v ((k, false) :: l) rc v'
| session_tick k v1 l rc v' : v_key v ≠ KB_BREAK_ESC →
    turn w (press k v) None v1 → session w v1 l rc v' → session w v ((k, true) :: l) rc v'
| session_left k rc v' : v_key v ≠ KB_BREAK_ESC →
    turn w (press k v) (Some rc) v' → session w v [(k, true)] rc v'.
End Spec.
Import Spec.

(** ** The view of a state *)
Section views.
Context {W : Type} `{XpmLoader}.
Implicit Types s : sys W.

(** The part of a view that the machine shares with the code as it is. *)
Definition screen_of (v : view) s : Prop :=
  current_state (the_menu s) = v_state v ∧ current_option (the_menu s) = v_option v ∧
  player_win s = v_win v ∧ player_lost s = v_lost v ∧ show_scores_drawn s = false ∧
  current_score s = v_score v ∧
  match v_screen v with Some page => on_screen page s | None => True end.

Definition records_of (w : bool) (v : view) s : Prop :=
  held (v_records v) (table s) (file s) ∧ can_append (file s) = w.

Definition sees (w : bool) (v : view) s : Prop :=
  sys_ok s ∧ scancode s = v_key v ∧ screen_of v s ∧ records_of w v s.

Lemma sees_world w v s x : sees w v s → sees w v (set_world x s).
Proof. intros ([] & Hk & Hs & Hr). split; [by split|done]. Qed.
End views.

Lemma next_state_view c m v : current_state m = v_state v → current_option m = v_option v →
  next_state c m = key_state c v.
Proof. unfold next_state, key_state. by intros -> ->. Qed.

Lemma next_option_view c m v m' : menu_ok m → current_state m = v_state v →
  current_option m = v_option v → option_number (current_option m') = next_option c m →
  current_option m' = key_option c v.
Proof.
  intros Hm Es Eo Hn. apply option_number_inj. rewrite Hn. unfold next_option, key_option.
  unfold menu_ok in Hm. rewrite Es, Eo. rewrite Eo in Hm.
  destruct (c =? KB_UP_ARROW) eqn:Eu; [apply Z.eqb_eq in Eu as ->; by destruct (v_state v), (v_option v)|].
  destruct (c =? KB_DOWN_ARROW); by destruct (v_state v), (v_option v).
Qed.

(** ** A key, and a tick of the timer *)

Section steps.
Context {W : Type} `{PortIO W} `{Receive W} `{RandomLaws W} `{XpmLoaderLaws}.
Implicit Types s : sys W.

Lemma menu_key_sees w v s : sees w v s → wp menu_key (λ _ s', ∃ c, sees w (press (Some c) v) s') s.
Proof.
  intros (Hs & Hk & (Hst & Ho & Hw & Hl & Hd & Hsc & Hpg) & Hr & Ha). unfold menu_key.
  apply wp_bind, read_scancode_wp. intros c x _. apply wp_bind, wp_gets, wp_zoom.
  eapply wp_mono; [|by apply (menu_handle_input_wp c (the_menu s)), sys_menu].
  intros [] m (Hm & Hms & Hmo). exists c. split; [|split; [done|split; [|by split]]].
  - destruct Hs. by split.
  - split_and!; try done; simpl.
    + rewrite Hms. by apply next_state_view.
    + pose proof (sys_menu s Hs). by eapply next_option_view.
Qed.

(** What the menu, its score screen and the start of a game leave alone. *)
Definition idle (b : board) (d : disk) (win lost dr : bool) (k : Z) (sc : scoring) s : Prop :=
  table s = b ∧ file s = d ∧ player_win s = win ∧ player_lost s = lost ∧
  show_scores_drawn s = dr ∧ scancode s = k ∧ current_score s = sc.

Definition before_game (b : board) (d : disk) (mn : menu) (dr win : bool) s : Prop :=
  table s = b ∧ file s = d ∧ the_menu s = mn ∧ show_scores_drawn s = dr ∧ player_win s = win.

(** A game that made the program return is not a win. *)
Definition no_game (b : board) (d : disk) (mn : menu) (dr win : bool) s : Prop :=
  table s = b ∧ file s = d ∧ the_menu s = mn ∧ show_scores_drawn s = dr ∧
  (player_win s = true → win = true).

Lemma timer_tick_keeps_idle b d win lost dr k sc : keeps (idle b d win lost dr k sc) timer_tick.
Proof. unfold timer_tick. keeping. Qed.

Lemma menu_render_keeps_idle b d win lost dr k sc : keeps (idle b d win lost dr k sc) (on_menu_gfx menu_render).
Proof. keeping. Qed.

Lemma start_branch_ends b d mn dr win es fuel : held es b d →
  triple (before_game b d mn dr win) (start_branch fuel) (λ r s, match r with
    | None => ∃ e, ended_as b d mn dr es e 0 s
    | Some _ => no_game b d mn dr win s
    end).
Proof.
  intros Hh. unfold start_branch.
  apply triple_seq; [keeping|intros _]. apply triple_seq; [keeping|intros x].
  apply triple_seq; [keeping|intros rc]. destruct (negb (rc =? 0)); [apply triple_ret; intros s (? & ? & ? & ? & Hw); split_and!; congruence|].
  do 3 (apply triple_seq; [keeping|intros _]). apply triple_seq; [keeping|intros mi].
  apply triple_seq; [keeping|intros _].
  apply (triple_bind _ _ _ (λ rc s, ∃ e, ended_as b d mn dr es e rc s)).
  - intros s rc' s' (<- & <- & <- & <- & _). by apply game_state_ends.
  - intros rc'. destruct (Z.eqb_spec rc' 0) as [->|Hrc]; simpl; apply triple_ret; [done|].
    intros s ([] & Hdr & _ & _ & He); try by destruct He.
    destruct He as (_ & Hw & Hm & Hb & Hd). split_and!; congruence.
Qed.

Lemma scores_branch_option o fuel :
  keeps (λ s, current_option (the_menu s) = o) (scores_branch fuel).
Proof.
  assert (∀ fuel, keeps (λ s, current_option (the_menu s) = o) (score_state fuel)) as Hs.
  { clear fuel. intros fuel. induction fuel; cbn [score_state]; unfold score_message, read_scancode; keeping. }
  assert (∀ st, keeps (λ s, current_option (the_menu s) = o) (on_menu (menu_set_state st))) as Hm.
  { intros st. apply (keeps_zoom_part _ (λ m, current_option m = o)); [done|done|].
    unfold menu_set_state. keeping. }
  unfold scores_branch, draw_scores. keeping.
Qed.

(** The view after a game. *)
Lemma winner_record sc e : winner sc e → hs_score e = live_score sc → record_of_win e.
Proof. intros (Hn & _ & Hb & Ht) Hs. split; [done|]. rewrite Hs, Hb, Ht. by destruct sc. Qed.

Lemma ended_sees v s s' e : sees (can_append (file s)) v s → v_state v = MENU_START → sys_ok s' →
  ended_as (table s) (file s) (the_menu s) false (v_records v) e 0 s' →
  ∃ v', turn (can_append (file s)) v None v' ∧ sees (can_append (file s)) v' s'.
Proof.
  intros (_ & _ & (_ & Ho & _) & Hr & _) Hv Hok (Hdr & Ho' & Ha & He). rewrite Ho in Ho'. destruct e.
  - destruct He as (_ & Hw & Hl & Hst & x & Hx & Hsc & Hh). pose proof Hx as (_ & Hx').
    eexists. split; [apply (turn_won _ _ (scancode s') x (current_score s')); [done|by eapply winner_record|done]|].
    by split_and!.
  - destruct He as (_ & Hw & Hl & Hst & Hb & Hf & Hsc). rewrite <- Hb, <- Hf in Hr.
    eexists. split; [by apply (turn_lost _ _ (scancode s') (current_score s'))|]. by split_and!.
  - destruct He as (_ & Hw & Hl & Hst & Hk & Hb & Hf & Hsc). rewrite <- Hb, <- Hf in Hr.
    eexists. split; [by apply turn_abandoned|]. by split_and!.
  - by destruct He.
Qed.

(** What a tick changes outside the screen. *)
Lemma menu_timer_rest b d win lost dr k sc mn es fuel : held es b d →
  triple (λ s, idle b d win lost dr k sc s ∧ the_menu s = mn) (menu_timer fuel) (λ r s,
    match current_state mn with
    | MENU_START => match r with
                    | None => ∃ e, ended_as b d mn dr es e 0 s
                    | Some _ => no_game b d mn dr win s
                    end
    | MENU_SCORES => current_option (the_menu s) = current_option mn
    | _ => idle b d win lost dr k sc s
    end).
Proof.
  intros Hh. unfold menu_timer, timer_tick.
  apply triple_seq; [apply keeps_modify; frame_side|intros _].
  apply (triple_bind _ _ _ (λ st s, (idle b d win lost dr k sc s ∧ the_menu s = mn) ∧ current_state mn = st)).
  { intros s st s' [Hi Hm] [= <- <-]. split; [by split|]. by rewrite Hm. }
  intros st. apply triple_pure. intros ->.
  assert (triple (λ s, idle b d win lost dr k sc s ∧ the_menu s = mn)
    (on_menu_gfx menu_render;; mret (None : option Z)) (λ _, idle b d win lost dr k sc)) as Hrender.
  { apply (triple_weaken (idle b d win lost dr k sc) _ _ (λ _, idle b d win lost dr k sc)); [by intros ? []|done|].
    apply triple_seq; [apply menu_render_keeps_idle|intros _]. by apply triple_ret. }
  destruct st; try done.
  - eapply triple_weaken; [| |by apply (start_branch_ends b d mn dr win es)]; [|done].
    intros s [(? & ? & ? & ? & ? & ?) ?]. by split_and!.
  - eapply triple_weaken; [| |apply (scores_branch_option (current_option mn))]; [|done]. by intros s [_ ->].
  - by apply triple_ret; intros s [].
Qed.

(** Outside a game and the score screen only the state of the menu and the screen can change. *)
Lemma idle_sees v v' s s' : sees (can_append (file s)) v s → sys_ok s' →
  idle (table s) (file s) (v_win v) (v_lost v) false (v_key v) (v_score v) s' →
  current_state (the_menu s') = v_state v' → current_option (the_menu s') = v_option v' →
  match v_screen v' with Some page => on_screen page s' | None => True end →
  View (v_key v) (v_state v') (v_option v') (v_win v) (v_lost v) (v_records v) (v_score v) (v_screen v') = v' →
  sees (can_append (file s)) v' s'.
Proof.
  intros (_ & _ & _ & Hr & _) Hs (Hb & Hd & ? & ? & ? & ? & ?) ??? <-. rewrite <- Hb, <- Hd in *.
  by split_and!.
Qed.

Lemma on_screen_video page s s' : video s' = video s → on_screen page s → on_screen page s'.
Proof. unfold on_screen. by intros ->. Qed.

Lemma left_sees v s s' : sees (can_append (file s)) v s → v_state v = MENU_SCORES →
  left_scores s s' → current_option (the_menu s') = current_option (the_menu s) →
  on_screen (scores_page s) s' →
  ∃ v', turn (can_append (file s)) v None v' ∧ sees (can_append (file s)) v' s'.
Proof.
  intros (_ & _ & (_ & Ho & Hw & Hl & _ & Hsc & _) & Hr & _) Hv [? ? ? ? ? ? Hb Hf ? _] Ho' Hpg.
  unfold scores_page in Hpg. rewrite Hw, Hl, Hsc in Hpg.
  eexists. split.
  - apply (turn_scores _ _ (scancode s') (take 8 (ranking (table s)))); [done|done|].
    exists (ranking (table s)). by destruct Hr.
  - rewrite Ho in Ho'. rewrite <- Hb, <- Hf in *. by split_and!.
Qed.

Lemma menu_timer_sees w v fuel s : sees w v s →
  wlp (menu_timer fuel) (λ r s', ∃ v', turn w v r v' ∧ sees w v' s') s.
Proof.
  intros Hv. pose proof Hv as (Hs & Hk & (Hst & Ho & Hw & Hl & Hd & Hsc & Hpg) & Hr & <-).
  eapply wlp_strengthen; [by apply menu_timer_wlp|]. intros r s' E [Hok Hres].
  pose proof (wlp_run _ _ _ _ _ (menu_timer_screen fuel s Hs Hd (held_names _ _ _ Hr)) E) as Hscr.
  eapply menu_timer_rest in E; [|exact Hr|by split_and!]. unfold after_frame in Hres.
  rewrite Hst, Ho in Hscr. rewrite Hst in E, Hres.
  destruct (v_state v) eqn:Ev.
  - destruct Hres as (-> & Hm & _). eexists. split; [apply turn_shown; by left|]. rewrite Ev.
    eapply idle_sees; [exact Hv|done|exact E|simpl; congruence|simpl; congruence|done|done].
  - destruct Hres as [[-> _]|[-> _]]; [destruct E as [e He]; by eapply ended_sees|].
    destruct E as (Hb & Hf & Hm & Hdr & Hwin).
    eexists. split; [apply (turn_landed _ _ (scancode s') (player_win s') (player_lost s') (current_score s'));
      [done|intros Hn; specialize (Hwin Hn); congruence]|].
    rewrite <- Hb, <- Hf in *. split_and!; try done. unfold screen_of. rewrite Hm. by split_and!.
  - destruct Hres as [-> Hleft]. by apply left_sees.
  - destruct Hres as (-> & Hm & _). eexists. split; [apply turn_shown; by right|]. rewrite Ev.
    eapply idle_sees; [exact Hv|done|exact E|simpl; congruence|simpl; congruence|done|done].
  - destruct Hres as (-> & Hm & _). eexists. split; [by apply turn_quit|].
    eapply idle_sees; [exact Hv|done|exact E|by rewrite Hm|by rewrite Hm|done|done].
  - destruct Hres as (-> & Hm). eexists. split; [by apply turn_exit|].
    eapply idle_sees; [exact Hv|done|exact E|congruence|congruence| |by destruct v].
    destruct (v_screen v); [by eapply on_screen_video|done].
Qed.

(** ** A message, and the loop *)

(** A received message: the key that was read, if any, and a tick if the timer's bit is set. *)
Lemma menu_message_sees w v fuel m s : sees w v s →
  wlp (menu_message fuel m) (λ r s', ∃ k t v', sees w v' s' ∧
    if t : bool then turn w (press k v) r v' else r = None ∧ v' = press k v) s.
Proof.
  intros Hv. unfold menu_message.
  destruct (from_hardware m); [|apply wp_wlp, wp_ret; by exists None, false, v].
  apply wlp_bind. unfold wlp at 1, gets. apply wlp_bind.
  assert (∀ k s, sees w (press k v) s → wlp (irq_tim ← gets irq_set_timer;
    if irq_pending m irq_tim then menu_timer fuel else mret None)
    (λ r s', ∃ k t v', sees w v' s' ∧
      if t : bool then turn w (press k v) r v' else r = None ∧ v' = press k v) s) as Ht.
  { intros k s0 Hv0. apply wlp_bind. unfold wlp at 1, gets. destruct (irq_pending _ _).
    - eapply wlp_mono; [|by apply menu_timer_sees]. intros r s' (v' & ? & ?). by exists k, true, v'.
    - apply wp_wlp, wp_ret. by exists k, false, (press k v). }
  destruct (irq_pending m (irq_set_keyboard s)); [|by apply wp_wlp, wp_ret, (Ht None)].
  apply wp_wlp. eapply wp_mono; [|by apply menu_key_sees]. intros [] s1 [c Hc]. by apply (Ht (Some c)).
Qed.

Lemma menu_handler_session w inner fuel : ∀ v s, sees w v s →
  wlp (menu_handler inner fuel) (λ rc s', ∃ l v', session w v l rc v' ∧ sees w v' s') s.
Proof.
  induction fuel as [|fuel IH]; intros v s Hv; [done|]. cbn [menu_handler].
  pose proof Hv as (_ & Hk & _). apply wlp_bind. unfold wlp at 1, gets.
  destruct (Z.eqb_spec (scancode s) KB_BREAK_ESC) as [E|E]; cbn [negb]; rewrite Hk in E.
  { exists [], v. split; [by constructor|done]. }
  apply wlp_bind, wp_wlp, wp_zoom. unfold wp, call.
  destruct (driver_receive (world s)) as [[rc m] x]. apply (sees_world _ _ _ x) in Hv.
  destruct (negb (rc =? 0)); [by apply IH|].
  apply wlp_bind. eapply wlp_mono; [|by apply menu_message_sees].
  intros r s' (k & t & v1 & Hv1 & Ht). destruct r as [rc'|].
  - destruct t; [|by destruct Ht]. exists [(k, true)], v1. split; [by constructor|done].
  - eapply wlp_mono; [|by apply (IH v1)]. intros rc' s2 (l & v2 & Hl & Hv2).
    exists ((k, t) :: l), v2. split; [|done].
    destruct t; [by eapply session_tick|]. destruct Ht as [_ ->]. by apply session_key.
Qed.
End steps.

(** ** The games of a run

    [loop_turns] is menu_handler's loop as a relation that keeps the states before and after every
    message it handles; [loop_turns_iff] shows that it is the loop.  A game is won by a message that
    sets [player_win] ([Records.game_records] says which games do). *)
Section games.
Context {W : Type} `{PortIO W} `{Receive W} `{Random W} `{XpmLoader}.
Implicit Types s : sys W.

Inductive loop_turns (inner : nat) : sys W → list (sys W * sys W) → Z → sys W → Prop :=
| turns_esc s : scancode s = KB_BREAK_ESC → loop_turns inner s [] 0 s
| turns_failed s rc m x l r s' :
    scancode s ≠ KB_BREAK_ESC → driver_receive (world s) = ((rc, m), x) → rc ≠ 0 →
    loop_turns inner (set_world x s) l r s' → loop_turns inner s l r s'
| turns_message s m x s1 l r s' :
    scancode s ≠ KB_BREAK_ESC → driver_receive (world s) = ((0, m), x) →
    menu_message inner m (set_world x s) = Done (None, s1) →
    loop_turns inner s1 l r s' → loop_turns inner s ((s, s1) :: l) r s'
| turns_left s m x r s' :
    scancode s ≠ KB_BREAK_ESC → driver_receive (world s) = ((0, m), x) →
    menu_message inner m (set_world x s) = Done (Some r, s') →
    loop_turns inner s [(s, s')] r s'.

(** One turn of the function. *)
Lemma menu_handler_turn inner fuel s rc m x :
  scancode s ≠ KB_BREAK_ESC → driver_receive (world s) = ((rc, m), x) →
  menu_handler inner (S fuel) s =
    if rc =? 0 then
      match menu_message inner m (set_world x s) with
      | Done (Some r, s1) => Done (r, s1)
      | Done (None, s1) => menu_handler inner fuel s1
      | Undef => Undef
      | OutOfFuel => OutOfFuel
      end
    else menu_handler inner fuel (set_world x s).
Proof.
  intros Hk E. cbn [menu_handler]. unfold mbind, M_bind, gets, on_world, zoom, call.
  rewrite (proj2 (Z.eqb_neq _ _) Hk). cbn [negb]. rewrite E.
  destruct (rc =? 0); [|done]. cbn [negb]. by destruct (menu_message _ _ _) as [[[] ]| |].
Qed.

Lemma menu_handler_esc inner fuel s : scancode s = KB_BREAK_ESC →
  menu_handler inner (S fuel) s = Done (0, s).
Proof.
  intros E. cbn [menu_handler]. unfold mbind, M_bind, gets. by rewrite E.
Qed.

Lemma menu_handler_turns inner fuel : ∀ s rc s', menu_handler inner fuel s = Done (rc, s') →
  ∃ l, loop_turns inner s l rc s'.
Proof.
  induction fuel as [|fuel IH]; intros s rc s' E; [done|].
  destruct (decide (scancode s = KB_BREAK_ESC)) as [Hk|Hk].
  { rewrite menu_handler_esc in E by done. injection E as <- <-. exists []. by constructor. }
  destruct (driver_receive (world s)) as [[e m] x] eqn:Er.
  rewrite (menu_handler_turn _ _ _ _ _ _ Hk Er) in E. destruct (Z.eqb_spec e 0) as [->|He].
  - destruct (menu_message inner m (set_world x s)) as [[[r|] s1]| |] eqn:Em; [| |done..].
    + injection E as <- <-. exists [(s, s1)]. by eapply turns_left.
    + apply IH in E as [l Hl]. exists ((s, s1) :: l). by eapply turns_message.
  - apply IH in E as [l Hl]. exists l. by eapply turns_failed.
Qed.

Lemma loop_turns_iff inner s rc s' :
  (∃ fuel, menu_handler inner fuel s = Done (rc, s')) ↔ ∃ l, loop_turns inner s l rc s'.
Proof.
  split; [intros [fuel E]; by eapply menu_handler_turns|]. intros [l Hl].
  induction Hl as [s Hk|s e m x l r s' Hk Er He _ [fuel IH]|s m x s1 l r s' Hk Er Em _ [fuel IH]|s m x r s' Hk Er Em].
  - exists 1%nat. by apply menu_handler_esc.
  - exists (S fuel). rewrite (menu_handler_turn _ _ _ _ _ _ Hk Er). by rewrite (proj2 (Z.eqb_neq _ _) He).
  - exists (S fuel). rewrite (menu_handler_turn _ _ _ _ _ _ Hk Er). cbn. by rewrite Em.
  - exists 1%nat. rewrite (menu_handler_turn _ _ _ _ _ _ Hk Er). cbn. by rewrite Em.
Qed.

(** The states at the ends of the games that were won, in order. *)
Fixpoint won (l : list (sys W * sys W)) : list (sys W) :=
  match l with
  | [] => []
  | (s, s1) :: l => if negb (player_win s) && player_win s1 then s1 :: won l else won l
  end.

(** The record of the game that ended in [s]: one of the names, with the shots, the seconds and
    the score of that game. *)
Definition record_of_game s (e : HighScoreEntry) : Prop :=
  record_of_win e ∧ score_of (current_score s) e.
End games.

(** ** From the start of the program to its end *)

Lemma load_keeps_file d : keeps (λ p, p.2 = d) load_highscores_from_csv.
Proof.
  intros [b d0] n p Hd. unfold load_highscores_from_csv.
  by apply (keeps_zoom (λ p : board * disk, p.2 = d) fst).
Qed.

(** The entries of the file, or none without a file. *)
Definition file_holds (es : list HighScoreEntry) (d : disk) : Prop :=
  Forall entry_ok es ∧ (stored es d ∨ csv d = None ∧ es = []) ∧ disk_ok d.

Lemma held_file_holds es b d : held es b d → file_holds es d.
Proof. by intros []. Qed.

Lemma file_loads es d : file_holds es d → loads (λ b, held es b d) d.
Proof.
  intros (Hes & Hst & Hd) b Hb. pose proof Hd as [Hr _]. destruct Hst as [Hst|[Hc ->]].
  - eapply wp_mono; [|by apply (load_stored es)].
    intros n p (? & ? & -> & ? & ? & ?). split_and!; [done..|]. by split; try left.
  - unfold wp, load_highscores_from_csv, on_board, zoom, fopen_r. rewrite Hr, Hc. cbn.
    assert (ranking (set_count 0 b) = []) as Hk by done.
    destruct (set_count_zero b Hb). split_and!; [done..|].
    split; rewrite ?Hk; try done; [by right|constructor].
Qed.

Section program.
Context {W : Type} `{PortIO W} `{Interrupts W} `{Receive W} `{RandomLaws W} `{VideoLaws W}
  `{Panic W} `{!GameMode W} `{XpmLoaderLaws}.
Implicit Types s : sys W.

(** What initialising and closing leave alone. *)
Definition outside (d : disk) s : Prop :=
  file s = d ∧ player_win s = false ∧ player_lost s = false ∧ show_scores_drawn s = false ∧
  current_score s = scoring_start.

Lemma init_game_keeps d : keeps (outside d) init_game.
Proof.
  assert (keeps (outside d) (on_table_file load_highscores_from_csv)) as Hl.
  { apply (keeps_zoom_part _ (λ p, p.2 = d)); [by intros s []| |apply load_keeps_file].
    intros s p (_ & ? & ? & ? & ?) ?. by split_and!. }
  unfold init_game, kb_subscribe, timer_subscribe. keeping.
Qed.

Lemma init_game_sees es (w : W) g d : file_holds es d →
  wp init_game (λ rc s, file s = d ∧
    (rc = 1 ∨ rc = 0 ∧ sees (can_append d) (start_view es) s)) (sys_start w g d).
Proof.
  intros Hd. pose proof (init_game_wp (λ b, held es b d) (sys_start w g d)) as Hi.
  specialize (Hi (start_booted _ _ _ _ (file_loads _ _ Hd))). apply wp_done in Hi as (rc & s & E & Hrc & Hok).
  assert (outside d s) as (Hf & Hw & Hl & Hdr & Hsc)
    by (eapply init_game_keeps; [|exact E]; by split_and!).
  unfold wp. rewrite E. split; [done|]. destruct Hrc as [->| ->]; [right|by left]. split; [done|].
  destruct (Hok eq_refl) as (? & ? & Hm & ?). subst d. split_and!; try done.
  - unfold screen_of. rewrite Hm. by split_and!.
Qed.

Lemma close_game_keeps b d : keeps (λ s, table s = b ∧ file s = d) close_game.
Proof. unfold close_game, kb_unsubscribe, timer_unsubscribe. keeping. Qed.

(** The games won in a run from [s0]: none if its initialisation fails. *)
Inductive games_won (fuel : nat) (s0 : sys W) : list (sys W) → Prop :=
| games_none rc s1 : init_game s0 = Done (rc, s1) → rc ≠ 0 → games_won fuel s0 []
| games_played s1 l rc s2 :
    init_game s0 = Done (0, s1) → loop_turns fuel s1 l rc s2 → games_won fuel s0 (won l).

(** A run of the whole program. *)
Lemma program_session es fuel (w : W) g d : file_holds es d →
  wlp (proj_main_loop fuel) (λ rc s, rc = 1 ∧ file s = d ∨
    ∃ l r v, session (can_append d) (start_view es) l r v ∧ (rc = r ∨ rc = 1) ∧
      held (v_records v) (table s) (file s) ∧ can_append (file s) = can_append d)
    (sys_start w g d).
Proof.
  intros Hd. unfold proj_main_loop. apply wlp_bind, wp_wlp.
  eapply wp_mono; [|by apply (init_game_sees es)].
  intros rc s1 [Hf [->|[-> Hv]]]; [by left|]. cbn [Z.eqb].
  apply wlp_bind. eapply wlp_mono; [|by apply menu_handler_session].
  intros rc s2 (l & v & Hl & _ & _ & _ & Hh & Ha). destruct (Z.eqb_spec rc 0) as [->|Hrc].
  - apply wp_wlp. pose proof (close_game_wp s2) as Hc. apply wp_done in Hc as (rc & s3 & E & Hc).
    pose proof (close_game_keeps _ _ s2 rc s3 (conj eq_refl eq_refl) E) as [Ht Hf'].
    unfold wp. rewrite E, Ht, Hf'. right. exists l, 0, v. split_and!; try done. destruct Hc as [->|[-> _]]; auto.
  - right. exists l, rc, v. split_and!; by auto.
Qed.
End program.

(** ** The machine's own properties *)

(** A win is shown before the next game can start. *)
Definition wins_shown (v : view) : Prop := v_win v = true →
  v_state v = MENU_SCORES ∨ v_key v = KB_BREAK_ESC ∧ v_state v = MENU_MAIN.

Lemma wins_shown_press k v : wins_shown v → v_key v ≠ KB_BREAK_ESC → wins_shown (press k v).
Proof.
  intros Hv Hk. destruct k as [c|]; [|done]. intros Hw. destruct (Hv Hw) as [Hst|[? _]]; [|done].
  simpl. unfold key_state. rewrite Hst. destruct (Z.eqb_spec c KB_BREAK_ESC); [by right|by left].
Qed.

(** A turn appends a record exactly when it sets the flag of a win, and the record of that game. *)
Lemma turn_records w v r v1 : wins_shown v → turn w v r v1 →
  wins_shown v1 ∧
  if negb (v_win v) && v_win v1
  then ∃ e, record_of_win e ∧ score_of (v_score v1) e ∧
            v_records v1 = v_records v ++ (if w then [e] else [])
  else v_records v1 = v_records v.
Proof.
  intros Hv Ht. assert (v_state v = MENU_START → v_win v = false) as Hs.
  { intros Hst. destruct (v_win v) eqn:Hw; [|done]. destruct (Hv Hw) as [?|[_ ?]]; congruence. }
  assert (v_state v = MENU_QUIT → v_win v = false) as Hq.
  { intros Hst. destruct (v_win v) eqn:Hw; [|done]. destruct (Hv Hw) as [?|[_ ?]]; congruence. }
  destruct Ht as [|Hst|Hst|c e sc Hst He Hsc|c sc Hst|Hst|c win lost sc Hst Hwin|c best Hst Hc Hb]; simpl.
  - split; [done|]. by destruct (v_win v).
  - split; [unfold wins_shown; simpl; by rewrite Hq|]. by rewrite Hq.
  - split; [done|]. by destruct (v_win v).
  - split; [by left|]. rewrite (Hs Hst). simpl. exists e. split_and!; [done..|].
    by destruct w; rewrite ?app_nil_r.
  - split; [done|]. by rewrite andb_false_r.
  - split; [done|]. by rewrite andb_false_r.
  - destruct win; [by rewrite (Hs Hst) in Hwin; specialize (Hwin eq_refl)|].
    split; [done|]. by rewrite andb_false_r.
  - split; [done|]. by rewrite andb_false_r.
Qed.

Section run.
Context {W : Type} `{PortIO W} `{Interrupts W} `{Receive W} `{RandomLaws W} `{VideoLaws W}
  `{Panic W} `{!GameMode W} `{XpmLoaderLaws}.
Implicit Types s : sys W.

(** A message saves a record exactly when it wins a game. *)
Lemma menu_message_records w v fuel m s : sees w v s → wins_shown v → v_key v ≠ KB_BREAK_ESC →
  wlp (menu_message fuel m) (λ _ s', ∃ v' news, sees w v' s' ∧ wins_shown v' ∧
    Forall2 record_of_game (won [(s, s')]) news ∧
    v_records v' = v_records v ++ (if w then news else [])) s.
Proof.
  intros Hv Hwin Hk. eapply wlp_mono; [|by apply menu_message_sees].
  intros r s' (k & t & v' & Hv' & Ht). apply (wins_shown_press k) in Hwin; [|done].
  assert (player_win s = v_win (press k v)) as Ew by (destruct Hv as (_ & _ & (_ & _ & -> & _) & _); by destruct k).
  assert (v_records (press k v) = v_records v) as Er by by destruct k.
  assert (wins_shown v' ∧ if negb (v_win (press k v)) && v_win v'
    then ∃ e, record_of_win e ∧ score_of (v_score v') e ∧
              v_records v' = v_records (press k v) ++ (if w then [e] else [])
    else v_records v' = v_records (press k v)) as [Hwin' Hrec].
  { destruct t; [by eapply turn_records|]. destruct Ht as [_ ->]. split; [done|].
    by destruct (v_win (press k v)). }
  pose proof Hv' as (_ & _ & (_ & _ & Ew' & _ & _ & Esc & _) & _).
  exists v'. cbn [won]. rewrite Ew, Ew', Er in *. destruct (negb _ && _).
  - destruct Hrec as (e & He & Hsc & Hr). exists [e]. split_and!; try done.
    constructor; [|constructor]. split; [done|by rewrite Esc].
  - exists []. split_and!; try done; try constructor. by destruct w; rewrite app_nil_r.
Qed.

Lemma won_cons (p : sys W * sys W) l : won (p :: l) = won [p] ++ won l.
Proof. destruct p as [s s1]. simpl. by destruct (negb _ && _). Qed.

Lemma menu_handler_records w inner fuel : ∀ v s, sees w v s → wins_shown v →
  wlp (menu_handler inner fuel) (λ rc s', ∃ l news v', loop_turns inner s l rc s' ∧
    Forall2 record_of_game (won l) news ∧ sees w v' s' ∧
    v_records v' = v_records v ++ (if w then news else [])) s.
Proof.
  induction fuel as [|fuel IH]; intros v s Hv Hwin; [done|]. pose proof Hv as (_ & Hkey & _).
  unfold wlp. destruct (decide (scancode s = KB_BREAK_ESC)) as [Hk|Hk].
  { rewrite menu_handler_esc by done. exists [], [], v. split_and!; [by constructor|constructor|done|].
    by destruct w; rewrite app_nil_r. }
  destruct (driver_receive (world s)) as [[e m] x] eqn:Er.
  rewrite (menu_handler_turn _ _ _ _ _ _ Hk Er). pose proof (sees_world _ _ _ x Hv) as Hvx.
  destruct (Z.eqb_spec e 0) as [->|He].
  - pose proof (menu_message_records w v inner m _ Hvx Hwin ltac:(congruence)) as Hm. unfold wlp in Hm.
    destruct (menu_message inner m (set_world x s)) as [[r s1]| |] eqn:Em; [|done..].
    destruct Hm as (v1 & news1 & Hv1 & Hwin1 & Hn1 & Hr1). change (won [(set_world x s, s1)]) with (won [(s, s1)]) in Hn1.
    destruct r as [r|]; [exists [(s, s1)], news1, v1; split_and!; [by eapply turns_left|done..]|].
    eapply wlp_mono; [|by apply (IH v1)]. intros rc s' (l & news & v' & Hl & Hn & Hv' & Hr).
    exists ((s, s1) :: l), (news1 ++ news), v'. rewrite won_cons, Hr, Hr1.
    split_and!; [by eapply turns_message|by apply Forall2_app|done|].
    rewrite <- app_assoc. by destruct w.
  - eapply wlp_mono; [|by apply (IH v)]. intros rc s' (l & news & v' & Hl & ?).
    exists l, news, v'. split; [by eapply turns_failed|done].
Qed.

(** The file after a run of the whole program. *)
Lemma program_records es fuel (w : W) g d : file_holds es d →
  wlp (proj_main_loop fuel) (λ _ s, ∃ games news, games_won fuel (sys_start w g d) games ∧
    Forall2 record_of_game games news ∧
    file_holds (es ++ (if can_append d then news else [])) (file s)) (sys_start w g d).
Proof.
  intros Hd. pose proof (init_game_sees es w g d Hd) as Hi. apply wp_done in Hi as (rc & s1 & E & Hf & Hrc).
  unfold wlp, proj_main_loop. rewrite (check_done _ _ _ _ _ E). destruct Hrc as [->|[-> Hv]]; cbn [Z.eqb].
  { exists [], []. split_and!; [by eapply games_none|constructor|]. rewrite Hf. by destruct (can_append d); rewrite app_nil_r. }
  pose proof (menu_handler_records (can_append d) fuel fuel _ _ Hv ltac:(done)) as Hm. unfold wlp in Hm.
  destruct (menu_handler fuel fuel s1) as [[rc s2]| |] eqn:Em; unfold check, mbind, M_bind; rewrite Em; [|done..].
  destruct Hm as (l & news & v & Hl & Hn & (_ & _ & _ & Hh & _) & Hr). simpl in Hr. rewrite Hr in Hh.
  apply held_file_holds in Hh. assert (games_won fuel (sys_start w g d) (won l)) as Hg by by eapply games_played.
  destruct (rc =? 0); [|by exists (won l), news].
  pose proof (close_game_wp s2) as Hc. apply wp_done in Hc as (rc3 & s3 & E3 & _).
  pose proof (close_game_keeps _ _ s2 rc3 s3 (conj eq_refl eq_refl) E3) as [_ Hf3].
  rewrite E3, Hf3. by exists (won l), news.
Qed.
End run.

(** How a session ends. *)
Lemma session_end w v l rc v' : session w v l rc v' →
  rc = 0 ∧ (v_key v' = KB_BREAK_ESC ∨ v_state v' = MENU_EXIT) ∨ rc = 1 ∧ v_state v' = MENU_START.
Proof. induction 1 as [| | |k v rc v' _ Ht]; [by auto|done|done|]. inversion Ht; subst; simpl; auto. Qed.

(** A session with a win, and then Quit. *)
Example winning_session e sc : record_of_win e → score_of sc e →
  session true (start_view [])
    [(Some KB_ENTER, true); (None, true); (Some KB_DOWN_ARROW, false); (Some KB_DOWN_ARROW, false);
     (Some KB_ENTER, true); (None, true)] 0
    (View KB_ENTER MENU_EXIT MENU_OPTION_QUIT false false [e] scoring_start (Some [])).
Proof.
  intros He Hsc. eapply session_tick; [done|by apply (turn_won _ _ 0 e sc)|].
  eapply session_tick; [done|apply (turn_scores _ _ KB_ENTER [e]); [done|by left|]|].
  { exists [e]. split; [by repeat constructor|done]. }
  do 2 (apply session_key; [done|]).
  eapply session_tick; [done|by apply turn_quit|]. apply session_left; [done|by apply turn_exit].
Qed.

(** ** Properties *)

(** C3. The program refines the abstract machine.  Started with a file that holds the entries
    [es], or with none: (1) if the initialisation succeeds, the machine's main menu is seen;
    (2) from any state that is seen, a message leads to the state that the machine reaches by the
    key that was read and, if the timer's interrupt came, by one tick, with the menu, the flags,
    the score, the table, the file and the page on the screen that it says; (3) every run that
    returns is one of: a failed initialisation, which returns 1 and leaves the file alone; or a
    session of the machine from its main menu, whose keys, ticks and games lead to the records
    that the table and the file then hold, and whose code is returned unless the clean-up fails
    with 1.  Code 0 comes from ESC, on whatever screen, or from a confirmed quit; code 1 of a
    session from a game whose aliens landed. *)
Theorem program_refines {W} `{PortIO W} `{Interrupts W} `{Receive W} `{RandomLaws W} `{VideoLaws W}
    `{Panic W} `{!GameMode W} `{XpmLoaderLaws} es fuel (w : W) g d : file_holds es d →
  wp init_game (λ rc s, rc = 0 → sees (can_append d) (start_view es) s) (sys_start w g d) ∧
  (∀ v m s, sees (can_append d) v s → wlp (menu_message fuel m) (λ r s', ∃ k t v',
     sees (can_append d) v' s' ∧
     if t : bool then turn (can_append d) (press k v) r v' else r = None ∧ v' = press k v) s) ∧
  wlp (proj_main_loop fuel) (λ rc s, rc = 1 ∧ file s = d ∨
    ∃ l r v, session (can_append d) (start_view es) l r v ∧
      held (v_records v) (table s) (file s) ∧ (rc = r ∨ rc = 1) ∧
      (r = 0 ∧ (v_key v = KB_BREAK_ESC ∨ v_state v = MENU_EXIT) ∨ r = 1 ∧ v_state v = MENU_START))
    (sys_start w g d).
Proof.
  intros Hd. split; [|split; [intros v m s; apply menu_message_sees|]].
  { eapply wp_mono; [|by apply (init_game_sees es)]. by intros rc s [_ [->|[_ ?]]]. }
  eapply wlp_mono; [|by apply program_session].
  intros rc s [?|(l & r & v & Hl & Hrc & Hh & _)]; [by left|right].
  exists l, r, v. split_and!; try done. by apply (session_end _ _ _ _ _ Hl).
Qed.

(** C4. The records outlive the program.  Whatever a run of it does, it leaves a file with the
    entries that it found and, after them, in order, one record for each game that the run won, with
    the shots, the seconds and the score of that game under one of the names, and no other record;
    none of them if the disk refuses.  The games are those of the run itself: the messages that its
    loop handled from the state in which its initialisation succeeded.  And the next start on that
    disk, if its devices answer, shows the first 100 of the entries in the order of their scores. *)
Theorem scores_persist {W} `{PortIO W} `{Interrupts W} `{Receive W} `{RandomLaws W} `{VideoLaws W}
    `{Panic W} `{!GameMode W} `{XpmLoaderLaws} es fuel (w : W) g d : file_holds es d →
  wlp (proj_main_loop fuel) (λ _ s, ∃ games news,
    games_won fuel (sys_start w g d) games ∧ Forall2 record_of_game games news ∧
    let all := es ++ (if can_append d then news else []) in
    file_holds all (file s) ∧
    ∀ (w' : W) g', wp init_game (λ rc s', rc = 0 →
      highscore_count (table s') = Z.min 100 (Z.of_nat (length all)) ∧
      ranking (table s') ≡ₚ take 100 all ∧ StronglySorted ahead (ranking (table s')))
      (sys_start w' g' (file s))) (sys_start w g d).
Proof.
  intros Hd. eapply wlp_mono; [|by apply program_records].
  intros rc s (games & news & Hg & Hn & Hf). exists games, news. split; [done|]. split; [done|]. split; [done|].
  intros w' g'. eapply wp_mono; [|by eapply init_game_sees].
  intros rc' s' [_ [->|[_ (_ & _ & _ & [] & _)]]]; done.
Qed.

(** ** Witnesses *)
Module SessionWitness.
Import Sim BlankLoader HighScores.Witness MainWitness.

#[local] Existing Instance MainWitness.vbe.
#[local] Existing Instance MainWitness.vbe_laws.
#[local] Existing Instance MainWitness.vbe_game_mode.
#[local] Existing Instance MainWitness.no_panic.

(** The file of one win. *)
Lemma jin_file : file_holds [jin] HighScores.Witness.file.
Proof.
  split; [|split; [by left|by split; [|left]]]. constructor; [|constructor].
  exact (List.Forall_inv entries_ok).
Qed.

Lemma program_refines_witness : file_holds [jin] HighScores.Witness.file ∧
  wp init_game (λ rc s, rc = 0 → sees true (start_view [jin]) s)
    (sys_start quiet off HighScores.Witness.file) ∧
  (∀ v m s, sees true v s → wlp (menu_message 5 m) (λ r s', ∃ k t v',
     sees true v' s' ∧ if t : bool then turn true (press k v) r v' else r = None ∧ v' = press k v) s) ∧
  wlp (proj_main_loop 5) (λ rc s, rc = 1 ∧ System.file s = HighScores.Witness.file ∨
    ∃ l r v, session true (start_view [jin]) l r v ∧
      held (v_records v) (System.table s) (System.file s) ∧ (rc = r ∨ rc = 1) ∧
      (r = 0 ∧ (v_key v = KB_BREAK_ESC ∨ v_state v = MENU_EXIT) ∨ r = 1 ∧ v_state v = MENU_START))
    (sys_start quiet off HighScores.Witness.file).
Proof. split; [exact jin_file|]. apply (program_refines [jin] 5 quiet off _ jin_file). Defined.

Lemma scores_persist_witness : file_holds [jin] HighScores.Witness.file ∧
  wlp (proj_main_loop 5) (λ _ s, ∃ games news,
    games_won 5 (sys_start quiet off HighScores.Witness.file) games ∧ Forall2 record_of_game games news ∧
    let all := [jin] ++ news in
    file_holds all (System.file s) ∧
    ∀ (w' : sim) g', wp init_game (λ rc s', rc = 0 →
      highscore_count (System.table s') = Z.min 100 (Z.of_nat (length all)) ∧
      ranking (System.table s') ≡ₚ take 100 all ∧
      StronglySorted ahead (ranking (System.table s')))
      (sys_start w' g' (System.file s))) (sys_start quiet off HighScores.Witness.file).
Proof. split; [exact jin_file|]. apply (scores_persist [jin] 5 quiet off _ jin_file). Defined.
End SessionWitness.
