(* ===== verification/LabState.v ===== *)
(** * The globals of lab2, lab3 and lab5

    The three programs link copies of timer.c (the counter is called [counter] there) and, in
    lab3 and lab5, of kb_controller.c and kb_interrupts.c, which [Timer] and [Keyboard] model.
    [lab] is the state of their globals and of the machine.  What they print through the course's
    framework is an output: the calls, with their arguments, are appended to [printed]. *)

From S2P Require Import Prelude Machine Keyboard Timer Events.

(** The framework's printing functions (lcom/timer.h, lcom/lab3.h) that the labs call for effect. *)
Inductive output :=
| timer_print_elapsed_time
| kbd_print_scancode (make : bool) (size : Z) (bytes : list Z).

Record lab (W : Type) := Lab {
  world : W;
  counter : Z;
  hook_id : Z;
  kb_hook_id : Z;
  scancode : Z;
  printed : list output;
}.
Arguments Lab {_}.
Arguments world {_} _.
Arguments counter {_} _.
Arguments hook_id {_} _.
Arguments kb_hook_id {_} _.
Arguments scancode {_} _.
Arguments printed {_} _.

Section operations.
Context {W : Type}.
Implicit Types s : lab W.

Definition set_world (v : W) s : lab W :=
  Lab v (counter s) (hook_id s) (kb_hook_id s) (scancode s) (printed s).
Definition set_counter (v : Z) s : lab W :=
  Lab (world s) v (hook_id s) (kb_hook_id s) (scancode s) (printed s).
Definition set_hook_id (v : Z) s : lab W :=
  Lab (world s) (counter s) v (kb_hook_id s) (scancode s) (printed s).
Definition set_kb_hook_id (v : Z) s : lab W :=
  Lab (world s) (counter s) (hook_id s) v (scancode s) (printed s).
Definition set_scancode (v : Z) s : lab W :=
  Lab (world s) (counter s) (hook_id s) (kb_hook_id s) v (printed s).
Definition add_printed (v : list output) s : lab W :=
  Lab (world s) (counter s) (hook_id s) (kb_hook_id s) (scancode s) (printed s ++ v).

(** The static initialisers. *)
Definition lab_start (w : W) : lab W := Lab w 0 0 1 0 [].

#[export] Instance lab_has_world : HasWorld (lab W) W.
Proof. by refine {| the_world := world; set_the_world := set_world |}. Defined.

Definition on_world {A} (m : M W A) : M (lab W) A := zoom world set_world m.
Definition print (o : output) : M (lab W) unit := modify (add_printed [o]).

(** timer_int_handler() on the global counter. *)
Definition tick : M (lab W) unit := modify (λ s, set_counter (timer_int_handler (counter s)) s).

Context `{PortIO W} `{Interrupts W}.

(** kbc_ih() on the global scancode. *)
Definition read_scancode : M (lab W) unit :=
  sc ← gets scancode;
  sc ← on_world (kbc_ih sc);
  modify (set_scancode sc).

(** The subscriptions with the address of an uninitialised local; the local after the call is
    the second result. *)
Definition timer_subscribe : M (lab W) (Z * Z) :=
  h ← gets hook_id;
  '(rc, bit_no, h) ← on_world (timer_subscribe_int (Some 0) h);
  modify (set_hook_id h);;
  irq ← of_option bit_no;
  mret (rc, irq).

Definition kb_subscribe : M (lab W) (Z * Z) :=
  h ← gets kb_hook_id;
  '(rc, bit_no, h) ← on_world (kb_subscribe_int (Some 0) h);
  modify (set_kb_hook_id h);;
  irq ← of_option bit_no;
  mret (rc, irq).

Definition timer_unsubscribe : M (lab W) Z :=
  h ← gets hook_id;
  '(rc, h) ← on_world (timer_unsubscribe_int h);
  modify (set_hook_id h);;
  mret rc.

Definition kb_unsubscribe : M (lab W) Z :=
  h ← gets kb_hook_id;
  '(rc, h) ← on_world (kb_unsubscribe_int h);
  modify (set_kb_hook_id h);;
  mret rc.

(** ** What the wrappers do, in terms of the kernel calls *)

(** C's 0 for success, 1 for any failure. *)
Definition status (rc : Z) : Z := if rc =? 0 then 0 else 1.

Lemma timer_subscribe_run s rc h w :
  sys_irqsetpolicy TIMER0_IRQ IRQ_REENABLE (hook_id s) (world s) = ((rc, h), w) →
  timer_subscribe s = Done ((status rc, u8 (hook_id s)), set_hook_id h (set_world w s)).
Proof.
  intros E. unfold timer_subscribe, timer_subscribe_int, status, on_world, zoom. run_unfold.
  rewrite E. by destruct (rc =? 0).
Qed.

Lemma kb_subscribe_run s rc h w :
  sys_irqsetpolicy KEYBOARD_IRQ (Z.lor IRQ_REENABLE IRQ_EXCLUSIVE) (kb_hook_id s) (world s)
    = ((rc, h), w) →
  kb_subscribe s = Done ((status rc, u8 (kb_hook_id s)), set_kb_hook_id h (set_world w s)).
Proof.
  intros E. unfold kb_subscribe, kb_subscribe_int, status, on_world, zoom. run_unfold.
  rewrite E. by destruct (rc =? 0).
Qed.

Lemma timer_unsubscribe_run s rc h w :
  sys_irqrmpolicy (hook_id s) (world s) = ((rc, h), w) →
  timer_unsubscribe s = Done (status rc, set_hook_id h (set_world w s)).
Proof.
  intros E. unfold timer_unsubscribe, timer_unsubscribe_int, status, on_world, zoom. run_unfold.
  rewrite E. by destruct (rc =? 0).
Qed.

Lemma kb_unsubscribe_run s rc h w :
  sys_irqrmpolicy (kb_hook_id s) (world s) = ((rc, h), w) →
  kb_unsubscribe s = Done (status rc, set_kb_hook_id h (set_world w s)).
Proof.
  intros E. unfold kb_unsubscribe, kb_unsubscribe_int, status, on_world, zoom. run_unfold.
  rewrite E. by destruct (rc =? 0).
Qed.

Lemma status_0 rc : status rc = 0 ↔ rc = 0.
Proof. unfold status. destruct (Z.eqb_spec rc 0); lia. Qed.
End operations.

(** ** Counting seconds: 60 interrupts of the timer each *)

(** The interrupts it takes until the counter has passed [time] multiples of 60. *)
Definition ticks_needed (time c : Z) : Z := if time =? 0 then 0 else 60 * time - c mod 60.

(** The range in which neither the counter nor the time wraps. *)
Definition countable (time c : Z) : Prop :=
  0 <= time < 256 ∧ 0 <= c ∧ c + ticks_needed time c < 2 ^ 31.

Lemma ticks_needed_step time c : countable time c → 0 < time →
  let time' := if (c + 1) mod 60 =? 0 then time - 1 else time in
  ticks_needed time c = ticks_needed time' (c + 1) + 1 ∧ 0 <= ticks_needed time' (c + 1) ∧
  countable time' (c + 1).
Proof.
  unfold countable, ticks_needed. intros (? & ? & ?) ?. simpl.
  destruct (Z.eqb_spec ((c + 1) mod 60) 0).
  - destruct (Z.eqb_spec time 0), (Z.eqb_spec (time - 1) 0); Z.to_euclidean_division_equations;
      split_and!; lia.
  - destruct (Z.eqb_spec time 0); Z.to_euclidean_division_equations; split_and!; lia.
Qed.

(** For witnesses: a machine whose timer interrupts come for ever. *)
Module Clock.
#[export] Instance clock_port : PortIO unit := {|
  sys_inb := λ _ w, ((1, 0), w); sys_outb := λ _ _ w, (1, w); micros_to_ticks := λ us, us;
  tickdelay := λ _ w, w |}.
#[export] Instance clock_irq : Interrupts unit := {|
  sys_irqsetpolicy := λ _ _ hook w, ((0, hook), w); sys_irqrmpolicy := λ hook w, ((0, hook), w) |}.
#[export] Instance clock_receive : Receive unit := {| driver_receive := λ w, ((0, hw_message 1), w) |}.

Lemma clock_keeps_coming : keeps_coming (W:=unit) (is_interrupt 0).
Proof. intros w. exists (hw_message 1), w. by apply awaits_now. Qed.

End Clock.
