(* ===== verification/Lab2.v ===== *)
(** * lab2: the timer's test programs

    timer_test_read_config, timer_test_time_base and timer_test_int of lab2/lab2.c, over the
    driver of [Timer] and the loop of [Events].  The theorem gives the exact number of timer
    interrupts after which timer_test_int is over and what it has printed by then. *)

From S2P Require Import Prelude Machine Timer Events LabState.

Section operations.
Context {W : Type} `{PortIO W} `{Interrupts W} `{TimerPrint W} `{Receive W}.

Definition timer_test_read_config (timer : Z) (field : timer_status_field) : M W Z :=
  '(rc, status) ← timer_get_conf timer (Some 0);
  if negb (rc =? 0) then mret 1 else
  status ← of_option status;
  timer_display_conf timer status field ;?
  mret 0.

Definition timer_test_time_base (timer freq : Z) : M W Z :=
  timer_set_frequency timer freq ;?
  mret 0.

(** The body of the loop; the second part of the state is the local [time]. *)
Definition timer_message (irq_set : Z) (m : message) : M (lab W * Z) (option Z) :=
  if from_hardware m then
    if irq_pending m irq_set then
      on_globals tick;;
      c ← on_globals (gets counter);
      if Z.rem c 60 =? 0 then
        on_globals (print timer_print_elapsed_time);;
        modify (λ p, (p.1, u8 (p.2 - 1)));;
        mret None
      else mret None
    else mret None
  else mret None.

Definition timer_test_int (fuel : nat) (time : Z) : M (lab W) Z :=
  '(rc, irq_set) ← timer_subscribe;
  if negb (rc =? 0) then mret 1 else
  r ← with_locals time (message_loop (λ p, p.2 >? 0) (timer_message irq_set) fuel);
  match r with
  | Some rc => mret rc
  | None => timer_unsubscribe ;? mret 0
  end.
End operations.

(** ** What timer_test_int is for *)
Module Spec.

Section spec.
Context {W : Type} `{Interrupts W} `{Receive W}.

Inductive test_int (time : Z) (s : lab W) : Z → lab W → Prop :=
| refused rc h w :
    sys_irqsetpolicy TIMER0_IRQ IRQ_REENABLE (hook_id s) (world s) = ((rc, h), w) → rc ≠ 0 →
    test_int time s 1 (set_hook_id h (set_world w s))
| counted h w w1 rc h' w' :
    sys_irqsetpolicy TIMER0_IRQ IRQ_REENABLE (hook_id s) (world s) = ((0, h), w) →
    awaits_n (is_interrupt (u8 (hook_id s))) (Z.to_nat (ticks_needed time (counter s))) w w1 →
    sys_irqrmpolicy h w1 = ((rc, h'), w') →
    test_int time s (status rc)
      (Lab w' (counter s + ticks_needed time (counter s)) h' (kb_hook_id s) (scancode s)
         (printed s ++ replicate (Z.to_nat time) timer_print_elapsed_time)).
End spec.
End Spec.

Section lemmas.
Context {W : Type} `{Receive W}.
Implicit Types s : lab W.
Import Spec.

(** What one timer interrupt does to the globals and to the local [time]. *)
Definition ticked (p : lab W * Z) : lab W * Z :=
  let c := timer_int_handler (counter p.1) in
  if Z.rem c 60 =? 0
  then (add_printed [timer_print_elapsed_time] (set_counter c p.1), u8 (p.2 - 1))
  else (set_counter c p.1, p.2).

Lemma timer_message_run irq m p : timer_message irq m p =
  Done (None, if is_interrupt irq m then ticked p else p).
Proof.
  unfold timer_message, is_interrupt, ticked, on_globals, tick, print, zoom. run_unfold.
  destruct p as [s t], (from_hardware m), (irq_pending m irq); try done. simpl.
  by destruct (Z.rem _ 60 =? 0).
Qed.

Lemma ticked_eq p : countable p.2 (counter p.1) → 0 < p.2 →
  ticked p = if (counter p.1 + 1) mod 60 =? 0
    then (add_printed [timer_print_elapsed_time] (set_counter (counter p.1 + 1) p.1), p.2 - 1)
    else (set_counter (counter p.1 + 1) p.1, p.2).
Proof.
  intros Hc Ht. destruct (ticks_needed_step _ _ Hc Ht) as (? & ? & _), Hc as (? & ? & ?).
  unfold ticked, timer_int_handler. rewrite i32_small by lia.
  rewrite Z.rem_mod_nonneg by lia. by rewrite u8_small by lia.
Qed.

(** The globals after [n] interrupts, with [time] multiples of 60 among them. *)
Definition after_ticks (s : lab W) (w : W) (time c : Z) : lab W :=
  Lab w c (hook_id s) (kb_hook_id s) (scancode s)
    (printed s ++ replicate (Z.to_nat time) timer_print_elapsed_time).

Lemma after_ticked p w w' : countable p.2 (counter p.1) → 0 < p.2 →
  let p' := ticked (set_the_world w p) in
  after_ticks p'.1 w' p'.2 (counter p'.1 + ticks_needed p'.2 (counter p'.1)) =
  after_ticks p.1 w' p.2 (counter p.1 + ticks_needed p.2 (counter p.1)) ∧
  countable p'.2 (counter p'.1) ∧
  ticks_needed p.2 (counter p.1) = ticks_needed p'.2 (counter p'.1) + 1 ∧
  0 <= ticks_needed p'.2 (counter p'.1) ∧ the_world p' = w.
Proof.
  intros Hc Ht. rewrite ticked_eq by done. cbn.
  destruct (ticks_needed_step _ _ Hc Ht) as (Hn & Hnn & Hc').
  destruct (_ =? 0) in *; cbn; split_and!; try done.
  - unfold after_ticks. cbn. f_equal; [lia|]. rewrite <- app_assoc. f_equal.
    replace (Z.to_nat (p.2)) with (Datatypes.S (Z.to_nat (p.2 - 1))) by lia. done.
  - unfold after_ticks. cbn. f_equal; lia.
Qed.

Let again : lab W * Z → bool := λ p, p.2 >? 0.

Lemma counting_runs irq r p p' : countable p.2 (counter p.1) →
  loop_runs again (timer_message irq) (is_interrupt irq) p r p' →
  r = None ∧ ∃ w, p' = (after_ticks p.1 w p.2 (counter p.1 + ticks_needed p.2 (counter p.1)), 0) ∧
  awaits_n (is_interrupt irq) (Z.to_nat (ticks_needed p.2 (counter p.1))) (the_world p) w.
Proof.
  intros Hc Hr. induction Hr as [[s t] Ha|p m w rc p' Ha Haw Hh|p m w p1 r p' Ha Haw Hh _ IH].
  - unfold again, countable in *. simpl in *. assert (t = 0) as -> by lia. split; [done|].
    exists (world s). split; [|by constructor]. unfold after_ticks, ticks_needed. simpl.
    rewrite app_nil_r, Z.add_0_r. by destruct s.
  - by rewrite timer_message_run in Hh.
  - rewrite timer_message_run, (awaits_ours _ _ _ _ Haw) in Hh.
    assert (ticked (set_the_world w p) = p1) as <- by congruence. clear Hh.
    unfold again in Ha. destruct (after_ticked p w (the_world p) Hc ltac:(lia))
      as (_ & Hc' & Hn & Hnn & Hw).
    destruct (IH Hc') as (-> & w' & -> & Hat). split; [done|]. exists w'. split.
    + destruct (after_ticked p w w' Hc ltac:(lia)) as (<- & _). done.
    + rewrite Hn, Z2Nat.inj_add, Nat.add_comm by lia. econstructor; [done|]. by rewrite Hw in Hat.
Qed.

Lemma runs_counting irq n : ∀ p w, countable p.2 (counter p.1) →
  n = Z.to_nat (ticks_needed p.2 (counter p.1)) → awaits_n (is_interrupt irq) n (the_world p) w →
  loop_runs again (timer_message irq) (is_interrupt irq) p None
    (after_ticks p.1 w p.2 (counter p.1 + ticks_needed p.2 (counter p.1)), 0).
Proof.
  induction n as [|n IH]; intros p w Hc Hn Hat; inversion Hat as [w0|n0 w0 m w1 w' Haw Hat']; subst.
  - assert (p.2 = 0) as E.
    { destruct (decide (p.2 = 0)); [done|]. unfold countable in Hc.
      destruct (ticks_needed_step p.2 (counter p.1)) as (? & ? & _); [done|lia|lia]. }
    destruct p as [s t]. simpl in *. subst t. unfold ticks_needed. simpl.
    replace (after_ticks _ _ _ _) with s; [by constructor|].
    unfold after_ticks. simpl. rewrite app_nil_r, Z.add_0_r. by destruct s.
  - assert (0 < p.2) as Ht.
    { unfold countable, ticks_needed in *. destruct (Z.eqb_spec p.2 0); lia. }
    destruct (after_ticked p w1 w Hc Ht) as (<- & Hc' & Hn' & Hnn & Hw).
    eapply runs_next with (m := m) (w := w1); [unfold again; lia|done|..].
    { by rewrite timer_message_run, (awaits_ours _ _ _ _ Haw). }
    apply IH; [done|lia|by rewrite Hw].
Qed.
End lemmas.

(** ** Properties *)
Section properties.
Context {W : Type} `{PortIO W} `{Interrupts W} `{TimerPrint W} `{Receive W}.
Import Spec.

Lemma counting_loop_iff irq time (s : lab W) r p' : countable time (counter s) →
  (∃ fuel, message_loop (λ p, p.2 >? 0) (timer_message irq) fuel (s, time) = Done (r, p')) ↔
  r = None ∧ ∃ w, p' = (after_ticks s w time (counter s + ticks_needed time (counter s)), 0) ∧
  awaits_n (is_interrupt irq) (Z.to_nat (ticks_needed time (counter s))) (world s) w.
Proof.
  intros Hc. rewrite (message_loop_iff (λ p, p.2 >? 0) (timer_message irq) (is_interrupt irq)); [|done|].
  - split; [by apply counting_runs|]. intros (-> & w & -> & Hat).
    eapply (runs_counting _ _ (s, time) w); done.
  - intros m p Hm. by rewrite timer_message_run, Hm.
Qed.

(** timer_test_int after a successful subscription. *)
Lemma timer_test_int_loop time (s : lab W) h w fuel :
  sys_irqsetpolicy TIMER0_IRQ IRQ_REENABLE (hook_id s) (world s) = ((0, h), w) →
  timer_test_int fuel time s =
    match message_loop (λ p, p.2 >? 0) (timer_message (u8 (hook_id s))) fuel
            (set_hook_id h (set_world w s), time) with
    | Done (Some rc, (s1, _)) => Done (rc, s1)
    | Done (None, (s1, _)) => (timer_unsubscribe ;? mret 0) s1
    | Undef => Undef
    | OutOfFuel => OutOfFuel
    end.
Proof.
  intros E. unfold timer_test_int. rewrite (run_done _ _ _ _ _ (timer_subscribe_run _ _ _ _ E)).
  unfold mbind, M_bind, with_locals. cbn [status Z.eqb negb].
  by destruct (message_loop _ _ _ _) as [[[] []]| |].
Qed.

Lemma timer_test_int_refused time (s : lab W) e h w fuel :
  sys_irqsetpolicy TIMER0_IRQ IRQ_REENABLE (hook_id s) (world s) = ((e, h), w) → e ≠ 0 →
  timer_test_int fuel time s = Done (1, set_hook_id h (set_world w s)).
Proof.
  intros E He. unfold timer_test_int. rewrite (run_done _ _ _ _ _ (timer_subscribe_run _ _ _ _ E)).
  unfold status. by destruct (Z.eqb_spec e 0).
Qed.

(** The loop followed by the end of the function, for the interrupts it needs. *)
Lemma timer_test_int_counted time (s : lab W) h w w1 e h' w' : countable time (counter s) →
  sys_irqsetpolicy TIMER0_IRQ IRQ_REENABLE (hook_id s) (world s) = ((0, h), w) →
  awaits_n (is_interrupt (u8 (hook_id s))) (Z.to_nat (ticks_needed time (counter s))) w w1 →
  sys_irqrmpolicy h w1 = ((e, h'), w') →
  ∃ fuel, timer_test_int fuel time s =
    Done (status e, set_hook_id h' (set_world w'
      (after_ticks (set_hook_id h s) w1 time (counter s + ticks_needed time (counter s))))).
Proof.
  intros Hc E Hat E2. set (s0 := set_hook_id h (set_world w s)).
  destruct (proj2 (counting_loop_iff (u8 (hook_id s)) time s0 None
    (after_ticks s0 w1 time (counter s + ticks_needed time (counter s)), 0) Hc)) as [fuel El];
    [split; [done|]; by exists w1|].
  exists fuel. rewrite (timer_test_int_loop _ _ _ _ _ E). fold s0. rewrite El.
  erewrite check_done by (by apply timer_unsubscribe_run). unfold status. by destruct (e =? 0).
Qed.

(** C38. timer_test_int(time) returns 1 when the subscription is refused; otherwise it ends exactly
    when the timer's interrupts have brought the counter past [time] multiples of 60 (that is
    [60 * time - counter % 60] interrupts, none for a time of 0), has then printed the elapsed time
    exactly [time] times, and returns the status of the unsubscription.  Other messages and
    failed receives change nothing. *)
Theorem timer_test_int_counts time (s s' : lab W) rc (Hc : countable time (counter s)) :
  (∃ fuel, timer_test_int fuel time s = Done (rc, s')) ↔ test_int time s rc s'.
Proof.
  destruct (sys_irqsetpolicy TIMER0_IRQ IRQ_REENABLE (hook_id s) (world s)) as [[e h] w] eqn:E.
  split.
  - intros [fuel Hf]. destruct (decide (e = 0)) as [->|He].
    + rewrite (timer_test_int_loop _ _ _ _ _ E) in Hf.
      set (s0 := set_hook_id h (set_world w s)) in *.
      destruct (message_loop _ _ fuel (s0, time)) as [[r [s1 t]]| |] eqn:El; [|done..].
      edestruct (proj1 (counting_loop_iff (u8 (hook_id s)) time s0 r (s1, t) Hc))
        as (-> & w1 & [= -> ->] & Hat); [by eauto|].
      destruct (sys_irqrmpolicy h w1) as [[e h'] w'] eqn:E2.
      erewrite check_done in Hf by (by apply timer_unsubscribe_run).
      pose proof (counted time s h w w1 e h' w' E Hat E2) as Hs. unfold status in *.
      destruct (e =? 0); cbn in Hf; by apply Done_inj in Hf as [<- <-].
    + rewrite (timer_test_int_refused _ _ _ _ _ _ E He) in Hf. apply Done_inj in Hf as [<- <-]. by eapply refused.
  - intros Hs. inversion Hs; subst; merge_calls.
    + exists 0%nat. by eapply timer_test_int_refused.
    + by eapply timer_test_int_counted.
Qed.

(** As long as the timer's interrupts keep coming, timer_test_int(time) returns for every time,
    whatever else is received in between. *)
Theorem timer_test_int_ends time (s : lab W) (Hc : countable time (counter s))
    (Hk : keeps_coming (W:=W) (is_interrupt (u8 (hook_id s)))) :
  ∃ fuel rc s', timer_test_int fuel time s = Done (rc, s') ∧ (rc = 0 ∨ rc = 1).
Proof.
  destruct (sys_irqsetpolicy TIMER0_IRQ IRQ_REENABLE (hook_id s) (world s)) as [[e h] w] eqn:E.
  destruct (decide (e = 0)) as [->|He].
  - destruct (awaits_n_exists _ (Z.to_nat (ticks_needed time (counter s))) w Hk) as [w1 Hw1].
    destruct (sys_irqrmpolicy h w1) as [[e h'] w'] eqn:E2.
    destruct (timer_test_int_counted _ _ _ _ _ _ _ _ Hc E Hw1 E2) as [fuel Hf].
    exists fuel. do 2 eexists. split; [exact Hf|]. unfold status. destruct (e =? 0); lia.
  - exists 0%nat. do 2 eexists. split; [by eapply timer_test_int_refused|lia].
Qed.
End properties.

(** ** Witnesses *)
Section witnesses.
Import Sim.

(** The framework prints, and the program ignores the answer. *)
#[local] Instance sim_timer_print : TimerPrint sim := {| timer_print_config := λ _ _ _ w, (0, w) |}.

(** A keyboard interrupt and two interrupts of the timer, with hook 0; the counter is at 58. *)
Definition ticking : sim :=
  MkSim [] [] 0 [] [hw_message 1; hw_message 2; hw_message 1] [] tiny_mode.
Definition at_58 : lab sim := Lab ticking 58 0 1 0 [].

Lemma timer_test_int_counts_witness :
  countable 1 (counter at_58) ∧
  Spec.test_int 1 at_58 0 (Lab (MkSim [] [] 0 [] [] [] tiny_mode) 60 0 1 0 [timer_print_elapsed_time]).
Proof.
  assert (countable 1 (counter at_58)) as Hc by (unfold countable; vm_compute; split_and!; done).
  split; [done|]. apply (timer_test_int_counts 1 at_58 _ 0 Hc). exists 10%nat. vm_compute. done.
Defined.
End witnesses.

(** *** A machine whose timer interrupts come for ever *)
Section clock_witness.
Import Clock.

#[local] Instance clock_print : TimerPrint unit := {| timer_print_config := λ _ _ _ w, (0, w) |}.

Lemma timer_test_int_ends_witness :
  ∃ fuel rc s', timer_test_int fuel 5 (lab_start tt) = Done (rc, s') ∧ (rc = 0 ∨ rc = 1).
Proof.
  apply timer_test_int_ends; [unfold countable; vm_compute; split_and!; done|].
  exact clock_keeps_coming.
Defined.
End clock_witness.
