(* ===== verification/Lab3.v ===== *)
(** * lab3: the keyboard's test programs

    kbd_test_scan, kbd_test_poll and kbd_test_timed_scan of lab3/lab3.c, over the drivers of
    [Keyboard] and [Timer] and the loop of [Events].

    The theorems relate each program to the sequence of bytes that the controller hands over
    ([scans], [polls], [waits]), of which the protocol of [Keyboard.Spec] is the single step: which
    bytes are printed, when the program ends, and how long the timed one waits.  [documented_output]
    is the call of kbd_print_scancode that lcom/lab3.h asks for, [scan_output] the one that is
    made. *)

From S2P Require Import Prelude Machine Utils Keyboard Timer Events LabState.

(** i8042.h: KB_MAKE_CODE is [BIT(7)]; the bit number. *)
Definition KB_MAKE_CODE_BIT : Z := 7.

Section operations.
Context {W : Type} `{PortIO W} `{Interrupts W} `{Receive W}.

(** The three lines after each read; the name [is_break] is the code's. *)
Definition print_scancode : M (lab W) unit :=
  sc ← gets scancode;
  let is_break := negb (has_bit sc KB_MAKE_CODE_BIT) in
  let size := if sc =? KB_TWO_BYTES then 2 else 1 in
  print (kbd_print_scancode is_break size [sc]).

Definition scan_message (irq_set : Z) (m : message) : M (lab W) (option Z) :=
  if from_hardware m then
    if irq_pending m irq_set then read_scancode;; print_scancode;; mret None
    else mret None
  else mret None.

Definition not_esc (s : lab W) : bool := negb (scancode s =? KB_BREAK_ESC).

Definition kbd_test_scan (fuel : nat) : M (lab W) Z :=
  '(rc, irq_set) ← kb_subscribe;
  if negb (rc =? 0) then mret 1 else
  r ← message_loop not_esc (scan_message irq_set) fuel;
  match r with
  | Some rc => mret rc
  | None => kb_unsubscribe ;? mret 0
  end.

(** The loop of kbd_test_poll; the fuel bounds the polls. *)
Fixpoint poll_loop (fuel : nat) : M (lab W) unit :=
  match fuel with
  | O => no_fuel
  | S fuel =>
      sc ← gets scancode;
      if negb (sc =? KB_BREAK_ESC) then
        '(rc, output) ← on_world (read_keyboard_output KEYBOARD_OUT_CMD (Some sc) 0);
        sc ← of_option output;
        modify (set_scancode sc);;
        (if rc =? 0 then print_scancode else skip);;
        poll_loop fuel
      else mret tt
  end.

Definition kbd_test_poll (fuel : nat) : M (lab W) Z :=
  poll_loop fuel;;
  on_world kb_restore_settings.

(** The second part of the state is the local [time_elapsed]. *)
Definition timed_message (irq_set_keyboard irq_set_timer : Z) (m : message)
    : M (lab W * Z) (option Z) :=
  if from_hardware m then
    (if irq_pending m irq_set_keyboard then
       on_globals read_scancode;; on_globals print_scancode;; modify (λ p, (p.1, 0))
     else skip);;
    if irq_pending m irq_set_timer then
      on_globals tick;;
      c ← on_globals (gets counter);
      if Z.rem c 60 =? 0 then modify (λ p, (p.1, i32 (p.2 + 1)));; mret None else mret None
    else mret None
  else mret None.

Definition kbd_test_timed_scan (fuel : nat) (n : Z) : M (lab W) Z :=
  '(rc, irq_set_keyboard) ← kb_subscribe;
  if negb (rc =? 0) then mret 1 else
  '(rc, irq_set_timer) ← timer_subscribe;
  if negb (rc =? 0) then mret 1 else
  r ← with_locals 0 (message_loop (λ p, not_esc p.1 && (p.2 <? n))
                       (timed_message irq_set_keyboard irq_set_timer) fuel);
  match r with
  | Some rc => mret rc
  | None => kb_unsubscribe ;? (timer_unsubscribe ;? mret 0)
  end.
End operations.

(** ** What the programs are for *)
Module Spec.
Import Keyboard.Spec.

(** The scancode after a read of the controller: a byte with an error flag is kept too. *)
Definition after_read (sc : Z) (r : reading) : Z :=
  match r with NoData | PortError => sc | Flagged v | Data v => v end.

(** lcom/lab3.h for a scancode of one byte: [make] for a make code, then its size and the bytes. *)
Definition documented_output (v : Z) : output :=
  kbd_print_scancode (negb (Z.testbit v 7)) 1 [v].

(** What the programs print: for the first byte of a two-byte scancode the size is 2, although
    there is one byte ([scan_output_documented], [scan_output_ok]). *)
Definition scan_output (sc : Z) : output :=
  kbd_print_scancode (negb (Z.testbit sc 7)) (if sc =? KB_TWO_BYTES then 2 else 1) [sc].

(** The call is given at least the bytes it is told to print. *)
Definition output_ok (o : output) : Prop :=
  match o with
  | timer_print_elapsed_time => True
  | kbd_print_scancode _ size bytes => size <= Z.of_nat (length bytes)
  end.

Section spec.
Context {W : Type} `{PortIO W} `{Interrupts W} `{Receive W}.

(** The keyboard's interrupts one by one, until the scancode is ESC's break code: the scancodes
    left by the handler. *)
Inductive scans (irq : Z) : Z → W → list Z → W → Prop :=
| scans_esc w : scans irq KB_BREAK_ESC w [] w
| scans_key sc w m w1 r w2 l w' :
    sc ≠ KB_BREAK_ESC → awaits (is_interrupt irq) w m w1 →
    reads KEYBOARD_OUT_CMD false 10 w1 r w2 → scans irq (after_read sc r) w2 l w' →
    scans irq sc w (after_read sc r :: l) w'.

(** The same where every read hands over a byte without an error: [l] are these bytes. *)
Inductive delivers (irq : Z) : Z → W → list Z → W → Prop :=
| delivers_esc w : delivers irq KB_BREAK_ESC w [] w
| delivers_key sc w m w1 v w2 l w' :
    sc ≠ KB_BREAK_ESC → awaits (is_interrupt irq) w m w1 →
    reads KEYBOARD_OUT_CMD false 10 w1 (Data v) w2 → delivers irq v w2 l w' →
    delivers irq sc w (v :: l) w'.

Inductive test_scan (s : lab W) : Z → lab W → Prop :=
| scan_refused rc h w :
    sys_irqsetpolicy KEYBOARD_IRQ (Z.lor IRQ_REENABLE IRQ_EXCLUSIVE) (kb_hook_id s) (world s)
      = ((rc, h), w) → rc ≠ 0 →
    test_scan s 1 (set_kb_hook_id h (set_world w s))
| scan_ended h w l w1 rc h' w' :
    sys_irqsetpolicy KEYBOARD_IRQ (Z.lor IRQ_REENABLE IRQ_EXCLUSIVE) (kb_hook_id s) (world s)
      = ((0, h), w) →
    scans (u8 (kb_hook_id s)) (scancode s) w l w1 →
    sys_irqrmpolicy h w1 = ((rc, h'), w') →
    test_scan s (status rc)
      (Lab w' (counter s) (hook_id s) h' KB_BREAK_ESC (printed s ++ (scan_output <$> l))).

(** The polls of the controller until ESC, with the bytes that came without an error. *)
Inductive polls : Z → W → list Z → W → Prop :=
| polls_esc w : polls KB_BREAK_ESC w [] w
| polls_read sc w r w1 l w' :
    sc ≠ KB_BREAK_ESC → reads KEYBOARD_OUT_CMD false 10 w r w1 →
    polls (after_read sc r) w1 l w' →
    polls sc w (match r with Data v => v :: l | _ => l end) w'.

(** One message that the timed program handles: the scancode that a keyboard interrupt left, if
    it had one, and whether it had a timer interrupt. *)
Record turn := Turn { key : option Z; ticks : bool }.

Definition either (irq_k irq_t : Z) (m : message) : bool :=
  is_interrupt irq_k m || is_interrupt irq_t m.

Inductive turn_of (irq_k irq_t sc : Z) (w : W) : turn → Z → W → Prop :=
| turn_key m w1 r w2 :
    awaits (either irq_k irq_t) w m w1 → is_interrupt irq_k m = true →
    reads KEYBOARD_OUT_CMD false 10 w1 r w2 →
    turn_of irq_k irq_t sc w (Turn (Some (after_read sc r)) (is_interrupt irq_t m))
      (after_read sc r) w2
| turn_tick m w1 :
    awaits (either irq_k irq_t) w m w1 → is_interrupt irq_k m = false →
    turn_of irq_k irq_t sc w (Turn None true) sc w1.

(** The seconds that a counter at [c] shows of the last [i] of its ticks: the multiples of 60 that
    it passed. *)
Definition seconds (c i : Z) : Z := c / 60 - (c - i) / 60.

(** The whole wait for ESC or for [n] seconds without a key, from the counter [c], [i] ticks after
    the last key and the scancode [sc]: it is over when the scancode is ESC's break code or [n]
    seconds have passed since the last key, and otherwise takes one more turn. *)
Inductive waits (irq_k irq_t n : Z) : Z → Z → Z → W → list turn → Z → W → Prop :=
| waits_over c i sc w :
    sc = KB_BREAK_ESC ∨ n <= seconds c i → waits irq_k irq_t n c i sc w [] sc w
| waits_more c i sc w t sc1 w1 l sc' w' :
    sc ≠ KB_BREAK_ESC → seconds c i < n → turn_of irq_k irq_t sc w t sc1 w1 →
    waits irq_k irq_t n (c + Z.b2z (ticks t))
      (match key t with Some _ => 0 | None => i end + Z.b2z (ticks t)) sc1 w1 l sc' w' →
    waits irq_k irq_t n c i sc w (t :: l) sc' w'.

(** The end of the program: both interrupts are given back, the timer's only if the keyboard's
    was taken. *)
Inductive unsubscribed (s : lab W) : Z → lab W → Prop :=
| unsubscribe_refused e hk w1 :
    sys_irqrmpolicy (kb_hook_id s) (world s) = ((e, hk), w1) → e ≠ 0 →
    unsubscribed s 1 (set_kb_hook_id hk (set_world w1 s))
| unsubscribe_both hk w1 e ht w2 :
    sys_irqrmpolicy (kb_hook_id s) (world s) = ((0, hk), w1) →
    sys_irqrmpolicy (hook_id s) w1 = ((e, ht), w2) →
    unsubscribed s (status e) (set_hook_id ht (set_kb_hook_id hk (set_world w2 s))).

Inductive turns (irq_k irq_t : Z) : Z → W → list turn → Z → W → Prop :=
| turns_none sc w : turns irq_k irq_t sc w [] sc w
| turns_more sc w t sc1 w1 l sc' w' :
    turn_of irq_k irq_t sc w t sc1 w1 → turns irq_k irq_t sc1 w1 l sc' w' →
    turns irq_k irq_t sc w (t :: l) sc' w'.
End spec.

(** The timer interrupts since the last key, when there were [i] before these messages. *)
Fixpoint idle (i : Z) (l : list turn) : Z :=
  match l with
  | [] => i
  | t :: l => idle (match key t with Some _ => 0 | None => i end + Z.b2z (ticks t)) l
  end.

Definition ticks_in (l : list turn) : Z := Z.of_nat (length (filter (λ t, Is_true (ticks t)) l)).
End Spec.

(** The deviation from the documented output, and what it costs. *)
Lemma scan_output_documented sc :
  Spec.scan_output sc = Spec.documented_output sc ↔ sc ≠ KB_TWO_BYTES.
Proof.
  unfold Spec.scan_output, Spec.documented_output.
  destruct (Z.eqb_spec sc KB_TWO_BYTES); split; intros; congruence || done.
Qed.

Lemma scan_outputs_documented l : Forall (λ v, v ≠ KB_TWO_BYTES) l →
  Spec.scan_output <$> l = Spec.documented_output <$> l.
Proof.
  induction 1 as [|v l Hv _ IH]; [done|]. rewrite !fmap_cons, IH.
  by rewrite (proj2 (scan_output_documented v) Hv).
Qed.

(** ** Reading and printing *)
Section reading.
Context {W : Type} `{PortIO W}.
Implicit Types s : lab W.
Import Keyboard.Spec Spec.

Definition a_byte (sc : Z) : Prop := 0 <= sc < 256.

Lemma after_read_byte sc port mouse n (w w' : W) r :
  a_byte sc → reads port mouse n w r w' → a_byte (after_read sc r).
Proof.
  intros Hsc Hr. apply reads_byte in Hr. destruct r; simpl in *; unfold a_byte in *; lia.
Qed.

Lemma kbc_ih_reads sc (w w' : W) r :
  reads KEYBOARD_OUT_CMD false 10 w r w' → kbc_ih sc w = Done (after_read sc r, w').
Proof.
  intros Hr. unfold kbc_ih, read_keyboard_output.
  pose proof (read_tries_reads _ _ _ sc 0 _ _ _ Hr) as E. cbn [negb] in E.
  erewrite run_done by exact E. by destruct r.
Qed.

Lemma read_scancode_reads s w' r :
  reads KEYBOARD_OUT_CMD false 10 (world s) r w' →
  read_scancode s = Done (tt, set_scancode (after_read (scancode s) r) (set_world w' s)).
Proof.
  intros Hr. unfold read_scancode, on_world, zoom. run_unfold.
  by rewrite (kbc_ih_reads _ _ _ _ Hr).
Qed.

Lemma print_scancode_run s :
  print_scancode s = Done (tt, add_printed [scan_output (scancode s)] s).
Proof.
  unfold print_scancode, scan_output, print, KB_MAKE_CODE_BIT. run_unfold.
  by rewrite has_bit_testbit by lia.
Qed.
End reading.

(** ** The loop of kbd_test_scan *)
Section scanning.
Context {W : Type} `{PortIO W} `{Interrupts W} `{Receive W}.
Implicit Types s : lab W.
Import Keyboard.Spec Spec.

(** The globals after one keyboard interrupt whose read ends with [r]. *)
Definition keyed (r : reading) (w : W) s : lab W :=
  let sc := after_read (scancode s) r in
  add_printed [scan_output sc] (set_scancode sc (set_world w s)).

(** The globals after the interrupts that left the scancodes [l]. *)
Definition scanned (l : list Z) (w : W) s : lab W :=
  Lab w (counter s) (hook_id s) (kb_hook_id s) KB_BREAK_ESC (printed s ++ (scan_output <$> l)).

Lemma scanned_keyed r l w w' s :
  scanned l w (keyed r w' s) = scanned (after_read (scancode s) r :: l) w s.
Proof. unfold scanned, keyed. cbn. by rewrite <- app_assoc. Qed.

Lemma scanned_esc s : scancode s = KB_BREAK_ESC → scanned [] (world s) s = s.
Proof. intros E. unfold scanned. cbn. rewrite <- E, app_nil_r. by destruct s. Qed.

Lemma scan_message_other irq m s :
  is_interrupt irq m = false → scan_message irq m s = Done (None, s).
Proof. unfold scan_message, is_interrupt. by destruct (from_hardware m), (irq_pending m irq). Qed.

Lemma scan_message_key irq m s r w :
  is_interrupt irq m = true → reads KEYBOARD_OUT_CMD false 10 (world s) r w →
  scan_message irq m s = Done (None, keyed r w s).
Proof.
  unfold scan_message, is_interrupt. intros Hm Hr.
  destruct (from_hardware m), (irq_pending m irq); try done.
  rewrite (run_done _ _ _ _ _ (read_scancode_reads _ _ _ Hr)).
  by rewrite (run_done _ _ _ _ _ (print_scancode_run _)).
Qed.

Lemma not_esc_spec s : not_esc s = true ↔ scancode s ≠ KB_BREAK_ESC.
Proof. unfold not_esc. destruct (Z.eqb_spec (scancode s) KB_BREAK_ESC); naive_solver. Qed.

(** A loop that reads a scancode at each interrupt of the keyboard: the handler leaves [after r w s]
    when its read ends with [r], and [ended l w s] is the state after reads that left [l]. *)
Section key_loop.
Variables (irq : Z) (handle : message → M (lab W) (option Z)).
Variables (after : reading → W → lab W → lab W) (ended : list Z → W → lab W → lab W).

Hypothesis other : ∀ m s, is_interrupt irq m = false → handle m s = Done (None, s).
Hypothesis key : ∀ m s r w, is_interrupt irq m = true →
  reads KEYBOARD_OUT_CMD false 10 (world s) r w → handle m s = Done (None, after r w s).
Hypothesis after_frame : ∀ r w w' s, scancode (after r w s) = after_read (scancode s) r ∧
  world (after r w s) = w ∧ after r w (set_world w' s) = after r w s.
Hypothesis ended_esc : ∀ s, scancode s = KB_BREAK_ESC → ended [] (world s) s = s.
Hypothesis ended_after : ∀ r l w w' s,
  ended l w (after r w' s) = ended (after_read (scancode s) r :: l) w s.

Lemma key_runs s r s' : loop_runs not_esc handle (is_interrupt irq) s r s' →
  r = None ∧ ∃ l w, scans irq (scancode s) (world s) l w ∧ s' = ended l w s.
Proof.
  induction 1 as [s Ha|s m w rc s' Ha Haw Hh|s m w s1 r s' Ha Haw Hh _ IH].
  - assert (scancode s = KB_BREAK_ESC) as E by (unfold not_esc in Ha; lia).
    split; [done|]. exists [], (world s). rewrite ended_esc by done. split; [|done].
    rewrite E. constructor.
  - destruct (reads_total KEYBOARD_OUT_CMD false 10 w) as (r & w' & Hr).
    erewrite key in Hh by (done || by eapply awaits_ours). done.
  - destruct (reads_total KEYBOARD_OUT_CMD false 10 w) as (r0 & w' & Hr).
    erewrite key in Hh by (done || by eapply awaits_ours).
    destruct (after_frame r0 w' w s) as (Hsc & Hw & E). cbn [set_the_world lab_has_world] in Hh.
    rewrite E in Hh. injection Hh as <-. destruct IH as (-> & l & w2 & Hs & ->). split; [done|].
    exists (after_read (scancode s) r0 :: l), w2. split; [|apply ended_after].
    rewrite Hsc, Hw in Hs. eapply scans_key; [by apply not_esc_spec|done..].
Qed.

Lemma runs_key sc w l w' : scans irq sc w l w' → ∀ s, scancode s = sc → world s = w →
  loop_runs not_esc handle (is_interrupt irq) s None (ended l w' s).
Proof.
  induction 1 as [w|sc w m w1 r w2 l w' Hsc Haw Hr _ IH]; intros s Esc Ew.
  - rewrite <- Ew, ended_esc by done. constructor. unfold not_esc. by rewrite Esc.
  - subst sc w. destruct (after_frame r w2 w1 s) as (Hsc' & Hw & E).
    eapply runs_next; [by apply not_esc_spec|done|..].
    + apply key; [by eapply awaits_ours|done].
    + cbn [set_the_world lab_has_world]. rewrite E, <- (ended_after r l w' w2). by apply IH.
Qed.

Lemma key_loop_iff s r s' : (∃ fuel, message_loop not_esc handle fuel s = Done (r, s')) ↔
  r = None ∧ ∃ l w, scans irq (scancode s) (world s) l w ∧ s' = ended l w s.
Proof.
  rewrite (message_loop_iff not_esc handle (is_interrupt irq)) by (done || exact other).
  split; [apply key_runs|]. intros (-> & l & w & Hs & ->). by eapply runs_key.
Qed.
End key_loop.

Lemma scan_loop_iff irq s r s' :
  (∃ fuel, message_loop not_esc (scan_message irq) fuel s = Done (r, s')) ↔
  r = None ∧ ∃ l w, scans irq (scancode s) (world s) l w ∧ s' = scanned l w s.
Proof.
  apply (key_loop_iff irq (scan_message irq) keyed scanned); intros.
  - by apply scan_message_other.
  - by apply scan_message_key.
  - by split_and!.
  - by apply scanned_esc.
  - apply scanned_keyed.
Qed.

(** *** kbd_test_poll *)

Lemma poll_loop_turn fuel s r w : scancode s ≠ KB_BREAK_ESC →
  reads KEYBOARD_OUT_CMD false 10 (world s) r w →
  poll_loop (S fuel) s = poll_loop fuel
    (match r with Data _ => keyed r w s
     | _ => set_scancode (after_read (scancode s) r) (set_world w s) end).
Proof.
  intros Hsc Hr. cbn [poll_loop]. rewrite (run_done (gets scancode) _ s _ s eq_refl).
  destruct (Z.eqb_spec (scancode s) KB_BREAK_ESC); [done|]. cbn [negb].
  pose proof (read_tries_reads _ _ _ (scancode s) 0 _ _ _ Hr) as E. cbn [negb] in E.
  unfold read_keyboard_output. erewrite run_done by (unfold on_world, zoom; by rewrite E).
  destruct r; cbn [read_result]; rewrite run_some, run_modify; cbn [Z.eqb]; try done.
  erewrite (run_done (print_scancode)) by apply print_scancode_run. done.
Qed.

Lemma poll_loop_polls fuel : ∀ s s', poll_loop fuel s = Done (tt, s') →
  ∃ l w, polls (scancode s) (world s) l w ∧ s' = scanned l w s.
Proof.
  induction fuel as [|fuel IH]; intros s s' Hr; [done|].
  destruct (decide (scancode s = KB_BREAK_ESC)) as [E|Hsc].
  - cbn [poll_loop] in Hr. rewrite (run_done (gets scancode) _ s _ s eq_refl), E in Hr.
    injection Hr as <-. exists [], (world s). rewrite E, scanned_esc by done. split; [constructor|done].
  - destruct (reads_total KEYBOARD_OUT_CMD false 10 (world s)) as (r & w & Hw).
    rewrite (poll_loop_turn _ _ _ _ Hsc Hw) in Hr.
    apply IH in Hr as (l & w' & Hp & ->).
    exists (match r with Data v => v :: l | _ => l end), w'. split.
    + eapply polls_read; [done..|]. by destruct r.
    + destruct r; [done..|]. by rewrite scanned_keyed.
Qed.

Lemma polls_poll_loop sc w l w' : polls sc w l w' → ∀ s, scancode s = sc → world s = w →
  ∃ fuel, poll_loop fuel s = Done (tt, scanned l w' s).
Proof.
  induction 1 as [w|sc w r w1 l w' Hsc Hr _ IH]; intros s Esc Ew.
  - exists 1%nat. cbn [poll_loop]. rewrite (run_done (gets scancode) _ s _ s eq_refl), Esc.
    rewrite <- Ew. by rewrite scanned_esc.
  - subst sc w. edestruct (IH (match r with Data _ => keyed r w1 s
      | _ => set_scancode (after_read (scancode s) r) (set_world w1 s) end)) as [fuel Hf];
      [by destruct r..|].
    exists (S fuel). rewrite (poll_loop_turn _ _ _ _ Hsc Hr), Hf.
    destruct r; [done..|]. by rewrite scanned_keyed.
Qed.
End scanning.

(** ** The loop of kbd_test_timed_scan *)
Section timed.
Context {W : Type} `{PortIO W} `{Interrupts W} `{Receive W}.
Implicit Types p : lab W * Z.
Import Keyboard.Spec Spec.

Definition after_key (r : reading) (w : W) p : lab W * Z := (keyed r w p.1, 0).
Definition after_tick p : lab W * Z :=
  let c := timer_int_handler (counter p.1) in
  (set_counter c p.1, if Z.rem c 60 =? 0 then i32 (p.2 + 1) else p.2).

Lemma timed_message_run irq_k irq_t m p r w :
  (is_interrupt irq_k m = true → reads KEYBOARD_OUT_CMD false 10 (world p.1) r w) →
  timed_message irq_k irq_t m p =
    let p := if is_interrupt irq_k m then after_key r w p else p in
    Done (None, if is_interrupt irq_t m then after_tick p else p).
Proof.
  unfold timed_message, is_interrupt. intros Hr. destruct p as [s te].
  destruct (from_hardware m); [|done]. cbn [andb] in *.
  assert ((if irq_pending m irq_k then
       on_globals read_scancode;; on_globals print_scancode;; modify (λ p, (p.1, 0))
     else skip) (s, te) =
     Done (tt, if irq_pending m irq_k then after_key r w (s, te) else (s, te))) as E.
  { destruct (irq_pending m irq_k); [|done].
    erewrite run_done by (unfold on_globals, zoom; by rewrite (read_scancode_reads _ _ _ (Hr eq_refl))).
    erewrite run_done by (unfold on_globals, zoom; by rewrite print_scancode_run). done. }
  rewrite (run_done _ _ _ _ _ E).
  destruct (irq_pending m irq_k), (irq_pending m irq_t); try done.
  all: unfold on_globals, tick, after_tick, after_key, zoom; run_unfold; cbn.
  all: by destruct (Z.rem _ 60 =? 0).
Qed.

(** [time_elapsed] counts the multiples of 60 that the counter passed in the [i] interrupts since
    the last key. *)
Definition waiting (n i : Z) p : Prop :=
  let c := counter p.1 in
  0 <= n < 256 ∧ 0 <= i <= 60 * n ∧ i <= c ∧ p.2 = seconds c i ∧ p.2 <= n.

Lemma waiting_nonneg n i p : waiting n i p → 0 <= p.2.
Proof. unfold waiting, seconds. intros (? & ? & ? & -> & _). Z.to_euclidean_division_equations. lia. Qed.

Lemma waiting_key n i p r w : waiting n i p → waiting n 0 (after_key r w p).
Proof. unfold waiting, seconds. cbn. rewrite Z.sub_0_r. intros. split_and!; lia. Qed.

Lemma waiting_tick n i p : waiting n i p → p.2 < n → counter p.1 + 1 < 2 ^ 31 →
  waiting n (i + 1) (after_tick p) ∧ counter (after_tick p).1 = counter p.1 + 1.
Proof.
  intros Hw. pose proof (waiting_nonneg _ _ _ Hw). revert Hw.
  unfold waiting, seconds, after_tick, timer_int_handler. cbn. intros (Hn & Hi & Hic & Ht & Hle) Hlt Hc.
  rewrite i32_small by lia. rewrite Z.rem_mod_nonneg by lia. split; [|done].
  destruct (Z.eqb_spec ((counter p.1 + 1) mod 60) 0); rewrite ?i32_small by lia;
    Z.to_euclidean_division_equations; split_and!; lia.
Qed.

(** The condition of the loop. *)
Definition still (n : Z) p : bool := not_esc p.1 && (p.2 <? n).

(** One turn of the loop: the message it handles and the state it leaves. *)
Definition after_turn (t : turn) (r : reading) (w : W) p : lab W * Z :=
  let p := match key t with Some _ => after_key r w p | None => (set_world w p.1, p.2) end in
  if ticks t then after_tick p else p.

Lemma timed_turn irq_k irq_t m w p : awaits (either irq_k irq_t) (world p.1) m w →
  ∃ t r w1, turn_of irq_k irq_t (scancode p.1) (world p.1) t (scancode (after_turn t r w1 p).1) w1 ∧
    timed_message irq_k irq_t m (set_the_world w p) = Done (None, after_turn t r w1 p) ∧
    key t = (_ ← key t; Some (after_read (scancode p.1) r)).
Proof.
  intros Haw. pose proof (awaits_ours _ _ _ _ Haw) as Hm. unfold either in Hm.
  destruct (is_interrupt irq_k m) eqn:Ek.
  - destruct (reads_total KEYBOARD_OUT_CMD false 10 w) as (r & w1 & Hr).
    exists (Turn (Some (after_read (scancode p.1) r)) (is_interrupt irq_t m)), r, w1. split_and!.
    + pose proof (turn_key irq_k irq_t (scancode p.1) (world p.1) m w r w1 Haw Ek Hr) as Ht.
      unfold after_turn. cbn [ticks key]. by destruct (is_interrupt irq_t m).
    + rewrite (timed_message_run _ _ _ _ r w1) by done. by rewrite Ek.
    + done.
  - exists (Turn None true), NoData, w. split_and!; [by eapply turn_tick| |done].
    rewrite (timed_message_run _ _ _ _ NoData w) by (by rewrite Ek).
    simpl in Hm. by rewrite Ek, Hm.
Qed.

(** What a turn does to the time waited, and to everything else. *)
Lemma after_turn_waiting n i t r w p : waiting n i p → p.2 < n →
  counter p.1 + Z.b2z (ticks t) < 2 ^ 31 →
  waiting n (match key t with Some _ => 0 | None => i end + Z.b2z (ticks t)) (after_turn t r w p) ∧
  counter (after_turn t r w p).1 = counter p.1 + Z.b2z (ticks t).
Proof.
  intros Hw Hlt Hc. pose proof (waiting_nonneg _ _ _ Hw). unfold after_turn.
  assert (waiting n (match key t with Some _ => 0 | None => i end)
    (match key t with Some _ => after_key r w p | None => (set_world w p.1, p.2) end)) as Hw1.
  { destruct (key t); [by eapply waiting_key|done]. }
  destruct (ticks t); cbn [Z.b2z] in *.
  - destruct (waiting_tick _ _ _ Hw1) as [? Hcc];
      [destruct (key t); cbn in *; lia|by destruct (key t)|].
    split; [done|]. rewrite Hcc. by destruct (key t).
  - rewrite !Z.add_0_r. split; [done|]. by destruct (key t).
Qed.
Lemma after_turn_frame t r w p :
  key t = (_ ← key t; Some (after_read (scancode p.1) r)) →
  let s := (after_turn t r w p).1 in
  world s = w ∧ hook_id s = hook_id p.1 ∧ kb_hook_id s = kb_hook_id p.1 ∧
  printed s = printed p.1 ++ (scan_output <$> option_list (key t)).
Proof.
  intros Hk. unfold after_turn. destruct t as [[k|] []]; simplify_eq/=; by rewrite ?app_nil_r.
Qed.

(** The globals [s] after the turns [l], that left the scancode [sc] and the machine [w]. *)
Definition waited (l : list turn) (sc : Z) (w : W) (s : lab W) : lab W :=
  Lab w (counter s + ticks_in l) (hook_id s) (kb_hook_id s) sc
    (printed s ++ (scan_output <$> omap key l)).

Lemma waited_turn t r w p l sc w' :
  key t = (_ ← key t; Some (after_read (scancode p.1) r)) →
  counter (after_turn t r w p).1 = counter p.1 + Z.b2z (ticks t) →
  waited l sc w' (after_turn t r w p).1 = waited (t :: l) sc w' p.1.
Proof.
  intros Hk Hc. destruct (after_turn_frame t r w p Hk) as (_ & Hh & Hkh & Hp).
  unfold waited. rewrite Hc, Hh, Hkh, Hp. f_equal.
  - unfold ticks_in. rewrite filter_cons. destruct t as [k []]; cbn [ticks Z.b2z].
    + rewrite decide_True by done. cbn [length]. lia.
    + rewrite decide_False by auto. lia.
  - rewrite <- app_assoc. f_equal. cbn [omap list_omap]. by destruct (key t).
Qed.

Lemma ticks_in_cons t l : ticks_in (t :: l) = Z.b2z (ticks t) + ticks_in l ∧ 0 <= ticks_in l.
Proof.
  unfold ticks_in. rewrite filter_cons. destruct t as [k []]; cbn [ticks Z.b2z].
  - rewrite decide_True by done. cbn [length]. lia.
  - rewrite decide_False by auto. lia.
Qed.

Lemma still_spec n p :
  (still n p = true ↔ scancode p.1 ≠ KB_BREAK_ESC ∧ p.2 < n) ∧
  (still n p = false ↔ scancode p.1 = KB_BREAK_ESC ∨ n <= p.2).
Proof.
  unfold still, not_esc. destruct (Z.eqb_spec (scancode p.1) KB_BREAK_ESC), (Z.ltb_spec p.2 n); simpl;
    split; split; intros; (done || lia || (by destruct_and?; lia) || auto).
Qed.

Lemma waited_nil p : waited [] (scancode p.1) (world p.1) p.1 = p.1.
Proof. unfold waited, ticks_in. cbn. rewrite Z.add_0_r, app_nil_r. by destruct p as [[] ?]. Qed.

(** How long the wait was, when it is over. *)
Lemma wait_bounds n i p : waiting n i p → n <= p.2 → i <= 60 * n ∧ 60 * (n - 1) < i.
Proof.
  unfold waiting, seconds. intros (? & ? & ? & Ht & ?) ?. split; [lia|].
  Z.to_euclidean_division_equations. lia.
Qed.

Lemma timed_runs irq_k irq_t n p r p' :
  loop_runs (still n) (timed_message irq_k irq_t) (either irq_k irq_t) p r p' →
  r = None ∧ ∃ l sc w, turns irq_k irq_t (scancode p.1) (world p.1) l sc w ∧
  ∀ i, waiting n i p → counter p.1 + ticks_in l < 2 ^ 31 →
    waits irq_k irq_t n (counter p.1) i (scancode p.1) (world p.1) l sc w ∧
    p'.1 = waited l sc w p.1 ∧ idle i l <= 60 * n ∧ (sc = KB_BREAK_ESC ∨ 60 * (n - 1) < idle i l).
Proof.
  induction 1 as [p Ha|p m w rc p' Ha Haw Hh|p m w p1 r p' Ha Haw Hh _ IH].
  - split; [done|]. exists [], (scancode p.1), (world p.1). split; [constructor|].
    intros i Hw _. apply still_spec in Ha. rewrite waited_nil. cbn [idle].
    pose proof Hw as (_ & ? & _ & Ht & _). split_and!; [|done|lia|].
    + constructor. by rewrite <- Ht.
    + destruct Ha as [?|Ha]; [by left|right]. by apply (wait_bounds n i p Hw).
  - destruct (timed_turn irq_k irq_t m w p Haw) as (t & r & w1 & _ & E & _). congruence.
  - destruct (timed_turn irq_k irq_t m w p Haw) as (t & r0 & w1 & Ht & E & Hk).
    assert (p1 = after_turn t r0 w1 p) as -> by congruence. clear Hh E.
    destruct IH as (-> & l & sc & w2 & Hl & IH). split; [done|].
    destruct (after_turn_frame t r0 w1 p Hk) as (Hw1 & _). rewrite Hw1 in Hl, IH.
    exists (t :: l), sc, w2. split; [by eapply turns_more|].
    intros i Hw Hc. destruct (ticks_in_cons t l) as [Etc ?]. rewrite Etc in Hc.
    apply still_spec in Ha as [Hsc Hlt].
    destruct (after_turn_waiting n i t r0 w1 p Hw Hlt ltac:(lia)) as [Hw' Hc'].
    destruct (IH _ Hw' ltac:(lia)) as (Hwl & -> & Hidle). split; [|split; [by apply waited_turn|exact Hidle]].
    rewrite Hc' in Hwl. eapply waits_more; [done| |done|done]. by destruct Hw as (_ & _ & _ & <- & _).
Qed.

(** A turn of the specification is a turn of the loop. *)
Lemma turn_run irq_k irq_t t sc1 w1 p :
  turn_of irq_k irq_t (scancode p.1) (world p.1) t sc1 w1 →
  ∃ m w r, awaits (either irq_k irq_t) (world p.1) m w ∧
    timed_message irq_k irq_t m (set_the_world w p) = Done (None, after_turn t r w1 p) ∧
    scancode (after_turn t r w1 p).1 = sc1 ∧
    key t = (_ ← key t; Some (after_read (scancode p.1) r)).
Proof.
  intros Ht. inversion Ht as [m w r w2 Haw Hm Hr|m w Haw Hm]; subst.
  - exists m, w, r. split; [done|]. rewrite (timed_message_run _ _ _ _ r w1) by done. rewrite Hm.
    split_and!; [by destruct (is_interrupt irq_t m)| |done].
    unfold after_turn. cbn [ticks key]. by destruct (is_interrupt irq_t m).
  - exists m, w1, NoData. pose proof (awaits_ours _ _ _ _ Haw) as Ho. unfold either in Ho. rewrite Hm in Ho.
    rewrite (timed_message_run _ _ _ _ NoData w1) by (by rewrite Hm). rewrite Hm.
    simpl in Ho. by rewrite Ho.
Qed.

Lemma waits_runs irq_k irq_t n c i sc w l sc' w' : waits irq_k irq_t n c i sc w l sc' w' →
  ∀ p, scancode p.1 = sc → world p.1 = w → counter p.1 = c → waiting n i p → c + ticks_in l < 2 ^ 31 →
  ∃ p', loop_runs (still n) (timed_message irq_k irq_t) (either irq_k irq_t) p None p' ∧
    p'.1 = waited l sc' w' p.1.
Proof.
  induction 1 as [c i sc w Hend|c i sc w t sc1 w1 l sc' w' Hsc Hlt Ht _ IH];
    intros p Esc Ew Ec Hw Hc; subst sc w c; pose proof Hw as (_ & _ & _ & Hs & _); rewrite <- Hs in *.
  - exists p. split; [|by rewrite waited_nil]. constructor. by apply still_spec.
  - destruct (turn_run _ _ _ _ _ p Ht) as (m & w & r & Haw & E & Hsc1 & Hk).
    destruct (ticks_in_cons t l) as [Etc ?]. rewrite Etc in Hc.
    destruct (after_turn_waiting n i t r w1 p Hw Hlt ltac:(lia)) as [Hw' Hc'].
    destruct (after_turn_frame t r w1 p Hk) as (Hw1 & _).
    destruct (IH _ Hsc1 Hw1 Hc' Hw' ltac:(lia)) as (p' & Hr & Hp'). exists p'. split.
    + eapply runs_next; [by apply still_spec|exact Haw|exact E|exact Hr].
    + rewrite Hp'. by apply waited_turn.
Qed.
End timed.

(** ** Properties *)
Section properties.
Context {W : Type} `{PortIO W} `{Interrupts W} `{Receive W}.
Import Keyboard.Spec Spec.

(** kbd_print_scancode is given the scancode in an array of one byte: it is told to print a byte
    that is not there exactly for the first byte of a two-byte scancode. *)
Lemma scan_output_ok sc : output_ok (scan_output sc) ↔ sc ≠ KB_TWO_BYTES.
Proof. simpl. destruct (Z.eqb_spec sc KB_TWO_BYTES); naive_solver lia. Qed.

Lemma kbd_test_scan_loop (s : lab W) h w fuel :
  sys_irqsetpolicy KEYBOARD_IRQ (Z.lor IRQ_REENABLE IRQ_EXCLUSIVE) (kb_hook_id s) (world s)
    = ((0, h), w) →
  kbd_test_scan fuel s =
    match message_loop not_esc (scan_message (u8 (kb_hook_id s))) fuel
            (set_kb_hook_id h (set_world w s)) with
    | Done (Some rc, s1) => Done (rc, s1)
    | Done (None, s1) => (kb_unsubscribe ;? mret 0) s1
    | Undef => Undef
    | OutOfFuel => OutOfFuel
    end.
Proof.
  intros E. unfold kbd_test_scan. rewrite (run_done _ _ _ _ _ (kb_subscribe_run _ _ _ _ E)).
  cbn [status Z.eqb negb]. unfold mbind at 1, M_bind at 1.
  by destruct (message_loop _ _ _ _) as [[[] ]| |].
Qed.

Lemma kbd_test_scan_refused (s : lab W) e h w fuel :
  sys_irqsetpolicy KEYBOARD_IRQ (Z.lor IRQ_REENABLE IRQ_EXCLUSIVE) (kb_hook_id s) (world s)
    = ((e, h), w) → e ≠ 0 →
  kbd_test_scan fuel s = Done (1, set_kb_hook_id h (set_world w s)).
Proof.
  intros E He. unfold kbd_test_scan. rewrite (run_done _ _ _ _ _ (kb_subscribe_run _ _ _ _ E)).
  unfold status. by destruct (Z.eqb_spec e 0).
Qed.

Lemma kbd_test_scan_iff (s s' : lab W) rc :
  (∃ fuel, kbd_test_scan fuel s = Done (rc, s')) ↔ test_scan s rc s'.
Proof.
  destruct (sys_irqsetpolicy KEYBOARD_IRQ (Z.lor IRQ_REENABLE IRQ_EXCLUSIVE) (kb_hook_id s) (world s))
    as [[e h] w] eqn:E. set (s0 := set_kb_hook_id h (set_world w s)). split.
  - intros [fuel Hf]. destruct (decide (e = 0)) as [->|He].
    + rewrite (kbd_test_scan_loop _ _ _ _ E) in Hf. fold s0 in Hf.
      destruct (message_loop _ _ fuel s0) as [[r s1]| |] eqn:El; [|done..].
      edestruct (proj1 (scan_loop_iff (u8 (kb_hook_id s)) s0 r s1)) as (-> & l & w1 & Hl & ->);
        [by eauto|].
      destruct (sys_irqrmpolicy h w1) as [[e h'] w'] eqn:E2.
      erewrite check_done in Hf by (by apply kb_unsubscribe_run).
      pose proof (scan_ended s h w l w1 e h' w' E Hl E2) as Hs. unfold status in *.
      destruct (e =? 0); cbn in Hf; by apply Done_inj in Hf as [<- <-].
    + rewrite (kbd_test_scan_refused _ _ _ _ _ E He) in Hf. apply Done_inj in Hf as [<- <-].
      by eapply scan_refused.
  - intros Hs. inversion Hs as [? ? ? ? He|h0 w0 l w1 e1 h' w' ? Hl E2]; subst; merge_calls.
    + exists 0%nat. by eapply kbd_test_scan_refused.
    + destruct (proj2 (scan_loop_iff (u8 (kb_hook_id s)) s0 None (scanned l w1 s0))) as [fuel El];
        [split; [done|]; by exists l, w1|].
      exists fuel. rewrite (kbd_test_scan_loop _ _ _ _ E). fold s0. rewrite El.
      erewrite check_done by (by apply kb_unsubscribe_run). unfold status. by destruct (e1 =? 0).
Qed.

(** Bytes without errors are scancodes that the handler leaves. *)
Lemma delivers_scans irq sc (w : W) l w' : delivers irq sc w l w' → scans irq sc w l w'.
Proof.
  induction 1 as [w|sc w m w1 v w2 l w' Hsc Hm Hr _ IH]; [constructor|].
  exact (scans_key irq sc w m w1 (Data v) w2 l w' Hsc Hm Hr IH).
Qed.

(** C39. kbd_test_scan returns 1 when the subscription is refused; otherwise it ends exactly when the
    keyboard's interrupts have left ESC's break code in the scancode, has made one call of
    kbd_print_scancode after every interrupt, in order, and returns the status of the
    unsubscription.  When the subscription is granted and every interrupt hands over a byte
    without an error, none of them 0xE0, until ESC's break code, it returns and these calls are the
    documented ones: one byte, the byte handed over, as a make code exactly when its bit 7 is
    clear.  Elsewhere the code deviates, and [test_scan] says how: after a read that failed or was
    flagged, the old or the corrupt scancode is printed, and for 0xE0 the call announces two bytes
    of the one it is given. *)
Theorem kbd_test_scan_prints (s : lab W) :
  (∀ rc s', (∃ fuel, kbd_test_scan fuel s = Done (rc, s')) ↔ test_scan s rc s') ∧
  (∀ h w l w1,
     sys_irqsetpolicy KEYBOARD_IRQ (Z.lor IRQ_REENABLE IRQ_EXCLUSIVE) (kb_hook_id s) (world s)
       = ((0, h), w) →
     delivers (u8 (kb_hook_id s)) (scancode s) w l w1 → Forall (λ v, v ≠ KB_TWO_BYTES) l →
     ∃ fuel rc s', kbd_test_scan fuel s = Done (rc, s') ∧
       scancode s' = KB_BREAK_ESC ∧ printed s' = printed s ++ (documented_output <$> l)).
Proof.
  split; [intros rc s'; apply kbd_test_scan_iff|]. intros h w l w1 E Hl Hbytes.
  destruct (sys_irqrmpolicy h w1) as [[e h'] w'] eqn:E2.
  pose proof (scan_ended s h w l w1 e h' w' E (delivers_scans _ _ _ _ _ Hl) E2) as Hs.
  apply kbd_test_scan_iff in Hs as [fuel Hf]. do 3 eexists. split; [exact Hf|]. split; [done|]. simpl.
  by rewrite scan_outputs_documented.
Qed.

(** kbd_test_poll ends exactly when polling the controller has left ESC's break code in the
    scancode; it prints the bytes that came without an error and no others, and returns what
    restoring the controller's interrupts returns. *)
Theorem kbd_test_poll_prints (s s' : lab W) rc :
  (∃ fuel, kbd_test_poll fuel s = Done (rc, s')) ↔
  ∃ l w w', polls (scancode s) (world s) l w ∧ kb_restore_settings w = Done (rc, w') ∧
    s' = Lab w' (counter s) (hook_id s) (kb_hook_id s) KB_BREAK_ESC
           (printed s ++ (scan_output <$> l)).
Proof.
  unfold kbd_test_poll. split.
  - intros [fuel Hf]. unfold mbind, M_bind in Hf.
    destruct (poll_loop fuel s) as [[[] s1]| |] eqn:El; [|done..].
    apply poll_loop_polls in El as (l & w & Hl & ->). unfold on_world, zoom in Hf. simpl in Hf.
    destruct (kb_restore_settings w) as [[rc' w']| |] eqn:Er; [|done..].
    apply Done_inj in Hf as [<- <-]. by exists l, w, w'.
  - intros (l & w & w' & Hl & Hr & ->). edestruct polls_poll_loop as [fuel Hf]; [done..|].
    exists fuel. rewrite (run_done _ _ _ _ _ Hf). unfold on_world, zoom. simpl. by rewrite Hr.
Qed.
End properties.

(** ** The timed program *)
Section timed_properties.
Context {W : Type} `{PortIO W} `{Interrupts W} `{Receive W}.
Import Keyboard.Spec Spec.

(** Both subscriptions are granted, with the hooks [hk] and [ht]. *)
Definition subscribed (s : lab W) (hk ht : Z) (w : W) : Prop := ∃ w0,
  sys_irqsetpolicy KEYBOARD_IRQ (Z.lor IRQ_REENABLE IRQ_EXCLUSIVE) (kb_hook_id s) (world s)
    = ((0, hk), w0) ∧
  sys_irqsetpolicy TIMER0_IRQ IRQ_REENABLE (hook_id s) w0 = ((0, ht), w).

Definition irq_k (s : lab W) : Z := u8 (kb_hook_id s).
Definition irq_t (s : lab W) : Z := u8 (hook_id s).

(** The state in which the loop of kbd_test_timed_scan starts. *)
Definition subscribed_state (s : lab W) (hk ht : Z) (w : W) : lab W :=
  set_hook_id ht (set_kb_hook_id hk (set_world w s)).

Lemma kbd_test_timed_scan_loop n (s : lab W) hk ht w fuel : subscribed s hk ht w →
  kbd_test_timed_scan fuel n s =
    match message_loop (still n) (timed_message (irq_k s) (irq_t s)) fuel
            (subscribed_state s hk ht w, 0) with
    | Done (Some rc, (s1, _)) => Done (rc, s1)
    | Done (None, (s1, _)) => (kb_unsubscribe ;? (timer_unsubscribe ;? mret 0)) s1
    | Undef => Undef
    | OutOfFuel => OutOfFuel
    end.
Proof.
  intros (w0 & E1 & E2). unfold kbd_test_timed_scan.
  rewrite (run_done _ _ _ _ _ (kb_subscribe_run _ _ _ _ E1)). cbn [status Z.eqb negb].
  rewrite (run_done _ _ _ _ _ (timer_subscribe_run (set_kb_hook_id hk (set_world w0 s)) _ _ _ E2)).
  cbn [status Z.eqb negb]. unfold mbind at 1, M_bind at 1, with_locals.
  change (λ p : lab W * Z, not_esc p.1 && (p.2 <? n)) with (still (W:=W) n).
  change (set_hook_id ht (set_world w (set_kb_hook_id hk (set_world w0 s))))
    with (subscribed_state s hk ht w).
  change (u8 (hook_id (set_kb_hook_id hk (set_world w0 s)))) with (irq_t s).
  fold (irq_k s). by destruct (message_loop _ _ _ _) as [[[] []]| |].
Qed.

(** The end of the program. *)
Lemma unsubscribed_run (s : lab W) rc s' :
  (kb_unsubscribe ;? (timer_unsubscribe ;? mret 0)) s = Done (rc, s') ↔ unsubscribed s rc s'.
Proof.
  destruct (sys_irqrmpolicy (kb_hook_id s) (world s)) as [[e1 hk] w1] eqn:E1.
  rewrite (check_done _ _ _ _ _ (kb_unsubscribe_run _ _ _ _ E1)). unfold status.
  destruct (Z.eqb_spec e1 0) as [->|He1]; cbn [Z.eqb].
  - destruct (sys_irqrmpolicy (hook_id s) w1) as [[e2 ht] w2] eqn:E2.
    rewrite (check_done _ _ _ _ _ (timer_unsubscribe_run (set_kb_hook_id hk (set_world w1 s)) _ _ _ E2)).
    pose proof (unsubscribe_both s hk w1 e2 ht w2 E1 E2) as Hu. unfold status in *. split.
    + intros Hr. destruct (e2 =? 0); by apply Done_inj in Hr as [<- <-].
    + intros Hs. inversion Hs; subst; merge_calls; try done. unfold status. by destruct (_ =? 0).
  - split; [intros [<- <-]%Done_inj; by eapply unsubscribe_refused|].
    intros Hs. inversion Hs; subst; merge_calls; done.
Qed.

Lemma unsubscribe_run (s : lab W) : ∃ rc s',
  (kb_unsubscribe ;? (timer_unsubscribe ;? mret 0)) s = Done (rc, s') ∧ (rc = 0 ∨ rc = 1).
Proof.
  destruct (sys_irqrmpolicy (kb_hook_id s) (world s)) as [[e1 hk] w1] eqn:E1.
  destruct (sys_irqrmpolicy (hook_id s) w1) as [[e2 ht] w2] eqn:E2.
  destruct (Z.eq_dec e1 0) as [->|He1]; do 2 eexists.
  - split; [by apply unsubscribed_run, (unsubscribe_both s hk w1 e2 ht w2)|].
    unfold status. destruct (e2 =? 0); lia.
  - split; [by apply unsubscribed_run, (unsubscribe_refused s e1 hk w1)|lia].
Qed.

Lemma timed_other ik it m (p : lab W * Z) :
  either ik it m = false → timed_message ik it m p = Done (None, p).
Proof.
  unfold either. intros [Hk Ht]%orb_false_iff.
  rewrite (timed_message_run _ _ _ _ NoData (world p.1)) by (by rewrite Hk). by rewrite Hk, Ht.
Qed.

Lemma timed_loop_iff n ik it (p : lab W * Z) r p' :
  (∃ fuel, message_loop (still n) (timed_message ik it) fuel p = Done (r, p')) ↔
  loop_runs (still n) (timed_message ik it) (either ik it) p r p'.
Proof. apply message_loop_iff; [done|]. intros. by apply timed_other. Qed.

Lemma waiting_start n (s : lab W) hk ht w :
  0 <= n < 256 → 0 <= counter s → waiting n 0 (subscribed_state s hk ht w, 0).
Proof. intros. unfold waiting, seconds. cbn. rewrite Z.sub_0_r. split_and!; lia. Qed.

(** C40. kbd_test_timed_scan(n) with both interrupts granted stops exactly when ESC was released or
    the counter has shown [n] seconds since the last key, whichever comes first, and not before:
    it returns [rc] in [s'] if and only if the turns of its interrupts are a complete wait
    ([waits]: at every turn but the last neither had happened) and giving the interrupts back then
    ends with [rc] in [s'].  All scancodes were printed in order, and the counter has counted all
    interrupts of the timer ([waited]).  The wait is as exact as a counter of seconds allows: at most
    60 * n interrupts came after the last key, and without ESC more than 60 * (n - 1).  This holds
    as long as the counter does not pass the largest int. *)
Theorem kbd_test_timed_scan_waits n (s : lab W) hk ht w
    (Hn : 0 <= n < 256) (Hc : 0 <= counter s) (Hsub : subscribed s hk ht w) :
  (∀ fuel rc s', kbd_test_timed_scan fuel n s = Done (rc, s') →
     ∃ l sc w', turns (irq_k s) (irq_t s) (scancode s) w l sc w' ∧
       (counter s + ticks_in l < 2 ^ 31 →
        waits (irq_k s) (irq_t s) n (counter s) 0 (scancode s) w l sc w' ∧
        unsubscribed (waited l sc w' (subscribed_state s hk ht w)) rc s' ∧
        idle 0 l <= 60 * n ∧ (sc = KB_BREAK_ESC ∨ 60 * (n - 1) < idle 0 l))) ∧
  (∀ l sc w' rc s', waits (irq_k s) (irq_t s) n (counter s) 0 (scancode s) w l sc w' →
     counter s + ticks_in l < 2 ^ 31 →
     unsubscribed (waited l sc w' (subscribed_state s hk ht w)) rc s' →
     ∃ fuel, kbd_test_timed_scan fuel n s = Done (rc, s')).
Proof.
  pose proof (waiting_start n s hk ht w Hn Hc) as Hstart.
  set (p := (subscribed_state s hk ht w, 0)) in *. split.
  - intros fuel rc s' Hrun. rewrite (kbd_test_timed_scan_loop _ _ _ _ _ _ Hsub) in Hrun. fold p in Hrun.
    destruct (message_loop _ _ fuel p) as [[r [s1 te]]| |] eqn:El; [|done..].
    pose proof (proj1 (timed_loop_iff _ _ _ _ _ _) (ex_intro _ _ El)) as Hl.
    apply timed_runs in Hl as (-> & l & sc & w' & Hl & Hw).
    exists l, sc, w'. split; [done|]. intros Hlt.
    destruct (Hw 0 Hstart Hlt) as (Hwl & Hs1 & Hidle & Hesc). simpl in Hs1. subst s1.
    split_and!; [done|by apply unsubscribed_run|done|done].
  - intros l sc w' rc s' Hwl Hlt Hu.
    destruct (waits_runs _ _ _ _ _ _ _ _ _ _ Hwl p eq_refl eq_refl eq_refl Hstart Hlt) as ([s1 te] & Hr & Hs1).
    apply timed_loop_iff in Hr as [fuel Hf]. exists fuel.
    rewrite (kbd_test_timed_scan_loop _ _ _ _ _ _ Hsub). fold p. rewrite Hf.
    simpl in Hs1. subst s1. by apply unsubscribed_run.
Qed.

(** An interrupt of the timer without a key brings the end nearer. *)
Lemma quiet_tick n w (q : lab W * Z) :
  0 <= q.2 < n → countable (n - q.2) (counter q.1) → n < 256 →
  let q' := after_tick (set_the_world w q) in
  (0 <= q'.2 <= n ∧ countable (n - q'.2) (counter q'.1)) ∧
  (Z.to_nat (ticks_needed (n - q'.2) (counter q'.1)) <
   Z.to_nat (ticks_needed (n - q.2) (counter q.1)))%nat.
Proof.
  intros Hq Hc Hn. destruct (ticks_needed_step _ _ Hc ltac:(lia)) as (E & Hnn & Hc').
  unfold after_tick, timer_int_handler. cbn.
  rewrite i32_small by (destruct Hc as (? & ? & ?); lia).
  rewrite Z.rem_mod_nonneg by (unfold countable in Hc; lia).
  destruct (Z.eqb_spec ((counter q.1 + 1) mod 60) 0) as [E0|E0]; rewrite ?E0 in *.
  - cbn [Z.eqb] in *. rewrite i32_small by lia.
    replace (n - (q.2 + 1)) with (n - q.2 - 1) by lia. split_and!; [lia..|done|lia].
  - split_and!; [lia..|done|lia].
Qed.

(** kbd_test_timed_scan(n) returns when the timer's interrupts keep coming and no key is typed,
    for every n. *)
Theorem kbd_test_timed_scan_ends n (s : lab W) hk ht w (Hc : countable n (counter s))
    (Hsub : subscribed s hk ht w)
    (Hk : keeps_coming (W:=W) (either (irq_k s) (irq_t s)))
    (Hquiet : ∀ (w : W) m w', awaits (either (irq_k s) (irq_t s)) w m w' →
                is_interrupt (irq_k s) m = false) :
  ∃ fuel rc s', kbd_test_timed_scan fuel n s = Done (rc, s') ∧ (rc = 0 ∨ rc = 1).
Proof.
  set (p := (subscribed_state s hk ht w, 0)).
  destruct (loop_runs_measure (still n) (timed_message (irq_k s) (irq_t s))
    (either (irq_k s) (irq_t s)) (λ p, 0 <= p.2 <= n ∧ countable (n - p.2) (counter p.1))
    (λ p, Z.to_nat (ticks_needed (n - p.2) (counter p.1))) Hk) with (s := p) as (p' & Hr & _).
  { intros m w' q Ha [Hq Hcq] Haw. pose proof (Hquiet _ _ _ Haw) as Hkey.
    pose proof (awaits_ours _ _ _ _ Haw) as Hm. unfold either in Hm. rewrite Hkey in Hm. simpl in Hm.
    assert (q.2 < n) as Hlt by (unfold still in Ha; lia).
    unfold wp. rewrite (timed_message_run _ _ _ _ NoData w') by (by rewrite Hkey).
    rewrite Hkey, Hm. split; [done|]. unfold countable in Hc. apply quiet_tick; [lia|done|lia]. }
  { cbn. rewrite Z.sub_0_r. unfold countable in *. split; [lia|done]. }
  apply timed_loop_iff in Hr as [fuel Hf].
  destruct p' as [s1 te]. destruct (unsubscribe_run s1) as (rc & s' & E & Hrc).
  exists fuel. do 2 eexists. split; [|exact Hrc].
  rewrite (kbd_test_timed_scan_loop _ _ _ _ _ _ Hsub). fold p. by rewrite Hf.
Qed.
End timed_properties.

(** ** Witnesses *)
Section witnesses.
Import Sim Keyboard.Spec Spec.

(** Two interrupts of the timer, with hook 0; the counter is at 58. *)
Definition no_keys : lab sim :=
  Lab (MkSim [] [] 0 [] [hw_message 1; hw_message 1] [] tiny_mode) 58 0 1 0 [].

Definition both_granted : sim :=
  MkSim [] [] 0 [(0, 0); (1, 1)] [hw_message 1; hw_message 1] [] tiny_mode.

(** One second: the counter passes 60 with the second interrupt. *)
Lemma no_keys_wait : waits 1 0 1 58 0 0 both_granted [Turn None true; Turn None true] 0
  (MkSim [] [] 0 [(0, 0); (1, 1)] [] [] tiny_mode).
Proof.
  eapply waits_more; [done|by vm_compute|eapply turn_tick; [by apply awaits_now|done]|].
  eapply waits_more; [done|by vm_compute|eapply turn_tick; [by apply awaits_now|done]|].
  apply waits_over. right. vm_compute. discriminate.
Qed.

Lemma kbd_test_timed_scan_waits_witness :
  0 <= 1 < 256 ∧ subscribed no_keys 1 0 both_granted ∧
  ∃ fuel, kbd_test_timed_scan fuel 1 no_keys =
    Done (0, Lab (MkSim [] [] 0 [] [] [] tiny_mode) 60 0 1 0 []).
Proof.
  assert (subscribed no_keys 1 0 both_granted) as Hsub by (eexists; split; reflexivity).
  split; [lia|]. split; [exact Hsub|].
  apply (proj2 (kbd_test_timed_scan_waits 1 no_keys 1 0 both_granted ltac:(lia) ltac:(done) Hsub)
    [Turn None true; Turn None true] 0 (MkSim [] [] 0 [(0, 0); (1, 1)] [] [] tiny_mode));
    [exact no_keys_wait|reflexivity|].
  exact (unsubscribe_both (Lab (MkSim [] [] 0 [(0, 0); (1, 1)] [] [] tiny_mode) 60 0 1 0 [])
    1 (MkSim [] [] 0 [(0, 0)] [] [] tiny_mode) 0 0 (MkSim [] [] 0 [] [] [] tiny_mode) eq_refl eq_refl).
Defined.

(** A key and ESC: the bytes that the ports still hold, and the messages still to come. *)
Definition keys_left (bytes : list Z) (ms : list message) : sim :=
  MkSim bytes [] 0 [(1, 1)] ms [] tiny_mode.
Definition two_keys : lab sim :=
  lab_start (MkSim [1; 0x1E; 1; 0x81] [] 0 [] [hw_message 2; hw_message 2] [] tiny_mode).

Lemma reads_now v bytes ms : 0 <= v < 256 →
  reads KEYBOARD_OUT_CMD false 10 (keys_left (1 :: v :: bytes) ms) (Data v) (keys_left bytes ms).
Proof.
  intros Hv. replace v with (u32 v mod 256) at 2 by (rewrite u32_small, Z.mod_small; lia).
  exact (reads_data KEYBOARD_OUT_CMD false 9 (keys_left (1 :: v :: bytes) ms) 1
    (keys_left (v :: bytes) ms) v (keys_left bytes ms) eq_refl eq_refl eq_refl).
Qed.

Lemma two_keys_delivered :
  delivers 1 0 (keys_left [1; 0x1E; 1; 0x81] [hw_message 2; hw_message 2]) [0x1E; 0x81] (keys_left [] []).
Proof.
  apply (delivers_key 1 0 _ (hw_message 2) (keys_left [1; 0x1E; 1; 0x81] [hw_message 2])
    0x1E (keys_left [1; 0x81] [hw_message 2])); [done|by apply awaits_now|by apply reads_now|].
  apply (delivers_key 1 0x1E _ (hw_message 2) (keys_left [1; 0x81] []) 0x81 (keys_left [] []));
    [done|by apply awaits_now|by apply reads_now|constructor].
Qed.

Lemma kbd_test_scan_prints_witness :
  ∃ fuel rc s', kbd_test_scan fuel two_keys = Done (rc, s') ∧ scancode s' = KB_BREAK_ESC ∧
    printed s' = [] ++ (documented_output <$> [0x1E; 0x81]).
Proof.
  apply (proj2 (kbd_test_scan_prints two_keys) 1 (keys_left [1; 0x1E; 1; 0x81] [hw_message 2; hw_message 2])
    [0x1E; 0x81] (keys_left [] []));
    [reflexivity|exact two_keys_delivered|repeat constructor; discriminate].
Defined.

(** A key, a two-byte scancode of which each byte is printed alone, and ESC. *)
Example kbd_test_scan_run :
  kbd_test_scan 10 (lab_start (MkSim [1; 0x1E; 1; 0xE0; 1; 0x48; 1; 0x81] [] 0 []
      [hw_message 2; hw_message 1; hw_message 2; hw_message 2; hw_message 2] [] tiny_mode)) =
  Done (0, Lab (MkSim [] [] 0 [] [] [] tiny_mode) 0 0 1 0x81
    [kbd_print_scancode true 1 [0x1E]; kbd_print_scancode false 2 [0xE0];
     kbd_print_scancode true 1 [0x48]; kbd_print_scancode false 1 [0x81]]).
Proof. vm_compute. reflexivity. Qed.
End witnesses.

Section clock_witness.
Import Clock.

Lemma kbd_test_timed_scan_ends_witness :
  ∃ fuel rc s', kbd_test_timed_scan fuel 3 (lab_start tt) = Done (rc, s') ∧ (rc = 0 ∨ rc = 1).
Proof.
  apply (kbd_test_timed_scan_ends 3 (lab_start tt) 1 0 tt).
  - unfold countable. vm_compute. split_and!; done.
  - by exists tt.
  - intros w. exists (hw_message 1), w. by apply awaits_now.
  - intros w m w' Haw. destruct Haw as [w m w' E _|w rc m0 w1 m w' E Hrc _|w m0 w1 m w' E Hm _];
      injection E; intros; subst; done.
Defined.
End clock_witness.
