(* ===== verification/Lab4.v ===== *)
(** * lab4: the mouse's test programs

    mouse_test_packet of lab4/lab4.c, over the driver of [Mouse] and the loop of [Events];
    mouse_test_async, mouse_test_gesture and mouse_test_remote are stubs in the code.

    The reference is [frames], a parser of a whole stream of bytes: the loop, which handles one
    byte per interrupt and keeps its progress in the globals [size] and [bytes], prints exactly
    the packets of the frames of the bytes it was given. *)

From S2P Require Import Prelude Machine Utils Mouse Events.

(** ** Constants of i8042.h *)
Definition MOUSE_ENABLE_REPORT : Z := 0xF4.
Definition MOUSE_DISABLE_REPORT : Z := 0xF5.
(** [PK_BIT3] is [BIT(3)]: the bit number. *)
Definition PK_BIT3_BIT : Z := 3.

(** The globals of the program; [printed] are the calls of mouse_print_packet. *)
Record mlab (W : Type) := MLab {
  world : W;
  mouse_hookID : Z;
  data : Z;
  size : Z;
  bytes : list Z;
  printed : list packet;
}.
Arguments MLab {_}.
Arguments world {_} _.
Arguments mouse_hookID {_} _.
Arguments data {_} _.
Arguments size {_} _.
Arguments bytes {_} _.
Arguments printed {_} _.

Section operations.
Context {W : Type}.
Implicit Types s : mlab W.

Definition set_world (v : W) s : mlab W :=
  MLab v (mouse_hookID s) (data s) (size s) (bytes s) (printed s).
Definition set_mouse_hookID (v : Z) s : mlab W :=
  MLab (world s) v (data s) (size s) (bytes s) (printed s).
Definition set_data (v : Z) s : mlab W :=
  MLab (world s) (mouse_hookID s) v (size s) (bytes s) (printed s).
Definition set_size (v : Z) s : mlab W :=
  MLab (world s) (mouse_hookID s) (data s) v (bytes s) (printed s).
Definition set_bytes (v : list Z) s : mlab W :=
  MLab (world s) (mouse_hookID s) (data s) (size s) v (printed s).
Definition add_printed (v : list packet) s : mlab W :=
  MLab (world s) (mouse_hookID s) (data s) (size s) (bytes s) (printed s ++ v).

(** The static initialisers. *)
Definition mlab_start (w : W) : mlab W := MLab w 2 0 0 [0; 0; 0] [].

#[export] Instance mlab_has_world : HasWorld (mlab W) W.
Proof. by refine {| the_world := world; set_the_world := set_world |}. Defined.

Definition on_world {A} (m : M W A) : M (mlab W) A := zoom world set_world m.

Context `{PortIO W} `{Interrupts W} `{Receive W}.

(** mouse_ih() on the global [data]. *)
Definition read_data : M (mlab W) unit :=
  d ← gets data;
  d ← on_world (mouse_ih d);
  modify (set_data d).

(** mouse_subscribe_int(&irq_bitmask), for a local that starts uninitialised. *)
Definition mouse_subscribe : M (mlab W) (Z * Z) :=
  h ← gets mouse_hookID;
  '(rc, mask, h) ← on_world (mouse_subscribe_int (Some 0) h);
  modify (set_mouse_hookID h);;
  mask ← of_option mask;
  mret (rc, mask).

Definition mouse_unsubscribe : M (mlab W) Z :=
  h ← gets mouse_hookID;
  '(rc, h) ← on_world (mouse_unsubscribe_int h);
  modify (set_mouse_hookID h);;
  mret rc.

(** bytes[size++] = data *)
Definition store_byte : M (mlab W) unit := λ s,
  if (0 <=? size s) && (size s <? Z.of_nat (length (bytes s)))
  then Done (tt, set_size (u8 (size s + 1)) (set_bytes (<[Z.to_nat (size s) := data s]> (bytes s)) s))
  else Undef.

(** An uninitialised [struct packet]. *)
Definition any_packet : packet := Packet [0; 0; 0] false false false 0 0 false false.

(** mouse_parse_packet(&pkt_data, bytes, size); mouse_print_packet(&pkt_data) *)
Definition parse_and_print : M (mlab W) unit := λ s,
  match mouse_parse_packet (Some any_packet) (Some (bytes s)) (size s) with
  | Done (Some p) => Done (tt, add_printed [p] s)
  | Done None => Undef
  | Undef => Undef
  | OutOfFuel => OutOfFuel
  end.

(** The rest of the body, after the byte has been read and found to belong to a packet. *)
Definition take_byte : M (mlab W * (Z * Z)) (option Z) :=
  on_globals store_byte;;
  sz ← on_globals (gets size);
  if sz =? 3 then
    on_globals parse_and_print;;
    on_globals (modify (set_size 0));;
    modify (λ p, (p.1, (u32 (p.2.1 + 1), p.2.2)));;
    mret None
  else mret None.

(** The body of the loop; the locals are [packet_count] and [sync_state]. *)
Definition packet_message (irq_bitmask : Z) (m : message) : M (mlab W * (Z * Z)) (option Z) :=
  if negb (is_ipc_notify (ipc_status m)) then mret None else
  if negb (ENDPOINT_P (m_source m) =? HARDWARE) then mret None else
  if Z.land (m_notify_interrupts m) irq_bitmask =? 0 then mret None else
  on_globals read_data;;
  s ← gets fst;
  sync_state ← gets (snd ∘ snd);
  if size s =? 0 then
    if negb (has_bit (data s) PK_BIT3_BIT) then
      modify (λ p, (p.1, (p.2.1, 0)));; mret None
    else
      modify (λ p, (p.1, (p.2.1, 1)));; take_byte
  else if sync_state =? 0 then
    on_globals (modify (set_size 0));; mret None
  else take_byte.

(** [tries] bounds the retries of the two commands, [fuel] the messages. *)
Definition mouse_test_packet (tries fuel : nat) (cnt : Z) : M (mlab W) Z :=
  on_world (kbc_command_handler tries WRITE_B_MOUSE MOUSE_ENABLE_REPORT) ;?
  ('(rc, irq_bitmask) ← mouse_subscribe;
   if negb (rc =? 0) then mret 1 else
   r ← with_locals (0, 0) (message_loop (λ p, p.2.1 <? cnt) (packet_message irq_bitmask) fuel);
   match r with
   | Some rc => mret rc
   | None =>
       mouse_unsubscribe ;?
       (on_world (kbc_command_handler tries WRITE_B_MOUSE MOUSE_DISABLE_REPORT) ;?
        mret 0)
   end).
End operations.

(** Under construction in the code. *)
Definition mouse_test_async (_idle_time : Z) : Z := 1.
Definition mouse_test_gesture (_x_len _tolerance : Z) : Z := 1.
Definition mouse_test_remote (_period _cnt : Z) : Z := 1.

(** ** The reference: a parser of the mouse's stream *)
Module Spec.

(** A byte with bit 3 starts a packet of three bytes; outside a packet a byte without it is
    dropped; the bytes of an incomplete packet at the end are no packet. *)
Fixpoint frames (bs : list Z) : list (Z * Z * Z) :=
  match bs with
  | [] => []
  | b0 :: rest =>
      if Z.testbit b0 3 then
        match rest with
        | b1 :: b2 :: rest => (b0, b1, b2) :: frames rest
        | _ => []
        end
      else frames rest
  end.

Definition decode (f : Z * Z * Z) : packet := decoded f.1.1 f.1.2 f.2.
Definition frame_bytes (f : Z * Z * Z) : list Z := [f.1.1; f.1.2; f.2].

Section spec.
Context {W : Type} `{PortIO W} `{Interrupts W} `{Receive W}.

(** A hardware notification with an interrupt of the mask. *)
Definition masked (mask : Z) (m : message) : bool :=
  from_hardware m && negb (Z.land (m_notify_interrupts m) mask =? 0).

(** The bytes that the interrupts bring, one each: [d] is the byte before, [d'] the last. *)
Inductive stream (mask : Z) : Z → W → list Z → Z → W → Prop :=
| stream_end d w : stream mask d w [] d w
| stream_byte d w m w1 d1 w2 bs d' w' :
    awaits (masked mask) w m w1 → mouse_ih d w1 = Done (d1, w2) →
    stream mask d1 w2 bs d' w' → stream mask d w (d1 :: bs) d' w'.

(** The shortest stream that has [n] frames. *)
Definition just_enough (n : Z) (bs : list Z) : Prop :=
  Z.of_nat (length (frames bs)) = n ∧
  ∀ k, (k < length bs)%nat → Z.of_nat (length (frames (take k bs))) < n.

(** The globals after the stream [bs]. *)
Definition after_stream (bs : list Z) (d : Z) (w : W) (s : mlab W) : mlab W :=
  MLab w (mouse_hookID s) d (size s) (from_option frame_bytes (bytes s) (list.last (frames bs)))
    (printed s ++ (decode <$> frames bs)).

(** A run of mouse_test_packet: the session that enables the reports, the subscription, the
    stream, the end of the subscription and the session that disables the reports. *)
Inductive test_packet (cnt : Z) (s : mlab W) : Z → mlab W → Prop :=
| not_enabled r w :
    Mouse.Spec.session MOUSE_ENABLE_REPORT 3 (world s) r w → r ≠ 0 →
    test_packet cnt s 1 (set_world w s)
| not_subscribed w e h w1 :
    Mouse.Spec.session MOUSE_ENABLE_REPORT 3 (world s) 0 w →
    sys_irqsetpolicy MOUSE_IRQ (Z.lor IRQ_REENABLE IRQ_EXCLUSIVE) (mouse_hookID s) w
      = ((e, h), w1) → e ≠ 0 →
    test_packet cnt s 1 (set_mouse_hookID h (set_world w1 s))
| not_unsubscribed w h w1 bs d w2 e h' w3 :
    Mouse.Spec.session MOUSE_ENABLE_REPORT 3 (world s) 0 w →
    sys_irqsetpolicy MOUSE_IRQ (Z.lor IRQ_REENABLE IRQ_EXCLUSIVE) (mouse_hookID s) w
      = ((0, h), w1) →
    stream (u8 (BIT (mouse_hookID s))) (data s) w1 bs d w2 → just_enough cnt bs →
    sys_irqrmpolicy h w2 = ((e, h'), w3) → e ≠ 0 →
    test_packet cnt s 1 (set_mouse_hookID h' (after_stream bs d w3 s))
| all_received w h w1 bs d w2 h' w3 r w4 :
    Mouse.Spec.session MOUSE_ENABLE_REPORT 3 (world s) 0 w →
    sys_irqsetpolicy MOUSE_IRQ (Z.lor IRQ_REENABLE IRQ_EXCLUSIVE) (mouse_hookID s) w
      = ((0, h), w1) →
    stream (u8 (BIT (mouse_hookID s))) (data s) w1 bs d w2 → just_enough cnt bs →
    sys_irqrmpolicy h w2 = ((0, h'), w3) →
    Mouse.Spec.session MOUSE_DISABLE_REPORT 3 w3 r w4 →
    test_packet cnt s (if r =? 0 then 0 else 1) (set_mouse_hookID h' (after_stream bs d w4 s)).
End spec.
End Spec.

#[local] Arguments Z.testbit _ _ : simpl never.
#[local] Arguments mouse_parse_packet _ _ _ : simpl never.

(** ** The reference parser, fed one byte at a time *)
Section parser.
Import Spec.


Definition a_byte (b : Z) : Prop := 0 <= b < 256.

(** The bytes of the packet that is being received. *)
Definition partial (acc : list Z) : Prop :=
  (length acc < 3)%nat ∧ match acc with [] => True | b :: _ => Z.testbit b 3 = true end.

(** The next byte: what is being received then, and the frame that it completes. *)
Definition feed (acc : list Z) (d : Z) : list Z * option (Z * Z * Z) :=
  match acc with
  | [] => if Z.testbit d 3 then ([d], None) else ([], None)
  | [b0] => ([b0; d], None)
  | [b0; b1] => ([], Some (b0, b1, d))
  | _ => (acc, None)
  end.

Lemma feed_partial acc d : partial acc → partial (feed acc d).1.
Proof.
  unfold partial. destruct acc as [|b0 [|b1 [|]]]; intros [? ?]; simpl in *;
    [destruct (Z.testbit d 3) eqn:E; simpl| | |]; (split; [lia|done]).
Qed.

Lemma frames_partial acc : partial acc → frames acc = [].
Proof.
  unfold partial. destruct acc as [|b0 [|b1 [|]]]; intros [? Hb]; simpl in *; try lia; try done.
  all: by rewrite Hb.
Qed.

Lemma frames_feed acc d bs : partial acc →
  frames (acc ++ d :: bs) = option_list (feed acc d).2 ++ frames ((feed acc d).1 ++ bs).
Proof.
  unfold partial. destruct acc as [|b0 [|b1 [|]]]; intros [? Hb]; simpl in *; try lia.
  - destruct (Z.testbit d 3) eqn:E; simpl; by rewrite ?E.
  - by rewrite Hb.
  - by rewrite Hb.
Qed.

(** The last frame decides what the buffer holds. *)
Lemma last_app_default {A B} (f : A → B) (o : option A) (l : list A) (x : B) :
  from_option f x (list.last (option_list o ++ l)) = from_option f (from_option f x o) (list.last l).
Proof. destruct o as [a|]; [|done]. simpl. rewrite last_cons. by destruct (list.last l). Qed.
End parser.

(** ** One interrupt *)
Section step.
Context {W : Type} `{PortIO W} `{Interrupts W} `{Receive W}.
Implicit Types p : mlab W * (Z * Z).
Import Spec.

Lemma mouse_ih_total d (w : W) : a_byte d → ∃ d' w', mouse_ih d w = Done (d', w') ∧ a_byte d'.
Proof.
  intros Hd. unfold mouse_ih, kbc_check_out_buf, kbc_read_status, kbc_read_buffer. run_unfold.
  destruct (sys_inb STATUS_REG w) as [[rc st] w1]. destruct (negb (rc =? 0)); [by do 2 eexists|].
  change (negb (0 =? 0)) with false. cbn iota.
  destruct (negb (_ =? 0)); [|by do 2 eexists]. destruct (_ =? 0); [|by do 2 eexists].
  destruct (sys_inb OUT_BUF w1) as [[rc2 v] w2]. destruct (negb (rc2 =? 0)); [by do 2 eexists|].
  do 2 eexists. split; [done|]. apply u8_range.
Qed.

(** The globals and locals agree with the partial packet [acc]. *)
Record holds (acc : list Z) p : Prop := {
  holds_partial : partial acc;
  holds_size : size p.1 = Z.of_nat (length acc);
  holds_bytes : length (bytes p.1) = 3%nat;
  holds_acc : take (length acc) (bytes p.1) = acc;
  holds_sync : acc ≠ [] → p.2.2 ≠ 0;
  holds_range : Forall a_byte acc;
  holds_data : a_byte (data p.1);
}.

Lemma packet_message_other mask m p :
  masked mask m = false → packet_message mask m p = Done (None, p).
Proof.
  unfold masked, from_hardware, packet_message.
  by destruct (is_ipc_notify _), (ENDPOINT_P _ =? HARDWARE), (Z.land _ mask =? 0).
Qed.

(** The branch of the code that a byte takes. *)
Definition received (d : Z) (w : W) p : mlab W * (Z * Z) := (set_data d (set_world w p.1), p.2).

Lemma packet_message_byte mask m p d w : masked mask m = true → mouse_ih (data p.1) (world p.1) = Done (d, w) →
  packet_message mask m p =
    let q := received d w p in
    if size q.1 =? 0 then
      if negb (has_bit d PK_BIT3_BIT) then Done (None, (q.1, (q.2.1, 0)))
      else take_byte (q.1, (q.2.1, 1))
    else if q.2.2 =? 0 then Done (None, (set_size 0 q.1, q.2)) else take_byte q.
Proof.
  unfold masked, from_hardware, packet_message. intros Hm Hd.
  destruct (is_ipc_notify _), (ENDPOINT_P _ =? HARDWARE), (Z.land _ mask =? 0); try done. cbn [negb].
  assert (on_globals read_data p = Done (tt, received d w p)) as E.
  { unfold on_globals, read_data, on_world, zoom. run_unfold. by rewrite Hd. }
  rewrite (run_done _ _ _ _ _ E). unfold received. run_unfold. destruct p as [s [c y]]. cbn.
  destruct (size s =? 0); [by destruct (has_bit d _)|by destruct (y =? 0)].
Qed.

(** Storing a byte behind a partial packet. *)
Lemma store_acc acc (l : list Z) d : length l = 3%nat → take (length acc) l = acc →
  (length acc < 3)%nat → take (S (length acc)) (<[length acc := d]> l) = acc ++ [d].
Proof.
  intros Hl Ha Hlt. rewrite (take_S_r _ _ d) by (apply list_lookup_insert_eq; lia).
  by rewrite take_insert_ge, Ha by lia.
Qed.

Lemma store_byte_run (s : mlab W) k :
  size s = Z.of_nat k → (k < length (bytes s) <= 3)%nat →
  store_byte s = Done (tt, set_size (Z.of_nat (S k)) (set_bytes (<[k := data s]> (bytes s)) s)).
Proof.
  intros Hs Hk. unfold store_byte. rewrite Hs, Nat2Z.id, u8_small by lia.
  replace (Z.of_nat k + 1) with (Z.of_nat (S k)) by lia.
  destruct ((0 <=? Z.of_nat k) && _) eqn:E; [done|lia].
Qed.

Lemma parse_and_print_run (s : mlab W) f :
  size s = 3 → bytes s = frame_bytes f → Forall a_byte (frame_bytes f) →
  parse_and_print s = Done (tt, add_printed [decode f] s).
Proof.
  destruct f as [[b0 b1] b2]. unfold parse_and_print, frame_bytes, decode. cbn.
  intros -> -> Hf. rewrite !list.Forall_cons in Hf. destruct Hf as (_ & ? & ? & _).
  by rewrite parse_packet_run.
Qed.

Lemma take_byte_more (acc : list Z) (s : mlab W) (l : Z * Z) : (length acc < 2)%nat →
  size s = Z.of_nat (length acc) → length (bytes s) = 3%nat →
  take_byte (s, l) = Done (None, (set_size (Z.of_nat (S (length acc)))
    (set_bytes (<[length acc := data s]> (bytes s)) s), l)).
Proof.
  intros Hlt Hs Hb. unfold take_byte.
  rewrite (run_done _ _ _ _ _ (on_globals_run _ _ _ _ _ (store_byte_run s _ Hs ltac:(lia)))).
  rewrite (run_done _ _ _ _ _ (on_globals_run _ _ _ _ _ eq_refl)). cbn [size set_size].
  by destruct (Z.eqb_spec (Z.of_nat (S (length acc))) 3); [lia|].
Qed.

Lemma take_byte_last b0 b1 (s : mlab W) (l : Z * Z) : size s = 2 → length (bytes s) = 3%nat →
  take 2 (bytes s) = [b0; b1] → Forall a_byte [b0; b1] → a_byte (data s) →
  let f := (b0, b1, data s) in
  take_byte (s, l) = Done (None,
    (set_size 0 (add_printed [decode f] (set_size 3 (set_bytes (frame_bytes f) s))),
     (u32 (l.1 + 1), l.2))).
Proof.
  intros Hs Hb Ha Hr Hd f. unfold take_byte.
  assert (<[2%nat := data s]> (bytes s) = frame_bytes f) as Hf.
  { destruct (bytes s) as [|x0 [|x1 [|x2 [|]]]]; simplify_eq/=. done. }
  rewrite (run_done _ _ _ _ _ (on_globals_run _ _ _ _ _ (store_byte_run s 2 Hs ltac:(lia)))).
  rewrite (run_done _ _ _ _ _ (on_globals_run _ _ _ _ _ eq_refl)).
  rewrite Hf. change (size _ =? 3) with true. cbn iota.
  assert (Forall a_byte (frame_bytes f))
    by (apply (list.Forall_app_2 _ [b0; b1]); [done|by apply list.Forall_singleton]).
  by erewrite run_done by (by apply on_globals_run, (parse_and_print_run _ f)).
Qed.

(** What an interrupt with the byte [d] makes of the state, in terms of the parser. *)
Record stepped (acc : list Z) (d : Z) (w : W) p p' : Prop := {
  stepped_holds : holds (feed acc d).1 p';
  stepped_world : world p'.1 = w;
  stepped_hook : mouse_hookID p'.1 = mouse_hookID p.1;
  stepped_data : data p'.1 = d;
  stepped_printed : printed p'.1 = printed p.1 ++ (decode <$> option_list (feed acc d).2);
  stepped_count : p'.2.1 = if (feed acc d).2 is Some _ then u32 (p.2.1 + 1) else p.2.1;
  stepped_bytes f : (feed acc d).2 = Some f → bytes p'.1 = frame_bytes f;
}.

Lemma holds_more acc d s c y : (length acc < 2)%nat → partial (acc ++ [d]) →
  size s = Z.of_nat (length acc) → length (bytes s) = 3%nat → take (length acc) (bytes s) = acc →
  Forall a_byte acc → data s = d → a_byte d → y ≠ 0 →
  holds (acc ++ [d])
    (set_size (Z.of_nat (S (length acc))) (set_bytes (<[length acc := d]> (bytes s)) s), (c, y)).
Proof.
  intros Hlt Hp Hs Hb Ha Hr Hd Hbyte Hy. split; simpl; try done.
  - rewrite length_app. simpl. lia.
  - by rewrite length_insert.
  - rewrite length_app, Nat.add_1_r. by apply store_acc; [..|lia].
  - apply list.Forall_app_2; [done|by apply list.Forall_singleton].
  - by rewrite Hd.
Qed.

Lemma holds_start s c y d : size s = 0 → length (bytes s) = 3%nat → data s = d → a_byte d →
  holds [] (s, (c, y)).
Proof. intros. subst d. split; simpl; try done. split; simpl; [lia|done]. Qed.

Lemma packet_step acc mask m p w d w' : holds acc p → masked mask m = true →
  mouse_ih (data p.1) w = Done (d, w') → a_byte d →
  ∃ p', packet_message mask m (set_the_world w p) = Done (None, p') ∧ stepped acc d w' p p'.
Proof.
  intros [Hpart Hsz Hb Hacc Hsync Hr Hdata] Hm Hd Hbyte. destruct p as [s [c y]].
  pose proof (feed_partial acc d Hpart) as Hfeed.
  rewrite (packet_message_byte _ _ _ d w') by done. cbn in *. rewrite Hsz.
  set (s1 := set_data d (set_world w' (set_world w s))).
  destruct acc as [|b0 [|b1 [|]]]; [..|destruct Hpart; simpl in *; lia]; cbn [length] in *.
  - cbn. unfold PK_BIT3_BIT. rewrite has_bit_testbit by lia.
    destruct (Z.testbit d 3) eqn:E; cbn in *; rewrite E in Hfeed; cbn in Hfeed.
    + eexists. split; [by apply (take_byte_more []); [simpl; lia|..]|].
      split; simpl; rewrite ?E; cbn; rewrite ?app_nil_r; try done.
      by apply (holds_more [] d s1); [simpl; lia|..].
    + eexists. split; [done|]. split; simpl; rewrite ?E; cbn; rewrite ?app_nil_r; done.
  - destruct (Z.eqb_spec y 0); [by destruct Hsync|]. cbn.
    eexists. split; [by apply (take_byte_more [b0]); [simpl; lia|..]|].
    split; simpl; rewrite ?app_nil_r; try done.
    apply (holds_more [b0] d s1 c y); try done; simpl; lia.
  - destruct (Z.eqb_spec y 0); [by destruct Hsync|]. cbn.
    eexists. split; [by apply (take_byte_last b0 b1)|].
    split; simpl; try done. by intros f [= <-].
Qed.
End step.

(** ** The loop *)
Section packets.
Context {W : Type} `{PortIO W} `{Interrupts W} `{Receive W}.
Implicit Types p : mlab W * (Z * Z).
Import Spec.

Definition counting (cnt : Z) p : bool := p.2.1 <? cnt.

(** The globals after the stream [bs], from the partial packet [acc]. *)
Definition after_acc (acc bs : list Z) (d : Z) (w : W) (s : mlab W) : mlab W :=
  let fs := frames (acc ++ bs) in
  MLab w (mouse_hookID s) d (from_option (λ _, 0) (size s) (list.last fs))
    (from_option frame_bytes (bytes s) (list.last fs)) (printed s ++ (decode <$> fs)).

Lemma after_acc_nil acc p : holds acc p → after_acc acc [] (data p.1) (world p.1) p.1 = p.1.
Proof.
  intros [Hp _ _ _ _ _ _]. unfold after_acc. rewrite app_nil_r, frames_partial by done. cbn.
  rewrite app_nil_r. by destruct p as [[] ?].
Qed.

(** The number of frames that the stream completes. *)
Definition completed (acc bs : list Z) : Z := Z.of_nat (length (frames (acc ++ bs))).

Lemma completed_cons acc d bs : partial acc → completed acc (d :: bs) =
  (if (feed acc d).2 is Some _ then 1 else 0) + completed (feed acc d).1 bs.
Proof.
  intros Hp. unfold completed. rewrite frames_feed, length_app by done.
  destruct (feed acc d) as [acc' [f|]]; simpl; lia.
Qed.

Lemma completed_nil acc : partial acc → completed acc [] = 0.
Proof. intros. unfold completed. by rewrite app_nil_r, frames_partial. Qed.

(** Nothing before the end of [bs] completes [n] frames, and [bs] does. *)
Definition enough (acc : list Z) (n : Z) (bs : list Z) : Prop :=
  completed acc bs = n ∧ ∀ k, (k < length bs)%nat → completed acc (take k bs) < n.

Lemma enough_cons acc n d bs : partial acc → 0 < n →
  enough acc n (d :: bs) ↔
  enough (feed acc d).1 (n - if (feed acc d).2 is Some _ then 1 else 0) bs.
Proof.
  intros Hp Hn. unfold enough. rewrite completed_cons by done. split; intros [Hc Hk].
  - split; [lia|]. intros k Hlt. specialize (Hk (S k)). simpl in Hk.
    rewrite completed_cons in Hk by done. lia.
  - split; [lia|]. intros [|k] Hlt; simpl in *; [by rewrite completed_nil|].
    rewrite completed_cons by done. specialize (Hk k). lia.
Qed.

Lemma after_acc_step acc d bs d' w w' p p' : partial acc → stepped acc d w p p' →
  frames (acc ++ d :: bs) ≠ [] →
  after_acc (feed acc d).1 bs d' w' p'.1 = after_acc acc (d :: bs) d' w' p.1.
Proof.
  intros Hp [Hh Hw Hhk Hd Hpr Hc Hb] Hne. pose proof (holds_size _ _ Hh) as Hsz.
  unfold after_acc. rewrite Hhk, Hpr. rewrite frames_feed in * by done.
  rewrite !last_app_default, fmap_app, <- app_assoc.
  destruct (feed acc d) as [acc' [f|]] eqn:E; simpl in *.
  - rewrite (Hb f eq_refl). assert (acc' = []) as ->.
    { destruct acc as [|? [|? [|]]]; simpl in E; [by destruct (Z.testbit d 3)|by simplify_eq..]. }
    by rewrite Hsz.
  - by destruct (list.last (frames (acc' ++ bs))) eqn:El; [|apply last_None in El].
Qed.

Variables (mask cnt : Z).
Hypothesis Hcnt : cnt < 2 ^ 32.

(** The number of packets still missing. *)
Definition missing p : Z := cnt - p.2.1.

Lemma stepped_missing acc d w p p' : stepped acc d w p p' → 0 <= p.2.1 < cnt →
  missing p' = missing p - (if (feed acc d).2 is Some _ then 1 else 0) ∧ 0 <= p'.2.1 <= cnt.
Proof.
  intros Hs Hc. unfold missing. rewrite (stepped_count _ _ _ _ _ Hs).
  destruct (feed acc d).2; rewrite ?u32_small by lia; lia.
Qed.

Lemma enough_frames acc n bs : 0 < n → enough acc n bs → frames (acc ++ bs) ≠ [].
Proof. unfold enough, completed. intros Hn [Hc _] E. rewrite E in Hc. simpl in Hc. lia. Qed.

Lemma packets_runs p r p' :
  loop_runs (counting cnt) (packet_message mask) (masked mask) p r p' → ∀ acc, holds acc p →
  0 <= p.2.1 <= cnt → r = None ∧ ∃ bs d w, stream mask (data p.1) (world p.1) bs d w ∧
    enough acc (missing p) bs ∧ p'.1 = after_acc acc bs d w p.1.
Proof.
  induction 1 as [p Ha|p m w rc p' Ha Haw Hh|p m w p1 r p' Ha Haw Hh _ IH];
    intros acc Hacc Hc; unfold counting in Ha.
  - split; [done|]. exists [], (data p.1), (world p.1). split_and!; [constructor| |].
    + split; [|simpl; lia]. rewrite completed_nil by apply Hacc. unfold missing. lia.
    + symmetry. by apply after_acc_nil.
  - destruct (mouse_ih_total (data p.1) w (holds_data _ _ Hacc)) as (d & w1 & Hd & Hbyte).
    destruct (packet_step acc mask m p w d w1) as (p1 & E & _); [done|by eapply awaits_ours|done..|].
    congruence.
  - destruct (mouse_ih_total (data p.1) w (holds_data _ _ Hacc)) as (d & w1 & Hd & Hbyte).
    destruct (packet_step acc mask m p w d w1) as (p2 & E & Hs); [done|by eapply awaits_ours|done..|].
    assert (p2 = p1) as -> by congruence.
    destruct (stepped_missing _ _ _ _ _ Hs ltac:(lia)) as [Hmiss Hc1].
    destruct (IH _ (stepped_holds _ _ _ _ _ Hs) Hc1) as (-> & bs & d' & w' & Hst & Hen & ->).
    rewrite (stepped_data _ _ _ _ _ Hs), (stepped_world _ _ _ _ _ Hs) in Hst.
    rewrite Hmiss in Hen. apply enough_cons in Hen; [|apply Hacc|unfold missing; lia].
    split; [done|]. exists (d :: bs), d', w'. split_and!; [by eapply stream_byte|done|].
    eapply after_acc_step; [apply Hacc|done|]. eapply enough_frames; [|done]. unfold missing. lia.
Qed.

Lemma runs_packets d w bs d' w' : stream mask d w bs d' w' → ∀ acc p, data p.1 = d →
  world p.1 = w → holds acc p → 0 <= p.2.1 <= cnt → enough acc (missing p) bs →
  ∃ l, loop_runs (counting cnt) (packet_message mask) (masked mask) p None
         (after_acc acc bs d' w' p.1, l).
Proof.
  induction 1 as [d w|d w m w1 d1 w2 bs d' w' Haw Hd _ IH]; intros acc p <- <- Hacc Hc Hen.
  - exists p.2. rewrite after_acc_nil by done. destruct Hen as [Hen _].
    rewrite completed_nil in Hen by apply Hacc. destruct p as [s l]. constructor.
    unfold counting, missing in *. simpl in *. lia.
  - assert (0 < missing p) as Hm.
    { destruct Hen as [_ Hk]. specialize (Hk 0%nat). simpl in Hk.
      rewrite completed_nil in Hk by apply Hacc. unfold missing in *. lia. }
    destruct (mouse_ih_total (data p.1) w1 (holds_data _ _ Hacc)) as (d2 & w3 & Hd2 & Hbyte).
    assert (d2 = d1 ∧ w3 = w2) as [-> ->] by (split; congruence). clear Hd2.
    destruct (packet_step acc mask m p w1 d1 w2) as (p1 & E & Hs); [done|by eapply awaits_ours|done..|].
    unfold missing in Hm. destruct (stepped_missing _ _ _ _ _ Hs ltac:(lia)) as [Hmiss Hc1].
    pose proof (enough_frames acc (missing p) (d1 :: bs) ltac:(unfold missing; lia) Hen) as Hne.
    apply enough_cons in Hen; [|apply Hacc|unfold missing; lia]. rewrite <- Hmiss in Hen.
    destruct (IH _ p1 (stepped_data _ _ _ _ _ Hs) (stepped_world _ _ _ _ _ Hs)
      (stepped_holds _ _ _ _ _ Hs) Hc1 Hen) as [l Hl].
    exists l. rewrite (after_acc_step _ _ _ _ _ _ _ _ (holds_partial _ _ Hacc) Hs Hne) in Hl.
    eapply runs_next; [unfold counting; lia|done|done|exact Hl].
Qed.
End packets.

(** ** The whole program *)
Section properties.
Context {W : Type} `{PortIO W} `{Interrupts W} `{Receive W}.
Implicit Types s : mlab W.
Import Spec.

Lemma on_world_run {A} (m : M W A) s a w : m (world s) = Done (a, w) →
  on_world m s = Done (a, set_world w s).
Proof. intros E. unfold on_world, zoom. by rewrite E. Qed.

Lemma mouse_subscribe_run s e h w :
  sys_irqsetpolicy MOUSE_IRQ (Z.lor IRQ_REENABLE IRQ_EXCLUSIVE) (mouse_hookID s) (world s)
    = ((e, h), w) →
  mouse_subscribe s = Done ((if e =? 0 then 0 else 1, u8 (BIT (mouse_hookID s))),
    set_mouse_hookID h (set_world w s)).
Proof.
  intros E. unfold mouse_subscribe, mouse_subscribe_int, on_world, zoom. run_unfold. rewrite E.
  by destruct (e =? 0).
Qed.

Lemma mouse_unsubscribe_run s e h w : sys_irqrmpolicy (mouse_hookID s) (world s) = ((e, h), w) →
  mouse_unsubscribe s = Done (if e =? 0 then 0 else 1, set_mouse_hookID h (set_world w s)).
Proof.
  intros E. unfold mouse_unsubscribe, mouse_unsubscribe_int, on_world, zoom. run_unfold. rewrite E.
  by destruct (e =? 0).
Qed.

(** The state in which the program can start: no packet is half received. *)
Definition ready s : Prop := size s = 0 ∧ length (bytes s) = 3%nat ∧ a_byte (data s).

Lemma packet_loop_iff mask cnt s r s' : ready s → 0 <= cnt < 2 ^ 32 →
  (∃ fuel l, message_loop (counting cnt) (packet_message mask) fuel (s, (0, 0)) = Done (r, (s', l))) ↔
  r = None ∧ ∃ bs d w, stream mask (data s) (world s) bs d w ∧ just_enough cnt bs ∧
    s' = after_stream bs d w s.
Proof.
  intros (Hs & Hb & Hd) Hc.
  assert (holds [] (s, (0, 0))) as Hh by (by eapply holds_start).
  assert (∀ bs d w, after_acc [] bs d w s = after_stream bs d w s) as Hafter.
  { intros. unfold after_acc, after_stream. f_equal. simpl. rewrite Hs.
    by destruct (list.last (frames bs)). }
  assert (missing cnt (s, (0, 0)) = cnt) as Hm by (unfold missing; simpl; lia).
  assert (∀ m (p : mlab W * (Z * Z)), masked mask m = false → packet_message mask m p = Done (None, p))
    as Hother by (intros; by apply packet_message_other).
  pose proof (message_loop_iff (counting cnt) (packet_message mask) (masked mask)
    (λ w p, eq_refl : counting cnt (set_the_world w p) = counting cnt p) Hother) as Hiff.
  split.
  - intros (fuel & l & E).
    destruct (packets_runs mask cnt ltac:(lia) _ _ _ (proj1 (Hiff _ _ _) (ex_intro _ _ E)) [] Hh
      ltac:(simpl; lia)) as (-> & bs & d & w & Hst & Hen & Hs'). simpl in Hs'.
    split; [done|]. exists bs, d, w. rewrite Hm in Hen. rewrite Hs', Hafter. done.
  - intros (-> & bs & d & w & Hst & Hen & ->).
    destruct (runs_packets mask cnt ltac:(lia) _ _ _ _ _ Hst [] (s, (0, 0)) eq_refl eq_refl Hh
      ltac:(simpl; lia)) as [l Hl]; [by rewrite Hm|].
    apply Hiff in Hl as [fuel Hf]. exists fuel, l. simpl in Hf. by rewrite Hafter in Hf.
Qed.

(** mouse_test_packet after the reports are enabled and the interrupts subscribed. *)
Lemma mouse_test_packet_loop tries fuel cnt s w h w1 :
  kbc_command_handler tries WRITE_B_MOUSE MOUSE_ENABLE_REPORT (world s) = Done (0, w) →
  sys_irqsetpolicy MOUSE_IRQ (Z.lor IRQ_REENABLE IRQ_EXCLUSIVE) (mouse_hookID s) w = ((0, h), w1) →
  mouse_test_packet tries fuel cnt s =
    match message_loop (counting cnt) (packet_message (u8 (BIT (mouse_hookID s)))) fuel
            (set_mouse_hookID h (set_world w1 s), (0, 0)) with
    | Done (Some rc, (s1, _)) => Done (rc, s1)
    | Done (None, (s1, _)) =>
        (mouse_unsubscribe ;?
         (on_world (kbc_command_handler tries WRITE_B_MOUSE MOUSE_DISABLE_REPORT) ;? mret 0)) s1
    | Undef => Undef
    | OutOfFuel => OutOfFuel
    end.
Proof.
  intros E1 E2. unfold mouse_test_packet. rewrite (check_done _ _ _ _ _ (on_world_run _ _ _ _ E1)).
  cbn [Z.eqb]. rewrite (run_done _ _ _ _ _ (mouse_subscribe_run (set_world w s) _ _ _ E2)).
  cbn [Z.eqb negb]. unfold mbind at 1, M_bind at 1, with_locals.
  change (λ p : mlab W * (Z * Z), p.2.1 <? cnt) with (counting (W:=W) cnt).
  change (mouse_hookID (set_world w s)) with (mouse_hookID s).
  change (set_world w1 (set_world w s)) with (set_world w1 s).
  by destruct (message_loop _ _ _ _) as [[[] []]| |].
Qed.
(** The last steps, from the end of the stream. *)
Lemma packet_end tries s h bs d w2 e h' w3 :
  mouse_hookID s = h → sys_irqrmpolicy h w2 = ((e, h'), w3) →
  (mouse_unsubscribe ;?
   (on_world (kbc_command_handler tries WRITE_B_MOUSE MOUSE_DISABLE_REPORT) ;? mret 0))
    (after_stream bs d w2 s) =
  if e =? 0 then
    match kbc_command_handler tries WRITE_B_MOUSE MOUSE_DISABLE_REPORT w3 with
    | Done (r, w4) => Done (if r =? 0 then 0 else 1, set_mouse_hookID h' (after_stream bs d w4 s))
    | Undef => Undef
    | OutOfFuel => OutOfFuel
    end
  else Done (1, set_mouse_hookID h' (after_stream bs d w3 s)).
Proof.
  intros <- E. rewrite (check_done _ _ _ _ _ (mouse_unsubscribe_run (after_stream bs d w2 s) _ _ _ E)).
  destruct (e =? 0); cbn [Z.eqb]; [|done].
  destruct (kbc_command_handler _ _ _ w3) as [[r w4]| |] eqn:E2.
  - erewrite check_done by (by apply on_world_run). by destruct (r =? 0).
  - unfold check, mbind, M_bind, on_world, zoom. simpl. by rewrite E2.
  - unfold check, mbind, M_bind, on_world, zoom. simpl. by rewrite E2.
Qed.

Lemma after_stream_hook bs d w h w1 h' s :
  set_mouse_hookID h' (after_stream bs d w (set_mouse_hookID h (set_world w1 s))) =
  set_mouse_hookID h' (after_stream bs d w s).
Proof. done. Qed.

Lemma mouse_test_packet_sound tries fuel cnt s s' rc : ready s → 0 <= cnt < 2 ^ 32 →
  mouse_test_packet tries fuel cnt s = Done (rc, s') → test_packet cnt s rc s'.
Proof.
  intros Hs Hc Hf.
  destruct (kbc_command_handler tries WRITE_B_MOUSE MOUSE_ENABLE_REPORT (world s)) as [[r w]| |] eqn:E1;
    [|by unfold mouse_test_packet, check, mbind, M_bind, on_world, zoom in Hf; rewrite E1 in Hf..].
  pose proof (proj1 (command_session _ _ _ _) (ex_intro _ _ E1)) as Hs1.
  destruct (decide (r = 0)) as [->|Hr].
  2: { unfold mouse_test_packet in Hf. rewrite (check_done _ _ _ _ _ (on_world_run _ _ _ _ E1)) in Hf.
    destruct (Z.eqb_spec r 0); [done|]. apply Done_inj in Hf as [<- <-]. by eapply not_enabled. }
  destruct (sys_irqsetpolicy MOUSE_IRQ (Z.lor IRQ_REENABLE IRQ_EXCLUSIVE) (mouse_hookID s) w)
    as [[e h] w1] eqn:E2.
  destruct (decide (e = 0)) as [->|He].
  2: { unfold mouse_test_packet in Hf. rewrite (check_done _ _ _ _ _ (on_world_run _ _ _ _ E1)) in Hf.
    cbn [Z.eqb] in Hf. rewrite (run_done _ _ _ _ _ (mouse_subscribe_run (set_world w s) _ _ _ E2)) in Hf.
    destruct (Z.eqb_spec e 0); [done|]. apply Done_inj in Hf as [<- <-]. by apply (not_subscribed cnt s w e h w1). }
  rewrite (mouse_test_packet_loop _ _ _ _ _ _ _ E1 E2) in Hf.
  set (s0 := set_mouse_hookID h (set_world w1 s)) in *.
  destruct (message_loop _ _ fuel (s0, (0, 0))) as [[o [s1 l]]| |] eqn:El; [|done..].
  edestruct (proj1 (packet_loop_iff (u8 (BIT (mouse_hookID s))) cnt s0 o s1 Hs Hc))
    as (-> & bs & d & w2 & Hst & Hen & ->); [by eauto|].
  destruct (sys_irqrmpolicy h w2) as [[e h'] w3] eqn:E3.
  rewrite (packet_end tries s0 h _ _ _ _ _ _ eq_refl E3) in Hf.
  destruct (Z.eqb_spec e 0) as [->|].
  - destruct (kbc_command_handler tries WRITE_B_MOUSE MOUSE_DISABLE_REPORT w3) as [[r w4]| |] eqn:E4;
      [|done..]. apply Done_inj in Hf as [<- <-].
    pose proof (proj1 (command_session _ _ _ _) (ex_intro _ _ E4)) as Hs4.
    by apply (all_received cnt s w h w1 bs d w2 h' w3 r w4).
  - apply Done_inj in Hf as [<- <-]. by apply (not_unsubscribed cnt s w h w1 bs d w2 e h' w3).
Qed.

Lemma packet_stream_run mask cnt s bs d w h w1 : ready s → 0 <= cnt < 2 ^ 32 →
  stream mask (data s) w1 bs d w → just_enough cnt bs →
  ∃ fuel l, message_loop (counting cnt) (packet_message mask) fuel
    (set_mouse_hookID h (set_world w1 s), (0, 0)) =
    Done (None, (after_stream bs d w (set_mouse_hookID h (set_world w1 s)), l)).
Proof.
  intros Hs Hc Hst Hen. apply packet_loop_iff; [done..|]. split; [done|]. by exists bs, d, w.
Qed.

Lemma mouse_test_packet_complete cnt s s' rc : ready s → 0 <= cnt < 2 ^ 32 →
  test_packet cnt s rc s' → ∃ tries fuel, mouse_test_packet tries fuel cnt s = Done (rc, s').
Proof.
  intros Hs Hc [r w K1 Hr|w e h w1 K1 E2 He|w h w1 bs d w2 e h' w3 K1 E2 Hst Hen E3 He
    |w h w1 bs d w2 h' w3 r w4 K1 E2 Hst Hen E3 K4];
    apply command_session in K1 as [tries E1].
  - exists tries, 0%nat. unfold mouse_test_packet.
    rewrite (check_done _ _ _ _ _ (on_world_run _ _ _ _ E1)). by destruct (Z.eqb_spec r 0).
  - exists tries, 0%nat. unfold mouse_test_packet.
    rewrite (check_done _ _ _ _ _ (on_world_run _ _ _ _ E1)). cbn [Z.eqb].
    rewrite (run_done _ _ _ _ _ (mouse_subscribe_run (set_world w s) _ _ _ E2)).
    by destruct (Z.eqb_spec e 0).
  - destruct (packet_stream_run _ _ _ _ _ _ h _ Hs Hc Hst Hen) as (fuel & l & El).
    exists tries, fuel. rewrite (mouse_test_packet_loop _ _ _ _ _ _ _ E1 E2), El.
    rewrite (packet_end tries (set_mouse_hookID h (set_world w1 s)) h _ _ _ _ _ _ eq_refl E3),
      after_stream_hook.
    by destruct (Z.eqb_spec e 0).
  - apply command_session in K4 as [tries' E4].
    destruct (packet_stream_run _ _ _ _ _ _ h _ Hs Hc Hst Hen) as (fuel & l & El).
    apply (command_loop_more _ tries') in E1. apply (command_loop_more _ tries) in E4.
    rewrite Nat.add_comm in E4. exists (tries + tries')%nat, fuel.
    rewrite (mouse_test_packet_loop _ _ _ _ _ _ _ E1 E2), El.
    rewrite (packet_end _ (set_mouse_hookID h (set_world w1 s)) h _ _ _ _ _ _ eq_refl E3).
    cbn [Z.eqb]. unfold kbc_command_handler. by rewrite E4.
Qed.

(** C32. mouse_test_packet(cnt) is the parser: it ends exactly when the mouse's interrupts have
    brought just enough bytes for [cnt] frames of the reference parser [frames], and has then
    printed the decoded packets of exactly these frames, in order, however the stream starts and
    whatever is lost in it; before and after that it runs the two acknowledged commands and the
    subscription, and returns 1 as soon as one of them fails. *)
Theorem mouse_test_packet_parses cnt s s' rc (Hs : ready s) (Hc : 0 <= cnt < 2 ^ 32) :
  (∃ tries fuel, mouse_test_packet tries fuel cnt s = Done (rc, s')) ↔ test_packet cnt s rc s'.
Proof.
  split; [intros (tries & fuel & Hf); by eapply mouse_test_packet_sound|].
  by apply mouse_test_packet_complete.
Qed.

(** ** Types *)

(** Three bytes, and displacements of nine bits. *)
Definition packet_ok (p : packet) : Prop :=
  length (pk_bytes p) = 3%nat ∧ Forall a_byte (pk_bytes p) ∧
  -256 <= delta_x p < 256 ∧ -256 <= delta_y p < 256.

(** The globals have the values their C types and their use allow: a byte of data, a buffer of
    three bytes of which fewer than three are in use, and packets with 9-bit displacements. *)
Record typed s : Prop := {
  typed_data : a_byte (data s);
  typed_size : 0 <= size s < 3;
  typed_bytes : length (bytes s) = 3%nat ∧ Forall a_byte (bytes s);
  typed_printed : Forall packet_ok (printed s);
}.
Lemma decode_ok f : Forall a_byte (frame_bytes f) → packet_ok (decode f).
Proof.
  destruct f as [[b0 b1] b2]. unfold frame_bytes, decode, decoded, packet_ok. simpl. intros Hf.
  split; [done|]. split; [done|]. rewrite !list.Forall_cons in Hf.
  destruct Hf as (? & ? & ? & _). unfold a_byte in *. split; destruct (Z.testbit b0 _); simpl; lia.
Qed.

Lemma typed_world w s : typed s → typed (set_world w s).
Proof. intros []. by split. Qed.
Lemma typed_hook h s : typed s → typed (set_mouse_hookID h s).
Proof. intros []. by split. Qed.

Lemma take_byte_typed s l : typed s → wp take_byte (λ r p, r = None ∧ typed p.1) (s, l).
Proof.
  intros [Hd Hs [Hl Hb] Hp]. destruct (decide (size s = 2)) as [E|Hne].
  - destruct (bytes s) as [|b0 [|b1 [|b2 [|]]]] eqn:Eb; simplify_eq/=.
    rewrite !list.Forall_cons in Hb. destruct Hb as (? & ? & ? & _).
    unfold wp. rewrite (take_byte_last b0 b1); rewrite ?Eb; try done;
      [|by repeat apply list.Forall_cons_2].
    assert (Forall a_byte (frame_bytes (b0, b1, data s)))
      by (unfold frame_bytes; by repeat apply list.Forall_cons_2).
    split; [done|]. split; simpl; [done|lia|by split|].
    apply list.Forall_app_2; [done|]. apply list.Forall_singleton. by apply decode_ok.
  - pose proof (length_take (bytes s) (Z.to_nat (size s))) as Ht. rewrite Hl in Ht.
    unfold wp. rewrite (take_byte_more (take (Z.to_nat (size s)) (bytes s))) by (done || lia).
    split; [done|]. split; simpl; [done|lia|rewrite length_insert|done]. split; [done|].
    by apply list.Forall_insert.
Qed.

Lemma packet_message_typed mask m p : typed p.1 →
  wp (packet_message mask m) (λ r p', r = None ∧ typed p'.1) p.
Proof.
  intros Hp. destruct (masked mask m) eqn:Em;
    [|unfold wp; by rewrite (packet_message_other _ _ _ Em)].
  destruct (mouse_ih_total (data p.1) (world p.1) (typed_data _ Hp)) as (d & w & Hd & Hbyte).
  unfold wp. rewrite (packet_message_byte _ _ _ _ _ Em Hd).
  assert (typed (received d w p).1) as Hq by (destruct Hp; by split).
  destruct (received d w p) as [s l]. cbn [fst snd] in *.
  destruct (size s =? 0); [destruct (negb _); [done|by apply take_byte_typed]|].
  destruct (l.2 =? 0); [|by apply take_byte_typed]. split; [done|].
  destruct Hq. split; simpl; [done|lia|done|done].
Qed.

Lemma command_loop_wlp fuel arg : ∀ tries (w : W),
  wlp (command_loop fuel WRITE_B_MOUSE arg tries) (λ r _, r = 0 ∨ r = 1) w.
Proof.
  induction fuel as [|fuel IH]; intros tries w; [done|].
  destruct (exchange_total arg w) as (a & w1 & Hx). unfold wlp.
  rewrite (command_loop_step _ _ _ _ _ _ Hx). destruct a as [a|]; [|by right].
  pose proof (IH tries w1) as H1'. pose proof (IH (tries + 1) w1) as H2'. unfold wlp in *. cbn.
  destruct (a =? ACK), (a =? NACK), (a =? ERROR), (tries + 1 <? 3), (tries <? 3); auto.
Qed.

(** C33. Whatever the mouse, the kernel and the other processes do, and wherever a run of
    mouse_test_packet is stopped, it reaches no undefined behaviour (in particular no store outside
    [bytes]) and leaves every global with a value of its type, and every printed packet has three
    bytes and displacements of nine bits. *)
Theorem mouse_test_packet_typed tries fuel cnt s (Ht : typed s) :
  wlp (mouse_test_packet tries fuel cnt) (λ rc s', typed s' ∧ (rc = 0 ∨ rc = 1)) s.
Proof.
  unfold mouse_test_packet. apply wlp_check, wlp_zoom.
  eapply wlp_mono; [|apply command_loop_wlp]. intros rc w _. cbn beta.
  destruct (rc =? 0); [|split; [by apply typed_world|by right]].
  destruct (sys_irqsetpolicy MOUSE_IRQ (Z.lor IRQ_REENABLE IRQ_EXCLUSIVE) (mouse_hookID s) w)
    as [[e h] w1] eqn:E.
  apply wlp_bind. unfold wlp at 1. rewrite (mouse_subscribe_run (set_world w s) _ _ _ E).
  destruct (e =? 0); cbn [Z.eqb negb];
    [|split; [by apply typed_hook, typed_world, typed_world|by right]].
  apply wlp_bind, wlp_with_locals. eapply wlp_mono;
    [|apply (message_loop_wlp _ _ (λ p, typed p.1) (λ _ _, False))].
  - intros [rc'|] [s1 l]; [done|]. intros [H1' _]. cbn in H1'.
    cbn [fst]. apply wlp_check. destruct (sys_irqrmpolicy (mouse_hookID s1) (world s1)) as [[e' h'] w2] eqn:E2.
    unfold wlp at 1. rewrite (mouse_unsubscribe_run _ _ _ _ E2).
    destruct (e' =? 0); cbn [Z.eqb]; [|split; [by apply typed_hook, typed_world|by right]].
    apply wlp_check, wlp_zoom. eapply wlp_mono; [|apply command_loop_wlp]. intros r w3 _. cbn beta.
    destruct (r =? 0); (split; [by apply typed_world, typed_hook, typed_world|]); [by left|by right].
  - intros w2 p Hp. by apply typed_world.
  - intros m p _ Hp. eapply wp_mono; [|by apply packet_message_typed].
    by intros r p' [-> ?].
  - done.
  - by apply typed_hook, typed_world, typed_world.
Qed.
End properties.

(** ** Witnesses *)
Section witnesses.
Import Sim Spec.

(** A controller that is always ready and a mouse that acknowledges the two commands; between
    them a byte without bit 3, which is dropped, and a packet. *)
Definition mouse_sim : sim := MkSim
  [0; 0; 0xFA;  1; 0x02;  1; 0x19;  1; 0xFE;  1; 5;  0; 0; 0xFA] [] 0 []
  [hw_message 4; hw_message 4; hw_message 1; hw_message 4; hw_message 4] [] tiny_mode.

Definition mouse_sim_after : mlab sim :=
  MLab (MkSim [] [(0x64, 0xD4); (0x60, 0xF4); (0x64, 0xD4); (0x60, 0xF5)] 2 [] [] [] tiny_mode)
    2 5 0 [0x19; 0xFE; 5] [Packet [0x19; 0xFE; 5] false false true (-2) 5 false false].

Lemma mouse_test_packet_parses_witness :
  ready (mlab_start mouse_sim) ∧ test_packet 1 (mlab_start mouse_sim) 0 mouse_sim_after.
Proof.
  assert (ready (mlab_start mouse_sim)) as Hr by (split_and!; simpl; unfold a_byte; lia).
  split; [exact Hr|]. apply (mouse_test_packet_parses 1 _ _ 0 Hr); [lia|].
  exists 3%nat, 10%nat. vm_compute. reflexivity.
Defined.

Lemma mouse_test_packet_typed_witness :
  typed (mlab_start mouse_sim) ∧
  wlp (mouse_test_packet 3 10 1) (λ rc s', typed s' ∧ (rc = 0 ∨ rc = 1)) (mlab_start mouse_sim).
Proof.
  assert (typed (mlab_start mouse_sim)) as Ht.
  { split; simpl; unfold a_byte; [lia|lia|split; [done|]|constructor].
    repeat (constructor; [lia|]). constructor. }
  split; [exact Ht|]. exact (mouse_test_packet_typed 3 10 1 _ Ht).
Defined.

(** The stream of the witness has one frame. *)
Example frames_resynchronise : frames [0x02; 0x19; 0xFE; 5] = [(0x19, 0xFE, 5)].
Proof. reflexivity. Qed.
End witnesses.
