(* ===== verification/Lab5Pixmaps.v ===== *)
(** * lab5/pixmap.h: the example pixmaps

    The pixmaps that the course gives with lab5, row by row: five in indexed colours, two in the
    XPM 3 format with RGB colours.  Each is well-formed in its format. *)

From S2P Require Import Prelude Xpm IndexedXpm.

Definition pic1 : xpm_map := [
"32 13 4";
"  0";
"x 2";
"o 14";
"+ 4";
"                                ";
"              xxx               ";
"            xxxxxxx             ";
"         xxxxxx+xxxxxx          ";
"      xxxxxxx+++++xxxxxxx       ";
"    xxxxxxx+++++++++xxxxxxx     ";
"    xxxxxxx+++++++++xxxxxxx     ";
"      xxxxxxx+++++xxxxxxx       ";
"         xxxxxx+xxxxxx          ";
"          ooxxxxxxxoo           ";
"       ooo           ooo        ";
"     ooo               ooo      ";
"   ooo                   ooo    "]%xpm.

Definition pic2 : xpm_map := [
"32 15 3";
"  0";
"x 4";
"+ 1";
"                                ";
"              xxx               ";
"            xxxxxxx             ";
"         xxxxxx+xxxxxx          ";
"      xxxxxxx+++++xxxxxxx       ";
"      xxxxxxx+++++xxxxxxx       ";
"++++xxxxxxx+++++++++xxxxxxx+++++";
"++++xxxxxxx+++++++++xxxxxxx+++++";
"++++xxxxxxx+++++++++xxxxxxx+++++";
"      xxxxxxx+++++xxxxxxx       ";
"      xxxxxxx+++++xxxxxxx       ";
"         xxxxxx+xxxxxx          ";
"            xxxxxxx             ";
"              xxx               ";
"                                "]%xpm.

Definition cross : xpm_map := [
"32 32 2";
"  0";
"+ 13";
"               +                ";
"               +                ";
"               +                ";
"               +                ";
"               +                ";
"               +                ";
"               +                ";
"               +                ";
"               +                ";
"               +                ";
"               +                ";
"               +                ";
"               +                ";
"             ++ ++              ";
"            +     +             ";
"           +       +            ";
"+++++++++++         ++++++++++++";
"           +       +            ";
"            +     +             ";
"             ++ ++              ";
"               +                ";
"               +                ";
"               +                ";
"               +                ";
"               +                ";
"               +                ";
"               +                ";
"               +                ";
"               +                ";
"               +                ";
"               +                ";
"               +                "]%xpm.

Definition pic3 : xpm_map := [
"64 32 3";
"  0";
"+ 1";
"o 2";
"                              ++++++                            ";
"                         ++++++++++++++++                       ";
"                      ++++++++++++++++++++++                    ";
"                    ++++++++++++++++++++++++++                  ";
"                 ++++++++++++++++++++++++++++++++               ";
"               ++++++++++++++++++++++++++++++++++++             ";
"             ++++++++++++++++++++++++++++++++++++++++           ";
"            ++++++++++++++++++++++++++++++++++++++++++          ";
"          ++++++++++++++++++++++++++++++++++++++++++++++        ";
"         ++++++++++++++++++++++++++++++++++++++++++++++++       ";
"        +++++++++++++++++++++++++++++++++++++++++++++++++       ";
"       +++++++++++++++++++++++++++++++++++++++++++++++++++      ";
"      +++++++++++++++++++++++++++++++++++++++++++++++++++++     ";
"     ++++++++++++++++++++++++++++++++++++++++++++++++++++++     ";
"    ++++++++++++++++++++++++++++++++++++++++++++++++++++++++    ";
"   ++++++++++++++++++++++++++++++++++++++++++++++++++++++++++   ";
"   ++++++++++++++++++++++++++++++++++++++++++++++++++++++++++   ";
"  ++++++++++++++++++++++++++++++++++++++++++++++++++++++++++++  ";
"  ++++++++++++++++++++++++++++++++++++++++++++++++++++++++++++  ";
" ++++++++++++++++++++++++++++++++++++++++++++++++++++++++++++++ ";
" +++++ooo+++++++++ooo+++++++++ooo+++++++++ooo+++++++++ooo++++++ ";
" ++++ooooo+++++++ooooo+++++++ooooo+++++++ooooo+++++++ooooo+++++ ";
" +++ooooooo+++++ooooooo+++++ooooooo+++++ooooooo+++++ooooooo++++ ";
" ++++ooooo+++++++ooooo+++++++ooooo+++++++ooooo+++++++ooooo+++++ ";
" +++++ooo+++++++++ooo+++++++++ooo+++++++++ooo+++++++++ooo++++++ ";
" ++++++++++++++++++++++++++++++++++++++++++++++++++++++++++++++ ";
" ++++++++++++++++++++++++++++++++++++++++++++++++++++++++++++++ ";
" ++++++++++++++++++++++++++++++++++++++++++++++++++++++++++++++ ";
"++++++++++++++++++++++++++++++++++++++++++++++++++++++++++++++++";
"++++++++++++++++++++++++++++++++++++++++++++++++++++++++++++++++";
"++++++++++++++++++++++++++++++++++++++++++++++++++++++++++++++++";
"++++++++++++++++++++++++++++++++++++++++++++++++++++++++++++++++"]%xpm.

Definition penguin : xpm_map := [
"64 64 9";
"  0";
". 15";
"+ 8";
"@ 14";
"# 4";
"$ 6";
"% 7";
"& 9";
"* 1";
"                                                                ";
"                                                                ";
"                           +#++#&+#+                            ";
"                        +..%......&.+++                         ";
"                     #...+..+.+.+.#.+.+++                       ";
"                    .*#%..+.%.&.#*+.#%.++++                     ";
"                  #.+.#*#%..+.#*#.%#*#+.++++                    ";
"                 .&.%......#*#.%.+.#&.+%#%++++                  ";
"                #*#..........+.+.+.+.+.++#+++++                 ";
"               &#.+..........%.+.&#*#&#*.+&+++++                ";
"              +.+.............#*#.+.......#++++++               ";
"             #+.+..............+.+..........+++++               ";
"            +&.+%..............%+............+++++              ";
"            ++.+#.............................+++++             ";
"           ++.+%.............#..#..#..........+++++             ";
"          +++.++%..........#    .    #........++++++            ";
"          ++++.+...........#   .     #.....%..+++++++           ";
"          ++%+#+&..........#   .     #........+++++++           ";
"         +++#*+#..%.........#  .    #........%+++++++           ";
"         ++++%+++..%..%......#.#..#...%..%#..+++++++++          ";
"        +++++#+&+#.......%..................++++++++++          ";
"        ++++*++.+++.%.#...@@@@@@@@@@@@...%.+++++++++++          ";
"        +++++#+++%#$#.&.+.%@@@@@@@@@@...#++++++++++++++         ";
"        +++++&+.++++*.#.....@@@@@@@@......+++++++++&+++         ";
"       ++++++++++%#%....%....@@@@@@........+++++++++++%         ";
"       +++++++++++#...........@@@@@.........+++++++++++         ";
"       ++++++++++..............@@@...........+++++++++++        ";
"      +++++++++++...............@.............+++++%+++++       ";
"    ++++++++++++.....................%.........+++++++++++      ";
"   ++++++++++++%.........................%..%..%++++%++++++     ";
"  +++++++++++++...............................#.++++++++++++    ";
" +++++++++++++%..%.........................#.....++++++++++++   ";
"++++++++++++++........................%..%..%.+.%++%++++++++++  ";
"++++++++++++++...................................#++%++++++++++ ";
"    +++++++++...%..%.....................%.+.%#.%.++++++        ";
"       ++++++%....................%...........$.#.#+#%+         ";
"       +++++#........................%..#..+.#.%$%+&+++         ";
"        ++++&.#.%..%....................%...*#.#...+#++         ";
"        ++++..%...........................%..%.+.+.+&++         ";
"        +++++...%.....%.........%...%..+..#.#..#.%.+#+          ";
"        ++++..#...%......%...............&.*.+.*#$#&++          ";
"         +++..*#...%.........%.....#..%...#.%.#%.+..++          ";
"         +++.#...#..............%...%..#..&.#*#.+.+++           ";
"          ++.%.&...%..%..%..........#..*#..+..+.#%.++           ";
"          ++..#..+..........%...%..$..%..+..&#*.+.+++           ";
"           +*.+.....%............#..$.#...+.#.+.+%.+            ";
"           +...%.+.#..%.%..#.%.#..%.#.*#%..&.+.+.+++            ";
"            +.+.......#..%.....%...%.#..&#$#%.+.+.+             ";
"            #..%#*#%....#..+..$..+..+.&#.+.+.+%+#&              ";
"             +.....#*#$.+...%.#...+....+.%#*#.+.+               ";
"              +.+.&..%..%.+.#.&.+..&#+.+.+.+.++++               ";
"               %..+.#.+.+.+.*#..%#.$.+.&#*#&#%.+                ";
"                +.%#*#%#$.%#.+.+.+.+%#$#+%#*+++                 ";
"                 @#.#$#%++.+.%.+.&.#*#%+#$##$#                  ";
"          .@.@@@@@@@@@@$#.++.+.#.+.+%#$......@@@@@@@            ";
"        @@@@@.@.@@@@@@@@@$.+$#&+.+.+@@..@....@.@@@$@@$          ";
"       @@@@@@.@@.@$@$@$$@$@+%#$#&#+@@.@..@@.@.@@$@@$$$$+        ";
"      @@@@@@@@@@@@@$@$@$@$$$+%+.+%$$@@$@@.@.@$@$@$$@$$$$        ";
"       @@@@$@$@$@$$@$$$$$$$#++++++#$@$@$$$$@$$@$$$$$$$$+        ";
"        @$@@$@$@$@$$$$$$$$          $$$$@$$$$$$$$$$$$$+         ";
"          $$@$$$$$$$$$$$               $$$$$$$$$$$$+            ";
"                                                                ";
"                                                                ";
"                                                                "]%xpm.

Definition minix3_xpm : xpm_map := [
"196 196 950 2";
"  	c None";
". 	c #C1C1C1";
"+ 	c #323232";
"@ 	c #090909";
"# 	c #010101";
"$ 	c #161616";
"% 	c #9C9C9C";
"& 	c #B7B7B7";
"* 	c #939393";
"= 	c #969696";
"- 	c #A6A6A6";
"; 	c #BDBDBD";
"> 	c #EBEBEB";
", 	c #E2E2E2";
"' 	c #E6E6E6";
") 	c #EAEAEA";
"! 	c #C2C2C2";
"~ 	c #8C8C8C";
"{ 	c #6F6F6F";
"] 	c #666666";
"^ 	c #0A0A0A";
"/ 	c #101010";
"( 	c #6B6B6B";
"_ 	c #A5A5A5";
": 	c #181818";
"< 	c #0E0E0E";
"[ 	c #6A6A6A";
"} 	c #080808";
"| 	c #000000";
"1 	c #030303";
"2 	c #1E1E1E";
"3 	c #4C4C4C";
"4 	c #929292";
"5 	c #E7E7E7";
"6 	c #DBDBDB";
"7 	c #8F8F8F";
"8 	c #898989";
"9 	c #B2B2B2";
"0 	c #B0B0B0";
"a 	c #3F3F3F";
"b 	c #1B1B1B";
"c 	c #797979";
"d 	c #B1B1B1";
"e 	c #E0E0E0";
"f 	c #7E7E7E";
"g 	c #6E6E6E";
"h 	c #353535";
"i 	c #FFFFFF";
"j 	c #4B4B4B";
"k 	c #070707";
"l 	c #252525";
"m 	c #040404";
"n 	c #0C0C0C";
"o 	c #121212";
"p 	c #020202";
"q 	c #1D1D1D";
"r 	c #5A5A5A";
"s 	c #C5C5C5";
"t 	c #535353";
"u 	c #9B9B9B";
"v 	c #696969";
"w 	c #676767";
"x 	c #4D4D4D";
"y 	c #2C2C2C";
"z 	c #2B2B2B";
"A 	c #DEDEDE";
"B 	c #0B0B0B";
"C 	c #565656";
"D 	c #FEFEFE";
"E 	c #D6D4D5";
"F 	c #8E8E8E";
"G 	c #4F4F4F";
"H 	c #212121";
"I 	c #393939";
"J 	c #858585";
"K 	c #E4E4E4";
"L 	c #7B7B7B";
"M 	c #151515";
"N 	c #CFCFCF";
"O 	c #959595";
"P 	c #707070";
"Q 	c #5F5F5F";
"R 	c #2A2A2A";
"S 	c #303030";
"T 	c #CACACA";
"U 	c #B8B7B8";
"V 	c #808080";
"W 	c #E3E3E3";
"X 	c #363636";
"Y 	c #232323";
"Z 	c #BFBFBF";
"` 	c #959495";
" .	c #7D7D7D";
"..	c #8B8B8B";
"+.	c #A7A7A7";
"@.	c #B5B5B5";
"#.	c #A2A2A2";
"$.	c #616161";
"%.	c #191919";
"&.	c #CECECE";
"*.	c #E9E9E9";
"=.	c #CBCBCB";
"-.	c #979797";
";.	c #6C6C6C";
">.	c #5E5E5E";
",.	c #E8E8E8";
"'.	c #C7C7C7";
").	c #292929";
"!.	c #1A1A1A";
"~.	c #BABABA";
"{.	c #E7E6E7";
"].	c #D5D4D4";
"^.	c #D3D2D2";
"/.	c #E4E3E3";
"(.	c #3E3E3E";
"_.	c #909090";
":.	c #050505";
"<.	c #A9A9A9";
"[.	c #ADADAD";
"}.	c #E3E2E2";
"|.	c #CDCBCC";
"1.	c #E5E3E4";
"2.	c #E1E0E1";
"3.	c #D0CECF";
"4.	c #D7D5D6";
"5.	c #F7F7F7";
"6.	c #131313";
"7.	c #848484";
"8.	c #DCDCDC";
"9.	c #BEBEBE";
"0.	c #141414";
"a.	c #B9B9B9";
"b.	c #9E9D9D";
"c.	c #404040";
"d.	c #272727";
"e.	c #8C8B8C";
"f.	c #D1CFD0";
"g.	c #FCFBFB";
"h.	c #DBDADB";
"i.	c #999999";
"j.	c #2D2D2D";
"k.	c #B4B4B4";
"l.	c #818181";
"m.	c #6D6D6D";
"n.	c #727272";
"o.	c #717171";
"p.	c #E5E5E5";
"q.	c #BAB9BA";
"r.	c #0D0D0D";
"s.	c #2F2F2F";
"t.	c #595959";
"u.	c #BCBCBC";
"v.	c #D3D3D3";
"w.	c #E9E8E9";
"x.	c #B0AEAF";
"y.	c #DEDDDE";
"z.	c #DDDCDC";
"A.	c #E0DFDF";
"B.	c #E2E1E2";
"C.	c #ECEBEC";
"D.	c #D5D5D5";
"E.	c #C3C3C3";
"F.	c #C4C4C4";
"G.	c #CCCCCC";
"H.	c #D9D9D9";
"I.	c #ECECEC";
"J.	c #AEAEAE";
"K.	c #1C1C1C";
"L.	c #202020";
"M.	c #505050";
"N.	c #D1D1D1";
"O.	c #B8B8B8";
"P.	c #868686";
"Q.	c #767676";
"R.	c #AFAFAF";
"S.	c #E8E7E8";
"T.	c #8D8D8D";
"U.	c #838383";
"V.	c #737373";
"W.	c #F9F9F9";
"X.	c #D7D7D7";
"Y.	c #3C3C3C";
"Z.	c #515151";
"`.	c #3B3B3B";
" +	c #FCFCFC";
".+	c #D2D2D2";
"++	c #D0D0D0";
"@+	c #DFDDDE";
"#+	c #ADACAD";
"$+	c #989898";
"%+	c #262626";
"&+	c #D6D6D6";
"*+	c #9A9A9A";
"=+	c #A1A1A1";
"-+	c #ABABAB";
";+	c #646464";
">+	c #DDDDDD";
",+	c #343434";
"'+	c #C9C8C8";
")+	c #333333";
"!+	c #434343";
"~+	c #CDCDCD";
"{+	c #CBC9CA";
"]+	c #DCDADB";
"^+	c #ACACAC";
"/+	c #949293";
"(+	c #AAA9A9";
"_+	c #9E9E9E";
":+	c #A3A3A3";
"<+	c #E1E1E1";
"[+	c #575757";
"}+	c #0F0F0F";
"|+	c #828282";
"1+	c #4A4A4A";
"2+	c #888888";
"3+	c #7A7A7A";
"4+	c #C8C8C8";
"5+	c #A8A8A8";
"6+	c #5B5B5B";
"7+	c #878787";
"8+	c #777777";
"9+	c #F6F6F6";
"0+	c #686868";
"a+	c #757575";
"b+	c #B4B2B3";
"c+	c #E0DEDF";
"d+	c #787878";
"e+	c #060606";
"f+	c #AAAAAA";
"g+	c #E2E1E1";
"h+	c #CECCCD";
"i+	c #EDEDED";
"j+	c #D6D5D6";
"k+	c #C3C1C2";
"l+	c #9F9F9F";
"m+	c #7C7C7C";
"n+	c #626262";
"o+	c #D4D2D3";
"p+	c #DEDDDD";
"q+	c #9D9D9D";
"r+	c #C3C2C2";
"s+	c #919191";
"t+	c #F4F4F4";
"u+	c #E7E6E6";
"v+	c #CFCDCE";
"w+	c #EDECED";
"x+	c #747474";
"y+	c #BEBDBE";
"z+	c #C0C0C0";
"A+	c #D4D4D4";
"B+	c #494949";
"C+	c #DFDEDE";
"D+	c #D9D7D8";
"E+	c #555555";
"F+	c #AAA8A9";
"G+	c #AEADAD";
"H+	c #3D3D3D";
"I+	c #E0DFE0";
"J+	c #E5E4E4";
"K+	c #DCDBDC";
"L+	c #DFDFDF";
"M+	c #474747";
"N+	c #D8D7D7";
"O+	c #D2D1D1";
"P+	c #E3E2E3";
"Q+	c #BBBBBB";
"R+	c #454545";
"S+	c #CAC8C9";
"T+	c #A0A0A0";
"U+	c #8A8A8A";
"V+	c #E6E5E5";
"W+	c #D9D8D8";
"X+	c #111111";
"Y+	c #656565";
"Z+	c #545454";
"`+	c #B3B3B3";
" @	c #D5D3D4";
".@	c #DAD9D9";
"+@	c #F7F6F6";
"@@	c #C0BEBF";
"#@	c #CCCACB";
"$@	c #C9C9C9";
"%@	c #D5D4D5";
"&@	c #D8D7D8";
"*@	c #D3D1D2";
"=@	c #414141";
"-@	c #D2D1D2";
";@	c #E5E4E5";
">@	c #B6B6B6";
",@	c #FDFDFD";
"'@	c #525151";
")@	c #C0BFC0";
"!@	c #7F7F7F";
"~@	c #848383";
"{@	c #8B8A8A";
"]@	c #8B8A8B";
"^@	c #949394";
"/@	c #ABAAAB";
"(@	c #848384";
"_@	c #6F6E6F";
":@	c #8D8C8D";
"<@	c #585858";
"[@	c #F1F1F1";
"}@	c #D2D0D1";
"|@	c #171717";
"1@	c #949494";
"2@	c #ACABAC";
"3@	c #B1B0B0";
"4@	c #E6E4E5";
"5@	c #C5C3C4";
"6@	c #373737";
"7@	c #BAB9B9";
"8@	c #A4A3A3";
"9@	c #C7C5C6";
"0@	c #858485";
"a@	c #C4C2C3";
"b@	c #A7A6A7";
"c@	c #BFBEBF";
"d@	c #6E6D6D";
"e@	c #3A393A";
"f@	c #3D3C3C";
"g@	c #DCDBDB";
"h@	c #C2C1C2";
"i@	c #1F1F1F";
"j@	c #E4E3E4";
"k@	c #D7D6D7";
"l@	c #A9A8A8";
"m@	c #5D5D5D";
"n@	c #BDBCBC";
"o@	c #B7B6B7";
"p@	c #A1A0A1";
"q@	c #9F9D9E";
"r@	c #C6C4C5";
"s@	c #8F8E8F";
"t@	c #BBBABB";
"u@	c #BEBCBD";
"v@	c #B7B5B6";
"w@	c #BCBBBB";
"x@	c #9B9A9B";
"y@	c #B2B0B1";
"z@	c #282828";
"A@	c #DADADA";
"B@	c #888687";
"C@	c #C8C6C7";
"D@	c #818081";
"E@	c #7D7C7D";
"F@	c #A8A7A7";
"G@	c #807F7F";
"H@	c #7F7E7F";
"I@	c #B6B4B5";
"J@	c #A7A5A6";
"K@	c #B1AFB0";
"L@	c #9A999A";
"M@	c #DFDEDF";
"N@	c #B8B6B7";
"O@	c #636363";
"P@	c #C6C6C6";
"Q@	c #C1BFC0";
"R@	c #919091";
"S@	c #727171";
"T@	c #B5B4B5";
"U@	c #717071";
"V@	c #A5A4A5";
"W@	c #898889";
"X@	c #BFBDBE";
"Y@	c #A9A8A9";
"Z@	c #999899";
"`@	c #C2C0C1";
" #	c #F5F5F5";
".#	c #E9E8E8";
"+#	c #EFEEEE";
"@#	c #706F6F";
"##	c #E6E5E6";
"$#	c #D8D6D7";
"%#	c #C5C4C4";
"&#	c #939293";
"*#	c #A6A5A5";
"=#	c #AFAEAF";
"-#	c #BCBABB";
";#	c #828181";
">#	c #AFADAE";
",#	c #8E8D8D";
"'#	c #B3B2B3";
")#	c #ADABAC";
"!#	c #DAD8D9";
"~#	c #4E4E4E";
"{#	c #C4C3C4";
"]#	c #C0BFBF";
"^#	c #BBB9BA";
"/#	c #878687";
"(#	c #737273";
"_#	c #767575";
":#	c #929191";
"<#	c #979697";
"[#	c #BEBDBD";
"}#	c #444444";
"|#	c #E3E1E2";
"1#	c #C9C7C8";
"2#	c #8C8B8B";
"3#	c #868585";
"4#	c #B5B3B4";
"5#	c #908F8F";
"6#	c #DBD9DA";
"7#	c #EFEEEF";
"8#	c #B9B8B9";
"9#	c #484848";
"0#	c #D7D6D6";
"a#	c #9A9999";
"b#	c #7C7B7B";
"c#	c #9F9E9F";
"d#	c #A4A4A4";
"e#	c #DDDCDD";
"f#	c #797879";
"g#	c #E1E0E0";
"h#	c #D4D3D3";
"i#	c #A3A2A3";
"j#	c #9C9B9B";
"k#	c #7B7A7B";
"l#	c #ACABAB";
"m#	c #A9A7A8";
"n#	c #BDBCBD";
"o#	c #9B9A9A";
"p#	c #D1D0D0";
"q#	c #D6D5D5";
"r#	c #464646";
"s#	c #5C5C5C";
"t#	c #525252";
"u#	c #A2A1A1";
"v#	c #949393";
"w#	c #757475";
"x#	c #2E2E2E";
"y#	c #C1C0C0";
"z#	c #A4A3A4";
"A#	c #B2B1B1";
"B#	c #BAB8B9";
"C#	c #DAD9DA";
"D#	c #969595";
"E#	c #B4B3B3";
"F#	c #A5A3A4";
"G#	c #D3D2D3";
"H#	c #FBFBFB";
"I#	c #DDDBDC";
"J#	c #D8D8D8";
"K#	c #CECDCD";
"L#	c #B5B4B4";
"M#	c #A1A0A0";
"N#	c #9B999A";
"O#	c #B8B7B7";
"P#	c #989797";
"Q#	c #B1B0B1";
"R#	c #D0CFD0";
"S#	c #D0CFCF";
"T#	c #E4E2E3";
"U#	c #8A8989";
"V#	c #ABA9AA";
"W#	c #C1C0C1";
"X#	c #CDCCCD";
"Y#	c #9D9C9D";
"Z#	c #E2E0E1";
"`#	c #ABAAAA";
" $	c #BDBBBC";
".$	c #424242";
"+$	c #E8E7E7";
"@$	c #A7A6A6";
"#$	c #F3F2F3";
"$$	c #787777";
"%$	c #A19FA0";
"&$	c #F6F5F6";
"*$	c #EBEAEB";
"=$	c #888787";
"-$	c #7A7979";
";$	c #A3A1A2";
">$	c #B0AFAF";
",$	c #AAA9AA";
"'$	c #7E7D7E";
")$	c #C8C7C8";
"!$	c #FBFAFA";
"~$	c #A09F9F";
"{$	c #C2C1C1";
"]$	c #C7C6C6";
"^$	c #242424";
"/$	c #908F90";
"($	c #C3C2C3";
"_$	c #9C9B9C";
":$	c #838283";
"<$	c #C6C5C6";
"[$	c #A6A5A6";
"}$	c #B0AFB0";
"|$	c #EDECEC";
"1$	c #757474";
"2$	c #BBBABA";
"3$	c #BCBBBC";
"4$	c #B9B7B8";
"5$	c #878686";
"6$	c #B6B5B5";
"7$	c #A8A7A8";
"8$	c #BFBEBE";
"9$	c #7F7E7E";
"0$	c #C5C4C5";
"a$	c #E1DFE0";
"b$	c #666566";
"c$	c #C6C5C5";
"d$	c #C7C6C7";
"e$	c #C4C3C3";
"f$	c #AFAEAE";
"g$	c #8F8E8E";
"h$	c #A2A1A2";
"i$	c #A3A2A2";
"j$	c #979696";
"k$	c #959494";
"l$	c #B2B1B2";
"m$	c #CAC9CA";
"n$	c #B4B3B4";
"o$	c #AEADAE";
"p$	c #B9B8B8";
"q$	c #999898";
"r$	c #939292";
"s$	c #313131";
"t$	c #9D9B9C";
"u$	c #EEEDED";
"v$	c #7E7D7D";
"w$	c #CDCCCC";
"x$	c #575657";
"y$	c #6C6B6B";
"z$	c #D9D8D9";
"A$	c #CFCECF";
"B$	c #F2F2F2";
"C$	c #747373";
"D$	c #3A3A3A";
"E$	c #AEACAD";
"F$	c #F8F7F8";
"G$	c #DEDCDD";
"H$	c #DBDADA";
"I$	c #676667";
"J$	c #383838";
"K$	c #FAFAFA";
"L$	c #F8F8F8";
"M$	c #222222";
"N$	c #FBFBFC";
"O$	c #E0E0EC";
"P$	c #EFEFF5";
"Q$	c #FDFDFE";
"R$	c #E2E2ED";
"S$	c #E3E3EE";
"T$	c #FBFBFD";
"U$	c #C0C0C4";
"V$	c #E8E8F1";
"W$	c #E1E1ED";
"X$	c #F7F7FA";
"Y$	c #EBEBF1";
"Z$	c #F3F3F7";
"`$	c #EEEDEE";
" %	c #606060";
".%	c #88888A";
"+%	c #5A5A5B";
"@%	c #E6E6F0";
"#%	c #E5E5EF";
"$%	c #9D9DA2";
"%%	c #2D2D2E";
"&%	c #A9A9AE";
"*%	c #E1E1EA";
"=%	c #F9F9FB";
"-%	c #E1E1EC";
";%	c #838387";
">%	c #303031";
",%	c #99999D";
"'%	c #D7D7DF";
")%	c #E4E4EE";
"!%	c #CBCBD3";
"~%	c #2F2F30";
"{%	c #77777A";
"]%	c #B8B8BE";
"^%	c #DEDEE7";
"/%	c #F2F2F7";
"(%	c #E4E4EF";
"_%	c #F8F8FB";
":%	c #DDDDE7";
"<%	c #68686B";
"[%	c #959599";
"}%	c #C7C7CD";
"|%	c #E0E0E9";
"1%	c #A8A8AE";
"2%	c #09090A";
"3%	c #E7E7F0";
"4%	c #E6E6EF";
"5%	c #5A5A5D";
"6%	c #EDEDF2";
"7%	c #E7E7F1";
"8%	c #9C9CA1";
"9%	c #F6F6F9";
"0%	c #EDEDF1";
"a%	c #96969A";
"b%	c #616164";
"c%	c #A1A1A3";
"d%	c #747479";
"e%	c #88888D";
"f%	c #99999F";
"g%	c #B5B5BE";
"h%	c #D3D3DE";
"i%	c #C9C9D4";
"j%	c #A9A9B2";
"k%	c #8D8D94";
"l%	c #7F7F86";
"m%	c #B0B0B9";
"n%	c #9B9BA0";
"o%	c #717176";
"p%	c #636366";
"q%	c #686869";
"r%	c #666667";
"s%	c #656567";
"t%	c #5F5F62";
"u%	c #6E6E74";
"v%	c #7B7B81";
"w%	c #898990";
"x%	c #A6A6AF";
"y%	c #CDCDD8";
"z%	c #DCDCE8";
"A%	c #BDBDC7";
"B%	c #96969F";
"C%	c #83838A";
"D%	c #75757A";
"E%	c #6B6B6F";
"F%	c #626264";
"G%	c #666668";
"H%	c #737379";
"I%	c #78787C";
"J%	c #DFDFEB";
"K%	c #B4B4BE";
"L%	c #8F8F97";
"M%	c #77777D";
"N%	c #6C6C71";
"O%	c #606065";
"P%	c #565659";
"Q%	c #5C5C5F";
"R%	c #626265";
"S%	c #707074";
"T%	c #8A8A92";
"U%	c #B0B0B7";
"V%	c #5E5D5D";
"W%	c #F4F4F8";
"X%	c #ECECF2";
"Y%	c #DEDEEA";
"Z%	c #C1C1CC";
"`%	c #9B9BA3";
" &	c #84848B";
".&	c #76767B";
"+&	c #6A6A6E";
"@&	c #5E5E61";
"#&	c #646466";
"$&	c #676768";
"%&	c #58585B";
"&&	c #5B5B5F";
"*&	c #66666B";
"=&	c #727277";
"-&	c #7E7E84";
";&	c #A0A0A8";
">&	c #C7C7D2";
",&	c #A3A3AB";
"'&	c #7B7B82";
")&	c #65656A";
"!&	c #59595D";
"~&	c #525255";
"{&	c #646465";
"]&	c #6F6F71";
"^&	c #838385";
"/&	c #9C9C9E";
"(&	c #CCCCD0";
"_&	c #D0D0DB";
":&	c #9E9EA7";
"<&	c #808086";
"[&	c #6E6E73";
"}&	c #606063";
"|&	c #636365";
"1&	c #555558";
"2&	c #545457";
"3&	c #5F5F63";
"4&	c #6D6D73";
"5&	c #B2B2BC";
"6&	c #D5D5E0";
"7&	c #DFDFE9";
"8&	c #252526";
"9&	c #E5E5EA";
"0&	c #C2C2CD";
"a&	c #9C9CA5";
"b&	c #79797F";
"c&	c #606064";
"d&	c #818188";
"e&	c #AAAAB3";
"f&	c #DADAE6";
"g&	c #515252";
"h&	c #818183";
"i&	c #69696C";
"j&	c #616163";
"k&	c #5A5A5E";
"l&	c #86868E";
"m&	c #ACACB5";
"n&	c #D2D2DD";
"o&	c #FCFCFD";
"p&	c #A7A7AB";
"q&	c #59595C";
"r&	c #A5A5AB";
"s&	c #7E7E82";
"t&	c #6E6E71";
"u&	c #5F5F61";
"v&	c #777778";
"w&	c #BEBEC0";
"x&	c #101111";
"y&	c #656666";
"z&	c #8D8E8E";
"A&	c #979898";
"B&	c #737474";
"C&	c #3D3E3E";
"D&	c #707076";
"E&	c #8B8B92";
"F&	c #BCBCC6";
"G&	c #BDBDC1";
"H&	c #E2E2EC";
"I&	c #CACACC";
"J&	c #D3D5D5";
"K&	c #D1D3D3";
"L&	c #838484";
"M&	c #B2B2B4";
"N&	c #DFDFE6";
"O&	c #D1D1D2";
"P&	c #949496";
"Q&	c #79797A";
"R&	c #656566";
"S&	c #7B7B7C";
"T&	c #959597";
"U&	c #8C8D8D";
"V&	c #C3C4C4";
"W&	c #C9CBCB";
"X&	c #A7A9A9";
"Y&	c #636464";
"Z&	c #F8F8FA";
"`&	c #C5C5CB";
" *	c #8F8F91";
".*	c #777779";
"+*	c #858589";
"@*	c #2F3030";
"#*	c #5B5C5C";
"$*	c #898A8A";
"%*	c #979999";
"&*	c #888989";
"**	c #0C0D0D";
"=*	c #545455";
"-*	c #F1F1F6";
";*	c #C5C5C8";
">*	c #919192";
",*	c #ABABB1";
"'*	c #111212";
")*	c #2E2F2F";
"!*	c #5D5E5E";
"~*	c #454646";
"{*	c #262727";
"]*	c #6C6C6E";
"^*	c #EEEEF1";
"/*	c #F7F7F8";
"(*	c #575759";
"_*	c #0A0B0B";
":*	c #5E5E60";
"<*	c #D0D0D8";
"[*	c #D2D2D5";
"}*	c #C3C3C9";
"|*	c #C1C1C8";
"1*	c #B4B4BA";
"2*	c #ECECF1";
"3*	c #F3F3F8";
"4*	c #AEAEB4";
"5*	c #9E9EA3";
"6*	c #737376";
"7*	c #727276";
"8*	c #D3D3DC";
"9*	c #D4D4DD";
"0*	c #6D6D70";
"a*	c #D7D7E0";
"b*	c #87878C";
"c*	c #D8D8E1";
"d*	c #D6D6DE";
"e*	c #262627";
"f*	c #E6E6EE";
"g*	c #DEDEE8";
"h*	c #5D5D60";
"i*	c #505052";
"j*	c #B2B2B8";
"k*	c #828286";
"l*	c #A5A5AA";
"m*	c #A4A4AA";
"n*	c #0B0B0C";
"o*	c #C9C9D1";
"p*	c #CCCCD4";
"q*	c #C4C4CB";
"r*	c #3F3F41";
"s*	c #E5E5E7";
"t*	c #C2C2C9";
"u*	c #A1A1A7";
"v*	c #9A9A9F";
"w*	c #1A1A1B";
"x*	c #181819";
"y*	c #CDCDD5";
"z*	c #B3B3B4";
"A*	c #313132";
"B*	c #343435";
"C*	c #B6B6BC";
"D*	c #919196";
"E*	c #323234";
"F*	c #F7F7F9";
"G*	c #3B3B3C";
"H*	c #ACACB2";
"I*	c #D8D8E2";
"J*	c #D5D5DD";
"K*	c #A8A8AD";
"L*	c #B3B3B9";
"M*	c #E0E0EA";
"N*	c #A7A7AC";
"O*	c #19191A";
"P*	c #ABABB2";
"Q*	c #E5E5ED";
"R*	c #1B1B1C";
"S*	c #272728";
"T*	c #39393B";
"U*	c #818185";
"V*	c #A0A0A5";
"W*	c #7B7B7E";
"X*	c #323233";
"Y*	c #B5B5B7";
"Z*	c #211818";
"`*	c #583F3F";
" =	c #6A5555";
".=	c #6F5858";
"+=	c #6E5858";
"@=	c #645353";
"#=	c #0F0E0E";
"$=	c #141212";
"%=	c #635252";
"&=	c #715858";
"*=	c #745757";
"==	c #775C5C";
"-=	c #785151";
";=	c #3C2929";
">=	c #060505";
",=	c #734949";
"'=	c #B16060";
")=	c #CB5353";
"!=	c #C83737";
"~=	c #8D3737";
"{=	c #693434";
"]=	c #602F2F";
"^=	c #582B2B";
"/=	c #6F5353";
"(=	c #715353";
"_=	c #592C2C";
":=	c #612F2F";
"<=	c #6A3434";
"[=	c #963737";
"}=	c #CB4E4E";
"|=	c #AB5A5A";
"1=	c #482E2E";
"2=	c #7F7F83";
"3=	c #030202";
"4=	c #C65B5B";
"5=	c #953737";
"6=	c #6C3535";
"7=	c #663232";
"8=	c #613030";
"9=	c #544545";
"0=	c #554747";
"a=	c #6D3636";
"b=	c #9C3737";
"c=	c #C83939";
"d=	c #9D5959";
"e=	c #282121";
"f=	c #BA3737";
"g=	c #703737";
"h=	c #723C3C";
"i=	c #733D3D";
"j=	c #713737";
"k=	c #923737";
"l=	c #C03737";
"m=	c #CA3F3F";
"n=	c #A7A7AD";
"o=	c #C77272";
"p=	c #C87474";
"q=	c #DFDFEA";
"r=	c #BEBEC5";
"s=	c #2B2B2C";
"t=	c #3D3D3E";
"u=	c #A4A4A9";
"v=	c #524444";
"w=	c #C94B4B";
"x=	c #CB5555";
"y=	c #4C3F3F";
"z=	c #78787B";
"A=	c #C5C5CD";
"B=	c #949498";
"C=	c #E0E0EB";
"D=	c #AA8181";
"E=	c #C84646";
"F=	c #C94C4C";
"G=	c #856969";
"H=	c #525254";
"I=	c #202021";
"J=	c #090808";
"K=	c #C78E8E";
"L=	c #C94D4D";
"M=	c #C95252";
"N=	c #B18888";
"O=	c #717175";
"P=	c #191818";
"Q=	c #CA9797";
"R=	c #C95F5F";
"S=	c #C83C3C";
"T=	c #C96464";
"U=	c #B79292";
"V=	c #1E1E1F";
"W=	c #C8C8D0";
"X=	c #C3A5A5";
"Y=	c #CA7B7B";
"Z=	c #C95B5B";
"`=	c #C84040";
" -	c #C84242";
".-	c #C95E5E";
"+-	c #CA8080";
"@-	c #A28E8E";
"#-	c #79797D";
"$-	c #8E8989";
"%-	c #CDA6A6";
"&-	c #CA8787";
"*-	c #CA7272";
"=-	c #C96262";
"--	c #C95757";
";-	c #C95858";
">-	c #C96363";
",-	c #CA7474";
"'-	c #CA8A8A";
")-	c #CCABAB";
"!-	c #605E5E";
"~-	c #222223";
"{-	c #CBBDBD";
"]-	c #CCADAD";
"^-	c #CBA2A2";
"/-	c #CB9D9D";
"(-	c #CB9E9E";
"_-	c #CBA3A3";
":-	c #CCB0B0";
"<-	c #C6BBBB";
"[-	c #353536";
"}-	c #A0A0A6";
"|-	c #D8D8DC";
"1-	c #EFEFEF";
"                                                                                                                                                                                                                                                                                                                                                                                                        ";
"                                                                                                                                                                                                                                                                                                                                                                                                        ";
"                                                                                                                                                                                                                                                                                                                                                                                                        ";
"                                                                                                                                                                                                                                                                                                                                                                                                        ";
"                                                                                                                                                                                                                                                                                                                                                                                                        ";
"                                                                                                                                                                                                                                                                                                                                                                                                        ";
"                                                                                                                                                                                                                                                                                                                                                                                                        ";
"                                                                                                                                                                                                                                                                                                                                                                                                        ";
"                                                                                                                                                                                                                                                                                                                                                                                                        ";
"                                                                                                                                                                                                                                                                                                                                                                                                        ";
"                                                                                                                                                                                                                                                                                                                                                      . + @ # $ %                                       ";
"                                                      & * = - ;                                                                                                                                                                                                                                                                 > , ' )       ! ~ { ] ^ / ( _ : <                                       ";
"                                                  [ } | | | | | 1 2 3 4 5     6 7 8 9                                                                                                                                                                                                                                     0 a / | | b c d e f ] g h @ g i i i j k                                       ";
"                                                ~ | | | < l : m | | | | | n o # | | | p q r 0                                                                                                                                                                                                                         s l | | | k | | t u v w ] < x 5 i i i 5 y z                                       ";
"                                              A B | | C i i D E F G H m | | | | | | | | | | | @ I J K                                                                                                                                                                                                               L m | M ] N O P n Q ] { R S T i i i i i U p v V W                                   ";
"                                              X | | Y i i i i i i i i i Z `  .c ..+.@.T #.$.%.| | | # Y [ &.                                                                                                                                                                                            *.    =.-.;.m 1 >.,.i i i '.o b Y ).0 i i i i i i i t | p | !.                                  ";
"                                            ~.# | 1 U i i i i i i i i i i i i i {.].^./.i i i 9 (.m | | | | Y F                                                                                                                                                                                     [ ^ # _.[ ] { :.} <.i i i i i i %.h [.i i i i i i i i }.n | | | |  .                                ";
"                                            I | | a |.1.i i i i i i i i i i i i i i i 2.3.4.5.i i W w 6.| | | | / 8       @.7.8.                                                                                                                                                                9.0.| | | P ] P n } a.i i i i i i i i i i i i i i i i i i b.q O c.| | d.                                ";
"                                            @ | | e.f.i i i i i i i i i i i i i i i i i i g.h.E i i i i i.j.| | | | h   k.:.| :.]                                                                                                                                                             l.:.o m.n.# v o.6.} ~.i i i i i i i i i i i i i i i i i i i i i i i b | p                                 ";
"                                          p.| | | q.i i i i i i i i i i i i i i i i i i i i i i i i i i i i 9 y | | | o r.| | | | s.,.                                                                                                                                                      t.| a i i i r.k 1 n u.i i i i i i i i i i K v.s ! T p.i i i i i i w.i n.| | @.                              ";
"                                            1 | | x.i i D ' y.z.A.B.C.5.D.E.u.F.G.H.I.i i i i i i i i i i i i i J.K.| | | | : 0.| | L.8.                                                                                                                                                u.j | M.i i i D.# | 0.N.i i i i i i i ' O.7 ( ] ] ] ] P P.Q.R.i i i i S.i 9.| | J                               ";
"                                            :.| | o.|.|.|.% v o.T.U.P ] ] ] ] ] ] ] ] ] V.U.i.k.N W.i i i i i i i i r # | | { n.3 n | L.X.                                                                                                                                          s c Y.| Z.i i i i ] | `. +i i i i i i 9.P.] ] ] ] ] U.9 .+0 o.] ] o.++i @+D i ,.| | [                               ";
"                                          O | | | h |.|.#+] ] ] ] ] ] ] ] ] ] ] ] ] ] ] ] ] ] ] ] ] g $+&.i i i i i i 8 m | L.i N.c : | %+6                                                                                                                                     &+l.m.R | M.i i i i i k.9 i i i i i A *+[ ] ] ] ] m.=+e i -+m.] ] ] ] ] v I.3.i i p.| | ;+                              ";
"                                        >+r.| | | ,+|.'+o.] ] ] ] ] ] ] ] ] ] ] ] ] ] ] ] ] ] ] ] ] ] ] ] a.i i i i i i #.} | >.i i =+$ | )+8.                                                                                                                          J.!+I O w { !.| M.i i i i i i i i i i i ~+8 ] ] ] ] ] V 9.i i J.;.] ] ] ] ] ] ] w {+]+i i ^+| | o.                              ";
"                                        h | | | # /+|.(+] ] ] ] ] ] ] ] ] ] ] ] ] ] ] ] ] ] ] ] ] ] ] ] ] ] _+I.i i i i i G.q m p.i i :+6.| !+<+                                                                                                                      [+# | | K.P }+| t.i i i i i i i i i i v.|+] ] ] ] w 4 H.i i & P ] ] ] ] ] ] ] ] ] T.|.i i i 1+| | @.                              ";
"                                      N | | | | { |.|.2+] ] ] ] ] ] ] ] ] ] ] ] ] ] ] 3+4+&+'.5+c ] ] ] ] ] ] w 8 R.&+i i i i 7 e i i i ~ k 1 6+,.                                                                                                                  m.| } 7+8+| p # Q.i  +i i i i {.9+i e ..] ] ] ] 0+*+, i i F.a+] ] ] ] ] ] ] ] ] ] ] b+c+i i ,.k | !.                                ";
"                                      * | | | 1+|.|.|.V ] ] ] ] ] ] ] ] ] ] ] ] ] ] ] R.i i i i i p.Z *+a+] ] ] ] ] ] d+++i i i i i i i i r | n g                                                                                                                 8.e+1 f+i i q ^ = g+h+|.|.i i 4.].i [.0+] ] ] [ :+i+i i H.U.] ] o.= 7 ] ] ] ] ] ] ] ] j+i i i { | |  .                                ";
"                                      $+| | 1 k+|.|.|.$+] ] ] ] ] ] ] ] ] [ d+3+L 3+o.( ~+i i i i i i i i I.F.l+L ] ] ] w @.i i i i i i i W )+| q m+                                                                                                              n+| L i i i 6 <+o+|.|.|.B.i f.p+8. .] ] ] w *+9+i i  +$+] ;.=+&+e q+v ] ] ] ] ] ] ] ] f+i i i H | | '.                                ";
"                                      ; | | $ |.|.|.|.r+g ] ] ] ] ] ] 3+I # | | | | | $ 3 s+t+i i i i i i i i i i D =.#.Q.] +.i i i i i i i 9 M | )+U.                                                                                                            o %+i i i i {.h+|.|.|.2.u+v+w+! [ ] ] ] ..A i i i ~.( x+O.i .+F ] ] ] ] ] ] ] ] ] ] ] u i i i m | | x+                                ";
"                                        } | n |.|.|.|.|.y+m.] ] ] ] L :.| | | | | | | | | | k t.z+i i i i i i i i i i i i .+F A+i i i D |.A.i v p # B+8                                                                                                         q+| O.i i i C+|.|.|.h+i+/.D+i :+] ] ] o.=.i i i ' 2+a+u.u.E+t a+] ] ] ] ] ] ] ] ] ] ] ] s i i ~.| | | Q.                                ";
"                                        h | | F+|.|.|.|.|.G+] ] ] ] j | | | }+H+!.| | | | | | | | + [.i i i i i i i i i i I+J+i i i i i h+|.K+A )+| } r F                                           T.0+L+    F.7 _                                             M+L.i i i N+|.|.|.O+i P+S.i O ] ] ] 7 D i i i z+8+Q+4+R+| | | P ] ] ] ] ] ] ] ] ] ] ] P i i i s+| | } I.                                ";
"                                        T.| | Z.|.|.|.|.|.S+w ] ] ] n.| | M+<.H.T+U+;.$ | | | | | | | R f+i i i i i i i i i h+3.u+i i i V+|.|.W+^+X+| $ Y+7     ,._.Z+y M ^ # | | | | | | p k ^ / / 0.0.b %+%+K.$ 0./ < k m | | | | | m } o Y !+a+`+e >         X+{ i i  @|.|.|..@i +@i i O ] ] w `+i i i i - `+<+o.m | | | k f ] ] ] ] ] ] ] ] ] ] ] -+i i i j.| | 0+                                  ";
"                                          r.| @ @@|.|.|.|.#@v ] ] ] ] Q.f ( <.i i i i i 0 j 1 | | | | | | `.$@i i i i i i i D v+|.%@i i i &@|.|.*@n.# | y ;+Q.=@1 | | | | | | | | | | | | | | | | | | | | | | | | | | | | | m | m m | | | | | | | | n ).M+<+  O.| &.i -@|.|.|.;@i i i i u ] ] [ '.i i i i e i >@+ | | | | (.P._.] ] ] ] ] ] ] ] ] ] [ ,@i i R.# | M                                     ";
"                                          6+| | '@|.|.|.|.)@] ] ] ] ] ] ] ] 0+T i i i i i i , !@M | | | | | # 6+, i i i i i i i E |.|.B.i i  @|.|.#@`.| | p | | | 1 o L.j.X Y.!+E+~@{@]@2+a+n.{ ;.m.a+c c V.;.m.o.g ^@/@(@_@8+:@w ] ] ] v P P [ <@j.m | | 1 !.n ^ [@3.|.|.}@i i i i i Q+] ] P X.i i i i i i = |@| | | y J F.i 1@] ] ] ] ] ] ] ] ] ] ^+i i i l | | _                                     ";
"                                          <+e+| 1 2@|.|.|.3@] ] ] ] ] ] ] ] ] ] 8 A+i i i i i i i T.%.| | | | | @ m+i i i i i i i 4@h+|.o+i i  @|.|.5@6@| | ^ a c = U.0+] ] ] 0+. |.|.|.|.7@_.] ] ] 8@|.|.c ] ] ]@v 9@7@w 0@a@m.] ] ] ] ] ] v b@c@b@V.d@e@m | | f@|.|.|.g@i i i i i H.0+] c p.i i i i i i T.l | | m P >@i W |+] ] ] ] ] ] ] ] ] ] ..i i i L | | +                                       ";
"                                            M.| | y |.|.|.h@m.] ] ] ] ] ] ] ] ] ] ] 7+A+i i i i i i i U+}+| | | | | i@& i i i i i i i 4.|.h+j@i k@|.|.|.l@m@] Z |.|.|.{+n@G+_ o@p@q@r@|.|.|.8@] l.s@G+|.|.x+] v a@t@u@{ o.#@|.v@w@$+] ] ] ] x@|.|.x.] ] b.y@M+] )@|.}@,@i i i i i i 3+] 7.i i i i i i , z@| | | # % i i 9 [ ] ] ] ] ] ] ] ] ] ] P.i i i E.d.| | =.                                      ";
"                                            A@:.| | B@|.|.|.C@U+] ] ] ] ] ] ] ] ] ] ] ] 2+D.i i i i i i I.w p | | | | | m@,@i i i i i i w.3.|. @D 4.|.|.#@T.0+S+|.|.|.b.D@E@F@|.u@;.m./@|.|.b+w G@/@(+|.|.D@] U+|.|.H@] x@I@J@#@|.J@] ] ]  .#@|.K@m.] s@'+V L@|.|.M@i i i i i i i 0 ] i.i i i i i i i j | | | | n+i ~+m+] ] ] ] ] ] ] ] ] ] ] U.i i i D m+| | :                                         ";
"                                              1+| | |@S+|.|.|.N@] ] ] ] ] ] ] ] ] ] ] ] ] ] 8 <.M+M+O@7.`+i P@y | | | | | $ 5+i i i i i i i I+|.|.h+|.|.|.r@x+c@|.|.|.Q@R@{ S@S+|.T@( U@{+|.|.` ( @@V@|.|.W@( X@|.|.1@Y@/@w ] Z@|.!@] ] g `@|.`@w ] |+#@Z U.S+|.|.A.i i i i i i  #g 9.i i i i .#+#i F.# | | | + N U.] ] ] ] ] ] ] ] ] ] ] ] x+D i i i -.Y+| | X+                                        ";
"                                              H.:.| | @#|.|.|.Z ] ] ] ] ] ] ] ] ] ] ] ] ] ] w L | | | | | 6.D i |+k | | | | | m@i i i y.o+##i i $#|.|.|.|.|.`@o.2+Y@%#|.|.{+&#c *#S+=#w D@-#|.S+;#a@F@|.C@v >#|.|.|.|.-#v ,#'#S+)#] ] w =#|.|.x@] 8+9@|.|.|.|.|.|.|.|.$#i i i i .+e i i i !#v+I+i l+n | | | [+T+g ( ] ] ] ] ] ] ] ] ] ] ] ] &.i i i ,.] $.| | |                                         ";
"                                                ~#| | r.a@|.|.{#] ] ] ] ] ] ] ] ] v f >.x M+)+m | | | | | | a.i i &+`.| | | | | )+i i i !#|.3.##i 5.}@|.|.|.|.]#P ] ( ^#|.|.#@/#] (#C@b@_#:#|.|.S+#@I@|.b+c |.|.|.|.#@m+0@|.|.{+a+] ] <#|.|.#@x+m.[#|.|.|.|.|.|.|.|.|.h+i i i i i i i i *@|.f.i 7.| | | p 7 7.3+@ f ] ] ] ] ] ] ] ] ] ] ] ] 9 i i i i , Y+| | Y                                         ";
"                                                >+e+| | t.|.|.#@V.] ] ] ] ] ] ] ] 0+| | | | | | | | | | | | | n }#!@. s+0.| | | | *+i i i t+v+|.O+,@i |#|.|.|.|.c@P ] x+1#|.|.Q@v ] u@Q@1#|.|.|.|.|.S+|.>#2#|.|.a@x@U.{ a@|.|.x@] ] 3##@#@b.N@w x.|.|.|.|.|.4#5#|.|.3.i i D ]+v+u+i i z.6#7#i 9 # | | | |+o.V.:.L ] ] ] w Q.] ] ] ] ] ] ] =+i i i i i ,@6.| # 0                                         ";
"                                                  C | | e+8#|.|.Q@U.] ] ] ] ] ] ]  .9#i@# | | | | | | | | | | | | | | $ r C 6@# @ ~.i i i i i 0#|.|.6#i i *@|.|.|.Q@n.] q+|.|.|.$+4 |.a+m.x.|.|.|.|.|.|.#+a#|.|.5#] m.N@|.|.^#v ] b#C@|./@5#c#q@|.|.|.|.#@c#w v #@0#i {.-@|.|.f.i i i i i i i a | | | >.[ ;+/ !@] ] w 3+m@!@] ] ] ] ] ] d#i i i i i i I | | B+                                          ";
"                                                  *.B | | R+|.|.|.#@/@( ] ] ] ] ] ] ] [ 7.J ^ | | | | | | | | | | | | | | | S -+i i i i i i i i ;@h+|.h+V+i e#|.|.|.a@V P |.|.|.|.|.|.q@] m.#@|.|.|.|.|.N@(+|.|._#;.8#|.|.{+3+] f#r@|.#@8+b.o@|.|.|.#@(+c ] ] ,#g#g#v+|.|.|.h+i i ,@h#v+v+j@i r | | $.g t l m+w 3+0+$.V w ] ] ] ] ] ] - i i i i i   Z.| | !.                                            ";
"                                                    g | | p *#|.|.|.|.u.{ ] ] ] ] ] ] ] ] ] |+,+| | | | d.k.5.i i i N.=+Q : | | L i i i i i i i i i f.|.|. @i ,.h+|.|.|.Q@7@K@|.|.|.|.#@S@] @@|.|.|.|.|.#@C@|.S+w i#|.|.|.j#] k#a@|.|.#+] *#|.|.|.l#a+] ] a+k.g@v+|.|.|.|.h+i i c+|.|.|.|.|.i <+Z.!@g R+}#x+3+6@| I 0+] ] ] ] ] ] ] +.i i i i i   ;.| | k ~+                                            ";
"                                                      6.| | %+|.|.|.|.|.3@] ] ] ] ] ] ] ] ] ] w 8 M.| | n+i i i i i i i i i 6 ; ' i i i i i i i i i |.S+|.|.|.c+D }@|.|.u@w { #@|.|.|.|.:#] m#|.|.|.|.|.|.|.|.a@v 1#|.|.n#v ]@S+|.|.S+Q.Q.r@|.a@U.] ] v o#p#v+|.|.|.|.|.3.i i S.|.h+q#p+e#h.i i '.[ r#;+n.s#| | R+Q.] ] ] ] ] ] [ 9.i i i i i i U.# | | s+                                              ";
"                                                      T.| | | L |.|.|.|.#@V.] ] ] ] ] ] ] ] ] ] ] o.s#| | o X t#u i i i i i i D M@E 3.f.$#1.i i i i C@g a#S+|.|.v+I+v+|.|.-#b#u#|.|.S+|.)#] U.|.|.|.|.|.|.|.|.`@8+|.|.|.i#y@|.|.|.|.v#P ]#|.r@a+] ] w#7@h+|.|.|.|.|.|.f.i i i o+S.i i i i i i i =+3+f ;.S | |@3+0+] ] ] ] ] v * e i i i i i i u 1 | | 3                                                 ";
"                                                        x#| | < y#|.|.|.|./@] ] ] ] ] ] ] ] L m+f |+3+| | | | | | j i i i i i D+|.|.h+v+|.|.|.M@i i i z#] Q.o@|.|.|.|.|.|.|.S+A#|.#@/#t@S+a+w t@|.|.|.|.|.|.|.r@m+|.|.|.|.|.|.|.|.G+( B#|.#@U.] ] P.C@|.|.|.|.|.|.|.|.i i i 5 i i i i i i i i i i ^+[ a+).P o.] ] ] ] m.T+=.i i i i i i i i <+^ | | 2                                                   ";
"                                                        &.:.| | =@|.|.|.|.|.F.7 V.] ] ] ] ]  .k | | | | | | | | | | *+i i i i i i e#C#i i C+h+|.O+i i i D#] w Z@#@|.|.|.|.|.|.|.|.|.N@n.`@E#w /#|.|.|.|.|.|.|.#@l.|.|.|.|.|.|.|.|.F#K@|.|.p@] ] ,##@|.|.|.|.|.|.|.|.|.i i i i i i i i i .#2.]+$#G#}@5@U+] ] ] ] ] ] 0+H#i i i i i i i i i i =@| | } N.                                                  ";
"                                                          n+| | | E@|.|.|.I#i i i i J#_+v ] ] 3+P t < | | | | | | | s.i i .#K#L#w@W i i i i i }.h+v+i i i M#w ] !@a@|.|.|.|.|.|.|.|.|.&#m+{+N#w n#|.|.|.|.w@1#|./@|.|.^#~@8@|.|.|.|.|.|.-#v ] D##@|.|.|.|.|.@@b@<#o@I+i i i i ,@@+f.|.|.|.|.|.|.|.|.|.|.N@F ] ] ] ] ] 8 [.D i i i i i i i f+# | | a+                                                    ";
"                                                            H | | m x@|.|.3.2.i i i i i p.U+] ] ] ] a+{ ^ | | | | | (.i D V w ] ] w /#5@i i i i 9+|.v+i i i )#( ] n.O#|.|.|.|.|.|.|.|.C@S@` |.b@5@|.|.|.|.c E@|.|.|.'#v ] B#|.|.|.|.|.S+3+] P#|.|.|.#@Q#5#V.o.b.R#i i i K#T+!@U@8#|.|.|.|.|.|.|.|.h+C# +i i S#s ! Z O.a.T i i i i i i i <+/ | | M                                                       ";
"                                                            D.^ | | ^ b@|.|.|.|.f.T#i i i i &.2+] ] ] ] V.V.6@1 p (.H.i i i g#^#c#U#S@v (+y.i i i 3.V#l#i i T#8#n.] v /@|.|.|.|.|.|.|.|.l#w K@|.|.{+:@|.|.:#] u@|.W#{ ] { |.|.|.|.|.|.a#] v#|.|.W#Z@U@] 3+Y@{+}@V+X#Y#a+] V.<#c@|.|.|.|.|.|.|.|.I+i i i i $#i i i i i i i i i i i i i i z@| | | -                                                       ";
"                                                              i.# | | < x.|.v+u+Z#^.3.I.i i i i p.>@1@f 3+J `+i i i i i i i i i i H# @'#L V@o+i i w.r@m.`#i J+|.a@E@] w p@|.|.|.|.|.|.|.|.0@P a@|.#@v x.|.,#] I@#@D@] ] ~@|.|.|.|.|. $v R@#@t@2#0+] v b.#@|.#@=#U.w ] 0@4##@|.|.|.|.|.|.r@n#T@}@i i i i i $# +i i i i i i i i i i i i t#| | | .$                                                        ";
"                                                                n.# | | o I@|.h++$i i W.i i i i i i i i i i i i i i i i i i D H#.#g+f.|.#@u#b@f.i i H#m#w J@|.|.|.S+]@] ] <#|.|.|.|.|.|.|.@@v 0@|.|. .l.|.V.w k+F#] ] m.N@|.#@#@|.|.G@4 #@&#w ] ] k#t@|.#@*#_#] ] f I@|.|.|.|.8#j#3#d+o.U#@$0#i i i i i i i i M@P+i i i i i i i i i 2+| | | q                                                           ";
"                                                                  7+1 | | i@C@|.|.o+#$i i i i i i i i i i i i i i i i i i h+|.|.|.|.|.|.|.|.r@|.o+i i i a#w m#|.|.|.#@` ] ] &##@|.|.#@t@|.|.Z@] K@|.b.] -#:#5#`@m.] $$`@|.a@D@B#|.`@%$|.p@] ] { i##@#@(+a+] ] { J@#@|.|. $v#S@] ( ,#x.*@+$i i i i i ,.;@{.j@g#.@v+2.y.A@##+@&$t+w+T@e+| | n H.                                                          ";
"                                                                    9 X+| | !+|.|.|.|.*$i i i i i i i i i i i i i i i i i i M@v+a@S+|.|.|.|.|.|.|.K+i i i d v V#|.|.|.|.Z@] ] :##@|.|.G@C@|.1#V.E@|.Q@w Z@|.|.P.] v w@|.a@8+] `@|.|.|.|.=#=$p@C@|.>#-$] ] ] 0@r@|.#@)#!@w ] S@;$S+A.i i i i i+<.8+] ] ] 0+c _.d#>$F w ] V.O 5+,$k.: | | 1 d                                                             ";
"                                                                      K b | | ..|.T#i i i i i i i i i i i i i i i i i i ,.i i i y.j#'$2#i#u@|.|.|.|./.i i i )$m.Y#-#|.|.|.b.w ] 4 |.|.v#:#|.|./@] @@|.H@a+|.n#w ] b.|.r@$$] { #@|.|.O#x@#@D+|.@@U.] ] ] ( u##@|.V#8+] ] ] 2#|.##i i i i 9+_ 0+] ] ] ] ] ] ] ] ] ] ] ] w P ] ] ] { | | | V                                                               ";
"                                                                        _.| | h ^.D i i i i i i i i i i i !$i i i i /.|.|.|.3.M@i i i u.7.w S@,#w@|.|.j@i i i >+8+]  .c@|.|.p@w w B#a@N@w O#|.#@{ (+|.i#] t@P#] E@#@C@L ] ] F |.@@/#w i#i z.~$( ] ] ] /#{$*@|.P.] ] ] P V#S.i i i i |#%#f ] d+_.* T.l.[ ] ] ] ] ] d+^+]$|.]#;.] 6+| | ).                                                                ";
"                                                                        !@| | ^$*#/$7 1@#.h+D i i i i i r+Y@l+<#-.u q+,$o@|.|.($q+]#I.i i e _$m.w s@r@|.]+i i i p.2#w Q.#@|.|.~$] /#/@]@w  .#@|.]@~$|.r@v )#c v t@|.:$] m.F#5@~$v Q.<$i .#!@] ] ] V.G+E D i P.] ] P M#}.i i i i 2.h+($!@=+a@|.|.|.|.|.#@h@@.- [$}$]#@@n@8#[$[ ] V.| | 2                                                                 ";
"                                                                      ' 0.| | j ] ] a+P.Q.( 5+o+,@i i *@=+] ] ] ] ] ] ] ] * #@)#] ] !@`+|$i i i #.v { x.|.h+I+i i ' 5@4#|.|.|.|.Y#w X@ .] ] b@|.F@a#|.|.l.:@w 1@|./@] U@n#r@D@] 3#&@i i 1$] ] w 1@C@y.i i ..] w v#W+i i i D B.h+|.|.2$S+|.|.|.|.|.|.c@a#V [ ] ] ] ] ] ] ] ] ] ] w t#| | b E.                                                            ";
"                                                                    F X+| | p @$Z %#|.|.#@/@w n.=+3$#@|.|.4$m+] ] ] ] ] ] ] U.($u@l+Q.] n.f+D i i K 5$w <##@|.f.i i u+|.|.;@v+|.|.b@N@>#] ] a+#@a@` |.|.<#] ] 6$|.p@{ B#-#x+w Z@^.i i U.] ] L 8#|.Z#i i 7 ] 8+y+i i 5 _+n.] s+|.|.|.|.|.|.|.|.|.|.]$O * i.l+7$R.6$U t@8$-#>@-+u l.n.x | | 1 n+                                                          ";
"                                                              > m.M | | | | Z+u@8$a@{+|.|.|.0 w ] ] 0+9$-.^+X@1#0$`@7@>$d#]@0+0+v#^#{+n@_.] o.a.i i i R.v U##@|.}@i i T#|.C+D |.|.|.|.#@d+] ] Q#|.i#|.|.V#] ] 4$|.|.{+8#m.( #+|.i i u ] ( p@#@|.g+i i _.] 5#a$i i v.( ] ] H@{#|.|.|.|.|.|.|.|.|.|.|.|.|.|.|.|.|.|.|.|.|.|.|.|.|.|.{+|.b$p | | z p.                                                      ";
"                                                          J#Z.k | | | | # C c ] ] ] w 3+4 ^+r@ $m+] ] ] ] ] ] { v#'#1#|.|.|.a@` 0+] o.o#-#3$l.] m+8.i i J#o.P#|.|.0#i i @+|.D V+a@|.|.|.*#] ] D#|.9@|.|.x.] ] Q@|.|.X@{ x+-#|.z.i s ] U.`@|.|.g#i i s+( >#i i i .+[ ] 3+`+|.|.|.|.|.|.|.|.|.|.|.|.|.|.|.|.|.|.|.|.|.c$=+d#O#d$|.|.|.|.|.V m | | }+d                                                     ";
"                                                        ;+e+| | | | | %+<#]@2#..l.d+( ] ] ] w 7 e$n@2@z#_+1@f w ] ] 0+8 -+r@|.|.9@<.V ] ] x+5+,${ 0+`+i i D !@b@|.|.a$i i !#3.i $+b@|.|.S+{ ]  .|.|.|.|.)#] 0+{+|.r@a+f 5@|.v+i H#o.p@#@|.|.I#i i O o.<$i i i G.[ V.f$#@|.|.|.|.|.|.|.|.#@0 #.|.|.|.|.|.|.|.|.|.|.5@3+] ] ] ] l.z#X@|.|.|.,#e+| | 1 s+                                                  ";
"                                                    Q+$ | | | | | R v#|.C@{$1#|.|.|.|.`@i#n.] ] P 8#C@|.|.|.|.<$[.U+0+] ] ] G@d#)@#@|.r@Q#$+J L 7@g$] _+g+i i h$Q@|.|.S.i i *@4.D a+F r@|.<#] ( |.|.|.|.>$] U.|.|.W@]@S+|.|.V+i s+N@|.|.|.W+i i x@L A@i i i . g d#S+|.|.|.|.|.|.|.#@]#>$l.] 0+#@|.|.|.|.|.'+C@|.|.|.#@U 8 ] ] ] ] ] V._$u.|.^@k | | p P.                                                ";
"                                                  4 e+| | | p 6@Z@*#2+;.] ] ] Q.-.Q#C@|.|.S+2@d+] ] ] { 7.a#G+n##@|.1#3@5#( ] ] ] 3+f+'+|.|.|.|.|.|.0 ;.i$v+B.i i f.|.|.D i i h+T#.+v a+C@W#v ] r@|.|.|.r@m.>$|.#+N##@|.|.*@i ,@Q@|.|.|.E i i u#J .#i i i Z u ]$|.|.|.|.|.|.#@,$f 0+] ] { T.7@|.|.|.|.c$7+w ] [ 3+F z#o@{+. u#a+] ] ] ] ] x+#.i.^ | | # _+                                              ";
"                                                n.# | | m x ~ a+] ] ( |+7 q+T+j$7.m.[ k${$|.|.#@q.p@2+m.] ] ] ] ( 8 - r+|.'+L#* ( ] ] { ^+|.h+|.|.|.|.k+!@($3.v+##i ].|.3.i i +#h+i Y@] &#|.:#w C@|.|.|.|.S+|.|.u@|.|.|.|.D i !#|.|.|.^.i i F@/$D i i i 9+5@|.|.|.|.}@ @|.|.W#] 0+7 `+r@|.|.|.|.|.|.|.t@f+7@Z u@T@h$c ] d+u@|.#@7@j$m.] ] ] ] v ~ } | | ^ <+                                            ";
"                                              7.# | | S V.] g _.[.]##@|.{+C@E.@@r@1#k+L#5+|.|.|.|.|.|.#@k+3@Z@L ] ] ] ] 7+3$|.|.{+l$..] ] U+S+i g@|.|.|.#@m$i ].|.!#i N+|.N+i i !#C+i  .v Q@k+,#|.|.6$c#|.|.|.|.|.|.|.|.}.i i |.|.|.f.i i U b.i i i i i h+|.|.|.3.u+i o+|.|.#@]#'+|.|.|.|.|.|.|.|.|.|.|.|.|.|.|.|.|.#@{$7@r@|.|.|.|.#@k.4 ( ] ] ] m+k | | t.                                            ";
"                                            Z :.| | 9#l@n$]#Z '#=+_.f ;.] ] ] ] ] ] o.O.|.|.|.|.|.|.|.|.|.|.|.|.d$k._+f ] ] 7 d$|.|.|.l#w ] P.9+i i D+|.|.f.i i 6#|.J+i h.|.+$i i v+i N.w F |.|.|.|.<#;.S+|.|.|.|.S+F#h#i i 4.|.|.h+i i V+4#,@i i i i 3.|.|.v+/.i i i |.|.|.|.h+G#D+4.4. @3.|.|.|.|.C@y+k.[$u#u = * u T+J.3$1#|.|.|.|.|.|.S+Q#T.0+] c p | /                                             ";
"                                            L.| | c.k$ .g ] ] ] ] ] m.L@7@`@>@5+7$G+T@S+|.|.|.|.|.|.|.|.|.|.|.|.|.|.|.|.%#R./$F H#D+|.|.o$V.l@i+i i i i g#g+i i i 2.h+i i C+v+i i p+5.i s+w @@|.|.|.2#] 4$|.|.|.N@a+>#D i i |.|.|.7#i i h+T#i i i i I+|.O+;@i i i i i i ,@i i i i i i i i i i >+L@V x+m+U.U.H@a+( ] ] ] ] ] 0+U+k.#@|.|.|.|.|.|.{+p$o@[+| | -                                           ";
"                                          4 | | / [ ] ] ] ] ] v 7.5+1#1#q$U...P.{ #.|.|.|.|.|.|.|.|.|.|.|.|.|.|.|.|.|.|.|.|.|..#i i i ' j@V+i i i A@P@9 J.. A+i i i  +]+i i P+$#i i D+i W w ` |.|.|.7.] y@|.|.u#v <#G#i i z.|.|.p+i i *@q#i i i ,.@.* P.7+s+_ ~.H.i i i i i i i i i i i i i i i i i i i 3.|.|.|.|.r@U - !@] ] ] ] n.u G+>$Q#]##@|.|.|.#@q | < .+                                        ";
"                                          O@| | s#] ] ] ] ] w E#|.|.|.O#r$V c J -.u 1#|.|.|.|.|.|.|.|.|.|.|.].' w.g+6#o+h+|.|.D i i i i & U.M.q | | | | | | | 1 s.g T i i i i 5 5.i .@i i T.m.S+|.|.;#] V#|.c#] ;##@.#i i v+|.}@i i j@h+i ++P H | | | | | | | | | r.(.o.[.i i i i i i i i i i i i i i i h.3.|.|.|.|.|.|.|.W#*#8 8 j#,$T+d+] ] a+q+n@#@|.f | | } !@                                      ";
"                                          p.k | O@] ] ] ] P.q.-@3.|.C@A#,$O x+] ] ] [ 7 `+S+|.|.|.|.|.|.|.|.|.h+i i i i i i i i &+T.R+} | | | | | | | | | | | | | | | s$; i i i i i i ##i T ] V@|.|.;#] t$N@0+( {$h+i i D |.|.D i i h+%#E+| | | | | | | | | | | | | | | | 1 )+!@G.i i i i i i i i i i i i i i i ,@{.Z#]+^.|.|.|.|.|.|.|.{+:+] ] ] ] d+- ]#$ | | | X                                     ";
"                                          k.# | < m.] ] ] T+G.u.0 L+}@|.|.|.|.k+[.4 n.] ] m.-.>$G+u#J.#@v+]+u$i i i i i i 0 w i@| | | | | | | | | | | | | | | | | | | | | s#i i i i i g+i i ( m+|.|.;#] w#n.] ~$|.e#i i I+|.M@i i I+v$e+| | | | | | | | | | | | | | | | | | | | | %.$.^+i i i i i i i i i i i i i i i i i i D g+w$^##@|.|.|.W#u ;.] ] ] w J y | | |  .                                  ";
"                                        $@< | | z@[ ] ] ] ] ] ] [ ]#|.|.|.|.|.|.|.|.#@k+>$-.f ( ] ] Q.H.i i i i i i ~.Q r.| | | | | | | | | | | | | | | | | | | | | | | | | x#5 i i i i i i j$w ]#|.V ] ] ] U@S+|.D i i O+f.i i i x$| | | | | | | | | | | | | | | | | | | | | | | | | | }+n+; i i i i i i i i i i i i i i i <+F.P.] d+f$#@|.|.|.S+^+3+] ] ] ( 3 | | h                                   ";
"                                      a.n | | X+8+L J J J F =+Z i .#|.|.|.|.|.|.|.|.|.|.|.f.p+H#D i i i i i i G.o.%.| | | | | | | | | | | | | | | | | | | | | | | | | | | | | x#D i i i i i v.] u#|. .] ] ] c#|.f.i i i |.,@i i y$| | | | | | | | | | | | | | | | | | | | | | | | | | | | | | b x+++i i i i i i i i i i i p.! u.>@[.s+m.a+! !#4.4.4.h#Q@q+V.] &#K.| K.                                  ";
"                                    N @ | | / ~+i i i i i i i i i i |.|.|.|.|.|.|.f.K+S.i i i i i i i i H#..z@| | | | | | | | | | | | | | | | | | | | | | | | | | | | | | | | | G i i i i i i !@U#|.c ] ] m.C@|.M@i i 5 z$i i 0 | | | | | | | | | | | | | | | | | | | | | | | | | | | | | | | | | | x#O i i i i i i i i i i i i i i i i i i i i i i i i i i A@i m@| r.                                  ";
"                                    8+| | | z+i i i i i i i i i i i g#o+%@z.j@H#i i i i i i i i i i ! r k | | | | | | | | | | | | | | | | | | | | | | | | | | | | | | | | | | | | % i i i i i A$U.|.a+] ] v#|.|.,@i i z$i i D 0.| | | | | | | | | | | | | | | | | | | | | | | | | | | | | | | | | | | | B ;+=.i i i i i i i i i i i i i i i i i i i i i i i i i g | # >                                 ";
"                                    ++e+| | 2 ~.i i i i i i i i i i i i i i i i i i i i i i i D s+R | | | | | | | | | | | | | | | | | | | | } Z.n+n.C : | | | | | | | | | | | | | |@i i i i i i 1#|.a+] ] N@|.|.i i i M@i i V.| | | | | | | | | | | | | s$|+=+%  .S | | | | | | | | | | | | | | | | | | | | | )+u i i i i i i i i i i i i i i i i i i i i i i i ] | | o.                                ";
"                                      J./ | | # (.5 i i i i i i i i i i i i i i i i i i i 4+$.^ | | | | | | | | | | | | | | | | | | | 1 J B$i i i i i i i :+$ | | | | | | | | | | | |+i i i i i *@|.3+] C$#@|.4.i i D i i ,.} | | | | | | | | | | B O i i i i i i i i ^+0.| | | | | | | | | | | | | | | | | | | | < [ N.i i i i i i i i i i i i i i i i i i i i Y+| | 1 m@                              ";
"                                        t+[+e+| | K.i i i i i i i i i i i i i i i i i $+S | | | | | | | | | | | | | | | | | | | | | 6+i i i i B$E.[.`+v.i i i U+| | | | | | | | | | |@i i i i i A.|.5#] _.|.|.P+i i D i i  .| | | | | | | | | | r#i i i '.F 8+7 9.i i i i T.| | | | | | | | | | | | | | | | | | | | | | D$=+i i i i i i i i i i i i i i i i i i %@q | | e+                              ";
"                                    T+q p | | | @ 8+i i i i i i i i i i i i i i &.w r.| | | | | | | | | | | | | | | | | | | | | | +.i i i 0 q | | | | | } - i i v.1 | | | | | | | | | _+i i i i ,@|.>#] E$|.|.D i i i i i 0.| | | | | | | | | { i i |+| | | | | | | v i i i H.@ | | | | | | | | | | | | | | | | | | | | | | o P X.i i i i i i i i i F$' B.G$D+O+{+j.| | t.                              ";
"                                    U.m | | @ o.i i i i i i i i i i i i i i _+6@| | | | | | | | | | | | | | | | | | | | | | | | d i i ,@+ | | | | | | | | | (.i i ~+| | | | | | | | | `.i i i i i |.r@m.S+|.|.i i i i i -+| | | | | | | | | Z.i D 2 | | | | | | | | | B A+i i ' r.| | | | | | | | | | | | | | | | | | | | | | | # c.+.i i i i i i i P+h.4.&@H$c+I$| | | _                               ";
"                                      Q+p | l i i i i i i i i i i i i D.m./ | | | | | | | | | | | | | | | | | | | | | | | | |  .i i > }+| | | | | | | | | | | s.i i T+| | | | | | | | # 6 i i i i o+|.7@|.|.f.i i i i i ~#| | | | | | | | @ i i 6.| | :.# | | | | | | | # A@i i &+| | | | | | | | | | | | | | | | | | | | | | | | | | $ Q.8.i i i i i i i i i i L+J$| | 1 !+$@                          ";
"                                    4 %+| | O@i i i i i i i i i i +.(.| | | | | | | | | | | | | | | | | | | | | | | | | | | ).i i i 6.| Y.J#i i u | | | | | | | v i i %+| | | | | | | | U+i i i i I+|.|.|.|.6#i i i i i } | | | | | | | | ^+i 9#| |@L+i i 9+~#| | | | | | B i i i $+| | | | | | | | | | | | | | | | | | | | | | | | | | | p 9#d i i i i i i i i i i $+}+| | # + d                       ";
"                              % )+e+| | :.n.i i i i i i i i K$ .|@| | | | | | | | | | | | | | | | | | | | | | | | | | | | | &.i i m.| Z.i i i i i d | | | | | | | 8.i ~+| | | | | | | | c.i i i i ,@|.|.|.|.j@i i i i 9 | | | | | | | | k i J#| | ,@i i i i i 1+| | | | | | 3+i i i K.| | | | | | | | | | | | | | | | | | | | | | | | | | | | | 2 _.i i i i i i i i i D Z+1 | | | )+G.                  ";
"                          u 2 | | | # H+.+i i i i i i i I.a+n | | | | | | | | | | | | | | | | | | | | | | | | | | | | | | S i i i | | i i i i i i i 6.| | | | | | .$i i @ | | | | | | | e+i i i i i |.|.|.|.H#i i i i a+| | | | | | | | V.i t.| t.i i i i i i , | | | | | | # i i i s | | | | | | | | | | | | | | | | | | | | | | | | | | | | | | | |@U+i i i i i i i i i O.%+# | | 1 G                 ";
"                        .$| | | | y F.i i i i i i i i ~ n | | | | | | | | | | | | | | | | | | | | | | | | | | | | | | | | 0 i i l+| R i i i i i i i x | | | | | | | i i 3+| | | | | | | | s i i i i h#|.|.|.i i i i i H+| | | | | | | | ++i p | F i i i i i i i p | | | | | | . i i i r.| | | | | | | | | | | | | | | | | | | | | | | | | | | | | | | | i@@.i i i i i L$=.T+g Z+2 | | | $ N.            ";
"                      P.| | | | m.i i i i i i i i I.c.| | | | | | | | | | | | | | | | | | | | | | | | | | | | | | | | | | i i i x | )+i i i i i i i 2 | | | | | | | 9.i O.| | | | | | | | *+i i i i M@|.|.|.i i i i i |@| | | | | | | | ,@5.| | .$i i i i i i i | | | | | | | U.i i i ..| | | | | | | | | | | | | | | | | | | | | | | | | | | | | | | | | # d+i i i i i i i f ] ] ~#$ | | M             ";
"                      z+B | | | / ;+a.i i i i i 5 z@| | | | | | | | | | | | | | | | | | | | | | | | | | | | | | | | | | 6.i i i } | | i i i i i i X.| | | | | | | | T.i H.| | | | | | | |  .i i i i g+|.|.|.D i i i i # | | | | | | | | i A@| | | , i i i i i '.| | | | | | | =@i i i .+| | | | | | | | | | | | | | | | | | | | | | | | | | | | | | | | | | | [ i i i i i i ++R.#.8 Y+^$| | @.          ";
"                        8.3 @ | | | | / J.i i i a | | | | | | | | | | | | | | | | | | | | | | | | | | | | | | | | | | | 6+i i i | | | x i i i i > X+| | | | | | | | Y+i 5 | | | | | | | | $.i i i i o+|.|.|.|.G$i i 8.| | | | | | | | | i J#| | | o e i i i K }+| | | | | | | H i i i i | | | | | | | | | | | | | | | | | | | | | | | | | | | | | | | | | | | | l+i i i i Z -+=+= c ] x#| # 5           ";
"                              n.< | | | |@i i q+| | | | | | | | | | | | | | | | | | | | | | | | | | | | | | | | | | | | i.i i i | | | | L.T+<.0+| | | | | | | | | | 0+i 8.| | | | | | | | }#i i i 4.|.|.|.|.|.o+i i Z | | | | | | | | | i 5 | | | | | Y.x+M.| | | | | | | | | 6.i i i i :.| | | | | | | | | | | | | | | | | | | | | | | | | | | | | | | | | | | 0.i i i i i F.8 ] ] ] / | s.            ";
"                                8.@ | | @ i i d.| | | | | | | | | | | | | | | | | | | | | | | | | | | | | | | | | | | | +.i i i 6.| | | | | | | | | | | | | | | | |  .i ~+| | | | | | | | s.i i i |.|.|.|.|.|.E i i [.| | | | | | | | | i i | | | | | | | | | | | | | | | | | M.i i i i / | | | | | | | | | | | | | | | | | | | | | | | | | | | | | | | | | | | | $+i i i i i Q+;.] ] z@| o T           ";
"                              i i o | | s.i A+| | | | | | | | | | | | | | | | | | | | | | | | | | | | | | | | | | | | | ^+i i i w | | | | | | | | | | | | | | | | | Q+i $+| | | | | | | | z i i i 3.|.|.|.|.|.W+i i -+| | | | | | | | | , i y | | | | | | | | | | | | | | | | 4 i i i i K.| | | | | | | | | | | | | | | | | | | | | | | | | | | | | | | | | | | | B+i i i i A@$+7.P ] Q $ | | !.C 9.    ";
"                            i 6 S | | # `+i l+| | | | | | | | | | | | | | | | | | | | | | | | | | | | | | | | | | | | | :+i i i A+| | | | | | | | | | | | | | | | | i i j.| | | | | | | | z@i i i M@|.|.|.|.|.@+i i <.| | | | | | | | | d i f+| | | | | | | | | | | | | | | | p.i i i i r.| | | | | | | | | | | | | | | | | | | | | | | | | | | | | | | | | | | | !.i i i i i i i i i a.n+z@| | | 1 k.  ";
"                          -.H+m | | | [ i i m+| | | | | | | | | | | | | | | | | | | | | | | | | | | | | | | | | | | | | n.i i i i Y | | | | | | | | | | | | | | | Z.i D | | | | | | | | | l i i i D |.|.|.|.|.S.i i - | | | | | | | | | E+i i :.| | | | | | | | | | | | | | s.i i i i i | | | | | | | | | | | | | | | | | | | | | | | | | | | | | | | | | | | | | # i i i i i i i i i i *+] C )+p | L.  ";
"                $@|+3 M$m | | | | k 3+i i i V.| | | | | | | | | | | | | | | | | | | | | | | | | | | | | | | | | | | | | ,+i i i i 6 | | | | | | | | | | | | | | p D i a+| | | | | | | | | M$i i i i 3.|.|.|.|.i i i d#| | | | | | | | | | i i ^+| | | | | | | | | | | | | | A@i i i i 5 | | | | | | | | | | | | | | | | | | | | | | | | | | | | | | | | | | | | | | i i i i i i i i i i i 8+] ] ^$| | J#";
"          0 6@p | | | | | | | |@t.A@i i i i n.| | | | | | | | | | | | | | | | | | | | | | | | | | | | | | | | | | | | | # i i i i i F | | | | | | | | | | | | | `+i i p | | | | | | | | | l i i i i z.|.|.|.|.i i i 5+| | | | | | | | | | u i i M.| | | | | | | | | | | | a+i i i i i q+| | | | | | | | | | | | | | | | | | | | | | | | | | | | | | | | | | | | | | i i i i i i i i i i i i T+] J$| | 9 ";
"        X.1 | | | | | !.t#1@<+i i i i i i i P.| | | | | | | | | | | | | | | | | | | | | | | | | | | | | | | | | | | | | | u.i i i i i  .| | | | | | | | | | | - i i t.| | | | | | | | | | z i i D ]+J+|.|.|.*@i i i J.| | | | | | | | | | } i i i H+| | | | | | | | | | M.i i i i i i H | | | | | | | | | | | | | | | | | | | | | | | | | | | | | | | | | | | | | B i i i i i i i D N$i i i i 0+I | | O.";
"        -+| | | m M.P@i i i i i i i i i i i _+| | | | | | | | | | | | | | | | | | | | | | | | | | | | | | | | | | | | | | )+i i i i i i O.:.| | | | | | | M$6 i i u.| | | | | | | | | | | s$i i &@|.6#|.|.|.K+i i i k.| | | | | | | | | | | Q i i i 8+| | | | | | | | m+i i i i i i G.| | | | | | | | | | | | | | | | | | | | | | | | | | | | | | | | | | | | | | l i i i i i i i i N$O$P$i i x+j.| | N.";
"        F.| | m E.i i i i i i i i i i i i i P@| | | | | | | | | | | | | | | | | | | | | | | | | | | | | | | | | | | | | | | Z i i i i i i i u 0.| | # [+s i i i 5 B | | | | | | | | | | | J$i i G$|.].3.|.|.##i i i ~.| | | | | | | | | | | | `+i i i p.g 1 | | | Z.6 i i i i i i i 2 | | | | | | | | | | | | | | | | | | | | | | | | | | | | | | | | | | | | | | G i i i i i i i i i i i i i ( M | %.  ";
"          z@| k a.i i i i i i i i i i i i i i p | | | | | | | | | | | | | | | | | | | | | | | | | | | | | | | | | | | | | | 6.i i i i i i i i i i i i i i i i D 0.| | | | | | | | | | | | (.i i V+|.|.4.|.|.D i i i z+| | | | | | | | | | | | | G.i i i i i i ,@i i i i i i i i i o.| | | | | | | | | | | | | | | | | | | | | | | | | | | | | | | | | | | | | | |  .i i i Q$R$S$T$i i i i i &.C | | (   ";
"          9.} | | j.7 5 i i i i i i i i i i i ).| | | | | | | | | | | | | | | | | | | | | | | | | | | | | | | | | | | | | | | R i i i i i i i i i i i i i i A $ | | | | | | | | | | | | | 9#i i D |.|. @|.|.i D+h+i =.| | | | | | | | | | | | | # k.i i i i i i i i i i i i i i 7 | | | | | | | | | | | | | | | | | | | | | | | | | | | | | | | | | | | | | | | | U$i i i i V$W$i i i i i i m+%+| n p.  ";
"            . H | | | K.* D i i i i i i i i i v | | | | | | | | | | | | | | | | | | | | | | | | | | | | | | | | | | | | | | | | %+,.i i i i i i i i i i i +.1 | | | | | | | | | | | | | | E+i i i |.|.-@|.v+{.|.f.i J#| | | | | | | | | | | | | | | ;.i i i i i i i i i i i i s#| | | | | | | | | | | | | | | | | | | | | | | | | | | | | | | | | | | | | | | | 1 D i X$Y$Z$D i i i i   p.l.3 # | U+    ";
"                 .} | | X { F.i i i i i i i i <.| | | # | | | | | | | | | | | | | | | | | | | | | | | | | | | | | | | | | | | | | p 4 i i i i i i i i F.H | | | | | | | | | | | | | | | | $.i i i h+|.3.|.*@f.|.D+i p.| | | | | | | | | | | | | | | | m _.D i i i i i i i =+o | | | | | | | | | | | | | | | | | | | | | | | | | | | | | | | | | | | | | | | | | h i i i i i i i i i ,.:+0+C r.| s#      ";
"                  A@$ | |@Y+] ~ &+i i i i i i 5.m | m J$J$2 ^ 1 | | | | | | | | | | | | | | | | | | | | | | | | | | | | | | | | | | | | M+~ ~.@._+6+1 | | | | | | | | | | | | | | | | | | g i i i 4.|.|.|.|.|.|.g+i i | | | | | | | | | | | | | | | | | | | $ g U+% x+x#| | | | | | | | | | | | | | | | | | | | | | | | | | | | | | | | | | | | # } $ S y p | | f i i i i i i i &+4 w ] t 0.| 9#        ";
"                  k.< | | L.=@Z.O@u i i i i i i =@| | !.c.r s#!+R / e+| | | | | | | | | | | | | | | | | | | | | | | | | | | | | | | | | | | | | | | | | | | | | | | | | | | | | | | | | | m+i i i B.|.|.|.|.|.|.`$i i p | | | | | | | | | | | | | | | | | | | | | | | | | | | | | | | | | | | | | | | | | | | | | | | | | | | | | | | | | m n M$Y.E+ %M+q | | | &.i i i i i N.7.] ] ;+3 :.| r#          ";
"                ..| | | | | | | | | s#i i i i i s+| | | # @ : S 1+n+M.6@b @ p | | | | | | | | | | | | | | | | | | | | | | | | | | | | | | | | | | | | | | | | | | | | | | | | | | | | | | U+i i i i |.|.|.|.|.|.i i i / | | | | | | | | | | | | | | | | | | | | | | | | | | | | | | | | | | | | | | | | | | | | | | | | | | | | | # k 6.z =@s#t.a ^$n 1 | | | q i i i i L+P.] ] ]  %^$| | h             ";
"                K.| | | | | | m K. %L+i i i i i K m | | | | | | e+/ ).=@r [+Y.i@^ p | | | | | | | | | | | | | | | | | | | | | | | | | | | | | | | | | | | | | | | | | | | | | | | | | | | d#i i i i v+|.|.|.|.|.i i i R | | | | | | | | | | | | | | | | | | | | | | | | | | | | | | | | | | | | | | | | | | | | | | | | | | # } : ,+~#>.M+s$|@} # | | | | | | d+i i i R.w ] ] ] ;+# | | @ e             ";
"                t | | n ~#8 s ++i i i i i i i i i t.| | | | | | | | | 1 n q I t r =@z@r.1 | | | | | | | | | | | | | | | | | | | | | | | | | | | | | | | | | | | | | | | | | | | | | | | | 9.i i i i h.|.|.|.|.f.i i i }#| | | | | | | | | | | | | | | | | | | | | | | | | | | | | | | | | | | | | | | | | | | | | | | p @ %.)+G >.R+).}+e+| | | | | | | | | B W i i F.] ] ] g [.R+| | | Q               ";
"                J#@ | r.P i i i i i i i i i i i i , / | | | | | | | | | | | p B K.6@Z.m@.$%+B p | | | | | | | | | | | | | | | | | | | | | | | | | | | | | | | | | | | | | | | | | | | | | W i i i i `$|.|.|.|.&@i i i ( | | | | | | | | | | | | | | | | | | | | | | | | | | | | | | | | | | | | | | | | | | | | # @ 2 Y.<@t.H+Y < m | | | | | | | | | | | | _.i i i i d#F a.i i :+| | | [               ";
"                  F # | q O u.i i i i i i i i i i i . / | | | | | | | | | | | | | p ^ %.X t m@(.i@e+| | | | | | | | | | | | | | | | | | | | | | | | | | | | | | | | | | | | | | | | | | }+i i i i 9+i |.|.|.|.A.i i i _.| | | | | | | | | | | | | | | | | | | | | | | | | | | | | | | | | | | | | | | | | | m 0.)+Z+s#H+L.n 1 | | | | | | | | | | | | | p !@i i i i i i i i i i i ;.| | ^ E.            ";
"                    f # | n }#Q.J#i i i i i i i i i i , s#1 | | | | | | | | | | | | | | p B q Y.m@t#x#B | | | | | | | | | | | | | | | | | | | | | | | | | | | | | | | | | | | | | | | | 2 i i i i I+M@4.|.|.|.u+;@|#i ! | | | | | | | | | | | | | | | | | | | | | | | | | | | | | | | | | | | | | | | | } d.B+$.M+z@}+m | | | | | | | | | | | | | | | 9#'.i i i i i i i i i Q$i i i .%| | ^ 4+          ";
"                      8 ^ | | y E+:+,.i i i i i i i i i i 6 n+k | | | | | | | | | | | | | | | 1 < z ~#s#,+< | | | | | | | | | | | | | | | | | | | | | | | | | | | | | | | | | | | | | | m+i i i i S.h+@+|.|.|.' |.|.i i b | | | | | | | | | | | | | | | | | | | | | | | | | | | | | | | | | | | | | ^ x#<@Z++ 6.:.| | | | | | | | | | | | | | | m +%T i i i i i i i D @%O$#%i i i #%$%| | | -+          ";
"                        , m@m | p i@(.$.;+$.m@V.U++.v.i i i i W.8 Y | | | | | | | | | | | | | | | | e+K.}#Q H+/ | | | | | | | | | | | | | | | | | | | | | | | | | | | | | | | | | | o * i i i i i D |.3.|.|.|.g@|.|.D i i o.^ | | | | | | | | | | | | | | | | | | | | | | | | | | | | | | | | | n s$6+M.d.k | | | | | | | | | | | | | | | | %%&%*%W$i i i i i =%R$O$O$W$D i i V$-%;%| | :...            ";
"                            6 { 6.| | | | | | :.Z.;.] -.i i i i i i '.{ K.| | | | | | | | | | | | | | | p M a Q a 0.# | | | | | | | | | | | | | | | | | | | | | | | | | | | | | b _+i i i i i i D  @|.|.|.|.|.h+|.|.,@i i i i P.X+| | | | | | | | | | | | | | | | | | | | | | | | | | | | | < D$>.}#%.1 | | | | | | | | | | | | | | | >%,%'%W$O$R$R$O$O$W$O$O$O$O$W$,@i i i )%!%~%| | `.~+              ";
"                                  }#| | | | | | | Z+[ . i i i i i i i i i ++7+B+/ | | | | | | | | | | | | | | < J$Q !+M # | | | | | | | | | | | | | | | | | | | | | | | | | Y ~.i i i i i i i i f.|.|.|.|.|.|.|.|.|.i i i i i i i q+$ | | | | | | | | | | | | | | | | | | | | | | | | | / Y.Q H+0.# | | | | | | | | | | | | | H {%]%^%O$O$O$O$/%i i V$O$O$O$(%_%i i i i D :%<%| | ).R.                  ";
"                                   %| | | | | p X |+p.i i i i i i i i i i i i i i A+*+Q R 1 | | | | | | | | | | | r.6@ %r#|@# | | | | | | | | | | | | | | | | | | | | | 2 O.i i i i i i i i i i  @|.|.|.|.|.|.|.|.|.i i i i i i i i i q+/ | | | | | | | | | | | | | | | | | | | | # }+I  %}#6.| | | | | | | | | | | < !+[%}%|%W$O$O$O$O$O$O$O$-%V$i i i i i i i i i D R$1%2%| !.*+                      ";
"                              *+I | | | | n j.r ] 3+p.i i i i i i i i i i i i i i i i i i i $@i.0+J$@ | | | | | | | | < D$n+r#|@# | | | | | | | | | | | | | | | | | } *+i i i i i i i i i i i i A.|.|.|.|.|.|.|.|.o+i i i i i i i i i i i w # | | | | | | | | | | | | | | | | # o H+n+r#M # | | | | | | | $ 9#3+f+6 i i i =%O$O$O$O$#%3%)%R$-%W$S$4%i i i i i i V$O$-%5%| m !@                          ";
"                            (.| | # K.I C w c 1@9 A@i i i i i i i i i i i i i i i i i i i i D 6%7%N$i N.l+;.I k | | | | # o c.O@}#6.# | | | | | | | | | | | | | | J$i i i i i i i i i i i i i i 9+|.|.|.|.|.|.|.|.I+i i i i i i i i i i i i &+6.| | | | | | | | | | | | | | }+(.O@R+|@# | | | | n M+m+R., i i i D X$@%R$O$O$O$O$O$O$(%i i i i i i i i i i 3%O$O$O$O$8%| | q+                            ";
"                          _ | | 6.t.1@. L+i i i i i i @%O$O$R$i i i i i i 9%i i i i i i i -%O$O$O$O$N$i i i i i Q+c J$m | | # M r#;+(.r.| | | | | | | | | | | | x+i i i i i i i i i i i i i i i i |.|.|.|.|.|.|.|.,@i i i i i i i i i i i i i i R | | | | | | | | | | | B X  %x !.# | | } c.|+F.i i i i i i i i D =%0%@%)%W$O$O$O$O$O$O$-%O$O$O$O$O$O$O$O$O$O$O$O$O$a%| |  %                            ";
"                          t | | _.i i i i i i 3%S$O$O$O$O$O$i i i i D )%)%i i i i i i 3%O$O$O$O$W$D i i i i i i i i i i `+w : | p q M.Q h B | | | | | | | | | U+i i i i i i i i i i i i i i i i i 3.|.|.|.|.|.|.h+i i i i i i i i i i i i i i i i X | | | | | | | | e+).t.[+).1 | %.v ~.i i i i i i i i i i i i i i i i i i i V$O$O$O$O$O$O$O$O$O$O$O$O$O$O$O$O$O$O$-%b%| | r.;.                        ";
"                          z | | ^+i i i i i X$S$#%/%D i c%d%e%f%g%h%O$O$9%i i D ,@#%O$O$O$O$R$D i i i i i i i i i i i i i i i F.;.6.:.y r t.).:.| | | | | | J i i i i i i i i i i i i i i i i i i c+|.|.|.|.|.|.I#i i i i i i i i i i i i i i i i i d.| | | | | m ^$E+m@S } / w F.i i i i i i i i i i i i i i i i i i i i i 0%O$O$O$O$O$O$O$O$i%j%k%l%m%O$O$O$O$O$O$O$-%n%| | | V.                      ";
"                          $ | | # H+( ~ ! i i i i i i i o%p%q%r%s%t%p%u%v%w%x%y%O$O$O$O$O$9%i i i i i i i i i i i i i i i i i i i i [.1+r.6@$.x %.p | | | $.i i i i i i i i i i i i i i i i i i i i |.|.|.|.|.|.D i i i i i i i i i i i i i i i i i i |@| | # M 9#O@`.}+a 5+i i i i i i i i i i i i i i i i i i D ,@0%#%O$O$O$O$z%A%B%C%D%E%t%F%G%w G%H%O$O$O$O$O$O$O$O$O$I%| | f                       ";
"                          o.# | | | | | | z L+i i i (%O$J%K%L%M%N%O%P%Q%s%q%s%b%R%S%v%T%U%D i i i i i i i i i i i i i i i i i i i i i i 6 m.q r#O@I B | `.i i i i i i i i i i i i i i i i i 9+[.8+C f@S s$h }#V%T.$@i i i i i i i i i i i i i i i i i ,.} ^ X n+1+K.$.N.i i i i i i i i i i i i i i W%X%i i S$O$O$O$Y%Z%`% &.&+&@&#&r%$&F%%&&&*&=&-&;&z%O$O$O$O$O$O$O$O$-%Q%| !+                        ";
"                            Y | | | | | | | U+i 3%O$O$O$O$O$O$O$O$O$O$>&,&'&)&!&~&Q%G%w $&{&]&^&/&(&i i D ,@,@,@D i i i i i i i i i i i i i i L y C t.y , i i i i i i i i i i i i i i i .+Z.:.m X+%.|@r.p | | | | | L.~ i i i i i i i i i i i i i i i i 8+t 6+x#s#' i i i i i i i i i i i i i i i i i i i i _&:&<&[&}&|&$&q%F%1&2&3&4&k%5&6&O$O$O$O$O$O$O$O$O$O$O$O$7&1%8&# [                           ";
"                            M | | | | | | H 9&W$O$O$O$O$O$O$O$O$O$O$O$O$O$O$O$O$J%0&a&b&N%c&Q%$&w #&c&o%d&e&f&O$O$O$O$R$i i i i i i i i i i i i A@n J$;.|+<.i i i i i i i i i i i i i *+:.# < ).}#g&R+d.n | | | | | | | X D i i i i i i i i i i i i `+7.;.] < | E.i i i i i i i i i i i i i i i i i X.l+h&i&j&r%$&F%k&*&u%l&m&n&O$O$O$O$O$O$)%6%o&D i i i i i   p&q&m | b a.                            ";
"                          9 | | | | | X+;+D O$O$O$O$O$O$O$O$O$O$O$O$O$O$O$O$O$O$O$O$O$O$O$O$n&r&s&t&u&G%w q%#&v&7 w&,@V$O$(%i i i i i i i i i i T.| d+-.V c d+A+i i i i i i i i i i F.p # x&X y&z&A&B&C&o # | | | | | | | Z.i i i i i i i i i i 8.3+m+!@4 i 1+| U.i i i i i i i i i i i i i J#l+7.;.v 0+G%Q%R%D&E&F&J%O$O$O$O$O$O$O$O$O$D i i i i i i i i i 4 r.| | | ~#*.                              ";
"                          4+m | | | 0+i i i O$O$O$O$O$O$O$O$O$O$O$O$O$O$O$O$O$O$O$O$O$O$O$9%i i i i i ++i. .0+v w v 0+3+s+G&H&=%i i i i i i i i D$| I&i 6 ~ c ] =@i i i i i i i i i M.| < s$w T+J&K&L&H+}+| | | | | | | | # 8.i i i i i i i i t >.Q.8 N.i i k.| B+i i i i i i i i i A T+7.;.[ w [ ] a+~ M&N&(%O$O$O$O$O$O$O$O$O$O$O$O$O$i i i i i i i i i 5+# | | }+*+                                  ";
"                            5+:.| | | 6.r `+i i i i i X%O$O$O$O$O$O$O$O$O$O$O$O$O$O$O$O$O$R$D i i i i i i i i O&P&Q&R&q%w [ 0+S&T&X.i i i i i i 1 8&i i i i 9 s.X+A i i i i i i i i H e+H M.U&V&W&X&Y&d.e+| | | | | | | | | J.i i i i i i i v.n J$9 i i i i i }+/ i i i i i  +-+P.g v w ( ] a+~ 9.i i i 9%#%-%O$O$O$O$O$O$O$O$O$O$O$O$O$S$i i i Z&)%i i i P.| | q 8.                                    ";
"                              =+# | | | | | n t.-+i i i W%O$O$O$O$O$O$O$O$O$O$O$O$O$O$O$O$O$O$O$O$O$R$R$W$S$3%6%,@D D `& *.*w ;.] O@Y+m+:+' i . | +*i i i i i Z Q+i i i i i i i i i M$}+@*#*$*%*&*O@+ **| | | | | | | | | | d i i i i i i i i N.A i i i i i i =*| A i a.T.8+m.m.v O@o.U+u.i i i D )%O$O$O$O$O$O$O$O$O$O$O$O$O$O$O$=%i ,@O$O$O$O$O$-*i i i O | k ,                                       ";
"                                M+| | | | | | | | Y $@i i O$O$O$O$O$O$O$O$O$O$O$O$O$O$O$O$O$O$O$-%N$i i i i i i i i i i i i i ;*>*3+] [ 0+v g E+| ,*i i i i i i i i i i i i i i i i j '*)*3 !*r ~*{*B | | | | | | | | | | | 8.i i i i i i i i i i i i i i i i ]*1 <@n+[ 0+v g P.f+H#i i i i i i i i i i i )%O$O$O$S$@%W$O$O$O$O$R$i i i 0%O$O$S$i i i i  #}#| ^ T                                       ";
"                                @.^ | | | | | | | | } X.i 3%O$O$O$O$O$O$O$O$O$O$O$O$O$O$O$O$O$^*i i i i i i i i i i i i i i i i i D /*@.2+o.w  %x (*n._.++i i i i i i i i i i i i i ^+n 2 z y Y 6.m | | | | | | | | | | | (.i i i i i i i i i i i i i ' _+3+Y+6+Q [+[ V =+, i i i i i i i i i i i i i i i i i i i i i i i X%O$O$O$W$i i i /%i i i i 5 Q./ | | | e+7.                                    ";
"                                  *.T.t `.d.6.| | | | ;+i i 3%O$O$O$S$Y$W%(%O$O$O$O$O$O$O$-%i i i i i i i i i i i i i i i i i i i i D i i i > x n @&$&0+0+t#z+i i m@z@6 i i i i i i i 9#_*< n :.| | | | | | | | | | | | k &.i i i i i i =.z@c i i .+s$M+0+( w :*p a+i i i i i i i i i i i i D D D D D i i i i i i i i i i i 3%O$O$R$6%i i i i i i s+r.| | | x#9#e+| 9                                   ";
"                                              7 | | | / i i i i i i i i i i O$O$O$O$O$O$O$3%i i i i i i D ,@6%3%3%V$,@i i i i i i i i i i i i Q.| <*[*q+ %9#N.i i y m P@i i i i i i i I.s.| | | | | | | | | | | | | | :._ i i i i i i i -+| }#i i @.d.x#_.E.i }*| 7.i i i i i i i i i i ,@)%O$O$O$O$O$O$O$D i i i i i D 0%R$W$i i i i i i i i i f | k `.8 >+i   a+| f                                   ";
"                                              N.| | | | T+i i i i i i D @%O$O$O$O$O$O$O$O$O$O$O$O$O$O$S$(%S$R$R$R$S$#%@%V$V$=%D i i i i i i i J | |*D i i i i i i i t+i i i i i i i i i i 6+| | | | | | | | | | | | i@Q+i i i i i i i i i , i i i i W i i i i 1*| U+i i i i i i i i i i i i i i D ,@D 6%O$O$O$O$O$O$O$O$O$O$S$i i i i i i i i i <+++i i i i i   }#m e                                   ";
"                                                n | | | + i i i i i ,@2*V$3*/%3%W$O$O$O$O$O$R$0%i i i i i i i i i i i i i i i i i i i i i i i _+| 4*(%i i i i i i i i i i i i i i i i i i i . Z.m | | | | | | | ^$~ i i i i i i i i i i i i i i i i i i i i i 5*| i.i i i i i i i i i i i i i i i i i i i )%O$O$O$9%i i i i i i i i i i i i i i i i i i i i ' c.| a+                                    ";
"                                                8+| | | | }#i i i i i i i i i i i i i i i i i i i i i D D i i i i i i i i i i i i i i i i i i P@| 6*O$i i i i i i i i i i i i i i i i i i i i i i & U+x+m.V _+J#i i i i i i i i i i i i i i i i i i i i i i 3%7*| & i i i i i i i i i i i i i i i i i i i i i i i i i i i i i i i i i i i i i i i i i i i _ |@| 6+                                      ";
"                                                  1+| | | | q :+p.i i i i i i i i i i i i i i 9%R$O$O$O$O$O$O$R$X$i i i i i i i i i i i i i i i :.X+W$7%i i i i i i i i i i i i i i i i i i i i i i i i i i i i i i i i i i i i i i i i i i i i i i i i i i W$o | <+i i i i i i i i i i i i i i i i i i i i i i i i i i i i i i i i i i i i i i i i i a.D$| |@J.                                        ";
"                                                    d+:.| | | | 6.[ 1@0 i i i i i i i i i i i O$O$(%D i i i i D #%R$S$@%9%D i i i i i i i i i i !+| 8*O$i i i i i i i i i i i i i i i i i i i i i i i i i i i i i i i i i i i i i i i i i i i i i i i i i @%9*| K.i i i i i i i i i i i i i i i i i i i i i i i i i i i i i i i i i i i i i i i >+U+%+| # 6+>                                           ";
"                                                      A@E+# | | | | 1 .$4 &+i i i i i i i i i i i i i i i i i i i i i i i i i i i 7%i i i i i i 1@| 0*O$R$i i i i i i i i i i i i i i i i i i i i i i i a*i i i i i i i i i i i i i i i i i i i i i i i D O$b*| n+i i i i i i i i i i i i i i i i i i i i i i i i i i i i i i i i i i i <+^+a+x#| | :.Z.N                                               ";
"                                                          6 3+%.| | | | | | b 1@i i i i i i i i i i i i i i i i i i i i i i i i i i #%i i i i i K # | c*O$(%i i i i i i i i i i i i i i i i i i i i i d*e*f*i i i i i i i i i i i i i i i i i i i i i i O$g*m | u.i i i i i i i i i i i i i i i i i i i i i i i i i i i i i i i T T.~#|@| | | o Z.$+I.                                                  ";
"                                                                >@D$p | | | | | -.i i i i i i i i i i i i 3%R$W$,@i i i i i i i i i i )%i i i i i R+| h*O$O$S$i i i i i i i i i i i i i i i i i i i S$i*| j*=%i i i i i i i i i i i i i i i i i i i i -%O$k*| ^$i i i i i i i i i i i i i i i i i i i i i i i i i i i i i 5.a+6.| | | p =@U+G.                                                          ";
"                                                                    E.x#| | | | %.d#i D E.-.m+f k.i i R$O$O$O$(%i i i i i i i i i i i i i i i i i u.| | l*O$O$W$i i i i i i i i i i i i i i i i i W$m*| | n*:%3%i i i i i i i i i i i i i i i i i ,@O$O$o*| | *+i i i i i i i i i i i i i i i i i i i i i i i i i i i i i U.| | | o 2+W                                                                 ";
"                                                                        q+1 | | | `.w ] ] ;+9#+ + A W%O$O$O$O$i i i i i i i i i i i i i i i i i i i X | p p*O$O$O$S$i i i i i i i i i i i i i #%O$q*p | | | r*-%-%D i i i i i i i i i i i i i i S$O$O$:%0.| S i i i i i i i i i i i i i i i i i i i i i i i i i i i i i i 5+| | : 5                                                                     ";
"                                                                          [ | | | m !+R+%+e+| | @ s*-%O$O$O$D i i i i i i i i i i i i i i i i i i i >@| | e+t*O$O$O$O$O$3%D i i i i i N$@%O$O$O$q*:.| | | | | %&-%O$O$3%D i i i i i i i i N$R$O$O$O$^%>%| 1 =.i i i i i i i i i i i i i i i i i i i i i i i i i i i i i .+z | | ;.                                                                      ";
"                                                                            s.| | | | | | | | 1 d#i 4%O$O$3%i i i i i R$S$#%-%O$i i i i i i i i i i i M.| | | u*W$O$O$O$O$O$O$O$O$O$O$O$O$O$W$v*| | | | | | | | r*7&O$O$O$O$O$O$O$O$O$O$O$O$O$O$O$d*w*| | x+i i i i i i i i i i i i i i i i i i i i i i i i i i i i F.>.k | | ^ H.                                                                      ";
"                                                                              t K.| | | | | x*y*O$O$O$O$O$i i 5 . [.d#z*,@i R$R$i i i i i i i i i i i <+B | | | A*!%O$O$O$O$O$O$O$O$O$O$-%!%B*| | | | | | | | | | 6.C*-%O$O$O$O$O$O$O$O$O$O$O$-%D*m | | Y.i i i i i i i i i i i i i i i i i i i i i i i i i i i = z | | | | i@&.                                                                        ";
"                                                                                  ~+`.| | E*7&O$O$O$O$S$i :+,+m e+d.O@] J.F*D i i i i i i i i i i i i i 1@| | | | | G*H*I*-%O$O$O$-%J*K*%%| | | | | | | | | | | | | | E*L*M*O$O$O$O$O$O$O$g*N*O*| | | !.' i i i i i i i i i i i i i i i i i i i i i i i i i a.%+| | | | n m+                                                                            ";
"                                                                                      b | }+P*Q*D i i P@Y.| | 2 | | 9#^+i i i i i i i i i i i i i i i i i Z.| | | | | | | | R*S*r.| | | | | | | | | | | | | | | | | | | | | T*U*8%K*V*W*X*| | | | | ^ =.i i i i i i i i i i i i i i i i i i i i i i i i & 3 | | | | e+m.,.                                                                              ";
"                                                                                      P | | | e+%+)+H | | # 1@.$| ^ Y*i i i i i i i i i i i i i i i i i i D L.| | | | | | | | | | | | | Z*`* =.=+=@=#=| | $=%=&=*===-=;=| | | | | | | | | | | | | # J.i i i i i i i i i i i i i i i i i R.$+2+!@8+Q D$B | | | | 1 >.L+                                                                                  ";
"                                                                                      &+/ | | | | | | | :.= & | | y*i i i i i i i i i i i i i i i i i i i i v.< | | | | | | | | >=,='=)=!=!=~={=]=^=/=| # (=_=:=<=[=!=!=}=|=1=| | | | | | | | | | 8+i i i i i i i i i i i i i i i i i 6@| | | | | | | | | | p t#A+                                                                                      ";
"                                                                                        >  .H | | | | J$'.  x#| 2=D i i i i i V$O$@%i i i i i i i i i i i i i @.p | | | | | | 3=4=!=!=!=!=!=!=5=6=7=8=9=0=8=7=a=b=!=!=!=!=!=c=d=| | | | | | | | I i i i i i i i i i i i i i i i i i z+| | | | | | | | < =@2+L+                                                                                          ";
"                                                                                              A ; Z <+    _ | o *%i i i i i D O$O$O$S$i i i i i i i i i i i i i J | | | | | | e=!=!=!=!=!=!=!=!=f=~=g=h=i=j=k=l=!=!=!=!=!=!=!=m=| | | | | | | B 6 i i i i i i i i i i i i i i i i i z | | | s$n.|+. L+                                                                                                  ";
"                                                                                                          z@| n=V$i i D @%O$O$O$O$O$O$,@i i i i i i i i i i i i i t#| | | | | | o=!=!=!=!=!=!=!=!=!=!=!=!=!=!=!=!=!=!=!=!=!=!=p=| | | | | | | = i i i i i i i i i i i i i i i i 6 )+| | | M.[ ] |+                                                                                                      ";
"                                                                                                        ^+| k q=r=s=1 t=u=M*O$O$O$O$O$T$i i i i i i i i i i i i i i R | | | | | v=w=!=!=!=!=!=!=!=!=!=!=!=!=!=!=!=!=!=!=!=!=x=y=| | | | | | Z.i i i i i i i i i i i i i i i i P.< | | | (.;.] ( <+                                                                                                      ";
"                                                                                                         %| z=A=| | | | | 2%B=C=O$O$O$-%i i i i i i i i i i i i i i H.}+| | | | | D=E=!=!=!=!=!=!=!=!=!=!=!=!=!=!=!=!=!=!=F=G=| | | | | | ).i i i i i i i i i i i i i i K 7.6.| | | | 3 m.] 0+++                                                                                                        ";
"                                                                                                        %+| H=X+| | # | | | | I=q*O$O$O$O$,@i i i i i i i i i i i i i u.e+| | | | J=K=L=!=!=!=!=!=!=!=!=!=!=!=!=!=!=!=!=M=N=| | | | | | o X.i i i i i i i i i i $@J m@x#p | | | | r.Q.w ] w 4+                                                                                                          ";
"                                                                                                        2 | | | l u.i ,@T+^$| | | O=C=O$O$O$R$D i i i i i i i i i i i i #.# | | | | P=Q=R=c=!=!=!=!=!=!=!=!=!=!=!=!=S=T=U=3=| | | | | }+=.i i i i i i i i i N `.| | | | | | | :.;+Q.] ] 0+s                                                                                                             ";
"                                                                                                        x | | !.W i i i i i 8 :.| | V=W=O$O$O$O$-%D i i i i i i i i i i i i.m | | | | M X=Y=Z=`=!=!=!=!=!=!=!=!= -.-+-@-p | | | | | < s i i i i i i i i i 2+:.| | | | | | %+o.Q.] ] ] 0+T                                                                                                               ";
"                                                                                                        D.s$`.J#      i i i i $@H | | | #--%O$O$O$O$i i i i i i i i i i i i `+B | | | | 1 $-%-&-*-=---M=M=;->-,-'-)-!-| | | | | | ^$D.i i i i i i i i i <@| | | | | z (  .w ] ] ] ] v =.                                                                                                                ";
"                                                                                                                      i i i i i i E+| | | ~-o*O$O$O$D i i i i i i i i i i i i N j.| | | | | $ O {-]-^-/-(-_-:-<-L :.| | | | | | j D i i i i i i i i 5 h | | | !.( L ] ] ] ] ] ] ] g &+                                                                                                                  ";
"                                                                                                                        i i i i i i V r.| | | [-}-!%|-i i i i i i i i i i i i i i l.B | | | | | | $ ~#;.[ 3 r.| | | | | | | q ^+i i i i i i i i i .+2 | | @ a+( ] ] ] ] ] ] ] ;._+I.                                                                                                                    ";
"                                                                                                                          i i i i i ] L 3 | | | | | | e+a $+i i i i i i i i i i i i p.o.r.| | | | | | | | | | | | | | | z@* i i i i i i i i i i & < | | $ 3+] ] ] ] ] ] ] O.W                                                                                                                           ";
"                                                                                                                            i i i i ] ] w V 6+r.| | | | | | %+k.i i i i i i i i i i i i i T+M.%.| | | | | | | | m X x+9.i i i i i i i i i i i -.m | | %.c ] ] ] ] ] ] ] 1@                                                                                                                              ";
"                                                                                                                                i '.] ] ] ] ] ;.m+m+;.).| | | | 1+K i i i i i i i i i i i i i i W `+T+-.2+_+@.N.i i i i i i i i i i i i i i o.| | | i@d+] ] ] ] ] ] ] O                                                                                                                                 ";
"                                                                                                                                  O.] ] ] ] ] ] ] ] ] w !@!+| | | $ Z i i i i i i i i i i i i i i i i i i i i i i i i i i i i i i i i i i G | | | ^$Q.] ] ] ] ;.T+! ,.                                                                                                                                  ";
"                                                                                                                                    E.m.w *+[ ] ] ] 0+] ] w V L.| | B ++i i i i i i i i i i i i i i i i i i i i i i i i i i i i i i i K + | | | h V.] ] ] ] a+5                                                                                                                                         ";
"                                                                                                                                      > E.  ++w ] v a.] ] ] ] x+h | | < 5+i i i i i i i i i i i i i i i i i i i i i i i i i i i i i '.%.| | | B+g ] ] ] ] V.'                                                                                                                                           ";
"                                                                                                                                                e i 1-] ] ] ] ] x+(.| | | w i i i i i i i i i i i i i i i i i i i i i i i i i i i #.} | | | 6+[ ] ] ] ] g e                                                                                                                                             ";
"                                                                                                                                                    i !@o.] ] ] ] [ Q.^ | | d.>@i i i i i i i i i i i i i i i i i i i i i i i i ;.| | | e+Q.w ] ] ] ] o.A@                                                                                                                                              ";
"                                                                                                                                                      i i 4 ] ] ] ] ] L !+| | | 1+&.i i i i i i i i i i i i i i i i i i i i =.).| | | l L ] ] ] ] ] O                                                                                                                                                   ";
"                                                                                                                                                          . ] ] ] ] ] ] 0+!@+ | | | !+_ H#i i i i i i i i i i i i i i i 6 r p | | | Z.P ] ] ] ] ] [.                                                                                                                                                    ";
"                                                                                                                                                            [ ] ] ] ] ] ] ] v f I | | | p ,+c d <+i i i i i i i i I.T+M+m | | | !.L w ] ] ] ] ] O                                                                                                                                                       ";
"                                                                                                                                                            4+_ =+] ] ] ] ] ] ] ] f O@B | | | | | 6.h j  %$.E+M+!.| | | | | } [ P ] ] ] ] ] ] |+                                                                                                                                                        ";
"                                                                                                                                                                  ^+V.] ] ] ] ] ] ] ] a+m.r.| | | | | | | | | | | | | | / 0+a+] ] ] ] x+<.z+v.                                                                                                                                                          ";
"                                                                                                                                                                      F.~ P.7.] ] ] ] ] ] x+3+R+# | | | | | | | | } M.L g ] ] ] ] ] P.                                                                                                                                                                  ";
"                                                                                                                                                                            ,.] ] ] ] ] ] ] ] ] n.!@d+{ w 0+n.3+m+m.] ] ] ] ] ] ] o.                                                                                                                                                                    ";
"                                                                                                                                                                              7+] ] ] ] ] ] ] ] ] ] ] ] ] ] ] ] ] ] ] ] v +.T Z ^+A@                                                                                                                                                                    ";
"                                                                                                                                                                                A@w ] ] ] ] ] ] ] ] ] ] ] ] ] ] ] ] ] P v.                                                                                                                                                                              ";
"                                                                                                                                                                                  P.] ] { z+  _+] ] ] ] ] ] ] ] ] o.^+                                                                                                                                                                                  ";
"                                                                                                                                                                                  =.o.q+        T.] ] ] ] ] ] 8+F.                                                                                                                                                                                      ";
"                                                                                                                                                                                                  D.[.J g o.0                                                                                                                                                                                           ";
"                                                                                                                                                                                                                                                                                                                                                                                                        ";
"                                                                                                                                                                                                                                                                                                                                                                                                        ";
"                                                                                                                                                                                                                                                                                                                                                                                                        ";
"                                                                                                                                                                                                                                                                                                                                                                                                        ";
"                                                                                                                                                                                                                                                                                                                                                                                                        ";
"                                                                                                                                                                                                                                                                                                                                                                                                        ";
"                                                                                                                                                                                                                                                                                                                                                                                                        ";
"                                                                                                                                                                                                                                                                                                                                                                                                        ";
"                                                                                                                                                                                                                                                                                                                                                                                                        ";
"                                                                                                                                                                                                                                                                                                                                                                                                        ";
"                                                                                                                                                                                                                                                                                                                                                                                                        ";
"                                                                                                                                                                                                                                                                                                                                                                                                        ";
"                                                                                                                                                                                                                                                                                                                                                                                                        ";
"                                                                                                                                                                                                                                                                                                                                                                                                        "]%xpm.

Definition ubuntu_xpm : xpm_map := [
"259 250 17 1";
" 	c None";
".	c #EB3D00";
"+	c #F38001";
"@	c #F28001";
"#	c #EA3E00";
"$	c #EB3C00";
"%	c #EFC415";
"&	c #F0C415";
"*	c #EFC416";
"=	c #F48001";
"-	c #EFC315";
";	c #EA3D00";
">	c #EA3C00";
",	c #EB3E00";
"'	c #F38002";
")	c #EFC514";
"!	c #EFC515";
"                                                                                                                                                                                                                                                                   ";
"                                                                                                                                                                                                                                                                   ";
"                                                                                                                                                                                                     ............                                                  ";
"                                                                                                                                                                                                  ..................                                               ";
"                                                                                                                                                                                               .......................                                             ";
"                                                                                                                                                                                             ...........................                                           ";
"                                                                                                                                                                                            ..............................                                         ";
"                                                                                                                                                                                           ................................                                        ";
"                                                                                                                                                                                         ...................................                                       ";
"                                                                                                                                                                                        .....................................                                      ";
"                                                                                                                                                                                       .......................................                                     ";
"                                                                                                                                                                                       ........................................                                    ";
"                                                                                                                                                                                      ..........................................                                   ";
"                                                                                                                                                                                     ............................................                                  ";
"                                                                                                                                                                                    .............................................                                  ";
"                                                                                                                                                                                    ..............................................                                 ";
"                                                                                                                                                                                   ...............................................                                 ";
"                                                                                                                                                                                   ................................................                                ";
"                                                                                                                                                                                   ................................................                                ";
"                                                                                                                                                                                  .................................................                                ";
"                                                                                                                                    ++++++++++++++++++++++++                      ..................................................                               ";
"                                                                                                                             +++++++++++++++++++++++++++++++++++++@               ..................................................                               ";
"                                                                                                                        ++++++++++++++++++++++++++++++++++++++++++++++++         ...................................................                               ";
"                                                                                                                   ++++++++++++++++++++++++++++++++++++++++++++++++++++++++      ...................................................                               ";
"                                                                                                                ++++++++++++++++++++++++++++++++++++++++++++++++++++++++++++     ...................................................                               ";
"                                                                                                             +++++++++++++++++++++++++++++++++++++++++++++++++++++++++++++++     ...................................................#                              ";
"                                                                                                          +++++++++++++++++++++++++++++++++++++++++++++++++++++++++++++++++      ....................................................                              ";
"                                                                                                       ++++++++++++++++++++++++++++++++++++++++++++++++++++++++++++++++++++      ....................................................                              ";
"                                                                                                     ++++++++++++++++++++++++++++++++++++++++++++++++++++++++++++++++++++++      ....................................................                              ";
"                                                                                                  +++++++++++++++++++++++++++++++++++++++++++++++++++++++++++++++++++++++++      ....................................................                              ";
"                                                                                                +++++++++++++++++++++++++++++++++++++++++++++++++++++++++++++++++++++++++++      ...................................................                               ";
"                                                                                              ++++++++++++++++++++++++++++++++++++++++++++++++++++++++++++++++++++++++++++++     ...................................................                               ";
"                                                                                            ++++++++++++++++++++++++++++++++++++++++++++++++++++++++++++++++++++++++++++++++      ..................................................                               ";
"                                                                                          ++++++++++++++++++++++++++++++++++++++++++++++++++++++++++++++++++++++++++++++++++      ..................................................                               ";
"                                                                                        ++++++++++++++++++++++++++++++++++++++++++++++++++++++++++++++++++++++++++++++++++++      ..................................................                               ";
"                                                                                      ++++++++++++++++++++++++++++++++++++++++++++++++++++++++++++++++++++++++++++++++++++++      .................................................                                ";
"                                                                                     +++++++++++++++++++++++++++++++++++++++++++++++++++++++++++++++++++++++++++++++++++++++       ................................................                                ";
"                                                                                    +++++++++++++++++++++++++++++++++++++++++++++++++++++++++++++++++++++++++++++++++++++++++      ...............................................                                 ";
"                                                                                    +++++++++++++++++++++++++++++++++++++++++++++++++++++++++++++++++++++++++++++++++++++++++       ..............................................                                 ";
"                                                                                     ++++++++++++++++++++++++++++++++++++++++++++++++++++++++++++++++++++++++++++++++++++++++       .............................................                                  ";
"                                                                                      ++++++++++++++++++++++++++++++++++++++++++++++++++++++++++++++++++++++++++++++++++++++++       ............................................                                  ";
"                                                                                      ++++++++++++++++++++++++++++++++++++++++++++++++++++++++++++++++++++++++++++++++++++++++       ...........................................                                   ";
"                                                                                       ++++++++++++++++++++++++++++++++++++++++++++++++++++++++++++++++++++++++++++++++++++++++       .........................................                                    ";
"                                                                                        +++++++++++++++++++++++++++++++++++++++++++++++++++++++++++++++++++++++++++++++++++++++        ........................................                                    ";
"                                                                                         +++++++++++++++++++++++++++++++++++++++++++++++++++++++++++++++++++++++++++++++++++++++        ......................................                                     ";
"                                                                                         ++++++++++++++++++++++++++++++++++++++++++++++++++++++++++++++++++++++++++++++++++++++++        ....................................                                      ";
"                                                                                          +++++++++++++++++++++++++++++++++++++++++++++++++++++++++++++++++++++++++++++++++++++++         .................................$                                       ";
"                                                                                           +++++++++++++++++++++++++++++++++++++++++++++++++++++++++++++++++++++++++++++++++++++++         ................................                                        ";
"                                                                                           ++++++++++++++++++++++++++++++++++++++++++++++++++++++++++++++++++++++++++++++++++++++++         .............................                                          ";
"                                                                                            ++++++++++++++++++++++++++++++++++++++++++++++++++++++++++++++++++++++++++++++++++++++++          ..........................                                           ";
"                                                                  %%%%                       ++++++++++++++++++++++++++++++++++++++++++++++++++++++++++++++++++++++++++++++++++++++++           .....................                                              ";
"                                                                 %%%%%                        ++++++++++++++++++++++++++++++++++++++++++++++++++++++++++++++++++++++++++++++++++++++++             ................        +++                                     ";
"                                                                %%%%%%%                       +++++++++++++++++++++++++++++++++++++++++++++++++++++++++++++++++++++++++++++++++++++++++                ........           +++++                                    ";
"                                                               %%%%%%%%&                       ++++++++++++++++++++++++++++++++++++++++++++++++++++++++++++++++++++++++++++++++++++++++++                                +++++++                                   ";
"                                                              %%%%%%%%%%                        ++++++++++++++++++++++++++++++++++++++++++++++++++++++++++++++++++++++++++++++++++++++++++                             ++++++++++                                  ";
"                                                             %%%%%%%%%%%%                       ++++++++++++++++++++++++++++++++++++++++++++++++++++++++++++++++++++++++++++++++++++++++++++                         +++++++++++++                                 ";
"                                                            %%%%%%%%%%%%%%                       ++++++++++++++++++++++++++++++++++++++++++++++++++++++++++++++++++++++++++++++++++++++++++++++                    ++++++++++++++++                                ";
"                                                            %%%%%%%%%%%%%%*                       ++++++++++++++++++++++++++++++++++++++++++++++++++++++++++++++++++++++++++++++++++++++++++++++++             +++++++++++++++++++++                               ";
"                                                           %%%%%%%%%%%%%%%%                        ++++++++++++++++++++++++++++++++++++++++++++++++++++++++++++++++++++++++++++++++++++++++++++++++++++++++++++++++++++++++++++++++++                              ";
"                                                          %%%%%%%%%%%%%%%%%%                       +++++++++++++++++++++++++++++++++++++++++++++++++++++++++++++++++++++++++++++++++++++++++++++++++++++++++++++++++++++++++++++++++++                             ";
"                                                         %%%%%%%%%%%%%%%%%%%%                       +++++++++++++++++++++++++++++++++++++++++++++++++++++++++++++++++++++++++++++++++++++++++++++++++++++++++++++++++++++++++++++++++++                            ";
"                                                        %%%%%%%%%%%%%%%%%%%%%                        +++++++++++++++++++++++++++++++++++++++++++++++++++++++++++++++++++++++++++++++++++++++++++++++++++++++++++++++++++++++++++++++++++                           ";
"                                                       %%%%%%%%%%%%%%%%%%%%%%%                       +++++++++++++++++++++++++++++++++++++++++++++++++++++++++++++++++++++++++++++++++++++++++++++++++++++++++++++++++++++++++++++++++++                           ";
"                                                       %%%%%%%%%%%%%%%%%%%%%%%%                       +++++++++++++++++++++++++++++++++++++++++++++++++++++++++++++++++++++++++++++++++++++++++++++++++++++++++++++++++++++++++++++++++++                          ";
"                                                      %%%%%%%%%%%%%%%%%%%%%%%%%%                       +++++++++++++++++++++++++++++++++++++++++++++++++++++++++++++++++++++++++++++++++++++++++++++++++++++++++++++++++++++++++++++++++++                         ";
"                                                     %%%%%%%%%%%%%%%%%%%%%%%%%%%                        +++++++++++++++++++++++++++++++++++++++++++++++++++++++++++++++++++++++++++++++++++++++++++++++++++++++++++++++++++++++++++++++++++                        ";
"                                                    %%%%%%%%%%%%%%%%%%%%%%%%%%%%%                       +++++++++++++++++++++++++++++++++++++++++++++++++++++++++++++++++++++++++++++++++++++++++++++++++++++++++++++++++++++++++++++++++++                        ";
"                                                    %%%%%%%%%%%%%%%%%%%%%%%%%%%%%%                       +++++++++++++++++++++++++++++++++++++++++++++++++++++++++++++++++++++++++++++++++++++++++++++++++++++++++++++++++++++++++++++++++++                       ";
"                                                   %%%%%%%%%%%%%%%%%%%%%%%%%%%%%%%                        +++++++++++++++++++++++++++++++++++++++++++++++++++++++++++++++++++++++++++++++++++++++++++++++++++++++++++++++++++++++++++++++++++                      ";
"                                                  %%%%%%%%%%%%%%%%%%%%%%%%%%%%%%%%%                       ++++++++++++++++++++++++++++++++++++++++++++++++++++++++++++++++++++++++++++++++++++++++++++++++++++++++++++++++++++++++++++++++++++                     ";
"                                                 %%%%%%%%%%%%%%%%%%%%%%%%%%%%%%%%%%%                       +++++++++++++++++++++++++++++++++++++++++++++++++++++++++++++++++++++++++++++++++++++++++++++++++++++++++++++++++++++++++++++++++++                     ";
"                                                 %%%%%%%%%%%%%%%%%%%%%%%%%%%%%%%%%%%&                       +++++++++++++++++++++++++++++++++++++++++++++++++++++++++++++++++++++++++++++++++++++++++++++++++++++++++++++++++++++++++++++++++++                    ";
"                                                %%%%%%%%%%%%%%%%%%%%%%%%%%%%%%%%%%%%%                        +++++++++++++++++++++++++++++++++++++++++++++++++++++++++++++++++++++++++++++++++++++++++++++++++++++++++++++++++++++++++++++++++++                   ";
"                                                %%%%%%%%%%%%%%%%%%%%%%%%%%%%%%%%%%%%%%                       +++++++++++++++++++++++++++++++++++++++++++++++++++++++++++++++++++++++++++++++++++++++++++++++++++++++++++++++++++++++++++++++++++                   ";
"                                               %%%%%%%%%%%%%%%%%%%%%%%%%%%%%%%%%%%%%%%%                       +++++++++++++++++++++++++++++++++++++++++++++++++++++++++++++++++++++++++++++++++++++++++++++++++++++++++++++++++++++++++++++++++++                  ";
"                                              %%%%%%%%%%%%%%%%%%%%%%%%%%%%%%%%%%%%%%%%%                        ++++++++++++++++++++++++++++++++++++++++++++++++++++++++++++++++++++++++++++++++++++++++++++++++++++++++++++++++++++++++++++++++++                  ";
"                                              %%%%%%%%%%%%%%%%%%%%%%%%%%%%%%%%%%%%%%%%%%                       +++++++++++++++++++++++++++++++++++++++++++++++++++++++++++++++++++++++++++++++++++++++++++++++++++++++++++++++++++++++++++++++++++                 ";
"                                             %%%%%%%%%%%%%%%%%%%%%%%%%%%%%%%%%%%%%%%%%%%%                       ++++++++++++++++++++++++++++++++++++++++++++++++++++++++++++++++++++++++++++++++++++++++++++++++++++++++++++++++++++++++++++++++++=                ";
"                                             %%%%%%%%%%%%%%%%%%%%%%%%%%%%%%%%%%%%%%%%%%%%%                       ++++++++++++++++++++++++++++++++++++++++++++++++++++++++++++++++++++++++++++++++++++++++++++++++++++++++++++++++++++++++++++++++++                ";
"                                            %%%%%%%%%%%%%%%%%%%%%%%%%%%%%%%%%%%%%%%%%%%%%%                        ++++++++++++++++++++                    ++++++++++++++++++++++++++++++++++++++++++++++++++++++++++++++++++++++++++++++++++++++++++               ";
"                                            %%%%%%%%%%%%%%%%%%%%%%%%%%%%%%%%%%%%%%%%%%%%%%%                       ++++++++++++++++                            ++++++++++++++++++++++++++++++++++++++++++++++++++++++++++++++++++++++++++++++++++++++               ";
"                                           %%%%%%%%%%%%%%%%%%%%%%%%%%%%%%%%%%%%%%%%%%%%%%%%*                       +++++++++++                                    +++++++++++++++++++++++++++++++++++++++++++++++++++++++++++++++++++++++++++++++++++              ";
"                                          %%%%%%%%%%%%%%%%%%%%%%%%%%%%%%%%%%%%%%%%%%%%%%%%%%                        +++++++                                         +++++++++++++++++++++++++++++++++++++++++++++++++++++++++++++++++++++++++++++++++              ";
"                                          %%%%%%%%%%%%%%%%%%%%%%%%%%%%%%%%%%%%%%%%%%%%%%%%%%%                       +++++                                              +++++++++++++++++++++++++++++++++++++++++++++++++++++++++++++++++++++++++++++++             ";
"                                         %%%%%%%%%%%%%%%%%%%%%%%%%%%%%%%%%%%%%%%%%%%%%%%%%%%%%                        +                                                  +++++++++++++++++++++++++++++++++++++++++++++++++++++++++++++++++++++++++++++             ";
"                                         %%%%%%%%%%%%%%%%%%%%%%%%%%%%%%%%%%%%%%%%%%%%%%%%%%%%%%                                                                            ++++++++++++++++++++++++++++++++++++++++++++++++++++++++++++++++++++++++++++            ";
"                                         %%%%%%%%%%%%%%%%%%%%%%%%%%%%%%%%%%%%%%%%%%%%%%%%%%%%%%                                                                              ++++++++++++++++++++++++++++++++++++++++++++++++++++++++++++++++++++++++++            ";
"                                        %%%%%%%%%%%%%%%%%%%%%%%%%%%%%%%%%%%%%%%%%%%%%%%%%%%%%%%%                                                                              ++++++++++++++++++++++++++++++++++++++++++++++++++++++++++++++++++++++++++           ";
"                                        %%%%%%%%%%%%%%%%%%%%%%%%%%%%%%%%%%%%%%%%%%%%%%%%%%%%%%%%%                                                                               ++++++++++++++++++++++++++++++++++++++++++++++++++++++++++++++++++++++++           ";
"                                       %%%%%%%%%%%%%%%%%%%%%%%%%%%%%%%%%%%%%%%%%%%%%%%%%%%%%%%%%%                                                                                +++++++++++++++++++++++++++++++++++++++++++++++++++++++++++++++++++++++           ";
"                                       %%%%%%%%%%%%%%%%%%%%%%%%%%%%%%%%%%%%%%%%%%%%%%%%%%%%%%%%%%%                                                                                +++++++++++++++++++++++++++++++++++++++++++++++++++++++++++++++++++++++          ";
"                                      %%%%%%%%%%%%%%%%%%%%%%%%%%%%%%%%%%%%%%%%%%%%%%%%%%%%%%%%%%%%%                                                                                ++++++++++++++++++++++++++++++++++++++++++++++++++++++++++++++++++++++          ";
"                                      %%%%%%%%%%%%%%%%%%%%%%%%%%%%%%%%%%%%%%%%%%%%%%%%%%%%%%%%%%%%%%                                                                                 +++++++++++++++++++++++++++++++++++++++++++++++++++++++++++++++++++++         ";
"                                      %%%%%%%%%%%%%%%%%%%%%%%%%%%%%%%%%%%%%%%%%%%%%%%%%%%%%%%%%%%%%%                                                                                  ++++++++++++++++++++++++++++++++++++++++++++++++++++++++++++++++++++         ";
"                                     %%%%%%%%%%%%%%%%%%%%%%%%%%%%%%%%%%%%%%%%%%%%%%%%%%%%%%%%%%%%%%%%                                                                                  +++++++++++++++++++++++++++++++++++++++++++++++++++++++++++++++++++         ";
"                                     %%%%%%%%%%%%%%%%%%%%%%%%%%%%%%%%%%%%%%%%%%%%%%%%%%%%%%%%%%%%%%%%%                                                                                  +++++++++++++++++++++++++++++++++++++++++++++++++++++++++++++++++++        ";
"                                     %%%%%%%%%%%%%%%%%%%%%%%%%%%%%%%%%%%%%%%%%%%%%%%%%%%%%%%%%%%%%%%%%                                                                                   ++++++++++++++++++++++++++++++++++++++++++++++++++++++++++++++++++        ";
"                                    %%%%%%%%%%%%%%%%%%%%%%%%%%%%%%%%%%%%%%%%%%%%%%%%%%%%%%%%%%%%%%%%%%                                                                                    +++++++++++++++++++++++++++++++++++++++++++++++++++++++++++++++++        ";
"                                    %%%%%%%%%%%%%%%%%%%%%%%%%%%%%%%%%%%%%%%%%%%%%%%%%%%%%%%%%%%%%%%%%                                                                                     ++++++++++++++++++++++++++++++++++++++++++++++++++++++++++++++++++       ";
"                                    %%%%%%%%%%%%%%%%%%%%%%%%%%%%%%%%%%%%%%%%%%%%%%%%%%%%%%%%%%%%%%%%%                                                                                      @++++++++++++++++++++++++++++++++++++++++++++++++++++++++++++++++       ";
"                                   %%%%%%%%%%%%%%%%%%%%%%%%%%%%%%%%%%%%%%%%%%%%%%%%%%%%%%%%%%%%%%%%%                                                                                        ++++++++++++++++++++++++++++++++++++++++++++++++++++++++++++++++       ";
"                                   %%%%%%%%%%%%%%%%%%%%%%%%%%%%%%%%%%%%%%%%%%%%%%%%%%%%%%%%%%%%%%%%                                                                                          ++++++++++++++++++++++++++++++++++++++++++++++++++++++++++++++++      ";
"                                   %%%%%%%%%%%%%%%%%%%%%%%%%%%%%%%%%%%%%%%%%%%%%%%%%%%%%%%%%%%%%%%                                                                                           ++++++++++++++++++++++++++++++++++++++++++++++++++++++++++++++++      ";
"                                  *%%%%%%%%%%%%%%%%%%%%%%%%%%%%%%%%%%%%%%%%%%%%%%%%%%%%%%%%%%%%%%%                                                                                            +++++++++++++++++++++++++++++++++++++++++++++++++++++++++++++++      ";
"                                  %%%%%%%%%%%%%%%%%%%%%%%%%%%%%%%%%%%%%%%%%%%%%%%%%%%%%%%%%%%%%%%                                                                                              +++++++++++++++++++++++++++++++++++++++++++++++++++++++++++++++     ";
"                                  %%%%%%%%%%%%%%%%%%%%%%%%%%%%%%%%%%%%%%%%%%%%%%%%%%%%%%%%%%%%%%%                                                                                              +++++++++++++++++++++++++++++++++++++++++++++++++++++++++++++++     ";
"                                  %%%%%%%%%%%%%%%%%%%%%%%%%%%%%%%%%%%%%%%%%%%%%%%%%%%%%%%%%%%%%%                                                                                                ++++++++++++++++++++++++++++++++++++++++++++++++++++++++++++++     ";
"                                 %%%%%%%%%%%%%%%%%%%%%%%%%%%%%%%%%%%%%%%%%%%%%%%%%%%%%%%%%%%%%%                                                                                                 ++++++++++++++++++++++++++++++++++++++++++++++++++++++++++++++     ";
"                                 &%%%%%%%%%%%%%%%%%%%%%%%%%%%%%%%%%%%%%%%%%%%%%%%%%%%%%%%%%%%%%                                                                                                  +++++++++++++++++++++++++++++++++++++++++++++++++++++++++++++     ";
"                                 %%%%%%%%%%%%%%%%%%%%%%%%%%%%%%%%%%%%%%%%%%%%%%%%%%%%%%%%%%%%%                                                                                                   ++++++++++++++++++++++++++++++++++++++++++++++++++++++++++++      ";
"                                 %%%%%%%%%%%%%%%%%%%%%%%%%%%%%%%%%%%%%%%%%%%%%%%%%%%%%%%%%%%%%                                                                                                    ++++++++++++++++++++++++++++++++++++++++++++++++++++++           ";
"                                 %%%%%%%%%%%%%%%%%%%%%%%%%%%%%%%%%%%%%%%%%%%%%%%%%%%%%%%%%%%%-                                                                                                    +++++++++++++++++++++++++++++++++++++++++++++++++                ";
"                                %%%%%%%%%%%%%%%%%%%%%%%%%%%%%%%%%%%%%%%%%%%%%%%%%%%%%%%%%%%%%                                                                                                      +++++++++++++++++++++++++++++++++++++++++@                      ";
"                                %%%%%%%%%%%%%%%%%%%%%%%%%%%%%%%%%%%%%%%%%%%%%%%%%%%%%%%%%%%%%                                                                                                      ++++++++++++++++++++++++++++++++++++                            ";
"                                %%%%%%%%%%%%%%%%%%%%%%%%%%%%%%%%%%%%%%%%%%%%%%%%%%%%%%%%%%%%                                                                                                       ++++++++++++++++++++++++++++++                                  ";
"                                %%%%%%%%%%%%%%%%%%%%%%%%%%%%%%%%%%%%%%%%%%%%%%%%%%%%%%%%%%%%                                                                                                        +++++++++++++++++++++++                                        ";
"                                %%%%%%%%%%%%%%%%%%%%%%%%%%%%%%%%%%%%%%%%%%%%%%%%%%%%%%%%%%%%                                                                                                        ++++++++++++++++=                                              ";
"                                %%%%%%%%%%%%%%%%%%%%%%%%%%%%%%%%%%%%%%%%%%%%%%%%%%%%%%%%%%%                                                                                                         +++++++++++                                                    ";
"                               %%%%%%%%%%%%%%%%%%%%%%%%%%%%%%%%%%%%%%%%%%%%%%%%%%%%%%%%%%%%                                                                                                          +++++                                                         ";
"                               %%%%%%%%%%%%%%%%%%%%%%%%%%%%%%%%%%%%%%%%%%%%%%%%%%%%%%%%%%%%                                                                                                                                                                        ";
"                               %%%%%%%%%%%%%%%%%%%%%%%%%%%%%%%%%%%%%%%%%%%%%%%%%%%%%%%%%%%%                                                                                                                                                                        ";
"                               %%%%%%%%%%%%%%%%%%%%%%%%%%%%%%%%%%%%%%%%%%%%%%%%%%%%%%%%%%%                                                                                                                                                                         ";
"                               %%%%%%%%%%%%%%%%%%%%%%%%%%%%%%%%%%%%%%%%%%%%%%%%%%%%%%%%%%%                                                                                                                                                                         ";
"                               %%%%%%%%%%%%%%%%%%%%%%%%%%%%%%%%%%%%%%%%%%%%%%%%%%%%%%%%%%%                                                                                                                                                                         ";
"                               %%%%%%%%%%%%%%%%%%%%%%%%%%%%%%%%%%%%%%%%%%%%%%%%%%%%%%%%%%%                                                                                                                                                                         ";
"                               %%%%%%%%%%%%%%%%%%%%%%%%%%%%%%%%%%%%%%%%%%%%%%%%%%%%%%%%%%%                                                                                                                                                                         ";
"                               %%%%%%%%%%%%%%%%%%%%%%%%%%%%%%%%%%%%%%%%%%%%%%%%%%%%%%%%%%%                                                                                                                                                                         ";
"                               %%%%%%%%%%%%%%%%%%%%%%%%%%%%%%%%%%%%%%%%%%%%%%%%%%%%%%%%%%                                                                                                                                                                          ";
"                                       %%%%%%%%%%%%%%%%%%%%%%%%%%%%%%%%%%%%%%%%%%%%%%%%%%                                                                                                                                                                          ";
"                                            %%%%%%%%%%%%%%%%%%%%%%%%%%%%%%%%%%%%%%%%%%%%%                                                                                                                                                                 .......  ";
"                         +++++++++++          %%%%%%%%%%%%%%%%%%%%%%%%%%%%%%%%%%%%%%%%%%%                                                                                                                                                           .............  ";
"                     ++++++++++++++++++          %%%%%%%%%%%%%%%%%%%%%%%%%%%%%%%%%%%%%%%%                                                                                                                                                     ...................  ";
"                   +++++++++++++++++++++++        %%%%%%%%%%%%%%%%%%%%%%%%%%%%%%%%%%%%%%%                                                                                                                                               .........................  ";
"                 +++++++++++++++++++++++++++        %%%%%%%%%%%%%%%%%%%%%%%%%%%%%%%%%%%%%                                                                                                                                         ...............................  ";
"               +++++++++++++++++++++++++++++++       %%%%%%%%%%%%%%%%%%%%%%%%%%%%%%%%%%%%                                                                                                                                   .....................................  ";
"              +++++++++++++++++++++++++++++++++       %%%%%%%%%%%%%%%%%%%%%%%%%%%%%%%%%%%                                                                                                                              ..........................................  ";
"             +++++++++++++++++++++++++++++++++++       %%%%%%%%%%%%%%%%%%%%%%%%%%%%%%%%%%                                                                                                                        ................................................  ";
"            +++++++++++++++++++++++++++++++++++++       %%%%%%%%%%%%%%%%%%%%%%%%%%%%%%%%%                                                                                                                  ......................................................  ";
"           +++++++++++++++++++++++++++++++++++++++       %%%%%%%%%%%%%%%%%%%%%%%%%%%%%%%%                                                                                                              ..........................................................  ";
"          +++++++++++++++++++++++++++++++++++++++++       %%%%%%%%%%%%%%%%%%%%%%%%%%%%%%%                                                                                                             ;..........................................................  ";
"         +++++++++++++++++++++++++++++++++++++++++++       %%%%%%%%%%%%%%%%%%%%%%%%%%%%%%%                                                                                                            ...........................................................  ";
"        +++++++++++++++++++++++++++++++++++++++++++++      %%%%%%%%%%%%%%%%%%%%%%%%%%%%%%%                                                                                                            ...........................................................  ";
"       +++++++++++++++++++++++++++++++++++++++++++++++      %%%%%%%%%%%%%%%%%%%%%%%%%%%%%%                                                                                                            ...........................................................  ";
"       +++++++++++++++++++++++++++++++++++++++++++++++       %%%%%%%%%%%%%%%%%%%%%%%%%%%%%                                                                                                            ...........................................................  ";
"      +++++++++++++++++++++++++++++++++++++++++++++++++      %%%%%%%%%%%%%%%%%%%%%%%%%%%%%                                                                                                            ...........................................................  ";
"      +++++++++++++++++++++++++++++++++++++++++++++++++       %%%%%%%%%%%%%%%%%%%%%%%%%%%%                                                                                                           ............................................................  ";
"     +++++++++++++++++++++++++++++++++++++++++++++++++++      %%%%%%%%%%%%%%%%%%%%%%%%%%%%%                                                                                                          ...........................................................>  ";
"     +++++++++++++++++++++++++++++++++++++++++++++++++++      %%%%%%%%%%%%%%%%%%%%%%%%%%%%%                                                                                                          ...........................................................   ";
"    +++++++++++++++++++++++++++++++++++++++++++++++++++++      %%%%%%%%%%%%%%%%%%%%%%%%%%%%                                                                                                          ...........................................................   ";
"    +++++++++++++++++++++++++++++++++++++++++++++++++++++      %%%%%%%%%%%%%%%%%%%%%%%%%%%%                                                                                                         ............................................................   ";
"    +++++++++++++++++++++++++++++++++++++++++++++++++++++      %%%%%%%%%%%%%%%%%%%%%%%%%%%%%                                                                                                        ............................................................   ";
"   +++++++++++++++++++++++++++++++++++++++++++++++++++++++      %%%%%%%%%%%%%%%%%%%%%%%%%%%%                                                                                                        ............................................................   ";
"   +++++++++++++++++++++++++++++++++++++++++++++++++++++++      %%%%%%%%%%%%%%%%%%%%%%%%%%%%                                                                                                       .............................................................   ";
"   +++++++++++++++++++++++++++++++++++++++++++++++++++++++      %%%%%%%%%%%%%%%%%%%%%%%%%%%%%                                                                                                      .............................................................   ";
"   +++++++++++++++++++++++++++++++++++++++++++++++++++++++      %%%%%%%%%%%%%%%%%%%%%%%%%%%%%                                                                                                      ............................................................    ";
"   +++++++++++++++++++++++++++++++++++++++++++++++++++++++      %%%%%%%%%%%%%%%%%%%%%%%%%%%%%                                                                                                     .............................................................    ";
"   +++++++++++++++++++++++++++++++++++++++++++++++++++++++      %%%%%%%%%%%%%%%%%%%%%%%%%%%%%%                                                                                                    .............................................................    ";
"   +++++++++++++++++++++++++++++++++++++++++++++++++++++++      %%%%%%%%%%%%%%%%%%%%%%%%%%%%%%                                                                                                   .............................................................,    ";
"   +++++++++++++++++++++++++++++++++++++++++++++++++++++++      %%%%%%%%%%%%%%%%%%%%%%%%%%%%%%%                                                                                                  .............................................................     ";
"   +++++++++++++++++++++++++++++++++++++++++++++++++++++++      %%%%%%%%%%%%%%%%%%%%%%%%%%%%%%%                                                                                                 ..............................................................     ";
"   +++++++++++++++++++++++++++++++++++++++++++++++++++++++      %%%%%%%%%%%%%%%%%%%%%%%%%%%%%%%%                                                                                                ..............................................................     ";
"   +++++++++++++++++++++++++++++++++++++++++++++++++++++++      %%%%%%%%%%%%%%%%%%%%%%%%%%%%%%%%                                                                                               ...............................................................     ";
"   +++++++++++++++++++++++++++++++++++++++++++++++++++++++      %%%%%%%%%%%%%%%%%%%%%%%%%%%%%%%%%                                                                                              ...............................................................     ";
"   +++++++++++++++++++++++++++++++++++++++++++++++++++++++      %%%%%%%%%%%%%%%%%%%%%%%%%%%%%%%%%%                                                                                            ...............................................................      ";
"   +++++++++++++++++++++++++++++++++++++++++++++++++++++++     %%%%%%%%%%%%%%%%%%%%%%%%%%%%%%%%%%%                                                                                           ................................................................      ";
"    +++++++++++++++++++++++++++++++++++++++++++++++++++++      %%%%%%%%%%%%%%%%%%%%%%%%%%%%%%%%%%%%                                                                                          ................................................................      ";
"    +++++++++++++++++++++++++++++++++++++++++++++++++++++      %%%%%%%%%%%%%%%%%%%%%%%%%%%%%%%%%%%%%                                                                                        ................................................................       ";
"    +++++++++++++++++++++++++++++++++++++++++++++++++++++     %%%%%%%%%%%%%%%%%%%%%%%%%%%%%%%%%%%%%%                                                                                       .................................................................       ";
"     +++++++++++++++++++++++++++++++++++++++++++++++++++      %%%%%%%%%%%%%%%%%%%%%%%%%%%%%%%%%%%%%%%                                                                                     ..................................................................       ";
"     +++++++++++++++++++++++++++++++++++++++++++++++++++      %%%%%%%%%%%%%%%%%%%%%%%%%%%%%%%%%%%%%%%%                                                                                    .................................................................        ";
"      +++++++++++++++++++++++++++++++++++++++++++++++++      %%%%%%%%%%%%%%%%%%%%%%%%%%%%%%%%%%%%%%%%%%                                                                                  ..................................................................        ";
"      +++++++++++++++++++++++++++++++++++++++++++++++++      %%%%%%%%%%%%%%%%%%%%%%%%%%%%%%%%%%%%%%%%%%%                                                                                ...................................................................        ";
"       +++++++++++++++++++++++++++++++++++++++++++++++      %%%%%%%%%%%%%%%%%%%%%%%%%%%%%%%%%%%%%%%%%%%%%                                                                              ...................................................................         ";
"       +++++++++++++++++++++++++++++++++++++++++++++++     %%%%%%%%%%%%%%%%%%%%%%%%%%%%%%%%%%%%%%%%%%%%%%%                                                                            ....................................................................         ";
"        +++++++++++++++++++++++++++++++++++++++++++++      %%%%%%%%%%%%%%%%%%%%%%%%%%%%%%%%%%%%%%%%%%%%%%%%                                                                          .....................................................................         ";
"         +++++++++++++++++++++++++++++++++++++++++++      %%%%%%%%%%%%%%%%%%%%%%%%%%%%%%%%%%%%%%%%%%%%%%%%%%                                                                       ......................................................................          ";
"          +++++++++++++++++++++++++++++++++++++++++      *%%%%%%%%%%%%%%%%%%%%%%%%%%%%%%%%%%%%%%%%%%%%%%%%%%%                                                                     .......................................................................          ";
"           +++++++++++++++++++++++++++++++++++++++      %%%%%%%%%%%%%%%%%%%%%%%%%%%%%%%%%%%%%%%%%%%%%%%%%%%%%%%                                                                  .......................................................................           ";
"            +++++++++++++++++++++++++++++++++++++      %%%%%%%%%%%%%%%%%%%%%%%%%%%%%%%%%%%%%%%%%%%%%%%%%%%%%%%%%                                                                ........................................................................           ";
"             +++++++++++++++++++++++++++++++++++      %%%%%%%%%%%%%%%%%%%%%%%%%%%%%%%%%%%%%%%%%%%%%%%%%%%%%%%%%%%&                                                            ..........................................................................           ";
"              +++++++++++++++++++++++++++++++++      %%%%%%%%%%%%%%%%%%%%%%%%%%%%%%%%%%%%%%%%%%%%%%%%%%%%%%%%%%%%%%                                                          ..........................................................................            ";
"               ++++++++++++++++++++++++++++++       %%%%%%%%%%%%%%%%%%%%%%%%%%%%%%%%%%%%%%%%%%%%%%%%%%%%%%%%%%%%%%%%%                                                      ............................................................................            ";
"                 +++++++++++++++++++++++++++      *%%%%%%%%%%%%%%%%%%%%%%%%%%%%%%%%%%%%%%%%%%%%%%%%%%%%%%%%%%%%%%%%%%%%                                                  .............................................................................             ";
"                   +++++++++++++++++++++++      %%%%%%%%%%%%%%%%%%%%%%%%%%%%%%%%%%%%%%%%%%%%%%%%%%%%%%%%%%%%%%%%%%%%%%%%%                                              ...............................................................................             ";
"                      +++++++++++++++++       %%%%%%%%%%%%%%%%%%%%%%%%%%%%%%%%%%%%%%%%%%%%%%%%%%%%%%%%%%%%%%%%%%%%%%%%%%%%%                                         .................................................................................              ";
"                          '++++++++          %%%%%%%%%%%%%%%%%%%%%%%%%%%%%%%%%%%%%%%%%%%%%%%%%%%%%%%%%%%%%%%%%%%%%%%%%%%%%%%%                                     ..........................................................               ..........              ";
"                                            %%%%%%%%%%%%%%%%%%%%%%%%%%%%%%%%%%%%%%%%%%%%%%%%%%%%%%%%%%%%%%%%%%%%%%%%%%%%%%%%%                                 ..........................................................                      ......               ";
"                                            %%%%%%%%%%%%%%%%%%%%%%%%%%%%%%%%%%%%%%%%%%%%%%%%%%%%%%%%%%%%%%%%%%%%%%%%%%%%%%%%%                            ;............................................................                          ....               ";
"                                             %%%%%%%%%%%%%%%%%%%%%%%%%%%%%%%%%%%%%%%%%%%%%%%%%%%%%%%%%%%%%%%%%%%%%%%%%%%%%%%%                    ...................................................................                                               ";
"                                             %%%%%%%%%%%%%%%%%%%%%%%%%%%%%%%%%%%%%%%%%%%%%%%%%%%%%%%%%%%%%%%%%%%%%%%%%%%%%%%%                   ...................................................................               &%%%%%%%                         ";
"                                              %%%%%%%%%%%%%%%%%%%%%%%%%%%%%%%%%%%%%%%%%%%%%%%%%%%%%%%%%%%%%%%%%%%%%%%%%%%%%%%                   .................................................................             %%%%%%%%%%%%%%%%                     ";
"                                              %%%%%%%%%%%%%%%%%%%%%%%%%%%%%%%%%%%%%%%%%%%%%%%%%%%%%%%%%%%%%%%%%%%%%%%%%%%%%%%                   ................................................................           %%%%%%%%%%%%%%%%%%%%%%                  ";
"                                               %%%%%%%%%%%%%%%%%%%%%%%%%%%%%%%%%%%%%%%%%%%%%%%%%%%%%%%%%%%%%%%%%%%%%%%%%%%%%%                   ...............................................................          %%%%%%%%%%%%%%%%%%%%%%%%%*                ";
"                                               %%%%%%%%%%%%%%%%%%%%%%%%%%%%%%%%%%%%%%%%%%%%%%%%%%%%%%%%%%%%%%%%%%%%%%%%%%%%%                    ..............................................................         %%%%%%%%%%%%%%%%%%%%%%%%%%%%%               ";
"                                                %%%%%%%%%%%%%%%%%%%%%%%%%%%%%%%%%%%%%%%%%%%%%%%%%%%%%%%%%%%%%%%%%%%%%%%%%%%%                   ..............................................................         %%%%%%%%%%%%%%%%%%%%%%%%%%%%%%%%             ";
"                                                 %%%%%%%%%%%%%%%%%%%%%%%%%%%%%%%%%%%%%%%%%%%%%%%%%%%%%%%%%%%%%%%%%%%%%%%%%%%                   .............................................................         %%%%%%%%%%%%%%%%%%%%%%%%%%%%%%%%%%            ";
"                                                 %%%%%%%%%%%%%%%%%%%%%%%%%%%%%%%%%%%%%%%%%%%%%%%%%%%%%%%%%%%%%%%%%%%%%%%%%%%                   ............................................................        %%%%%%%%%%%%%%%%%%%%%%%%%%%%%%%%%%%%%           ";
"                                                  %%%%%%%%%%%%%%%%%%%%%%%%%%%%%%%%%%%%%%%%%%%%%%%%%%%%%%%%%%%%%%%%%%%%%%%%%%                   ............................................................       %%%%%%%%%%%%%%%%%%%%%%%%%%%%%%%%%%%%%%%          ";
"                                                   %%%%%%%%%%%%%%%%%%%%%%%%%%%%%%%%%%%%%%%%%%%%%%%%%%%%%%%%%%%%%%%%%%%%%%%%%                   ...........................................................        %%%%%%%%%%%%%%%%%%%%%%%%%%%%%%%%%%%%%%%%         ";
"                                                    %%%%%%%%%%%%%%%%%%%%%%%%%%%%%%%%%%%%%%%%%%%%%%%%%%%%%%%%%%%%%%%%%%%%%%%                    ..........................................................        %%%%%%%%%%%%%%%%%%%%%%%%%%%%%%%%%%%%%%%%%%        ";
"                                                    %%%%%%%%%%%%%%%%%%%%%%%%%%%%%%%%%%%%%%%%%%%%%%%%%%%%%%%%%%%%%%%%%%%%%%%                   ...........................................................       %%%%%%%%%%%%%%%%%%%%%%%%%%%%%%%%%%%%%%%%%%%%       ";
"                                                     %%%%%%%%%%%%%%%%%%%%%%%%%%%%%%%%%%%%%%%%%%%%%%%%%%%%%%%%%%%%%%%%%%%%%%                   ..........................................................$      %%%%%%%%%%%%%%%%%%%%%%%%%%%%%%%%%%%%%%%%%%%%%       ";
"                                                      %%%%%%%%%%%%%%%%%%%%%%%%%%%%%%%%%%%%%%%%%%%%%%%%%%%%%%%%%%%%%%%%%%%%%                   ..........................................................       %%%%%%%%%%%%%%%%%%%%%%%%%%%%%%%%%%%%%%%%%%%%%%      ";
"                                                       %%%%%%%%%%%%%%%%%%%%%%%%%%%%%%%%%%%%%%%%%%%%%%%%%%%%%%%%%%%%%%%%%%%%                   ..........................................................      %%%%%%%%%%%%%%%%%%%%%%%%%%%%%%%%%%%%%%%%%%%%%%%%     ";
"                                                       %%%%%%%%%%%%%%%%%%%%%%%%%%%%%%%%%%%%%%%%%%%%%%%%%%%%%%%%%%%%%%%%%%%%                   .........................................................       %%%%%%%%%%%%%%%%%%%%%%%%%%%%%%%%%%%%%%%%%%%%%%%%     ";
"                                                        %%%%%%%%%%%%%%%%%%%%%%%%%%%%%%%%%%%%%%%%%%%%%%%%%%%%%%%%%%%%%%%%%%                    .........................................................      %%%%%%%%%%%%%%%%%%%%%%%%%%%%%%%%%%%%%%%%%%%%%%%%%     ";
"                                                         %%%%%%%%%%%%%%%%%%%%%%%%%%%%%%%%%%%%%%%%%%%%%%%%%%%%%%%%%%%%%%%%%                   ,.........................................................      %%%%%%%%%%%%%%%%%%%%%%%%%%%%%%%%%%%%%%%%%%%%%%%%%%    ";
"                                                          %%%%%%%%%%%%%%%%%%%%%%%%%%%%%%%%%%%%%%%%%%%%%%%%%%%%%%%%%%%%%%%%                   .........................................................      %%%%%%%%%%%%%%%%%%%%%%%%%%%%%%%%%%%%%%%%%%%%%%%%%%%    ";
"                                                           %%%%%%%%%%%%%%%%%%%%%%%%%%%%%%%%%%%%%%%%%%%%%%%%%%%%%%%%%%%%%%%                   .........................................................      %%%%%%%%%%%%%%%%%%%%%%%%%%%%%%%%%%%%%%%%%%%%%%%%%%%    ";
"                                                            %%%%%%%%%%%%%%%%%%%%%%%%%%%%%%%%%%%%%%%%%%%%%%%%%%%%%%%%%%%%%%                   .........................................................      %%%%%%%%%%%%%%%%%%%%%%%%%%%%%%%%%%%%%%%%%%%%%%%%%%%%   ";
"                                                            %%%%%%%%%%%%%%%%%%%%%%%%%%%%%%%%%%%%%%%%%%%%%%%%%%%%%%%%%%%%%%                   .........................................................      %%%%%%%%%%%%%%%%%%%%%%%%%%%%%%%%%%%%%%%%%%%%%%%%%%%%   ";
"                                                             %%%%%%%%%%%%%%%%%%%%%%%%%%%%%%%%%%%%%%%%%%%%%%%%%%%%%%%%%%%%                    .........................................................     %%%%%%%%%%%%%%%%%%%%%%%%%%%%%%%%%%%%%%%%%%%%%%%%%%%%%   ";
"                                                              %%%%%%%%%%%%%%%%%%%%%%%%%%%%%%%%%%%%%%%%%%%%%%%%%%%%%%%%%%%                   ..........................................................     %%%%%%%%%%%%%%%%%%%%%%%%%%%%%%%%%%%%%%%%%%%%%%%%%%%%%   ";
"                                                               %%%%%%%%%%%%%%%%%%%%%%%%%%%%%%%%%%%%%%%%%%%%%%%%%%%%%%%%%%                   ..........................................................     %%%%%%%%%%%%%%%%%%%%%%%%%%%%%%%%%%%%%%%%%%%%%%%%%%%%%)  ";
"                                                                %%%%%%%%%%%%%%%%%%%%%%%%%%%%%%%%%%%%%%%%%%%%%%%%%%%%%%%%%                   ..........................................................     %%%%%%%%%%%%%%%%%%%%%%%%%%%%%%%%%%%%%%%%%%%%%%%%%%%%%!  ";
"                                                                 %%%%%%%%%%%%%%%%%%%%%%%%%%%%%%%%%%%%%%%%%%%%%%%%%%%%%%%%                   ..........................................................     %%%%%%%%%%%%%%%%%%%%%%%%%%%%%%%%%%%%%%%%%%%%%%%%%%%%%%  ";
"                                                                  %%%%%%%%%%%%%%%%%%%%%%%%%%%%%%%%%%%%%%%%%%%%%%%%%%%%%%!                   ..........................................................     %%%%%%%%%%%%%%%%%%%%%%%%%%%%%%%%%%%%%%%%%%%%%%%%%%%%%%  ";
"                                                                   %%%%%%%%%%%%%%%%%%%%%%%%%%%%%%%%%%%%%%%%%%%%%%%%%%%%%                    ..........................................................     %%%%%%%%%%%%%%%%%%%%%%%%%%%%%%%%%%%%%%%%%%%%%%%%%%%%%%  ";
"                                                                     %%%%%%%%%%%%%%%%%%%%%%%%%%%%%%%%%%%%%%%%%%%%%%%%%%%                   ...........................................................     %%%%%%%%%%%%%%%%%%%%%%%%%%%%%%%%%%%%%%%%%%%%%%%%%%%%%%  ";
"                                                                      %%%%%%%%%%%%%%%%%%%%%%%%%%%%%%%%%%%%%%%%%%%%%%%%%%                   ...........................................................     %%%%%%%%%%%%%%%%%%%%%%%%%%%%%%%%%%%%%%%%%%%%%%%%%%%%%   ";
"                                                                       %%%%%%%%%%%%%%%%%%%%%%%%%%%%%%%%%%%%%%%%%%%%%%%%%                   ...........................................................     %%%%%%%%%%%%%%%%%%%%%%%%%%%%%%%%%%%%%%%%%%%%%%%%%%%%%   ";
"                                                                        %%%%%%%%%%%%%%%%%%%%%%%%%%%%%%%%%%%%%%%%%%%%%%%%                   ............................................................     %%%%%%%%%%%%%%%%%%%%%%%%%%%%%%%%%%%%%%%%%%%%%%%%%%%%   ";
"                                                                         %%%%%%%%%%%%%%%%%%%%%%%%%%%%%%%%%%%%%%%%%%%%%%%                   ............................................................     %%%%%%%%%%%%%%%%%%%%%%%%%%%%%%%%%%%%%%%%%%%%%%%%%%%%   ";
"                                                                           %%%%%%%%%%%%%%%%%%%%%%%%%%%%%%%%%%%%%%%%%%%%                    ............................................................     %%%%%%%%%%%%%%%%%%%%%%%%%%%%%%%%%%%%%%%%%%%%%%%%%%%%   ";
"                                                                            %%%%%%%%%%%%%%%%%%%%%%%%%%%%%%%%%%%%%%%%%%%                   ..............................................................    %%%%%%%%%%%%%%%%%%%%%%%%%%%%%%%%%%%%%%%%%%%%%%%%%%%    ";
"                                                                             %%%%%%%%%%%%%%%%%%%%%%%%%%%%%%%%%%%%%%%%%%                   ..............................................................     %%%%%%%%%%%%%%%%%%%%%%%%%%%%%%%%%%%%%%%%%%%%%%%%%%    ";
"                                                                               %%%%%%%%%%%%%%%%%%%%%%%%%%%%%%%%%%%%%%%%                   ...............................................................    %%%%%%%%%%%%%%%%%%%%%%%%%%%%%%%%%%%%%%%%%%%%%%%%%%    ";
"                                                                                %%%%%%%%%%%%%%%%%%%%%%%%%%%%%%%%%%%%%%%                   ...............................................................    %%%%%%%%%%%%%%%%%%%%%%%%%%%%%%%%%%%%%%%%%%%%%%%%%     ";
"                                                                                  %%%%%%%%%%%%%%%%%%%%%%%%%%%%%%%%%%%%%                   ................................................................    %%%%%%%%%%%%%%%%%%%%%%%%%%%%%%%%%%%%%%%%%%%%%%%%     ";
"                                                                                   %%%%%%%%%%%%%%%%%%%%%%%%%%%%%%%%%%%                    ................................................................    %%%%%%%%%%%%%%%%%%%%%%%%%%%%%%%%%%%%%%%%%%%%%%%      ";
"                                                                                     %%%%%%%%%%%%%%%%%%%%%%%%%%%%%%%%%                    ................................................................     %%%%%%%%%%%%%%%%%%%%%%%%%%%%%%%%%%%%%%%%%%%%%       ";
"                                                                                      %%%%%%%%%%%%%%%%%%%%%%%%%%%%%%%%                   ................................................................       %%%%%%%%%%%%%%%%%%%%%%%%%%%%%%%%%%%%%%%%%%%%       ";
"                                                                                        %%%%%%%%%%%%%%%%%%%%%%%%%%%%%%                   ...............................................................         %%%%%%%%%%%%%%%%%%%%%%%%%%%%%%%%%%%%%%%%%%        ";
"                                                                                          %%%%%%%%%%%%%%%%%%%%%%%%%%%%                   .............................................................           %%%%%%%%%%%%%%%%%%%%%%%%%%%%%%%%%%%%%%%%%         ";
"                                                                                            %%%%%%%%%%%%%%%%%%%%%%%%%%                   ...........................................................              %%%%%%%%%%%%%%%%%%%%%%%%%%%%%%%%%%%%%%%          ";
"                                                                                              %%%%%%%%%%%%%%%%%%%%%%%                    .........................................................                 %%%%%%%%%%%%%%%%%%%%%%%%%%%%%%%%%%%%%           ";
"                                                                                                %%%%%%%%%%%%%%%%%%%%%                   ........................................................                    %%%%%%%%%%%%%%%%%%%%%%%%%%%%%%%%%%%            ";
"                                                                                                  %%%%%%%%%%%%%%%%%%%                   ......................................................                        %%%%%%%%%%%%%%%%%%%%%%%%%%%%%%%%             ";
"                                                                                                     %%%%%%%%%%%%%%%%                   ...................................................                            %%%%%%%%%%%%%%%%%%%%%%%%%%%%%!              ";
"                                                                                                       %%%%%%%%%%%%%%                   .................................................                                %%%%%%%%%%%%%%%%%%%%%%%%%%                ";
"                                                                                                          %%%%%%%%%%%                   ..............................................                                    !%%%%%%%%%%%%%%%%%%%%%%                  ";
"                                                                                                             %%%%%%%)                   ...........................................                                          %%%%%%%%%%%%%%%%%%                    ";
"                                                                                                                %%%%                   .........................................                                                 %%%*%%%%%%                        ";
"                                                                                                                                       .....................................                                                                                       ";
"                                                                                                                                       .................................                                                                                           ";
"                                                                                                                                       ............................                                                                                                ";
"                                                                                                                                        ....................                                                                                                       ";
"                                                                                                                                                                                                                                                                   ";
"                                                                                                                                                                                                                                                                   ";
"                                                                                                                                                                                                                                                                   "]%xpm.

Lemma indexed_pixmaps_dims : map indexed_dims [pic1; pic2; cross; pic3; penguin] =
  [Some (32, 13); Some (32, 15); Some (32, 32); Some (64, 32); Some (64, 64)].
Proof. by_vm. Qed.

Lemma ubuntu_xpm_dims : xpm_dims ubuntu_xpm = Some (259, 250).
Proof. by_vm. Qed.

Lemma minix3_xpm_dims : xpm_dims minix3_xpm = Some (196, 196).
Proof. by_vm. Qed.
