(* ===== verification/Lab5Graphics.v ===== *)
(** * lab5/graphic.c: drawing directly into video memory

    The laboratory's graphics module, from which controllers/graphics/graphic.c of the game
    descends: no back buffer, every pixel is stored in the mapped video memory, and pixmaps are
    loaded in the indexed format and walked with a pointer.

    [simulates] relates its operations to those of [Graphics], on a buffer with the same contents:
    each operation of one is an operation of the other; for pixmaps, the loops over an image, since
    the two modules load in different formats.  [Graphics]'s theorems on pixels carry
    over, and drawing here equals drawing in the back buffer and swapping ([direct_equals_swapped]).
    dir_mode and idx_mode are the same functions in both files and modelled in [Graphics]. *)

From S2P Require Import Prelude Machine Xpm IndexedXpm Events.
From S2P Require Import Graphics.

(** The globals [mode_info], [vram_size] and [video_mem]. *)
Record fb := Fb {
  fb_mode : vbe_mode_info;
  fb_vram : Z;
  fb_mem : option (list Z);
}.

Definition set_fb_mem (m : option (list Z)) (g : fb) : fb := Fb (fb_mode g) (fb_vram g) m.

(** ** Mode setting *)
Section mode.
Context {W : Type} `{Video W} `{Panic W}.

Definition set_frame_buffer (mode : Z) : M (W * fb) Z := λ '(w, g),
  let '((rc, mi), w) := vbe_get_mode_info mode w in
  let g := Fb mi (fb_vram g) (fb_mem g) in
  if negb (rc =? 0) then Done (1, (w, g)) else
  let vram := u32 (u32 (i32 (XResolution mi * YResolution mi)) * bytes_per_pixel mi) in
  let g := Fb mi vram (fb_mem g) in
  let mr_base := PhysBasePtr mi in
  let mr_limit := u32 (mr_base + vram) in
  let '(rc, w) := sys_privctl_add_mem mr_base mr_limit w in
  if negb (rc =? 0) then Done (1, (w, g)) else
  let '(vm, w) := vm_map_phys mr_base vram w in
  let g := set_fb_mem vm g in
  match vm with
  | None => Done (1, (panic w, g))
  | Some _ => Done (0, (w, g))
  end.
End mode.

(** ** Drawing *)

(** memcpy(&video_mem[idx], &color, bytes_per_pixel) *)
Definition store_color (idx color bpp : Z) : M fb unit := λ g,
  if bpp <=? 4 then
    let bs := le_bytes (Z.to_nat bpp) color in
    match fb_mem g with
    | Some buf =>
        if (0 <=? idx) && (idx + Z.of_nat (length bs) <=? Z.of_nat (length buf))
        then Done (tt, set_fb_mem (Some (splice (Z.to_nat idx) bs buf)) g)
        else Undef
    | None => Undef
    end
  else Undef.

Definition vg_draw_pixel (x y color : Z) : M fb Z :=
  mi ← gets fb_mode;
  if (x >=? XResolution mi) || (y >=? YResolution mi) || (x <? 0) || (y <? 0) then mret 1 else
  let bpp := bytes_per_pixel mi in
  let idx := u32 (u32 (i32 (i32 (XResolution mi * y) + x)) * bpp) in
  store_color idx color bpp;;
  mret 0.

Definition vg_draw_hline (x y len color : Z) : M fb Z :=
  for_rc (Z.to_nat len) 0 (λ i, vg_draw_pixel (u16 (u32 (x + i))) y color).

Definition vg_draw_rectangle (x y width height color : Z) : M fb Z :=
  for_rc (Z.to_nat height) 0 (λ i, vg_draw_hline x (u16 (u32 (y + i))) width color).

Definition norm_color (color : Z) : M fb Z :=
  bpp ← gets (BitsPerPixel ∘ fb_mode);
  if bpp =? 32 then mret color
  else if bpp <? 32 then mret (Z.land color (u32 (i32 (BIT bpp - 1))))
  else undef.

(** The loops over the pixels of [image], one byte each.  The local is the index of the pointer
    [color] in them. *)
Definition print_image (image : xpm_image) (x y : Z) : M fb Z :=
  with_locals 0 (
    for_rc (Z.to_nat (img_height image)) 0 (λ h,
      for_rc (Z.to_nat (img_width image)) 0 (λ w,
        k ← gets snd;
        color ← of_option (img_bytes image !! Z.to_nat k);
        on_globals (vg_draw_pixel (u16 (w + x)) (u16 (h + y)) color) ;?
        (modify (λ p, (p.1, k + 1));;
         mret 0)))).

Section sprites.
Context `{XpmLoader}.

(** The pixmap is loaded in the format XPM_INDEXED. *)
Definition print_xpm (xpm : xpm_map) (x y : Z) : M fb Z :=
  image ← of_option (xpm_load xpm XPM_INDEXED);
  print_image image x y.
End sprites.

(** ** Simulation by the operations of the game's graphics *)

(** The game's graphics globals, with the memory of [g] as back buffer. *)
Definition mirrors (g : fb) (t : gfx) : Prop :=
  mode_info t = fb_mode g ∧ vram_size t = fb_vram g ∧ back_buf t = fb_mem g.

(** From mirroring states both computations go wrong, or end with the same value in mirroring
    states; the game's does not touch its video memory. *)
Definition simulates {A} (m : M fb A) (m' : M gfx A) : Prop := ∀ g t, mirrors g t →
  match m g, m' t with
  | Done (a, g'), Done (a', t') => a = a' ∧ mirrors g' t' ∧ video_mem t' = video_mem t
  | Undef, Undef => True
  | OutOfFuel, OutOfFuel => True
  | _, _ => False
  end.

Lemma simulates_ret {A} (a : A) : simulates (mret a) (mret a).
Proof. by intros g t Hgt. Qed.

Lemma simulates_undef {A} : simulates (A:=A) undef undef.
Proof. by intros g t Hgt. Qed.

Lemma simulates_bind {A B} (m : M fb A) m' (f : A → M fb B) f' :
  simulates m m' → (∀ a, simulates (f a) (f' a)) → simulates (m ≫= f) (m' ≫= f').
Proof.
  intros Hm Hf g t Hgt. specialize (Hm g t Hgt). unfold mbind, M_bind.
  destruct (m g) as [[a g']| |], (m' t) as [[a' t']| |]; try done.
  destruct Hm as (<- & Hgt' & Hv). specialize (Hf a g' t' Hgt').
  destruct (f a g') as [[b g2]| |], (f' a t') as [[b' t2]| |]; try done.
  destruct Hf as (? & ? & ?). split_and!; [done..|congruence].
Qed.

Lemma simulates_check (m k : M fb Z) m' k' :
  simulates m m' → simulates k k' → simulates (m ;? k) (m' ;? k').
Proof.
  intros Hm Hk. apply simulates_bind; [done|]. intros rc.
  destruct (rc =? 0); [done|apply simulates_ret].
Qed.

Lemma simulates_for_rc n : ∀ i (f : Z → M fb Z) f',
  (∀ i, simulates (f i) (f' i)) → simulates (for_rc n i f) (for_rc n i f').
Proof.
  induction n as [|n IH]; intros i f f' Hf; [apply simulates_ret|].
  apply simulates_check; [apply Hf|]. by apply IH.
Qed.

Lemma simulates_of_option {A} (o : option A) : simulates (of_option o) (of_option o).
Proof. destruct o; [apply simulates_ret|apply simulates_undef]. Qed.

(** The mode is the same on both sides. *)
Lemma simulates_mode {A B} (f : vbe_mode_info → A) (k : A → M fb B) k' :
  (∀ a, simulates (k a) (k' a)) →
  simulates (gets (f ∘ fb_mode) ≫= k) (gets (f ∘ mode_info) ≫= k').
Proof.
  intros Hk. apply simulates_bind; [|done]. intros g t Hgt. unfold gets. cbn.
  destruct Hgt as (E & ? & ?). rewrite E. by split_and!.
Qed.

Create HintDb simulates.
#[export] Hint Resolve simulates_ret simulates_undef simulates_of_option : simulates.

Lemma store_color_simulates idx c b : simulates (store_color idx c b) (Graphics.store_color idx c b).
Proof.
  intros g t (Hm & Hv & Hb). unfold store_color, Graphics.store_color.
  destruct (b <=? 4); [|done]. unfold store. rewrite Hb.
  destruct (fb_mem g) as [buf|]; [|done]. by destruct (_ && _).
Qed.

Lemma vg_draw_pixel_simulates x y c :
  simulates (vg_draw_pixel x y c) (Graphics.vg_draw_pixel x y c).
Proof.
  apply (simulates_mode (λ mi, mi)). intros mi. destruct (_ || _); [auto with simulates|].
  apply simulates_bind; [apply store_color_simulates|auto with simulates].
Qed.

Lemma vg_draw_hline_simulates x y len c :
  simulates (vg_draw_hline x y len c) (Graphics.vg_draw_hline x y len c).
Proof. apply simulates_for_rc. intros. apply vg_draw_pixel_simulates. Qed.

Lemma vg_draw_rectangle_simulates x y w h c :
  simulates (vg_draw_rectangle x y w h c) (Graphics.vg_draw_rectangle x y w h c).
Proof. apply simulates_for_rc. intros. apply vg_draw_hline_simulates. Qed.

Lemma norm_color_simulates c : simulates (norm_color c) (Graphics.norm_color c).
Proof.
  apply simulates_mode. intros b. destruct (b =? 32); [auto with simulates|].
  destruct (b <? 32); auto with simulates.
Qed.

(** *** Pixmaps: a pointer that is incremented is an index that is computed *)

(** The same for a computation that moves the pointer from [k] to [k1] when it ends with 0. *)
Definition tracks (k : Z) (m : M (fb * Z) Z) (m' : M gfx Z) (k1 : Z) : Prop := ∀ g t, mirrors g t →
  match m (g, k), m' t with
  | Done (rc, (g', k')), Done (rc', t') =>
      rc = rc' ∧ mirrors g' t' ∧ video_mem t' = video_mem t ∧ (rc = 0 → k' = k1)
  | Undef, Undef => True
  | OutOfFuel, OutOfFuel => True
  | _, _ => False
  end.

Lemma tracks_check k m m' k1 (n : M (fb * Z) Z) n' k2 :
  tracks k m m' k1 → tracks k1 n n' k2 → tracks k (m ;? n) (m' ;? n') k2.
Proof.
  intros Hm Hn g t Hgt. specialize (Hm g t Hgt). unfold check, mbind, M_bind.
  destruct (m (g, k)) as [[rc [g' k']]| |], (m' t) as [[rc' t']| |]; try done.
  destruct Hm as (<- & Hgt' & Hv & Hk). destruct (Z.eqb_spec rc 0) as [->|].
  - rewrite (Hk eq_refl). specialize (Hn g' t' Hgt').
    destruct (n (g', k1)) as [[rc2 [g2 k2']]| |], (n' t') as [[rc2' t2]| |]; try done.
    destruct Hn as (? & ? & ? & ?). split_and!; [done..|congruence|done].
  - simpl. by split_and!.
Qed.

Lemma tracks_for_rc n (k : Z → Z) f f' : ∀ i,
  (∀ j, i <= j < i + Z.of_nat n → tracks (k j) (f j) (f' j) (k (j + 1))) →
  tracks (k i) (for_rc n i f) (for_rc n i f') (k (i + Z.of_nat n)).
Proof.
  induction n as [|n IH]; intros i Hf; cbn [for_rc].
  - intros g t Hgt. simpl. rewrite Z.add_0_r. by split_and!.
  - apply (tracks_check _ _ _ (k (i + 1))); [apply Hf; lia|].
    replace (i + Z.of_nat (S n)) with (i + 1 + Z.of_nat n) by lia.
    apply IH. intros j Hj. apply Hf. lia.
Qed.

Lemma vg_draw_pixel_code x y c g rc g' :
  vg_draw_pixel x y c g = Done (rc, g') → rc = 0 ∨ rc = 1.
Proof.
  unfold vg_draw_pixel. run_unfold. destruct (_ || _); [intros [= <- _]; by right|].
  destruct (store_color _ _ _ g) as [[]| |]; [|done..]. intros [= <- _]. by left.
Qed.

Lemma tracks_pixel (colors : list Z) x y k : tracks k
  (k ← gets snd; color ← of_option (colors !! Z.to_nat k);
   on_globals (vg_draw_pixel x y color) ;? (modify (λ p, (p.1, k + 1));; mret 0))
  (color ← of_option (colors !! Z.to_nat k); Graphics.vg_draw_pixel x y color) (k + 1).
Proof.
  intros g t Hgt. rewrite (run_done (gets snd) _ (g, k) _ _ eq_refl). cbn [snd].
  destruct (colors !! Z.to_nat k) as [c|]; [|done]. rewrite !run_some.
  pose proof (vg_draw_pixel_simulates x y c g t Hgt) as Hs.
  unfold check, mbind, M_bind, on_globals, zoom. cbn [fst snd].
  destruct (vg_draw_pixel x y c g) as [[rc g']| |] eqn:E, (Graphics.vg_draw_pixel x y c t) as [[rc' t']| |];
    try done.
  destruct Hs as (<- & ? & ?). destruct (Z.eqb_spec rc 0) as [->|]; cbn; [by split_and!|].
  apply vg_draw_pixel_code in E as [->| ->]; by split_and!.
Qed.

(** The loops over an image are the game's, reading bytes. *)
Lemma print_image_simulates image x y : simulates (print_image image x y)
  (Graphics.print_image (img_width image) (img_height image)
     (λ k, img_bytes image !! Z.to_nat k) x y).
Proof.
  unfold print_image, Graphics.print_image. set (w := Z.of_nat (Z.to_nat (img_width image))).
  intros g t Hgt.
  assert (∀ n, tracks (0 * w) (for_rc n 0 (λ h,
      for_rc (Z.to_nat (img_width image)) 0 (λ w,
        k ← gets snd;
        color ← of_option (img_bytes image !! Z.to_nat k);
        on_globals (vg_draw_pixel (u16 (w + x)) (u16 (h + y)) color) ;?
        (modify (λ p, (p.1, k + 1));; mret 0))))
    (for_rc n 0 (λ h,
      for_rc (Z.to_nat (img_width image)) 0 (λ w,
        color ← of_option (img_bytes image !! Z.to_nat (h * img_width image + w));
        Graphics.vg_draw_pixel (u16 (w + x)) (u16 (h + y)) color))) ((0 + Z.of_nat n) * w)) as Hall.
  { intros n. apply (tracks_for_rc n (λ h, h * w)). intros h _.
    replace (h * w) with (h * w + 0) by lia. replace ((h + 1) * w) with (h * w + (0 + w)) by lia.
    apply (tracks_for_rc _ (λ j, h * w + j)). intros j Hj.
    replace (h * img_width image) with (h * w) by lia. rewrite Z.add_assoc. apply tracks_pixel. }
  specialize (Hall (Z.to_nat (img_height image)) g t Hgt). unfold with_locals.
  rewrite Z.mul_0_l in Hall.
  destruct (for_rc _ _ _ (g, 0)) as [[rc [g' k]]| |], (for_rc _ _ _ t) as [[rc' t']| |]; try done.
  destruct Hall as (-> & ? & ? & _). by split_and!.
Qed.

(** ** The theorems of [Graphics] on video memory *)

(** The graphics state after a successful set_frame_buffer in a usable mode. *)
Definition fb_ok (g : fb) : Prop := gfx_ok (Gfx (fb_mode g) (fb_vram g) (fb_mem g) (fb_mem g)).

(** [g] seen as a state of the game's graphics, both buffers with its memory. *)
Definition doubled (g : fb) : gfx := Gfx (fb_mode g) (fb_vram g) (fb_mem g) (fb_mem g).
(** What a drawing has made of it. *)
Definition drawn (g g' : fb) : gfx := Gfx (fb_mode g') (fb_vram g') (fb_mem g) (fb_mem g').

Lemma simulates_wp {A} (m : M fb A) m' g (Q : A → gfx → Prop) :
  simulates m m' → wp m' Q (doubled g) → wp m (λ a g', Q a (drawn g g')) g.
Proof.
  intros Hs Hw. specialize (Hs g (doubled g)). unfold wp in *.
  destruct (m' (doubled g)) as [[a t']| |]; try done.
  destruct (m g) as [[a' g']| |]; [|by destruct Hs..].
  destruct Hs as (-> & (Hm & Hv & Hb) & Hvm); [done|].
  unfold drawn. rewrite <- Hm, <- Hv, <- Hb. simpl in Hvm. rewrite <- Hvm. by destruct t'.
Qed.

(** The pixel (px, py) of video memory. *)
Definition fb_pixel (g : fb) (px py : Z) : option (list Z) := get_pixel (doubled g) px py.

(** [paints] and [draws] on video memory. *)
Record fb_paints (g g' : fb) (f : painting) : Prop := {
  fb_paints_ok : fb_ok g';
  fb_paints_mode : fb_mode g' = fb_mode g;
  fb_paints_pixel : ∀ px py, in_screen (doubled g) px py →
    fb_pixel g' px py =
      match f px py with
      | Some c => Some (le_bytes (Z.to_nat (bpp (doubled g))) c)
      | None => fb_pixel g px py
      end;
}.

Definition fb_draws (g : fb) (fits : bool) (a : painting) (rc : Z) (g' : fb) : Prop :=
  if fits then rc = 0 ∧ fb_paints g g' a else rc = 1 ∧ ∃ f, fb_paints g g' f ∧ part_of f a.

Lemma paints_fb g g' f : paints (doubled g) (drawn g g') f → fb_paints g g' f.
Proof.
  intros [Hok Hm _ Hp]. split; [|done|exact Hp].
  destruct Hok as [Hx Hy Hb Hs Hv Hbb _]. by split.
Qed.

Lemma draws_fb g fits a rc g' :
  draws (doubled g) fits a rc (drawn g g') → fb_draws g fits a rc g'.
Proof.
  unfold draws, fb_draws. destruct fits; [intros [-> ?]|intros (-> & f & ? & ?)].
  - split; [done|by apply paints_fb].
  - split; [done|]. exists f. split; [by apply paints_fb|done].
Qed.

Lemma fb_draws_ok g fits a rc g' : fb_draws g fits a rc g' → fb_ok g' ∧ fb_mode g' = fb_mode g.
Proof.
  unfold fb_draws. destruct fits; intros; open_hyps; eauto using fb_paints_ok, fb_paints_mode.
Qed.

Lemma fb_screen g g' : fb_mode g' = fb_mode g →
  hres (doubled g') = hres (doubled g) ∧ vres (doubled g') = vres (doubled g) ∧
  bpp (doubled g') = bpp (doubled g).
Proof. unfold hres, vres, bpp. simpl. by intros ->. Qed.

Lemma fb_paints_refl g : fb_ok g → fb_paints g g nothing.
Proof. by split. Qed.

Lemma fb_paints_trans g1 g2 g3 f1 f2 :
  fb_paints g1 g2 f1 → fb_paints g2 g3 f2 → fb_paints g1 g3 (over f2 f1).
Proof.
  intros [_ Hm1 Hp1] [Hok Hm2 Hp2]. destruct (fb_screen _ _ Hm1) as (Hx & Hy & Hb).
  split; [done|congruence|]. intros px py Hin. unfold over.
  rewrite Hp2 by (unfold in_screen in *; lia). rewrite Hb. destruct (f2 px py); auto.
Qed.

Lemma fb_paints_ext g g' f f' :
  (∀ px py, in_screen (doubled g) px py → f px py = f' px py) → fb_paints g g' f → fb_paints g g' f'.
Proof. intros Hf []. split; auto. intros px py Hin. rewrite <- Hf by done. auto. Qed.

Lemma vg_draw_rectangle_fb g x y width height c : fb_ok g →
  0 <= x < 65536 → 0 <= y < 65536 → 0 <= width < 65536 → 0 <= height < 65536 →
  wp (vg_draw_rectangle x y width height c)
    (fb_draws g (image_fits x (Z.to_nat width) y (Z.to_nat height) (doubled g))
       (area x y width height (λ _ _, c))) g.
Proof.
  intros. eapply wp_mono; [intros rc g'; apply draws_fb|].
  apply (simulates_wp _ _ _ _ (vg_draw_rectangle_simulates _ _ _ _ _)).
  by apply vg_draw_rectangle_draws.
Qed.

(** The loaded indices are those that the format gives to the symbols. *)
Lemma print_xpm_fb `{IndexedLoaderLaws} g m w h x y : fb_ok g → indexed_dims m = Some (w, h) →
  0 <= x < 65536 → 0 <= y < 65536 →
  wp (print_xpm m x y)
    (fb_draws g ((x + w <=? hres (doubled g)) && (y + h <=? vres (doubled g)))
       (area x y w h (picture m))) g.
Proof.
  intros Hg (img & Hi & <- & <-)%indexed_dims_image Hx Hy.
  destruct (indexed_image_size m img Hi) as (Hw & Hh & _).
  eapply wp_mono; [intros rc g'; apply draws_fb|]. unfold print_xpm. rewrite (indexed_load m img Hi).
  eapply wp_ext; [apply run_some|].
  apply (simulates_wp _ _ g (λ rc t, draws (doubled g) _ _ rc t) (print_image_simulates img x y)).
  apply print_image_draws; try done. intros i j Hr Hc. unfold picture.
  destruct (indexed_image_pixel m img i j Hi Hr Hc) as [-> [c ->]]. done.
Qed.

(** ** Mode setting *)
Section mode_setting.
Context {W : Type} `{VideoLaws W} `{Panic W}.

(** set_frame_buffer returns, and on success in a usable mode video memory is one screen. *)
Lemma set_frame_buffer_fb mode w g : let mi := (vbe_get_mode_info mode w).1.2 in
  wp (set_frame_buffer mode) (λ rc s, (rc = 0 ∨ rc = 1) ∧ fb_mode s.2 = mi ∧
    (rc = 0 → usable mi → fb_ok s.2)) (w, g).
Proof.
  simpl. unfold wp, set_frame_buffer. pose proof (vbe_field_range mode w) as Hr. simpl in Hr.
  destruct (vbe_get_mode_info mode w) as [[rc mi] w1]. simpl in *.
  destruct (negb (rc =? 0)); [by split; [right|]|].
  set (n := u32 (u32 (i32 (XResolution mi * YResolution mi)) * bytes_per_pixel mi)).
  destruct (sys_privctl_add_mem _ _ _) as [rc2 w2]. destruct (negb (rc2 =? 0)); [by split; [right|]|].
  pose proof (vm_map_phys_length (PhysBasePtr mi) n w2) as Hvm.
  destruct (vm_map_phys _ _ _) as [[vm|] w3]; simpl; [|by split; [right|]].
  split; [by left|]. split; [done|]. intros _ [Hb Hs].
  pose proof (u32_range (u32 (i32 (XResolution mi * YResolution mi)) * bytes_per_pixel mi)).
  assert (1 <= bytes_per_pixel mi <= 4) as Hbpp
    by (unfold bytes_per_pixel; Z.to_euclidean_division_equations; lia).
  assert (n = XResolution mi * YResolution mi * bytes_per_pixel mi) as Hn.
  { unfold n. rewrite (i32_small (_ * _)), (u32_small (_ * YResolution mi)), u32_small by nia. done. }
  destruct Hr as (? & ? & ?).
  split; unfold hres, vres, bpp; simpl; try lia; (exists vm; split; [done|apply Hvm; [lia|done]]).
Qed.
End mode_setting.

(** ** Properties *)
Section properties.
Context `{XpmLoader}.

(** Ends a drawing on the back buffer by showing it. *)
Definition shown (m : M gfx Z) : M gfx Z := rc ← m; swap_buffers;; mret rc.

(** [m] on the video memory of [g], and [m'] and a swap on the buffers of [t], end with the same
    code and the same picture. *)
Definition same_picture (m : M fb Z) (g : fb) (m' : M gfx Z) (t : gfx) : Prop :=
  match m g, shown m' t with
  | Done (rc, g'), Done (rc', t') => rc = rc' ∧ fb_mem g' = video_mem t'
  | _, _ => False
  end.

Lemma simulates_shown m m' g t : simulates m m' → mirrors g t →
  wp m' (λ _ t', gfx_ok t') t → same_picture m g m' t.
Proof.
  intros Hs Hgt Hok. specialize (Hs g t Hgt). unfold same_picture, shown, mbind, M_bind, wp in *.
  destruct (m g) as [[rc g']| |], (m' t) as [[rc' t']| |]; try done.
  destruct Hs as (<- & (_ & _ & Hb) & _). by rewrite swap_buffers_run.
Qed.

(** The same picture in the two formats: the bytes of [i5] are the words of [i8]. *)
Definition same_colors (i5 i8 : xpm_image) : Prop :=
  img_width i5 = img_width i8 ∧ img_height i5 = img_height i8 ∧
  0 < img_width i8 < 65536 ∧ 0 < img_height i8 < 65536 ∧
  ∀ k, 0 <= k < img_width i8 * img_height i8 →
    is_Some (color_at i8 k) ∧ img_bytes i5 !! Z.to_nat k = color_at i8 k.

Lemma print_image_same g t i5 i8 x y : mirrors g t → gfx_ok t → same_colors i5 i8 →
  0 <= x < 65536 → 0 <= y < 65536 →
  same_picture (print_image i5 x y) g
    (Graphics.print_image (img_width i8) (img_height i8) (color_at i8) x y) t.
Proof.
  intros Hgt Ht (Ew & Eh & Hw & Hh & Hk) Hx Hy.
  pose proof (print_image_simulates i5 x y) as Hs. rewrite Ew, Eh in Hs.
  apply simulates_shown; [|done|].
  - intros g0 t0 Hgt0. specialize (Hs g0 t0 Hgt0).
    rewrite (print_image_ext _ _ (λ k, img_bytes i5 !! Z.to_nat k) (color_at i8)) in Hs; [done|].
    intros i j ??. apply Hk. nia.
  - eapply wp_mono; [|apply (print_image_draws t (img_width i8) (img_height i8) (color_at i8)
      (λ i j, default 0 (color_at i8 (i * img_width i8 + j))) x y Ht Hw Hh Hx Hy)].
    + intros rc t' Hd. by apply draws_ok in Hd as [].
    + intros i j ??. destruct (Hk (i * img_width i8 + j)) as [[c ->] _]; [nia|done].
Qed.

(** C34. Drawing directly equals double buffering: from the same contents, a rectangle drawn by
    lab5 leaves in video memory exactly the bytes that the game's function leaves there when its
    back buffer is swapped in afterwards, and returns the same code.  So does a pixmap, although
    lab5 loads it in XPM_INDEXED and walks a pointer to its bytes, and the game in XPM_8_8_8_8 and
    computes an index into its uint32_t's: whenever the two loads give images of one size with
    the same colour values, which the formats alone do not promise.  Both hold whether the drawing
    fits on the screen or is cut off at its edge. *)
Theorem direct_equals_swapped g t m5 m8 i5 i8 x y w h c (Hgt : mirrors g t) (Ht : gfx_ok t)
    (Hl5 : xpm_load m5 XPM_INDEXED = Some i5) (Hl8 : xpm_load m8 XPM_8_8_8_8 = Some i8)
    (Hc : same_colors i5 i8) (Hx : 0 <= x < 65536) (Hy : 0 <= y < 65536)
    (Hw : 0 <= w < 65536) (Hh : 0 <= h < 65536) :
  same_picture (vg_draw_rectangle x y w h c) g (Graphics.vg_draw_rectangle x y w h c) t ∧
  same_picture (print_xpm m5 x y) g (Graphics.print_xpm m8 x y) t.
Proof.
  split.
  - apply simulates_shown; [apply vg_draw_rectangle_simulates|done|].
    eapply wp_mono; [|by apply vg_draw_rectangle_draws]. intros rc t' Hd. by apply draws_ok in Hd as [].
  - pose proof (print_image_same g t i5 i8 x y Hgt Ht Hc Hx Hy) as Hs.
    unfold same_picture, shown, print_xpm, Graphics.print_xpm, mbind, M_bind in *.
    rewrite Hl5, Hl8. exact Hs.
Qed.
End properties.

(** ** Witnesses *)
Section witnesses.
Import Tiny IndexedLoader.

Definition tiny_fb : fb := Fb Sim.tiny_mode 16 (Some blank_buffer).

Lemma tiny_fb_ok : fb_ok tiny_fb.
Proof. exact tiny_ok. Qed.

(** A pixmap of 2 by 2 pixels of the colour 7, in both formats. *)
Definition dot_indexed : xpm_map := ["2 2 1"; "a 7"; "aa"; "aa"]%xpm.
Definition dot_image : xpm_image := XpmImage XPM_INDEXED 2 2 [7; 7; 7; 7].

Lemma dot_same : same_colors dot_image (plain_image [7; 0; 0; 0] 2 2).
Proof.
  repeat (split; [by vm_compute|]). simpl. intros k Hk.
  assert (k = 0 ∨ k = 1 ∨ k = 2 ∨ k = 3) as [->|[->|[->| ->]]] by lia;
    (split; [by eexists|reflexivity]).
Qed.

Lemma direct_equals_swapped_witness :
  mirrors tiny_fb tiny ∧ gfx_ok tiny ∧ xpm_load dot_indexed XPM_INDEXED = Some dot_image ∧
  xpm_load dot XPM_8_8_8_8 = Some (plain_image [7; 0; 0; 0] 2 2) ∧
  same_picture (vg_draw_rectangle 1 1 2 3 7) tiny_fb (Graphics.vg_draw_rectangle 1 1 2 3 7) tiny ∧
  same_picture (print_xpm dot_indexed 1 1) tiny_fb (Graphics.print_xpm dot 1 1) tiny.
Proof.
  split; [done|]. split; [exact tiny_ok|]. split; [reflexivity|]. split; [reflexivity|].
  apply (direct_equals_swapped tiny_fb tiny dot_indexed dot dot_image (plain_image [7; 0; 0; 0] 2 2)
    1 1 2 3 7); [done|exact tiny_ok|reflexivity|reflexivity|exact dot_same|lia..].
Defined.
End witnesses.
