(* ===== verification/Lab5.v ===== *)
(** * lab5: the video card's test programs

    The video tests of lab5/lab5.c over [Lab5Graphics], [Keyboard], [Timer] and the loop of
    [Events]; video_test_controller is a stub in the code.

    The theorems: the pattern of video_test_pattern is the one that lab5.h documents, colour by
    colour and tile by tile; each test that returns 0 has painted what it was asked for, a pixmap
    in the colours that its lines declare; waiting_ESC returns once ESC comes (it is the loop of
    kbd_test_scan, without printing), and so do the pattern's and the pixmap's test; the moving
    pixmap of video_test_move takes the steps it should, stops at its end and is on the screen
    there; and what becomes of a negative speed. *)

From S2P Require Import Prelude Machine Xpm IndexedXpm Utils Keyboard Timer Events Graphics.
From S2P Require Import Lab5Graphics Lab5Pixmaps LabState Lab3.

(** sleep() of the C library. *)
Class Sleep (W : Type) := { sleep : Z → W → W }.

Section operations.
Context {W : Type} `{PortIO W} `{Interrupts W} `{Receive W} `{Video W} `{Panic W} `{Sleep W}.
Context `{XpmLoader}.

(** The state is the globals of the drivers and of the graphics module. *)
Definition on_lab {A} (m : M (lab W) A) : M (lab W * fb) A := on_globals m.
Definition on_fb {A} (m : M fb A) : M (lab W * fb) A := zoom snd (λ g s, (s.1, g)) m.
Definition on_machine {A} (m : M W A) : M (lab W * fb) A := on_lab (on_world m).
Definition on_world_fb {A} (m : M (W * fb) A) : M (lab W * fb) A :=
  zoom (λ s, (world s.1, s.2)) (λ p s, (set_world p.1 s.1, p.2)) m.

Definition video_test_init (mode delay : Z) : M (lab W * fb) Z :=
  on_machine (set_graphical_mode mode) ;?
  (on_machine (modify (sleep delay));;
   (on_machine (call vg_exit) ;?
    mret 0)).

Definition wait_message (irq_set : Z) (m : message) : M (lab W) (option Z) :=
  if from_hardware m then
    if irq_pending m irq_set then read_scancode;; mret None else mret None
  else mret None.

Definition waiting_ESC (fuel : nat) : M (lab W) Z :=
  '(rc, irq_set) ← kb_subscribe;
  if negb (rc =? 0) then mret 1 else
  r ← message_loop not_esc (wait_message irq_set) fuel;
  match r with
  | Some rc => mret rc
  | None => kb_unsubscribe ;? mret 0
  end.

(** The common beginning and end of the tests. *)
Definition start_video (mode : Z) (k : M (lab W * fb) Z) : M (lab W * fb) Z :=
  on_world_fb (set_frame_buffer mode) ;?
  (on_machine (set_graphical_mode mode) ;? k).

Definition finish_video (fuel : nat) : M (lab W * fb) Z :=
  on_lab (waiting_ESC fuel) ;?
  (on_machine (call vg_exit) ;?
   mret 0).

Definition video_test_rectangle (fuel : nat) (mode x y width height color : Z) : M (lab W * fb) Z :=
  start_video mode (
    n_color ← on_fb (norm_color color);
    on_fb (vg_draw_rectangle x y width height n_color) ;?
    finish_video fuel).

(** The colour of the tile in row [i] and column [j]. *)
Definition tile_color (mi : vbe_mode_info) (no_rectangles first step i j : Z) : option Z :=
  if MemoryModel mi =? 0x06 then dir_mode mi j i step first
  else idx_mode mi j i step first no_rectangles.

(** The loops of video_test_pattern; a division by zero is undefined. *)
Definition draw_pattern (no_rectangles first step : Z) : M fb Z :=
  mi ← gets fb_mode;
  if no_rectangles =? 0 then undef else
  let v := idiv (YResolution mi) no_rectangles in
  let h := idiv (XResolution mi) no_rectangles in
  for_rc (Z.to_nat no_rectangles) 0 (λ i,
    for_rc (Z.to_nat no_rectangles) 0 (λ j,
      color ← of_option (tile_color mi no_rectangles first step i j);
      vg_draw_rectangle (u16 (i32 (j * h))) (u16 (i32 (i * v))) (u16 h) (u16 v) color)).

Definition video_test_pattern (fuel : nat) (mode no_rectangles first step : Z) : M (lab W * fb) Z :=
  start_video mode (
    on_fb (draw_pattern no_rectangles first step) ;?
    finish_video fuel).

Definition MODE_INDEXED : Z := 0x105.

Definition video_test_xpm (fuel : nat) (xpm : xpm_map) (x y : Z) : M (lab W * fb) Z :=
  start_video MODE_INDEXED (
    on_fb (print_xpm xpm x y) ;?
    finish_video fuel).

(** The position after a frame, [speed] further but not past the end; uint16_t arithmetic. *)
Definition advance (x xf speed : Z) : Z :=
  let x := u16 (x + speed) in
  if x >? xf then xf else x.

(** The body of the loop of video_test_move; the locals are [xi] and [yi]. *)
Definition move_message (irq_keyboard irq_timer : Z) (horizontal : bool) (xpm : xpm_map)
    (xf yf speed : Z) (m : message) : M (lab W * fb * (Z * Z)) (option Z) :=
  if from_hardware m then
    (if irq_pending m irq_keyboard then on_globals (on_lab read_scancode) else skip);;
    if irq_pending m irq_timer then
      (if horizontal then modify (λ p, (p.1, (advance p.2.1 xf speed, p.2.2)))
       else modify (λ p, (p.1, (p.2.1, advance p.2.2 yf speed))));;
      '(xi, yi) ← gets snd;
      rc ← on_globals (on_fb (print_xpm xpm xi yi));
      if negb (rc =? 0) then mret (Some 1) else mret None
    else mret None
  else mret None.

(** The condition of the loop. *)
Definition moving (xf yf : Z) (p : lab W * fb * (Z * Z)) : bool :=
  not_esc p.1.1 && ((p.2.1 <? xf) || (p.2.2 <? yf)).

(** Which way to move, when the arguments are valid. *)
Definition direction (xi yi xf yf : Z) : option bool :=
  if (xi <? xf) && (yi =? yf) then Some true
  else if (xi =? xf) && (yi <? yf) then Some false
  else None.

Definition video_test_move (fuel : nat) (xpm : xpm_map) (xi yi xf yf speed fr_rate : Z)
    : M (lab W * fb) Z :=
  match direction xi yi xf yf with
  | None => mret 1
  | Some horizontal =>
      '(rc, irq_keyboard) ← on_lab kb_subscribe;
      if negb (rc =? 0) then mret 1 else
      '(rc, irq_timer) ← on_lab timer_subscribe;
      if negb (rc =? 0) then mret 1 else
      start_video MODE_INDEXED (
        on_machine (timer_set_frequency 0 fr_rate) ;?
        (on_fb (print_xpm xpm xi yi) ;?
         (r ← with_locals (xi, yi) (message_loop (moving xf yf)
                (move_message irq_keyboard irq_timer horizontal xpm xf yf speed) fuel);
          match r with
          | Some rc => mret rc
          | None =>
              on_machine (call vg_exit) ;?
              (on_lab timer_unsubscribe ;?
               (on_lab kb_unsubscribe ;?
                mret 0))
          end)))
  end.
End operations.

(** Under construction in the code. *)
Definition video_test_controller : Z := 1.

(** ** The colours that lab5.h documents *)
Module Spec.

Definition index_color (mi : vbe_mode_info) (n first step row col : Z) : Z :=
  (first + (row * n + col) * step) mod 2 ^ BitsPerPixel mi.

(** A component of a colour, and the component in a mode. *)
Definition component (size pos c : Z) : Z := c / 2 ^ pos mod 2 ^ size.

Definition direct_color (mi : vbe_mode_info) (first step row col : Z) : Z :=
  let r := (component (RedMaskSize mi) (RedFieldPosition mi) first + col * step)
             mod 2 ^ RedMaskSize mi in
  let g := (component (GreenMaskSize mi) (GreenFieldPosition mi) first + row * step)
             mod 2 ^ GreenMaskSize mi in
  let b := (component (BlueMaskSize mi) (BlueFieldPosition mi) first + (col + row) * step)
             mod 2 ^ BlueMaskSize mi in
  Z.lor (Z.lor (r * 2 ^ RedFieldPosition mi) (g * 2 ^ GreenFieldPosition mi))
    (b * 2 ^ BlueFieldPosition mi).

Definition color (mi : vbe_mode_info) (n first step row col : Z) : Z :=
  if MemoryModel mi =? 6 then direct_color mi first step row col
  else index_color mi n first step row col.

(** The pattern: [n] by [n] tiles of equal size from the top left corner; the rest of the screen
    is left as it is. *)
Definition pattern (mi : vbe_mode_info) (n first step : Z) : painting := λ px py,
  let h := XResolution mi / n in
  let v := YResolution mi / n in
  if (0 <=? px) && (px <? n * h) && (0 <=? py) && (py <? n * v)
  then Some (color mi n first step (py / v) (px / h)) else None.

(** A component lies inside a 32-bit colour. *)
Definition field_ok (size pos : Z) : Prop := 0 <= size ∧ 0 <= pos ∧ size + pos <= 32 ∧ size < 31 ∧ pos < 32.

(** A mode of which the colours can be computed. *)
Definition colors_ok (mi : vbe_mode_info) : Prop :=
  if MemoryModel mi =? 6 then
    field_ok (RedMaskSize mi) (RedFieldPosition mi) ∧
    field_ok (GreenMaskSize mi) (GreenFieldPosition mi) ∧
    field_ok (BlueMaskSize mi) (BlueFieldPosition mi)
  else 0 <= BitsPerPixel mi < 31.
End Spec.

(** ** The colours of the code are the documented ones *)
Section colors.
Import Spec.

(** Arithmetic modulo 2^32 followed by a remainder by a smaller power of two. *)
Lemma u32_mod_pow a n : 0 <= n <= 32 → u32 a mod 2 ^ n = a mod 2 ^ n.
Proof.
  intros Hn. unfold u32. apply Z.mod_mod_divide.
  exists (2 ^ (32 - n)). rewrite <- Z.pow_add_r by lia. f_equal. lia.
Qed.

Lemma u32_cong a n : 0 <= n <= 32 → ∃ k, u32 a = a + k * 2 ^ n.
Proof.
  intros Hn. exists (- (a / 2 ^ 32) * 2 ^ (32 - n)).
  rewrite <- Z.mul_assoc, <- Z.pow_add_r, Z.sub_add by lia.
  unfold u32. rewrite Z.mod_eq by lia. lia.
Qed.

Lemma mask_bits n : 0 <= n < 31 → u32 (i32 (BIT n - 1)) = Z.ones n.
Proof.
  intros Hn. rewrite BIT_pow, Z.ones_equiv by done.
  pose proof (Z.pow_pos_nonneg 2 n). pose proof (Z.pow_lt_mono_r 2 n 31).
  rewrite i32_small, u32_small by (rewrite ?i32_small; lia). lia.
Qed.

Lemma u32_BIT n : 0 <= n < 31 → u32 (BIT n) = 2 ^ n.
Proof.
  intros Hn. rewrite BIT_pow by done. pose proof (Z.pow_pos_nonneg 2 n).
  pose proof (Z.pow_lt_mono_r 2 n 31). apply u32_small. lia.
Qed.

Lemma dir_component_documented size pos first add : field_ok size pos → 0 <= first →
  dir_component size pos first (u32 add) = Some ((component size pos first + add) mod 2 ^ size).
Proof.
  intros (? & ? & ? & ? & ?) Hf. unfold dir_component, component.
  destruct ((size <? 32) && (pos <? 32)) eqn:E; [|lia].
  rewrite u32_BIT, mask_bits by lia. pose proof (Z.pow_pos_nonneg 2 size).
  destruct (Z.eqb_spec (2 ^ size) 0); [lia|]. f_equal.
  rewrite u32_mod_pow, Z.land_comm, Z.land_ones, Z.shiftr_div_pow2 by lia.
  rewrite <- Zplus_mod_idemp_r, u32_mod_pow, Zplus_mod_idemp_r by lia. done.
Qed.

Lemma field_shift size pos r : field_ok size pos → 0 <= r < 2 ^ size →
  u32 (Z.shiftl r pos) = r * 2 ^ pos.
Proof.
  intros (? & ? & ? & ? & ?) Hr. rewrite Z.shiftl_mul_pow2 by lia. apply u32_small.
  pose proof (Z.pow_pos_nonneg 2 pos). split; [nia|].
  apply Z.lt_le_trans with (2 ^ size * 2 ^ pos); [nia|]. rewrite <- Z.pow_add_r by lia.
  change 4294967296 with (2 ^ 32). apply Z.pow_le_mono_r; lia.
Qed.
Lemma tile_color_documented mi n first step i j : colors_ok mi → 0 <= first →
  tile_color mi n first step i j = Some (color mi n first step i j).
Proof.
  unfold colors_ok, tile_color, color. intros Hc Hf. destruct (MemoryModel mi =? 6).
  - destruct Hc as (Hr & Hg & Hb). unfold dir_mode, direct_color.
    rewrite !dir_component_documented by done. cbn [mbind option_bind].
    assert (∀ c, (c + u32 (j + i) * step) mod 2 ^ BlueMaskSize mi =
                 (c + (j + i) * step) mod 2 ^ BlueMaskSize mi) as Hblue.
    { intros c. destruct Hb as (? & ? & ? & ? & ?).
      rewrite <- Zplus_mod_idemp_r, <- Zmult_mod_idemp_l, u32_mod_pow by lia.
      by rewrite Zmult_mod_idemp_l, Zplus_mod_idemp_r. }
    rewrite Hblue. f_equal.
    assert (∀ c s, 0 <= s → 0 <= c mod 2 ^ s < 2 ^ s)
      by (intros; apply Z.mod_pos_bound, Z.pow_pos_nonneg; lia).
    pose proof (proj1 Hr). pose proof (proj1 Hg). pose proof (proj1 Hb).
    by rewrite (field_shift _ _ _ Hr), (field_shift _ _ _ Hg), (field_shift _ _ _ Hb) by auto.
  - unfold idx_mode, index_color. destruct (Z.ltb_spec (BitsPerPixel mi) 32); [|lia]. f_equal.
    rewrite u32_BIT, u32_mod_pow by lia.
    rewrite <- Zplus_mod_idemp_r, u32_mod_pow, <- Zmult_mod_idemp_l, u32_mod_pow by lia.
    rewrite Zmult_mod_idemp_l, Zplus_mod_idemp_r.
    destruct (u32_cong (i * n) (BitsPerPixel mi)) as [k ->]; [lia|].
    rewrite <- (Z.mod_add (first + (i * n + j) * step) (k * step)); [f_equal; ring|].
    apply Z.pow_nonzero; lia.
Qed.

Lemma index_color_range mi n first step i j :
  0 <= BitsPerPixel mi → 0 <= index_color mi n first step i j < 2 ^ BitsPerPixel mi.
Proof. intros. apply Z.mod_pos_bound, Z.pow_pos_nonneg; lia. Qed.
End colors.

(** ** The pattern *)
Section pattern.
Import Spec.

(** The tiles above row [i], and those of row [i] left of column [j]. *)
Definition tiles_done (mi : vbe_mode_info) (n first step i j : Z) : painting := λ px py,
  let h := XResolution mi / n in
  let v := YResolution mi / n in
  if (0 <=? px) && (px <? n * h) && (0 <=? py) && (py <? n * v) &&
     ((py <? i * v) || (py <? (i + 1) * v) && (px <? j * h))
  then Some (color mi n first step (py / v) (px / h)) else None.

Lemma tile_division k s p : 0 <= k → k * s <= p < k * s + s → p / s = k.
Proof. intros. symmetry. apply Z.div_unique with (p - k * s); lia. Qed.

(** One tile more. *)
Lemma tiles_done_next mi n first step i j px py : 0 < n → 0 <= i < n → 0 <= j < n →
  let h := XResolution mi / n in
  let v := YResolution mi / n in
  0 <= h → 0 <= v →
  over (area (j * h) (i * v) h v (λ _ _, color mi n first step i j))
    (tiles_done mi n first step i j) px py = tiles_done mi n first step i (j + 1) px py.
Proof.
  intros Hn Hi Hj h v Hh Hv. unfold over, area, tiles_done. fold h v.
  destruct ((j * h <=? px) && (px <? j * h + h) && (i * v <=? py) && (py <? i * v + v)) eqn:E.
  - rewrite (tile_division i v py), (tile_division j h px) by lia.
    assert (j * h + h <= n * h ∧ i * v + v <= n * v ∧ 0 <= j * h ∧ 0 <= i * v) by nia.
    replace ((0 <=? px) && (px <? n * h) && (0 <=? py) && (py <? n * v) &&
      ((py <? i * v) || (py <? (i + 1) * v) && (px <? (j + 1) * h))) with true by lia. done.
  - assert (((py <? i * v) || (py <? (i + 1) * v) && (px <? (j + 1) * h)) =
      ((py <? i * v) || (py <? (i + 1) * v) && (px <? j * h))) as -> by lia.
    done.
Qed.
Lemma tiles_done_row mi n first step i px py : 0 < n → 0 <= i < n →
  0 <= XResolution mi / n → 0 <= YResolution mi / n →
  tiles_done mi n first step i n px py = tiles_done mi n first step (i + 1) 0 px py.
Proof.
  intros Hn Hi Hh Hv. unfold tiles_done. f_equal.
  set (h := XResolution mi / n) in *. set (v := YResolution mi / n) in *.
  assert (i * v <= (i + 1) * v) by nia.
  match goal with |- (if ?b then _ else _) = (if ?c then _ else _) => assert (b = c) as -> by lia end.
  done.
Qed.

Lemma tile_size res n : 0 <= res < 65536 → 0 < n < 256 →
  idiv res n = res / n ∧ 0 <= res / n < 65536 ∧ n * (res / n) <= res.
Proof.
  intros Hr Hn. assert (0 <= res / n <= res) by (Z.to_euclidean_division_equations; nia).
  unfold idiv. rewrite Z.quot_div_nonneg, i32_small by lia. split; [done|]. split; [lia|].
  apply Z.mul_div_le. lia.
Qed.

(** Drawing one tile. *)
Lemma draw_tile g n first step i j : fb_ok g → 0 < n < 256 → colors_ok (fb_mode g) → 0 <= first →
  0 <= i < n → 0 <= j < n →
  let h := XResolution (fb_mode g) / n in
  let v := YResolution (fb_mode g) / n in
  wp (color ← of_option (tile_color (fb_mode g) n first step i j);
      vg_draw_rectangle (u16 (i32 (j * h))) (u16 (i32 (i * v))) (u16 h) (u16 v) color)
    (λ rc g', rc = 0 ∧
      fb_paints g g' (area (j * h) (i * v) h v (λ _ _, color (fb_mode g) n first step i j))) g.
Proof.
  intros Hg Hn Hc Hf Hi Hj h v. rewrite tile_color_documented by done.
  eapply wp_ext; [apply run_some|].
  pose proof (ok_x _ Hg) as Hx. pose proof (ok_y _ Hg) as Hy. unfold hres, vres in Hx, Hy. simpl in *.
  destruct (tile_size _ _ Hx Hn) as (_ & Hh & Hxn), (tile_size _ _ Hy Hn) as (_ & Hv & Hyn).
  fold h in Hh, Hxn. fold v in Hv, Hyn.
  assert (0 <= j * h ∧ j * h + h <= n * h ∧ 0 <= i * v ∧ i * v + v <= n * v) by nia.
  rewrite !i32_small, !u16_small by (rewrite ?i32_small; lia).
  eapply wp_mono; [|apply vg_draw_rectangle_fb; [done|lia..]].
  intros rc g'. unfold fb_draws, image_fits. rewrite !Z2Nat.id by lia.
  unfold hres, vres. simpl.
  replace ((h =? 0) || (v =? 0) || (j * h + h <=? XResolution (fb_mode g)) &&
    (i * v + v <=? YResolution (fb_mode g))) with true by lia. done.
Qed.

Lemma draw_pattern_wp g n first step : fb_ok g → 0 < n < 256 → colors_ok (fb_mode g) →
  0 <= first →
  wp (draw_pattern n first step)
    (λ rc g', rc = 0 ∧ fb_paints g g' (pattern (fb_mode g) n first step)) g.
Proof.
  intros Hg Hn Hc Hf. set (mi := fb_mode g) in *.
  pose proof (ok_x _ Hg) as Hx. pose proof (ok_y _ Hg) as Hy. unfold hres, vres in Hx, Hy. simpl in *.
  fold mi in Hx, Hy. destruct (tile_size _ _ Hx Hn) as (Eh & Hh & Hxn), (tile_size _ _ Hy Hn) as (Ev & Hv & Hyn).
  unfold draw_pattern. apply wp_bind, wp_gets. fold mi.
  destruct (Z.eqb_spec n 0); [lia|]. rewrite Eh, Ev.
  assert (Z.of_nat (Z.to_nat n) = n) as En by lia.
  eapply wp_mono; [|apply (wp_for_rc _ _ _
    (λ i g', fb_paints g g' (tiles_done mi n first step i 0)) (λ _ _, False))].
  - intros rc g' [[-> Hp]|(_ & _ & _ & [])]. split; [done|]. rewrite En in Hp.
    eapply fb_paints_ext; [|exact Hp]. intros px py _. unfold tiles_done, pattern. simpl.
    match goal with |- (if ?b then _ else _) = (if ?c then _ else _) => assert (b = c) as -> by lia end.
    done.
  - intros i g1 Hi Hp. rewrite En in Hi. eapply wp_mono; [|apply (wp_for_rc _ _ _
      (λ j g', fb_paints g g' (tiles_done mi n first step i j)) (λ _ _, False)); [|exact Hp]].
    + intros rc g' [[-> Hp']|(_ & _ & _ & [])]. rewrite En in Hp'. simpl.
      eapply fb_paints_ext; [|exact Hp']. intros. apply tiles_done_row; lia.
    + intros j g2 Hj Hp2. rewrite En in Hj. pose proof (fb_paints_ok _ _ _ Hp2) as Hg2.
      pose proof (fb_paints_mode _ _ _ Hp2) as Hm2. fold mi in Hm2.
      pose proof (draw_tile g2 n first step i j Hg2 Hn) as Ht. rewrite Hm2 in Ht.
      eapply wp_mono; [|apply Ht; [done|done|lia|lia]].
      intros rc g3 [-> Hp3]. simpl. eapply fb_paints_ext; [|by eapply fb_paints_trans].
      intros. apply tiles_done_next; lia.
  - eapply fb_paints_ext; [|by apply fb_paints_refl]. intros px py _. unfold tiles_done, nothing. simpl.
    match goal with |- _ = (if ?b then _ else _) => destruct b eqn:E end; [|done].
    exfalso. set (h := XResolution mi / n) in *. set (v := YResolution mi / n) in *. lia.
Qed.
End pattern.

(** ** The parts of the tests *)
Section parts.
Context {W : Type} `{PortIO W} `{Interrupts W} `{Receive W} `{VideoLaws W} `{Panic W} `{Sleep W}.
Context `{IndexedLoaderLaws}.

Lemma read_scancode_run (s : lab W) : ∃ sc w, read_scancode s = Done (tt, set_scancode sc (set_world w s)).
Proof.
  destruct (Keyboard.reads_total KEYBOARD_OUT_CMD false 10 (world s)) as (r & w & Hr).
  do 2 eexists. by apply read_scancode_reads.
Qed.

(** waiting_ESC reads scancodes until ESC: the same loop as kbd_test_scan's, without printing. *)
Lemma wait_loop_iff irq (s : lab W) r s' :
  (∃ fuel, message_loop not_esc (wait_message irq) fuel s = Done (r, s')) ↔
  r = None ∧ ∃ l w, Lab3.Spec.scans irq (scancode s) (world s) l w ∧
    s' = set_scancode KB_BREAK_ESC (set_world w s).
Proof.
  apply (key_loop_iff irq (wait_message irq)
    (λ r w s, set_scancode (Lab3.Spec.after_read (scancode s) r) (set_world w s))
    (λ _ w s, set_scancode KB_BREAK_ESC (set_world w s))); clear s s' r.
  - intros m s. unfold wait_message, is_interrupt. by destruct (from_hardware m), (irq_pending m irq).
  - intros m s r w Hm Hr. unfold wait_message, is_interrupt in *.
    destruct (from_hardware m), (irq_pending m irq); try done.
    by rewrite (run_done _ _ _ _ _ (read_scancode_reads _ _ _ Hr)).
  - intros r w w' s. by split_and!.
  - intros s E. rewrite <- E. by destruct s.
  - done.
Qed.

(** The keyboard's interrupts lead from the scancode [sc] to ESC, whatever the machine did before. *)
Definition esc_comes (irq sc : Z) : Prop := ∀ w : W, ∃ l w', Lab3.Spec.scans irq sc w l w'.

Lemma waiting_ESC_returns (s : lab W) : esc_comes (irq_k s) (scancode s) →
  ∃ fuel rc s', waiting_ESC fuel s = Done (rc, s').
Proof.
  intros Hesc. unfold waiting_ESC.
  destruct (sys_irqsetpolicy KEYBOARD_IRQ (Z.lor IRQ_REENABLE IRQ_EXCLUSIVE) (kb_hook_id s) (world s))
    as [[e h] w] eqn:E.
  pose proof (kb_subscribe_run _ _ _ _ E) as Hs. set (s1 := set_kb_hook_id h (set_world w s)) in *.
  destruct (Z.eqb_spec (status e) 0) as [He|He].
  2: { exists 0%nat, 1, s1. rewrite (run_done _ _ _ _ _ Hs). by rewrite (proj2 (Z.eqb_neq _ _) He). }
  destruct (Hesc (world s1)) as (l & w' & Hl).
  set (s2 := set_scancode KB_BREAK_ESC (set_world w' s1)).
  destruct (proj2 (wait_loop_iff (irq_k s) s1 None s2)) as [fuel Hf]; [split; [done|by exists l, w']|].
  destruct (sys_irqrmpolicy (kb_hook_id s2) (world s2)) as [[e' h'] w2] eqn:E2.
  exists fuel. rewrite (run_done _ _ _ _ _ Hs), He. cbn [Z.eqb negb].
  fold (irq_k s). rewrite (run_done _ _ _ _ _ Hf).
  rewrite (check_done _ _ _ _ _ (kb_unsubscribe_run _ _ _ _ E2)). destruct (status e' =? 0); by do 2 eexists.
Qed.

Lemma waiting_ESC_wlp fuel (s : lab W) : wlp (waiting_ESC fuel) (λ rc _, rc = 0 ∨ rc = 1) s.
Proof.
  unfold waiting_ESC.
  destruct (sys_irqsetpolicy KEYBOARD_IRQ (Z.lor IRQ_REENABLE IRQ_EXCLUSIVE) (kb_hook_id s) (world s))
    as [[e h] w] eqn:E.
  apply wlp_bind. unfold wlp at 1. rewrite (kb_subscribe_run _ _ _ _ E). unfold status.
  destruct (e =? 0); cbn [Z.eqb negb]; [|by right].
  apply wlp_bind. eapply wlp_mono;
    [|apply (message_loop_wlp _ _ (λ _, True) (λ _ _, False)); [done| |done|done]].
  - intros [rc|] s1; [done|]. intros _. apply wlp_check.
    destruct (sys_irqrmpolicy (kb_hook_id s1) (world s1)) as [[e' h'] w'] eqn:E2.
    unfold wlp at 1. rewrite (kb_unsubscribe_run _ _ _ _ E2). unfold status.
    destruct (e' =? 0); cbn [Z.eqb]; [by left|by right].
  - intros m s1 _ _. unfold wait_message. destruct (from_hardware m); [|done].
    destruct (irq_pending m _); [|done]. destruct (read_scancode_run s1) as (sc & w' & Hr).
    unfold wp. by rewrite (run_done _ _ _ _ _ Hr).
Qed.

(** The graphics state, video memory included, with which set_frame_buffer succeeds when the
    test starts in the state [s]. *)
Definition memory_given (mode : Z) (s : lab W * fb) (g : fb) : Prop :=
  ∃ w, set_frame_buffer mode (world s.1, s.2) = Done (0, (w, g)).

(** The mode's initialisation fails with 1, or establishes the graphics state. *)
Lemma start_video_cases mode (s : lab W * fb) :
  let mi := (vbe_get_mode_info mode (world s.1)).1.2 in
  (∃ s1, ∀ k, start_video mode k s = Done (1, s1)) ∨
  (∃ w g, (∀ k, start_video mode k s = k (set_world w s.1, g)) ∧ fb_mode g = mi ∧
     (usable mi → fb_ok g) ∧ memory_given mode s g).
Proof.
  intros mi. pose proof (set_frame_buffer_fb mode (world s.1) s.2) as Hf. simpl in Hf. fold mi in Hf.
  apply wp_done in Hf as (rc & [w g] & E & Hrc & Hm & Hok). simpl in Hm, Hok.
  assert (on_world_fb (set_frame_buffer mode) s = Done (rc, (set_world w s.1, g))) as E1
    by (unfold on_world_fb, zoom; by rewrite E).
  destruct Hrc as [->| ->];
    [|left; eexists; intros k; unfold start_video; by rewrite (check_done _ _ _ _ _ E1)].
  destruct (sys_int86 (Reg86 VBE 0x4F02 (u16 (Z.lor (BIT 14) mode))) w) as [rc2 w2] eqn:E2.
  assert (on_machine (set_graphical_mode mode) (set_world w s.1, g) =
    Done (if rc2 =? 0 then 0 else 1, (set_world w2 s.1, g))) as E3.
  { unfold on_machine, on_lab, on_globals, on_world, set_graphical_mode, zoom. run_unfold.
    cbn. rewrite E2. by destruct (rc2 =? 0). }
  destruct (rc2 =? 0) eqn:Erc; [right; exists w2, g; split; [|split_and!; [done|by apply Hok|by exists w]]
    |left; eexists]; intros k; unfold start_video; rewrite (check_done _ _ _ _ _ E1); cbn [Z.eqb];
    by rewrite (check_done _ _ _ _ _ E3).
Qed.

Lemma finish_video_wlp fuel (s : lab W * fb) :
  wlp (finish_video fuel) (λ rc s', (rc = 0 ∨ rc = 1) ∧ s'.2 = s.2) s.
Proof.
  unfold finish_video. apply wlp_check, wlp_zoom. eapply wlp_mono; [|apply waiting_ESC_wlp].
  intros rc s1 _. cbn beta. destruct (rc =? 0); [|by split; [right|]].
  apply wlp_check. unfold wlp at 1, on_machine, on_lab, on_globals, on_world, zoom, call.
  destruct (vg_exit _) as [rc2 w2]. destruct (rc2 =? 0); cbn; (split; [|done]); [by left|by right].
Qed.

Lemma finish_video_returns (s : lab W) (g : fb) : esc_comes (irq_k s) (scancode s) →
  ∃ fuel rc s', finish_video fuel (s, g) = Done (rc, s').
Proof.
  intros (fuel & rc & s1 & Hw)%waiting_ESC_returns. exists fuel.
  assert (on_lab (waiting_ESC fuel) (s, g) = Done (rc, (s1, g))) as R by by apply on_globals_run.
  unfold finish_video. rewrite (check_done _ _ _ _ _ R).
  destruct (rc =? 0); [|by do 2 eexists]. run_unfold. unfold on_machine, on_lab, on_globals, on_world, zoom, call.
  simpl. destruct (vg_exit _) as [rc2 w2]. simpl. by destruct (rc2 =? 0); do 2 eexists.
Qed.

(** A test that draws with [d] returns once ESC comes. *)
Lemma test_returns mode (d : M fb Z) (s : lab W * fb) :
  let mi := (vbe_get_mode_info mode (world s.1)).1.2 in
  usable mi → (∀ g, fb_ok g → fb_mode g = mi → wp d (λ _ _, True) g) → esc_comes (irq_k s.1) (scancode s.1) →
  ∃ fuel rc s', start_video mode (on_fb d ;? finish_video fuel) s = Done (rc, s').
Proof.
  intros mi Hu Hd Hesc.
  destruct (start_video_cases mode s) as [[s1 Hs1]|(w & g & Hs1 & Hm & Hok & _)].
  { exists 0%nat, 1, s1. by rewrite Hs1. }
  pose proof (Hd g (Hok Hu) Hm) as Hw. apply wp_done in Hw as (rc & g' & E & _).
  assert (on_fb d (set_world w s.1, g) = Done (rc, (set_world w s.1, g'))) as R
    by (unfold on_fb, zoom; simpl; by rewrite E).
  destruct (finish_video_returns (set_world w s.1) g' Hesc) as (fuel & rc' & s' & Hf).
  exists fuel. rewrite Hs1, (check_done _ _ _ _ _ R). destruct (rc =? 0); by do 2 eexists.
Qed.
End parts.

(** ** The moving pixmap *)
Section moving.
Import Lab3.Spec.
Context {W : Type} `{PortIO W} `{Interrupts W} `{Receive W} `{IndexedLoaderLaws}.

Lemma advance_min x xf speed : 0 <= x <= xf → 0 < speed → xf + speed < 65536 →
  advance x xf speed = Z.min xf (x + speed).
Proof.
  intros. unfold advance. rewrite u16_small by lia. destruct (Z.gtb_spec (x + speed) xf); lia.
Qed.

(** The pixmap is on the screen at (x, y). *)
Definition on_screen (g : fb) (m : xpm_map) (w h x y : Z) : Prop := ∀ px py,
  x <= px < x + w → y <= py < y + h →
  fb_pixel g px py = Some (le_bytes (Z.to_nat (bpp (doubled g))) (picture m (py - y) (px - x))).

Lemma print_xpm_shows g m w h x y : fb_ok g → indexed_dims m = Some (w, h) →
  0 <= x < 65536 → 0 <= y < 65536 → x + w <= hres (doubled g) → y + h <= vres (doubled g) →
  wp (print_xpm m x y)
    (λ rc g', rc = 0 ∧ fb_ok g' ∧ fb_mode g' = fb_mode g ∧ on_screen g' m w h x y) g.
Proof.
  intros Hg Hd Hx Hy Hxw Hyh. eapply wp_mono; [|by apply (print_xpm_fb g m w h)].
  intros rc g'. unfold fb_draws. rewrite (proj2 (Z.leb_le _ _) Hxw), (proj2 (Z.leb_le _ _) Hyh).
  intros [-> Hp]. split; [done|]. split; [by eapply fb_paints_ok|]. split; [by eapply fb_paints_mode|].
  intros px py Hpx Hpy. destruct (fb_screen _ _ (fb_paints_mode _ _ _ Hp)) as (_ & _ & ->).
  rewrite (fb_paints_pixel _ _ _ Hp) by (unfold in_screen; lia). unfold area.
  by replace ((x <=? px) && (px <? x + w) && (y <=? py) && (py <? y + h)) with true by lia.
Qed.

Variables (m : xpm_map) (w h xi yi xf yf speed : Z) (horizontal : bool) (mi : vbe_mode_info).
Hypothesis Hdims : indexed_dims m = Some (w, h).
Hypothesis Hdir : direction xi yi xf yf = Some horizontal.
Hypothesis Hstart : 0 <= xi ∧ 0 <= yi.
Hypothesis Hspeed : 0 < speed ∧ xf + speed < 65536 ∧ yf + speed < 65536.
Hypothesis Hfits : xf + w <= XResolution mi ∧ yf + h <= YResolution mi.

(** After [k] frames: the position, and the pixmap on the screen there. *)
Record at_frame (k : Z) (p : lab W * fb * (Z * Z)) : Prop := {
  at_count : 0 <= k;
  at_x : p.2.1 = Z.min xf (xi + k * speed);
  at_y : p.2.2 = Z.min yf (yi + k * speed);
  at_ok : fb_ok p.1.2;
  at_mode : fb_mode p.1.2 = mi;
  at_screen : on_screen p.1.2 m w h p.2.1 p.2.2;
}.

Lemma direction_spec : if horizontal then xi < xf ∧ yi = yf else xi = xf ∧ yi < yf.
Proof.
  unfold direction in Hdir. destruct ((xi <? xf) && (yi =? yf)) eqn:E; [simplify_eq; lia|].
  destruct ((xi =? xf) && (yi <? yf)) eqn:E2; [simplify_eq; lia|done].
Qed.

Lemma next_frame k x y : 0 <= k → x = Z.min xf (xi + k * speed) → y = Z.min yf (yi + k * speed) →
  let x' := if horizontal then advance x xf speed else x in
  let y' := if horizontal then y else advance y yf speed in
  x' = Z.min xf (xi + (k + 1) * speed) ∧ y' = Z.min yf (yi + (k + 1) * speed).
Proof.
  intros Hk -> ->. pose proof direction_spec as Hd. destruct horizontal; cbn.
  - rewrite advance_min by nia. nia.
  - rewrite advance_min by nia. nia.
Qed.

(** A message with a timer interrupt is one frame. *)
Lemma move_frame ik it msg k (p : lab W * fb * (Z * Z)) :
  at_frame k p → is_interrupt it msg = true →
  wp (move_message ik it horizontal m xf yf speed msg)
    (λ r p', r = None ∧ at_frame (k + 1) p') p.
Proof.
  intros [Hk Hx Hy Hok Hm _] Hmsg. unfold is_interrupt in Hmsg.
  apply andb_true_iff in Hmsg as [Ehw Eit]. unfold move_message. rewrite Ehw, Eit.
  destruct p as [[s g] [x y]]. simpl in *.
  assert (∃ s1, (if irq_pending msg ik then on_globals (on_lab read_scancode) else skip)
    (s, g, (x, y)) = Done (tt, (s1, g, (x, y)))) as [s1 E1].
  { destruct (irq_pending msg ik); [|by eexists].
    destruct (read_scancode_run s) as (sc & w1 & Hr).
    eexists. apply on_globals_run. unfold on_lab. by apply on_globals_run. }
  eapply wp_run; [exact E1|].
  destruct (next_frame k x y Hk Hx Hy) as [Hx' Hy']. simpl in Hx', Hy'.
  set (x' := if horizontal then advance x xf speed else x) in *.
  set (y' := if horizontal then y else advance y yf speed) in *.
  eapply (wp_run _ _ _ _ tt (s1, g, (x', y'))); [unfold x', y'; by destruct horizontal|].
  eapply wp_run; [done|]. cbn [snd]. pose proof (indexed_dims_range _ _ _ Hdims).
  assert (0 <= x' <= xf ∧ 0 <= y' <= yf) as [??]
    by (pose proof direction_spec; destruct horizontal; nia).
  pose proof (print_xpm_shows g m w h x' y' Hok Hdims ltac:(lia) ltac:(lia)) as Hp.
  unfold hres, vres in Hp. simpl in Hp. rewrite Hm in Hp.
  apply wp_bind, wp_zoom, wp_zoom. simpl. eapply wp_mono; [|apply Hp; lia].
  intros rc g' (-> & Hok' & Hm' & Hs'). simpl. apply wp_ret. split; [done|].
  split; simpl; [lia|done|done|done|congruence|done].
Qed.

(** Any other message leaves the picture and the position. *)
Lemma move_rest ik it msg k (p : lab W * fb * (Z * Z)) w0 :
  at_frame k p → is_interrupt it msg = false → driver_receive w0 = ((0, msg), the_world p) →
  wp (move_message ik it horizontal m xf yf speed msg)
    (λ r p', r = None ∧ at_frame k p' ∧ p'.2 = p.2 ∧ passes w0 (the_world p')) p.
Proof.
  intros [Hk Hx Hy Hok Hm Hs] Hmsg E. unfold is_interrupt in Hmsg. unfold move_message.
  destruct p as [[s g] l]. simpl in *. destruct (from_hardware msg); simpl in Hmsg.
  2: { apply wp_ret. split; [done|]. split; [by split|]. split; [done|]. by eapply passes_by. }
  rewrite Hmsg. destruct (irq_pending msg ik).
  - destruct (Keyboard.reads_total KEYBOARD_OUT_CMD false 10 (world s)) as (r & w1 & Hr).
    pose proof (read_scancode_reads s w1 r Hr) as R.
    eapply wp_run; [apply on_globals_run; unfold on_lab; apply on_globals_run; exact R|].
    apply wp_ret. split; [done|]. split; [by split|]. split; [done|]. by eapply passes_read.
  - apply wp_bind, wp_ret, wp_ret. split; [done|]. split; [by split|]. split; [done|]. by eapply passes_by.
Qed.

(** The pixels left to go. *)
Definition rest (p : lab W * fb * (Z * Z)) : nat := Z.to_nat (xf - p.2.1 + (yf - p.2.2)).

Lemma rest_falls k p p' : at_frame k p → at_frame (k + 1) p' → moving xf yf p = true →
  (rest p' < rest p)%nat.
Proof.
  intros Hp Hp' Ha. unfold rest, moving in *.
  rewrite (at_x _ _ Hp), (at_y _ _ Hp) in *. rewrite (at_x _ _ Hp'), (at_y _ _ Hp').
  pose proof (at_count _ _ Hp). pose proof direction_spec. destruct horizontal; nia.
Qed.

Lemma move_loop_ends ik it p : at_frame 0 p → (∀ w : W, due it w) →
  ∃ fuel p', message_loop (moving xf yf) (move_message ik it horizontal m xf yf speed) fuel p =
    Done (None, p') ∧ (∃ k, at_frame k p') ∧
    (scancode p'.1.1 = KB_BREAK_ESC ∨ p'.2 = (xf, yf)).
Proof.
  intros Hp Hdue.
  destruct (message_loop_fair (moving xf yf) (move_message ik it horizontal m xf yf speed) it
    (λ p, ∃ k, at_frame k p) rest) with (s := p) as (fuel & p' & Hf & [k Hp'] & Hd); [done|..|done| |].
  - intros w0 [[s g] l] [k []]. split; [|done]. exists k. by split.
  - intros msg q Ha [k Hq] Hmsg. eapply wp_mono; [|by apply (move_frame ik it msg k)].
    intros r q' [-> Hq']. split; [done|]. split; [by exists (k + 1)|]. by eapply rest_falls.
  - intros msg w0 q Ha [k Hq] Hmsg E. eapply wp_mono; [|by apply (move_rest ik it msg k q w0)].
    intros r q' (-> & Hq' & El & Hpass). split; [done|]. split; [by exists k|].
    split; [unfold rest; by rewrite El|done].
  - by exists 0.
  - exists fuel, p'. split; [done|]. split; [by exists k|]. unfold moving, not_esc in Hd.
    destruct (Z.eqb_spec (scancode p'.1.1) KB_BREAK_ESC); [by left|right]. cbn [negb andb] in Hd.
    pose proof (at_x _ _ Hp'). pose proof (at_y _ _ Hp'). destruct p' as [? [x y]]. simpl in *.
    f_equal; lia.
Qed.
End moving.

(** ** Properties *)
Section properties.
Context {W : Type} `{PortIO W} `{Interrupts W} `{Receive W} `{VideoLaws W} `{Panic W} `{Sleep W}.
Context `{IndexedLoaderLaws}.
Import Spec Lab3.Spec.

(** C35. The pattern that video_test_pattern draws in a usable mode is the documented one, bit for bit
    in both colour models, although the code computes in 32-bit unsigned arithmetic: [n] by [n]
    tiles of equal size, all of them on the screen, in the documented colours, and every other
    pixel (the stripes at the right and at the bottom) unchanged.  For [n] = 0 it divides by zero. *)
Theorem draw_pattern_documented g n first step (Hg : fb_ok g) (Hn : 0 <= n < 256)
    (Hc : colors_ok (fb_mode g)) (Hf : 0 <= first) :
  if n =? 0 then draw_pattern n first step g = Undef
  else wp (draw_pattern n first step)
         (λ rc g', rc = 0 ∧ fb_paints g g' (pattern (fb_mode g) n first step)) g.
Proof.
  destruct (Z.eqb_spec n 0) as [->|]; [done|]. apply draw_pattern_wp; [done|lia|done|done].
Qed.

(** What is known when one of the tests, started in [s0], returns: if it returns 0, [a] has been
    painted, all of it on the screen, over the memory that set_frame_buffer established. *)
Definition tested (mode : Z) (s0 : lab W * fb) (fits : bool) (a : painting) (rc : Z)
    (s : lab W * fb) : Prop :=
  (rc = 0 ∨ rc = 1) ∧
  (rc = 0 → fits = true ∧ ∃ g, memory_given mode s0 g ∧ fb_paints g s.2 a).

Lemma draw_then_finish mode s0 fuel (d : M fb Z) fits a (s : lab W) g :
  memory_given mode s0 g → wp d (fb_draws g fits a) g →
  wlp (on_fb d ;? finish_video fuel) (tested mode s0 fits a) (s, g).
Proof.
  intros Hgiven Hd. apply wlp_check, wp_wlp, wp_zoom. eapply wp_mono; [|exact Hd].
  intros rc g' Hg'. unfold fb_draws in Hg'. destruct fits; [destruct Hg' as [-> Hp]|destruct Hg' as [-> _]].
  - cbn [Z.eqb]. eapply wlp_mono; [|apply finish_video_wlp]. intros rc s' [Hrc E]. split; [done|].
    intros _. split; [done|]. exists g. split; [done|]. by rewrite E.
  - cbn [Z.eqb]. split; [by right|done].
Qed.

Lemma test_draws mode k fits a (s : lab W * fb) :
  let mi := (vbe_get_mode_info mode (world s.1)).1.2 in
  usable mi →
  (∀ w g, fb_ok g → fb_mode g = mi → memory_given mode s g → wlp k (tested mode s fits a) (w, g)) →
  wlp (start_video mode k) (tested mode s fits a) s.
Proof.
  intros mi Hu Hk. unfold wlp.
  destruct (start_video_cases mode s) as [[s1 Hs1]|(w & g & Hs1 & Hm & Hok & Hgiven)]; rewrite Hs1.
  - split; [by right|done].
  - by apply Hk; [apply Hok| |].
Qed.

(** The tests as wholes: no undefined behaviour for any messages and devices, 1 for a drawing that
    does not fit on the screen, and for 0 the picture that was asked for. *)
Theorem video_test_pattern_result fuel mode n first step (s : lab W * fb) :
  let mi := (vbe_get_mode_info mode (world s.1)).1.2 in
  usable mi → colors_ok mi → 0 < n < 256 → 0 <= first →
  wlp (video_test_pattern fuel mode n first step) (tested mode s true (pattern mi n first step)) s.
Proof.
  intros mi Hu Hc Hn Hf. apply test_draws; [done|]. fold mi. intros w g Hok <- Hgiven.
  apply draw_then_finish; [done|]. by apply draw_pattern_wp.
Qed.

(** C36. video_test_xpm of a pixmap in indexed colours, in a usable mode 0x105, returns if the
    keyboard's interrupts lead to ESC; and whenever it returns 0 the whole pixmap is on the screen,
    each pixel of its rectangle holds, in the bytes of the mode, the index that the pixmap's colour
    lines give to the symbol in that place, and every other pixel is as in the video memory with
    which the test's own call of set_frame_buffer succeeded.  For a pixmap that does not fit it
    returns 1. *)
Theorem video_test_xpm_shows m pw ph x y (s : lab W * fb) :
  let mi := (vbe_get_mode_info MODE_INDEXED (world s.1)).1.2 in
  usable mi → indexed_dims m = Some (pw, ph) → 0 <= x < 65536 → 0 <= y < 65536 →
  esc_comes (irq_k s.1) (scancode s.1) →
  (∃ fuel rc s', video_test_xpm fuel m x y s = Done (rc, s')) ∧
  ∀ fuel, wlp (video_test_xpm fuel m x y) (λ rc s', (rc = 0 ∨ rc = 1) ∧
    (rc = 0 → x + pw <= XResolution mi ∧ y + ph <= YResolution mi ∧ ∃ g,
      memory_given MODE_INDEXED s g ∧ fb_mode g = mi ∧
      ∀ px py, in_screen (doubled g) px py → fb_pixel s'.2 px py =
        if (x <=? px) && (px <? x + pw) && (y <=? py) && (py <? y + ph)
        then le_bytes (Z.to_nat (bpp (doubled g))) <$> documented_color m (py - y) (px - x)
        else fb_pixel g px py)) s.
Proof.
  intros mi Hu Hd Hx Hy Hesc. split.
  { apply (test_returns MODE_INDEXED _ s Hu); [|done]. fold mi. intros g Hok _.
    eapply wp_mono; [|by apply (print_xpm_fb g m pw ph x y)]. done. }
  intros fuel. eapply wlp_mono; [|apply (test_draws MODE_INDEXED _
    ((x + pw <=? XResolution mi) && (y + ph <=? YResolution mi)) (area x y pw ph (picture m)) s Hu);
    fold mi; intros w g Hok <- Hgiven; apply draw_then_finish; [done|]; by apply (print_xpm_fb g m pw ph x y)].
  intros rc s' [Hrc Hs']. split; [done|]. intros H0'. destruct (Hs' H0') as (Hf & g & Hgiven & Hp).
  assert (fb_mode g = mi) as Hm.
  { destruct Hgiven as [w Hw]. pose proof (set_frame_buffer_fb MODE_INDEXED (world s.1) s.2) as Hg.
    unfold wp in Hg. rewrite Hw in Hg. by destruct Hg as (_ & ? & _). }
  split; [lia|]. split; [lia|]. exists g. split; [done|]. split; [done|]. intros px py Hin.
  rewrite (fb_paints_pixel _ _ _ Hp) by done. unfold area, picture.
  destruct ((x <=? px) && _ && _ && _) eqn:E; [|done].
  destruct (indexed_dims_image _ _ _ Hd) as (img & Hi & <- & <-).
  destruct (indexed_image_pixel m img (py - y) (px - x) Hi) as [_ [c ->]]; [lia..|done].
Qed.

(** It returns once ESC comes. *)
Theorem video_test_pattern_ends mode n first step (s : lab W * fb) :
  let mi := (vbe_get_mode_info mode (world s.1)).1.2 in
  usable mi → colors_ok mi → 0 < n < 256 → 0 <= first → esc_comes (irq_k s.1) (scancode s.1) →
  ∃ fuel rc s', video_test_pattern fuel mode n first step s = Done (rc, s').
Proof.
  intros mi Hu Hc Hn Hf. apply (test_returns mode _ s Hu). fold mi. intros g Hok E. rewrite <- E in Hc.
  eapply wp_mono; [|by apply draw_pattern_wp]. done.
Qed.

(** The colour of a rectangle is cut to the bits of a pixel. *)
Theorem video_test_rectangle_result fuel mode x y width height color (s : lab W * fb) :
  let mi := (vbe_get_mode_info mode (world s.1)).1.2 in
  usable mi → 0 <= x < 65536 → 0 <= y < 65536 → 0 <= width < 65536 → 0 <= height < 65536 →
  wlp (video_test_rectangle fuel mode x y width height color)
    (tested mode s ((width =? 0) || (height =? 0) ||
                (x + width <=? XResolution mi) && (y + height <=? YResolution mi))
       (area x y width height (λ _ _, if BitsPerPixel mi =? 32 then color
                                      else Z.land color (u32 (i32 (BIT (BitsPerPixel mi) - 1)))))) s.
Proof.
  intros mi Hu Hx Hy Hw Hh. apply test_draws; [done|]. fold mi. intros w g Hok Hm Hgiven.
  assert (∃ c, on_fb (norm_color color) (w, g) = Done (c, (w, g)) ∧
    c = if BitsPerPixel mi =? 32 then color
        else Z.land color (u32 (i32 (BIT (BitsPerPixel mi) - 1)))) as (c & E & <-).
  { eexists. split; [|done]. unfold on_fb, zoom, norm_color. run_unfold. simpl. rewrite Hm.
    destruct Hu as [Hb _]. destruct (Z.eqb_spec (BitsPerPixel mi) 32); [done|].
    by destruct (Z.ltb_spec (BitsPerPixel mi) 32); [|lia]. }
  unfold wlp. rewrite (run_done _ _ _ _ _ E). apply draw_then_finish; [done|].
  eapply wp_mono; [|by apply vg_draw_rectangle_fb]. intros rc g'.
  unfold image_fits, hres, vres. simpl. by rewrite !Z2Nat.id, Hm by lia.
Qed.

(** A negative speed, documented as the number of frames per pixel, moves the pixmap backwards
    by that many pixels each frame, until the 16-bit position would pass 0: it then wraps around
    and the pixmap jumps to its end at once.  Speed 0 never moves it. *)
Theorem advance_backwards x xf speed (Hx : 0 <= x <= xf) (Hs : -32768 <= speed <= 0)
    (Hxf : xf < 32768) :
  advance x xf speed = if 0 <=? x + speed then x + speed else xf.
Proof.
  unfold advance. destruct (Z.leb_spec 0 (x + speed)).
  - rewrite u16_small by lia. destruct (Z.gtb_spec (x + speed) xf); lia.
  - assert (u16 (x + speed) = x + speed + 65536) as ->.
    { unfold u16. symmetry. apply Z.mod_unique with (-1); lia. }
    destruct (Z.gtb_spec (x + speed + 65536) xf); lia.
Qed.

Lemma on_machine_run {A} (m : M W A) (s : lab W) (g : fb) a w :
  m (world s) = Done (a, w) → on_machine m (s, g) = Done (a, (set_world w s, g)).
Proof.
  intros E. unfold on_machine, on_lab. apply on_globals_run. unfold on_world, zoom. by rewrite E.
Qed.

(** The end of video_test_move keeps the picture and the scancode. *)
Lemma move_end_run (s : lab W) (g : fb) : ∃ rc s',
  (on_machine (call vg_exit) ;? (on_lab timer_unsubscribe ;? (on_lab kb_unsubscribe ;? mret 0))) (s, g) =
    Done (rc, (s', g)) ∧ (rc = 0 ∨ rc = 1) ∧ scancode s' = scancode s.
Proof.
  destruct (vg_exit (world s)) as [rc1 w1] eqn:E1.
  assert (on_machine (call vg_exit) (s, g) = Done (rc1, (set_world w1 s, g))) as R1
    by (apply on_machine_run; unfold call; by rewrite E1).
  rewrite (check_done _ _ _ _ _ R1).
  destruct (rc1 =? 0); [|do 2 eexists; split; [done|split; [by right|done]]].
  destruct (sys_irqrmpolicy (hook_id s) w1) as [[e2 h2] w2] eqn:E2.
  pose proof (timer_unsubscribe_run (set_world w1 s) _ _ _ E2) as R2.
  unfold on_lab at 1. rewrite (check_done _ _ _ _ _ (on_globals_run _ _ _ _ _ R2)). unfold status.
  destruct (e2 =? 0); cbn [Z.eqb]; [|do 2 eexists; split; [done|split; [by right|done]]].
  set (s2 := set_hook_id h2 (set_world w2 (set_world w1 s))).
  destruct (sys_irqrmpolicy (kb_hook_id s2) (world s2)) as [[e3 h3] w3] eqn:E3.
  pose proof (kb_unsubscribe_run s2 _ _ _ E3) as R3.
  unfold on_lab. rewrite (check_done _ _ _ _ _ (on_globals_run _ _ _ _ _ R3)). unfold status.
  destruct (e3 =? 0); cbn [Z.eqb]; (do 2 eexists; split; [done|split; [auto|done]]).
Qed.
(** What is known when video_test_move returns 0. *)
Definition arrived (m : xpm_map) (w h xf yf : Z) (s : lab W * fb) : Prop :=
  scancode s.1 = KB_BREAK_ESC ∨ on_screen s.2 m w h xf yf.

(** Everything after the initialisation of the graphics mode. *)
Lemma move_after_start m w h xi yi xf yf speed fr_rate horizontal ik it (s : lab W) g :
  indexed_dims m = Some (w, h) → direction xi yi xf yf = Some horizontal → 0 <= xi ∧ 0 <= yi →
  0 < speed ∧ xf + speed < 65536 ∧ yf + speed < 65536 →
  xf + w <= XResolution (fb_mode g) ∧ yf + h <= YResolution (fb_mode g) → fb_ok g →
  (∀ w : W, due it w) →
  ∃ fuel rc s',
    (on_machine (timer_set_frequency 0 fr_rate) ;?
     (on_fb (print_xpm m xi yi) ;?
      (r ← with_locals (xi, yi) (message_loop (moving xf yf)
             (move_message ik it horizontal m xf yf speed) fuel);
       match r with
       | Some rc => mret rc
       | None => on_machine (call vg_exit) ;? (on_lab timer_unsubscribe ;? (on_lab kb_unsubscribe ;? mret 0))
       end))) (s, g) = Done (rc, s') ∧
    (rc = 0 ∨ rc = 1) ∧ (rc = 0 → arrived m w h xf yf s').
Proof.
  intros Hd Hdir Hst Hsp Hfit Hok Hdue.
  pose proof (timer_set_frequency_returns fr_rate (world s)) as Hf.
  apply wp_done in Hf as (rc1 & w1 & E1 & _).
  pose proof (on_machine_run _ s g _ _ E1) as R1.
  destruct (Z.eqb_spec rc1 0) as [->|Hne].
  2: { exists 0%nat, 1, (set_world w1 s, g). rewrite (check_done _ _ _ _ _ R1).
    destruct (Z.eqb_spec rc1 0); [done|]. split; [done|]. by split; [right|]. }
  pose proof (direction_spec _ _ _ _ _ Hdir) as Hdd. pose proof (indexed_dims_range _ _ _ Hd).
  assert (xi <= xf ∧ yi <= yf) as [??] by (destruct horizontal; lia).
  pose proof (print_xpm_shows g m w h xi yi Hok Hd ltac:(lia) ltac:(lia)) as Hp.
  unfold hres, vres in Hp. simpl in Hp. specialize (Hp ltac:(lia) ltac:(lia)).
  apply wp_done in Hp as (rc & g1 & E2 & -> & Hok1 & Hm1 & Hs1).
  assert (on_fb (print_xpm m xi yi) (set_world w1 s, g) = Done (0, (set_world w1 s, g1))) as R2
    by (unfold on_fb, zoom; cbn [snd fst]; by rewrite E2).
  set (p := ((set_world w1 s, g1), (xi, yi)) : lab W * fb * (Z * Z)).
  destruct (move_loop_ends m w h xi yi xf yf speed horizontal (fb_mode g) Hd Hdir Hst Hsp Hfit ik it p)
    as (fuel & p' & Hf & [k Hp'] & Hend); [|done|].
  { split; simpl; [lia|lia|lia|done|done|done]. }
  destruct p' as [[s2 g2] l]. destruct (move_end_run s2 g2) as (rc3 & s3 & R3 & Hrc3 & Hsc).
  exists fuel, rc3, (s3, g2). split; [|split; [done|]].
  - rewrite (check_done _ _ _ _ _ R1). cbn [Z.eqb]. rewrite (check_done _ _ _ _ _ R2). cbn [Z.eqb].
    unfold mbind at 1, M_bind at 1, with_locals. fold p. by rewrite Hf.
  - intros _. unfold arrived. simpl in *. rewrite Hsc. destruct Hend as [?|E]; [by left|right].
    pose proof (at_screen _ _ _ _ _ _ _ _ _ _ _ Hp') as Hshown. simpl in Hshown.
    by rewrite E in Hshown.
Qed.

(** C37. With a positive speed and an end at which the pixmap fits on the screen, video_test_move
    returns if only finitely many messages come before each next interrupt of the timer; when it
    returns 0, the pixmap is on the screen at the end of its way, or ESC was released.  (On the way it is at
    [min(xf, xi + k * speed)] after [k] frames.) *)
Theorem video_test_move_arrives m w h xi yi xf yf speed fr_rate (s : lab W * fb)
    (Hd : indexed_dims m = Some (w, h)) (Hdir : is_Some (direction xi yi xf yf))
    (Hst : 0 <= xi ∧ 0 <= yi) (Hsp : 0 < speed ∧ xf + speed < 65536 ∧ yf + speed < 65536)
    (Hmode : ∀ w0 : W, let mi := (vbe_get_mode_info MODE_INDEXED w0).1.2 in
       usable mi ∧ xf + w <= XResolution mi ∧ yf + h <= YResolution mi)
    (Hdue : ∀ w : W, due (irq_t s.1) w) :
  ∃ fuel rc s', video_test_move fuel m xi yi xf yf speed fr_rate s = Done (rc, s') ∧
    (rc = 0 ∨ rc = 1) ∧ (rc = 0 → arrived m w h xf yf s').
Proof.
  destruct Hdir as [horizontal Hdir]. destruct s as [s g]. unfold video_test_move. rewrite Hdir.
  destruct (sys_irqsetpolicy KEYBOARD_IRQ (Z.lor IRQ_REENABLE IRQ_EXCLUSIVE) (kb_hook_id s) (world s))
    as [[e1 h1] w1] eqn:E1.
  pose proof (on_globals_run _ _ _ g _ (kb_subscribe_run _ _ _ _ E1)) as R1.
  set (s1 := set_kb_hook_id h1 (set_world w1 s)) in *.
  destruct (Z.eqb_spec (status e1) 0) as [He1|He1].
  2: { exists 0%nat, 1, (s1, g). rewrite (run_done _ _ _ _ _ R1). rewrite (proj2 (Z.eqb_neq _ _) He1).
    split; [done|]. by split; [right|]. }
  destruct (sys_irqsetpolicy TIMER0_IRQ IRQ_REENABLE (hook_id s1) (world s1)) as [[e2 h2] w2] eqn:E2.
  pose proof (on_globals_run _ _ _ g _ (timer_subscribe_run s1 _ _ _ E2)) as R2.
  set (s2 := set_hook_id h2 (set_world w2 s1)) in *.
  destruct (Z.eqb_spec (status e2) 0) as [He2|He2].
  2: { exists 0%nat, 1, (s2, g). rewrite (run_done _ _ _ _ _ R1), He1. cbn [Z.eqb negb].
    rewrite (run_done _ _ _ _ _ R2). rewrite (proj2 (Z.eqb_neq _ _) He2).
    split; [done|]. by split; [right|]. }
  destruct (start_video_cases MODE_INDEXED (s2, g)) as [[s3 Hs3]|(w3 & g3 & Hs3 & Hm & Hok & _)].
  { exists 0%nat, 1, s3. rewrite (run_done _ _ _ _ _ R1), He1. cbn [Z.eqb negb].
    rewrite (run_done _ _ _ _ _ R2), He2. cbn [Z.eqb negb]. rewrite Hs3.
    split; [done|]. by split; [right|]. }
  destruct (Hmode (world s2)) as (Hu & Hfit). specialize (Hok Hu).
  change (s2, g).1 with s2 in Hm. rewrite <- Hm in Hfit.
  destruct (move_after_start m w h xi yi xf yf speed fr_rate horizontal (irq_k s) (irq_t s)
    (set_world w3 s2) g3 Hd Hdir Hst Hsp Hfit Hok Hdue) as (fuel & rc & s' & R & Hrc & Hres).
  exists fuel, rc, s'. split; [|done]. rewrite (run_done _ _ _ _ _ R1), He1. cbn [Z.eqb negb].
  rewrite (run_done _ _ _ _ _ R2), He2. cbn [Z.eqb negb]. rewrite Hs3. exact R.
Qed.
End properties.

(** ** Witnesses *)
Section witnesses.
Import Tiny IndexedLoader Spec Clock.

(** A pattern of 3 by 3 tiles on the 4x4 screen: one pixel each, and a stripe is left. *)
Lemma draw_pattern_documented_witness :
  fb_ok tiny_fb ∧ 0 <= 3 < 256 ∧ colors_ok (fb_mode tiny_fb) ∧ 0 <= 5 ∧
  wp (draw_pattern 3 5 2)
    (λ rc g', rc = 0 ∧ fb_paints tiny_fb g' (pattern (fb_mode tiny_fb) 3 5 2)) tiny_fb.
Proof.
  split; [exact tiny_fb_ok|]. split; [lia|]. split; [vm_compute; split; done|]. split; [lia|].
  apply (draw_pattern_documented tiny_fb 3 5 2); [exact tiny_fb_ok|lia|vm_compute; split; done|lia].
Defined.

Example draw_pattern_run :
  (λ o, match o with Done (_, g) => fb_mem g | _ => None end) (draw_pattern 3 5 2 tiny_fb) =
    Some [5; 7; 9; 0; 11; 13; 15; 0; 17; 19; 21; 0; 0; 0; 0; 0].
Proof. vm_compute. reflexivity. Qed.

Lemma advance_backwards_witness :
  0 <= 3 <= 100 ∧ -32768 <= -5 <= 0 ∧ 100 < 32768 ∧ advance 3 100 (-5) = 100.
Proof. split_and!; [lia..|]. apply (advance_backwards 3 100 (-5)); lia. Defined.

(** The machine of [Clock] with the tiny screen. *)
#[local] Instance clock_video : Video unit := {|
  vbe_get_mode_info := λ _ w, ((0, Sim.tiny_mode), w);
  sys_int86 := λ _ w, (0, w);
  sys_privctl_add_mem := λ _ _ w, (0, w);
  vm_map_phys := λ _ n w, (Some (replicate (Z.to_nat n) 0), w);
  malloc := λ n w, (Some (replicate (Z.to_nat n) 0), w);
  vg_exit := λ w, (0, w) |}.

#[local] Instance clock_video_laws : VideoLaws unit.
Proof.
  split; simpl; [lia|..]; intros; simplify_eq; rewrite length_replicate; lia.
Qed.

#[local] Instance clock_panic : Panic unit := {| panic := id |}.

(** A pixmap of 2 by 2 pixels. *)
Definition square : xpm_map := ["2 2 2"; "a 7"; "b 9"; "ab"; "ba"]%xpm.

(** From (0, 1) to (2, 1), where the pixmap of 2 by 2 pixels touches the right edge. *)
Lemma video_test_move_arrives_witness :
  ∃ fuel rc s', video_test_move fuel square 0 1 2 1 1 60 (lab_start tt, tiny_fb) = Done (rc, s') ∧
    (rc = 0 ∨ rc = 1) ∧ (rc = 0 → arrived square 2 2 2 1 s').
Proof.
  apply (video_test_move_arrives (W:=unit) square 2 2 0 1 2 1 1 60 (lab_start tt, tiny_fb)).
  - vm_compute. reflexivity.
  - by eexists.
  - lia.
  - lia.
  - intros []. vm_compute. split_and!; done.
  - intros w. by apply due_now.
Defined.

(** A machine on which ESC is released again and again, with a screen of 40 by 20 pixels of one
    byte that the BIOS left in colour 1. *)
Inductive machine := Machine.
Definition machine_mode : vbe_mode_info := VbeModeInfo 40 20 8 4 0 0 0 0 0 0 0.

#[local] Instance machine_port : PortIO machine := {|
  sys_inb := λ port w, ((0, if port =? KEYBOARD_STATUS then 1 else KB_BREAK_ESC), w);
  sys_outb := λ _ _ w, (0, w); micros_to_ticks := λ us, us; tickdelay := λ _ w, w |}.
#[local] Instance machine_irq : Interrupts machine := {|
  sys_irqsetpolicy := λ _ _ hook w, ((0, hook), w); sys_irqrmpolicy := λ hook w, ((0, hook), w) |}.
#[local] Instance machine_receive : Receive machine := {| driver_receive := λ w, ((0, hw_message 2), w) |}.
#[local] Instance machine_video : Video machine := {|
  vbe_get_mode_info := λ _ w, ((0, machine_mode), w);
  sys_int86 := λ _ w, (0, w);
  sys_privctl_add_mem := λ _ _ w, (0, w);
  vm_map_phys := λ _ n w, (Some (replicate (Z.to_nat n) 1), w);
  malloc := λ n w, (Some (replicate (Z.to_nat n) 1), w);
  vg_exit := λ w, (0, w) |}.
#[local] Instance machine_video_laws : VideoLaws machine.
Proof. split; simpl; [lia|..]; intros; simplify_eq; rewrite length_replicate; lia. Qed.
#[local] Instance machine_panic : Panic machine := {| panic := id |}.

Lemma machine_esc sc : esc_comes (W:=machine) 1 sc.
Proof.
  intros []. destruct (decide (sc = KB_BREAK_ESC)) as [->|Hsc]; [by exists [], Machine; constructor|].
  exists [KB_BREAK_ESC], Machine. eapply (Lab3.Spec.scans_key 1 sc Machine (hw_message 2) Machine
    (Keyboard.Spec.Data KB_BREAK_ESC) Machine); [done|by apply awaits_now| |constructor].
  exact (Keyboard.Spec.reads_data KEYBOARD_OUT_CMD false 9 Machine 1 Machine KB_BREAK_ESC Machine
    eq_refl eq_refl eq_refl).
Qed.

(** The globals before mode 0x105 is set. *)
Definition no_fb : fb := Fb (VbeModeInfo 0 0 0 0 0 0 0 0 0 0 0) 0 None.

Lemma video_test_xpm_shows_witness :
  indexed_dims pic1 = Some (32, 13) ∧
  (∃ fuel rc s', video_test_xpm fuel pic1 4 3 (lab_start Machine, no_fb) = Done (rc, s')) ∧
  ∀ fuel, wlp (video_test_xpm fuel pic1 4 3) (λ rc s', (rc = 0 ∨ rc = 1) ∧
    (rc = 0 → 4 + 32 <= XResolution machine_mode ∧ 3 + 13 <= YResolution machine_mode ∧
      ∃ g, memory_given MODE_INDEXED (lab_start Machine, no_fb) g ∧ fb_mode g = machine_mode ∧
      ∀ px py, in_screen (doubled g) px py → fb_pixel s'.2 px py =
        if (4 <=? px) && (px <? 4 + 32) && (3 <=? py) && (py <? 3 + 13)
        then le_bytes (Z.to_nat (bpp (doubled g))) <$> documented_color pic1 (py - 3) (px - 4)
        else fb_pixel g px py)) (lab_start Machine, no_fb).
Proof.
  assert (indexed_dims pic1 = Some (32, 13)) as Hd by (vm_compute; reflexivity).
  assert (usable machine_mode) as Hu by (split; [split; vm_compute; done|vm_compute; done]).
  split; [exact Hd|].
  exact (video_test_xpm_shows pic1 32 13 4 3 (lab_start Machine, no_fb) Hu Hd ltac:(lia) ltac:(lia)
    (machine_esc _)).
Defined.

(** The fourth row of the picture on the screen. *)
Example video_test_xpm_run :
  (λ o, match o with Done (rc, s) => Some (rc, scancode s.1, take 40 <$> (skipn 240 <$> fb_mem s.2)) | _ => None end)
    (video_test_xpm 2 pic1 4 3 (lab_start Machine, no_fb)) =
  Some (0, KB_BREAK_ESC, Some [1; 1; 1; 1; 0; 0; 0; 0; 0; 0; 0; 0; 0; 2; 2; 2; 2; 2; 2; 4; 2; 2; 2; 2; 2; 2;
    0; 0; 0; 0; 0; 0; 0; 0; 0; 0; 1; 1; 1; 1]).
Proof. vm_compute. reflexivity. Qed.
End witnesses.
