(* ===== verification/LabResources.v ===== *)
(** * What the test programs take from the system, and give back

    The theorems of [Resources] for lab2 to lab5, on the same machine with a log: every test makes
    its calls in the order below, stops at the one that fails, and when it returns 0 has ended
    every subscription by its own hook and left the graphics mode. *)

From S2P Require Import Prelude Triples Machine Utils Xpm IndexedXpm Graphics Keyboard Timer Mouse Logs.
From S2P Require Import Lab4 Events LabState Lab2 Lab3 Lab5Graphics Lab5.

(** ** Frames for the loops of the labs *)
Section frames.
Context {S L W : Type}.

Lemma keeps_on_globals {A} (I : S → Prop) (m : M S A) :
  keeps I m → keeps (λ p : S * L, I p.1) (on_globals m).
Proof. intros Hm. by apply (keeps_zoom_part _ I). Qed.

(** A handler that keeps [I], or returns in [Q]. *)
Definition handles (I : S → Prop) (Q : Z → S → Prop) (m : M S (option Z)) : Prop :=
  triple I m (λ r s, match r with Some rc => Q rc s | None => I s end).

Lemma handles_message_loop `{HasWorld S W} `{Receive W} (I : S → Prop) Q again handle fuel :
  keeps I (on_the_world (call driver_receive)) → (∀ m, handles I Q (handle m)) →
  handles I Q (message_loop again handle fuel).
Proof.
  intros Hr Hh. induction fuel as [|fuel IH]; cbn [message_loop]; [by intros s a s'|].
  apply triple_seq; [apply keeps_gets|intros []]; [|by apply triple_ret].
  apply triple_seq; [exact Hr|intros [rc m]]. destruct (negb (rc =? 0)); [done|].
  eapply triple_bind; [apply Hh|]. intros [rc'|]; [by apply triple_ret|done].
Qed.

Lemma handles_bind {A} (I : S → Prop) Q (m : M S A) f :
  keeps I m → (∀ a, handles I Q (f a)) → handles I Q (m ≫= f).
Proof. apply triple_seq. Qed.
Lemma handles_none (I : S → Prop) Q : handles I Q (mret None).
Proof. by apply triple_ret. Qed.
End frames.

Lemma handles_with_locals {S L} (I : S → Prop) Q (l : L) m :
  handles (λ p, I p.1) (λ rc p, Q rc p.1) m → handles I Q (with_locals l m).
Proof.
  intros Hm s a s' Hs. unfold with_locals. destruct (m (s, l)) as [[b [s1 l1]]| |] eqn:E; [|done..].
  intros [= <- <-]. exact (Hm (s, l) _ _ Hs E).
Qed.

(** A loop that is only left when its condition fails. *)
Definition never {S} (_ : Z) (_ : S) : Prop := False.

#[local] Hint Resolve handles_bind handles_none : keeps.
#[local] Hint Extern 2 (handles _ _ (match ?x with _ => _ end)) => destruct x : keeps.

#[local] Instance logged_sleep {W} `{Sleep W} : Sleep (logged W) := {|
  sleep := λ n x, Logged (sleep n (inner x)) (log x) |}.

Section labs.
Context {W : Type} `{PortIO W} `{Interrupts W} `{Receive W} `{Video W} `{Panic W} `{Sleep W} `{XpmLoader}.

(** ** lab2 and lab3 *)
Definition lab_log (s : lab (logged W)) : list event := log (world s).
Definition lab_holding (l : list event) (k h : Z) (s : lab (logged W)) : Prop :=
  unlogged l (world s) ∧ kb_hook_id s = k ∧ hook_id s = h.

Lemma lab_holding_log l k h s : lab_holding l k h s → lab_log s = l.
Proof. by intros []. Qed.

Ltac run_logged :=
  intros s a s' (Hl & <- & <-); unfold unlogged in Hl; run_unfold; simpl; unfold lift_log.
Ltac answered_with x r :=
  destruct (Z.eqb_spec r 0); simpl; intros [= <- <-]; exists x, r; (split; [by split_and!|simpl; lia]).

Lemma lab_kb_subscribe_logs l k h : triple (lab_holding l k h) kb_subscribe (λ a s, ∃ k',
  logs lab_holding l (Subscribe KEYBOARD_IRQ (Z.lor IRQ_REENABLE IRQ_EXCLUSIVE) k k') k' h a.1 s).
Proof.
  unfold kb_subscribe, on_world, zoom, kb_subscribe_int. run_logged.
  destruct (sys_irqsetpolicy _ _ _ _) as [[r k'] w]. rewrite Hl. answered_with k' r.
Qed.

Lemma lab_timer_subscribe_logs l k h : triple (lab_holding l k h) timer_subscribe (λ a s, ∃ h',
  logs lab_holding l (Subscribe TIMER0_IRQ IRQ_REENABLE h h') k h' a.1 s).
Proof.
  unfold timer_subscribe, on_world, zoom, timer_subscribe_int. run_logged.
  destruct (sys_irqsetpolicy _ _ _ _) as [[r h'] w]. rewrite Hl. answered_with h' r.
Qed.

Lemma lab_kb_unsubscribe_logs l k h : triple (lab_holding l k h) kb_unsubscribe (λ rc s, ∃ k',
  logs lab_holding l (Unsubscribe k) k' h rc s).
Proof.
  unfold kb_unsubscribe, on_world, zoom, kb_unsubscribe_int. run_logged.
  destruct (sys_irqrmpolicy _ _) as [[r k'] w]. rewrite Hl. answered_with k' r.
Qed.

Lemma lab_timer_unsubscribe_logs l k h : triple (lab_holding l k h) timer_unsubscribe (λ rc s, ∃ h',
  logs lab_holding l (Unsubscribe h) k h' rc s).
Proof.
  unfold timer_unsubscribe, on_world, zoom, timer_unsubscribe_int. run_logged.
  destruct (sys_irqrmpolicy _ _) as [[r h'] w]. rewrite Hl. answered_with h' r.
Qed.

Section lab_frames.
Variables (l : list event) (k h : Z).
#[local] Abbreviation I := (lab_holding l k h).

Lemma lab_on_world_holds {A} (m : M (logged W) A) : keeps (unlogged l) m → keeps I (on_world m).
Proof. intros Hm. apply (keeps_zoom_part _ (unlogged l)); [by intros s []|by intros s x []|done]. Qed.
#[local] Hint Resolve lab_on_world_holds keeps_on_globals : keeps.

Lemma lab_receive_holds : keeps I (on_the_world (call driver_receive)).
Proof. exact (lab_on_world_holds _ (receive_quiet l)). Qed.

Lemma lab_receive_locals {L} : keeps (λ p : lab (logged W) * L, I p.1) (on_the_world (call driver_receive)).
Proof.
  apply (keeps_zoom_part _ (unlogged l)); [by intros s []|by intros s x []|apply receive_quiet].
Qed.
#[local] Hint Resolve lab_receive_holds lab_receive_locals : keeps.

Lemma read_scancode_holds : keeps I read_scancode.
Proof. unfold read_scancode. keeping. Qed.
#[local] Hint Resolve read_scancode_holds : keeps.

(** The bodies of the loops. *)
Lemma timer_loop_holds irq time fuel : handles I never (with_locals time
  (message_loop (λ p, p.2 >? 0) (timer_message irq) fuel)).
Proof.
  apply (handles_with_locals I never), handles_message_loop; [apply lab_receive_locals|]. intros m.
  unfold timer_message, tick, print. keeping.
Qed.

Lemma scan_loop_holds irq fuel : handles I never (message_loop not_esc (scan_message irq) fuel).
Proof.
  apply handles_message_loop; [apply lab_receive_holds|]. intros m.
  unfold scan_message, print_scancode, print. keeping.
Qed.

Lemma timed_loop_holds ik it n fuel : handles I never (with_locals 0
  (message_loop (λ p, not_esc p.1 && (p.2 <? n)) (timed_message ik it) fuel)).
Proof.
  apply (handles_with_locals I never), handles_message_loop; [apply lab_receive_locals|]. intros m.
  unfold timed_message, print_scancode, print, tick. keeping.
Qed.

Lemma wait_loop_holds irq fuel : handles I never (message_loop not_esc (wait_message irq) fuel).
Proof.
  apply handles_message_loop; [apply lab_receive_holds|]. intros m. unfold wait_message. keeping.
Qed.
End lab_frames.

(** The calls of each test; a call is given the code it returned. *)
Definition sub_kb (k : Z) : Z → event := Subscribe KEYBOARD_IRQ (Z.lor IRQ_REENABLE IRQ_EXCLUSIVE) 1 k.
Definition sub_timer (h : Z) : Z → event := Subscribe TIMER0_IRQ IRQ_REENABLE 0 h.
Definition sub_mouse (k : Z) : Z → event := Subscribe MOUSE_IRQ (Z.lor IRQ_REENABLE IRQ_EXCLUSIVE) 2 k.

Definition timer_int_calls (_k h : Z) : list (Z → event) := [sub_timer h; Unsubscribe h].
Definition scan_calls (k _h : Z) : list (Z → event) := [sub_kb k; Unsubscribe k].
Definition timed_scan_calls (k h : Z) : list (Z → event) :=
  [sub_kb k; sub_timer h; Unsubscribe k; Unsubscribe h].
Definition packet_calls (k _h : Z) : list (Z → event) := [sub_mouse k; Unsubscribe k].
Definition init_calls (_k _h : Z) : list (Z → event) := [Graphics; Text].
Definition video_calls (k _h : Z) : list (Z → event) := [Graphics; sub_kb k; Unsubscribe k; Text].
Definition move_calls (k h : Z) : list (Z → event) :=
  [sub_kb k; sub_timer h; Graphics; Text; Unsubscribe h; Unsubscribe k].

(** The promise as a postcondition. *)
Definition done_with (calls : Z → Z → list (Z → event)) (stops : list nat) (rc : Z)
    (s : lab (logged W)) : Prop := follows calls stops rc (lab_log s).

Lemma timer_test_int_follows fuel time :
  triple (lab_holding [] 1 0) (timer_test_int fuel time) (done_with timer_int_calls []).
Proof.
  unfold timer_test_int.
  apply (logged_subscribe lab_log lab_holding lab_holding_log (λ h, timer_int_calls 1 h) 0
    sub_timer (λ _, 1) (λ h, h)); [done|done|apply lab_timer_subscribe_logs|intros h s; apply follows_cut|].
  intros h irq. eapply triple_bind; [apply timer_loop_holds|intros [rc|]]; [by intros s a s'|].
  eapply (logged_step lab_log lab_holding lab_holding_log (λ _, timer_int_calls 1 h) 1 _ (λ _, 1) (λ h, h));
    [done|done|apply lab_timer_unsubscribe_logs|intros _ s; apply follows_cut|intros h'].
  apply triple_ret. intros s [Hl _]. by apply (follows_done _ _ 1 h).
Qed.

Lemma kbd_test_scan_follows fuel :
  triple (lab_holding [] 1 0) (kbd_test_scan fuel) (done_with scan_calls []).
Proof.
  unfold kbd_test_scan.
  apply (logged_subscribe lab_log lab_holding lab_holding_log (λ k, scan_calls k 0) 0
    sub_kb (λ k, k) (λ _, 0)); [done|done|apply lab_kb_subscribe_logs|intros k s; apply follows_cut|].
  intros k irq. eapply triple_bind; [apply scan_loop_holds|intros [rc|]]; [by intros s a s'|].
  eapply (logged_step lab_log lab_holding lab_holding_log (λ _, scan_calls k 0) 1 _ (λ k, k) (λ _, 0));
    [done|done|apply lab_kb_unsubscribe_logs|intros _ s; apply follows_cut|intros k'].
  apply triple_ret. intros s [Hl _]. by apply (follows_done _ _ k 0).
Qed.

Lemma kbd_test_timed_scan_follows fuel n :
  triple (lab_holding [] 1 0) (kbd_test_timed_scan fuel n) (done_with timed_scan_calls []).
Proof.
  unfold kbd_test_timed_scan.
  apply (logged_subscribe lab_log lab_holding lab_holding_log (λ k, timed_scan_calls k 0) 0
    sub_kb (λ k, k) (λ _, 0)); [done|done|apply lab_kb_subscribe_logs|intros k s; apply follows_cut|].
  intros k ik. apply (logged_subscribe lab_log lab_holding lab_holding_log (timed_scan_calls k) 1
    sub_timer (λ _, k) (λ h, h)); [done|done|apply lab_timer_subscribe_logs|intros h s; apply follows_cut|].
  intros h it. eapply triple_bind; [apply timed_loop_holds|intros [rc|]]; [by intros s a s'|].
  eapply (logged_step lab_log lab_holding lab_holding_log (λ _, timed_scan_calls k h) 2 _ (λ k, k) (λ _, h));
    [done|done|apply lab_kb_unsubscribe_logs|intros _ s; apply follows_cut|intros k'].
  eapply (logged_step lab_log lab_holding lab_holding_log (λ _, timed_scan_calls k h) 3 _ (λ _, k') (λ h, h));
    [done|done|apply lab_timer_unsubscribe_logs|intros _ s; apply follows_cut|intros h'].
  apply triple_ret. intros s [Hl _]. by apply (follows_done _ _ k h).
Qed.

(** ** lab4 *)
Definition mlab_log (s : mlab (logged W)) : list event := log (Lab4.world s).
Definition mlab_holding (l : list event) (k _h : Z) (s : mlab (logged W)) : Prop :=
  unlogged l (Lab4.world s) ∧ mouse_hookID s = k.

Lemma mlab_holding_log l k h s : mlab_holding l k h s → mlab_log s = l.
Proof. by intros []. Qed.

Lemma mouse_subscribe_logs l k h : triple (mlab_holding l k h) mouse_subscribe (λ a s, ∃ k',
  logs mlab_holding l (Subscribe MOUSE_IRQ (Z.lor IRQ_REENABLE IRQ_EXCLUSIVE) k k') k' h a.1 s).
Proof.
  unfold mouse_subscribe, Lab4.on_world, zoom, mouse_subscribe_int.
  intros s a s' (Hl & <-); unfold unlogged in Hl; run_unfold; simpl; unfold lift_log.
  destruct (sys_irqsetpolicy _ _ _ _) as [[r k'] w]. rewrite Hl. answered_with k' r.
Qed.

Lemma mouse_unsubscribe_logs l k h : triple (mlab_holding l k h) mouse_unsubscribe (λ rc s, ∃ k',
  logs mlab_holding l (Unsubscribe k) k' h rc s).
Proof.
  unfold mouse_unsubscribe, Lab4.on_world, zoom, mouse_unsubscribe_int.
  intros s a s' (Hl & <-); unfold unlogged in Hl; run_unfold; simpl; unfold lift_log.
  destruct (sys_irqrmpolicy _ _) as [[r k'] w]. rewrite Hl. answered_with k' r.
Qed.

Section mlab_frames.
Variables (l : list event) (k h : Z).
#[local] Abbreviation I := (mlab_holding l k h).

Lemma mlab_on_world_holds {A} (m : M (logged W) A) : keeps (unlogged l) m → keeps I (Lab4.on_world m).
Proof. intros Hm. apply (keeps_zoom_part _ (unlogged l)); [by intros s []|by intros s x []|done]. Qed.
#[local] Hint Resolve mlab_on_world_holds keeps_on_globals : keeps.

Lemma store_byte_holds : keeps I store_byte.
Proof. intros s a s' Hs. unfold store_byte. by destruct (_ && _); [intros [= _ <-]|]. Qed.
Lemma parse_and_print_holds : keeps I parse_and_print.
Proof.
  intros s a s' Hs. unfold parse_and_print.
  by destruct (mouse_parse_packet _ _ _) as [[p|]| |]; [intros [= _ <-]|..].
Qed.
#[local] Hint Resolve store_byte_holds parse_and_print_holds : keeps.

Lemma packet_loop_holds mask cnt fuel : handles I never
  (with_locals (0, 0) (message_loop (λ p, p.2.1 <? cnt) (packet_message mask) fuel)).
Proof.
  apply (handles_with_locals I never), handles_message_loop.
  - apply (keeps_zoom_part _ (unlogged l)); [by intros s []|by intros s x []|apply receive_quiet].
  - intros m. unfold packet_message, take_byte, read_data. keeping.
Qed.
End mlab_frames.

Lemma mouse_test_packet_follows tries fuel cnt :
  triple (mlab_holding [] 2 0) (mouse_test_packet tries fuel cnt)
    (λ rc s, follows packet_calls [0; 2]%nat rc (mlab_log s)).
Proof.
  unfold mouse_test_packet. apply triple_check.
  { apply mlab_on_world_holds, kbc_command_handler_quiet. }
  { intros s [Hl _]. apply (follows_stop _ _ 0 2 0); [by left|done]. }
  apply (logged_subscribe mlab_log mlab_holding mlab_holding_log (λ k, packet_calls k 0) 0
    sub_mouse (λ k, k) (λ _, 0)); [done|done|apply mouse_subscribe_logs|intros k s; apply follows_cut|].
  intros k mask. eapply triple_bind; [apply packet_loop_holds|intros [rc|]]; [by intros s a s'|].
  eapply (logged_step mlab_log mlab_holding mlab_holding_log (λ _, packet_calls k 0) 1 _ (λ k, k) (λ _, 0));
    [done|done|apply mouse_unsubscribe_logs|intros _ s; apply follows_cut|intros k'].
  apply triple_check.
  { apply mlab_on_world_holds, kbc_command_handler_quiet. }
  { intros s [Hl _]. apply (follows_stop _ _ 2 k 0); [by right; left|done]. }
  apply triple_ret. intros s [Hl _]. by apply (follows_done _ _ k 0).
Qed.

(** ** lab5 *)
Definition vlab_log (s : lab (logged W) * fb) : list event := lab_log s.1.
Definition vlab_holding (l : list event) (k h : Z) (s : lab (logged W) * fb) : Prop :=
  lab_holding l k h s.1.

Lemma vlab_holding_log l k h s : vlab_holding l k h s → vlab_log s = l.
Proof. apply lab_holding_log. Qed.

(** A call of the lab's drivers that is logged. *)
Lemma on_lab_logs {A X} l k h (m : M (lab (logged W)) A) (c : X → Z → event) k' h' (code : A → Z) :
  triple (lab_holding l k h) m (λ a s, ∃ x, logs lab_holding l (c x) (k' x) (h' x) (code a) s) →
  triple (vlab_holding l k h) (on_lab m) (λ a s, ∃ x, logs vlab_holding l (c x) (k' x) (h' x) (code a) s).
Proof. intros Hm. eapply (triple_zoom _ _ _ _ (lab_holding l k h)); [done| |exact Hm]. done. Qed.

Lemma vlab_set_mode_logs mode l k h :
  triple (vlab_holding l k h) (on_machine (set_graphical_mode mode))
    (λ rc s, ∃ _ : (), logs vlab_holding l Graphics k h rc s).
Proof.
  apply (on_lab_logs l k h _ (λ _ : (), Graphics) (λ _, k) (λ _, h) (λ rc, rc)).
  unfold on_world, zoom, set_graphical_mode. run_logged.
  destruct (sys_int86 _ _) as [r w]. rewrite Hl. answered_with tt r.
Qed.

Lemma vlab_exit_logs l k h : triple (vlab_holding l k h) (on_machine (call vg_exit))
  (λ rc s, ∃ _ : (), logs vlab_holding l Text k h rc s).
Proof.
  apply (on_lab_logs l k h _ (λ _ : (), Text) (λ _, k) (λ _, h) (λ rc, rc)).
  unfold on_world, zoom. run_logged.
  destruct (vg_exit _) as [r w]. rewrite Hl. answered_with tt r.
Qed.

Section vlab_frames.
Variables (l : list event) (k h : Z).
#[local] Abbreviation I := (vlab_holding l k h).

Lemma set_frame_buffer_holds mode : keeps I (on_world_fb (set_frame_buffer mode)).
Proof.
  apply (keeps_zoom_part _ (λ p, unlogged l p.1)); [by intros s []|by intros s p []|].
  intros [x g] a p Hx. unfold set_frame_buffer. simpl in *. unfold lift.
  repeat (case_match; simplify_eq/=); by intros [= _ <-].
Qed.

Lemma on_fb_holds {A} (m : M fb A) : keeps I (on_fb m).
Proof. by apply keeps_zoom. Qed.

Lemma on_machine_holds {A} (m : M (logged W) A) : keeps (unlogged l) m → keeps I (on_machine m).
Proof. intros Hm. by apply (keeps_on_globals (lab_holding l k h)), lab_on_world_holds. Qed.
End vlab_frames.
#[local] Hint Resolve set_frame_buffer_holds on_fb_holds : keeps.

Definition vdone_with (calls : Z → Z → list (Z → event)) (stops : list nat) (rc : Z)
    (s : lab (logged W) * fb) : Prop := follows calls stops rc (vlab_log s).

Lemma video_test_init_follows mode delay :
  triple (vlab_holding [] 1 0) (video_test_init mode delay) (vdone_with init_calls []).
Proof.
  unfold video_test_init.
  apply (logged_step vlab_log vlab_holding vlab_holding_log (λ _ : (), init_calls 1 0) 0
    (λ _, Graphics) (λ _, 1) (λ _, 0)); [done|done|apply vlab_set_mode_logs|intros _ s; apply follows_cut|].
  intros _. apply triple_seq; [by apply on_machine_holds, keeps_modify|intros _].
  apply (logged_step vlab_log vlab_holding vlab_holding_log (λ _ : (), init_calls 1 0) 1
    (λ _, Text) (λ _, 1) (λ _, 0)); [done|done|apply vlab_exit_logs|intros _ s; apply follows_cut|].
  intros _. apply triple_ret. intros s [Hl _]. by apply (follows_done _ _ 1 0).
Qed.

(** The beginning and the end that the drawing tests share. *)
Lemma start_video_follows mode l n calls stops k h k0 h0 (next : M (lab (logged W) * fb) Z) :
  calls k h !! n = Some Graphics → l = all_good (take n (calls k h)) → n ∈ stops →
  triple (vlab_holding (all_good (take (S n) (calls k h))) k0 h0) next (vdone_with calls stops) →
  triple (vlab_holding l k0 h0) (start_video mode next) (vdone_with calls stops).
Proof.
  intros Hn Hl Hst Hnext. unfold start_video. apply triple_check; [apply set_frame_buffer_holds|..].
  { intros s [Hs _]. apply (follows_stop _ _ n k h); [done|]. by rewrite <- Hl. }
  apply (logged_step vlab_log vlab_holding vlab_holding_log (λ _ : (), calls k h) n
    (λ _, Graphics) (λ _, k0) (λ _, h0)); [done|done|apply vlab_set_mode_logs|intros _ s; apply follows_cut|].
  by intros _.
Qed.

Lemma waiting_ESC_follows fuel : triple (lab_holding [Graphics 0] 1 0) (waiting_ESC fuel) (λ rc s, ∃ k,
  (rc = 0 → ∃ k', lab_holding (all_good (take 3 (video_calls k 0))) k' 0 s) ∧
  (rc ≠ 0 → cut_short (video_calls k 0) (lab_log s))).
Proof.
  unfold waiting_ESC.
  assert (∀ k s, cut_short (video_calls k 0) (lab_log s) → ∃ k,
    (1 = 0 → ∃ k', lab_holding (all_good (take 3 (video_calls k 0))) k' 0 s) ∧
    (1 ≠ 0 → cut_short (video_calls k 0) (lab_log s))) as Hcut by (intros k s Hc; by exists k).
  apply (logged_subscribe lab_log lab_holding lab_holding_log (λ k, video_calls k 0) 1
    sub_kb (λ k, k) (λ _, 0)); [done|done|apply lab_kb_subscribe_logs|exact Hcut|].
  intros k irq. eapply triple_bind; [apply wait_loop_holds|intros [rc|]]; [by intros s a s'|].
  eapply (logged_step lab_log lab_holding lab_holding_log (λ _, video_calls k 0) 2 _ (λ k, k) (λ _, 0));
    [done|done|apply lab_kb_unsubscribe_logs|intros _; apply Hcut|intros k'].
  apply triple_ret. intros s Hs. exists k. split; [|done]. intros _. by exists k'.
Qed.

Lemma finish_video_follows fuel :
  triple (vlab_holding [Graphics 0] 1 0) (finish_video fuel) (vdone_with video_calls [0; 1]%nat).
Proof.
  unfold finish_video. eapply (triple_step _ (λ s, ∃ k k', vlab_holding (all_good (take 3 (video_calls k 0))) k' 0 s)).
  { eapply (triple_zoom _ _ _ _ (lab_holding [Graphics 0] 1 0)); [done| |apply waiting_ESC_follows].
    intros s rc t _ (k & Hgood & Hcut). split; [intros Hrc; destruct (Hgood Hrc) as [k' ?]; by exists k, k'|].
    intros Hrc. by apply (follows_cut _ _ k 0), Hcut. }
  apply triple_exists. intros k. apply triple_exists. intros k'.
  apply (logged_step vlab_log vlab_holding vlab_holding_log (λ _ : (), video_calls k 0) 3
    (λ _, Text) (λ _, k') (λ _, 0)); [done|done|apply vlab_exit_logs|intros _ s; apply follows_cut|].
  intros _. apply triple_ret. intros s [Hl _]. by apply (follows_done _ _ k 0).
Qed.

(** A test that draws with [d]. *)
Lemma drawing_test_follows mode fuel (d : M fb Z) :
  triple (vlab_holding [] 1 0) (start_video mode (on_fb d ;? finish_video fuel))
    (vdone_with video_calls [0; 1]%nat).
Proof.
  apply (start_video_follows mode [] 0 video_calls [0; 1]%nat 0 0); [done|done|by left|].
  apply triple_check; [apply on_fb_holds| |apply finish_video_follows].
  intros s [Hs _]. by apply (follows_stop _ _ 1 0 0); [right; left|].
Qed.

Lemma video_test_rectangle_follows fuel mode x y width height color :
  triple (vlab_holding [] 1 0) (video_test_rectangle fuel mode x y width height color)
    (vdone_with video_calls [0; 1]%nat).
Proof.
  apply (start_video_follows mode [] 0 video_calls [0; 1]%nat 0 0); [done|done|by left|].
  apply triple_seq; [apply on_fb_holds|intros c].
  apply triple_check; [apply on_fb_holds| |apply finish_video_follows].
  intros s [Hs _]. by apply (follows_stop _ _ 1 0 0); [right; left|].
Qed.

(** The loop of video_test_move can be left by a pixmap that is not on the screen. *)
Lemma move_loop_holds ik it horizontal m xf yf xi yi speed fuel l k h :
  handles (vlab_holding l k h) (λ rc s, rc = 1 ∧ vlab_holding l k h s)
    (with_locals (xi, yi) (message_loop (moving xf yf) (move_message ik it horizontal m xf yf speed) fuel)).
Proof.
  set (Q := λ (rc : Z) (p : lab (logged W) * fb * (Z * Z)), rc = 1 ∧ vlab_holding l k h p.1).
  apply (handles_with_locals (vlab_holding l k h) (λ rc s, rc = 1 ∧ vlab_holding l k h s)).
  apply handles_message_loop.
  { apply (keeps_zoom_part _ (unlogged l)); [by intros s []|by intros s x []|apply receive_quiet]. }
  intros msg. unfold move_message. destruct (from_hardware msg); [|by apply handles_none].
  apply handles_bind.
  { destruct (irq_pending msg ik); [|apply keeps_skip].
    by apply (keeps_on_globals (vlab_holding l k h)), (keeps_on_globals (lab_holding l k h)), read_scancode_holds. }
  intros _. destruct (irq_pending msg it); [|by apply handles_none].
  apply handles_bind; [destruct horizontal; by apply keeps_modify|intros _].
  apply handles_bind; [apply keeps_gets|intros [x y]].
  apply handles_bind; [by apply (keeps_on_globals (vlab_holding l k h)), on_fb_holds|intros rc].
  destruct (negb (rc =? 0)); [by apply triple_ret|apply handles_none].
Qed.

Lemma video_test_move_follows fuel m xi yi xf yf speed fr_rate :
  triple (vlab_holding [] 1 0) (video_test_move fuel m xi yi xf yf speed fr_rate)
    (vdone_with move_calls [0; 2; 3]%nat).
Proof.
  assert (∀ n k h k0 h0 s, n ∈ [0; 2; 3]%nat → vlab_holding (all_good (take n (move_calls k h))) k0 h0 s →
    vdone_with move_calls [0; 2; 3]%nat 1 s) as Hstop.
  { intros n k h k0 h0 s Hn [Hs _]. by apply (follows_stop _ _ n k h). }
  unfold video_test_move. destruct (direction xi yi xf yf) as [horizontal|].
  2: { apply triple_ret. intros s. apply (Hstop 0%nat 0 0). by left. }
  apply (logged_subscribe vlab_log vlab_holding vlab_holding_log (λ k, move_calls k 0) 0
    sub_kb (λ k, k) (λ _, 0)); [done|done| |intros k s; apply follows_cut|].
  { eapply on_lab_logs, lab_kb_subscribe_logs. }
  intros k ik. apply (logged_subscribe vlab_log vlab_holding vlab_holding_log (move_calls k) 1
    sub_timer (λ _, k) (λ h, h)); [done|done| |intros h s; apply follows_cut|].
  { eapply on_lab_logs, lab_timer_subscribe_logs. }
  intros h it. apply (start_video_follows _ _ 2 move_calls _ k h); [done|done|by right; left|].
  assert (3%nat ∈ [0; 2; 3]%nat) as Hthree by (by right; right; left).
  apply triple_check; [apply on_machine_holds, timer_set_frequency_quiet|intros s; by apply (Hstop 3%nat k h)|].
  apply triple_check; [apply on_fb_holds|intros s; by apply (Hstop 3%nat k h)|].
  eapply triple_bind; [apply move_loop_holds|intros [rc|]].
  { apply triple_ret. intros s [-> Hs]. by apply (Hstop 3%nat k h k h). }
  apply (logged_step vlab_log vlab_holding vlab_holding_log (λ _ : (), move_calls k h) 3
    (λ _, Text) (λ _, k) (λ _, h)); [done|done|apply vlab_exit_logs|intros _ s; apply follows_cut|intros _].
  eapply (logged_step vlab_log vlab_holding vlab_holding_log (λ _, move_calls k h) 4 _ (λ _, k) (λ h, h));
    [done|done|eapply on_lab_logs, lab_timer_unsubscribe_logs|intros _ s; apply follows_cut|intros h'].
  eapply (logged_step vlab_log vlab_holding vlab_holding_log (λ _, move_calls k h) 5 _ (λ k, k) (λ _, h'));
    [done|done|eapply on_lab_logs, lab_kb_unsubscribe_logs|intros _ s; apply follows_cut|intros k'].
  apply triple_ret. intros s [Hl _]. by apply (follows_done _ _ k h).
Qed.
End labs.

(** ** Properties *)

(** Every run of [m] from [s] that returns has kept the promise. *)
Definition gives_back {S} (log_of : S → list event) (m : M S Z) (s : S)
    (calls : Z → Z → list (Z → event)) (stops : list nat) : Prop :=
  ∀ rc s', m s = Done (rc, s') → accounted calls stops rc (log_of s').

Lemma triple_gives_back {S} (P : S → Prop) log_of (m : M S Z) s calls stops :
  triple P m (λ rc s, follows calls stops rc (log_of s)) → balanced calls → P s →
  gives_back log_of m s calls stops.
Proof. intros Hm Hb Hs rc s' Hr. apply follows_accounted; [done|]. by eapply Hm. Qed.

(** C31. The test programs of the laboratories give back what they took.  On any machine each of
    them makes its subscriptions and mode changes in the order of its list of calls, and when it
    returns 0 it has made them all: every subscription was ended by the hook it was given, the
    graphics mode was left, and nothing is still taken.  With any other code it stopped at the call
    that failed, or where the list of stops says that a drawing, a device or an argument can fail. *)
Theorem lab_tests_give_back {W} `{PortIO W} `{Interrupts W} `{Receive W} `{Video W} `{Panic W}
    `{Sleep W} `{XpmLoader} (w : W) g fuel tries time n cnt mode delay x y width height color no first step
    m xi yi xf yf speed fr_rate :
  let s := lab_start (Logged w []) in
  gives_back lab_log (timer_test_int fuel time) s timer_int_calls [] ∧
  gives_back lab_log (kbd_test_scan fuel) s scan_calls [] ∧
  gives_back lab_log (kbd_test_timed_scan fuel n) s timed_scan_calls [] ∧
  gives_back mlab_log (mouse_test_packet tries fuel cnt) (mlab_start (Logged w [])) packet_calls [0; 2]%nat ∧
  gives_back vlab_log (video_test_init mode delay) (s, g) init_calls [] ∧
  gives_back vlab_log (video_test_rectangle fuel mode x y width height color) (s, g) video_calls [0; 1]%nat ∧
  gives_back vlab_log (video_test_pattern fuel mode no first step) (s, g) video_calls [0; 1]%nat ∧
  gives_back vlab_log (video_test_xpm fuel m x y) (s, g) video_calls [0; 1]%nat ∧
  gives_back vlab_log (video_test_move fuel m xi yi xf yf speed fr_rate) (s, g) move_calls [0; 2; 3]%nat.
Proof.
  intros s. assert (lab_holding [] 1 0 s) as Hs by by split_and!.
  assert (vlab_holding [] 1 0 (s, g)) as Hv by exact Hs.
  assert (mlab_holding [] 2 0 (mlab_start (Logged w []))) as Hm by by split_and!.
  split_and!.
  - by eapply triple_gives_back; [apply timer_test_int_follows|prove_balanced|].
  - by eapply triple_gives_back; [apply kbd_test_scan_follows|prove_balanced|].
  - by eapply triple_gives_back; [apply kbd_test_timed_scan_follows|prove_balanced|].
  - by eapply triple_gives_back; [apply mouse_test_packet_follows|prove_balanced|].
  - by eapply triple_gives_back; [apply video_test_init_follows|prove_balanced|].
  - by eapply triple_gives_back; [apply video_test_rectangle_follows|prove_balanced|].
  - by eapply triple_gives_back; [apply drawing_test_follows|prove_balanced|].
  - by eapply triple_gives_back; [apply drawing_test_follows|prove_balanced|].
  - by eapply triple_gives_back; [apply video_test_move_follows|prove_balanced|].
Qed.

(** What the failures leave taken: the keyboard, when the timer's subscription is refused in
    kbd_test_timed_scan; both subscriptions and the graphics mode, when video_test_move stops at a
    drawing. *)
Lemma timed_scan_leaves_keyboard k h rc : rc ≠ 0 →
  still_taken (all_good (take 1 (timed_scan_calls k h)) ++ [sub_timer h rc]) = (false, [k]).
Proof. intros Hrc. by destruct rc. Qed.

Lemma move_leaves_all k h : still_taken (all_good (take 3 (move_calls k h))) = (true, [k; h]).
Proof. done. Qed.

(** ** An example *)
Section example.
Import Sim.

(** A run of kbd_test_scan: one interrupt, with ESC's break code. *)
Example scan_log :
  (λ o, match o with Done (rc, s) => Some (rc, lab_log s) | _ => None end)
    (kbd_test_scan 3 (lab_start (Logged
       (MkSim [1; KB_BREAK_ESC] [] 0 [] [hw_message 2] [] tiny_mode) []))) =
  Some (0, [sub_kb 1 0; Unsubscribe 1 0]).
Proof. vm_compute. reflexivity. Qed.
End example.
